(* ===== verification/_CoqProject ===== *)
-Q . S2P
Prelude.v
GoMemory.v
GoStd.v
Json.v
K8sTypes.v
Concrete.v
Constants.v
PolicyTypes.v
PolicyValidation.v
PolicyServerTypes.v
PolicyWebhook.v
KubeClient.v
FakeCluster.v
PolicyServerWebhook.v
ConfigMap.v
Resources.v
Deployment.v
Certs.v
CertController.v
PolicyServerController.v
Metrics.v
PolicySubReconciler.v
PolicyReconcile.v
PolicyWatches.v
Lifecycle.v
Stability.v
PolicyStability.v
CertStability.v
System.v
FeatureGates.v
Main.v
Factories.v
V1alpha2.v
DeepCopy.v
