(* ===== verification/Prelude.v ===== *)
(** * Verification of the Kubewarden controller

    The controller runs policies written in WebAssembly as admission webhooks
    of a Kubernetes cluster. Users create policies (four kinds: namespaced or
    cluster-wide, single or group) bound to policy servers. For each policy
    server the controller keeps a Secret with its certificate, a ConfigMap
    with the configuration of its policies, a Deployment, a Service and a
    disruption budget; for each policy, a validating or mutating webhook
    configuration that points the API server at that policy server; and for
    all of them one CA, rotated in time. This library models that program in
    Rocq and proves what makes it correct.

    ** How the model reads

    A Go function becomes a definition of the same name; a method of a type
    with several namesakes carries the type as a prefix
    ([AdmissionPolicyReconciler_Reconcile]). Structs are records, interfaces
    ([Policy], [PolicyGroup]) type classes with an instance per kind, interface
    values sums ([AnyPolicy], [AnyObject]). A call ends in an [Outcome]: a
    value, a returned error, a panic or the end of the process; a handler is a
    computation in [M World], a state monad over the cluster whose state
    survives an error. A handler that edits an object through a pointer runs on
    the pair of the world and its local copy ([with_local], [set_local],
    [update_local]), so that what is written back, and what is not, shows.
    Ranging over a Go map takes its order from [MapRange], and theorems hold
    for every order. Integers are [Z]; the one conversion to 32 bits that can
    fail is [ParseInt32]. Times are nanoseconds, but those the API server
    stores in a condition, which are seconds. Objects are values; the memory
    they share in Go shows only in [GoMemory] and [DeepCopy].

    ** Files

    - [Prelude]: errors, outcomes, the monad, [within] (a relation every run
      keeps) and [ends] (a postcondition of every outcome), the tactics
      [inv_run] and [inv_local] that decompose a successful run, and
      [solve_within]; the hint databases [go], [go_local].
    - [GoStd], [Json]: the parts of the Go standard library the sources use,
      on bytes: [strings], [strconv], [regexp], [filepath], [encoding/json].
    - [K8sTypes], [Concrete]: the data of the Kubernetes API, the library
      functions on it as the class [K8sUtil] with laws, and an instance.
    - [Constants]: internal/constants.
    - [PolicyTypes], [PolicyServerTypes]: api/policies/v1, the types.
    - [PolicyValidation], [PolicyWebhook], [PolicyServerWebhook]: the
      admission webhooks, policy_validation.go, policygroup_validation.go and
      *_webhook.go. CEL is the parameter [CelCompiler].
    - [KubeClient], [FakeCluster]: the API server as the class [KubeClient] with
      the laws [KubeClientLaws], and an in-memory cluster that satisfies them,
      with injected failures, on which witnesses are evaluated.
    - [ConfigMap], [Resources], [Deployment]: what the policy server controller
      builds, policyserver_controller_{configmap,service,pdb,deployment}.go.
    - [Certs], [CertController]: internal/certs and cert_controller.go, over
      symbolic X.509 (a signature is the key that made it).
    - [PolicyServerController]: policyserver_controller.go and
      policyserver_controller_cert_secret.go.
    - [PolicySubReconciler]: policy_subreconciler.go,
      policy_subreconciler_webhook.go and the four policy controllers;
      [PolicyReconcile] and [PolicyWatches] hold the theorems about them.
    - [Metrics], [FeatureGates], [Main]: internal/metrics,
      internal/featuregates and cmd/main.go with every SetupWithManager.
    - [Lifecycle], [System]: theorems about the controllers together.
    - [Stability], [PolicyStability], [CertStability]: what the controllers do
      when they run again with nothing to do.
    - [GoMemory], [DeepCopy]: Go values over a heap of variables, arrays and
      maps, and the generated functions of zz_generated.deepcopy.go.
    - [Factories], [V1alpha2]: the builders of the tests, and the deprecated
      version of the API.

    ** What the theorems show

    Admission: exactly which rules, match conditions, groups, policies, updates
    and policy servers are admitted ([validateRulesField_accepts],
    [validateMatchConditions_accepts], [policy_ValidateCreate_admits],
    [policy_ValidateUpdate_admits], [policyServer_validate_accepts]); along any
    accepted updates a policy keeps its server and its protect mode
    ([updates_keep_server_and_protect]); defaulting sets the server and the
    finalizer and leaves every other field as it was ([policy_Default_spec]).

    Policy servers: the policies a server is configured with are those bound
    to it, of the kinds whose list succeeds ([getPolicies_complete]); the
    configuration of policies a server can evaluate is read back as it was
    written ([configmap_round_trip]); the Deployment is well formed whatever
    features are on ([updatePolicyServerDeployment_wf]); a successful
    reconciliation leaves every resource in place ([PolicyServer_Reconcile_ok]);
    a server being deleted waits for the policies its lists find, whatever the
    outcome of the run ([deleted_server_waits]).

    Policies: what a reconciliation leaves of a policy when it could be made
    active and when it could not ([policy_reconcile_activates],
    [isPolicyUniquelyReachable_iff]); a deleted policy keeps its finalizers
    until its webhook is gone, on every outcome
    ([policy_deletion_removes_webhook]); the mode it reports is that of its
    entry in the configuration of its server, and so that of its spec
    ([policy_reconcile_mode]); its webhook applies where it should
    ([namespaceSelector_scope]); the watches enqueue the right policies
    ([pod_watch_complete], [webhook_watch_round_trip]).

    The life of a policy: [Lifecycle.lifecycle] is the state machine the API
    documents, and the reconciliation refines it on every outcome
    ([reconcile_refines_lifecycle]); under any interleaving of all controllers
    an active policy was enforced when it became so ([active_was_enforced]).

    Certificates: what is generated verifies ([generated_chain_verifies]), what
    verifies is trusted ([VerifyCert_sound]), and a reconciliation leaves every
    certificate valid for sixty days ([certReconciler_reconcile_spec]).

    Rest: a policy server that was reconciled, and certificates that are not
    due, are left alone by the next run ([server_reconcile_settles],
    [certificates_rest]); a policy is not ([policy_rerun_restamps]). The laws
    behind this, [QuietLaws], say that the API server changes nothing when it
    is asked for what it stores.

    Copies: the controllers change copies of what they read, and the generated
    copies of all types share no memory with their originals
    ([DeepCopy_independent]).

    Together: a webhook trusts the certificate its server presents
    ([webhook_trusts_server]); a policy server being deleted goes away in three
    runs ([server_deletion_completes]); a policy bound to a server becomes
    active ([bound_policy_becomes_active]); the manager starts only when all is
    registered, and what is registered closes the loops these theorems run
    through ([main_starts_complete], [wiring_closes_loops]).

    Flaws: theorems named after a failure say when the code goes wrong, for
    every cluster or state of that kind, and their witnesses run such a case.
    Webhooks are left behind ([stale_webhook_after_mutating_change]); failed
    lists are taken for empty ones ([failed_list_drops_policies]); the CA
    bundle of a rotation is lost ([interrupted_rotation_loses_trust],
    [rotation_bundle_overwritten]); configurations are unreadable or collide
    ([configmap_poisoned], [unique_names_collide]); a sensitive API group is
    ignored ([sensitive_group_accepted]); a CA secret makes the controller
    panic ([malformed_ca_panics]); a panic exits with success
    ([panic_exits_zero]); and the condition of an active policy is stamped
    again by every run ([policy_rerun_restamps]; [active_condition_flaps] is
    such a run). Single runs show conditions that are never stored
    ([false_condition_not_stored]) and label selectors that are ignored
    ([match_labels_ignored]).

    ** Parameters and their laws

    Code outside the repository is a class: [K8sUtil] (controllerutil,
    apimachinery), [ExternalTypes] (the fields and deep copies of its types),
    [KubeClient] (the API server), [Environment] (clock,
    randomness, environment variables), [CelCompiler], [Meter] and [Exporter]
    (OpenTelemetry), [Retry] (client-go), [OpenAPIClient], [ControllerRuntime],
    [TestEnvironment] and [Conversion]. Laws are separate classes, stated for
    every world, each with a concrete instance that satisfies it; a theorem
    that uses them has a witness that runs on that instance.

    ** Bounds and fuel

    Recursion is structural wherever the source loops over a slice. Fuel is
    used in [TrimSpace] (the length of the string: each cut removes a byte) and
    in the JSON parser (the length of the text; [Json] proves that this is
    enough for everything [Marshal] prints). [Start_ticks] runs the endless
    loop of the certificate controller for a given number of ticks.

    ** Not modelled

    Logging. The registration of the types with the scheme. The informer
    caches: reads see the cluster as it is, so races between a stale cache and
    the API server are outside; the [rt_Start] of controller-runtime, its work
    queues and leader election. Field-level encodings of Kubernetes objects
    the controller only hands to the client.

    ** Plan

    Stale reads in the client interface; the retries of requeued requests as
    steps of [Lifecycle.step], for liveness without an assumed rollout. *)

From stdpp Require Export base tactics gmap sets list strings pretty fin_maps.
From Stdlib Require Export ZArith Lia.

#[export] Set Default Goal Selector "!".
#[export] Set Warnings "-clear-no-such-hyp".

(** ** Go errors *)

(** Path of a field inside an object ([field.Path]). *)
Inductive PathElem : Type :=
| PName (name : string)
| PIndex (i : nat).

Abbreviation FieldPath := (list PathElem).

(** [field.NewPath], [Path.Child] and [Path.Index]. *)
Definition NewPath (names : list string) : FieldPath := PName <$> names.
Definition Child (p : FieldPath) (name : string) : FieldPath := p ++ [PName name].
Definition Index (p : FieldPath) (i : nat) : FieldPath := p ++ [PIndex i].

(** Go's [error] values: [errors.New] and unwrapped [fmt.Errorf], wrapping with
    [%w], [errors.Join], an API status error, and the field errors the
    validators build. *)
Inductive FieldError : Type :=
| FRequired (path : FieldPath) (detail : string)
| FForbidden (path : FieldPath) (detail : string)
| FInvalid (path : FieldPath) (bad detail : string)
| FTooMany (path : FieldPath) (actual maximum : nat)
| FDuplicate (path : FieldPath) (bad : string)
| FInternal (path : FieldPath) (err : GoError)
with GoError : Type :=
| ErrNew (msg : string)
| ErrWrap (msg : string) (inner : GoError)
| ErrJoin (errs : list GoError)
| ErrStatus (reason msg : string)
| ErrInvalid (kind name : string) (errs : list FieldError).

Abbreviation ErrorList := (list FieldError).

(** ** Outcomes and the effect monad *)

(** What a Go call can end in: a value, a returned error, a panic, or the
    process terminated by [os.Exit]. *)
Inductive Outcome (A : Type) : Type :=
| Ok (a : A)
| Err (e : GoError)
| Panic (why : string)
| Exit (code : Z).
Arguments Ok {A} a.
Arguments Err {A} e.
Arguments Panic {A} why.
Arguments Exit {A} code.

Definition outcome_bind {A B} (o : Outcome A) (f : A → Outcome B) : Outcome B :=
  match o with
  | Ok a => f a
  | Err e => Err e
  | Panic w => Panic w
  | Exit c => Exit c
  end.

#[export] Instance Outcome_ret : MRet Outcome := λ A a, Ok a.
#[export] Instance Outcome_bind : MBind Outcome := λ A B f o, outcome_bind o f.

(** A stateful computation. The state survives an error, as the objects a Go
    function mutated through its pointers do. *)
Definition M (S A : Type) : Type := S → Outcome A * S.

Definition M_bind {S A B} (m : M S A) (f : A → M S B) : M S B := λ s,
  match m s with
  | (Ok a, s') => f a s'
  | (Err e, s') => (Err e, s')
  | (Panic w, s') => (Panic w, s')
  | (Exit c, s') => (Exit c, s')
  end.

#[export] Instance M_mret S : MRet (M S) := λ A a s, (Ok a, s).
#[export] Instance M_mbind S : MBind (M S) := λ A B f m, M_bind m f.

Declare Scope go_scope.
Delimit Scope go_scope with go.

(** Raising an error ([return err]), a panic, reading and writing the state. *)
Definition fail {S A} (e : GoError) : M S A := λ s, (Err e, s).
Definition lift_outcome {S A} (o : Outcome A) : M S A := λ s, (o, s).
Definition gets {S A} (f : S → A) : M S A := λ s, (Ok (f s), s).
Definition modify {S} (f : S → S) : M S unit := λ s, (Ok tt, f s).

(** [v, err := f()] with the error inspected by the caller: panics and exits
    are not catchable. *)
Definition try {S A} (m : M S A) : M S (GoError + A) := λ s,
  match m s with
  | (Ok a, s') => (Ok (inr a), s')
  | (Err e, s') => (Ok (inl e), s')
  | (Panic w, s') => (Panic w, s')
  | (Exit c, s') => (Exit c, s')
  end.

(** [if err != nil { return wrap(err) }]. *)
Definition wrap_err {S A} (g : GoError → GoError) (m : M S A) : M S A := λ s,
  match m s with
  | (Err e, s') => (Err (g e), s')
  | r => r
  end.

(** A function that works on a local copy of an object runs on the pair of the
    world and that copy: a step that reads the copy, one that edits it, and one
    that replaces it by what a call wrote through the pointer. *)
Definition with_local {S T A} (f : T → M S A) : M (S * T) A := λ '(s, t),
  let '(o, s') := f t s in (o, (s', t)).
Definition set_local {S T} (f : T → T) : M (S * T) unit := modify (λ '(s, t), (s, f t)).
Definition update_local {S T} (f : T → M S T) : M (S * T) unit := λ '(s, t),
  match f t s with
  | (Ok t', s') => (Ok tt, (s', t'))
  | (Err e, s') => (Err e, (s', t))
  | (Panic w, s') => (Panic w, (s', t))
  | (Exit c, s') => (Exit c, (s', t))
  end.

(** [for _, x := range l { f(x) }], stopping at the first returned error. *)
Fixpoint mfor {S A} (f : A → M S unit) (l : list A) : M S unit :=
  match l with
  | [] => mret tt
  | x :: l => f x ;; mfor f l
  end.

(** *** Inversion of successful runs *)

Section monad_lemmas.
Context {S : Type}.
Implicit Types s : S.

Lemma bind_Ok_inv {A B} (m : M S A) (f : A → M S B) s b s' :
  (m ≫= f) s = (Ok b, s') ↔ ∃ a s1, m s = (Ok a, s1) ∧ f a s1 = (Ok b, s').
Proof.
  unfold mbind, M_mbind, M_bind. split.
  - destruct (m s) as [[a|e|w|c] s1]; intros; simplify_eq; eauto.
  - by intros (a & s1 & -> & ?).
Qed.

Lemma ret_Ok_inv {A} (a b : A) s s' :
  (mret a : M S A) s = (Ok b, s') ↔ b = a ∧ s' = s.
Proof. unfold mret, M_mret. naive_solver. Qed.

Lemma fail_Ok_inv {A} e (b : A) s s' : (fail e : M S A) s = (Ok b, s') ↔ False.
Proof. unfold fail. naive_solver. Qed.

Lemma gets_Ok_inv {A} (f : S → A) b s s' :
  gets f s = (Ok b, s') ↔ b = f s ∧ s' = s.
Proof. unfold gets. naive_solver. Qed.

Lemma modify_Ok_inv (f : S → S) u s s' :
  modify f s = (Ok u, s') ↔ s' = f s.
Proof. unfold modify. destruct u. naive_solver. Qed.

Lemma lift_outcome_Ok_inv {A} (o : Outcome A) b s s' :
  lift_outcome o s = (Ok b, s') ↔ o = Ok b ∧ s' = s.
Proof. unfold lift_outcome. naive_solver. Qed.

Lemma try_Ok_inv {A} (m : M S A) r s s' :
  try m s = (Ok r, s') ↔
  match r with inr a => m s = (Ok a, s') | inl e => m s = (Err e, s') end.
Proof.
  unfold try. destruct (m s) as [[a|e|w|c] s1], r; naive_solver.
Qed.

Lemma wrap_err_Ok_inv {A} g (m : M S A) b s s' :
  wrap_err g m s = (Ok b, s') ↔ m s = (Ok b, s').
Proof. unfold wrap_err. destruct (m s) as [[a|e|w|c] s1]; naive_solver. Qed.

Lemma with_local_Ok {T A} (f : T → M S A) s (t : T) a st :
  with_local f (s, t) = (Ok a, st) ↔ ∃ s', f t s = (Ok a, s') ∧ st = (s', t).
Proof. unfold with_local. destruct (f t s). naive_solver. Qed.

Lemma with_local_Err {T A} (f : T → M S A) s (t : T) e st :
  with_local f (s, t) = (Err e, st) ↔ ∃ s', f t s = (Err e, s') ∧ st = (s', t).
Proof. unfold with_local. destruct (f t s). naive_solver. Qed.

Lemma set_local_Ok {T} (f : T → T) s (t : T) u st :
  set_local f (s, t) = (Ok u, st) ↔ st = (s, f t).
Proof. unfold set_local, modify. destruct u. naive_solver. Qed.

Lemma update_local_Ok {T} (f : T → M S T) s (t : T) u st :
  update_local f (s, t) = (Ok u, st) ↔ ∃ s' t', f t s = (Ok t', s') ∧ st = (s', t').
Proof. unfold update_local. destruct u, (f t s) as [[]]; naive_solver. Qed.

(** A run whose outcome is known. *)
Lemma run_fst {A} (m : M S A) s (a : A) : fst (m s) = Ok a → m s = (Ok a, snd (m s)).
Proof. destruct (m s). by intros [= ->]. Qed.

(** A loop that succeeds preserves what each iteration preserves. *)
Lemma mfor_preserves {A} (P : S → Prop) (f : A → M S unit) l s o s' :
  (∀ x s1 o1 s2, x ∈ l → P s1 → f x s1 = (o1, s2) → P s2) →
  P s → mfor f l s = (o, s') → P s'.
Proof.
  revert s. induction l as [|x l IH]; simpl; intros s Hstep HP.
  - unfold mret, M_mret. naive_solver.
  - unfold mbind, M_mbind, M_bind.
    destruct (f x s) as [[a|e|w|c] s1] eqn:Hf; intros Hrun; simplify_eq;
      try (eapply Hstep; [apply list_elem_of_here| |]; done).
    eapply IH; [|eapply Hstep; [apply list_elem_of_here| |]; done|done].
    intros; eapply Hstep; [by apply list_elem_of_further| |]; done.
Qed.
End monad_lemmas.

(** *** Relations kept by a computation

    [within R m]: every run of [m], whatever its outcome, relates its start to
    its end by [R]. *)
Definition within {S A} (R : relation S) (m : M S A) : Prop := ∀ s, R s (snd (m s)).

Section within.
Context {S : Type} (R : relation S) `{!PreOrder R}.

Lemma within_ret {A} (a : A) : within R (mret a).
Proof. by intros s. Qed.
Lemma within_fail {A} e : within R (fail e : M S A).
Proof. by intros s. Qed.
Lemma within_lift {A} (o : Outcome A) : within R (lift_outcome o).
Proof. by intros s. Qed.
Lemma within_gets {A} (f : S → A) : within R (gets f).
Proof. by intros s. Qed.
Lemma within_bind {A B} (m : M S A) (f : A → M S B) :
  within R m → (∀ a, within R (f a)) → within R (m ≫= f).
Proof.
  intros Hm Hf s. specialize (Hm s). unfold mbind, M_mbind, M_bind.
  destruct (m s) as [[a|e|w|c] s1]; simpl in *; [|done..].
  etrans; [exact Hm|apply Hf].
Qed.
Lemma within_try {A} (m : M S A) : within R m → within R (try m).
Proof. intros Hm s. specialize (Hm s). unfold try. by destruct (m s) as [[]]. Qed.
Lemma within_wrap {A} g (m : M S A) : within R m → within R (wrap_err g m).
Proof. intros Hm s. specialize (Hm s). unfold wrap_err. by destruct (m s) as [[]]. Qed.
Lemma within_mfor {A} (f : A → M S unit) l : (∀ x, within R (f x)) → within R (mfor f l).
Proof.
  intros Hf. induction l as [|x l IH]; simpl; [apply within_ret|].
  apply within_bind; [apply Hf|done].
Qed.
Lemma within_run {A} (m : M S A) s o s' : within R m → m s = (o, s') → R s s'.
Proof. intros Hm Hrun. specialize (Hm s). by rewrite Hrun in Hm. Qed.
End within.

(** *** What holds at the end of a run, whatever its outcome *)

Definition ends {S A} (m : M S A) (Q : S → Prop) (s : S) : Prop := Q (snd (m s)).

Section ends.
Context {S : Type}.
Implicit Types (Q : S → Prop) (s : S).

Lemma ends_ret {A} (a : A) Q s : Q s → ends (mret a) Q s.
Proof. done. Qed.
Lemma ends_fail {A} e Q s : Q s → ends (fail e : M S A) Q s.
Proof. done. Qed.
(** Either the first step stops the run, or the rest goes on from its end. *)
Lemma ends_bind {A B} (m : M S A) (f : A → M S B) Q s :
  ends m Q s → (∀ a s1, m s = (Ok a, s1) → ends (f a) Q s1) → ends (m ≫= f) Q s.
Proof.
  unfold ends, mbind, M_mbind, M_bind. intros Hm Hf.
  destruct (m s) as [[a|e|w|c] s1] eqn:Hs; [by apply Hf|done..].
Qed.
Lemma ends_try {A} (m : M S A) Q s : ends m Q s → ends (try m) Q s.
Proof. unfold ends, try. by destruct (m s) as [[]]. Qed.
Lemma ends_wrap {A} g (m : M S A) Q s : ends m Q s → ends (wrap_err g m) Q s.
Proof. unfold ends, wrap_err. by destruct (m s) as [[]]. Qed.
Lemma ends_mono {A} (m : M S A) Q Q' s :
  ends m Q s → (∀ s', Q s' → Q' s') → ends m Q' s.
Proof. unfold ends. auto. Qed.
Lemma ends_within {A} (R : relation S) (m : M S A) Q s :
  within R m → (∀ s', R s s' → Q s') → ends m Q s.
Proof. intros Hm HQ. apply HQ, Hm. Qed.

Lemma ends_with_local {T A} (f : T → M S A) (Q : S * T → Prop) s t :
  ends (f t) (λ s', Q (s', t)) s → ends (with_local f) Q (s, t).
Proof. unfold ends, with_local. by destruct (f t s). Qed.
Lemma ends_set_local {T} (f : T → T) (Q : S * T → Prop) s t :
  Q (s, f t) → ends (set_local f) Q (s, t).
Proof. done. Qed.
Lemma ends_update_local {T} (f : T → M S T) (Q : S * T → Prop) s t :
  (∀ o s', f t s = (o, s') → Q (s', match o with Ok t' => t' | _ => t end)) →
  ends (update_local f) Q (s, t).
Proof. unfold ends, update_local. intros HQ. destruct (f t s) as [[] s'] eqn:Hf; apply (HQ _ _ eq_refl). Qed.
End ends.

(** *** Runs that end in a value or an error

    [calm R Q m s]: the run of [m] from [s] neither panics nor exits, relates
    its start to its end by [R] whatever its outcome, and when it ends in a
    value, that value and the end satisfy [Q]. *)
Definition calm {S A} (R : relation S) (Q : A → S → Prop) (m : M S A) (s : S) : Prop :=
  R s (snd (m s)) ∧
  match fst (m s) with Ok a => Q a (snd (m s)) | Err _ => True | _ => False end.

Section calm.
Context {S : Type} (R : relation S) `{!PreOrder R}.

Lemma calm_ret {A} (a : A) (Q : A → S → Prop) s : Q a s → calm R Q (mret a) s.
Proof. by split. Qed.
Lemma calm_fail {A} e (Q : A → S → Prop) s : calm R Q (fail e) s.
Proof. by split. Qed.
Lemma calm_bind {A B} (m : M S A) (f : A → M S B) P Q s :
  calm R P m s → (∀ a s1, R s s1 → P a s1 → calm R Q (f a) s1) → calm R Q (m ≫= f) s.
Proof.
  unfold calm, mbind, M_mbind, M_bind. intros [HR HP] Hf.
  destruct (m s) as [[a|e|w|c] s1]; cbn [fst snd] in *; [|done..].
  destruct (Hf a s1 HR HP) as [HR' HQ]. split; [by etrans|done].
Qed.
Lemma calm_try {A} (m : M S A) Q s :
  calm R Q m s →
  calm R (λ r s', match r with inr a => Q a s' | inl _ => True end) (try m) s.
Proof. unfold calm, try. by destruct (m s) as [[a|e|w|c] s1]. Qed.
Lemma calm_wrap {A} g (m : M S A) Q s : calm R Q m s → calm R Q (wrap_err g m) s.
Proof. unfold calm, wrap_err. by destruct (m s) as [[a|e|w|c] s1]. Qed.
Lemma calm_mono {A} (m : M S A) (P Q : A → S → Prop) s :
  calm R P m s → (∀ a s', R s s' → P a s' → Q a s') → calm R Q m s.
Proof. unfold calm. destruct (m s) as [[a|e|w|c] s1]; naive_solver. Qed.
(** What the run is, when it is known. *)
Lemma calm_run {A} (m : M S A) s o s' (Q : A → S → Prop) :
  m s = (o, s') → R s s' → match o with Ok a => Q a s' | Err _ => True | _ => False end →
  calm R Q m s.
Proof. unfold calm. by intros ->. Qed.
End calm.

(** A relation on worlds, for computations on a world and a local copy. *)
Definition on_world {S T} (R : relation S) : relation (S * T) := λ st st', R (fst st) (fst st').
#[export] Instance on_world_preorder {S T} (R : relation S) `{!PreOrder R} :
  PreOrder (on_world (T := T) R).
Proof.
  split; unfold on_world; [intros st; reflexivity|]. intros [] [] [] ? ?. by etrans.
Qed.

Lemma within_with_local {S T A} (R : relation S) (f : T → M S A) :
  (∀ t, within R (f t)) → within (on_world R) (with_local f).
Proof. intros Hf [s t]. specialize (Hf t s). unfold on_world, with_local. by destruct (f t s). Qed.
Lemma within_set_local {S T} (R : relation S) `{!PreOrder R} (f : T → T) :
  within (on_world R) (set_local f).
Proof. intros [s t]. unfold on_world. reflexivity. Qed.

Lemma calm_with_local {S T A} (R : relation S) (f : T → M S A) Q s t :
  calm R Q (f t) s →
  calm (on_world R) (λ a st, Q a (fst st) ∧ snd st = t) (with_local f) (s, t).
Proof. unfold calm, with_local, on_world. destruct (f t s) as [[a|e|w|c] s1]; naive_solver. Qed.

Create HintDb go discriminated.
Create Rewrite HintDb go.
#[export] Hint Rewrite @bind_Ok_inv @ret_Ok_inv @fail_Ok_inv @gets_Ok_inv
  @modify_Ok_inv @lift_outcome_Ok_inv @try_Ok_inv @wrap_err_Ok_inv : go.

(** Decompose a hypothesis [m s = (Ok _, _)] into the runs of its steps. *)
Ltac inv_run H :=
  autorewrite with go in H;
  lazymatch type of H with
  | False => destruct H
  | ∃ _ : unit, _ => destruct H as [[] H]; inv_run H
  | ∃ _ : _ * _, _ =>
      let x := fresh "x" in let y := fresh "y" in
      destruct H as [[x y] H]; cbv beta iota in H; inv_run H
  | ∃ _, _ => let x := fresh "x" in destruct H as [x H]; inv_run H
  | _ ∧ _ => let H1 := fresh "Hrun" in destruct H as [H1 H]; inv_run H1; inv_run H
  | _ => idtac
  end.

(** The same for a computation on the world and a local copy, with its state
    written as a pair. *)
Create Rewrite HintDb go_local.
#[export] Hint Rewrite @with_local_Ok @with_local_Err @set_local_Ok @update_local_Ok : go_local.
Ltac inv_local H :=
  autorewrite with go go_local in H;
  lazymatch type of H with
  | False => destruct H
  | ∃ _ : unit, _ => destruct H as [[] H]; inv_local H
  | ∃ _, _ => let x := fresh "x" in destruct H as [x H]; inv_local H
  | _ ∧ _ => let H1 := fresh "Hrun" in destruct H as [H1 H]; inv_local H1; inv_local H
  | ?x = _ => try (is_var x; subst x)
  | _ => idtac
  end.

(** Decompose a goal [within R m], with the hints of [go] for its calls. *)
#[export] Hint Resolve within_ret within_fail within_lift within_gets : go.
Ltac solve_within :=
  repeat first
    [ match goal with |- ∀ _, _ => intros end
    | solve [eauto with go typeclass_instances]
    | apply within_bind; [apply _| |]
    | apply within_try | apply within_wrap | apply within_mfor; [apply _|]
    | match goal with |- within _ (if ?b then _ else _) => destruct b end
    | match goal with |- within _ (match ?x with _ => _ end) => destruct x end ].

(** ** Ranging over a Go map

    The order is unspecified: definitions that range over a map take it from
    this class, and theorems about them hold for every order. *)
Class MapRange := {
  map_range {A} : gmap string A → list (string * A);
  map_range_perm {A} (m : gmap string A) : map_range m ≡ₚ map_to_list m;
}.

Lemma elem_of_map_range `{MapRange} {A} (m : gmap string A) k x :
  (k, x) ∈ map_range m ↔ m !! k = Some x.
Proof. by rewrite map_range_perm, elem_of_map_to_list. Qed.

(** ** Loops that collect errors *)

(** [for ... { errs = append(errs, f(x)...) }] *)
Definition collect {A E} (f : A → list E) (l : list A) : list E := l ≫= f.
(** The same with the index. *)
Definition collecti {A E} (f : nat → A → list E) (l : list A) : list E := mjoin (imap f l).

(** [len(l) == 0] *)
Definition is_nil {A} (l : list A) : bool := match l with [] => true | _ => false end.

Lemma collect_nil {A E} (f : A → list E) l :
  collect f l = [] ↔ Forall (λ x, f x = []) l.
Proof.
  unfold collect. induction l as [|x l IH]; simpl; [done|].
  rewrite Forall_cons, <-IH. destruct (f x); naive_solver.
Qed.

Lemma imap_nil_Forall {A E} (P : A → Prop) (f : nat → A → list E) l :
  (∀ i x, f i x = [] ↔ P x) → mjoin (imap f l) = [] ↔ Forall P l.
Proof.
  intros Hf. revert f Hf. induction l as [|x l IH]; simpl; intros f Hf; [done|].
  rewrite Forall_cons, <-(Hf 0 x), <-(IH (f ∘ S)) by (intros; apply Hf).
  destruct (f 0 x); naive_solver.
Qed.

Lemma collecti_nil {A E} (P : A → Prop) (f : nat → A → list E) l :
  (∀ i x, f i x = [] ↔ P x) → collecti f l = [] ↔ Forall P l.
Proof. apply imap_nil_Forall. Qed.

Lemma app_nil_iff {A} (l1 l2 : list A) : l1 ++ l2 = [] ↔ l1 = [] ∧ l2 = [].
Proof. destruct l1; naive_solver. Qed.

Lemma Forall_ne_not_elem {A} (x : A) l : Forall (λ y, y ≠ x) l ↔ x ∉ l.
Proof. rewrite Forall_forall. naive_solver. Qed.

(** Cases on an [if] over a boolean test or a decision. *)
Tactic Notation "case_if" "as" ident(H) :=
  match goal with
  | |- context [if bool_decide ?P then _ else _] => destruct (bool_decide_reflect P) as [H|H]
  | |- context [if decide ?P then _ else _] => destruct (decide P) as [H|H]
  | |- context [if ?b then _ else _] => destruct b eqn:H
  end.
Tactic Notation "case_if" := let H := fresh "Hif" in case_if as H.
