(* ===== verification/GoMemory.v ===== *)
(** * Go's memory

    Values with references: structs, pointers, slices and maps over a heap of
    variables, arrays and maps. It is what the generated deep copies work on,
    where the other files take an object for its contents. The file holds the
    statements of Go those copies are made of and what they are correct for:
    [same], two values in two heaps hold the same data, and [reaches], the
    cells a value refers to. *)

From S2P Require Import Prelude.

(** ** Types and values *)

Inductive Basic := BString | BInt | BBool.

(** A Go type, as far as references go: a named type is the type it stands
    for, and a struct the sequence of its fields. *)
Inductive Ty :=
| TBasic (b : Basic)
| TEnd
| TField (name : string) (t rest : Ty)
| TPtr (t : Ty)
| TSlice (t : Ty)
| TMap (t : Ty).

Definition struct (fields : list (string * Ty)) : Ty :=
  foldr (λ '(name, t) rest, TField name t rest) TEnd fields.

Abbreviation Loc := positive.

Inductive BasicVal := PString (s : string) | PInt (z : Z) | PBool (b : bool).
#[export] Instance BasicVal_eq_dec : EqDecision BasicVal.
Proof. solve_decision. Defined.
Definition basic_of (p : BasicVal) : Basic :=
  match p with PString _ => BString | PInt _ => BInt | PBool _ => BBool end.

(** A slice: a window of an array. *)
Record Slice := mkSlice { sl_array : Loc; sl_off : nat; sl_len : nat }.

#[export] Instance Slice_eq_dec : EqDecision Slice.
Proof. solve_decision. Defined.

(** A value as a variable holds it; [None] is [nil]. *)
Inductive Val :=
| VBasic (p : BasicVal)
| VEnd
| VField (name : string) (x rest : Val)
| VPtr (p : option Loc)
| VSlice (s : option Slice)
| VMap (m : option Loc).

Inductive Cell :=
| CVar (v : Val)
| CArr (vs : list Val)
| CMap (m : gmap string Val).
Abbreviation Heap := (gmap Loc Cell).

#[export] Instance Val_eq_dec : EqDecision Val.
Proof. solve_decision. Defined.

Fixpoint zero (t : Ty) : Val :=
  match t with
  | TBasic BString => VBasic (PString "")
  | TBasic BInt => VBasic (PInt 0)
  | TBasic BBool => VBasic (PBool false)
  | TEnd => VEnd
  | TField name t rest => VField name (zero t) (zero rest)
  | TPtr _ => VPtr None
  | TSlice _ => VSlice None
  | TMap _ => VMap None
  end.

(** Fields of a struct. *)
Fixpoint field (name : string) (v : Val) : option Val :=
  match v with
  | VField m x rest => if bool_decide (m = name) then Some x else field name rest
  | _ => None
  end.
Fixpoint set_field (name : string) (y v : Val) : Val :=
  match v with
  | VField m x rest => if bool_decide (m = name) then VField m y rest
                       else VField m x (set_field name y rest)
  | _ => v
  end.

(** ** Statements *)

Definition nil_dereference : string :=
  "runtime error: invalid memory address or nil pointer dereference".
Definition out_of_range : string := "runtime error: index out of range".

Definition alloc (c : Cell) : M Heap Loc := λ h,
  let l := fresh (dom h) in (Ok l, <[l := c]> h).
Definition load (l : Loc) : M Heap Val := λ h,
  match h !! l with Some (CVar v) => (Ok v, h) | _ => (Panic nil_dereference, h) end.
Definition store (l : Loc) (v : Val) : M Heap unit := λ h,
  match h !! l with Some (CVar _) => (Ok tt, <[l := CVar v]> h) | _ => (Panic nil_dereference, h) end.
Definition load_elem (l : Loc) (i : nat) : M Heap Val := λ h,
  match h !! l with
  | Some (CArr vs) => match vs !! i with Some v => (Ok v, h) | None => (Panic out_of_range, h) end
  | _ => (Panic nil_dereference, h)
  end.
Definition store_elem (l : Loc) (i : nat) (v : Val) : M Heap unit := λ h,
  match h !! l with
  | Some (CArr vs) => if bool_decide (i < length vs) then (Ok tt, <[l := CArr (<[i := v]> vs)]> h)
                      else (Panic out_of_range, h)
  | _ => (Panic nil_dereference, h)
  end.
Definition load_map (l : Loc) : M Heap (gmap string Val) := λ h,
  match h !! l with Some (CMap m) => (Ok m, h) | _ => (Panic nil_dereference, h) end.
Definition store_key (l : Loc) (k : string) (v : Val) : M Heap unit := λ h,
  match h !! l with
  | Some (CMap m) => (Ok tt, <[l := CMap (<[k := v]> m)]> h)
  | _ => (Panic nil_dereference, h)
  end.
Definition get_field (name : string) (v : Val) : M Heap Val :=
  lift_outcome match field name v with Some x => Ok x | None => Panic "no such field" end.

(** The elements of a slice. *)
Definition elems (h : Heap) (s : Slice) : option (list Val) :=
  match h !! sl_array s with
  | Some (CArr vs) => if bool_decide (sl_off s + sl_len s ≤ length vs)
                      then Some (take (sl_len s) (drop (sl_off s) vs)) else None
  | _ => None
  end.

(** ** The same data *)

(** [same t h v h' v']: [v] in [h] and [v'] in [h'] are values of type [t], and
    hold the same data, whatever cells it is in. *)
Fixpoint same (t : Ty) (h : Heap) (v : Val) (h' : Heap) (v' : Val) : Prop :=
  match t, v, v' with
  | TBasic b, VBasic p, VBasic p' => p = p' ∧ basic_of p = b
  | TEnd, VEnd, VEnd => True
  | TField name t rest, VField m x xs, VField m' x' xs' =>
      (m = name ∧ m' = name) ∧ same t h x h' x' ∧ same rest h xs h' xs'
  | TPtr _, VPtr None, VPtr None => True
  | TPtr t, VPtr (Some l), VPtr (Some l') => ∃ x x',
      h !! l = Some (CVar x) ∧ h' !! l' = Some (CVar x') ∧ same t h x h' x'
  | TSlice _, VSlice None, VSlice None => True
  | TSlice t, VSlice (Some s), VSlice (Some s') => ∃ xs xs',
      elems h s = Some xs ∧ elems h' s' = Some xs' ∧ Forall2 (λ x x', same t h x h' x') xs xs'
  | TMap _, VMap None, VMap None => True
  | TMap t, VMap (Some l), VMap (Some l') => ∃ m m',
      h !! l = Some (CMap m) ∧ h' !! l' = Some (CMap m') ∧
      ∀ k, option_Forall2 (λ x x', same t h x h' x') (m !! k) (m' !! k)
  | _, _, _ => False
  end.

(** A well-formed value: it has its type, with no dangling reference. *)
Definition well_typed (t : Ty) (h : Heap) (v : Val) : Prop := same t h v h v.

(** The cells a value refers to, at any depth. *)
Fixpoint reaches (t : Ty) (h : Heap) (v : Val) (l : Loc) : Prop :=
  match t, v with
  | TField _ t rest, VField _ x xs => reaches t h x l ∨ reaches rest h xs l
  | TPtr t, VPtr (Some l0) => l = l0 ∨ ∃ x, h !! l0 = Some (CVar x) ∧ reaches t h x l
  | TSlice t, VSlice (Some s) =>
      l = sl_array s ∨ ∃ xs x, elems h s = Some xs ∧ x ∈ xs ∧ reaches t h x l
  | TMap t, VMap (Some l0) =>
      l = l0 ∨ ∃ m k x, h !! l0 = Some (CMap m) ∧ m !! k = Some x ∧ reaches t h x l
  | _, _ => False
  end.

(** A type without references. *)
Fixpoint flat (t : Ty) : bool :=
  match t with
  | TBasic _ | TEnd => true
  | TField _ t rest => flat t && flat rest
  | _ => false
  end.

Lemma same_sym t h v h' v' : same t h v h' v' → same t h' v' h v.
Proof.
  revert v v'. induction t as [b| |n t IHt r IHr|t IH|t IH|t IH]; intros v v';
    destruct v, v'; cbn [same]; repeat case_match; try done.
  - intros [-> ?]. by split.
  - intros ([? ?] & ? & ?). split_and!; auto.
  - intros (x & x' & ? & ? & ?). exists x', x. eauto.
  - intros (xs & xs' & ? & ? & Hf). exists xs', xs.
    split_and!; [done..|]. apply Forall2_flip. eapply Forall2_impl; [exact Hf|]. cbn. eauto.
  - intros (n1 & n2 & ? & ? & Hf). exists n2, n1.
    split_and!; [done..|]. intros k. specialize (Hf k). inversion Hf; constructor; eauto.
Qed.

Lemma same_trans t h1 v1 h2 v2 h3 v3 :
  same t h1 v1 h2 v2 → same t h2 v2 h3 v3 → same t h1 v1 h3 v3.
Proof.
  revert v1 v2 v3. induction t as [b| |n t IHt r IHr|t IH|t IH|t IH]; intros v1 v2 v3;
    destruct v1, v2, v3; cbn [same]; repeat case_match; try done.
  - intros [-> ?] [-> ?]. by split.
  - intros ([? ?] & ? & ?) ([? ?] & ? & ?). split_and!; [done..| |]; eauto.
  - intros (x & x2 & ? & ? & ?) (x2' & x3 & ? & ? & ?).
    exists x, x3. simplify_eq. eauto.
  - intros (xs & xs2 & ? & ? & Hf) (xs2' & xs3 & ? & ? & Hf').
    exists xs, xs3. simplify_eq. split_and!; [done..|].
    eapply Forall2_trans; [|exact Hf|exact Hf']. cbn. eauto.
  - intros (n1 & n2 & ? & ? & Hf) (n2' & n3 & ? & ? & Hf').
    exists n1, n3. simplify_eq. split_and!; [done..|]. intros k.
    specialize (Hf k). specialize (Hf' k).
    destruct Hf; inversion Hf'; simplify_eq; constructor; eauto.
Qed.

Lemma same_typed t h v h' v' : same t h v h' v' → well_typed t h v ∧ well_typed t h' v'.
Proof. intros Hs. split; eapply same_trans; eauto using same_sym. Qed.

(** *** Changes of the heap *)

Lemma elems_agree h h' s : h' !! sl_array s = h !! sl_array s → elems h' s = elems h s.
Proof. unfold elems. by intros ->. Qed.

(** What a value reaches, and the data it holds, depend on the cells it
    reaches only. *)
Lemma reaches_agree t h h' v l :
  (∀ l, reaches t h v l → h' !! l = h !! l) → reaches t h' v l ↔ reaches t h v l.
Proof.
  revert v. induction t as [b| |n t IHt r IHr|t IH|t IH|t IH]; intros v Hag;
    destruct v; cbn [reaches] in *; repeat case_match; try done.
  - rewrite IHt, IHr by auto. done.
  - rewrite (Hag _ (or_introl eq_refl)). apply or_iff_compat_l, exist_proper. intros x.
    split; intros [Hx Hr]; (split; [done|]); (apply IH; [|done]); eauto.
  - rewrite (elems_agree h h') by auto. apply or_iff_compat_l, exist_proper. intros xs.
    apply exist_proper. intros x. split; intros (Hxs & Hx & Hr); (split; [done|]; split; [done|]);
      (apply IH; [|done]); eauto 10.
  - rewrite (Hag _ (or_introl eq_refl)). apply or_iff_compat_l, exist_proper. intros n.
    apply exist_proper. intros k. apply exist_proper. intros x.
    split; intros (Hn & Hx & Hr); (split; [done|]; split; [done|]);
      (apply IH; [|done]); eauto 10.
Qed.

Lemma same_agree t h0 x h h' v :
  (∀ l, reaches t h v l → h' !! l = h !! l) → same t h0 x h v → same t h0 x h' v.
Proof.
  revert x v. induction t as [b| |n t IHt r IHr|t IH|t IH|t IH]; intros x v Hag;
    destruct x, v; cbn [same reaches] in *; repeat case_match; try done.
  - intros ([? ?] & ? & ?). split_and!; [done|done|..]; eauto.
  - intros (x & x' & ? & ? & ?). exists x, x'. rewrite Hag by auto. split_and!; [done..|]. apply IH; [|done]. eauto 10.
  - intros (xs & xs' & ? & Hxs & Hf). exists xs, xs'. rewrite (elems_agree h h') by auto.
    split_and!; [done..|]. apply Forall2_same_length_lookup in Hf as [Hlen Hf].
    apply Forall2_same_length_lookup. split; [done|]. intros i y y' Hy Hy'.
    apply IH; [|by eapply Hf]. intros l Hl. apply Hag. right. exists xs', y'.
    split_and!; [done|by eapply list_elem_of_lookup_2|done].
  - intros (n1 & n2 & ? & ? & Hf). exists n1, n2. rewrite Hag by auto. split_and!; [done..|].
    intros k. specialize (Hf k). destruct (n2 !! k) eqn:Hk; inversion Hf; constructor; eauto 10.
Qed.

Lemma reaches_dom t h0 x h v l : same t h0 x h v → reaches t h v l → is_Some (h !! l).
Proof.
  revert x v. induction t as [b| |n t IHt r IHr|t IH|t IH|t IH]; intros x v;
    destruct x, v; cbn [same reaches]; repeat case_match; try done.
  - intros (_ & ? & ?) [?|?]; eauto.
  - intros (x & x' & _ & Hx & ?) [->|(x2 & ? & ?)]; [by eexists|]. simplify_eq. eauto.
  - intros (xs & xs' & _ & Hxs & Hf) [->|(xs2 & x & Hxs2 & Hx & Hr)].
    + unfold elems in Hxs. by destruct (h !! _).
    + simplify_eq. apply list_elem_of_lookup in Hx as [i Hi].
      destruct (Forall2_lookup_r _ _ _ _ _ Hf Hi) as (y & _ & Hy). eauto.
  - intros (n1 & n2 & _ & Hn & Hf) [->|(n' & k & x & Hn' & Hx & Hr)]; [by eexists|].
    simplify_eq. specialize (Hf k). rewrite Hx in Hf. inversion Hf. eauto.
Qed.

Lemma same_mono t h0 x h h' v : h ⊆ h' → same t h0 x h v → same t h0 x h' v.
Proof.
  intros Hsub Hs. apply (same_agree t h0 x h); [|done]. intros l Hl.
  destruct (reaches_dom _ _ _ _ _ _ Hs Hl) as [c Hc]. rewrite Hc. by eapply lookup_weaken.
Qed.
Lemma typed_mono t h h' v : h ⊆ h' → well_typed t h v → same t h v h' v.
Proof. intros Hsub Hs. by apply (same_mono t h v h). Qed.
Lemma typed_weaken t h h' v : h ⊆ h' → well_typed t h v → well_typed t h' v.
Proof. intros Hsub Hs. by apply (same_typed t h v), typed_mono. Qed.
Lemma reaches_mono t h h' v l :
  h ⊆ h' → well_typed t h v → reaches t h' v l ↔ reaches t h v l.
Proof.
  intros Hsub Hs. apply reaches_agree. intros l' Hl.
  destruct (reaches_dom _ _ _ _ _ _ Hs Hl) as [c Hc]. rewrite Hc. by eapply lookup_weaken.
Qed.

Lemma flat_same t h h' v : flat t = true → well_typed t h v → same t h v h' v.
Proof.
  revert v. induction t as [b| |n t IHt r IHr|t IH|t IH|t IH]; intros v Hf; try done; destruct v;
    unfold well_typed; cbn [same]; try done.
  cbn [flat] in Hf. apply andb_true_iff in Hf as [? ?]. intros ([? ?] & ? & ?).
  split_and!; [done|done|..]; eauto.
Qed.
Lemma flat_reaches t h v l : flat t = true → ¬ reaches t h v l.
Proof.
  revert v. induction t as [b| |n t IHt r IHr|t IH|t IH|t IH]; intros v Hf; try done;
    destruct v; cbn [reaches]; try tauto.
  cbn [flat] in Hf. apply andb_true_iff in Hf as [? ?]. intros [?|?]; [by eapply IHt|by eapply IHr].
Qed.

(** ** Deep copies *)

(** The statements the generated functions are made of. A [DeepCopyInto]
    takes the struct the receiver points to and returns what it leaves in
    [*out]; references are cells of the heap. *)
Abbreviation Copier := (Val → M Heap Val).

(** [*out = *in], then for each field [in.X.DeepCopyInto(&out.X)] or a block
    [if in.X != nil { in, out := &in.X, &out.X; ... }]. *)
Fixpoint copy_fields (fs : list (string * Copier)) (src out : Val) : M Heap Val :=
  match fs with
  | [] => mret out
  | (name, f) :: fs =>
      x ← get_field name src;
      y ← f x;
      copy_fields fs src (set_field name y out)
  end.
Definition copy_struct (fs : list (string * Copier)) : Copier := λ src, copy_fields fs src src.

(** [*out = *in]. *)
Definition assign : Copier := λ x, mret x.

(** [*out = new(T)], then [( *in ).DeepCopyInto( *out )] or [**out = **in]. *)
Definition copy_ptr (t : Ty) (f : Copier) : Copier := λ v,
  match v with
  | VPtr (Some l) =>
      out ← alloc (CVar (zero t));
      x ← load l; y ← f x; store out y ;;
      mret (VPtr (Some out))
  | _ => mret v
  end.

(** [*out = make([]T, len( *in ))], then a loop over the indices. *)
Definition copy_slice (t : Ty) (f : Copier) : Copier := λ v,
  match v with
  | VSlice (Some s) =>
      out ← alloc (CArr (replicate (sl_len s) (zero t)));
      mfor (λ i, x ← load_elem (sl_array s) (sl_off s + i); y ← f x; store_elem out i y)
        (seq 0 (sl_len s)) ;;
      mret (VSlice (Some (mkSlice out 0 (sl_len s))))
  | _ => mret v
  end.

(** [copy( *out, *in )], after the same [make]. *)
Definition copy_builtin (t : Ty) : Copier := copy_slice t assign.

(** [*out = make(map[string]T, len( *in ))], then a loop over the keys. *)
Definition copy_map_loop `{MapRange} (body : Loc → Loc → string * Val → M Heap unit) : Copier := λ v,
  match v with
  | VMap (Some l) =>
      out ← alloc (CMap ∅);
      m ← load_map l;
      mfor (body l out) (map_range m) ;;
      mret (VMap (Some out))
  | _ => mret v
  end.
Definition copy_map `{MapRange} (f : Copier) : Copier :=
  copy_map_loop (λ _ out '(key, val), y ← f val; store_key out key y).

(** [DeepCopy]: [out := new(T); in.DeepCopyInto(out)]. *)
Definition deep_copy (t : Ty) (into : Copier) (src : option Loc) : M Heap (option Loc) :=
  match src with
  | None => mret None
  | Some l =>
      out ← alloc (CVar (zero t));
      x ← load l; y ← into x; store out y ;;
      mret (Some out)
  end.
(** [*val.DeepCopy()] of a local variable [val]. *)
Definition by_DeepCopy (f : option Loc → M Heap (option Loc)) : Copier := λ val,
  l ← alloc (CVar val);
  c ← f (Some l);
  match c with Some l' => load l' | None => lift_outcome (Panic nil_dereference) end.

(** *** Correctness *)

(** No cell a value refers to is one of [b]. *)
Definition isolated (t : Ty) (h : Heap) (v : Val) (b : Heap) : Prop :=
  ∀ l, reaches t h v l → b !! l = None.
Definition made (t : Ty) (h0 b h : Heap) (x y : Val) : Prop :=
  same t h0 x h y ∧ isolated t h y b.

(** A correct copy: of every well-formed value it makes one with the same
    data in cells of its own, and changes no cell there was. *)
Definition copies (t : Ty) (f : Copier) : Prop := ∀ h x, well_typed t h x →
  ∃ y h', f x h = (Ok y, h') ∧ h ⊆ h' ∧ made t h h h' x y.

Lemma bind_run {S A B} (m : M S A) (f : A → M S B) s a s1 :
  m s = (Ok a, s1) → (m ≫= f) s = f a s1.
Proof. unfold mbind, M_mbind, M_bind. by intros ->. Qed.

Lemma made_mono t h0 b h h1 x y : h ⊆ h1 → made t h0 b h x y → made t h0 b h1 x y.
Proof.
  intros Hsub [Hs Hi]. split; [by eapply same_mono|]. intros l Hl. apply Hi.
  apply (reaches_mono t h h1) in Hl; [done..|]. by eapply same_typed.
Qed.
Lemma made_update t h0 b h x y l c :
  is_Some (b !! l) → made t h0 b h x y → made t h0 b (<[l := c]> h) x y.
Proof.
  intros [d Hl] [Hs Hi].
  assert (∀ l', reaches t h y l' → <[l := c]> h !! l' = h !! l') as Hag.
  { intros l' Hr. apply lookup_insert_ne. intros ->. apply Hi in Hr. congruence. }
  split; [by eapply same_agree|]. intros l' Hr. apply Hi. by apply (reaches_agree t h) in Hr.
Qed.
Lemma made_base t h0 b b' h x y :
  (∀ l, b !! l = None → b' !! l = None) → made t h0 b h x y → made t h0 b' h x y.
Proof. intros Hb [Hs Hi]. split; [done|]. intros l Hl. auto. Qed.

Lemma copies_flat t : flat t = true → copies t assign.
Proof.
  intros Hf h x Hx. exists x, h. split_and!; [done..|]. split; [done|].
  intros l Hl. by destruct (flat_reaches t h x l).
Qed.

(** A copier applied later, when more has been allocated. *)
Lemma copies_later t f h0 h x :
  copies t f → well_typed t h0 x → h0 ⊆ h →
  ∃ y h', f x h = (Ok y, h') ∧ h ⊆ h' ∧ made t h0 h h' x y.
Proof.
  intros Hf Hx Hsub. destruct (Hf h x) as (y & h' & Hrun & Hh & Hs & Hi);
    [by eapply typed_weaken|]. exists y, h'. split_and!; [done..|]. split; [|done].
  eapply same_trans; [|exact Hs]. by apply typed_mono.
Qed.

Lemma alloc_run c h : ∃ l, alloc c h = (Ok l, <[l := c]> h) ∧ h !! l = None.
Proof. exists (fresh (dom h)). split; [done|]. apply not_elem_of_dom, is_fresh. Qed.
Lemma load_run l v h : h !! l = Some (CVar v) → load l h = (Ok v, h).
Proof. unfold load. by intros ->. Qed.
Lemma store_run l v v' h : h !! l = Some (CVar v') → store l v h = (Ok tt, <[l := CVar v]> h).
Proof. unfold store. by intros ->. Qed.

(** A new variable with the copy of another. *)
Lemma new_copy {A} t f h l x (k : Loc → A) :
  copies t f → h !! l = Some (CVar x) → well_typed t h x →
  ∃ out y h', (out ← alloc (CVar (zero t)); x ← load l; y ← f x; store out y ;; mret (k out)) h
    = (Ok (k out), h') ∧ h ⊆ h' ∧ h' !! out = Some (CVar y) ∧ h !! out = None ∧ made t h h h' x y.
Proof.
  intros Hf Hl Hx. destruct (alloc_run (CVar (zero t)) h) as (out & Halloc & Hout).
  assert (h ⊆ <[out := CVar (zero t)]> h) as Hsub by by apply insert_subseteq.
  destruct (copies_later t f h (<[out := CVar (zero t)]> h) x Hf Hx Hsub)
    as (y & h1 & Hrun & Hh1 & Hm).
  assert (h1 !! out = Some (CVar (zero t))) as Ho
    by (eapply lookup_weaken; [apply lookup_insert_eq|done]).
  exists out, y, (<[out := CVar y]> h1). split_and!.
  - rewrite (bind_run _ _ _ _ _ Halloc).
    rewrite (bind_run _ _ _ x _ (load_run _ _ _ (lookup_weaken _ _ _ _ Hl Hsub))).
    rewrite (bind_run _ _ _ _ _ Hrun). by rewrite (bind_run _ _ _ _ _ (store_run _ _ _ _ Ho)).
  - apply insert_subseteq_r; [done|]. by trans (<[out := CVar (zero t)]> h).
  - apply lookup_insert_eq.
  - done.
  - apply (made_base _ _ (<[out := CVar (zero t)]> h)).
    { intros l' Hl'. by apply lookup_insert_None in Hl' as [? _]. }
    apply made_update; [rewrite lookup_insert_eq; by eexists|done].
Qed.

Lemma copies_ptr t f : copies t f → copies (TPtr t) (copy_ptr t f).
Proof.
  intros Hf h v Hv. destruct v as [| | |[l|]| |]; try done.
  - destruct Hv as (x & x' & Hl & Hl' & Hx). simplify_eq.
    destruct (new_copy t f h l x (λ out, VPtr (Some out)) Hf Hl Hx)
      as (out & y & h' & Hrun & Hsub & Ho & Hout & Hs & Hi).
    exists (VPtr (Some out)), h'. split_and!; [done..|]. split.
    + cbn. eauto.
    + intros l' [->|(y' & Hy' & Hr)]; [done|]. simplify_eq. by apply Hi.
  - exists (VPtr None), h. split_and!; [done..|]. split; [done|]. by intros l [].
Qed.

Lemma copies_deep_copy t f p h :
  copies t f → well_typed (TPtr t) h (VPtr p) →
  ∃ q h', deep_copy t f p h = (Ok q, h') ∧ h ⊆ h' ∧ made (TPtr t) h h h' (VPtr p) (VPtr q).
Proof.
  intros Hf Hv. destruct p as [l|].
  - destruct Hv as (x & x' & Hl & Hl' & Hx). simplify_eq.
    destruct (new_copy t f h l x Some Hf Hl Hx)
      as (out & y & h' & Hrun & Hsub & Ho & Hout & Hs & Hi).
    exists (Some out), h'. split_and!; [done..|]. split.
    + cbn. eauto.
    + intros l' [->|(y' & Hy' & Hr)]; [done|]. simplify_eq. by apply Hi.
  - exists None, h. split_and!; [done..|]. split; [done|]. by intros l [].
Qed.

Lemma copies_by_DeepCopy t f : copies t f → copies t (by_DeepCopy (deep_copy t f)).
Proof.
  intros Hf h x Hx. destruct (alloc_run (CVar x) h) as (l & Halloc & Hl).
  set (h1 := <[l := CVar x]> h). assert (h ⊆ h1) as Hsub by by apply insert_subseteq.
  assert (h1 !! l = Some (CVar x)) as Hl1 by apply lookup_insert_eq.
  assert (well_typed t h1 x) as Hx1 by by eapply typed_weaken.
  destruct (new_copy t f h1 l x Some Hf Hl1 Hx1) as (out & y & h2 & Hrun & Hsub2 & Ho & _ & Hm).
  exists y, h2. split_and!.
  - unfold by_DeepCopy. rewrite (bind_run _ _ _ _ _ Halloc). fold h1.
    rewrite (bind_run _ _ _ _ _ Hrun). by apply load_run.
  - by trans h1.
  - apply (made_base _ _ h1); [intros l' Hl'; by apply lookup_insert_None in Hl' as [? _]|].
    destruct Hm as [Hs Hi]. split; [|done]. eapply same_trans; [|exact Hs]. by apply typed_mono.
Qed.

(** *** Slices *)

Lemma Forall2_mono {A B} (P Q : A → B → Prop) l k :
  Forall2 P l k → (∀ x y, P x y → Q x y) → Forall2 Q l k.
Proof. intros HF HPQ. induction HF; eauto. Qed.

(** A write to the cell [out] that leaves what was made so far in place. *)
Lemma made_write t h0 b h h1 x y out c :
  is_Some (b !! out) → h ⊆ h1 → made t h0 b h x y → made t h0 b (<[out := c]> h1) x y.
Proof. intros. apply made_update; [done|]. by apply (made_mono _ _ _ h). Qed.

(** Every cell of [b] is one of [h], perhaps with other contents. *)
Definition older (b h : Heap) : Prop := ∀ l, h !! l = None → b !! l = None.
Lemma older_mono b h h' : older b h → h ⊆ h' → older b h'.
Proof. intros Hb Hsub l Hl. apply Hb. by eapply lookup_weaken_None. Qed.
Lemma older_write b h l c : older b h → older b (<[l := c]> h).
Proof. intros Hb l' Hl'. apply Hb. by apply lookup_insert_None in Hl' as [? _]. Qed.

Lemma copied_at t f h0 b h x :
  copies t f → well_typed t h0 x → h0 ⊆ h → older b h →
  ∃ y h', f x h = (Ok y, h') ∧ h ⊆ h' ∧ made t h0 b h' x y.
Proof.
  intros Hf Hx Hsub Hb. destruct (copies_later t f h0 h x Hf Hx Hsub) as (y & h' & ? & ? & Hm).
  exists y, h'. split_and!; [done..|]. by apply (made_base _ _ h).
Qed.

Lemma elems_lookup h s xs i x :
  elems h s = Some xs → xs !! i = Some x →
  ∃ vs, h !! sl_array s = Some (CArr vs) ∧ vs !! (sl_off s + i) = Some x.
Proof.
  unfold elems. intros Hs Hi. repeat case_match; simplify_eq. eexists. split; [done|].
  apply lookup_take_Some in Hi as [Hi _]. by rewrite lookup_drop in Hi.
Qed.
Lemma elems_whole h l vs : h !! l = Some (CArr vs) → elems h (mkSlice l 0 (length vs)) = Some vs.
Proof.
  unfold elems. cbn. intros ->. rewrite bool_decide_eq_true_2 by lia. by rewrite drop_0, firstn_all.
Qed.
Lemma elems_length h s xs : elems h s = Some xs → length xs = sl_len s.
Proof.
  unfold elems. intros Hs. case_match; [|done]. case_match; try done.
  case_bool_decide; [|done]. simplify_eq. rewrite length_take, length_drop. lia.
Qed.

Lemma load_elem_run h l vs i x :
  h !! l = Some (CArr vs) → vs !! i = Some x → load_elem l i h = (Ok x, h).
Proof. unfold load_elem. by intros -> ->. Qed.
Lemma store_elem_run h l ys z zs y :
  h !! l = Some (CArr (ys ++ z :: zs)) →
  store_elem l (length ys) y h = (Ok tt, <[l := CArr ((ys ++ [y]) ++ zs)]> h).
Proof.
  unfold store_elem. intros ->. rewrite bool_decide_eq_true_2 by (rewrite length_app; cbn; lia).
  rewrite <-(Nat.add_0_r (length ys)), insert_app_r. by rewrite <-app_assoc.
Qed.

(** The loop over a slice whose first elements [xs1] have been copied to [ys]. *)
Lemma slice_loop t f h0 b s out xs2 :
  copies t f → is_Some (b !! out) → h0 !! out = None → ∀ xs1 ys h,
  elems h0 s = Some (xs1 ++ xs2) → Forall (well_typed t h0) (xs1 ++ xs2) →
  h0 ⊆ h → older b h → length ys = length xs1 →
  h !! out = Some (CArr (ys ++ replicate (length xs2) (zero t))) → Forall2 (made t h0 b h) xs1 ys →
  ∃ ys' h',
    mfor (λ i, x ← load_elem (sl_array s) (sl_off s + i); y ← f x; store_elem out i y)
      (seq (length xs1) (length xs2)) h = (Ok tt, h') ∧
    h0 ⊆ h' ∧ h' !! out = Some (CArr ys') ∧ Forall2 (made t h0 b h') (xs1 ++ xs2) ys'.
Proof.
  intros Hf Hb Hout. induction xs2 as [|x xs2 IH]; intros xs1 ys h Hs Hty Hsub Hold Hlen Ho Hm.
  { exists ys, h. rewrite !app_nil_r in *. done. }
  cbn [length seq mfor].
  assert (well_typed t h0 x) as Hx by (by apply Forall_app in Hty as [_ [? _]%Forall_cons]).
  destruct (elems_lookup _ _ _ (length xs1) x Hs) as (vs & Hvs & Hi);
    [by rewrite lookup_app_r, Nat.sub_diag by done|].
  destruct (copied_at t f h0 b h x Hf Hx Hsub Hold) as (y & h1 & Hrun & Hh1 & Hy).
  cbn [replicate length] in Ho. assert (h1 !! out = Some (CArr (ys ++ zero t :: replicate (length xs2) (zero t)))) as Ho1
    by by eapply lookup_weaken.
  set (h2 := <[out := CArr ((ys ++ [y]) ++ replicate (length xs2) (zero t))]> h1).
  destruct (IH (xs1 ++ [x]) (ys ++ [y]) h2) as (ys' & h' & Hrun' & Hsub' & Ho' & Hm').
  - by rewrite <-app_assoc.
  - by rewrite <-app_assoc.
  - apply insert_subseteq_r; [done|]. by trans h.
  - by apply older_write, (older_mono _ h).
  - rewrite !length_app. cbn. lia.
  - apply lookup_insert_eq.
  - apply Forall2_app.
    + eapply Forall2_mono; [exact Hm|]. intros x' y'. by apply made_write.
    + apply Forall2_cons. split; [|done]. by apply made_update.
  - exists ys', h'. rewrite <-app_assoc in Hm'. split_and!; [|done..].
    rewrite length_app, Nat.add_1_r in Hrun'.
    match goal with |- (?m ≫= _) h = _ => assert (m h = (Ok tt, h2)) as Hbody end.
    { rewrite (bind_run _ _ _ _ _
        (load_elem_run h (sl_array s) vs _ x (lookup_weaken _ _ _ _ Hvs Hsub) Hi)).
      rewrite (bind_run _ _ _ _ _ Hrun), <-Hlen. by apply (store_elem_run _ _ _ (zero t)). }
    by rewrite (bind_run _ _ _ _ _ Hbody).
Qed.

Lemma Forall2_same {A} (P : A → A → Prop) l : Forall2 P l l → Forall (λ x, P x x) l.
Proof. induction l; intros Hl; [done|]. apply Forall2_cons in Hl as [? ?]. constructor; auto. Qed.

Lemma copies_slice t f : copies t f → copies (TSlice t) (copy_slice t f).
Proof.
  intros Hf h v Hv. destruct v as [| | | |[s|]|]; try done.
  2:{ exists (VSlice None), h. split_and!; [done..|]. split; [done|]. by intros l []. }
  destruct Hv as (xs & xs' & Hs & Hs' & Hxs). simplify_eq. apply Forall2_same in Hxs.
  pose proof (elems_length _ _ _ Hs) as Hlen. unfold copy_slice.
  destruct (alloc_run (CArr (replicate (sl_len s) (zero t))) h) as (out & Halloc & Hout).
  set (h1 := <[out := _]> h) in *.
  destruct (slice_loop t f h h1 s out xs Hf) with (xs1 := @nil Val) (ys := @nil Val) (h := h1)
    as (ys & h' & Hrun & Hsub & Ho & Hm); try done.
  - unfold h1. rewrite lookup_insert_eq. by eexists.
  - by apply insert_subseteq.
  - by intros l.
  - rewrite Hlen. apply lookup_insert_eq.
  - cbn [app] in Hm. exists (VSlice (Some (mkSlice out 0 (sl_len s)))), h'. split_and!.
    + rewrite (bind_run _ _ _ _ _ Halloc). cbn [length] in Hrun. rewrite Hlen in Hrun.
      by rewrite (bind_run _ _ _ _ _ Hrun).
    + done.
    + assert (elems h' (mkSlice out 0 (sl_len s)) = Some ys) as Hys.
      { rewrite <-Hlen, (Forall2_length _ _ _ Hm). by apply elems_whole. }
      split.
      * exists xs, ys. split_and!; [done..|]. eapply Forall2_mono; [exact Hm|]. by intros ? ? [].
      * intros l [->|(ys' & y & Hys' & Hy & Hr)]; [done|]. simplify_eq.
        apply list_elem_of_lookup in Hy as [i Hi].
        destruct (Forall2_lookup_r _ _ _ _ _ Hm Hi) as (x & _ & _ & Hiso).
        apply Hiso in Hr. by apply lookup_insert_None in Hr as [? _].
Qed.

Lemma copies_builtin t : flat t = true → copies (TSlice t) (copy_builtin t).
Proof. intros Hf. by apply copies_slice, copies_flat. Qed.

(** *** Maps *)

Section maps.
Context `{MapRange}.

(** One iteration of a loop over the map [n], whose body copies the value of a
    key into [out]. *)
Definition copies_entry (t : Ty) (h0 b : Heap) (n : gmap string Val) (out : Loc)
    (body : string * Val → M Heap unit) : Prop := ∀ k x h n',
  n !! k = Some x → h0 ⊆ h → older b h → h !! out = Some (CMap n') →
  ∃ y h', body (k, x) h = (Ok tt, <[out := CMap (<[k := y]> n')]> h') ∧ h ⊆ h' ∧ made t h0 b h' x y.

Lemma map_loop t h0 b n out body kxs :
  copies_entry t h0 b n out body → is_Some (b !! out) → h0 !! out = None → ∀ n' h,
  Forall (λ kx, n !! kx.1 = Some kx.2) kxs →
  h0 ⊆ h → older b h → h !! out = Some (CMap n') →
  (∀ k, k ∉ kxs.*1 → option_Forall2 (made t h0 b h) (n !! k) (n' !! k)) →
  ∃ n'' h', mfor body kxs h = (Ok tt, h') ∧ h0 ⊆ h' ∧ h' !! out = Some (CMap n'') ∧
    ∀ k, option_Forall2 (made t h0 b h') (n !! k) (n'' !! k).
Proof.
  intros Hbody Hb Hout. induction kxs as [|[k x] kxs IH]; intros n' h Hkxs Hsub Hold Ho Hm.
  { exists n', h. split_and!; [done..|]. intros k. apply Hm, not_elem_of_nil. }
  apply Forall_cons in Hkxs as [Hk Hkxs]. cbn in Hk.
  destruct (Hbody k x h n' Hk Hsub Hold Ho) as (y & h1 & Hrun & Hh1 & Hy).
  destruct (IH (<[k := y]> n') (<[out := CMap (<[k := y]> n')]> h1))
    as (n'' & h' & Hrun' & Hsub' & Ho' & Hm').
  - done.
  - apply insert_subseteq_r; [done|]. by trans h.
  - by apply older_write, (older_mono _ h).
  - apply lookup_insert_eq.
  - intros k' Hk'. destruct (decide (k' = k)) as [->|Hne].
    + rewrite lookup_insert_eq, Hk. constructor. by apply made_update.
    + rewrite lookup_insert_ne by done.
      assert (k' ∉ ((k, x) :: kxs).*1) as Hnin by (cbn; set_solver).
      destruct (Hm k' Hnin); constructor. by apply (made_write _ _ _ h).
  - exists n'', h'. split_and!; [|done..]. cbn [mfor]. by rewrite (bind_run _ _ _ _ _ Hrun).
Qed.

Lemma copies_map_loop t body :
  (∀ h0 b n l out, h0 !! l = Some (CMap n) → (∀ k x, n !! k = Some x → well_typed t h0 x) →
     h0 !! out = None → is_Some (b !! out) → copies_entry t h0 b n out (body l out)) →
  copies (TMap t) (copy_map_loop body).
Proof.
  intros Hbody h v Hv. destruct v as [| | | | |[l|]]; try done.
  2:{ exists (VMap None), h. split_and!; [done..|]. split; [done|]. by intros l []. }
  destruct Hv as (n & n' & Hl & Hl' & Hn). simplify_eq. unfold copy_map_loop.
  assert (∀ k x, n !! k = Some x → well_typed t h x) as Hty.
  { intros k x Hk. specialize (Hn k). rewrite Hk in Hn. by inversion Hn. }
  destruct (alloc_run (CMap ∅) h) as (out & Halloc & Hout).
  set (h1 := <[out := _]> h) in *. assert (h ⊆ h1) as Hsub1 by by apply insert_subseteq.
  assert (is_Some (h1 !! out)) as Hb by (unfold h1; rewrite lookup_insert_eq; by eexists).
  destruct (map_loop t h h1 n out (body l out) (map_range n)
    (Hbody h h1 n l out Hl Hty Hout Hb) Hb Hout ∅ h1) as (n'' & h' & Hrun & Hsub & Ho & Hm).
  - apply Forall_forall. intros [k x] Hk. by apply elem_of_map_range.
  - done.
  - by intros l'.
  - apply lookup_insert_eq.
  - intros k Hk. rewrite lookup_empty.
    destruct (n !! k) as [x|] eqn:Hx; [|constructor]. destruct Hk. apply list_elem_of_fmap.
    exists (k, x). split; [done|]. by apply elem_of_map_range.
  - exists (VMap (Some out)), h'. split_and!; [|done|split].
    + rewrite (bind_run _ _ _ _ _ Halloc).
      assert (load_map l h1 = (Ok n, h1)) as Hload
        by (unfold load_map; by rewrite (lookup_weaken _ _ _ _ Hl Hsub1)).
      rewrite (bind_run _ _ _ _ _ Hload). by rewrite (bind_run _ _ _ _ _ Hrun).
    + exists n, n''. split_and!; [done..|]. intros k. destruct (Hm k) as [x y [Hs _]|]; by constructor.
    + intros l' [->|(n3 & k & y & Hn3 & Hk & Hr)]; [done|]. simplify_eq. specialize (Hm k).
      rewrite Hk in Hm. inversion Hm as [x y' [_ Hiso]|]. subst.
      apply Hiso in Hr. by apply lookup_insert_None in Hr as [? _].
Qed.

Lemma store_key_run out k v n h :
  h !! out = Some (CMap n) → store_key out k v h = (Ok tt, <[out := CMap (<[k := v]> n)]> h).
Proof. unfold store_key. by intros ->. Qed.

Lemma copies_map t f : copies t f → copies (TMap t) (copy_map f).
Proof.
  intros Hf. apply copies_map_loop. intros h0 b n l out _ Hty _ _ k x h n' Hk Hsub Hold Ho.
  destruct (copied_at t f h0 b h x Hf (Hty _ _ Hk) Hsub Hold) as (y & h1 & Hrun & Hh1 & Hy).
  exists y, h1. split_and!; [|done..]. rewrite (bind_run _ _ _ _ _ Hrun).
  apply store_key_run. by eapply lookup_weaken.
Qed.
End maps.

(** *** Structs *)

Fixpoint field_names (t : Ty) : list string :=
  match t with TField name _ rest => name :: field_names rest | _ => [] end.

(** The fields of a struct that have references are copied, in order. *)
Inductive covers : list (string * Copier) → Ty → Prop :=
| covers_end : covers [] TEnd
| covers_copied name f fs t rest :
    copies t f → covers fs rest → covers ((name, f) :: fs) (TField name t rest)
| covers_flat name fs t rest :
    flat t = true → covers fs rest → covers fs (TField name t rest).

(** A struct that begins with the given fields. *)
Definition prefixed (pre : list (string * Val)) (x : Val) : Val :=
  foldr (λ '(name, y) r, VField name y r) x pre.
Lemma prefixed_snoc pre name y x : prefixed (pre ++ [(name, y)]) x = prefixed pre (VField name y x).
Proof. unfold prefixed. by rewrite foldr_app. Qed.
Lemma field_prefixed pre name y x :
  name ∉ pre.*1 → field name (prefixed pre (VField name y x)) = Some y.
Proof.
  induction pre as [|[m z] pre IH]; cbn; [by rewrite bool_decide_eq_true_2|].
  intros [Hne Hnin]%not_elem_of_cons. rewrite bool_decide_eq_false_2 by done. auto.
Qed.
Lemma set_field_prefixed pre name y y' x :
  name ∉ pre.*1 → set_field name y' (prefixed pre (VField name y x)) = prefixed pre (VField name y' x).
Proof.
  induction pre as [|[m z] pre IH]; cbn; [by rewrite bool_decide_eq_true_2|].
  intros [Hne Hnin]%not_elem_of_cons. rewrite bool_decide_eq_false_2 by done. f_equal. auto.
Qed.

Lemma made_field name t rest h0 b h x xs y ys :
  made t h0 b h x y → made rest h0 b h xs ys →
  made (TField name t rest) h0 b h (VField name x xs) (VField name y ys).
Proof. intros [Hs Hi] [Hs' Hi']. split; [by split_and!|]. intros l [Hl|Hl]; auto. Qed.

Lemma copy_fields_made fs t : covers fs t → ∀ pre pre' h0 x h,
  pre.*1 = pre'.*1 → NoDup (pre.*1 ++ field_names t) → well_typed t h0 x → h0 ⊆ h →
  ∃ y h', copy_fields fs (prefixed pre x) (prefixed pre' x) h = (Ok (prefixed pre' y), h') ∧
    h ⊆ h' ∧ made t h0 h0 h' x y.
Proof.
  induction 1 as [|name f fs t rest Hf Hc IH|name fs t rest Hf Hc IH];
    intros pre pre' h0 x h Hpre Hnd Hx Hsub.
  { exists x, h. split_and!; [done..|]. split; [|by intros l; destruct x].
    by destruct x. }
  all: destruct x as [| |m x xs| | |]; try done; destruct Hx as ([-> _] & Hx & Hxs).
  all: cbn [field_names] in Hnd;
    assert (NoDup ((pre ++ [(name, x)]).*1 ++ field_names rest)) as Hnd'
      by (rewrite fmap_app, <-app_assoc; exact Hnd);
    apply NoDup_app in Hnd as (_ & Hnin & _);
    assert (name ∉ pre.*1) as Hname by (intros Hn; apply (Hnin _ Hn); by left).
  - assert (older h0 h) as Hold by (intros l Hl; by eapply lookup_weaken_None).
    destruct (copied_at t f h0 h0 h x Hf Hx Hsub Hold) as (y & h1 & Hrun & Hh1 & Hy).
    destruct (IH (pre ++ [(name, x)]) (pre' ++ [(name, y)]) h0 xs h1) as (ys & h' & Hrun' & Hh' & Hys);
      [by rewrite !fmap_app, Hpre|done|done|by trans h|].
    exists (VField name y ys), h'. split_and!; [|by trans h1|].
    + cbn [copy_fields]. unfold get_field at 1. rewrite field_prefixed by done.
      rewrite (bind_run _ _ h x h) by done. rewrite (bind_run _ _ _ _ _ Hrun).
      rewrite set_field_prefixed by by rewrite <-Hpre. by rewrite <-!prefixed_snoc.
    + apply made_field; [by apply (made_mono _ _ _ h1)|done].
  - destruct (IH (pre ++ [(name, x)]) (pre' ++ [(name, x)]) h0 xs h) as (ys & h' & Hrun' & Hh' & Hys);
      [by rewrite !fmap_app, Hpre|done..|].
    exists (VField name x ys), h'. split_and!; [by rewrite <-!prefixed_snoc|done|].
    apply made_field; [|done]. split.
    + apply typed_mono; [by trans h|done].
    + intros l Hl. by destruct (flat_reaches t h' x l).
Qed.

Lemma copies_struct fs t : covers fs t → NoDup (field_names t) → copies t (copy_struct fs).
Proof. intros Hc Hnd h x Hx. by apply (copy_fields_made fs t Hc [] []). Qed.

(** ** What a deep copy is for *)

(** [v] in [h] and [v'] in the later heap [h'] hold the same data and share no
    cell: whatever is done to the cells that are new in [h'], the data of [v]
    stays, and whatever is done to the cells that were in [h], that of [v']. *)
Definition independent (t : Ty) (h : Heap) (v : Val) (h' : Heap) (v' : Val) : Prop :=
  same t h v h' v' ∧
  (∀ h'', (∀ l, is_Some (h !! l) → h'' !! l = h !! l) → same t h v h'' v) ∧
  (∀ h'', (∀ l, h !! l = None → h'' !! l = h' !! l) → same t h v h'' v').

Lemma made_independent t h h' v v' :
  well_typed t h v → made t h h h' v v' → independent t h v h' v'.
Proof.
  intros Hv [Hs Hi]. split_and!; [done|..].
  - intros h'' Hh. apply (same_agree t h v h); [|done].
    intros l Hl. apply Hh. by eapply reaches_dom.
  - intros h'' Hh. apply (same_agree t h v h'); [|done]. intros l Hl. by apply Hh, Hi.
Qed.

(** ** The copy of a type *)

(** What [DeepCopyInto] of a type would be if it were derived from the type. *)
Fixpoint generic_copy `{MapRange} (t : Ty) : Copier :=
  match t with
  | TBasic _ | TEnd => assign
  | TField name t rest => λ v,
      match v with
      | VField m x xs => y ← generic_copy t x; ys ← generic_copy rest xs; mret (VField m y ys)
      | _ => mret v
      end
  | TPtr t => copy_ptr t (generic_copy t)
  | TSlice t => copy_slice t (generic_copy t)
  | TMap t => copy_map (generic_copy t)
  end.
Lemma copies_generic `{MapRange} t : copies t (generic_copy t).
Proof.
  induction t as [b| |name t IHt rest IHr|t IH|t IH|t IH];
    [by apply copies_flat..| |by apply copies_ptr|by apply copies_slice|by apply copies_map].
  intros h v Hv. destruct v as [| |m x xs| | |]; try done. destruct Hv as ([-> _] & Hx & Hxs).
  destruct (IHt h x Hx) as (y & h1 & Hrun & Hh1 & Hy).
  destruct (copied_at rest _ h h h1 xs IHr Hxs Hh1) as (ys & h2 & Hrun2 & Hh2 & Hys).
  { intros l Hl. by eapply lookup_weaken_None. }
  exists (VField name y ys), h2. split_and!; [|by trans h1|].
  - cbn [generic_copy]. rewrite (bind_run _ _ _ _ _ Hrun). by rewrite (bind_run _ _ _ _ _ Hrun2).
  - apply made_field; [by apply (made_mono _ _ _ h1)|done].
Qed.
