(* ===== verification/GoStd.v ===== *)
(** * The parts of Go's standard library the sources use

    Byte-level models of [strings.HasPrefix], [strings.TrimSpace], [regexp]
    (the operators the sources use), [strconv.Itoa], [strconv.ParseInt],
    [filepath.Clean], [filepath.Join] and [filepath.Dir]. A Go string is a
    sequence of bytes, as a Rocq [string] is. *)

From S2P Require Import Prelude.
From Stdlib Require Import Ascii.
From Stdlib Require String.
#[local] Open Scope stdpp_scope.

Abbreviation chars := Stdlib.Strings.String.list_ascii_of_string.
Abbreviation unchars := Stdlib.Strings.String.string_of_list_ascii.

(** ** strings *)

Definition HasPrefix (s prefix : string) : bool := Stdlib.Strings.String.prefix prefix s.

(** [strings.TrimSpace] cuts the code points for which [unicode.IsSpace]
    holds; these are their UTF-8 encodings. *)
Definition byte (n : nat) : ascii := Ascii.ascii_of_nat n.
Definition space_seqs : list (list ascii) :=
  ((λ n, [byte n]) <$> [9; 10; 11; 12; 13; 32]) ++
  ((λ n, [byte 194; byte n]) <$> [133; 160]) ++
  [[byte 225; byte 154; byte 128]] ++
  ((λ n, [byte 226; byte 128; byte n]) <$>
     [128; 129; 130; 131; 132; 133; 134; 135; 136; 137; 138; 168; 169; 175]) ++
  [[byte 226; byte 129; byte 159]; [byte 227; byte 128; byte 128]].

(** Drop [p] from the front of [l], when it is there. *)
Fixpoint strip_prefix (p l : list ascii) : option (list ascii) :=
  match p, l with
  | [], _ => Some l
  | a :: p, b :: l => if decide (a = b) then strip_prefix p l else None
  | _ :: _, [] => None
  end.

Fixpoint strip_any (ps : list (list ascii)) (l : list ascii) : option (list ascii) :=
  match ps with
  | [] => None
  | p :: ps => match strip_prefix p l with Some r => Some r | None => strip_any ps l end
  end.

(** Every cut removes at least one byte, so the length is enough fuel. *)
Fixpoint trim_front (fuel : nat) (ps : list (list ascii)) (l : list ascii) : list ascii :=
  match fuel with
  | 0 => l
  | S fuel => match strip_any ps l with
              | Some r => trim_front fuel ps r
              | None => l
              end
  end.

Definition trim_left (ps : list (list ascii)) (l : list ascii) : list ascii :=
  trim_front (length l) ps l.

Definition TrimSpace (s : string) : string :=
  let l := trim_left space_seqs (chars s) in
  unchars (reverse (trim_left (reverse <$> space_seqs) (reverse l))).

Example TrimSpace_both : TrimSpace "  object.metadata  " = "object.metadata".
Proof. vm_compute. reflexivity. Qed.
Example TrimSpace_blank : TrimSpace "   " = "".
Proof. vm_compute. reflexivity. Qed.

(** ** regexp *)

Inductive regex : Type :=
| RNone
| REps
| RClass (p : ascii → bool)
| RAlt (r1 r2 : regex)
| RSeq (r1 r2 : regex)
| RStar (r : regex).

Fixpoint nullable (r : regex) : bool :=
  match r with
  | RNone | RClass _ => false
  | REps | RStar _ => true
  | RAlt r1 r2 => nullable r1 || nullable r2
  | RSeq r1 r2 => nullable r1 && nullable r2
  end.

Fixpoint deriv (c : ascii) (r : regex) : regex :=
  match r with
  | RNone | REps => RNone
  | RClass p => if p c then REps else RNone
  | RAlt r1 r2 => RAlt (deriv c r1) (deriv c r2)
  | RSeq r1 r2 =>
      let d := RSeq (deriv c r1) r2 in
      if nullable r1 then RAlt d (deriv c r2) else d
  | RStar r' => RSeq (deriv c r') r
  end.

Fixpoint rmatch (r : regex) (s : list ascii) : bool :=
  match s with
  | [] => nullable r
  | c :: s => rmatch (deriv c r) s
  end.

(** [Regexp.MatchString] for an expression anchored at both ends. *)
Definition MatchString (r : regex) (s : string) : bool := rmatch r (chars s).

Lemma rmatch_alt r1 r2 s : rmatch (RAlt r1 r2) s = rmatch r1 s || rmatch r2 s.
Proof. revert r1 r2. induction s as [|c s IH]; intros; simpl; [done|apply IH]. Qed.

Lemma rmatch_none_seq r s : rmatch (RSeq RNone r) s = false.
Proof. induction s as [|c s IH]; [done|apply IH]. Qed.

Lemma rmatch_eps_seq r s : rmatch (RSeq REps r) s = rmatch r s.
Proof.
  destruct s as [|c s]; [done|]. simpl. rewrite rmatch_alt.
  by rewrite rmatch_none_seq.
Qed.

Lemma rmatch_class_seq p r c s :
  rmatch (RSeq (RClass p) r) (c :: s) = p c && rmatch r s.
Proof.
  simpl. destruct (p c); [apply rmatch_eps_seq|apply rmatch_none_seq].
Qed.

Lemma rmatch_class_star p s : rmatch (RStar (RClass p)) s = forallb p s.
Proof.
  induction s as [|c s IH]; [done|]. cbn [rmatch deriv forallb].
  destruct (p c); simpl.
  - by rewrite rmatch_eps_seq.
  - by rewrite rmatch_none_seq.
Qed.

(** Characters of the classes the sources use. *)
Definition in_range (lo hi c : ascii) : bool :=
  (Ascii.nat_of_ascii lo <=? Ascii.nat_of_ascii c) &&
  (Ascii.nat_of_ascii c <=? Ascii.nat_of_ascii hi).
Definition is_lower (c : ascii) : bool := in_range "a" "z" c.
Definition is_upper (c : ascii) : bool := in_range "A" "Z" c.
Definition is_digit (c : ascii) : bool := in_range "0" "9" c.

(** ** Small string lemmas shared by the components *)

Lemma string_app_cons x (a b : string) : String x a +:+ b = String x (a +:+ b).
Proof. done. Qed.

Lemma string_app_assoc (a b c : string) : (a +:+ b) +:+ c = a +:+ (b +:+ c).
Proof. induction a as [|x a IH]; [done|]. by rewrite !string_app_cons, IH. Qed.

Lemma string_app_length (a b : string) :
  Stdlib.Strings.String.length (a +:+ b) =
  (Stdlib.Strings.String.length a + Stdlib.Strings.String.length b)%nat.
Proof. induction a as [|x a IH]; [done|]. rewrite string_app_cons. simpl. by rewrite IH. Qed.

Lemma string_app_inv_r (a b c : string) : a +:+ b = a +:+ c → b = c.
Proof. apply (inj (String.app a)). Qed.

Lemma chars_app (a b : string) : chars (a +:+ b) = chars a ++ chars b.
Proof. induction a as [|x a IH]; [done|]. rewrite string_app_cons. simpl. by rewrite IH. Qed.

(** ** strconv *)

Definition Itoa (z : Z) : string := pretty z.

Definition digit_value (c : ascii) : Z :=
  Z.of_nat (Ascii.nat_of_ascii c - Ascii.nat_of_ascii "0").

Fixpoint parse_digits (acc : Z) (l : list ascii) : option Z :=
  match l with
  | [] => Some acc
  | c :: l => if is_digit c then parse_digits (10 * acc + digit_value c) l else None
  end.

Definition max_int32 : Z := 2147483647.
Definition min_int32 : Z := -2147483648.

(** [strconv.ParseInt(s, 10, 32)]: an optional sign, at least one digit, and
    the value in the range of an int32. [None] is the returned error. *)
Definition ParseInt32 (s : string) : option Z :=
  let signed neg l :=
    match l with
    | [] => None
    | _ => v ← parse_digits 0 l;
           let v := if (neg : bool) then (- v)%Z else v in
           if bool_decide (min_int32 ≤ v ≤ max_int32)%Z then Some v else None
    end in
  match chars s with
  | "-"%char :: l => signed true l
  | "+"%char :: l => signed false l
  | l => signed false l
  end.

Lemma ParseInt32_bounds s v : ParseInt32 s = Some v → (min_int32 ≤ v ≤ max_int32)%Z.
Proof.
  unfold ParseInt32. intros H.
  repeat (case_match; simplify_eq; try done);
    repeat match goal with
    | H : _ ≫= _ = Some _ |- _ => apply bind_Some in H as (? & ? & ?)
    | H : (if bool_decide ?P then _ else _) = Some _ |- _ =>
        destruct (decide P); [rewrite bool_decide_eq_true_2 in H by done
                             |rewrite bool_decide_eq_false_2 in H by done]
    end; simplify_eq; done.
Qed.

(** Parsing what [Itoa] printed. *)
Lemma parse_digits_cons d acc l :
  (d < 10)%N →
  parse_digits acc (pretty_N_char d :: l) = parse_digits (10 * acc + Z.of_N d) l.
Proof.
  intros Hd. assert (is_digit (pretty_N_char d) = true ∧ digit_value (pretty_N_char d) = Z.of_N d)
    as [Hdig Hval].
  { destruct d as [|d]; [done|]. do 4 (destruct d as [d|d|]; try done; try lia). }
  cbn [parse_digits]. by rewrite Hdig, Hval.
Qed.

Lemma parse_digits_pretty x s :
  parse_digits 0 (chars (pretty_N_go x s)) = parse_digits (Z.of_N x) (chars s).
Proof.
  revert s. induction x as [x IH] using (well_founded_induction N.lt_wf_0). intros s.
  destruct (decide (0 < x)%N) as [Hx|Hx]; [|by replace x with 0%N by lia].
  rewrite pretty_N_go_step by done. rewrite IH by (apply N.div_lt; lia). cbn [chars].
  rewrite parse_digits_cons by (apply N.mod_lt; lia). f_equal.
  rewrite N2Z.inj_div, N2Z.inj_mod. pose proof (Z.div_mod (Z.of_N x) 10). lia.
Qed.

Lemma ParseInt32_unsigned l v :
  parse_digits 0 l = Some v → l ≠ [] →
  ParseInt32 (unchars l) = (if bool_decide (min_int32 ≤ v ≤ max_int32)%Z then Some v else None).
Proof.
  intros Hv Hl. destruct l as [|c l]; [done|]. unfold ParseInt32.
  rewrite String.list_ascii_of_string_of_list_ascii.
  assert (c ≠ "-"%char ∧ c ≠ "+"%char) as [Hm Hp].
  { cbn [parse_digits] in Hv. by split; intros ->. }
  destruct c as [[] [] [] [] [] [] [] []]; try done; by rewrite Hv.
Qed.

Lemma pretty_pos_digits p :
  parse_digits 0 (chars (pretty (N.pos p))) = Some (Z.pos p) ∧ chars (pretty (N.pos p)) ≠ [].
Proof.
  unfold pretty, pretty_N. rewrite decide_False by done.
  rewrite parse_digits_pretty. split; [done|]. intros Hnil.
  pose proof (parse_digits_pretty (N.pos p) "") as Hp. by rewrite Hnil in Hp.
Qed.

Lemma ParseInt32_Itoa z :
  ParseInt32 (Itoa z) =
  (if bool_decide (min_int32 ≤ z ≤ max_int32)%Z then Some z else None).
Proof.
  unfold Itoa. destruct z as [|p|p].
  - done.
  - destruct (pretty_pos_digits p) as [Hd Hne]. rewrite <-(ParseInt32_unsigned _ _ Hd Hne).
    by rewrite String.string_of_list_ascii_of_string.
  - destruct (pretty_pos_digits p) as [Hd Hne]. unfold pretty, pretty_Z, ParseInt32.
    rewrite chars_app. change (pretty p) with (pretty (N.pos p)). cbn [chars app].
    destruct (chars (pretty (N.pos p))) as [|c l]; [done|].
    change (Z.neg p) with (- Z.pos p)%Z. by rewrite Hd.
Qed.

Lemma Itoa_nonempty z : Itoa z ≠ "".
Proof.
  destruct z as [|p|p]; [done| |done]. destruct (pretty_pos_digits p) as [_ Hne].
  intros Hz. apply Hne. change (pretty (N.pos p)) with (Itoa (Z.pos p)). by rewrite Hz.
Qed.

(** ** path/filepath *)

Fixpoint split_slash_go (cur : list ascii) (l : list ascii) : list (list ascii) :=
  match l with
  | [] => [reverse cur]
  | c :: l => if decide (c = "/"%char)
              then reverse cur :: split_slash_go [] l
              else split_slash_go (c :: cur) l
  end.
Definition split_slash (s : string) : list string :=
  unchars <$> split_slash_go [] (chars s).

Fixpoint join_slash (l : list string) : string :=
  match l with
  | [] => ""
  | [x] => x
  | x :: l => x +:+ "/" +:+ join_slash l
  end.

(** One path element against the (reversed) cleaned prefix. *)
Definition clean_step (rooted : bool) (stack : list string) (e : string) : list string :=
  if bool_decide (e = "" ∨ e = ".") then stack
  else if bool_decide (e = "..") then
    match stack with
    | [] => if rooted then [] else [".."]
    | top :: rest => if bool_decide (top = "..") then e :: stack else rest
    end
  else e :: stack.

Definition Clean (p : string) : string :=
  let rooted := HasPrefix p "/" in
  let stack := foldl (clean_step rooted) [] (split_slash p) in
  let body := join_slash (reverse stack) in
  if rooted then "/" +:+ body
  else if bool_decide (stack = []) then "." else body.

(** [filepath.Join]: the non-empty elements joined with a slash, cleaned; the
    empty string when all are empty. *)
Definition filepath_Join (elems : list string) : string :=
  match filter (λ e, e ≠ "") elems with
  | [] => ""
  | es => Clean (join_slash es)
  end.

(** [filepath.Dir]: everything before the last slash, cleaned. *)
Fixpoint drop_to_slash (l : list ascii) : list ascii :=
  match l with
  | [] => []
  | c :: l' => if decide (c = "/"%char) then l else drop_to_slash l'
  end.
Definition filepath_Dir (p : string) : string :=
  Clean (unchars (reverse (drop_to_slash (reverse (chars p))))).

Example Join_tls : filepath_Join ["/pki"; "tls.crt"] = "/pki/tls.crt".
Proof. vm_compute. reflexivity. Qed.
Example Dir_cert : filepath_Dir "/certs/otel/ca.crt" = "/certs/otel".
Proof. vm_compute. reflexivity. Qed.
Example Dir_empty : filepath_Dir "" = ".".
Proof. vm_compute. reflexivity. Qed.
Example Clean_dots : Clean "/a/../../b//./c/" = "/b/c".
Proof. vm_compute. reflexivity. Qed.
