(* ===== verification/Json.v ===== *)
(** * JSON: values, the text encoding of [encoding/json], and its round trip

    [json] is a JSON document; object members keep their order. [Marshal]
    prints a document as [json.Marshal] does (compact, with Go's escapes) and
    [Unmarshal] is a parser for JSON text. Strings are byte sequences holding
    valid UTF-8, as every string of the Kubernetes API does: bytes from 128 up
    are copied. Number literals are kept as text. *)

From S2P Require Import Prelude GoStd.
From Stdlib Require Import Ascii.

Inductive json : Type :=
| JNull
| JBool (b : bool)
| JNum (lit : string)
| JStr (s : string)
| JArr (elems : list json)
| JObj (members : list (string * json)).

#[export] Instance json_eq_dec : EqDecision json.
Proof.
  refine (fix go (j1 j2 : json) : Decision (j1 = j2) :=
    let _ : EqDecision json := @go in
    match j1, j2 with
    | JNull, JNull => left eq_refl
    | JBool b1, JBool b2 => cast_if (decide (b1 = b2))
    | JNum s1, JNum s2 | JStr s1, JStr s2 => cast_if (decide (s1 = s2))
    | JArr l1, JArr l2 => cast_if (decide (l1 = l2))
    | JObj l1, JObj l2 => cast_if (decide (l1 = l2))
    | _, _ => right _
    end); congruence.
Defined.

(** Induction over documents, with the hypothesis for every element of an
    array and every member of an object. *)
Section json_induction.
Variable P : json → Prop.
Hypothesis Hnull : P JNull.
Hypothesis Hbool : ∀ b, P (JBool b).
Hypothesis Hnum : ∀ lit, P (JNum lit).
Hypothesis Hstr : ∀ s, P (JStr s).
Hypothesis Harr : ∀ l, Forall P l → P (JArr l).
Hypothesis Hobj : ∀ l, Forall (λ kv, P kv.2) l → P (JObj l).

Fixpoint json_ind_full (j : json) : P j :=
  match j with
  | JNull => Hnull
  | JBool b => Hbool b
  | JNum lit => Hnum lit
  | JStr s => Hstr s
  | JArr l => Harr l
      ((fix go l : Forall P l :=
          match l with
          | [] => Forall_nil_2 _
          | x :: l => Forall_cons_2 _ _ _ (json_ind_full x) (go l)
          end) l)
  | JObj l => Hobj l
      ((fix go l : Forall (λ kv, P kv.2) l :=
          match l with
          | [] => Forall_nil_2 _
          | x :: l => Forall_cons_2 _ _ _ (json_ind_full x.2) (go l)
          end) l)
  end.
End json_induction.

(** ** Printing *)

Abbreviation chr := (λ s : string, chars s).

Definition hex_digit (n : nat) : ascii :=
  if n <? 10 then byte (48 + n) else byte (87 + n).

(** The escape of one byte: quotes and backslashes, the control characters,
    and the characters unsafe in HTML. *)
Definition esc_char (c : ascii) : list ascii :=
  let n := Ascii.nat_of_ascii c in
  if bool_decide (n = 34 ∨ n = 92) then [byte 92; c]
  else if bool_decide (n = 8) then chars "\b"
  else if bool_decide (n = 12) then chars "\f"
  else if bool_decide (n = 10) then chars "\n"
  else if bool_decide (n = 13) then chars "\r"
  else if bool_decide (n = 9) then chars "\t"
  else if (n <? 32) || bool_decide (n = 60 ∨ n = 62 ∨ n = 38)
  then chars "\u00" ++ [hex_digit (n / 16); hex_digit (n mod 16)]
  else [c].

(** U+2028 and U+2029, which Go escapes too. *)
Definition is_line_sep (a b c : ascii) : bool :=
  bool_decide (a = byte 226) && bool_decide (b = byte 128) && bool_decide (c = byte 168).
Definition is_para_sep (a b c : ascii) : bool :=
  bool_decide (a = byte 226) && bool_decide (b = byte 128) && bool_decide (c = byte 169).

Fixpoint esc (l : list ascii) : list ascii :=
  match l with
  | [] => []
  | a :: l' =>
      match l' with
      | b :: c :: r =>
          if is_line_sep a b c then chars "\u2028" ++ esc r
          else if is_para_sep a b c then chars "\u2029" ++ esc r
          else esc_char a ++ esc l'
      | _ => esc_char a ++ esc l'
      end
  end.

Definition quote : ascii := byte 34.
(** A string between quotes, unescaped. *)
Definition quoted (s : string) : string := String quote (s +:+ String quote EmptyString).
Definition print_str (s : string) : list ascii := quote :: esc (chars s) ++ [quote].

Fixpoint sep_concat (ls : list (list ascii)) : list ascii :=
  match ls with
  | [] => []
  | [x] => x
  | x :: ls => x ++ "," %char :: sep_concat ls
  end.

Fixpoint print (j : json) : list ascii :=
  match j with
  | JNull => chars "null"
  | JBool true => chars "true"
  | JBool false => chars "false"
  | JNum lit => chars lit
  | JStr s => print_str s
  | JArr l => "["%char :: sep_concat (print <$> l) ++ ["]"%char]
  | JObj l => "{"%char :: sep_concat
      ((λ kv, print_str kv.1 ++ ":"%char :: print kv.2) <$> l) ++ ["}"%char]
  end.

(** ** Parsing *)

Definition is_ws (c : ascii) : bool :=
  bool_decide (Ascii.nat_of_ascii c ∈ [9; 10; 13; 32]).

Fixpoint skip_ws (l : list ascii) : list ascii :=
  match l with
  | c :: l' => if is_ws c then skip_ws l' else l
  | [] => []
  end.

Definition hex_value (c : ascii) : option nat :=
  let n := Ascii.nat_of_ascii c in
  if is_digit c then Some (n - 48)
  else if in_range "a" "f" c then Some (n - 87)
  else if in_range "A" "F" c then Some (n - 55)
  else None.

Definition hex4 (a b c d : ascii) : option nat :=
  a ← hex_value a; b ← hex_value b; c ← hex_value c; d ← hex_value d;
  Some (16 * (16 * (16 * a + b) + c) + d).

Definition utf8 (cp : nat) : list ascii :=
  if cp <? 128 then [byte cp]
  else if cp <? 2048 then [byte (192 + cp / 64); byte (128 + cp mod 64)]
  else if cp <? 65536 then
    [byte (224 + cp / 4096); byte (128 + cp / 64 mod 64); byte (128 + cp mod 64)]
  else [byte (240 + cp / 262144); byte (128 + cp / 4096 mod 64);
        byte (128 + cp / 64 mod 64); byte (128 + cp mod 64)].

Definition simple_escape (c : ascii) : option ascii :=
  match Ascii.nat_of_ascii c with
  | 34 => Some (byte 34) | 92 => Some (byte 92) | 47 => Some (byte 47)
  | 98 => Some (byte 8) | 102 => Some (byte 12) | 110 => Some (byte 10)
  | 114 => Some (byte 13) | 116 => Some (byte 9)
  | _ => None
  end.

Definition is_high_surrogate (n : nat) : bool := (55296 <=? n) && (n <? 56320).
Definition is_low_surrogate (n : nat) : bool := (56320 <=? n) && (n <? 57344).

(** The characters of a string literal up to its closing quote. A surrogate
    pair is one code point, a lone surrogate is U+FFFD. *)
Fixpoint parse_str (l : list ascii) : option (list ascii * list ascii) :=
  match l with
  | [] => None
  | c :: r =>
      if bool_decide (c = quote) then Some ([], r)
      else if bool_decide (c = byte 92) then
        match r with
        | [] => None
        | e :: r1 =>
            if bool_decide (e = "u"%char) then
              match r1 with
              | h1 :: h2 :: h3 :: h4 :: r2 =>
                  n ← hex4 h1 h2 h3 h4;
                  if is_high_surrogate n then
                    match r2 with
                    | b :: u :: g1 :: g2 :: g3 :: g4 :: r3 =>
                        match hex4 g1 g2 g3 g4 with
                        | Some m =>
                            if bool_decide (b = byte 92) && bool_decide (u = "u"%char)
                               && is_low_surrogate m
                            then '(s, rest) ← parse_str r3;
                                 Some (utf8 (65536 + (n - 55296) * 1024 + (m - 56320)) ++ s, rest)
                            else '(s, rest) ← parse_str r2; Some (utf8 65533 ++ s, rest)
                        | None => '(s, rest) ← parse_str r2; Some (utf8 65533 ++ s, rest)
                        end
                    | _ => '(s, rest) ← parse_str r2; Some (utf8 65533 ++ s, rest)
                    end
                  else
                    '(s, rest) ← parse_str r2;
                    Some (utf8 (if is_low_surrogate n then 65533 else n) ++ s, rest)
              | _ => None
              end
            else
              c' ← simple_escape e;
              '(s, rest) ← parse_str r1; Some (c' :: s, rest)
        end
      else if Ascii.nat_of_ascii c <? 32 then None
      else '(s, rest) ← parse_str r; Some (c :: s, rest)
  end.

Definition num_char (c : ascii) : bool :=
  is_digit c || bool_decide (c ∈ ["-"; "+"; "."; "e"; "E"]%char).

Fixpoint span_num (l : list ascii) : list ascii * list ascii :=
  match l with
  | c :: l' => if num_char c then let '(a, b) := span_num l' in (c :: a, b) else ([], l)
  | [] => ([], [])
  end.

Definition rchar (c : ascii) : regex := RClass (λ x, bool_decide (x = c)).
Definition ropt (r : regex) : regex := RAlt REps r.
Definition rdigits : regex := RSeq (RClass is_digit) (RStar (RClass is_digit)).
Definition num_regex : regex :=
  RSeq (ropt (rchar "-"))
  (RSeq (RAlt (rchar "0") (RSeq (RClass (in_range "1" "9")) (RStar (RClass is_digit))))
  (RSeq (ropt (RSeq (rchar ".") rdigits))
        (ropt (RSeq (RAlt (rchar "e") (rchar "E"))
               (RSeq (ropt (RAlt (rchar "+") (rchar "-"))) rdigits))))).

Definition parse_num (l : list ascii) : option (json * list ascii) :=
  let '(a, b) := span_num l in
  if rmatch num_regex a then Some (JNum (unchars a), b) else None.

Definition expect (p : string) (v : json) (l : list ascii) : option (json * list ascii) :=
  r ← strip_prefix (chars p) l; Some (v, r).

Fixpoint parse_value (fuel : nat) (l : list ascii) {struct fuel} : option (json * list ascii) :=
  match fuel with
  | 0 => None
  | S fuel =>
      let l := skip_ws l in
      match l with
      | [] => None
      | c :: r =>
          if bool_decide (c = "n"%char) then expect "null" JNull l
          else if bool_decide (c = "t"%char) then expect "true" (JBool true) l
          else if bool_decide (c = "f"%char) then expect "false" (JBool false) l
          else if bool_decide (c = quote) then
            '(s, rest) ← parse_str r; Some (JStr (unchars s), rest)
          else if bool_decide (c = "["%char) then
            match skip_ws r with
            | c' :: rest => if bool_decide (c' = "]"%char) then Some (JArr [], rest)
                            else '(es, rest) ← parse_elems fuel r; Some (JArr es, rest)
            | [] => None
            end
          else if bool_decide (c = "{"%char) then
            match skip_ws r with
            | c' :: rest => if bool_decide (c' = "}"%char) then Some (JObj [], rest)
                            else '(ms, rest) ← parse_members fuel r; Some (JObj ms, rest)
            | [] => None
            end
          else parse_num l
      end
  end
with parse_elems (fuel : nat) (l : list ascii) {struct fuel} : option (list json * list ascii) :=
  match fuel with
  | 0 => None
  | S fuel =>
      '(v, r) ← parse_value fuel l;
      match skip_ws r with
      | c :: rest =>
          if bool_decide (c = ","%char) then
            '(vs, rest) ← parse_elems fuel rest; Some (v :: vs, rest)
          else if bool_decide (c = "]"%char) then Some ([v], rest) else None
      | [] => None
      end
  end
with parse_members (fuel : nat) (l : list ascii) {struct fuel}
    : option (list (string * json) * list ascii) :=
  match fuel with
  | 0 => None
  | S fuel =>
      match skip_ws l with
      | q :: r =>
          if bool_decide (q = quote) then
            '(k, r) ← parse_str r;
            match skip_ws r with
            | col :: r =>
                if bool_decide (col = ":"%char) then
                  '(v, r) ← parse_value fuel r;
                  match skip_ws r with
                  | c :: rest =>
                      if bool_decide (c = ","%char) then
                        '(ms, rest) ← parse_members fuel rest;
                        Some ((unchars k, v) :: ms, rest)
                      else if bool_decide (c = "}"%char)
                      then Some ([(unchars k, v)], rest) else None
                  | [] => None
                  end
                else None
            | [] => None
            end
          else None
      | [] => None
      end
  end.

(** [json.Marshal] and [json.Unmarshal] between text and documents. Every
    nesting level and every element uses at most two characters' worth of
    fuel. *)
Definition Marshal (j : json) : string := unchars (print j).
Definition Unmarshal (s : string) : option json :=
  let l := chars s in
  '(v, rest) ← parse_value (2 * length l + 2) l;
  match skip_ws rest with [] => Some v | _ => None end.

Example Marshal_escapes :
  Marshal (JObj [("a<b", JArr [JNum "-1.5e3"; JBool true; JNull]); ("q", JStr "tab	nl")])
  = "{" +:+ unchars (print_str "a<b") +:+ ":[-1.5e3,true,null]," +:+
    unchars (print_str "q") +:+ ":" +:+ unchars (print_str "tab	nl") +:+ "}".
Proof. vm_compute. reflexivity. Qed.

(** ** The round trip *)

Lemma chars_unchars l : chars (unchars l) = l.
Proof. apply Stdlib.Strings.String.list_ascii_of_string_of_list_ascii. Qed.
Lemma unchars_chars s : unchars (chars s) = s.
Proof. apply Stdlib.Strings.String.string_of_list_ascii_of_string. Qed.

(** Reading one escaped byte. *)
Lemma parse_str_esc_char c l :
  parse_str (esc_char c ++ l) = '(s, r) ← parse_str l; Some (c :: s, r).
Proof. destruct c as [[] [] [] [] [] [] [] []]; reflexivity. Qed.

Lemma parse_str_line_sep l :
  parse_str (chars "\u2028" ++ l) =
  '(s, r) ← parse_str l; Some ([byte 226; byte 128; byte 168] ++ s, r).
Proof. reflexivity. Qed.
Lemma parse_str_para_sep l :
  parse_str (chars "\u2029" ++ l) =
  '(s, r) ← parse_str l; Some ([byte 226; byte 128; byte 169] ++ s, r).
Proof. reflexivity. Qed.

Lemma parse_str_esc n l rest :
  length l ≤ n → parse_str (esc l ++ quote :: rest) = Some (l, rest).
Proof.
  revert l. induction n as [|n IH]; intros [|a l] Hn; try reflexivity; [simpl in Hn; lia|].
  assert (parse_str ((esc_char a ++ esc l) ++ quote :: rest) = Some (a :: l, rest)) as Hone.
  { rewrite <-(assoc_L (++)), parse_str_esc_char, IH; [done|]. simpl in Hn. lia. }
  cbn [esc]. destruct l as [|b [|c r]]; [apply Hone..|].
  unfold is_line_sep, is_para_sep.
  destruct (decide (a = byte 226)) as [->|?];
    [|rewrite (bool_decide_eq_false_2 (a = _)) by done; apply Hone].
  destruct (decide (b = byte 128)) as [->|?];
    [|rewrite (bool_decide_eq_false_2 (b = _)), andb_false_r by done; apply Hone].
  destruct (decide (c = byte 168)) as [->|?];
    [|destruct (decide (c = byte 169)) as [->|?]; [|
        rewrite !(bool_decide_eq_false_2 (c = _)) by done; apply Hone]].
  - cbn [andb bool_decide]. rewrite !bool_decide_eq_true_2 by done. cbn [andb].
    rewrite <-(assoc_L (++)), parse_str_line_sep, IH; [done|]. simpl in Hn. lia.
  - rewrite (bool_decide_eq_false_2 (byte 169 = byte 168)) by done.
    rewrite !bool_decide_eq_true_2 by done. cbn [andb].
    rewrite <-(assoc_L (++)), parse_str_para_sep, IH; [done|]. simpl in Hn. lia.
Qed.

Lemma parse_str_print s rest :
  parse_str (esc (chars s) ++ [quote] ++ rest) = Some (chars s, rest).
Proof. by apply (parse_str_esc (length (chars s))). Qed.

(** A document Go can produce: its number literals are JSON numbers. *)
Fixpoint json_ok (j : json) : bool :=
  match j with
  | JNum lit => MatchString num_regex lit && forallb num_char (chars lit)
  | JArr l => forallb json_ok l
  | JObj l => forallb (λ kv, json_ok kv.2) l
  | _ => true
  end.

(** Fuel the parser uses on the printed form. *)
Fixpoint jsize (j : json) : nat :=
  match j with
  | JArr l => S (sum_list_with (λ x, S (jsize x)) l)
  | JObj l => S (sum_list_with (λ kv, S (jsize kv.2)) l)
  | _ => 1
  end.

(** What may follow a value: nothing, or a byte that is not part of a number. *)
Definition delim (l : list ascii) : Prop :=
  match l with [] => True | c :: _ => num_char c = false end.

Lemma span_num_app a rest :
  forallb num_char a = true → delim rest → span_num (a ++ rest) = (a, rest).
Proof.
  intros Ha Hr. induction a as [|c a IH]; simpl in *.
  - destruct rest as [|c rest]; [done|]. simpl in Hr. simpl. by rewrite Hr.
  - apply andb_prop in Ha as [Hc Ha]. rewrite Hc. by rewrite IH.
Qed.

(** The first byte of a number is none of the bytes that start the other
    values, and is not white space. *)
Definition num_start_ok (c : ascii) : bool :=
  negb (is_ws c) && forallb (λ d, negb (bool_decide (c = d)))
    ["n"%char; "t"%char; "f"%char; quote; "["%char; "{"%char; "]"%char; "}"%char].

Lemma num_char_start c : num_char c = true → num_start_ok c = true.
Proof. destruct c as [[] [] [] [] [] [] [] []]; vm_compute; done. Qed.

Lemma num_nonempty lit :
  json_ok (JNum lit) = true → ∃ c r, chars lit = c :: r ∧ num_char c = true.
Proof.
  cbn [json_ok]. intros [Hm Hc]%andb_prop. unfold MatchString in Hm.
  destruct (chars lit) as [|c r]; [done|]. simpl in Hc.
  apply andb_prop in Hc as [Hc _]. eauto.
Qed.

(** Facts about the byte tests of the parser, by evaluation. *)
Ltac eval_tests :=
  repeat match goal with
  | |- context [bool_decide (?a = ?b)] =>
      first [rewrite (bool_decide_eq_true_2 (a = b)) by reflexivity
            |rewrite (bool_decide_eq_false_2 (a = b)) by (vm_compute; congruence)]
  end; cbn [andb orb].

Lemma print_head j :
  json_ok j = true → ∃ c r, print j = c :: r ∧ is_ws c = false ∧ c ≠ "]"%char.
Proof.
  destruct j as [|[]|lit|s|l|l]; intros Hok; try (by eexists _, _; split_and!).
  apply num_nonempty in Hok as (c & r & Hl & Hc). exists c, r. cbn [print].
  apply num_char_start in Hc. unfold num_start_ok in Hc. cbn in Hc.
  destruct (is_ws c); [done|]. split_and!; [done..|].
  intros ->. vm_compute in Hc. done.
Qed.

Lemma skip_ws_print j rest : json_ok j = true → skip_ws (print j ++ rest) = print j ++ rest.
Proof. intros (c & r & -> & Hc & _)%print_head. simpl. by rewrite Hc. Qed.

Lemma parse_value_num fuel lit rest :
  json_ok (JNum lit) = true → delim rest →
  parse_value (S fuel) (chars lit ++ rest) = Some (JNum lit, rest).
Proof.
  intros Hok Hd. pose proof (num_nonempty _ Hok) as (c & r & Hl & Hc).
  pose proof (skip_ws_print (JNum lit) rest Hok) as Hws. cbn [print] in Hws.
  cbn [parse_value]. rewrite Hws. cbn [json_ok] in Hok. apply andb_prop in Hok as [Hm Hall].
  assert (parse_num (chars lit ++ rest) = Some (JNum lit, rest)) as Hnum.
  { unfold parse_num. rewrite span_num_app by done. unfold MatchString in Hm.
    by rewrite Hm, unchars_chars. }
  revert Hnum. rewrite Hl. cbn [app]. intros Hnum.
  apply num_char_start in Hc. unfold num_start_ok in Hc. cbn [forallb] in Hc.
  repeat match goal with
  | H : _ && _ = true |- _ => apply andb_prop in H as [? H]
  | H : negb ?b = true |- _ => apply negb_true_iff in H; rewrite ?H
  end. done.
Qed.

Lemma parse_elems_print l fuel rest :
  Forall (λ j, json_ok j = true ∧ ∀ fuel rest, jsize j ≤ fuel → delim rest →
               parse_value fuel (print j ++ rest) = Some (j, rest)) l →
  l ≠ [] → sum_list_with (λ x, S (jsize x)) l ≤ fuel →
  parse_elems fuel (sep_concat (print <$> l) ++ "]"%char :: rest) = Some (l, rest).
Proof.
  intros Hall. revert fuel. induction Hall as [|x l [_ Hx] Hall IH]; [done|].
  intros [|fuel] _ Hf; simpl in Hf; [lia|].
  destruct l as [|y l]; cbn [fmap list_fmap sep_concat parse_elems].
  - rewrite Hx by (simpl in *; try lia; done). reflexivity.
  - rewrite <-(assoc_L (++)), Hx by (simpl in *; try lia; done).
    cbn [mbind option_bind app skip_ws]. rewrite (eq_refl : is_ws "," = false).
    eval_tests. rewrite IH; [done|done|]. lia.
Qed.

Lemma parse_members_print l fuel rest :
  Forall (λ kv, json_ok kv.2 = true ∧ ∀ fuel rest, jsize kv.2 ≤ fuel → delim rest →
               parse_value fuel (print kv.2 ++ rest) = Some (kv.2, rest)) l →
  l ≠ [] → sum_list_with (λ kv, S (jsize kv.2)) l ≤ fuel →
  parse_members fuel
    (sep_concat ((λ kv, print_str kv.1 ++ ":"%char :: print kv.2) <$> l) ++ "}"%char :: rest)
  = Some (l, rest).
Proof.
  intros Hall. revert fuel. induction Hall as [|[k x] l [_ Hx] Hall IH]; [done|].
  intros [|fuel] _ Hf; simpl in Hf; [lia|]. simpl in Hx.
  assert (∀ tail, delim tail →
    parse_members (S fuel) ((print_str k ++ ":"%char :: print x) ++ tail) =
    match skip_ws tail with
    | c :: rest0 =>
        if bool_decide (c = ","%char) then
          '(ms, rest) ← parse_members fuel rest0; Some ((k, x) :: ms, rest)
        else if bool_decide (c = "}"%char) then Some ([(k, x)], rest0) else None
    | [] => None
    end) as Hmem.
  { intros tail Htail. unfold print_str.
    rewrite <-!(assoc_L (++)). cbn [app]. rewrite <-(assoc_L (++)). cbn [parse_members skip_ws].
    rewrite (eq_refl : is_ws quote = false). eval_tests.
    pose proof (parse_str_print k (":"%char :: print x ++ tail)) as Hk. cbn [app] in Hk.
    cbn [app]. rewrite Hk. cbn [mbind option_bind skip_ws].
    rewrite (eq_refl : is_ws ":" = false). eval_tests.
    rewrite Hx by (try lia; done). cbn [mbind option_bind].
    by rewrite unchars_chars. }
  destruct l as [|y l]; cbn [fmap list_fmap sep_concat].
  - rewrite Hmem by done. reflexivity.
  - rewrite <-(assoc_L (++)). cbn [app]. rewrite Hmem by done. cbn [skip_ws].
    rewrite (eq_refl : is_ws "," = false). eval_tests.
    rewrite IH; [done|done|]. lia.
Qed.

(** What the parser does on a value, as a predicate the induction carries. *)
Definition reads_back (j : json) : Prop :=
  json_ok j = true ∧ ∀ fuel rest, jsize j ≤ fuel → delim rest →
    parse_value fuel (print j ++ rest) = Some (j, rest).

Lemma parse_value_arr l fuel rest :
  Forall reads_back l → jsize (JArr l) ≤ S fuel →
  parse_value (S fuel) (print (JArr l) ++ rest) = Some (JArr l, rest).
Proof.
  intros Hall Hf. cbn [print app parse_value skip_ws].
  rewrite (eq_refl : is_ws "[" = false). eval_tests. rewrite <-(assoc_L (++)).
  destruct l as [|x l]; [reflexivity|].
  pose proof (parse_elems_print (x :: l) fuel rest Hall) as Hp.
  assert (∃ c r, sep_concat (print <$> x :: l) ++ ["]"%char] ++ rest = c :: r ∧
                 is_ws c = false ∧ c ≠ "]"%char) as (c & r & Hc & Hws & Hne).
  { inversion Hall as [|? ? [Hx _] _]; subst.
    apply print_head in Hx as (c & r & Hx & ? & ?).
    destruct l; cbn [fmap list_fmap sep_concat]; rewrite Hx; cbn [app]; eauto 6. }
  rewrite Hc. cbn [skip_ws]. rewrite Hws, (bool_decide_eq_false_2 (c = _)) by done.
  rewrite <-Hc. cbn [app] in *. rewrite Hp; [done|done|]. simpl in *. lia.
Qed.

Lemma parse_value_obj l fuel rest :
  Forall (λ kv, reads_back kv.2) l → jsize (JObj l) ≤ S fuel →
  parse_value (S fuel) (print (JObj l) ++ rest) = Some (JObj l, rest).
Proof.
  intros Hall Hf. cbn [print app parse_value skip_ws].
  rewrite (eq_refl : is_ws "{" = false). eval_tests. rewrite <-(assoc_L (++)).
  destruct l as [|[k x] l]; [reflexivity|].
  pose proof (parse_members_print ((k, x) :: l) fuel rest Hall) as Hp.
  assert (∃ r, sep_concat ((λ kv, print_str kv.1 ++ ":"%char :: print kv.2) <$> (k, x) :: l)
               ++ ["}"%char] ++ rest = quote :: r) as (r & Hc).
  { destruct l; cbn [fmap list_fmap sep_concat]; unfold print_str; cbn [app fst]; eauto. }
  rewrite Hc. cbn [skip_ws]. rewrite (eq_refl : is_ws quote = false). eval_tests.
  rewrite <-Hc. cbn [app] in *. rewrite Hp; [done|done|]. simpl in *. lia.
Qed.

Lemma forallb_Forall_true {A} (f : A → bool) l :
  forallb f l = true ↔ Forall (λ x, f x = true) l.
Proof. rewrite forallb_forall, Forall_forall. by setoid_rewrite list_elem_of_In. Qed.

(** The parser reads back the printed document, whatever follows it. *)
Lemma parse_value_print j : json_ok j = true → reads_back j.
Proof.
  induction j as [|b|lit|s|l IH|l IH] using json_ind_full; intros Hok; split; try done;
    intros [|fuel] rest Hf Hd; try (simpl in Hf; lia).
  - reflexivity.
  - by destruct b.
  - by apply parse_value_num.
  - cbn [print]. unfold print_str. cbn [app parse_value skip_ws].
    rewrite (eq_refl : is_ws quote = false). eval_tests.
    rewrite <-(assoc_L (++)), parse_str_print. cbn. by rewrite unchars_chars.
  - apply parse_value_arr; [|done].
    cbn [json_ok] in Hok. rewrite forallb_Forall_true in Hok.
    rewrite Forall_forall in *. eauto.
  - apply parse_value_obj; [|done].
    cbn [json_ok] in Hok. rewrite forallb_Forall_true in Hok.
    rewrite Forall_forall in *. eauto.
Qed.

Lemma sep_concat_length ls :
  sum_list_with length ls + (length ls - 1) ≤ length (sep_concat ls).
Proof.
  induction ls as [|x [|y ls] IH]; simpl in *; [lia..|].
  rewrite length_app. simpl. lia.
Qed.

Lemma sum_list_with_le {A} (f g : A → nat) l :
  Forall (λ x, f x ≤ g x) l → sum_list_with f l ≤ sum_list_with g l.
Proof. induction 1; simpl; lia. Qed.

Lemma sum_list_with_S {A} (f : A → nat) l :
  sum_list_with (λ x, S (f x)) l = sum_list_with f l + length l.
Proof. induction l; simpl; lia. Qed.

Lemma sum_list_with_fmap {A B} (f : B → nat) (g : A → B) l :
  sum_list_with f (g <$> l) = sum_list_with (f ∘ g) l.
Proof. induction l as [|x l IH]; [done|]. cbn. by rewrite IH. Qed.

Lemma sum_list_with_double {A} (f : A → nat) l :
  sum_list_with (λ x, 2 * f x) l = 2 * sum_list_with f l.
Proof. induction l as [|x l IH]; [done|]. cbn [sum_list_with]. rewrite IH. lia. Qed.

(** The printed text is long enough to be the parser's fuel. *)
Lemma jsize_print j : json_ok j = true → jsize j ≤ 2 * length (print j).
Proof.
  induction j as [|b|lit|s|l IH|l IH] using json_ind_full; intros Hok.
  - simpl; lia.
  - destruct b; simpl; lia.
  - apply num_nonempty in Hok as (c & r & Hl & _). cbn [print]. rewrite Hl. simpl. lia.
  - cbn [print jsize]. unfold print_str. simpl. lia.
  - cbn [json_ok] in Hok. rewrite forallb_Forall_true in Hok.
    cbn [jsize print length]. rewrite length_app, sum_list_with_S.
    pose proof (sep_concat_length (print <$> l)) as Hs.
    rewrite sum_list_with_fmap, length_fmap in Hs.
    pose proof (sum_list_with_le jsize (λ x, 2 * length (print x)) l) as Hle.
    rewrite sum_list_with_double in Hle.
    assert (sum_list_with jsize l ≤ 2 * sum_list_with (length ∘ print) l).
    { apply Hle. rewrite Forall_forall in *. eauto. }
    simpl. lia.
  - cbn [json_ok] in Hok. rewrite forallb_Forall_true in Hok.
    cbn [jsize print length]. rewrite length_app, sum_list_with_S.
    set (pr := λ kv : string * json, print_str kv.1 ++ ":"%char :: print kv.2).
    pose proof (sep_concat_length (pr <$> l)) as Hs.
    rewrite sum_list_with_fmap, length_fmap in Hs.
    pose proof (sum_list_with_le (λ kv, jsize kv.2) (λ kv, 2 * length (pr kv)) l) as Hle.
    rewrite sum_list_with_double in Hle.
    assert (sum_list_with (λ kv, jsize kv.2) l ≤ 2 * sum_list_with (length ∘ pr) l).
    { apply Hle. rewrite Forall_forall in *. intros kv Hkv. unfold pr.
      rewrite length_app. simpl. specialize (IH kv Hkv (Hok kv Hkv)). simpl in IH. lia. }
    simpl. lia.
Qed.

(** Go decodes what it encoded. *)
Lemma Unmarshal_Marshal j : json_ok j = true → Unmarshal (Marshal j) = Some j.
Proof.
  intros Hok. unfold Unmarshal, Marshal. rewrite chars_unchars.
  pose proof (parse_value_print j Hok) as [_ Hp].
  specialize (Hp (2 * length (print j) + 2) []). rewrite app_nil_r in Hp.
  rewrite Hp; [done| |done]. pose proof (jsize_print j Hok). lia.
Qed.

Create HintDb json discriminated.
#[export] Hint Resolve Unmarshal_Marshal : json.
