(* ===== verification/K8sTypes.v ===== *)
(** * Data of the Kubernetes API the controller reads and writes

    Records for the API objects, with the fields the sources use. A nil Go map
    or slice and an empty one are the same value here, except where the
    sources tell them apart. Values the sources only copy (pod security
    contexts, affinities, tolerations) are JSON documents. Secret contents are
    sequences of PEM blocks and other bytes: the DER encoding of a certificate
    or key is represented by the certificate or key. *)

From S2P Require Import Prelude GoStd Json.
From Stdlib Require Import Ascii.

(** ** Certificates, keys and PEM data *)

(** A key pair is identified by a number; the public key is its [KeyId]. *)
Abbreviation KeyId := Z (only parsing).

Inductive ExtKeyUsage := ExtKeyUsageClientAuth | ExtKeyUsageServerAuth.
Inductive KeyUsage := KeyUsageKeyEncipherment | KeyUsageDigitalSignature | KeyUsageCertSign.

#[export] Instance ExtKeyUsage_eq_dec : EqDecision ExtKeyUsage.
Proof. solve_decision. Defined.
#[export] Instance KeyUsage_eq_dec : EqDecision KeyUsage.
Proof. solve_decision. Defined.

(** An X.509 certificate: what the sources put into it, the issuer's name and
    the key that signed it. Times are in nanoseconds. *)
Record Certificate := mkCertificate {
  x_SerialNumber : Z;
  x_Subject : string;
  x_Issuer : string;
  x_DNSNames : list string;
  x_NotBefore : Z;
  x_NotAfter : Z;
  x_IsCA : bool;
  x_BasicConstraintsValid : bool;
  x_ExtKeyUsage : list ExtKeyUsage;
  x_KeyUsage : list KeyUsage;
  x_PublicKey : KeyId;
  x_SignedBy : KeyId;
}.

#[export] Instance Certificate_eq_dec : EqDecision Certificate.
Proof. solve_decision. Defined.

Inductive DER :=
| DERCertificate (c : Certificate)
| DERECPrivateKey (k : KeyId)
| DEROther (raw : list ascii).

#[export] Instance DER_eq_dec : EqDecision DER.
Proof. solve_decision. Defined.

Record PemBlock := mkPemBlock { pb_Type : string; pb_Bytes : DER }.

#[export] Instance PemBlock_eq_dec : EqDecision PemBlock.
Proof. solve_decision. Defined.

(** A byte slice holding PEM data: encoded blocks between other bytes. *)
Inductive PemItem := IBlock (b : PemBlock) | IByte (c : ascii).
Abbreviation Bytes := (list PemItem).

#[export] Instance PemItem_eq_dec : EqDecision PemItem.
Proof. solve_decision. Defined.

(** ** Metadata *)

Record NamespacedName := mkNN { nn_Namespace : string; nn_Name : string }.

#[export] Instance NamespacedName_eq_dec : EqDecision NamespacedName.
Proof. solve_decision. Defined.
#[export] Program Instance NamespacedName_countable : Countable NamespacedName :=
  inj_countable' (λ n, (nn_Namespace n, nn_Name n)) (λ p, mkNN p.1 p.2) _.
Next Obligation. by intros []. Qed.

Record OwnerReference := mkOwnerRef { or_Kind : string; or_Name : string; or_UID : string }.

Record ObjectMeta := mkObjectMeta {
  om_Name : string;
  om_Namespace : string;
  om_Labels : gmap string string;
  om_Annotations : gmap string string;
  om_Finalizers : list string;
  om_DeletionTimestamp : option Z;
  om_ResourceVersion : string;
  om_UID : string;
  om_OwnerReferences : list OwnerReference;
}.

Definition named_meta (ns name : string) : ObjectMeta :=
  mkObjectMeta name ns ∅ ∅ [] None "" "" [].

Definition om_key (m : ObjectMeta) : NamespacedName := mkNN (om_Namespace m) (om_Name m).

(** Field updates. *)
Definition om_set_Name (n : string) (m : ObjectMeta) : ObjectMeta :=
  mkObjectMeta n (om_Namespace m) (om_Labels m) (om_Annotations m) (om_Finalizers m)
    (om_DeletionTimestamp m) (om_ResourceVersion m) (om_UID m) (om_OwnerReferences m).
Definition om_set_Namespace (n : string) (m : ObjectMeta) : ObjectMeta :=
  mkObjectMeta (om_Name m) n (om_Labels m) (om_Annotations m) (om_Finalizers m)
    (om_DeletionTimestamp m) (om_ResourceVersion m) (om_UID m) (om_OwnerReferences m).
Definition om_set_Labels (l : gmap string string) (m : ObjectMeta) : ObjectMeta :=
  mkObjectMeta (om_Name m) (om_Namespace m) l (om_Annotations m) (om_Finalizers m)
    (om_DeletionTimestamp m) (om_ResourceVersion m) (om_UID m) (om_OwnerReferences m).
Definition om_set_Annotations (a : gmap string string) (m : ObjectMeta) : ObjectMeta :=
  mkObjectMeta (om_Name m) (om_Namespace m) (om_Labels m) a (om_Finalizers m)
    (om_DeletionTimestamp m) (om_ResourceVersion m) (om_UID m) (om_OwnerReferences m).
Definition om_set_Finalizers (f : list string) (m : ObjectMeta) : ObjectMeta :=
  mkObjectMeta (om_Name m) (om_Namespace m) (om_Labels m) (om_Annotations m) f
    (om_DeletionTimestamp m) (om_ResourceVersion m) (om_UID m) (om_OwnerReferences m).
Definition om_set_DeletionTimestamp (t : option Z) (m : ObjectMeta) : ObjectMeta :=
  mkObjectMeta (om_Name m) (om_Namespace m) (om_Labels m) (om_Annotations m) (om_Finalizers m)
    t (om_ResourceVersion m) (om_UID m) (om_OwnerReferences m).
Definition om_set_ResourceVersion (v : string) (m : ObjectMeta) : ObjectMeta :=
  mkObjectMeta (om_Name m) (om_Namespace m) (om_Labels m) (om_Annotations m) (om_Finalizers m)
    (om_DeletionTimestamp m) v (om_UID m) (om_OwnerReferences m).
Definition om_set_OwnerReferences (l : list OwnerReference) (m : ObjectMeta) : ObjectMeta :=
  mkObjectMeta (om_Name m) (om_Namespace m) (om_Labels m) (om_Annotations m) (om_Finalizers m)
    (om_DeletionTimestamp m) (om_ResourceVersion m) (om_UID m) l.

Record TypeMeta := mkTypeMeta { tm_APIVersion : string; tm_Kind : string }.

(** A condition of a status. [c_LastTransitionTime] is in seconds, as it is
    stored; [None] is the zero time, which every condition the sources build
    has. *)
Record Condition := mkConditionAt {
  c_Type : string; c_Status : string; c_Reason : string; c_Message : string;
  c_LastTransitionTime : option Z;
}.
Definition mkCondition (type status reason message : string) : Condition :=
  mkConditionAt type status reason message None.
Definition at_time (t : option Z) (c : Condition) : Condition :=
  mkConditionAt (c_Type c) (c_Status c) (c_Reason c) (c_Message c) t.

Record LabelSelectorRequirement := mkLSR {
  lsr_Key : string; lsr_Operator : string; lsr_Values : list string;
}.
Record LabelSelector := mkLabelSelector {
  ls_MatchLabels : gmap string string;
  ls_MatchExpressions : list LabelSelectorRequirement;
}.

(** ** Admission registration *)

Record Rule := mkRule {
  r_APIGroups : list string; r_APIVersions : list string; r_Resources : list string;
  r_Scope : option string;
}.
Record RuleWithOperations := mkRWO { rwo_Operations : list string; rwo_Rule : Rule }.
Record MatchCondition := mkMC { mc_Name : string; mc_Expression : string }.

Record ServiceReference := mkServiceReference {
  sr_Namespace : string; sr_Name : string; sr_Path : option string; sr_Port : option Z;
}.
Record WebhookClientConfig := mkWCC { wcc_Service : option ServiceReference; wcc_CABundle : Bytes }.

(** [ValidatingWebhook] and [MutatingWebhook] have the same fields here. *)
Record Webhook := mkWebhook {
  wh_Name : string;
  wh_ClientConfig : WebhookClientConfig;
  wh_Rules : list RuleWithOperations;
  wh_FailurePolicy : option string;
  wh_MatchPolicy : option string;
  wh_NamespaceSelector : option LabelSelector;
  wh_ObjectSelector : option LabelSelector;
  wh_SideEffects : option string;
  wh_TimeoutSeconds : option Z;
  wh_AdmissionReviewVersions : list string;
  wh_MatchConditions : list MatchCondition;
}.

Definition wh_set_CABundle (b : Bytes) (w : Webhook) : Webhook :=
  mkWebhook (wh_Name w) (mkWCC (wcc_Service (wh_ClientConfig w)) b) (wh_Rules w)
    (wh_FailurePolicy w) (wh_MatchPolicy w) (wh_NamespaceSelector w) (wh_ObjectSelector w)
    (wh_SideEffects w) (wh_TimeoutSeconds w) (wh_AdmissionReviewVersions w)
    (wh_MatchConditions w).
Definition wh_set_MatchConditions (l : list MatchCondition) (w : Webhook) : Webhook :=
  mkWebhook (wh_Name w) (wh_ClientConfig w) (wh_Rules w)
    (wh_FailurePolicy w) (wh_MatchPolicy w) (wh_NamespaceSelector w) (wh_ObjectSelector w)
    (wh_SideEffects w) (wh_TimeoutSeconds w) (wh_AdmissionReviewVersions w) l.

(** [ValidatingWebhookConfiguration] and [MutatingWebhookConfiguration]. *)
Record WebhookConfiguration := mkWebhookConfiguration {
  wc_Meta : ObjectMeta; wc_Webhooks : list Webhook;
}.

(** ** Core objects *)

Record Secret := mkSecret {
  s_Meta : ObjectMeta;
  s_Type : string;
  s_Data : gmap string Bytes;
  s_StringData : gmap string Bytes;
}.
Record ConfigMap := mkConfigMap { cm_Meta : ObjectMeta; cm_Data : gmap string string }.

Record ReplicaSet := mkReplicaSet { rs_Meta : ObjectMeta }.
Record PodCondition := mkPodCondition { pc_Type : string; pc_Status : string }.
Record Pod := mkPod { p_Meta : ObjectMeta; p_Conditions : list PodCondition }.

Inductive IntOrString := IOSInt (n : Z) | IOSString (s : string).

Record ServicePort := mkServicePort {
  sp_Name : string; sp_Port : Z; sp_TargetPort : option IntOrString; sp_Protocol : string;
}.
Record Service := mkService {
  svc_Meta : ObjectMeta; svc_Ports : list ServicePort; svc_Selector : gmap string string;
}.

Record PodDisruptionBudget := mkPDB {
  pdb_Meta : ObjectMeta;
  pdb_Selector : option LabelSelector;
  pdb_MinAvailable : option IntOrString;
  pdb_MaxUnavailable : option IntOrString;
}.

(** ** Workloads *)

Record EnvVar := mkEnvVar { ev_Name : string; ev_Value : string; ev_ValueFrom : option json }.
Definition env (name value : string) : EnvVar := mkEnvVar name value None.

Record VolumeMount := mkVolumeMount { vm_Name : string; vm_ReadOnly : bool; vm_MountPath : string }.
Record KeyToPath := mkKeyToPath { ktp_Key : string; ktp_Path : string }.

Inductive VolumeSource :=
| VSEmptyDir
| VSSecret (name : string) (items : list KeyToPath) (defaultMode : option Z)
| VSConfigMap (name : string) (items : list KeyToPath).
Record Volume := mkVolume { v_Name : string; v_Source : VolumeSource }.

Record Capabilities := mkCapabilities { cap_Add : list string; cap_Drop : list string }.
Record SecurityContext := mkSecurityContext {
  sc_ReadOnlyRootFilesystem : option bool;
  sc_Privileged : option bool;
  sc_AllowPrivilegeEscalation : option bool;
  sc_Capabilities : option Capabilities;
  sc_RunAsNonRoot : option bool;
  sc_Rest : json;
}.

Record Probe := mkProbe { pr_Path : string; pr_Port : IntOrString; pr_Scheme : string }.

(** A [resource.Quantity]: a number of nano-units, its smallest unit. *)
Abbreviation Quantity := Z (only parsing).
Record ResourceRequirements := mkResources {
  rr_Requests : gmap string Quantity; rr_Limits : gmap string Quantity;
}.

Record Container := mkContainer {
  ct_Name : string;
  ct_Image : string;
  ct_VolumeMounts : list VolumeMount;
  ct_Env : list EnvVar;
  ct_ReadinessProbe : option Probe;
  ct_Resources : ResourceRequirements;
  ct_SecurityContext : option SecurityContext;
}.

Record PodSpec := mkPodSpec {
  ps_SecurityContext : json;
  ps_Containers : list Container;
  ps_ServiceAccountName : string;
  ps_Tolerations : list json;
  ps_Affinity : json;
  ps_Volumes : list Volume;
}.

Record PodTemplateSpec := mkPodTemplate {
  pt_Labels : gmap string string;
  pt_Annotations : gmap string string;
  pt_Spec : PodSpec;
}.

Record DeploymentSpec := mkDeploymentSpec {
  ds_Replicas : Z;
  ds_Selector : LabelSelector;
  ds_Strategy : string;
  ds_Template : PodTemplateSpec;
}.
Record Deployment := mkDeployment { d_Meta : ObjectMeta; d_Spec : DeploymentSpec }.

(** ** Equality of objects is decidable *)

#[export] Instance OwnerReference_eq_dec : EqDecision OwnerReference.
Proof. solve_decision. Defined.
#[export] Instance ObjectMeta_eq_dec : EqDecision ObjectMeta.
Proof. solve_decision. Defined.
#[export] Instance TypeMeta_eq_dec : EqDecision TypeMeta.
Proof. solve_decision. Defined.
#[export] Instance Condition_eq_dec : EqDecision Condition.
Proof. solve_decision. Defined.
#[export] Instance LabelSelectorRequirement_eq_dec : EqDecision LabelSelectorRequirement.
Proof. solve_decision. Defined.
#[export] Instance LabelSelector_eq_dec : EqDecision LabelSelector.
Proof. solve_decision. Defined.
#[export] Instance Rule_eq_dec : EqDecision Rule.
Proof. solve_decision. Defined.
#[export] Instance RuleWithOperations_eq_dec : EqDecision RuleWithOperations.
Proof. solve_decision. Defined.
#[export] Instance MatchCondition_eq_dec : EqDecision MatchCondition.
Proof. solve_decision. Defined.
#[export] Instance ServiceReference_eq_dec : EqDecision ServiceReference.
Proof. solve_decision. Defined.
#[export] Instance WebhookClientConfig_eq_dec : EqDecision WebhookClientConfig.
Proof. solve_decision. Defined.
#[export] Instance Webhook_eq_dec : EqDecision Webhook.
Proof. solve_decision. Defined.
#[export] Instance WebhookConfiguration_eq_dec : EqDecision WebhookConfiguration.
Proof. solve_decision. Defined.
#[export] Instance Secret_eq_dec : EqDecision Secret.
Proof. solve_decision. Defined.
#[export] Instance ConfigMap_eq_dec : EqDecision ConfigMap.
Proof. solve_decision. Defined.
#[export] Instance ReplicaSet_eq_dec : EqDecision ReplicaSet.
Proof. solve_decision. Defined.
#[export] Instance PodCondition_eq_dec : EqDecision PodCondition.
Proof. solve_decision. Defined.
#[export] Instance Pod_eq_dec : EqDecision Pod.
Proof. solve_decision. Defined.
#[export] Instance IntOrString_eq_dec : EqDecision IntOrString.
Proof. solve_decision. Defined.
#[export] Instance ServicePort_eq_dec : EqDecision ServicePort.
Proof. solve_decision. Defined.
#[export] Instance Service_eq_dec : EqDecision Service.
Proof. solve_decision. Defined.
#[export] Instance PodDisruptionBudget_eq_dec : EqDecision PodDisruptionBudget.
Proof. solve_decision. Defined.
#[export] Instance EnvVar_eq_dec : EqDecision EnvVar.
Proof. solve_decision. Defined.
#[export] Instance VolumeMount_eq_dec : EqDecision VolumeMount.
Proof. solve_decision. Defined.
#[export] Instance KeyToPath_eq_dec : EqDecision KeyToPath.
Proof. solve_decision. Defined.
#[export] Instance VolumeSource_eq_dec : EqDecision VolumeSource.
Proof. solve_decision. Defined.
#[export] Instance Volume_eq_dec : EqDecision Volume.
Proof. solve_decision. Defined.
#[export] Instance Capabilities_eq_dec : EqDecision Capabilities.
Proof. solve_decision. Defined.
#[export] Instance SecurityContext_eq_dec : EqDecision SecurityContext.
Proof. solve_decision. Defined.
#[export] Instance Probe_eq_dec : EqDecision Probe.
Proof. solve_decision. Defined.
#[export] Instance ResourceRequirements_eq_dec : EqDecision ResourceRequirements.
Proof. solve_decision. Defined.
#[export] Instance Container_eq_dec : EqDecision Container.
Proof. solve_decision. Defined.
#[export] Instance PodSpec_eq_dec : EqDecision PodSpec.
Proof. solve_decision. Defined.
#[export] Instance PodTemplateSpec_eq_dec : EqDecision PodTemplateSpec.
Proof. solve_decision. Defined.
#[export] Instance DeploymentSpec_eq_dec : EqDecision DeploymentSpec.
Proof. solve_decision. Defined.
#[export] Instance Deployment_eq_dec : EqDecision Deployment.
Proof. solve_decision. Defined.

(** ** Reconciliation requests and results *)

Record Request := mkRequest { req_NamespacedName : NamespacedName }.
Record Result := mkResult { res_Requeue : bool; res_RequeueAfter : Z }.
Definition empty_result : Result := mkResult false 0.
Definition requeue_result : Result := mkResult true 0.

(** [errors.Join] separates the texts by newlines. *)
Fixpoint join_nl (l : list string) : string :=
  match l with
  | [] => ""
  | [x] => x
  | x :: l => x +:+ String (byte 10) EmptyString +:+ join_nl l
  end.

(** ** Functions of the Kubernetes libraries

    Not part of the repository: parameters of the model. *)
Class K8sUtil := {
  (** controller-runtime [controllerutil.AddFinalizer], [RemoveFinalizer] and
      [SetOwnerReference], on the lists they update. *)
  AddFinalizer : list string → string → list string;
  RemoveFinalizer : list string → string → list string;
  SetOwnerReference : OwnerReference → list OwnerReference → GoError + list OwnerReference;
  (** apimachinery [meta.SetStatusCondition], at a time in seconds. *)
  SetStatusCondition : Z → list Condition → Condition → list Condition;
  (** apimachinery [validation.IsQualifiedName]. *)
  IsQualifiedName : string → list string;
  (** [resource.Quantity.Cmp] and [String]; [intstr.IntOrString.String]. *)
  Quantity_Cmp : Quantity → Quantity → Z;
  Quantity_String : Quantity → string;
  IntOrString_String : IntOrString → string;
  (** apimachinery error predicates and controller-runtime's filter. *)
  IsNotFound : GoError → bool;
  IsConflict : GoError → bool;
  IgnoreNotFound : GoError → option GoError;
  (** The text of an API status error of the reason Invalid. *)
  Invalid_String : string → string → ErrorList → string;
}.

(** [err.Error()]. *)
Fixpoint Error `{K8sUtil} (e : GoError) : string :=
  match e with
  | ErrNew msg | ErrStatus _ msg => msg
  | ErrWrap msg inner => msg +:+ ": " +:+ Error inner
  | ErrJoin errs => join_nl (Error <$> errs)
  | ErrInvalid kind name errs => Invalid_String kind name errs
  end.

(** The condition of a given type. *)
Definition find_condition (t : string) (cs : list Condition) : option Condition :=
  head (filter (λ c, c_Type c = t) cs).

(** The conditions say [c], since some time. *)
Definition reports (c : Condition) (cs : list Condition) : Prop :=
  ∃ t, find_condition (c_Type c) cs = Some (at_time t c).

Lemma reports_find c cs cs' :
  find_condition (c_Type c) cs' = find_condition (c_Type c) cs → reports c cs → reports c cs'.
Proof. unfold reports. by intros ->. Qed.

(** When the status of [c] was last another one, if [old] was reported. *)
Definition transition_time (now : Z) (old : option Condition) (c : Condition) : option Z :=
  match old with
  | Some d => if decide (c_Status d = c_Status c) then c_LastTransitionTime d else Some now
  | None => Some now
  end.

(** The first condition of the type of [c] becomes [c]. *)
Fixpoint replace_condition (c : Condition) (cs : list Condition) : list Condition :=
  match cs with
  | [] => []
  | d :: cs => if decide (c_Type d = c_Type c) then c :: cs else d :: replace_condition c cs
  end.

Lemma replace_condition_twice c c' cs :
  c_Type c' = c_Type c → replace_condition c (replace_condition c' cs) = replace_condition c cs.
Proof.
  intros Ht. induction cs as [|d cs IH]; cbn [replace_condition]; [done|].
  repeat (case_decide; cbn [replace_condition]); congruence.
Qed.
Lemma replace_condition_same c cs :
  find_condition (c_Type c) cs = Some c → replace_condition c cs = cs.
Proof.
  unfold find_condition. induction cs as [|d cs IH]; cbn [replace_condition]; [done|].
  case_decide as Hd; [rewrite filter_cons_True by done; cbn; congruence|].
  rewrite filter_cons_False by done. intros Hf. by rewrite IH.
Qed.

(** Their documented behaviour, as far as the theorems use it. *)
Class K8sUtilLaws `{K8sUtil} := {
  AddFinalizer_spec l f x : x ∈ AddFinalizer l f ↔ x = f ∨ x ∈ l;
  AddFinalizer_present l f : f ∈ l → AddFinalizer l f = l;
  RemoveFinalizer_spec l f x : x ∈ RemoveFinalizer l f ↔ x ≠ f ∧ x ∈ l;
  (** A repeated call changes nothing. *)
  SetOwnerReference_again o l l' :
    SetOwnerReference o l = inr l' → SetOwnerReference o l' = inr l';
  SetStatusCondition_same now cs c :
    c_LastTransitionTime c = None →
    find_condition (c_Type c) (SetStatusCondition now cs c) =
      Some (at_time (transition_time now (find_condition (c_Type c) cs) c) c);
  SetStatusCondition_other now cs c t :
    t ≠ c_Type c → find_condition t (SetStatusCondition now cs c) = find_condition t cs;
  (** A condition that is there is changed in place. *)
  SetStatusCondition_replaces now cs c d :
    c_LastTransitionTime c = None → find_condition (c_Type c) cs = Some d →
    SetStatusCondition now cs c =
      replace_condition (at_time (transition_time now (Some d) c) c) cs;
  Quantity_Cmp_lt a b : (Quantity_Cmp a b < 0 ↔ a < b)%Z;
  Quantity_Cmp_gt a b : (Quantity_Cmp a b > 0 ↔ a > b)%Z;
  IgnoreNotFound_spec e : IgnoreNotFound e = if IsNotFound e then None else Some e;
}.

Section conditions.
Context `{K8sUtil, !K8sUtilLaws}.

Lemma SetStatusCondition_reports now cs c :
  c_LastTransitionTime c = None → reports c (SetStatusCondition now cs c).
Proof. intros Hc. eexists. by apply SetStatusCondition_same. Qed.
(** What is already reported stays as it is. *)
Lemma SetStatusCondition_again now cs c :
  c_LastTransitionTime c = None → reports c cs → SetStatusCondition now cs c = cs.
Proof.
  intros Hc [t Ht]. rewrite (SetStatusCondition_replaces _ _ _ _ Hc Ht).
  unfold transition_time. cbn [at_time c_Status c_LastTransitionTime]. rewrite decide_True by done.
  by apply replace_condition_same.
Qed.
Lemma SetStatusCondition_keeps now cs c d :
  c_Type d ≠ c_Type c → reports d (SetStatusCondition now cs c) ↔ reports d cs.
Proof. intros Ht. unfold reports. by rewrite SetStatusCondition_other. Qed.
End conditions.
