(* ===== verification/Concrete.v ===== *)
(** * Concrete instances of the library parameters

    Implementations of [K8sUtil] and [MapRange] that satisfy their laws, for
    evaluating the model on concrete inputs. *)

From S2P Require Import Prelude GoStd Json K8sTypes.

Fixpoint upsert_owner (o : OwnerReference) (l : list OwnerReference) : list OwnerReference :=
  match l with
  | [] => [o]
  | x :: l => if decide (or_UID x = or_UID o) then o :: l else x :: upsert_owner o l
  end.
Definition concrete_SetOwnerReference (o : OwnerReference) (l : list OwnerReference)
    : GoError + list OwnerReference := inr (upsert_owner o l).

(** The condition as it replaces [old]. *)
Definition stamped (now : Z) (old : option Condition) (c : Condition) : Condition :=
  match c_LastTransitionTime c with
  | None => at_time (transition_time now old c) c
  | Some _ => c
  end.
Fixpoint concrete_SetStatusCondition (now : Z) (cs : list Condition) (c : Condition)
    : list Condition :=
  match cs with
  | [] => [stamped now None c]
  | d :: cs => if decide (c_Type d = c_Type c) then stamped now (Some d) c :: cs
               else d :: concrete_SetStatusCondition now cs c
  end.

Definition concrete_util : K8sUtil := {|
  AddFinalizer l f := if decide (f ∈ l) then l else l ++ [f];
  RemoveFinalizer l f := filter (λ x, x ≠ f) l;
  SetOwnerReference := concrete_SetOwnerReference;
  SetStatusCondition := concrete_SetStatusCondition;
  IsQualifiedName s := if decide (s = "") then ["name part must be non-empty"] else [];
  Quantity_Cmp a b := (a - b)%Z;
  Quantity_String q := Itoa q;
  IntOrString_String x := match x with IOSInt n => Itoa n | IOSString s => s end;
  IsNotFound e := match e with ErrStatus r _ => bool_decide (r = "NotFound") | _ => false end;
  IsConflict e := match e with ErrStatus r _ => bool_decide (r = "Conflict") | _ => false end;
  IgnoreNotFound e :=
    match e with
    | ErrStatus r _ => if bool_decide (r = "NotFound") then None else Some e
    | _ => Some e
    end;
  Invalid_String kind name _ := kind +:+ " " +:+ name +:+ " is invalid";
|}.

Lemma concrete_util_laws : @K8sUtilLaws concrete_util.
Proof.
  split; cbn.
  - intros l f x. case_decide; set_solver.
  - intros l f Hf. by rewrite decide_True.
  - intros l f x. by rewrite list_elem_of_filter.
  - intros o l l' [= <-]. unfold concrete_SetOwnerReference. f_equal.
    induction l as [|x l IH]; cbn [upsert_owner]; [by case_decide|].
    case_decide as Hx; cbn [upsert_owner]; case_decide; congruence.
  - intros now cs c Hc. unfold find_condition.
    induction cs as [|d cs IH]; cbn [concrete_SetStatusCondition]; unfold stamped in *; rewrite Hc in *.
    + by rewrite filter_cons_True.
    + case_decide as Hd; [by rewrite !filter_cons_True|by rewrite !filter_cons_False].
  - intros now cs c t Ht. assert (∀ old, c_Type (stamped now old c) = c_Type c) as Hty.
    { intros old. unfold stamped. by destruct (c_LastTransitionTime c). }
    unfold find_condition. induction cs as [|d cs IH]; cbn [concrete_SetStatusCondition].
    + rewrite filter_cons_False; [done|]. rewrite Hty. congruence.
    + case_decide as Hd.
      { rewrite !filter_cons_False; [done|congruence|rewrite Hty; congruence]. }
      rewrite !filter_cons. by case_decide.
  - intros now cs c d Hc Hd. unfold find_condition in Hd.
    induction cs as [|x cs IH]; cbn [concrete_SetStatusCondition replace_condition]; [done|].
    unfold stamped in *. rewrite Hc in *. cbn [at_time c_Type].
    destruct (decide (c_Type x = c_Type c)) as [Hx|Hx].
    { rewrite filter_cons_True in Hd by done. cbn in Hd. by simplify_eq. }
    rewrite filter_cons_False in Hd by done. by rewrite IH.
  - intros. lia.
  - intros. lia.
  - by intros [].
Qed.

Program Definition concrete_range : MapRange := {| map_range A m := map_to_list m |}.
Next Obligation. done. Qed.
