(* ===== verification/Constants.v ===== *)
(** * Constants of [internal/constants/constants.go] *)

From S2P Require Import Prelude.

Definition DefaultPolicyServer : string := "default".

(** PolicyServer Deployment. *)
Definition PolicyServerEnableMetricsEnvVar : string := "KUBEWARDEN_ENABLE_METRICS".
Definition PolicyServerDeploymentConfigVersionAnnotation : string := "kubewarden/config-version".
Definition PolicyServerDeploymentPodSpecConfigVersionLabel : string := "kubewarden/config-version".
Definition PolicyServerPort : Z := 8443.
Definition PolicyServerMetricsPortEnvVar : string :=
  "KUBEWARDEN_POLICY_SERVER_SERVICES_METRICS_PORT".
Definition PolicyServerMetricsPort : Z := 8080.
Definition PolicyServerReadinessProbePort : Z := 8081.
Definition PolicyServerReadinessProbe : string := "/readiness".
Definition PolicyServerLogFmtEnvVar : string := "KUBEWARDEN_LOG_FMT".

(** PolicyServer ConfigMap. *)
Definition PolicyServerConfigPoliciesEntry : string := "policies.yml".
Definition PolicyServerConfigSourcesEntry : string := "sources.yml".
Definition PolicyServerSourcesConfigContainerPath : string := "/sources".

(** PolicyServer VerificationSecret. *)
Definition PolicyServerVerificationConfigEntry : string := "verification-config".
Definition PolicyServerVerificationConfigContainerPath : string := "/verification".

(** Labels. *)
Definition AppLabelKey : string := "app".
Definition PolicyServerLabelKey : string := "kubewarden/policy-server".
Definition PartOfLabelKey : string := "app.kubernetes.io/part-of".
Definition PartOfLabelValue : string := "kubewarden".
Definition ComponentLabelKey : string := "app.kubernetes.io/component".
Definition ComponentPolicyServerLabelValue : string := "policy-server".

(** Index. *)
Definition PolicyServerIndexKey : string := ".spec.policyServer".

(** Finalizers. *)
Definition KubewardenFinalizerPre114 : string := "kubewarden".
Definition KubewardenFinalizer : string := "kubewarden.io/finalizer".

(** Kubernetes, OpenTelemetry and webhook configurations. *)
Definition KubernetesRevisionAnnotation : string := "deployment.kubernetes.io/revision".
Definition OptelInjectAnnotation : string := "sidecar.opentelemetry.io/inject".
Definition WebhookConfigurationPolicyNameAnnotationKey : string := "kubewardenPolicyName".
Definition WebhookConfigurationPolicyNamespaceAnnotationKey : string :=
  "kubewardenPolicyNamespace".

(** Durations are in nanoseconds, as Go's [time.Duration]. *)
Definition Second : Z := 1000000000.
Definition Hour : Z := 3600 * Second.
Definition TimeToRequeuePolicyReconciliation : Z := 2 * Second.
Definition MetricsShutdownTimeout : Z := 5 * Second.

(** Server certificate and CA root secrets. *)
Definition WebhookServerCertSecretName : string := "kubewarden-webhook-server-cert".
Definition ServerCert : string := "tls.crt".
Definition ServerPrivateKey : string := "tls.key".
Definition CARootSecretName : string := "kubewarden-ca".
Definition CARootCert : string := "ca.crt".
Definition CARootPrivateKey : string := "ca.key".
Definition OldCARootCert : string := "old-ca.crt".
Definition ClientCACert : string := "client-ca.crt".

(** Certificates. *)
Definition CACertExpiration : Z := 10 * 365 * 24 * Hour.
Definition ServerCertExpiration : Z := 1 * 365 * 24 * Hour.
Definition CertLookahead : Z := 60 * 24 * Hour.
