(* ===== verification/PolicyTypes.v ===== *)
(** * The policy resources ([api/policies/v1/*_types.go], [policy.go])

    The four policy kinds with their specs and status, the [Policy] and
    [PolicyGroup] interfaces as type classes with one instance per kind, and
    [AnyPolicy] for an interface value holding one of them. Setters return the
    updated object. *)

From S2P Require Import Prelude GoStd Json K8sTypes Constants.

(** ** Status and spec data *)

(** [PolicyStatusEnum] and its values; [""] is Go's zero value. *)
Abbreviation PolicyStatusEnum := string (only parsing).
Definition PolicyStatusUnscheduled : PolicyStatusEnum := "unscheduled".
Definition PolicyStatusScheduled : PolicyStatusEnum := "scheduled".
Definition PolicyStatusPending : PolicyStatusEnum := "pending".
Definition PolicyStatusActive : PolicyStatusEnum := "active".

Abbreviation PolicyModeStatus := string (only parsing).
Definition PolicyModeStatusUnknown : PolicyModeStatus := "unknown".

Definition PolicyActive : string := "PolicyActive".
Definition PolicyServerConfigurationUpToDate : string := "PolicyServerConfigurationUpToDate".
Definition PolicyUniquelyReachable : string := "PolicyUniquelyReachable".

Definition AnnotationSeverity : string := "io.kubewarden.policy.severity".
Definition AnnotationCategory : string := "io.kubewarden.policy.category".
Definition AnnotationTitle : string := "io.artifacthub.displayName".
Definition AnnotationDescription : string := "io.kubewarden.policy.description".

Record PolicyStatus := mkPolicyStatus {
  st_PolicyStatus : PolicyStatusEnum;
  st_PolicyMode : PolicyModeStatus;
  st_Conditions : list Condition;
}.

Abbreviation PolicyMode := string (only parsing).

(** [runtime.RawExtension]: raw JSON, or nil. *)
Abbreviation RawExtension := (option json).

Record PolicySpec := mkPolicySpec {
  sp_PolicyServer : string;
  sp_Mode : PolicyMode;
  sp_Module : string;
  sp_Settings : RawExtension;
  sp_Rules : list RuleWithOperations;
  sp_FailurePolicy : option string;
  sp_Mutating : bool;
  sp_BackgroundAudit : bool;
  sp_MatchPolicy : option string;
  sp_MatchConditions : list MatchCondition;
  sp_ObjectSelector : option LabelSelector;
  sp_SideEffects : option string;
  sp_TimeoutSeconds : option Z;
}.

Record ContextAwareResource := mkContextAwareResource { car_APIVersion : string; car_Kind : string }.

Record PolicyGroupMember := mkPolicyGroupMember { pgm_Module : string; pgm_Settings : RawExtension }.
Record PolicyGroupMemberWithContext := mkPolicyGroupMemberWithContext {
  pgmc_PolicyGroupMember : PolicyGroupMember;
  pgmc_ContextAwareResources : list ContextAwareResource;
}.
Abbreviation PolicyGroupMembers := (gmap string PolicyGroupMember).
Abbreviation PolicyGroupMembersWithContext := (gmap string PolicyGroupMemberWithContext).

Record GroupSpec := mkGroupSpec {
  gs_PolicyServer : string;
  gs_Mode : PolicyMode;
  gs_Rules : list RuleWithOperations;
  gs_FailurePolicy : option string;
  gs_BackgroundAudit : bool;
  gs_MatchPolicy : option string;
  gs_MatchConditions : list MatchCondition;
  gs_ObjectSelector : option LabelSelector;
  gs_SideEffects : option string;
  gs_TimeoutSeconds : option Z;
  gs_Expression : string;
  gs_Message : string;
}.

Record PolicyGroupSpec := mkPolicyGroupSpec {
  pgs_GroupSpec : GroupSpec; pgs_Policies : PolicyGroupMembers;
}.
Record ClusterPolicyGroupSpec := mkClusterPolicyGroupSpec {
  cpgs_GroupSpec : GroupSpec; cpgs_Policies : PolicyGroupMembersWithContext;
}.

(** ** The four resources *)

Record AdmissionPolicy := mkAdmissionPolicy {
  ap_TypeMeta : TypeMeta; ap_ObjectMeta : ObjectMeta;
  ap_Spec : PolicySpec; ap_Status : PolicyStatus;
}.

Record AdmissionPolicyGroup := mkAdmissionPolicyGroup {
  apg_TypeMeta : TypeMeta; apg_ObjectMeta : ObjectMeta;
  apg_Spec : PolicyGroupSpec; apg_Status : PolicyStatus;
}.

Record ClusterAdmissionPolicySpec := mkClusterAdmissionPolicySpec {
  caps_PolicySpec : PolicySpec;
  caps_NamespaceSelector : option LabelSelector;
  caps_ContextAwareResources : list ContextAwareResource;
}.
Record ClusterAdmissionPolicy := mkClusterAdmissionPolicy {
  cap_TypeMeta : TypeMeta; cap_ObjectMeta : ObjectMeta;
  cap_Spec : ClusterAdmissionPolicySpec; cap_Status : PolicyStatus;
}.

Record ClusterAdmissionPolicyGroupSpec := mkClusterAdmissionPolicyGroupSpec {
  capgs_ClusterPolicyGroupSpec : ClusterPolicyGroupSpec;
  capgs_NamespaceSelector : option LabelSelector;
}.
Record ClusterAdmissionPolicyGroup := mkClusterAdmissionPolicyGroup {
  capg_TypeMeta : TypeMeta; capg_ObjectMeta : ObjectMeta;
  capg_Spec : ClusterAdmissionPolicyGroupSpec; capg_Status : PolicyStatus;
}.

#[export] Instance PolicyStatus_eq_dec : EqDecision PolicyStatus.
Proof. solve_decision. Defined.
#[export] Instance PolicySpec_eq_dec : EqDecision PolicySpec.
Proof. solve_decision. Defined.
#[export] Instance ContextAwareResource_eq_dec : EqDecision ContextAwareResource.
Proof. solve_decision. Defined.
#[export] Instance PolicyGroupMember_eq_dec : EqDecision PolicyGroupMember.
Proof. solve_decision. Defined.
#[export] Instance PolicyGroupMemberWithContext_eq_dec : EqDecision PolicyGroupMemberWithContext.
Proof. solve_decision. Defined.
#[export] Instance GroupSpec_eq_dec : EqDecision GroupSpec.
Proof. solve_decision. Defined.
#[export] Instance PolicyGroupSpec_eq_dec : EqDecision PolicyGroupSpec.
Proof. solve_decision. Defined.
#[export] Instance ClusterPolicyGroupSpec_eq_dec : EqDecision ClusterPolicyGroupSpec.
Proof. solve_decision. Defined.
#[export] Instance AdmissionPolicy_eq_dec : EqDecision AdmissionPolicy.
Proof. solve_decision. Defined.
#[export] Instance AdmissionPolicyGroup_eq_dec : EqDecision AdmissionPolicyGroup.
Proof. solve_decision. Defined.
#[export] Instance ClusterAdmissionPolicySpec_eq_dec : EqDecision ClusterAdmissionPolicySpec.
Proof. solve_decision. Defined.
#[export] Instance ClusterAdmissionPolicy_eq_dec : EqDecision ClusterAdmissionPolicy.
Proof. solve_decision. Defined.
#[export] Instance ClusterAdmissionPolicyGroupSpec_eq_dec : EqDecision ClusterAdmissionPolicyGroupSpec.
Proof. solve_decision. Defined.
#[export] Instance ClusterAdmissionPolicyGroup_eq_dec : EqDecision ClusterAdmissionPolicyGroup.
Proof. solve_decision. Defined.

(** ** The interfaces *)

(** [Policy] of [policy.go], with the [client.Object] methods the sources use
    (metadata and type metadata, and writes through the pointers
    [GetObjectMeta] and [GetStatus] return). *)
Class PolicyI (T : Type) := {
  GetTypeMeta : T → TypeMeta;
  GetObjectMeta : T → ObjectMeta;
  SetObjectMeta : ObjectMeta → T → T;
  GetPolicyMode : T → PolicyMode;
  GetModule : T → string;
  GetSettings : T → RawExtension;
  GetContextAwareResources : T → list ContextAwareResource;
  GetBackgroundAudit : T → bool;
  GetTimeoutSeconds : T → option Z;
  GetPolicyServer : T → string;
  GetUniqueName : T → string;
  GetRules : T → list RuleWithOperations;
  GetSideEffects : T → option string;
  GetFailurePolicy : T → option string;
  GetMatchPolicy : T → option string;
  GetMatchConditions : T → list MatchCondition;
  GetNamespaceSelector : T → option LabelSelector;
  GetObjectSelector : T → option LabelSelector;
  IsMutating : T → bool;
  IsContextAware : T → bool;
  GetStatus : T → PolicyStatus;
  SetStatusRecord : PolicyStatus → T → T;
}.

(** [PolicyGroup] of [policy.go]. *)
Class PolicyGroupI (T : Type) `{!PolicyI T} := {
  GetPolicyGroupMembersWithContext : T → PolicyGroupMembersWithContext;
  GetExpression : T → string;
  GetMessage : T → string;
}.

(** Methods with the same body for every kind. *)
Section methods.
Context `{PolicyI T}.

Definition GetName (p : T) : string := om_Name (GetObjectMeta p).
Definition GetNamespace (p : T) : string := om_Namespace (GetObjectMeta p).
Definition GetDeletionTimestamp (p : T) : option Z := om_DeletionTimestamp (GetObjectMeta p).
Definition GetFinalizers (p : T) : list string := om_Finalizers (GetObjectMeta p).
Definition SetFinalizers (l : list string) (p : T) : T :=
  SetObjectMeta (om_set_Finalizers l (GetObjectMeta p)) p.

(** [SetStatus], [SetPolicyModeStatus] and writes to
    [GetStatus().Conditions]. *)
Definition SetStatus (status : PolicyStatusEnum) (p : T) : T :=
  SetStatusRecord (mkPolicyStatus status (st_PolicyMode (GetStatus p))
                     (st_Conditions (GetStatus p))) p.
Definition SetPolicyModeStatus (mode : PolicyModeStatus) (p : T) : T :=
  SetStatusRecord (mkPolicyStatus (st_PolicyStatus (GetStatus p)) mode
                     (st_Conditions (GetStatus p))) p.
Definition SetConditions (cs : list Condition) (p : T) : T :=
  SetStatusRecord (mkPolicyStatus (st_PolicyStatus (GetStatus p))
                     (st_PolicyMode (GetStatus p)) cs) p.

(** The annotation getters; [None] is Go's [present = false]. *)
Definition GetSeverity (p : T) : option string :=
  om_Annotations (GetObjectMeta p) !! AnnotationSeverity.
Definition GetCategory (p : T) : option string :=
  om_Annotations (GetObjectMeta p) !! AnnotationCategory.
Definition GetTitle (p : T) : option string :=
  om_Annotations (GetObjectMeta p) !! AnnotationTitle.
Definition GetDescription (p : T) : option string :=
  om_Annotations (GetObjectMeta p) !! AnnotationDescription.
End methods.

(** ** Methods of each kind *)

Definition NamespacedScope : string := "Namespaced".

(** The loop of the namespaced kinds' [GetRules]: every rule gets the
    namespaced scope. *)
Definition scoped_rule (r : RuleWithOperations) : RuleWithOperations :=
  mkRWO (rwo_Operations r)
    (mkRule (r_APIGroups (rwo_Rule r)) (r_APIVersions (rwo_Rule r))
       (r_Resources (rwo_Rule r)) (Some NamespacedScope)).

Definition namespace_label : string := "kubernetes.io/metadata.name".
Definition own_namespace_selector (ns : string) : LabelSelector :=
  mkLabelSelector {[ namespace_label := ns ]} [].

Definition AdmissionPolicy_GetRules (p : AdmissionPolicy) : list RuleWithOperations :=
  scoped_rule <$> sp_Rules (ap_Spec p).
Definition AdmissionPolicy_GetNamespaceSelector (p : AdmissionPolicy) : option LabelSelector :=
  Some (own_namespace_selector (om_Namespace (ap_ObjectMeta p))).
Definition AdmissionPolicy_GetUniqueName (p : AdmissionPolicy) : string :=
  "namespaced-" +:+ om_Namespace (ap_ObjectMeta p) +:+ "-" +:+ om_Name (ap_ObjectMeta p).

#[export] Instance AdmissionPolicy_Policy : PolicyI AdmissionPolicy := {
  GetTypeMeta := ap_TypeMeta;
  GetObjectMeta := ap_ObjectMeta;
  SetObjectMeta m p := mkAdmissionPolicy (ap_TypeMeta p) m (ap_Spec p) (ap_Status p);
  GetPolicyMode p := sp_Mode (ap_Spec p);
  GetModule p := sp_Module (ap_Spec p);
  GetSettings p := sp_Settings (ap_Spec p);
  GetContextAwareResources _ := [];
  GetBackgroundAudit p := sp_BackgroundAudit (ap_Spec p);
  GetTimeoutSeconds p := sp_TimeoutSeconds (ap_Spec p);
  GetPolicyServer p := sp_PolicyServer (ap_Spec p);
  GetUniqueName := AdmissionPolicy_GetUniqueName;
  GetRules := AdmissionPolicy_GetRules;
  GetSideEffects p := sp_SideEffects (ap_Spec p);
  GetFailurePolicy p := sp_FailurePolicy (ap_Spec p);
  GetMatchPolicy p := sp_MatchPolicy (ap_Spec p);
  GetMatchConditions p := sp_MatchConditions (ap_Spec p);
  GetNamespaceSelector := AdmissionPolicy_GetNamespaceSelector;
  GetObjectSelector p := sp_ObjectSelector (ap_Spec p);
  IsMutating p := sp_Mutating (ap_Spec p);
  IsContextAware _ := false;
  GetStatus := ap_Status;
  SetStatusRecord s p := mkAdmissionPolicy (ap_TypeMeta p) (ap_ObjectMeta p) (ap_Spec p) s;
}.

Definition AdmissionPolicyGroup_GetRules (p : AdmissionPolicyGroup) : list RuleWithOperations :=
  scoped_rule <$> gs_Rules (pgs_GroupSpec (apg_Spec p)).
Definition AdmissionPolicyGroup_GetNamespaceSelector (p : AdmissionPolicyGroup)
    : option LabelSelector :=
  Some (own_namespace_selector (om_Namespace (apg_ObjectMeta p))).
Definition AdmissionPolicyGroup_GetUniqueName (p : AdmissionPolicyGroup) : string :=
  "namespaced-group-" +:+ om_Namespace (apg_ObjectMeta p) +:+ "-" +:+ om_Name (apg_ObjectMeta p).
Definition AdmissionPolicyGroup_GetPolicyGroupMembersWithContext (p : AdmissionPolicyGroup)
    : PolicyGroupMembersWithContext :=
  (λ m, mkPolicyGroupMemberWithContext m []) <$> pgs_Policies (apg_Spec p).

#[export] Instance AdmissionPolicyGroup_Policy : PolicyI AdmissionPolicyGroup := {
  GetTypeMeta := apg_TypeMeta;
  GetObjectMeta := apg_ObjectMeta;
  SetObjectMeta m p := mkAdmissionPolicyGroup (apg_TypeMeta p) m (apg_Spec p) (apg_Status p);
  GetPolicyMode p := gs_Mode (pgs_GroupSpec (apg_Spec p));
  GetModule _ := "";
  GetSettings _ := None;
  GetContextAwareResources _ := [];
  GetBackgroundAudit p := gs_BackgroundAudit (pgs_GroupSpec (apg_Spec p));
  GetTimeoutSeconds p := gs_TimeoutSeconds (pgs_GroupSpec (apg_Spec p));
  GetPolicyServer p := gs_PolicyServer (pgs_GroupSpec (apg_Spec p));
  GetUniqueName := AdmissionPolicyGroup_GetUniqueName;
  GetRules := AdmissionPolicyGroup_GetRules;
  GetSideEffects p := gs_SideEffects (pgs_GroupSpec (apg_Spec p));
  GetFailurePolicy p := gs_FailurePolicy (pgs_GroupSpec (apg_Spec p));
  GetMatchPolicy p := gs_MatchPolicy (pgs_GroupSpec (apg_Spec p));
  GetMatchConditions p := gs_MatchConditions (pgs_GroupSpec (apg_Spec p));
  GetNamespaceSelector := AdmissionPolicyGroup_GetNamespaceSelector;
  GetObjectSelector p := gs_ObjectSelector (pgs_GroupSpec (apg_Spec p));
  IsMutating _ := false;
  IsContextAware _ := false;
  GetStatus := apg_Status;
  SetStatusRecord s p := mkAdmissionPolicyGroup (apg_TypeMeta p) (apg_ObjectMeta p) (apg_Spec p) s;
}.
#[export] Instance AdmissionPolicyGroup_PolicyGroup : PolicyGroupI AdmissionPolicyGroup := {
  GetPolicyGroupMembersWithContext := AdmissionPolicyGroup_GetPolicyGroupMembersWithContext;
  GetExpression p := gs_Expression (pgs_GroupSpec (apg_Spec p));
  GetMessage p := gs_Message (pgs_GroupSpec (apg_Spec p));
}.

Definition ClusterAdmissionPolicy_IsContextAware (p : ClusterAdmissionPolicy) : bool :=
  0 <? length (caps_ContextAwareResources (cap_Spec p)).
Definition ClusterAdmissionPolicy_GetUniqueName (p : ClusterAdmissionPolicy) : string :=
  "clusterwide-" +:+ om_Name (cap_ObjectMeta p).

#[export] Instance ClusterAdmissionPolicy_Policy : PolicyI ClusterAdmissionPolicy := {
  GetTypeMeta := cap_TypeMeta;
  GetObjectMeta := cap_ObjectMeta;
  SetObjectMeta m p := mkClusterAdmissionPolicy (cap_TypeMeta p) m (cap_Spec p) (cap_Status p);
  GetPolicyMode p := sp_Mode (caps_PolicySpec (cap_Spec p));
  GetModule p := sp_Module (caps_PolicySpec (cap_Spec p));
  GetSettings p := sp_Settings (caps_PolicySpec (cap_Spec p));
  GetContextAwareResources p := caps_ContextAwareResources (cap_Spec p);
  GetBackgroundAudit p := sp_BackgroundAudit (caps_PolicySpec (cap_Spec p));
  GetTimeoutSeconds p := sp_TimeoutSeconds (caps_PolicySpec (cap_Spec p));
  GetPolicyServer p := sp_PolicyServer (caps_PolicySpec (cap_Spec p));
  GetUniqueName := ClusterAdmissionPolicy_GetUniqueName;
  GetRules p := sp_Rules (caps_PolicySpec (cap_Spec p));
  GetSideEffects p := sp_SideEffects (caps_PolicySpec (cap_Spec p));
  GetFailurePolicy p := sp_FailurePolicy (caps_PolicySpec (cap_Spec p));
  GetMatchPolicy p := sp_MatchPolicy (caps_PolicySpec (cap_Spec p));
  GetMatchConditions p := sp_MatchConditions (caps_PolicySpec (cap_Spec p));
  GetNamespaceSelector p := caps_NamespaceSelector (cap_Spec p);
  GetObjectSelector p := sp_ObjectSelector (caps_PolicySpec (cap_Spec p));
  IsMutating p := sp_Mutating (caps_PolicySpec (cap_Spec p));
  IsContextAware := ClusterAdmissionPolicy_IsContextAware;
  GetStatus := cap_Status;
  SetStatusRecord s p := mkClusterAdmissionPolicy (cap_TypeMeta p) (cap_ObjectMeta p) (cap_Spec p) s;
}.

Abbreviation capg_GroupSpec p := (cpgs_GroupSpec (capgs_ClusterPolicyGroupSpec (capg_Spec p))).

(** The loop over the members returns at the first context aware one. *)
Definition ClusterAdmissionPolicyGroup_IsContextAware (p : ClusterAdmissionPolicyGroup) : bool :=
  existsb (λ kv, 0 <? length (pgmc_ContextAwareResources kv.2))
    (map_to_list (cpgs_Policies (capgs_ClusterPolicyGroupSpec (capg_Spec p)))).
Definition ClusterAdmissionPolicyGroup_GetUniqueName (p : ClusterAdmissionPolicyGroup) : string :=
  "clusterwide-group-" +:+ om_Name (capg_ObjectMeta p).

#[export] Instance ClusterAdmissionPolicyGroup_Policy : PolicyI ClusterAdmissionPolicyGroup := {
  GetTypeMeta := capg_TypeMeta;
  GetObjectMeta := capg_ObjectMeta;
  SetObjectMeta m p := mkClusterAdmissionPolicyGroup (capg_TypeMeta p) m (capg_Spec p) (capg_Status p);
  GetPolicyMode p := gs_Mode (capg_GroupSpec p);
  GetModule _ := "";
  GetSettings _ := None;
  GetContextAwareResources _ := [];
  GetBackgroundAudit p := gs_BackgroundAudit (capg_GroupSpec p);
  GetTimeoutSeconds p := gs_TimeoutSeconds (capg_GroupSpec p);
  GetPolicyServer p := gs_PolicyServer (capg_GroupSpec p);
  GetUniqueName := ClusterAdmissionPolicyGroup_GetUniqueName;
  GetRules p := gs_Rules (capg_GroupSpec p);
  GetSideEffects p := gs_SideEffects (capg_GroupSpec p);
  GetFailurePolicy p := gs_FailurePolicy (capg_GroupSpec p);
  GetMatchPolicy p := gs_MatchPolicy (capg_GroupSpec p);
  GetMatchConditions p := gs_MatchConditions (capg_GroupSpec p);
  GetNamespaceSelector p := capgs_NamespaceSelector (capg_Spec p);
  GetObjectSelector p := gs_ObjectSelector (capg_GroupSpec p);
  IsMutating _ := false;
  IsContextAware := ClusterAdmissionPolicyGroup_IsContextAware;
  GetStatus := capg_Status;
  SetStatusRecord s p :=
    mkClusterAdmissionPolicyGroup (capg_TypeMeta p) (capg_ObjectMeta p) (capg_Spec p) s;
}.
#[export] Instance ClusterAdmissionPolicyGroup_PolicyGroup
    : PolicyGroupI ClusterAdmissionPolicyGroup := {
  GetPolicyGroupMembersWithContext p :=
    cpgs_Policies (capgs_ClusterPolicyGroupSpec (capg_Spec p));
  GetExpression p := gs_Expression (capg_GroupSpec p);
  GetMessage p := gs_Message (capg_GroupSpec p);
}.

(** ** Interface values *)

(** A value of type [Policy]: a pointer to one of the four kinds. *)
Inductive AnyPolicy : Type :=
| PAdmissionPolicy (p : AdmissionPolicy)
| PAdmissionPolicyGroup (p : AdmissionPolicyGroup)
| PClusterAdmissionPolicy (p : ClusterAdmissionPolicy)
| PClusterAdmissionPolicyGroup (p : ClusterAdmissionPolicyGroup).

(** Dynamic dispatch. *)
Definition dispatch {A} (f : ∀ T, PolicyI T → T → A) (p : AnyPolicy) : A :=
  match p with
  | PAdmissionPolicy p => f _ _ p
  | PAdmissionPolicyGroup p => f _ _ p
  | PClusterAdmissionPolicy p => f _ _ p
  | PClusterAdmissionPolicyGroup p => f _ _ p
  end.
Definition dispatch_set (f : ∀ T, PolicyI T → T → T) (p : AnyPolicy) : AnyPolicy :=
  match p with
  | PAdmissionPolicy p => PAdmissionPolicy (f _ _ p)
  | PAdmissionPolicyGroup p => PAdmissionPolicyGroup (f _ _ p)
  | PClusterAdmissionPolicy p => PClusterAdmissionPolicy (f _ _ p)
  | PClusterAdmissionPolicyGroup p => PClusterAdmissionPolicyGroup (f _ _ p)
  end.

#[export] Instance AnyPolicy_Policy : PolicyI AnyPolicy := {
  GetTypeMeta := dispatch (@GetTypeMeta);
  GetObjectMeta := dispatch (@GetObjectMeta);
  SetObjectMeta m := dispatch_set (λ T H, SetObjectMeta m);
  GetPolicyMode := dispatch (@GetPolicyMode);
  GetModule := dispatch (@GetModule);
  GetSettings := dispatch (@GetSettings);
  GetContextAwareResources := dispatch (@GetContextAwareResources);
  GetBackgroundAudit := dispatch (@GetBackgroundAudit);
  GetTimeoutSeconds := dispatch (@GetTimeoutSeconds);
  GetPolicyServer := dispatch (@GetPolicyServer);
  GetUniqueName := dispatch (@GetUniqueName);
  GetRules := dispatch (@GetRules);
  GetSideEffects := dispatch (@GetSideEffects);
  GetFailurePolicy := dispatch (@GetFailurePolicy);
  GetMatchPolicy := dispatch (@GetMatchPolicy);
  GetMatchConditions := dispatch (@GetMatchConditions);
  GetNamespaceSelector := dispatch (@GetNamespaceSelector);
  GetObjectSelector := dispatch (@GetObjectSelector);
  IsMutating := dispatch (@IsMutating);
  IsContextAware := dispatch (@IsContextAware);
  GetStatus := dispatch (@GetStatus);
  SetStatusRecord s := dispatch_set (λ T H, SetStatusRecord s);
}.

(** The type assertion [policy.(PolicyGroup)]: the members, expression and
    message of a group. *)
Definition as_PolicyGroup (p : AnyPolicy)
    : option (PolicyGroupMembersWithContext * string * string) :=
  match p with
  | PAdmissionPolicyGroup p =>
      Some (GetPolicyGroupMembersWithContext p, GetExpression p, GetMessage p)
  | PClusterAdmissionPolicyGroup p =>
      Some (GetPolicyGroupMembersWithContext p, GetExpression p, GetMessage p)
  | _ => None
  end.

(** The type switches on the namespaced kinds. *)
Definition is_namespaced_kind (p : AnyPolicy) : bool :=
  match p with PAdmissionPolicy _ | PAdmissionPolicyGroup _ => true | _ => false end.

(** ** Interface laws *)

(** What the controllers rely on when they write through the pointers: a write
    is read back and touches nothing else. *)
Class PolicyILaws (T : Type) `{PolicyI T} := {
  status_get_set s p : GetStatus (SetStatusRecord s p) = s;
  meta_set_status s p : GetObjectMeta (SetStatusRecord s p) = GetObjectMeta p;
  meta_get_set m p : GetObjectMeta (SetObjectMeta m p) = m;
  status_set_meta m p : GetStatus (SetObjectMeta m p) = GetStatus p;
  server_set_status s p : GetPolicyServer (SetStatusRecord s p) = GetPolicyServer p;
  mode_set_status s p : GetPolicyMode (SetStatusRecord s p) = GetPolicyMode p;
  name_set_status s p : GetUniqueName (SetStatusRecord s p) = GetUniqueName p;
  mutating_set_status s p : IsMutating (SetStatusRecord s p) = IsMutating p;
}.

#[export] Instance AdmissionPolicy_laws : PolicyILaws AdmissionPolicy.
Proof. by split; intros; destruct p. Qed.
#[export] Instance AdmissionPolicyGroup_laws : PolicyILaws AdmissionPolicyGroup.
Proof. by split; intros; destruct p. Qed.
#[export] Instance ClusterAdmissionPolicy_laws : PolicyILaws ClusterAdmissionPolicy.
Proof. by split; intros; destruct p. Qed.
#[export] Instance ClusterAdmissionPolicyGroup_laws : PolicyILaws ClusterAdmissionPolicyGroup.
Proof. by split; intros; destruct p. Qed.
#[export] Instance AnyPolicy_laws : PolicyILaws AnyPolicy.
Proof. by split; intros; destruct p as [[]|[]|[]|[]]. Qed.

Create HintDb policy discriminated.
Create Rewrite HintDb policy.
#[export] Hint Rewrite @status_get_set @meta_set_status @meta_get_set @status_set_meta
  @server_set_status @mode_set_status @name_set_status @mutating_set_status
  using apply _ : policy.
