(* ===== verification/PolicyValidation.v ===== *)
(** * Validation of policies ([policy_validation.go], [policygroup_validation.go])

    The validators collect field errors; a policy is accepted when the list is
    empty. The theorems characterise acceptance. The CEL compilers and
    [IsQualifiedName] are parameters. *)

From S2P Require Import Prelude GoStd Json K8sTypes Concrete Constants PolicyTypes.
From Stdlib Require Import Ascii.

(** ** CEL, a parameter *)

Inductive CelErrorType := ErrorTypeRequired | ErrorTypeInvalid | ErrorTypeInternal | ErrorTypeOther.

(** The error of a compilation: a [*cel.Error], or an error of another type. *)
Inductive CelCompileError :=
| CelErr (type : CelErrorType) (detail : string)
| NotCelErr (err : GoError).

(** Options of [cel.NewCustomEnv]: a member as a nullary boolean function, or
    a function of the CEL standard library. *)
Inductive EnvOption := EnvMember (name : string) | EnvStdlib (name : string).

Class CelCompiler := {
  (** The match condition compiler of the API server. *)
  CompileCELExpression : string → option CelCompileError;
  (** cel-go: the standard functions, environments and compilation. *)
  stdlib_Functions : list string;
  op_Equals : string; op_NotEquals : string; op_LogicalOr : string;
  op_LogicalAnd : string; op_LogicalNot : string;
  CelEnv : Type;
  CelAst : Type;
  NewCustomEnv : list EnvOption → GoError + CelEnv;
  Compile : CelEnv → string → GoError + CelAst;
  OutputIsBool : CelAst → bool;
}.

(** ** Rules *)

Record sensitiveResource := mkSensitiveResource { sr_APIGroup : string; sr_Resource : string }.

Definition sensitiveResource_String (sr : sensitiveResource) : string :=
  "APIGroup: " +:+ sr_APIGroup sr +:+ ", Resource: " +:+ sr_Resource sr.

(** The two loops with [break]. *)
Definition MatchesRules (sr : sensitiveResource) (apiGroups resource : list string) : bool :=
  let apiGroupMatches :=
    existsb (λ g, bool_decide (g = sr_APIGroup sr) || bool_decide (g = "*")) apiGroups in
  let resourceMatches :=
    existsb (λ res, bool_decide (res = sr_Resource sr) || bool_decide (res = "*")
                    || bool_decide (res = "*/*") || HasPrefix res (sr_Resource sr +:+ "/"))
      resource in
  apiGroupMatches && resourceMatches.

Definition defaultSensitiveResources : list sensitiveResource :=
  [mkSensitiveResource "wgpolicyk8s.io" "policyreports"].

Definition checkOperationsArrayForEmptyString (operationsArray : list string)
    (rulesField : FieldPath) : ErrorList :=
  collecti (λ i operation,
    if bool_decide (operation = "")
    then [FRequired (Index (Child rulesField "operations") i) "must be non-empty"]
    else []) operationsArray.

Definition checkRulesArrayForEmptyString (rulesArray : list string)
    (rulesField : FieldPath) : ErrorList :=
  collecti (λ i apiVersion,
    if bool_decide (apiVersion = "")
    then [FRequired (Index rulesField i) "must be non-empty"]
    else []) rulesArray.

(** The index of the first element the loop breaks at. *)
Fixpoint first_index (P : string → bool) (l : list string) : option nat :=
  match l with
  | [] => None
  | x :: l => if P x then Some 0 else S <$> first_index P l
  end.

Definition checkRulesArrayForWildcardUsage (rulesAPIGroups rulesResources : list string)
    (rulesField : FieldPath) : ErrorList :=
  let apiGroupWildcard := first_index (λ g, bool_decide (g = "*")) rulesAPIGroups in
  let resourceWildcard :=
    first_index (λ r, bool_decide (r = "*") || bool_decide (r = "*/*")) rulesResources in
  match apiGroupWildcard, resourceWildcard with
  | Some i, Some j =>
      [FForbidden (Index (Child rulesField "apiGroups") i)
         "apiGroups cannot use wildcards when using AdmissionPolicy or AdmissionPolicyGroup";
       FForbidden (Index (Child rulesField "resources") j)
         "resources cannot use wildcards when using AdmissionPolicy or AdmissionPolicyGroup"]
  | _, _ => []
  end.

Definition checkRulesArrayForSensitiveResourcesBeingTargeted
    (rulesAPIGroups rulesResources : list string) (rulesField : FieldPath) : ErrorList :=
  collect (λ sr,
    if MatchesRules sr rulesAPIGroups rulesResources
    then [FForbidden rulesField
            ("{" +:+ sensitiveResource_String sr +:+
             "} resources cannot be targeted by AdmissionPolicy or AdmissionPolicyGroup")]
    else []) defaultSensitiveResources.

(** One iteration of the loop of [validateRulesField]. The wildcard and
    sensitive resource checks receive the rule's API versions, as in the
    source. *)
Definition validateRule (namespaced : bool) (rulesField : FieldPath)
    (rule : RuleWithOperations) : ErrorList :=
  let versions := r_APIVersions (rwo_Rule rule) in
  let resources := r_Resources (rwo_Rule rule) in
  if length (rwo_Operations rule) =? 0 then
    [FRequired (Child rulesField "operations") "a value must be specified"]
  else if (length versions =? 0) || (length resources =? 0) then
    [FRequired rulesField "apiVersions and resources must have specified values"]
  else
    checkOperationsArrayForEmptyString (rwo_Operations rule) rulesField ++
    checkRulesArrayForEmptyString versions (Child rulesField "rule.apiVersions") ++
    checkRulesArrayForEmptyString resources (Child rulesField "rule.resources") ++
    if namespaced then
      checkRulesArrayForWildcardUsage versions resources rulesField ++
      checkRulesArrayForSensitiveResourcesBeingTargeted versions resources rulesField
    else [].

Definition validateRulesField (policy : AnyPolicy) : ErrorList :=
  let rulesField := NewPath ["spec"; "rules"] in
  if length (GetRules policy) =? 0 then [FRequired rulesField "a value must be specified"]
  else collect (validateRule (is_namespaced_kind policy) rulesField) (GetRules policy).

(** ** Immutable fields *)

Definition validatePolicyServerField (oldPolicy newPolicy : AnyPolicy) : option FieldError :=
  if negb (bool_decide (GetPolicyServer oldPolicy = GetPolicyServer newPolicy))
  then Some (FForbidden (Child (NewPath ["spec"]) "policyServer") "the field is immutable")
  else None.

Definition validatePolicyModeField (oldPolicy newPolicy : AnyPolicy) : option FieldError :=
  if bool_decide (GetPolicyMode oldPolicy = "protect")
     && bool_decide (GetPolicyMode newPolicy = "monitor")
  then Some (FForbidden (Child (NewPath ["spec"]) "mode")
               "field cannot transition from protect to monitor. Recreate instead.")
  else None.

(** [apierrors.NewInvalid] on the policy's kind and name. *)
Definition prepareInvalidAPIError (policy : AnyPolicy) (errorList : ErrorList) : GoError :=
  ErrInvalid (tm_Kind (GetTypeMeta policy)) (GetName policy) errorList.

(** ** Match conditions *)

Definition maxMatchConditionsCount : nat := 64.

Section match_conditions.
Context `{K8sUtil, CelCompiler}.

Definition convertCELErrorToValidationError (fldPath : FieldPath) (expression : string)
    (err : CelCompileError) : FieldError :=
  match err with
  | CelErr ErrorTypeRequired detail => FRequired fldPath detail
  | CelErr ErrorTypeInvalid detail => FInvalid fldPath expression detail
  | CelErr ErrorTypeInternal detail => FInternal fldPath (ErrNew detail)
  | CelErr ErrorTypeOther detail =>
      FInternal fldPath (ErrWrap "unsupported error type" (ErrNew detail))
  | NotCelErr err => FInternal fldPath (ErrWrap "unsupported error type" err)
  end.

Definition validateMatchConditionsExpression (expressionStr : string) (fldPath : FieldPath)
    : ErrorList :=
  match CompileCELExpression expressionStr with
  | Some err => [convertCELErrorToValidationError fldPath expressionStr err]
  | None => []
  end.

Definition validateMatchCondition (v : MatchCondition) (fldPath : FieldPath) : ErrorList :=
  let trimmedExpression := TrimSpace (mc_Expression v) in
  (if bool_decide (trimmedExpression = "")
   then [FRequired (Child fldPath "expression") ""]
   else validateMatchConditionsExpression trimmedExpression (Child fldPath "expression")) ++
  (if bool_decide (mc_Name v = "")
   then [FRequired (Child fldPath "name") ""]
   else (λ msg, FInvalid fldPath (mc_Name v) msg) <$> IsQualifiedName (mc_Name v)).

(** The loop of [validateMatchConditions] from index [i], with the names
    seen so far. *)
Fixpoint validateMatchConditions_loop (fldPath : FieldPath) (i : nat)
    (conditionNames : gset string) (m : list MatchCondition) : ErrorList :=
  match m with
  | [] => []
  | c :: m =>
      let dup := bool_decide (mc_Name c ≠ "") && bool_decide (mc_Name c ∈ conditionNames) in
      validateMatchCondition c (Index fldPath i) ++
      (if dup then [FDuplicate (Child (Index fldPath i) "name") (mc_Name c)] else []) ++
      validateMatchConditions_loop fldPath (S i)
        (if bool_decide (mc_Name c = "") then conditionNames
         else {[ mc_Name c ]} ∪ conditionNames) m
  end.

Definition validateMatchConditions (m : list MatchCondition) (fldPath : FieldPath) : ErrorList :=
  (if maxMatchConditionsCount <? length m
   then [FTooMany fldPath (length m) maxMatchConditionsCount] else []) ++
  validateMatchConditions_loop fldPath 0 ∅ m.

Definition matchConditions_path : FieldPath := Child (NewPath ["spec"]) "matchConditions".

Definition validatePolicyCreate (policy : AnyPolicy) : ErrorList :=
  validateRulesField policy ++
  validateMatchConditions (GetMatchConditions policy) matchConditions_path.

Definition validatePolicyUpdate (oldPolicy newPolicy : AnyPolicy) : ErrorList :=
  validateRulesField newPolicy ++
  validateMatchConditions (GetMatchConditions newPolicy) matchConditions_path ++
  option_list (validatePolicyServerField oldPolicy newPolicy) ++
  option_list (validatePolicyModeField oldPolicy newPolicy).
End match_conditions.

(** ** Policy groups *)

Definition idenRegex : regex :=
  RSeq (RClass (λ c, bool_decide (c = "_"%char) || is_lower c || is_upper c))
       (RStar (RClass (λ c, bool_decide (c = "_"%char) || is_lower c || is_upper c || is_digit c))).

Definition celReservedSymbols : list string :=
  ["true"; "false"; "null"; "in"; "as"; "break"; "const"; "continue"; "else";
   "for"; "function"; "if"; "import"; "let"; "loop"; "package"; "namespace"; "return";
   "var"; "void"; "while"].

Section groups.
Context `{K8sUtil, CelCompiler, MapRange}.

(** A group is given as the policy and the interface values the assertion
    yields: its members and its expression. *)
Definition validatePolicyGroupMembers (members : PolicyGroupMembersWithContext) : ErrorList :=
  let path := Child (NewPath ["spec"]) "policies" in
  (if bool_decide (size members = 0)
   then [FRequired path "policy groups must have at least one policy member"] else []) ++
  collect (λ kv,
    let memberName := kv.1 in
    if bool_decide (memberName = "") || bool_decide (memberName ∈ celReservedSymbols)
       || negb (MatchString idenRegex memberName)
    then [FInvalid path memberName "policy group member name is invalid"] else [])
    (map_range members).

Definition allowedOperators : list string :=
  [op_Equals; op_NotEquals; op_LogicalOr; op_LogicalAnd; op_LogicalNot].

(** The options: the members, then the allowed standard functions. *)
Definition expression_env (members : PolicyGroupMembersWithContext) : list EnvOption :=
  ((λ kv, EnvMember kv.1) <$> map_range members) ++
  (EnvStdlib <$> filter (λ fn, fn ∈ allowedOperators) stdlib_Functions).

Definition validatePolicyGroupExpressionField (members : PolicyGroupMembersWithContext)
    (expression : string) : option FieldError :=
  let expressionField := Child (NewPath ["spec"]) "expression" in
  if bool_decide (expression = "") then Some (FRequired expressionField "must be non-empty")
  else match NewCustomEnv (expression_env members) with
  | inl err => Some (FInternal expressionField (ErrWrap "error creating CEL environment" err))
  | inr env =>
      match Compile env expression with
      | inl err => Some (FInvalid expressionField expression
                           ("compilation failed: " +:+ Error err))
      | inr ast =>
          if negb (OutputIsBool ast)
          then Some (FInvalid expressionField expression "must evaluate to bool")
          else None
      end
  end.

Definition group_errors (policyGroup : AnyPolicy) : ErrorList :=
  match as_PolicyGroup policyGroup with
  | Some (members, expression, _) =>
      validatePolicyGroupMembers members ++
      option_list (validatePolicyGroupExpressionField members expression)
  | None => []
  end.

Definition validatePolicyGroupCreate (policyGroup : AnyPolicy) : ErrorList :=
  validatePolicyCreate policyGroup ++ group_errors policyGroup.

Definition validatePolicyGroupUpdate (oldPolicyGroup newPolicyGroup : AnyPolicy) : ErrorList :=
  validatePolicyUpdate oldPolicyGroup newPolicyGroup ++ group_errors newPolicyGroup.
End groups.

(** ** Acceptance, rule by rule *)

Lemma existsb_elem {A} (f : A → bool) l : existsb f l = true ↔ ∃ x, x ∈ l ∧ f x = true.
Proof. rewrite existsb_exists. by setoid_rewrite list_elem_of_In. Qed.

Lemma length_eqb_0 {A} (l : list A) : (length l =? 0) = bool_decide (l = []).
Proof. by destruct l. Qed.

Lemma first_index_None P l : first_index P l = None ↔ Forall (λ x, P x = false) l.
Proof.
  induction l as [|x l IH]; simpl; [done|]. rewrite Forall_cons, <-IH.
  destruct (P x), (first_index P l); naive_solver.
Qed.

Lemma first_index_Some P l : is_Some (first_index P l) ↔ ∃ x, x ∈ l ∧ P x = true.
Proof.
  rewrite <-not_eq_None_Some, first_index_None. rewrite Forall_forall. split.
  - intros Hn. destruct (existsb P l) eqn:He; [by apply existsb_elem|].
    destruct Hn. intros x Hx. apply not_true_is_false. intros Hp.
    enough (existsb P l = true) by congruence. apply existsb_elem; eauto.
  - intros (x & Hx & Hp) Hall. specialize (Hall x Hx). congruence.
Qed.

Lemma empty_strings_nil (mk : nat → FieldError) l :
  collecti (λ i s, if bool_decide (s = "") then [mk i] else []) l = [] ↔ "" ∉ l.
Proof.
  rewrite (collecti_nil (λ s, s ≠ "")); [apply Forall_ne_not_elem|].
  intros i x. case_if; naive_solver.
Qed.

(** A rule names a wildcard for its resources. *)
Definition has_resource_wildcard (resources : list string) : Prop :=
  "*" ∈ resources ∨ "*/*" ∈ resources.

(** A rule targets a sensitive resource, when [groups] are its API groups. *)
Definition targets (sr : sensitiveResource) (groups resources : list string) : Prop :=
  (sr_APIGroup sr ∈ groups ∨ "*" ∈ groups) ∧
  ∃ res, res ∈ resources ∧
    (res = sr_Resource sr ∨ res = "*" ∨ res = "*/*" ∨
     HasPrefix res (sr_Resource sr +:+ "/") = true).

Lemma MatchesRules_spec sr groups resources :
  MatchesRules sr groups resources = true ↔ targets sr groups resources.
Proof.
  unfold MatchesRules, targets. rewrite andb_true_iff, !existsb_elem.
  setoid_rewrite orb_true_iff. setoid_rewrite orb_true_iff. setoid_rewrite orb_true_iff.
  setoid_rewrite bool_decide_eq_true. set_solver.
Qed.

Lemma wildcard_nil groups resources path :
  checkRulesArrayForWildcardUsage groups resources path = [] ↔
  ¬ ("*" ∈ groups ∧ has_resource_wildcard resources).
Proof.
  unfold checkRulesArrayForWildcardUsage, has_resource_wildcard.
  set (P := λ g, bool_decide (g = "*")).
  set (Q := λ r, bool_decide (r = "*") || bool_decide (r = "*/*")).
  assert (is_Some (first_index P groups) ↔ "*" ∈ groups) as HP.
  { rewrite first_index_Some. unfold P. setoid_rewrite bool_decide_eq_true. set_solver. }
  assert (is_Some (first_index Q resources) ↔ "*" ∈ resources ∨ "*/*" ∈ resources) as HQ.
  { rewrite first_index_Some. unfold Q. setoid_rewrite orb_true_iff.
    setoid_rewrite bool_decide_eq_true. set_solver. }
  rewrite <-HP, <-HQ, <-!not_eq_None_Some.
  destruct (first_index P groups), (first_index Q resources); naive_solver.
Qed.

Lemma sensitive_nil groups resources path :
  checkRulesArrayForSensitiveResourcesBeingTargeted groups resources path = [] ↔
  Forall (λ sr, ¬ targets sr groups resources) defaultSensitiveResources.
Proof.
  unfold checkRulesArrayForSensitiveResourcesBeingTargeted. rewrite collect_nil.
  apply Forall_iff. intros sr. rewrite <-MatchesRules_spec.
  destruct (MatchesRules sr groups resources); naive_solver.
Qed.

(** What the validator requires of one rule. *)
Definition rule_accepted (namespaced : bool) (rule : RuleWithOperations) : Prop :=
  let versions := r_APIVersions (rwo_Rule rule) in
  let resources := r_Resources (rwo_Rule rule) in
  (rwo_Operations rule ≠ [] ∧ "" ∉ rwo_Operations rule) ∧
  (versions ≠ [] ∧ "" ∉ versions) ∧ (resources ≠ [] ∧ "" ∉ resources) ∧
  (namespaced = true →
     ¬ ("*" ∈ versions ∧ has_resource_wildcard resources) ∧
     Forall (λ sr, ¬ targets sr versions resources) defaultSensitiveResources).

Lemma validateRule_nil namespaced path rule :
  validateRule namespaced path rule = [] ↔ rule_accepted namespaced rule.
Proof.
  unfold validateRule, rule_accepted. rewrite !length_eqb_0.
  destruct (decide (rwo_Operations rule = [])) as [->|Ho];
    [rewrite bool_decide_eq_true_2 by done; naive_solver|
     rewrite (bool_decide_eq_false_2 (rwo_Operations rule = [])) by done].
  destruct (decide (r_APIVersions (rwo_Rule rule) = [])) as [->|Hv];
    [rewrite bool_decide_eq_true_2 by done; naive_solver|
     rewrite (bool_decide_eq_false_2 (r_APIVersions _ = [])) by done].
  destruct (decide (r_Resources (rwo_Rule rule) = [])) as [->|Hr];
    [rewrite bool_decide_eq_true_2 by done; naive_solver|
     rewrite (bool_decide_eq_false_2 (r_Resources _ = [])) by done].
  cbn [orb]. rewrite !app_nil_iff.
  unfold checkOperationsArrayForEmptyString, checkRulesArrayForEmptyString.
  rewrite !empty_strings_nil.
  destruct namespaced; [rewrite app_nil_iff, wildcard_nil, sensitive_nil|]; naive_solver.
Qed.

Lemma validateRulesField_nil (policy : AnyPolicy) :
  validateRulesField policy = [] ↔
  GetRules policy ≠ [] ∧
  Forall (rule_accepted (is_namespaced_kind policy)) (GetRules policy).
Proof.
  unfold validateRulesField. rewrite length_eqb_0. case_if; [naive_solver|].
  rewrite collect_nil. setoid_rewrite validateRule_nil. naive_solver.
Qed.


(** ** Match conditions *)

Section match_condition_theorems.
Context `{K8sUtil, CelCompiler}.

(** What the validator requires of one condition. *)
Definition match_condition_accepted (c : MatchCondition) : Prop :=
  TrimSpace (mc_Expression c) ≠ "" ∧
  CompileCELExpression (TrimSpace (mc_Expression c)) = None ∧
  mc_Name c ≠ "" ∧ IsQualifiedName (mc_Name c) = [].

Lemma validateMatchCondition_nil c path :
  validateMatchCondition c path = [] ↔ match_condition_accepted c.
Proof.
  unfold validateMatchCondition, match_condition_accepted, validateMatchConditionsExpression.
  rewrite app_nil_iff.
  repeat case_if; try naive_solver.
  destruct (CompileCELExpression _); [naive_solver|].
  destruct (IsQualifiedName (mc_Name c)); naive_solver.
Qed.

Lemma validateMatchConditions_loop_nil path i seen m :
  validateMatchConditions_loop path i seen m = [] ↔
  Forall match_condition_accepted m ∧ NoDup (mc_Name <$> m) ∧
  Forall (λ c, mc_Name c ∉ seen) m.
Proof.
  revert i seen. induction m as [|c m IH]; intros i seen; cbn [validateMatchConditions_loop].
  { rewrite fmap_nil, NoDup_nil. naive_solver. }
  rewrite !app_nil_iff, validateMatchCondition_nil, IH, !Forall_cons, fmap_cons, NoDup_cons.
  assert (mc_Name c ∉ mc_Name <$> m ↔ Forall (λ d, mc_Name d ≠ mc_Name c) m) as ->.
  { rewrite list_elem_of_fmap, Forall_forall. naive_solver. }
  unfold match_condition_accepted at 1 3.
  destruct (decide (mc_Name c = "")) as [He|He]; [naive_solver|].
  rewrite (bool_decide_eq_false_2 (mc_Name c = "")), (bool_decide_eq_true_2 (mc_Name c ≠ ""))
    by done. cbn [andb].
  assert (Forall (λ d, mc_Name d ∉ {[mc_Name c]} ∪ seen) m ↔
          Forall (λ d, mc_Name d ≠ mc_Name c) m ∧ Forall (λ d, mc_Name d ∉ seen) m) as ->.
  { rewrite <-Forall_and. apply Forall_iff. set_solver. }
  case_if; naive_solver.
Qed.

Lemma validateMatchConditions_nil (m : list MatchCondition) (path : FieldPath) :
  validateMatchConditions m path = [] ↔
  length m ≤ maxMatchConditionsCount ∧
  Forall match_condition_accepted m ∧ NoDup (mc_Name <$> m).
Proof.
  unfold validateMatchConditions.
  rewrite app_nil_iff, validateMatchConditions_loop_nil.
  assert (Forall (λ c, mc_Name c ∉ (∅ : gset string)) m) by (apply Forall_true; set_solver).
  destruct (Nat.ltb_spec maxMatchConditionsCount (length m)); [|naive_solver].
  split; [naive_solver|]. intros [? _]. lia.
Qed.

(** Match conditions are accepted exactly when there are at most 64,
    every expression is not blank and compiles, every name is a qualified
    name, and no name occurs twice. *)
Theorem validateMatchConditions_accepts (m : list MatchCondition) (path : FieldPath) :
  validateMatchConditions m path = [] ↔
  length m ≤ maxMatchConditionsCount ∧
  Forall match_condition_accepted m ∧ NoDup (mc_Name <$> m).
Proof. apply validateMatchConditions_nil. Qed.

(** ** Updates *)

Lemma validatePolicyUpdate_nil old new :
  validatePolicyUpdate old new = [] ↔
  validatePolicyCreate new = [] ∧ GetPolicyServer old = GetPolicyServer new ∧
  ¬ (GetPolicyMode old = "protect" ∧ GetPolicyMode new = "monitor").
Proof.
  unfold validatePolicyUpdate, validatePolicyCreate, validatePolicyServerField,
    validatePolicyModeField.
  rewrite !app_nil_iff.
  destruct (decide (GetPolicyServer old = GetPolicyServer new)) as [Hs|Hs];
    [rewrite (bool_decide_eq_true_2 _ Hs)|rewrite (bool_decide_eq_false_2 _ Hs)];
    [|simpl; naive_solver].
  destruct (decide (GetPolicyMode old = "protect")) as [Ho|Ho];
    [rewrite (bool_decide_eq_true_2 _ Ho)|rewrite (bool_decide_eq_false_2 _ Ho); simpl; naive_solver].
  destruct (decide (GetPolicyMode new = "monitor")) as [Hn|Hn];
    [rewrite (bool_decide_eq_true_2 _ Hn)|rewrite (bool_decide_eq_false_2 _ Hn)]; simpl; naive_solver.
Qed.

(** The mode values the CRD's enumeration admits. *)
Definition crd_mode (p : AnyPolicy) : Prop :=
  GetPolicyMode p = "protect" ∨ GetPolicyMode p = "monitor".

(** One accepted update of a stored policy. *)
Inductive update_step : AnyPolicy → AnyPolicy → Prop :=
| update_accepted old new :
    crd_mode new → validatePolicyUpdate old new = [] → update_step old new.

(** (C21) Whatever updates are accepted one after the other, a policy stays on
    its policy server, and a policy in protect mode never goes back to
    monitor mode. *)
Theorem updates_keep_server_and_protect (p q : AnyPolicy) :
  rtc update_step p q →
  GetPolicyServer q = GetPolicyServer p ∧
  (GetPolicyMode p = "protect" → GetPolicyMode q = "protect").
Proof.
  induction 1 as [|p q r [old new Hcrd Hupd] _ IH]; [done|].
  apply validatePolicyUpdate_nil in Hupd as (_ & Hs & Hm).
  destruct IH as [-> IH]. split; [done|]. intros Hp. apply IH.
  destruct Hcrd; naive_solver.
Qed.
End match_condition_theorems.

(** ** Policy groups *)

(** The identifiers of CEL. *)
Definition cel_identifier (s : string) : Prop :=
  ∃ c r, chars s = c :: r ∧
    (c = "_"%char ∨ is_lower c = true ∨ is_upper c = true) ∧
    Forall (λ d, d = "_"%char ∨ is_lower d = true ∨ is_upper d = true ∨ is_digit d = true) r.

(** The regular expression matches the CEL identifiers. *)
Lemma idenRegex_spec s : MatchString idenRegex s = true ↔ cel_identifier s.
Proof.
  unfold MatchString, cel_identifier, idenRegex. destruct (chars s) as [|c r].
  { split; [done|naive_solver]. }
  rewrite rmatch_class_seq, rmatch_class_star, andb_true_iff, forallb_Forall_true.
  rewrite !orb_true_iff, bool_decide_eq_true, <-(assoc or).
  rewrite (Forall_iff _ r (λ d, d = "_"%char ∨ is_lower d = true ∨ is_upper d = true ∨
                                is_digit d = true));
    [|by intros d; rewrite !orb_true_iff, bool_decide_eq_true, <-!(assoc or)].
  split; [intros [Hc Hr]; by exists c, r|by intros (? & ? & [= <- <-] & Hc & Hr)].
Qed.

Lemma cel_identifier_nonempty s : cel_identifier s → s ≠ "".
Proof. intros (c & r & Hs & _) ->. done. Qed.

Section group_theorems.
Context `{K8sUtil, CelCompiler, MapRange}.

(** The members of a group are accepted, in whatever order they are
    visited, exactly when there is one and every name is a CEL identifier
    that is not reserved: each can be called in the group's expression. *)
Theorem validatePolicyGroupMembers_accepts (members : PolicyGroupMembersWithContext) :
  validatePolicyGroupMembers members = [] ↔
  members ≠ ∅ ∧
  ∀ name, is_Some (members !! name) → cel_identifier name ∧ name ∉ celReservedSymbols.
Proof.
  unfold validatePolicyGroupMembers. rewrite app_nil_iff, collect_nil, Forall_forall.
  rewrite <-map_size_empty_iff. split.
  - intros [Hs Hall]. split; [by intros Hz; rewrite bool_decide_eq_true_2 in Hs|].
    intros name [x Hx]. specialize (Hall (name, x) (proj2 (elem_of_map_range _ _ _) Hx)).
    cbn [fst] in Hall. revert Hall.
    case_if as Hif; [done|]. intros _.
    rewrite !orb_false_iff, negb_false_iff, !bool_decide_eq_false, idenRegex_spec in Hif.
    naive_solver.
  - intros [Hs Hall]. split; [by rewrite bool_decide_eq_false_2|].
    intros [name x] Hin%elem_of_map_range. cbn [fst].
    destruct (Hall name) as [Hid Hres]; [by eexists|].
    rewrite (bool_decide_eq_false_2 (name = "")) by by apply cel_identifier_nonempty.
    rewrite (bool_decide_eq_false_2 (name ∈ _)) by done.
    by rewrite (proj2 (idenRegex_spec name) Hid).
Qed.
End group_theorems.

(** ** The sensitive resource check and API groups *)

(** A rule on the reports of the [wgpolicyk8s.io] group, at a version. *)
Definition policyreports_rule (version : string) : RuleWithOperations :=
  mkRWO ["CREATE"] (mkRule ["wgpolicyk8s.io"] [version] ["policyreports"] None).

(** The check compares the sensitive API group with the rule's API
    versions: an AdmissionPolicy whose only rule targets the policy reports of
    [wgpolicyk8s.io] is accepted at every version that is not a wildcard, not
    empty and not the group's own name. *)
Theorem sensitive_group_accepted (p : AdmissionPolicy) (version : string) :
  sp_Rules (ap_Spec p) = [policyreports_rule version] →
  version ≠ "" → version ≠ "*" → version ≠ "wgpolicyk8s.io" →
  validateRulesField (PAdmissionPolicy p) = [].
Proof.
  intros Hr Hne Hst Hg. unfold validateRulesField.
  change (GetRules (PAdmissionPolicy p)) with (scoped_rule <$> sp_Rules (ap_Spec p)).
  rewrite Hr. simpl (length _ =? 0). cbv iota. rewrite collect_nil. simpl.
  apply Forall_singleton, validateRule_nil. unfold rule_accepted. cbn.
  split_and!; try set_solver. intros _. split; [set_solver|].
  apply Forall_singleton. unfold targets. cbn. set_solver.
Qed.

(** ** Witnesses *)

(** A CEL that compiles everything to a boolean. *)
Definition concrete_cel : CelCompiler := {|
  CompileCELExpression _ := None;
  stdlib_Functions := ["_==_"; "_!=_"; "_||_"; "_&&_"; "!_"; "_+_"];
  op_Equals := "_==_"; op_NotEquals := "_!=_"; op_LogicalOr := "_||_";
  op_LogicalAnd := "_&&_"; op_LogicalNot := "!_";
  CelEnv := unit; CelAst := unit;
  NewCustomEnv _ := inr tt; Compile _ _ := inr tt; OutputIsBool _ := true;
|}.

Definition sample_spec (server mode : string) (rules : list RuleWithOperations) : PolicySpec :=
  mkPolicySpec server mode "registry://policy" None rules None false true None [] None None None.
Definition sample_policy (ns name server mode : string) (rules : list RuleWithOperations)
    : AdmissionPolicy :=
  mkAdmissionPolicy (mkTypeMeta "policies.kubewarden.io/v1" "AdmissionPolicy")
    (named_meta ns name) (sample_spec server mode rules) (mkPolicyStatus "" "" []).
Definition pods_rule : RuleWithOperations :=
  mkRWO ["CREATE"] (mkRule [""] ["v1"] ["pods"] None).

Lemma sensitive_group_accepted_witness :
  validateRulesField
    (PAdmissionPolicy (sample_policy "ns" "p" "default" "protect" [policyreports_rule "v1alpha2"]))
  = [].
Proof. by apply (sensitive_group_accepted _ "v1alpha2"). Defined.

Lemma updates_keep_server_and_protect_witness :
  let p := PAdmissionPolicy (sample_policy "ns" "p" "default" "monitor" [pods_rule]) in
  let q := PAdmissionPolicy (sample_policy "ns" "p" "default" "protect" [pods_rule]) in
  @rtc _ (@update_step concrete_util concrete_cel) p q ∧ GetPolicyServer q = "default".
Proof.
  intros p q. assert (@rtc _ (@update_step concrete_util concrete_cel) p q) as Hr.
  { apply rtc_once. constructor; [by left|]. vm_compute. reflexivity. }
  split; [exact Hr|].
  exact (proj1 (@updates_keep_server_and_protect concrete_util concrete_cel p q Hr)).
Defined.
