(* ===== verification/PolicyServerTypes.v ===== *)
(** * The PolicyServer resource ([policyserver_types.go]) and dynamic objects *)

From S2P Require Import Prelude GoStd Json K8sTypes Constants PolicyTypes.

Record PolicyServerSecurity := mkPolicyServerSecurity {
  pss_Container : option SecurityContext; pss_Pod : option json;
}.

(** [Annotations] and [InsecureSources] tell nil from empty, since the sources
    do. *)
Record PolicyServerSpec := mkPolicyServerSpec {
  pspec_Image : string;
  pspec_Replicas : Z;
  pspec_MinAvailable : option IntOrString;
  pspec_MaxUnavailable : option IntOrString;
  pspec_Annotations : option (gmap string string);
  pspec_Env : list EnvVar;
  pspec_ServiceAccountName : string;
  pspec_ImagePullSecret : string;
  pspec_InsecureSources : option (list string);
  pspec_SourceAuthorities : gmap string (list string);
  pspec_VerificationConfig : string;
  pspec_SecurityContexts : PolicyServerSecurity;
  pspec_Affinity : json;
  pspec_Limits : gmap string Quantity;
  pspec_Requests : gmap string Quantity;
  pspec_Tolerations : list json;
}.

Definition ReconciliationFailed : string := "ReconciliationFailed".
Definition ReconciliationSucceeded : string := "ReconciliationSucceeded".

Definition PolicyServerCertSecretReconciled : string := "CertSecretReconciled".
Definition PolicyServerConfigMapReconciled : string := "ConfigMapReconciled".
Definition PolicyServerDeploymentReconciled : string := "DeploymentReconciled".
Definition PolicyServerServiceReconciled : string := "ServiceReconciled".
Definition PolicyServerPodDisruptionBudgetReconciled : string := "PodDisruptionBudgetReconciled".

Record PolicyServerStatus := mkPolicyServerStatus { pstat_Conditions : list Condition }.

Record PolicyServer := mkPolicyServer {
  psrv_ObjectMeta : ObjectMeta; psrv_Spec : PolicyServerSpec; psrv_Status : PolicyServerStatus;
}.

#[export] Instance PolicyServerSecurity_eq_dec : EqDecision PolicyServerSecurity.
Proof. solve_decision. Defined.
#[export] Instance PolicyServerSpec_eq_dec : EqDecision PolicyServerSpec.
Proof. solve_decision. Defined.
#[export] Instance PolicyServerStatus_eq_dec : EqDecision PolicyServerStatus.
Proof. solve_decision. Defined.
#[export] Instance PolicyServer_eq_dec : EqDecision PolicyServer.
Proof. solve_decision. Defined.

Definition psrv_Name (ps : PolicyServer) : string := om_Name (psrv_ObjectMeta ps).
Definition NameWithPrefix (ps : PolicyServer) : string := "policy-server-" +:+ psrv_Name ps.
Definition AppLabel (ps : PolicyServer) : string := "kubewarden-" +:+ NameWithPrefix ps.

Definition psrv_set_ObjectMeta (m : ObjectMeta) (ps : PolicyServer) : PolicyServer :=
  mkPolicyServer m (psrv_Spec ps) (psrv_Status ps).
Definition psrv_set_Conditions (cs : list Condition) (ps : PolicyServer) : PolicyServer :=
  mkPolicyServer (psrv_ObjectMeta ps) (psrv_Spec ps) (mkPolicyServerStatus cs).
Definition psrv_Conditions (ps : PolicyServer) : list Condition := pstat_Conditions (psrv_Status ps).

(** The value of [GetObjectKind] and owner of the resources of a server. *)
Definition psrv_owner_ref (ps : PolicyServer) : OwnerReference :=
  mkOwnerRef "PolicyServer" (psrv_Name ps) (om_UID (psrv_ObjectMeta ps)).

(** ** Configuration of the controller ([policyserver_controller.go]) *)

Record TelemetryConfiguration := mkTelemetry {
  tc_MetricsEnabled : bool;
  tc_TracingEnabled : bool;
  tc_OtelSidecarEnabled : bool;
  tc_OtelCertificateSecret : string;
  tc_OtelClientCertificateSecret : string;
}.

Record PolicyServerReconciler := mkPolicyServerReconciler {
  r_TelemetryConfiguration : TelemetryConfiguration;
  r_DeploymentsNamespace : string;
  r_AlwaysAcceptAdmissionReviewsInDeploymentsNamespace : bool;
  r_ClientCAConfigMapName : string;
}.

(** ** Objects of any type

    A [runtime.Object] or [client.Object] interface value, as far as the
    sources distinguish its dynamic type. *)
Inductive AnyObject : Type :=
| OPolicy (p : AnyPolicy)
| OPolicyServer (ps : PolicyServer)
| OConfigMap (c : ConfigMap)
| OPod (p : Pod)
| OOther (gotype : string).

(** The [%T] of an object. *)
Definition go_type (o : AnyObject) : string :=
  match o with
  | OPolicy (PAdmissionPolicy _) => "*v1.AdmissionPolicy"
  | OPolicy (PAdmissionPolicyGroup _) => "*v1.AdmissionPolicyGroup"
  | OPolicy (PClusterAdmissionPolicy _) => "*v1.ClusterAdmissionPolicy"
  | OPolicy (PClusterAdmissionPolicyGroup _) => "*v1.ClusterAdmissionPolicyGroup"
  | OPolicyServer _ => "*v1.PolicyServer"
  | OConfigMap _ => "*v1.ConfigMap"
  | OPod _ => "*v1.Pod"
  | OOther t => t
  end.
