(* ===== verification/PolicyWebhook.v ===== *)
(** * Admission webhooks of the policy kinds ([*_webhook.go])

    One defaulter and one validator per kind, on objects of any type. A
    defaulter returns the object it mutated; a validator returns the error of
    its Go counterpart, [None] when the request is admitted. *)

From S2P Require Import Prelude GoStd Json K8sTypes Concrete Constants PolicyTypes PolicyValidation PolicyServerTypes.

(** Assignments to [Spec.PolicyServer]. *)
Definition spec_set_PolicyServer (s : string) (sp : PolicySpec) : PolicySpec :=
  mkPolicySpec s (sp_Mode sp) (sp_Module sp) (sp_Settings sp) (sp_Rules sp)
    (sp_FailurePolicy sp) (sp_Mutating sp) (sp_BackgroundAudit sp) (sp_MatchPolicy sp)
    (sp_MatchConditions sp) (sp_ObjectSelector sp) (sp_SideEffects sp) (sp_TimeoutSeconds sp).
Definition group_set_PolicyServer (s : string) (g : GroupSpec) : GroupSpec :=
  mkGroupSpec s (gs_Mode g) (gs_Rules g) (gs_FailurePolicy g) (gs_BackgroundAudit g)
    (gs_MatchPolicy g) (gs_MatchConditions g) (gs_ObjectSelector g) (gs_SideEffects g)
    (gs_TimeoutSeconds g) (gs_Expression g) (gs_Message g).

Definition ap_set_PolicyServer (s : string) (p : AdmissionPolicy) : AdmissionPolicy :=
  mkAdmissionPolicy (ap_TypeMeta p) (ap_ObjectMeta p) (spec_set_PolicyServer s (ap_Spec p))
    (ap_Status p).
Definition apg_set_PolicyServer (s : string) (p : AdmissionPolicyGroup) : AdmissionPolicyGroup :=
  mkAdmissionPolicyGroup (apg_TypeMeta p) (apg_ObjectMeta p)
    (mkPolicyGroupSpec (group_set_PolicyServer s (pgs_GroupSpec (apg_Spec p)))
       (pgs_Policies (apg_Spec p))) (apg_Status p).
Definition cap_set_PolicyServer (s : string) (p : ClusterAdmissionPolicy)
    : ClusterAdmissionPolicy :=
  mkClusterAdmissionPolicy (cap_TypeMeta p) (cap_ObjectMeta p)
    (mkClusterAdmissionPolicySpec (spec_set_PolicyServer s (caps_PolicySpec (cap_Spec p)))
       (caps_NamespaceSelector (cap_Spec p)) (caps_ContextAwareResources (cap_Spec p)))
    (cap_Status p).
Definition capg_set_PolicyServer (s : string) (p : ClusterAdmissionPolicyGroup)
    : ClusterAdmissionPolicyGroup :=
  mkClusterAdmissionPolicyGroup (capg_TypeMeta p) (capg_ObjectMeta p)
    (mkClusterAdmissionPolicyGroupSpec
       (mkClusterPolicyGroupSpec (group_set_PolicyServer s (capg_GroupSpec p))
          (cpgs_Policies (capgs_ClusterPolicyGroupSpec (capg_Spec p))))
       (capgs_NamespaceSelector (capg_Spec p))) (capg_Status p).

Definition unexpected (want : string) (got : AnyObject) : GoError :=
  ErrNew ("expected " +:+ want +:+ " object, got " +:+ go_type got).

Section defaulters.
Context `{K8sUtil}.

(** [controllerutil.AddFinalizer] when the object is not being deleted. *)
Definition ensure_finalizer {T} `{PolicyI T} (p : T) : T :=
  match GetDeletionTimestamp p with
  | None => SetFinalizers (AddFinalizer (GetFinalizers p) KubewardenFinalizer) p
  | Some _ => p
  end.

Definition admissionPolicyDefaulter_Default (obj : AnyObject) : GoError + AnyObject :=
  match obj with
  | OPolicy (PAdmissionPolicy p) =>
      let p := if bool_decide (GetPolicyServer p = "")
               then ap_set_PolicyServer DefaultPolicyServer p else p in
      inr (OPolicy (PAdmissionPolicy (ensure_finalizer p)))
  | _ => inl (unexpected "an AdmissionPolicy" obj)
  end.

Definition admissionPolicyGroupDefaulter_Default (obj : AnyObject) : GoError + AnyObject :=
  match obj with
  | OPolicy (PAdmissionPolicyGroup p) =>
      let p := if bool_decide (GetPolicyServer p = "")
               then apg_set_PolicyServer DefaultPolicyServer p else p in
      inr (OPolicy (PAdmissionPolicyGroup (ensure_finalizer p)))
  | _ => inl (unexpected "an AdmissionPolicyGroup" obj)
  end.

Definition clusterAdmissionPolicyDefaulter_Default (obj : AnyObject) : GoError + AnyObject :=
  match obj with
  | OPolicy (PClusterAdmissionPolicy p) =>
      let p := if bool_decide (GetPolicyServer p = "")
               then cap_set_PolicyServer DefaultPolicyServer p else p in
      inr (OPolicy (PClusterAdmissionPolicy (ensure_finalizer p)))
  | _ => inl (unexpected "a ClusterAdmissionPolicy" obj)
  end.

Definition clusterAdmissionPolicyGroupDefaulter_Default (obj : AnyObject)
    : GoError + AnyObject :=
  match obj with
  | OPolicy (PClusterAdmissionPolicyGroup p) =>
      let p := if bool_decide (GetPolicyServer p = "")
               then capg_set_PolicyServer DefaultPolicyServer p else p in
      inr (OPolicy (PClusterAdmissionPolicyGroup (ensure_finalizer p)))
  | _ => inl (unexpected "a ClusterAdmissionPolicyGroup" obj)
  end.

(** The defaulter the manager calls for an object of a policy kind. *)
Definition policy_Default (p : AnyPolicy) : GoError + AnyObject :=
  let obj := OPolicy p in
  match p with
  | PAdmissionPolicy _ => admissionPolicyDefaulter_Default obj
  | PAdmissionPolicyGroup _ => admissionPolicyGroupDefaulter_Default obj
  | PClusterAdmissionPolicy _ => clusterAdmissionPolicyDefaulter_Default obj
  | PClusterAdmissionPolicyGroup _ => clusterAdmissionPolicyGroupDefaulter_Default obj
  end.
End defaulters.

Section validators.
Context `{K8sUtil, CelCompiler, MapRange}.

(** [if len(allErrors) != 0 { return nil, prepareInvalidAPIError(...) }] *)
Definition invalid_if (p : AnyPolicy) (allErrors : ErrorList) : option GoError :=
  if length allErrors =? 0 then None else Some (prepareInvalidAPIError p allErrors).

Definition admissionPolicyValidator_ValidateCreate (obj : AnyObject) : option GoError :=
  match obj with
  | OPolicy (PAdmissionPolicy _ as p) => invalid_if p (validatePolicyCreate p)
  | _ => Some (unexpected "an AdmissionPolicy" obj)
  end.
Definition admissionPolicyValidator_ValidateUpdate (oldObj newObj : AnyObject)
    : option GoError :=
  match oldObj with
  | OPolicy (PAdmissionPolicy _ as p) =>
      match newObj with
      | OPolicy (PAdmissionPolicy _ as q) => invalid_if q (validatePolicyUpdate p q)
      | _ => Some (unexpected "an AdmissionPolicy" newObj)
      end
  | _ => Some (unexpected "an AdmissionPolicy" oldObj)
  end.
Definition admissionPolicyValidator_ValidateDelete (obj : AnyObject) : option GoError :=
  match obj with
  | OPolicy (PAdmissionPolicy _) => None
  | _ => Some (unexpected "an AdmissionPolicy" obj)
  end.

Definition admissionPolicyGroupValidator_ValidateCreate (obj : AnyObject) : option GoError :=
  match obj with
  | OPolicy (PAdmissionPolicyGroup _ as p) => invalid_if p (validatePolicyGroupCreate p)
  | _ => Some (unexpected "an AdmissionPolicyGroup" obj)
  end.
Definition admissionPolicyGroupValidator_ValidateUpdate (oldObj newObj : AnyObject)
    : option GoError :=
  match oldObj with
  | OPolicy (PAdmissionPolicyGroup _ as p) =>
      match newObj with
      | OPolicy (PAdmissionPolicyGroup _ as q) => invalid_if q (validatePolicyGroupUpdate p q)
      | _ => Some (unexpected "an AdmissionPolicyGroup" newObj)
      end
  | _ => Some (unexpected "an AdmissionPolicyGroup" oldObj)
  end.
Definition admissionPolicyGroupValidator_ValidateDelete (obj : AnyObject) : option GoError :=
  match obj with
  | OPolicy (PAdmissionPolicyGroup _) => None
  | _ => Some (unexpected "an AdmissionPolicyGroup" obj)
  end.

Definition clusterAdmissionPolicyValidator_ValidateCreate (obj : AnyObject) : option GoError :=
  match obj with
  | OPolicy (PClusterAdmissionPolicy _ as p) => invalid_if p (validatePolicyCreate p)
  | _ => Some (unexpected "a ClusterAdmissionPolicy" obj)
  end.
Definition clusterAdmissionPolicyValidator_ValidateUpdate (oldObj newObj : AnyObject)
    : option GoError :=
  match oldObj with
  | OPolicy (PClusterAdmissionPolicy _ as p) =>
      match newObj with
      | OPolicy (PClusterAdmissionPolicy _ as q) => invalid_if q (validatePolicyUpdate p q)
      | _ => Some (unexpected "a ClusterAdmissionPolicy" newObj)
      end
  | _ => Some (unexpected "a ClusterAdmissionPolicy" oldObj)
  end.
Definition clusterAdmissionPolicyValidator_ValidateDelete (obj : AnyObject) : option GoError :=
  match obj with
  | OPolicy (PClusterAdmissionPolicy _) => None
  | _ => Some (unexpected "a ClusterAdmissionPolicy" obj)
  end.

Definition clusterAdmissionPolicyGroupValidator_ValidateCreate (obj : AnyObject)
    : option GoError :=
  match obj with
  | OPolicy (PClusterAdmissionPolicyGroup _ as p) => invalid_if p (validatePolicyGroupCreate p)
  | _ => Some (unexpected "a ClusterAdmissionPolicyGroup" obj)
  end.
Definition clusterAdmissionPolicyGroupValidator_ValidateUpdate (oldObj newObj : AnyObject)
    : option GoError :=
  match oldObj with
  | OPolicy (PClusterAdmissionPolicyGroup _ as p) =>
      match newObj with
      | OPolicy (PClusterAdmissionPolicyGroup _ as q) =>
          invalid_if q (validatePolicyGroupUpdate p q)
      | _ => Some (unexpected "a ClusterAdmissionPolicyGroup" newObj)
      end
  | _ => Some (unexpected "a ClusterAdmissionPolicyGroup" oldObj)
  end.
Definition clusterAdmissionPolicyGroupValidator_ValidateDelete (obj : AnyObject)
    : option GoError :=
  match obj with
  | OPolicy (PClusterAdmissionPolicyGroup _) => None
  | _ => Some (unexpected "a ClusterAdmissionPolicyGroup" obj)
  end.

(** The validators the manager calls for a policy of each kind. *)
Definition policy_ValidateCreate (p : AnyPolicy) : option GoError :=
  let obj := OPolicy p in
  match p with
  | PAdmissionPolicy _ => admissionPolicyValidator_ValidateCreate obj
  | PAdmissionPolicyGroup _ => admissionPolicyGroupValidator_ValidateCreate obj
  | PClusterAdmissionPolicy _ => clusterAdmissionPolicyValidator_ValidateCreate obj
  | PClusterAdmissionPolicyGroup _ => clusterAdmissionPolicyGroupValidator_ValidateCreate obj
  end.
Definition policy_ValidateUpdate (old new : AnyPolicy) : option GoError :=
  match new with
  | PAdmissionPolicy _ => admissionPolicyValidator_ValidateUpdate
  | PAdmissionPolicyGroup _ => admissionPolicyGroupValidator_ValidateUpdate
  | PClusterAdmissionPolicy _ => clusterAdmissionPolicyValidator_ValidateUpdate
  | PClusterAdmissionPolicyGroup _ => clusterAdmissionPolicyGroupValidator_ValidateUpdate
  end (OPolicy old) (OPolicy new).
End validators.

(** ** Theorems *)

(** The kind of a policy, as an index. *)
Definition kind_index (p : AnyPolicy) : nat :=
  match p with
  | PAdmissionPolicy _ => 0 | PAdmissionPolicyGroup _ => 1
  | PClusterAdmissionPolicy _ => 2 | PClusterAdmissionPolicyGroup _ => 3
  end.

Section webhook_theorems.
Context `{K8sUtil, !K8sUtilLaws}.

(** What a defaulter leaves alone, field by field: of the metadata all but the
    finalizers, of the spec all but the policy server, and the rest. *)
Definition meta_unchanged (m m' : ObjectMeta) : Prop :=
  om_Name m' = om_Name m ∧ om_Namespace m' = om_Namespace m ∧
  om_Labels m' = om_Labels m ∧ om_Annotations m' = om_Annotations m ∧
  om_DeletionTimestamp m' = om_DeletionTimestamp m ∧
  om_ResourceVersion m' = om_ResourceVersion m ∧ om_UID m' = om_UID m ∧
  om_OwnerReferences m' = om_OwnerReferences m.
Definition spec_unchanged (s s' : PolicySpec) : Prop :=
  sp_Mode s' = sp_Mode s ∧ sp_Module s' = sp_Module s ∧ sp_Settings s' = sp_Settings s ∧
  sp_Rules s' = sp_Rules s ∧ sp_FailurePolicy s' = sp_FailurePolicy s ∧
  sp_Mutating s' = sp_Mutating s ∧ sp_BackgroundAudit s' = sp_BackgroundAudit s ∧
  sp_MatchPolicy s' = sp_MatchPolicy s ∧ sp_MatchConditions s' = sp_MatchConditions s ∧
  sp_ObjectSelector s' = sp_ObjectSelector s ∧ sp_SideEffects s' = sp_SideEffects s ∧
  sp_TimeoutSeconds s' = sp_TimeoutSeconds s.
Definition group_unchanged (s s' : GroupSpec) : Prop :=
  gs_Mode s' = gs_Mode s ∧ gs_Rules s' = gs_Rules s ∧
  gs_FailurePolicy s' = gs_FailurePolicy s ∧ gs_BackgroundAudit s' = gs_BackgroundAudit s ∧
  gs_MatchPolicy s' = gs_MatchPolicy s ∧ gs_MatchConditions s' = gs_MatchConditions s ∧
  gs_ObjectSelector s' = gs_ObjectSelector s ∧ gs_SideEffects s' = gs_SideEffects s ∧
  gs_TimeoutSeconds s' = gs_TimeoutSeconds s ∧ gs_Expression s' = gs_Expression s ∧
  gs_Message s' = gs_Message s.
Definition default_unchanged (p q : AnyPolicy) : Prop :=
  match p, q with
  | PAdmissionPolicy p, PAdmissionPolicy q =>
      ap_TypeMeta q = ap_TypeMeta p ∧ meta_unchanged (ap_ObjectMeta p) (ap_ObjectMeta q) ∧
      spec_unchanged (ap_Spec p) (ap_Spec q) ∧ ap_Status q = ap_Status p
  | PAdmissionPolicyGroup p, PAdmissionPolicyGroup q =>
      apg_TypeMeta q = apg_TypeMeta p ∧ meta_unchanged (apg_ObjectMeta p) (apg_ObjectMeta q) ∧
      group_unchanged (pgs_GroupSpec (apg_Spec p)) (pgs_GroupSpec (apg_Spec q)) ∧
      pgs_Policies (apg_Spec q) = pgs_Policies (apg_Spec p) ∧ apg_Status q = apg_Status p
  | PClusterAdmissionPolicy p, PClusterAdmissionPolicy q =>
      cap_TypeMeta q = cap_TypeMeta p ∧ meta_unchanged (cap_ObjectMeta p) (cap_ObjectMeta q) ∧
      spec_unchanged (caps_PolicySpec (cap_Spec p)) (caps_PolicySpec (cap_Spec q)) ∧
      caps_NamespaceSelector (cap_Spec q) = caps_NamespaceSelector (cap_Spec p) ∧
      caps_ContextAwareResources (cap_Spec q) = caps_ContextAwareResources (cap_Spec p) ∧
      cap_Status q = cap_Status p
  | PClusterAdmissionPolicyGroup p, PClusterAdmissionPolicyGroup q =>
      capg_TypeMeta q = capg_TypeMeta p ∧ meta_unchanged (capg_ObjectMeta p) (capg_ObjectMeta q) ∧
      group_unchanged (cpgs_GroupSpec (capgs_ClusterPolicyGroupSpec (capg_Spec p)))
        (cpgs_GroupSpec (capgs_ClusterPolicyGroupSpec (capg_Spec q))) ∧
      cpgs_Policies (capgs_ClusterPolicyGroupSpec (capg_Spec q)) =
        cpgs_Policies (capgs_ClusterPolicyGroupSpec (capg_Spec p)) ∧
      capgs_NamespaceSelector (capg_Spec q) = capgs_NamespaceSelector (capg_Spec p) ∧
      capg_Status q = capg_Status p
  | _, _ => False
  end.

(** (C32) The defaulter of every policy kind accepts the objects of its kind:
    the result is bound to a policy server (the default one when none was
    named), carries the finalizer unless it is being deleted, has every other
    field of the object as it was ([default_unchanged] lists them: type,
    metadata, spec, members and status), and defaulting it again changes
    nothing. *)
Theorem policy_Default_spec (p : AnyPolicy) :
  ∃ q, policy_Default p = inr (OPolicy q) ∧
    GetPolicyServer q =
      (if bool_decide (GetPolicyServer p = "") then DefaultPolicyServer else GetPolicyServer p) ∧
    (GetDeletionTimestamp p = None →
       ∀ f, f ∈ GetFinalizers q ↔ f = KubewardenFinalizer ∨ f ∈ GetFinalizers p) ∧
    (GetDeletionTimestamp p ≠ None → GetFinalizers q = GetFinalizers p) ∧
    default_unchanged p q ∧
    policy_Default q = inr (OPolicy q).
Proof.
  assert (∀ l, AddFinalizer (AddFinalizer l KubewardenFinalizer) KubewardenFinalizer
               = AddFinalizer l KubewardenFinalizer) as Hidem.
  { intros l. apply AddFinalizer_present, AddFinalizer_spec. by left. }
  destruct p as [p|p|p|p]; destruct p as [tm [nm ns lb an fi [ts|] rv uid ow] sp st];
    destruct sp as [sp]; try destruct sp as [sp]; cbn;
    unfold ensure_finalizer, GetDeletionTimestamp, GetFinalizers, SetFinalizers; cbn;
    case_bool_decide; cbn; eexists; (split; [reflexivity|]); cbn;
    unfold meta_unchanged, spec_unchanged, group_unchanged, GetFinalizers; cbn;
    rewrite ?Hidem, ?(bool_decide_eq_false_2 _) by done;
    (split_and!; try done; intros;
     first [apply AddFinalizer_spec
           |unfold ensure_finalizer, GetDeletionTimestamp, SetFinalizers, GetFinalizers; cbn;
            unfold om_set_Finalizers; cbn; by rewrite ?Hidem]).
Qed.
End webhook_theorems.

Section validator_theorems.
Context `{K8sUtil, CelCompiler, MapRange}.

Lemma invalid_if_None p errs : invalid_if p errs = None ↔ errs = [].
Proof. unfold invalid_if. rewrite length_eqb_0. case_if; naive_solver. Qed.

(** The expression of a group is accepted. *)
Definition expression_accepted (members : PolicyGroupMembersWithContext) (expression : string)
    : Prop :=
  expression ≠ "" ∧ ∃ env ast,
    NewCustomEnv (expression_env members) = inr env ∧
    Compile env expression = inr ast ∧ OutputIsBool ast = true.

Lemma expression_None members expression :
  validatePolicyGroupExpressionField members expression = None ↔
  expression_accepted members expression.
Proof.
  unfold validatePolicyGroupExpressionField, expression_accepted.
  case_if as Hempty; [naive_solver|]. split.
  - destruct (NewCustomEnv (expression_env members)) as [|env]; [done|].
    destruct (Compile env expression) as [|ast] eqn:Hc; [done|].
    destruct (OutputIsBool ast) eqn:Ho; [|done]. intros _. eauto 10.
  - intros (_ & env & ast & -> & -> & ->). done.
Qed.

Lemma group_errors_nil p :
  group_errors p = [] ↔
  ∀ members expression message,
    as_PolicyGroup p = Some (members, expression, message) →
    validatePolicyGroupMembers members = [] ∧ expression_accepted members expression.
Proof.
  setoid_rewrite <-expression_None. unfold group_errors.
  destruct (as_PolicyGroup p) as [[[m e] msg]|]; [|naive_solver].
  rewrite app_nil_iff.
  destruct (validatePolicyGroupExpressionField m e) eqn:He; naive_solver.
Qed.

(** Every kind's create validator collects the same errors: [group_errors]
    is empty for the kinds that are not groups. *)
Lemma ValidateCreate_None p :
  policy_ValidateCreate p = None ↔ validatePolicyCreate p = [] ∧ group_errors p = [].
Proof.
  destruct p; cbn -[validatePolicyCreate group_errors]; rewrite invalid_if_None;
    unfold validatePolicyGroupCreate; rewrite ?app_nil_iff; [|done| |done];
    unfold group_errors; simpl as_PolicyGroup; tauto.
Qed.

Lemma ValidateUpdate_None p q :
  policy_ValidateUpdate p q = None ↔
  kind_index p = kind_index q ∧ validatePolicyUpdate p q = [] ∧ group_errors q = [].
Proof.
  destruct p, q; cbn -[validatePolicyUpdate group_errors]; rewrite ?invalid_if_None;
    unfold validatePolicyGroupUpdate; rewrite ?app_nil_iff;
    try (split; [discriminate|by intros [? _]]);
    unfold group_errors; simpl as_PolicyGroup; tauto.
Qed.

(** (C19) A create request for a policy of any kind is admitted exactly when
    its rules and its match conditions pass and, for a group, its members
    and expression do. *)
Theorem policy_ValidateCreate_admits (p : AnyPolicy) :
  policy_ValidateCreate p = None ↔
  validateRulesField p = [] ∧
  validateMatchConditions (GetMatchConditions p) matchConditions_path = [] ∧
  ∀ members expression message,
    as_PolicyGroup p = Some (members, expression, message) →
    validatePolicyGroupMembers members = [] ∧ expression_accepted members expression.
Proof.
  rewrite ValidateCreate_None, group_errors_nil. unfold validatePolicyCreate.
  rewrite app_nil_iff. tauto.
Qed.

(** (C20) An update request is admitted exactly when the new object is of the
    same kind, would be admitted on creation, keeps the policy server, and
    does not go from protect to monitor mode. *)
Theorem policy_ValidateUpdate_admits (old new : AnyPolicy) :
  policy_ValidateUpdate old new = None ↔
  kind_index old = kind_index new ∧ policy_ValidateCreate new = None ∧
  GetPolicyServer old = GetPolicyServer new ∧
  ¬ (GetPolicyMode old = "protect" ∧ GetPolicyMode new = "monitor").
Proof.
  rewrite ValidateUpdate_None, ValidateCreate_None, validatePolicyUpdate_nil. tauto.
Qed.
End validator_theorems.

(** ** Unique names *)

(** Unique names tell namespaced from cluster-wide policies, and the
    policies of one kind, and namespace, apart. *)
Theorem unique_names_separate (p q : AnyPolicy) :
  GetUniqueName p = GetUniqueName q →
  is_namespaced_kind p = is_namespaced_kind q ∧
  (kind_index p = kind_index q →
   is_namespaced_kind p = false ∨ GetNamespace p = GetNamespace q →
   GetName p = GetName q).
Proof.
  destruct p as [[? m ? ?]|[? m ? ?]|[? m ? ?]|[? m ? ?]],
    q as [[? m' ? ?]|[? m' ? ?]|[? m' ? ?]|[? m' ? ?]];
    intros Heq; try (apply (f_equal (Stdlib.Strings.String.substring 0 1)) in Heq; discriminate);
    (split; [done|]); intros Hk; try discriminate Hk; intros Hns;
    unfold GetNamespace, GetName in *; cbn in Hns |- *.
  - destruct Hns as [?|Hns]; [done|].
    change ("namespaced-" +:+ om_Namespace m +:+ "-" +:+ om_Name m =
            "namespaced-" +:+ om_Namespace m' +:+ "-" +:+ om_Name m') in Heq.
    rewrite Hns in Heq. by do 3 apply string_app_inv_r in Heq.
  - destruct Hns as [?|Hns]; [done|].
    change ("namespaced-group-" +:+ om_Namespace m +:+ "-" +:+ om_Name m =
            "namespaced-group-" +:+ om_Namespace m' +:+ "-" +:+ om_Name m') in Heq.
    rewrite Hns in Heq. by do 3 apply string_app_inv_r in Heq.
  - by apply (string_app_inv_r "clusterwide-").
  - by apply (string_app_inv_r "clusterwide-group-").
Qed.

Lemma unique_names_separate_witness :
  let p := PAdmissionPolicy (sample_policy "ns" "p" "default" "protect" [pods_rule]) in
  let q := PAdmissionPolicy (sample_policy "ns" "p" "default" "monitor" [pods_rule]) in
  is_namespaced_kind p = is_namespaced_kind q.
Proof.
  intros p q. exact (proj1 (unique_names_separate p q eq_refl)).
Defined.

Lemma policy_Default_spec_witness :
  let p := PAdmissionPolicy (sample_policy "ns" "p" "" "protect" [pods_rule]) in
  ∃ q, @policy_Default concrete_util p = inr (OPolicy q) ∧
    GetPolicyServer q = DefaultPolicyServer.
Proof.
  intros p. destruct (@policy_Default_spec concrete_util concrete_util_laws p)
    as (q & Hq & Hserver & _).
  exists q. split; [exact Hq|exact Hserver].
Defined.
