(* ===== verification/KubeClient.v ===== *)
(** * The Kubernetes client, an interface

    The API server behind [client.Client] is not part of the repository.
    [KubeClient] lists the calls the controllers make, on an abstract world;
    [KubeClientLaws] states what they rely on. Reads are of the current state
    of the cluster (informer caches are taken to be up to date). [Environment]
    is what a controller reads besides: the clock, randomness and environment
    variables. *)

From S2P Require Import Prelude GoStd Json K8sTypes Constants PolicyTypes PolicyServerTypes.

Inductive Kind :=
| KSecret | KConfigMap | KDeployment | KReplicaSet | KPod | KService | KPDB
| KValidatingWebhookConfiguration | KMutatingWebhookConfiguration | KPolicyServer
| KAdmissionPolicy | KAdmissionPolicyGroup | KClusterAdmissionPolicy
| KClusterAdmissionPolicyGroup.

#[export] Instance Kind_eq_dec : EqDecision Kind.
Proof. solve_decision. Defined.

Definition KObj (k : Kind) : Type :=
  match k with
  | KSecret => Secret
  | KConfigMap => ConfigMap
  | KDeployment => Deployment
  | KReplicaSet => ReplicaSet
  | KPod => Pod
  | KService => Service
  | KPDB => PodDisruptionBudget
  | KValidatingWebhookConfiguration | KMutatingWebhookConfiguration => WebhookConfiguration
  | KPolicyServer => PolicyServer
  | KAdmissionPolicy => AdmissionPolicy
  | KAdmissionPolicyGroup => AdmissionPolicyGroup
  | KClusterAdmissionPolicy => ClusterAdmissionPolicy
  | KClusterAdmissionPolicyGroup => ClusterAdmissionPolicyGroup
  end.

#[export] Instance KObj_eq_dec k : EqDecision (KObj k).
Proof. destruct k; cbn [KObj]; apply _. Defined.

Definition kmeta (k : Kind) : KObj k → ObjectMeta :=
  match k with
  | KSecret => s_Meta
  | KConfigMap => cm_Meta
  | KDeployment => d_Meta
  | KReplicaSet => rs_Meta
  | KPod => p_Meta
  | KService => svc_Meta
  | KPDB => pdb_Meta
  | KValidatingWebhookConfiguration => wc_Meta
  | KMutatingWebhookConfiguration => wc_Meta
  | KPolicyServer => psrv_ObjectMeta
  | KAdmissionPolicy => ap_ObjectMeta
  | KAdmissionPolicyGroup => apg_ObjectMeta
  | KClusterAdmissionPolicy => cap_ObjectMeta
  | KClusterAdmissionPolicyGroup => capg_ObjectMeta
  end.

Definition kkey (k : Kind) (o : KObj k) : NamespacedName := om_key (kmeta k o).

(** The object with this metadata. *)
Definition kset_meta (k : Kind) : ObjectMeta → KObj k → KObj k :=
  match k with
  | KSecret => λ m (o : Secret), mkSecret m (s_Type o) (s_Data o) (s_StringData o)
  | KConfigMap => λ m (o : ConfigMap), mkConfigMap m (cm_Data o)
  | KDeployment => λ m (o : Deployment), mkDeployment m (d_Spec o)
  | KReplicaSet => λ m (o : ReplicaSet), mkReplicaSet m
  | KPod => λ m (o : Pod), mkPod m (p_Conditions o)
  | KService => λ m (o : Service), mkService m (svc_Ports o) (svc_Selector o)
  | KPDB => λ m (o : PodDisruptionBudget),
      mkPDB m (pdb_Selector o) (pdb_MinAvailable o) (pdb_MaxUnavailable o)
  | KValidatingWebhookConfiguration | KMutatingWebhookConfiguration =>
      λ m (o : WebhookConfiguration), mkWebhookConfiguration m (wc_Webhooks o)
  | KPolicyServer => psrv_set_ObjectMeta
  | KAdmissionPolicy => λ m (o : AdmissionPolicy), SetObjectMeta m o
  | KAdmissionPolicyGroup => λ m (o : AdmissionPolicyGroup), SetObjectMeta m o
  | KClusterAdmissionPolicy => λ m (o : ClusterAdmissionPolicy), SetObjectMeta m o
  | KClusterAdmissionPolicyGroup => λ m (o : ClusterAdmissionPolicyGroup), SetObjectMeta m o
  end.

(** The second object with the status of the first. *)
Definition with_status_of (k : Kind) : KObj k → KObj k → KObj k :=
  match k with
  | KPolicyServer => λ old o : PolicyServer,
      mkPolicyServer (psrv_ObjectMeta o) (psrv_Spec o) (psrv_Status old)
  | KAdmissionPolicy => λ old o : AdmissionPolicy, SetStatusRecord (GetStatus old) o
  | KAdmissionPolicyGroup => λ old o : AdmissionPolicyGroup, SetStatusRecord (GetStatus old) o
  | KClusterAdmissionPolicy => λ old o : ClusterAdmissionPolicy, SetStatusRecord (GetStatus old) o
  | KClusterAdmissionPolicyGroup =>
      λ old o : ClusterAdmissionPolicyGroup, SetStatusRecord (GetStatus old) o
  | _ => λ _ o, o
  end.

Lemma kmeta_set k m o : kmeta k (kset_meta k m o) = m.
Proof. by destruct k, o. Qed.
Lemma kmeta_status k old o : kmeta k (with_status_of k old o) = kmeta k o.
Proof. by destruct k, o. Qed.
Lemma kset_same k o : kset_meta k (kmeta k o) o = o.
Proof. by destruct k, o. Qed.

(** The options of [List]: [InNamespace], [MatchingLabels], [MatchingFields]. *)
Record ListOptions := mkListOptions {
  lo_Namespace : option string;
  lo_Labels : gmap string string;
  lo_Fields : gmap string string;
}.
Definition in_all : ListOptions := mkListOptions None ∅ ∅.
Definition MatchingLabels (l : gmap string string) : ListOptions := mkListOptions None l ∅.
Definition MatchingFields (f : gmap string string) : ListOptions := mkListOptions None ∅ f.

Class KubeClient (World : Type) := {
  Get : ∀ k, NamespacedName → World → GoError + KObj k;
  List : ∀ k, ListOptions → World → GoError + list (KObj k);
  (** The writes return the object as the server answered it. *)
  Update : ∀ k, KObj k → World → (GoError + KObj k) * World;
  StatusUpdate : ∀ k, KObj k → World → (GoError + KObj k) * World;
  Patch : ∀ k, KObj k → KObj k → World → (GoError + KObj k) * World;
  Delete : ∀ k, KObj k → World → (GoError + unit) * World;
  (** [controllerutil.CreateOrPatch] with its mutate function. *)
  CreateOrPatch : ∀ k, KObj k → (KObj k → M World (KObj k)) → M World (KObj k);
}.

(** Calls as steps of the effect monad. *)
Definition call {W A} (f : W → (GoError + A) * W) : M W A := λ w,
  match f w with
  | (inl e, w') => (Err e, w')
  | (inr a, w') => (Ok a, w')
  end.
Definition read {W A} (f : W → GoError + A) : M W A := call (λ w, (f w, w)).

Class Environment (World : Type) := {
  Now : World → Z * World;
  (** [rand.Int] below a bound, and [ecdsa.GenerateKey]. *)
  RandInt : Z → World → (GoError + Z) * World;
  GenerateKey : World → (GoError + KeyId) * World;
  Getenv : string → World → string;
}.

Definition now {W} `{Environment W} : M W Z := λ w, let '(t, w') := Now w in (Ok t, w').

(** The time of day, and in the seconds a condition is stamped with. *)
Definition clock {W} `{Environment W} (w : W) : Z := fst (Now w).
Definition now_seconds {W} `{Environment W} (w : W) : Z := (clock w / Second)%Z.

(** An edit of a local copy by a library call that reads the clock. *)
Definition set_local_now {W T} `{Environment W} (f : Z → T → T) : M (W * T) unit :=
  modify (λ '(w, t), (w, f (now_seconds w) t)).

Section set_local_now.
Context {W T : Type} `{Environment W}.

Lemma set_local_now_Ok (f : Z → T → T) w t u st :
  set_local_now f (w, t) = (Ok u, st) ↔ st = (w, f (now_seconds w) t).
Proof. unfold set_local_now, modify. destruct u. naive_solver. Qed.
Lemma ends_set_local_now (f : Z → T → T) (Q : W * T → Prop) w t :
  Q (w, f (now_seconds w) t) → ends (set_local_now f) Q (w, t).
Proof. done. Qed.
Lemma within_set_local_now (R : relation W) `{!PreOrder R} (f : Z → T → T) :
  within (on_world R) (set_local_now f).
Proof. intros [w t]. unfold on_world. reflexivity. Qed.
End set_local_now.
#[export] Hint Rewrite @set_local_now_Ok : go_local.

(** ** Field indexes

    The index functions [PolicyServerReconciler.SetupWithManager] registers
    for [.spec.policyServer], on the kinds it registers them for. *)
Definition policyServerIndex (k : Kind) : KObj k → list string :=
  match k with
  | KAdmissionPolicy => λ p : AdmissionPolicy, [sp_PolicyServer (ap_Spec p)]
  | KAdmissionPolicyGroup => λ p : AdmissionPolicyGroup,
      [gs_PolicyServer (pgs_GroupSpec (apg_Spec p))]
  | KClusterAdmissionPolicy => λ p : ClusterAdmissionPolicy,
      [sp_PolicyServer (caps_PolicySpec (cap_Spec p))]
  | KClusterAdmissionPolicyGroup => λ p : ClusterAdmissionPolicyGroup,
      [gs_PolicyServer (capg_GroupSpec p)]
  | _ => λ _, []
  end.

(** An object a [List] with these options returns. *)
Definition list_matches (k : Kind) (opts : ListOptions) (o : KObj k) : Prop :=
  match lo_Namespace opts with Some ns => om_Namespace (kmeta k o) = ns | None => True end ∧
  lo_Labels opts ⊆ om_Labels (kmeta k o) ∧
  match lo_Fields opts !! PolicyServerIndexKey with
  | Some v => v ∈ policyServerIndex k o
  | None => True
  end.

(** ** What the server stores *)

(** Metadata: the server manages the resource version and the UID. *)
Definition meta_stored (m m' : ObjectMeta) : Prop :=
  om_Name m' = om_Name m ∧ om_Namespace m' = om_Namespace m ∧
  om_Labels m' = om_Labels m ∧ om_Annotations m' = om_Annotations m ∧
  om_Finalizers m' = om_Finalizers m ∧ om_OwnerReferences m' = om_OwnerReferences m.

(** A field that was set is kept; one left out may be defaulted. *)
Definition kept {A} (x x' : option A) : Prop := ∀ v, x = Some v → x' = Some v.

Definition rule_stored (r r' : RuleWithOperations) : Prop :=
  rwo_Operations r' = rwo_Operations r ∧
  r_APIGroups (rwo_Rule r') = r_APIGroups (rwo_Rule r) ∧
  r_APIVersions (rwo_Rule r') = r_APIVersions (rwo_Rule r) ∧
  r_Resources (rwo_Rule r') = r_Resources (rwo_Rule r) ∧
  kept (r_Scope (rwo_Rule r)) (r_Scope (rwo_Rule r')).

Definition webhook_stored (w w' : Webhook) : Prop :=
  wh_Name w' = wh_Name w ∧ wh_ClientConfig w' = wh_ClientConfig w ∧
  Forall2 rule_stored (wh_Rules w) (wh_Rules w') ∧
  kept (wh_FailurePolicy w) (wh_FailurePolicy w') ∧
  kept (wh_MatchPolicy w) (wh_MatchPolicy w') ∧
  kept (wh_NamespaceSelector w) (wh_NamespaceSelector w') ∧
  kept (wh_ObjectSelector w) (wh_ObjectSelector w') ∧
  kept (wh_SideEffects w) (wh_SideEffects w') ∧
  kept (wh_TimeoutSeconds w) (wh_TimeoutSeconds w') ∧
  wh_MatchConditions w' = wh_MatchConditions w.

(** The content of an object after a write of [o] the server answered with
    [o']. [StringData] of a Secret is merged into [Data]; fields the server
    defaults when they are missing are only kept when set. *)
Definition content_stored (k : Kind) : KObj k → KObj k → Prop :=
  match k with
  | KSecret => λ o o' : Secret,
      s_Data o' = s_StringData o ∪ s_Data o ∧ s_StringData o' = ∅
  | KConfigMap => λ o o' : ConfigMap, cm_Data o' = cm_Data o
  | KDeployment => λ o o' : Deployment,
      ds_Selector (d_Spec o') = ds_Selector (d_Spec o) ∧
      pt_Labels (ds_Template (d_Spec o')) = pt_Labels (ds_Template (d_Spec o)) ∧
      pt_Annotations (ds_Template (d_Spec o')) = pt_Annotations (ds_Template (d_Spec o))
  | KService => λ o o' : Service, svc_Selector o' = svc_Selector o
  | KPDB => λ o o' : PodDisruptionBudget,
      pdb_Selector o' = pdb_Selector o ∧ pdb_MinAvailable o' = pdb_MinAvailable o ∧
      pdb_MaxUnavailable o' = pdb_MaxUnavailable o
  | KValidatingWebhookConfiguration | KMutatingWebhookConfiguration =>
      λ o o' : WebhookConfiguration, Forall2 webhook_stored (wc_Webhooks o) (wc_Webhooks o')
  | KPolicyServer => λ o o' : PolicyServer, psrv_Spec o' = psrv_Spec o
  | KAdmissionPolicy => λ o o' : AdmissionPolicy, ap_Spec o' = ap_Spec o
  | KAdmissionPolicyGroup => λ o o' : AdmissionPolicyGroup, apg_Spec o' = apg_Spec o
  | KClusterAdmissionPolicy => λ o o' : ClusterAdmissionPolicy, cap_Spec o' = cap_Spec o
  | KClusterAdmissionPolicyGroup =>
      λ o o' : ClusterAdmissionPolicyGroup, capg_Spec o' = capg_Spec o
  | _ => λ _ _, True
  end.

Definition stored (k : Kind) (o o' : KObj k) : Prop :=
  meta_stored (kmeta k o) (kmeta k o') ∧ content_stored k o o'.

(** The status of the kinds with a status subresource. *)
Definition status_stored (k : Kind) : KObj k → KObj k → Prop :=
  match k with
  | KPolicyServer => λ o o' : PolicyServer, psrv_Status o' = psrv_Status o
  | KAdmissionPolicy => λ o o' : AdmissionPolicy, ap_Status o' = ap_Status o
  | KAdmissionPolicyGroup => λ o o' : AdmissionPolicyGroup, apg_Status o' = apg_Status o
  | KClusterAdmissionPolicy => λ o o' : ClusterAdmissionPolicy, cap_Status o' = cap_Status o
  | KClusterAdmissionPolicyGroup =>
      λ o o' : ClusterAdmissionPolicyGroup, capg_Status o' = capg_Status o
  | _ => λ _ _, True
  end.

(** The object marked as being deleted: the rest of it is as it was. *)
Definition marked (k : Kind) (old o' : KObj k) : Prop :=
  om_DeletionTimestamp (kmeta k o') ≠ None ∧
  (∀ x, stored k x old → stored k x o') ∧ (∀ x, status_stored k x old → status_stored k x o').

Section laws.
Context {World : Type} `{K8sUtil, KubeClient World, Environment World}.

(** No object of this key. *)
Definition absent (k : Kind) (key : NamespacedName) (w : World) : Prop :=
  ∃ e, Get k key w = inl e ∧ IsNotFound e = true.

(** The object is gone, or on its way out. *)
Definition going (k : Kind) (key : NamespacedName) (w : World) : Prop :=
  absent k key w ∨ ∃ o, Get k key w = inr o ∧ om_DeletionTimestamp (kmeta k o) ≠ None.

(** Every object but one reads the same. *)
Definition same_but (k : Kind) (key : NamespacedName) (w w' : World) : Prop :=
  ∀ k' key', (k', key') ≠ (k, key) → Get k' key' w' = Get k' key' w.

(** Every object reads the same. *)
Definition same_objects (w w' : World) : Prop :=
  ∀ k key, Get k key w' = Get k key w.

Definition clock_le (w w' : World) : Prop := (clock w ≤ clock w')%Z.

Class KubeClientLaws := {
  Get_key k key w o : Get k key w = inr o → kkey k o = key;
  List_spec k opts w l o :
    List k opts w = inr l → o ∈ l ↔ ∃ key, Get k key w = inr o ∧ list_matches k opts o;
  (** An object is listed once. *)
  List_NoDup k opts w l : List k opts w = inr l → NoDup (kkey k <$> l);
  (** An update is stored, unless it removed the last finalizer of an object
      that is being deleted. *)
  Update_ok k o w o' w' :
    Update k o w = (inr o', w') →
    stored k o o' ∧ same_but k (kkey k o) w w' ∧
    (Get k (kkey k o) w' = inr o' ∨
     om_Finalizers (kmeta k o) = [] ∧ absent k (kkey k o) w' ∧
     ∃ old, Get k (kkey k o) w = inr old ∧ om_DeletionTimestamp (kmeta k old) ≠ None);
  StatusUpdate_ok k o w o' w' :
    StatusUpdate k o w = (inr o', w') →
    status_stored k o o' ∧ same_but k (kkey k o) w w' ∧ Get k (kkey k o) w' = inr o';
  (** The merge patch from the stored object to another one stores the
      other one. *)
  Patch_ok k orig o w o' w' :
    Get k (kkey k orig) w = inr orig → kkey k o = kkey k orig →
    Patch k orig o w = (inr o', w') →
    stored k o o' ∧ same_but k (kkey k o) w w' ∧ Get k (kkey k o) w' = inr o';
  (** A write refused for a conflict changes nothing. *)
  Patch_conflict k orig o w e w' :
    Patch k orig o w = (inl e, w') → IsConflict e = true → same_objects w w';
  (** The update that removes the last finalizer of an object being deleted
      removes the object (pods may get a grace period). *)
  Update_removes k o w old o' w' :
    Update k o w = (inr o', w') → k ≠ KPod → om_Finalizers (kmeta k o) = [] →
    Get k (kkey k o) w = inr old → om_DeletionTimestamp (kmeta k old) ≠ None →
    absent k (kkey k o) w';
  (** A deleted object is gone if it had no finalizers, or waits for them. *)
  Delete_ok k o w w' :
    Delete k o w = (inr tt, w') →
    same_but k (kkey k o) w w' ∧
    ∃ old, Get k (kkey k o) w = inr old ∧
      (om_Finalizers (kmeta k old) = [] ∧ absent k (kkey k o) w' ∨
       ∃ o', Get k (kkey k o) w' = inr o' ∧ marked k old o');
  Delete_notfound k o w e w' :
    Delete k o w = (inl e, w') → IsNotFound e = true →
    same_objects w w' ∧ absent k (kkey k o) w';
  (** [CreateOrPatch] applies the function to the existing object, or to the
      given one when there is none, and stores what it returns. *)
  CreateOrPatch_ok k init f w o' w' :
    CreateOrPatch k init f w = (Ok o', w') →
    ∃ base o w1,
      (Get k (kkey k init) w = inr base ∨ absent k (kkey k init) w ∧ base = init) ∧
      f base w = (Ok o, w1) ∧ kkey k o = kkey k init ∧ stored k o o' ∧
      Get k (kkey k init) w' = inr o' ∧ same_but k (kkey k init) w1 w';
  (** Whatever its outcome, a write touches no other object. *)
  Update_frame k o w : same_but k (kkey k o) w (snd (Update k o w));
  StatusUpdate_frame k o w : same_but k (kkey k o) w (snd (StatusUpdate k o w));
  Patch_frame k orig o w : same_but k (kkey k o) w (snd (Patch k orig o w));
  Delete_frame k o w : same_but k (kkey k o) w (snd (Delete k o w));
  CreateOrPatch_frame (R : relation World) k init f :
    PreOrder R → (∀ w w', same_but k (kkey k init) w w' → R w w') →
    (∀ o, within R (f o)) → within R (CreateOrPatch k init f);
  (** The status of a kind with a status subresource is written by
      [StatusUpdate] only, which, when it fails, was applied or was not. *)
  Update_status k o w o' :
    Get k (kkey k o) (snd (Update k o w)) = inr o' →
    ∃ old, Get k (kkey k o) w = inr old ∧ status_stored k old o';
  Delete_status k o w o' :
    Get k (kkey k o) (snd (Delete k o w)) = inr o' →
    ∃ old, Get k (kkey k o) w = inr old ∧ status_stored k old o';
  StatusUpdate_status k o w o' :
    Get k (kkey k o) (snd (StatusUpdate k o w)) = inr o' →
    ∃ old, Get k (kkey k o) w = inr old ∧ (status_stored k old o' ∨ status_stored k o o');
  (** The clock and the random source do not touch the cluster. *)
  Now_same w t w' : Now w = (t, w') → same_objects w w';
  GenerateKey_same w r w' : GenerateKey w = (r, w') → same_objects w w';
  RandInt_same b w r w' : RandInt b w = (r, w') → same_objects w w';
  RandInt_range b w r w' : (0 < b)%Z → RandInt b w = (inr r, w') → (0 ≤ r < b)%Z;
  (** Time does not go back. *)
  Now_clock w : clock_le w (snd (Now w));
  RandInt_clock b w : clock_le w (snd (RandInt b w));
  GenerateKey_clock w : clock_le w (snd (GenerateKey w));
  Update_clock k o w : clock_le w (snd (Update k o w));
  StatusUpdate_clock k o w : clock_le w (snd (StatusUpdate k o w));
  Patch_clock k orig o w : clock_le w (snd (Patch k orig o w));
  Delete_clock k o w : clock_le w (snd (Delete k o w));
  CreateOrPatch_clock k init f :
    (∀ o, within clock_le (f o)) → within clock_le (CreateOrPatch k init f);
}.

(** *** Calls that change nothing

    A write that asks for what is already stored changes no object, whether it
    is answered or fails. *)
Definition same_env (w w' : World) : Prop := ∀ name, Getenv name w' = Getenv name w.

Class QuietLaws := {
  (** [answered k o o']: the server stores [o'] when it is asked for [o]: its
      defaults filled in, write-only fields gone, at its own version. *)
  answered : ∀ k, KObj k → KObj k → Prop;
  answered_self k o o' : answered k o o' → answered k o' o';
  CreateOrPatch_answers k init f w o' w' :
    CreateOrPatch k init f w = (Ok o', w') →
    ∃ base o w1,
      (Get k (kkey k init) w = inr base ∨ absent k (kkey k init) w ∧ base = init) ∧
      f base w = (Ok o, w1) ∧ kkey k o = kkey k init ∧ stored k o o' ∧ answered k o o' ∧
      Get k (kkey k init) w' = inr o' ∧ same_but k (kkey k init) w1 w';
  CreateOrPatch_again k init f w w1 o o' :
    Get k (kkey k init) w = inr o' → answered k o o' →
    f o' w = (Ok (kset_meta k (kmeta k o') o), w1) → same_objects w w1 →
    ∃ r w', CreateOrPatch k init f w = (r, w') ∧ same_objects w1 w' ∧
      (r = Ok o' ∨ ∃ e, r = Err e);
  (** A status update replaces the status and nothing else. *)
  StatusUpdate_content k o w old o' w' :
    StatusUpdate k o w = (inr o', w') → Get k (kkey k o) w = inr old →
    ∃ v, o' = kset_meta k (om_set_ResourceVersion v (kmeta k old)) (with_status_of k o old);
  StatusUpdate_again k o w :
    Get k (kkey k o) w = inr o → same_objects w (snd (StatusUpdate k o w));
  (** Deleting what is gone, or is already being deleted (pods apart, which
      may get another grace period). *)
  Delete_again k o w :
    k ≠ KPod → going k (kkey k o) w → same_objects w (snd (Delete k o w));
  (** The environment of the process is fixed. *)
  Now_env w : same_env w (snd (Now w));
  RandInt_env b w : same_env w (snd (RandInt b w));
  GenerateKey_env w : same_env w (snd (GenerateKey w));
  StatusUpdate_env k o w : same_env w (snd (StatusUpdate k o w));
  Delete_env k o w : same_env w (snd (Delete k o w));
  CreateOrPatch_env k init f :
    (∀ o, within same_env (f o)) → within same_env (CreateOrPatch k init f);
}.
End laws.
Arguments KubeClientLaws World {_ _ _}.
Arguments QuietLaws World {_ _ _}.

#[export] Instance clock_le_preorder {W} `{Environment W} : PreOrder (@clock_le W _).
Proof. unfold clock_le. split; [by intros w|]. intros w1 w2 w3 ? ?. lia. Qed.

#[export] Instance same_env_preorder {W} `{Environment W} : PreOrder (@same_env W _).
Proof. split; [done|]. intros w1 w2 w3 H1 H2 name. by rewrite H2. Qed.

#[export] Instance same_objects_preorder {W} `{KubeClient W} : PreOrder (@same_objects W _).
Proof. split; [done|]. intros w1 w2 w3 H1 H2 k key. by rewrite H2. Qed.

Lemma going_frame {W} `{K8sUtil, KubeClient W} k0 key0 k key (w w' : W) :
  same_but k0 key0 w w' → going k0 key0 w' → going k key w → going k key w'.
Proof.
  intros Hsame Hgo. destruct (decide ((k, key) = (k0, key0))) as [Heq|Hne].
  - pose proof (f_equal fst Heq) as Hk. pose proof (f_equal snd Heq) as Hkey. cbn in Hk, Hkey.
    by subst.
  - unfold going, absent. by rewrite !(Hsame _ _ Hne).
Qed.

Lemma Delete_going {W} `{K8sUtil, KubeClient W, Environment W, !KubeClientLaws W}
    k o (w w' : W) :
  Delete k o w = (inr tt, w') → same_but k (kkey k o) w w' ∧ going k (kkey k o) w'.
Proof.
  intros (Hs & old & _ & [[_ Ha]|(o' & Hg & Hm & _)])%Delete_ok; (split; [exact Hs|]);
    [by left|right; eauto].
Qed.

Section call_lemmas.
Context {W : Type}.

Lemma call_Ok_inv {A} (f : W → (GoError + A) * W) a w w' :
  call f w = (Ok a, w') ↔ f w = (inr a, w').
Proof. unfold call. destruct (f w) as [[e|b] w1]; naive_solver. Qed.

Lemma call_Err_inv {A} (f : W → (GoError + A) * W) e w w' :
  call f w = (Err e, w') ↔ f w = (inl e, w').
Proof. unfold call. destruct (f w) as [[e1|b] w1]; naive_solver. Qed.

Lemma read_Ok_inv {A} (f : W → GoError + A) a w w' :
  read f w = (Ok a, w') ↔ f w = inr a ∧ w' = w.
Proof. unfold read. rewrite call_Ok_inv. split; [by intros [= -> ->]|by intros [-> ->]]. Qed.

Lemma read_Err_inv {A} (f : W → GoError + A) e w w' :
  read f w = (Err e, w') ↔ f w = inl e ∧ w' = w.
Proof. unfold read. rewrite call_Err_inv. split; [by intros [= -> ->]|by intros [-> ->]]. Qed.
End call_lemmas.

Section within_calls.
Context {W : Type} (R : relation W) `{!PreOrder R}.

Lemma within_call {A} (f : W → (GoError + A) * W) :
  (∀ w, R w (snd (f w))) → within R (call f).
Proof. intros Hf w. specialize (Hf w). unfold call. by destruct (f w) as [[]]. Qed.
Lemma within_read {A} (f : W → GoError + A) : within R (read f).
Proof. apply within_call. by intros w. Qed.
End within_calls.

Section clock_lemmas.
Context {W : Type} `{K8sUtil, KubeClient W, Environment W, !KubeClientLaws W}.

Lemma within_now : within (clock_le (World := W)) now.
Proof.
  intros w. pose proof (Now_clock w) as Hw. unfold now.
  by destruct (Now w).
Qed.
Lemma within_Update k o : within clock_le (call (Update k o)).
Proof. apply within_call, Update_clock. Qed.
Lemma within_StatusUpdate k o : within clock_le (call (StatusUpdate k o)).
Proof. apply within_call, StatusUpdate_clock. Qed.
Lemma within_Patch k orig o : within clock_le (call (Patch k orig o)).
Proof. apply within_call, Patch_clock. Qed.
Lemma within_Delete k o : within clock_le (call (Delete k o)).
Proof. apply within_call, Delete_clock. Qed.
Lemma within_RandInt b : within clock_le (call (RandInt b)).
Proof. apply within_call, RandInt_clock. Qed.
Lemma within_GenerateKey : within clock_le (call GenerateKey).
Proof. apply within_call, GenerateKey_clock. Qed.

Lemma within_RandInt_same b : within (same_objects (World := W)) (call (RandInt b)).
Proof.
  apply within_call. intros w. destruct (RandInt b w) eqn:Hr. by eapply RandInt_same.
Qed.
Lemma within_GenerateKey_same : within (same_objects (World := W)) (call GenerateKey).
Proof.
  apply within_call. intros w. destruct (GenerateKey w) eqn:Hr. by eapply GenerateKey_same.
Qed.

Lemma now_Ok_inv (w w' : W) t : now w = (Ok t, w') ↔ Now w = (t, w').
Proof. unfold now. destruct (Now w). naive_solver. Qed.

Lemma Update_clock_run k o (w w' : W) r : Update k o w = (r, w') → clock_le w w'.
Proof. intros Hu. pose proof (Update_clock k o w) as Hc. by rewrite Hu in Hc. Qed.

(** Reading the clock. *)
Lemma Now_reads (w w' : W) t :
  Now w = (t, w') → t = clock w ∧ clock_le w w' ∧ same_objects w w'.
Proof.
  intros Hn. pose proof (Now_same w t w' Hn). pose proof (Now_clock w) as Hc.
  rewrite Hn in Hc. unfold clock. by rewrite Hn.
Qed.

(** A loop over a list of objects, each iteration of which only touches its
    own object and leaves it in a good state, leaves every listed object in
    a good state. *)
Lemma mfor_listed k (f : KObj k → M W unit) (P : KObj k → Prop) l w w' :
  NoDup (kkey k <$> l) →
  (∀ o, o ∈ l → Get k (kkey k o) w = inr o) →
  (∀ o w1 w2, o ∈ l → Get k (kkey k o) w1 = inr o → clock_le w w1 → f o w1 = (Ok tt, w2) →
     clock_le w1 w2 ∧ same_but k (kkey k o) w1 w2 ∧
     ∀ o', Get k (kkey k o) w2 = inr o' → clock_le w2 w' → P o') →
  mfor f l w = (Ok tt, w') →
  clock_le w w' ∧
  (∀ k' key, ¬ (k' = k ∧ key ∈ kkey k <$> l) → Get k' key w' = Get k' key w) ∧
  (∀ key o', key ∈ kkey k <$> l → Get k key w' = inr o' → P o').
Proof.
  revert w. induction l as [|o l IH]; intros w Hnd Hget Hstep Hrun; simpl in Hrun.
  - autorewrite with go in Hrun. destruct Hrun as [_ ->].
    split_and!; [done|done|intros key o' Hkey; by apply elem_of_nil in Hkey].
  - autorewrite with go in Hrun. destruct Hrun as ([] & w1 & Hf & Hrun).
    rewrite fmap_cons, NoDup_cons in Hnd. destruct Hnd as [Hno Hnd].
    destruct (Hstep o w w1) as (Hc & Hsame & HP);
      [left|apply Hget; left|done|done|].
    destruct (IH w1 Hnd) as (Hc' & Hframe & Hall); [| |done|].
    + intros o1 Ho1. rewrite Hsame; [apply Hget; by right|].
      intros Hk%(f_equal snd). apply Hno. cbn [snd] in Hk. rewrite <-Hk.
      by apply list_elem_of_fmap_2.
    + intros o1 w2 w3 Ho1 Hg Hle Hrun1. apply (Hstep o1 w2 w3); [by right|done| |done].
      by trans w1.
    + split; [by trans w1|]. rewrite fmap_cons. split.
      * intros k' key Hnot. rewrite Hframe; [apply Hsame|by intros [-> ?]; apply Hnot; split; [|right]].
        intros Hk. apply Hnot. split; [exact (f_equal fst Hk)|].
        rewrite (f_equal snd Hk : key = kkey k o). by left.
      * intros key o' [->|Hin]%elem_of_cons Hg; [|by eapply Hall].
        destruct (decide (kkey k o ∈ kkey k <$> l)); [done|].
        apply HP; [|done]. rewrite <-Hg. symmetry. apply Hframe. naive_solver.
Qed.
End clock_lemmas.
#[export] Hint Resolve within_read within_now within_Update within_StatusUpdate within_Patch
  within_Delete within_RandInt within_GenerateKey within_RandInt_same within_GenerateKey_same : go.
#[export] Hint Resolve clock_le_preorder : go.

#[export] Hint Rewrite @now_Ok_inv : go.
#[export] Hint Rewrite @call_Ok_inv @call_Err_inv @read_Ok_inv @read_Err_inv : go.
