(* ===== verification/FakeCluster.v ===== *)
(** * An in-memory cluster

    A concrete world on which the model runs: one map of objects per kind, a
    table of injected failures, a clock and counters. It satisfies the laws of
    the client interface, so theorems proved from the laws can be evaluated on
    it. *)

From S2P Require Import Prelude GoStd Json K8sTypes Concrete Constants PolicyTypes PolicyServerTypes KubeClient.

#[local] Existing Instance concrete_util.

Definition Store : Type := ∀ k, gmap NamespacedName (KObj k).

Inductive Op := OpGet | OpList | OpUpdate | OpStatus | OpPatch | OpDelete | OpCreate.

Record FakeWorld := mkFakeWorld {
  fw_store : Store;
  fw_fail : Op → Kind → option GoError;
  fw_clock : Z;
  fw_counter : Z;
  fw_env : gmap string string;
}.

Definition empty_store : Store := λ k, ∅.

(** Replace the map of one kind. *)
Definition store_map (k : Kind) (f : gmap NamespacedName (KObj k) → gmap NamespacedName (KObj k))
    (s : Store) : Store := λ k',
  match decide (k = k') with
  | left e => eq_rect k (λ k, gmap NamespacedName (KObj k)) (f (s k)) k' e
  | right _ => s k'
  end.

Lemma store_map_same k f s : store_map k f s k = f (s k).
Proof.
  unfold store_map. destruct (decide (k = k)) as [e|]; [|done].
  by rewrite (proof_irrel e eq_refl).
Qed.
Lemma store_map_other k k' f s : k ≠ k' → store_map k f s k' = s k'.
Proof. intros Hne. unfold store_map. by destruct (decide (k = k')). Qed.

Definition on_store (f : Store → Store) (w : FakeWorld) : FakeWorld :=
  mkFakeWorld (f (fw_store w)) (fw_fail w) (fw_clock w) (fw_counter w + 1) (fw_env w).

Definition NotFoundErr : GoError := ErrStatus "NotFound" "not found".

(** [StringData] is write-only: the server merges it into [Data]. *)
Definition merge_string_data (k : Kind) : KObj k → KObj k :=
  match k with
  | KSecret => λ o : Secret, mkSecret (s_Meta o) (s_Type o) (s_StringData o ∪ s_Data o) ∅
  | _ => λ o, o
  end.

(** The object the server stores for [o] at a resource version. *)
Definition normal (k : Kind) (version : string) (o : KObj k) : KObj k :=
  merge_string_data k (kset_meta k (om_set_ResourceVersion version (kmeta k o)) o).

Definition fake_Get (k : Kind) (key : NamespacedName) (w : FakeWorld) : GoError + KObj k :=
  match fw_fail w OpGet k with
  | Some e => inl e
  | None =>
      match fw_store w k !! key with
      | Some o => if decide (kkey k o = key) then inr o else inl NotFoundErr
      | None => inl NotFoundErr
      end
  end.

#[local] Instance list_matches_dec k opts o : Decision (list_matches k opts o).
Proof.
  unfold list_matches.
  apply and_dec; [destruct (lo_Namespace opts); apply _|apply and_dec; [apply _|]].
  destruct (lo_Fields opts !! PolicyServerIndexKey); apply _.
Defined.

Definition fake_List (k : Kind) (opts : ListOptions) (w : FakeWorld) : GoError + list (KObj k) :=
  match fw_fail w OpList k, fw_fail w OpGet k with
  | Some e, _ | None, Some e => inl e
  | None, None =>
      inr (filter (list_matches k opts)
             (filter (λ kv, kkey k kv.2 = kv.1) (map_to_list (fw_store w k))).*2)
  end.

Definition fake_put (k : Kind) (o : KObj k) (w : FakeWorld) : FakeWorld :=
  on_store (store_map k <[kkey k o := o]>) w.
Definition fake_drop (k : Kind) (key : NamespacedName) (w : FakeWorld) : FakeWorld :=
  on_store (store_map k (delete key)) w.

(** A write stores the object at a new version, unless that is what the
    server already has. *)
Definition fake_write (k : Kind) (o : KObj k) (w : FakeWorld) : KObj k * FakeWorld :=
  let o' := normal k (Itoa (fw_counter w)) o in
  match fake_Get k (kkey k o) w with
  | inr old =>
      if decide (normal k (om_ResourceVersion (kmeta k old)) o = old) then (old, w)
      else (o', fake_put k o' w)
  | inl _ => (o', fake_put k o' w)
  end.
Definition answer {A} (r : A * FakeWorld) : (GoError + A) * FakeWorld := (inr r.1, r.2).

Definition fake_Update (k : Kind) (o : KObj k) (w : FakeWorld)
    : (GoError + KObj k) * FakeWorld :=
  match fw_fail w OpUpdate k, fake_Get k (kkey k o) w with
  | Some e, _ | None, inl e => (inl e, w)
  | None, inr old =>
      let o' := with_status_of k old o in
      match om_DeletionTimestamp (kmeta k old), om_Finalizers (kmeta k o) with
      | Some _, [] => (inr (normal k (Itoa (fw_counter w)) o'), fake_drop k (kkey k o) w)
      | _, _ => answer (fake_write k o' w)
      end
  end.

(** The kinds with a status subresource. *)
Definition has_status (k : Kind) : bool :=
  match k with
  | KSecret | KConfigMap | KDeployment | KReplicaSet | KPod | KService | KPDB
  | KValidatingWebhookConfiguration | KMutatingWebhookConfiguration => false
  | _ => true
  end.

(** Only the status is written. (The statuses of the other kinds are not
    part of the model.) *)
Definition fake_StatusUpdate (k : Kind) (o : KObj k) (w : FakeWorld)
    : (GoError + KObj k) * FakeWorld :=
  match fw_fail w OpStatus k, fake_Get k (kkey k o) w with
  | Some e, _ | None, inl e => (inl e, w)
  | None, inr old => if negb (has_status k) then (inl NotFoundErr, w) else answer (fake_write k (with_status_of k o old) w)
  end.

Definition fake_Patch (k : Kind) (_ o : KObj k) (w : FakeWorld)
    : (GoError + KObj k) * FakeWorld :=
  match fw_fail w OpPatch k, fw_fail w OpGet k with
  | Some e, _ | None, Some e => (inl e, w)
  | None, None => answer (fake_write k o w)
  end.

(** An injected failure of a deletion is not the answer that there is no such
    object. *)
Definition delete_failure (k : Kind) (w : FakeWorld) : option GoError :=
  match fw_fail w OpDelete k with
  | Some e => if IsNotFound e then None else Some e
  | None => None
  end.

Definition fake_Delete (k : Kind) (o : KObj k) (w : FakeWorld) : (GoError + unit) * FakeWorld :=
  match delete_failure k w, fake_Get k (kkey k o) w with
  | Some e, _ | None, inl e => (inl e, w)
  | None, inr old =>
      match om_DeletionTimestamp (kmeta k old), om_Finalizers (kmeta k old) with
      | Some _, _ => (inr tt, w)
      | None, [] => (inr tt, fake_drop k (kkey k o) w)
      | None, _ =>
          let marked := kset_meta k
            (om_set_DeletionTimestamp (Some (fw_clock w)) (kmeta k old)) old in
          (inr tt, fake_put k marked w)
      end
  end.

(** [CreateOrPatch], once the object to start from is known. *)
Definition fake_finish (k : Kind) (key : NamespacedName) (f : KObj k → M FakeWorld (KObj k))
    (base : KObj k) : M FakeWorld (KObj k) := λ w,
  match f base w with
  | (Ok o, w1) =>
      match fw_fail w1 OpCreate k, fw_fail w1 OpGet k with
      | Some e, _ | None, Some e => (Err e, w1)
      | None, None =>
          if bool_decide (kkey k o = key) then call (λ w, answer (fake_write k o w)) w1
          else (Err (ErrNew "MutateFn cannot mutate object name and/or object namespace"), w1)
      end
  | (r, w1) => (r, w1)
  end.
Definition fake_CreateOrPatch (k : Kind) (init : KObj k)
    (f : KObj k → M FakeWorld (KObj k)) : M FakeWorld (KObj k) := λ w,
  match fake_Get k (kkey k init) w with
  | inr base => fake_finish k (kkey k init) f base w
  | inl e => if IsNotFound e then fake_finish k (kkey k init) f init w else (Err e, w)
  end.

Definition fake_client : KubeClient FakeWorld := {|
  Get := fake_Get;
  List := fake_List;
  Update := fake_Update;
  StatusUpdate := fake_StatusUpdate;
  Patch := fake_Patch;
  Delete := fake_Delete;
  CreateOrPatch := fake_CreateOrPatch;
|}.

Definition tick (w : FakeWorld) : FakeWorld :=
  mkFakeWorld (fw_store w) (fw_fail w) (fw_clock w + 1) (fw_counter w + 1) (fw_env w).

Definition fake_env : Environment FakeWorld := {|
  Now w := (fw_clock w, tick w);
  RandInt b w := (inr (fw_counter w mod b)%Z, tick w);
  GenerateKey w := (inr (fw_counter w), tick w);
  Getenv name w := default "" (fw_env w !! name);
|}.

Definition fake_world (s : Store) : FakeWorld := mkFakeWorld s (λ _ _, None) 1000000000 1 ∅.

(** ** The laws hold *)

Lemma kmeta_merge k o : kmeta k (merge_string_data k o) = kmeta k o.
Proof. by destruct k. Qed.

Lemma normal_meta k v o : kmeta k (normal k v o) = om_set_ResourceVersion v (kmeta k o).
Proof. unfold normal. by rewrite kmeta_merge, kmeta_set. Qed.
Lemma normal_key k v o : kkey k (normal k v o) = kkey k o.
Proof. unfold kkey. by rewrite normal_meta. Qed.
Lemma status_key k old o : kkey k (with_status_of k old o) = kkey k o.
Proof. unfold kkey. by rewrite kmeta_status. Qed.

Lemma Forall2_refl_intro {A} (R : relation A) l : (∀ x, R x x) → Forall2 R l l.
Proof. intros HR. induction l; constructor; auto. Qed.
Lemma webhook_stored_refl x : webhook_stored x x.
Proof.
  unfold webhook_stored, kept. split_and!; try done.
  apply Forall2_refl_intro. intros r. by unfold rule_stored, kept.
Qed.

Lemma normal_stored k v o : stored k o (normal k v o).
Proof.
  split; [by rewrite normal_meta|].
  destruct k; cbn; try done; try (by apply Forall2_refl_intro, webhook_stored_refl).
Qed.
Lemma normal_status_stored k v old o : stored k o (normal k v (with_status_of k old o)).
Proof.
  split; [by rewrite normal_meta, kmeta_status|].
  destruct k; cbn; try done; try (by apply Forall2_refl_intro, webhook_stored_refl).
Qed.

Section fake_laws.
#[local] Existing Instance fake_client.
#[local] Existing Instance fake_env.

Lemma fake_put_get k o w :
  fw_fail w OpGet k = None → Get k (kkey k o) (fake_put k o w) = inr o.
Proof.
  intros Hf. cbn. unfold fake_Get, fake_put, on_store. cbn. rewrite Hf.
  by rewrite store_map_same, lookup_insert_eq, decide_True.
Qed.
Lemma fake_drop_absent k key w :
  fw_fail w OpGet k = None → absent k key (fake_drop k key w).
Proof.
  intros Hf. eexists. cbn. unfold fake_Get, fake_drop, on_store. cbn. rewrite Hf.
  by rewrite store_map_same, lookup_delete_eq.
Qed.
Lemma on_store_same_but k key f w :
  (∀ m key', key' ≠ key → f m !! key' = m !! key') →
  same_but k key w (on_store (store_map k f) w).
Proof.
  intros Hf k' key' Hne. cbn. unfold fake_Get, on_store. cbn.
  destruct (decide (k = k')) as [<-|Hk]; [|by rewrite store_map_other].
  rewrite store_map_same, Hf; [done|congruence].
Qed.
Lemma fake_put_same_but k o w : same_but k (kkey k o) w (fake_put k o w).
Proof. apply on_store_same_but. intros. by rewrite lookup_insert_ne. Qed.
Lemma fake_drop_same_but k key w : same_but k key w (fake_drop k key w).
Proof. apply on_store_same_but. intros. by rewrite lookup_delete_ne. Qed.

Lemma fake_Get_inv k key w o :
  fake_Get k key w = inr o →
  fw_fail w OpGet k = None ∧ fw_store w k !! key = Some o ∧ kkey k o = key.
Proof. unfold fake_Get. intros. repeat case_match; simplify_eq; auto. Qed.

(** What a write leaves. *)
Lemma fake_write_spec k o w o' w' :
  fake_write k o w = (o', w') →
  (∃ v, o' = normal k v o) ∧ same_but k (kkey k o) w w' ∧ fw_clock w' = fw_clock w ∧
  fw_env w' = fw_env w ∧ (fw_fail w OpGet k = None → Get k (kkey k o) w' = inr o').
Proof.
  assert (∀ v, normal k v o = o' ∧ fake_put k (normal k v o) w = w' →
    (∃ v, o' = normal k v o) ∧ same_but k (kkey k o) w w' ∧ fw_clock w' = fw_clock w ∧
    fw_env w' = fw_env w ∧ (fw_fail w OpGet k = None → Get k (kkey k o) w' = inr o')) as Hput.
  { intros v [<- <-]. rewrite <-(normal_key k v o).
    split_and!; [by eexists|apply fake_put_same_but|done|done|apply fake_put_get]. }
  unfold fake_write. destruct (fake_Get k (kkey k o) w) as [e|old] eqn:Hg.
  { intros [= <- <-]. by eapply Hput. }
  case_decide as Heq; intros Hw; [|injection Hw as <- <-; by eapply Hput].
  injection Hw as <- <-. by split_and!; [eexists|..].
Qed.
Lemma fake_write_frame k o w : same_but k (kkey k o) w (fake_write k o w).2.
Proof. destruct (fake_write k o w) eqn:Hw. by apply fake_write_spec in Hw as (_ & ? & _). Qed.
Lemma fake_write_clock k o w : fw_clock (fake_write k o w).2 = fw_clock w.
Proof. destruct (fake_write k o w) eqn:Hw. by apply fake_write_spec in Hw as (_ & _ & ? & _). Qed.
Lemma fake_write_env k o w : fw_env (fake_write k o w).2 = fw_env w.
Proof. destruct (fake_write k o w) eqn:Hw. by apply fake_write_spec in Hw as (_ & _ & _ & ? & _). Qed.
(** A write of what the server has changes nothing. *)
Lemma fake_write_again k o w o' v :
  Get k (kkey k o) w = inr o' → o' = normal k v o → fake_write k o w = (o', w).
Proof.
  intros Hg Ho'. cbn in Hg. unfold fake_write. rewrite Hg, decide_True; [done|].
  by rewrite Ho', normal_meta.
Qed.

Lemma fake_List_spec k opts w l o :
  fake_List k opts w = inr l →
  o ∈ l ↔ ∃ key, fake_Get k key w = inr o ∧ list_matches k opts o.
Proof.
  unfold fake_List. destruct (fw_fail w OpList k); [done|].
  destruct (fw_fail w OpGet k) eqn:Hf; [done|]. intros [= <-].
  rewrite list_elem_of_filter, list_elem_of_fmap. split.
  - intros (Hm & [key o1] & -> & Hin). simpl in *.
    apply list_elem_of_filter in Hin as [Hk Hin%elem_of_map_to_list].
    exists key. split; [|done]. unfold fake_Get. rewrite Hf, Hin. by rewrite decide_True.
  - intros (key & (_ & Hs & Hk)%fake_Get_inv & Hm). split; [done|].
    exists (key, o). split; [done|]. apply list_elem_of_filter. split; [done|].
    by apply elem_of_map_to_list.
Qed.

Lemma fake_Update_ok k o w o' w' :
  fake_Update k o w = (inr o', w') →
  stored k o o' ∧ same_but k (kkey k o) w w' ∧
  (Get k (kkey k o) w' = inr o' ∨
   om_Finalizers (kmeta k o) = [] ∧ absent k (kkey k o) w' ∧
   ∃ old, Get k (kkey k o) w = inr old ∧ om_DeletionTimestamp (kmeta k old) ≠ None).
Proof.
  unfold fake_Update. destruct (fw_fail w OpUpdate k); [done|].
  destruct (fake_Get k (kkey k o) w) as [|old] eqn:Hg; [done|].
  pose proof Hg as Hold. apply fake_Get_inv in Hg as (Hf & _ & _).
  assert (∀ r, answer (fake_write k (with_status_of k old o) w) = (r, w') → r = inr o' →
    stored k o o' ∧ same_but k (kkey k o) w w' ∧ Get k (kkey k o) w' = inr o') as Hwrite.
  { intros r Hw ->. destruct (fake_write _ _ w) as [o1 w1] eqn:Hw1. injection Hw as -> ->.
    apply fake_write_spec in Hw1 as ([v ->] & Hs & _ & _ & Hget). rewrite status_key in *.
    split_and!; [apply normal_status_stored|done|auto]. }
  destruct (om_DeletionTimestamp (kmeta k old)) eqn:Hdel, (om_Finalizers (kmeta k o)) eqn:Hfin;
    intros Hrun; try (destruct (Hwrite _ Hrun eq_refl) as (? & ? & ?); by auto).
  injection Hrun as <- <-.
  split_and!; [apply normal_status_stored|apply fake_drop_same_but|]. right.
  split_and!; [done|by apply fake_drop_absent|]. exists old. split; [done|congruence].
Qed.

Lemma fake_StatusUpdate_inv k o w o' w' :
  fake_StatusUpdate k o w = (inr o', w') →
  has_status k = true ∧ ∃ old v, Get k (kkey k o) w = inr old ∧ o' = normal k v (with_status_of k o old) ∧
    same_but k (kkey k o) w w' ∧ Get k (kkey k o) w' = inr o'.
Proof.
  unfold fake_StatusUpdate. destruct (fw_fail w OpStatus k); [done|].
  destruct (fake_Get k (kkey k o) w) as [|old] eqn:Hg; [done|].
  destruct (has_status k) eqn:Hk; cbn [negb]; [|done].
  intros Hw. destruct (fake_write _ _ w) as [o1 w1] eqn:Hw1. injection Hw as -> ->.
  apply fake_write_spec in Hw1 as ([v ->] & Hs & _ & _ & Hget). rewrite status_key in *.
  pose proof (fake_Get_inv _ _ _ _ Hg) as (Hf & _ & Hold). rewrite Hold in *.
  split; [done|]. exists old, v. auto.
Qed.
Lemma fake_StatusUpdate_ok k o w o' w' :
  fake_StatusUpdate k o w = (inr o', w') →
  status_stored k o o' ∧ same_but k (kkey k o) w w' ∧ Get k (kkey k o) w' = inr o'.
Proof.
  intros (_ & old & v & _ & -> & ? & ?)%fake_StatusUpdate_inv. split_and!; [by destruct k|done|done].
Qed.

Lemma fake_Patch_ok k orig o w o' w' :
  fake_Patch k orig o w = (inr o', w') →
  stored k o o' ∧ same_but k (kkey k o) w w' ∧ Get k (kkey k o) w' = inr o'.
Proof.
  unfold fake_Patch. destruct (fw_fail w OpPatch k); [done|].
  destruct (fw_fail w OpGet k) eqn:Hf; [done|]. intros Hw.
  destruct (fake_write _ _ w) as [o1 w1] eqn:Hw1. injection Hw as -> ->.
  apply fake_write_spec in Hw1 as ([v ->] & Hs & _ & _ & Hget).
  split_and!; [apply normal_stored|done|auto].
Qed.

Lemma fake_marked k t (old : KObj k) :
  marked k old (kset_meta k (om_set_DeletionTimestamp (Some t) (kmeta k old)) old).
Proof.
  split; [by rewrite kmeta_set|]. split; [|by destruct k]. intros x [Hm Hc].
  split; [by rewrite kmeta_set|by destruct k].
Qed.

Lemma fake_Delete_ok k o w w' :
  fake_Delete k o w = (inr tt, w') →
  same_but k (kkey k o) w w' ∧
  ∃ old, Get k (kkey k o) w = inr old ∧
    (om_Finalizers (kmeta k old) = [] ∧ absent k (kkey k o) w' ∨
     ∃ o', Get k (kkey k o) w' = inr o' ∧ marked k old o').
Proof.
  unfold fake_Delete. destruct (delete_failure k w); [done|].
  destruct (fake_Get k (kkey k o) w) as [|old] eqn:Hg; [done|].
  pose proof Hg as Hold. apply fake_Get_inv in Hg as (Hf & _ & Hk).
  set (m := kset_meta k (om_set_DeletionTimestamp (Some (fw_clock w)) (kmeta k old)) old).
  assert (kkey k m = kkey k o) as Hkm by (unfold m, kkey in *; by rewrite kmeta_set).
  destruct (om_DeletionTimestamp (kmeta k old)) eqn:Hdel.
  { intros [= <-]. split; [done|]. exists old. split; [done|]. right. exists old.
    split; [done|]. split; [congruence|done]. }
  intros Hrun. case_match eqn:Hfin; injection Hrun as <-.
  - split; [apply fake_drop_same_but|]. exists old. split; [done|]. left.
    split; [done|by apply fake_drop_absent].
  - rewrite <-Hkm. split; [apply fake_put_same_but|]. exists old. rewrite Hkm at 1.
    split; [done|]. right. exists m. split; [by apply fake_put_get|apply fake_marked].
Qed.

Lemma fake_Update_removes k o w old o' w' :
  fake_Update k o w = (inr o', w') → om_Finalizers (kmeta k o) = [] →
  fake_Get k (kkey k o) w = inr old → om_DeletionTimestamp (kmeta k old) ≠ None →
  absent k (kkey k o) w'.
Proof.
  unfold fake_Update. destruct (fw_fail w OpUpdate k); [done|].
  intros Hrun Hfin Hg Hdel. rewrite Hg, Hfin in Hrun.
  apply fake_Get_inv in Hg as (Hf & _ & _).
  destruct (om_DeletionTimestamp (kmeta k old)); [|done]. injection Hrun as _ <-.
  by apply fake_drop_absent.
Qed.

Lemma fake_Delete_notfound k o w e w' :
  fake_Delete k o w = (inl e, w') → IsNotFound e = true →
  same_objects w w' ∧ absent k (kkey k o) w'.
Proof.
  unfold fake_Delete, delete_failure. intros Hrun Hnf.
  destruct (fw_fail w OpDelete k) as [e'|]; [destruct (IsNotFound e') eqn:He'|];
    try (injection Hrun as -> ->; congruence);
    (destruct (fake_Get k (kkey k o) w) as [e1|old] eqn:Hg;
     [injection Hrun as -> <-; split; [done|by exists e]|by repeat case_match]).
Qed.

Lemma fake_finish_inv k key f base w o' w' :
  fake_finish k key f base w = (Ok o', w') →
  ∃ o w1, f base w = (Ok o, w1) ∧ kkey k o = key ∧ stored k o o' ∧ (∃ v, o' = normal k v o) ∧
    Get k key w' = inr o' ∧ same_but k key w1 w'.
Proof.
  unfold fake_finish. destruct (f base w) as [[o|e|x|c] w1]; try done.
  destruct (fw_fail w1 OpCreate k); [done|].
  destruct (fw_fail w1 OpGet k) eqn:Hf; [done|].
  case_bool_decide as Hk; [|done]. intros Hw%call_Ok_inv.
  destruct (fake_write _ _ w1) as [o1 w2] eqn:Hw1. injection Hw as -> ->.
  apply fake_write_spec in Hw1 as ([v ->] & Hs & _ & _ & Hget). subst key. exists o, w1.
  split_and!; [done|done|apply normal_stored|by exists v|auto|done].
Qed.
Lemma fake_CreateOrPatch_inv k init f w o' w' :
  fake_CreateOrPatch k init f w = (Ok o', w') →
  ∃ base o w1,
    (Get k (kkey k init) w = inr base ∨ absent k (kkey k init) w ∧ base = init) ∧
    f base w = (Ok o, w1) ∧ kkey k o = kkey k init ∧ stored k o o' ∧
    (∃ v, o' = normal k v o) ∧
    Get k (kkey k init) w' = inr o' ∧ same_but k (kkey k init) w1 w'.
Proof.
  unfold fake_CreateOrPatch. destruct (fake_Get k (kkey k init) w) as [e|base] eqn:Hg.
  - destruct (IsNotFound e) eqn:He; [|done]. intros (o & w1 & Ho)%fake_finish_inv.
    exists init, o, w1. split; [|done]. right. split; [|done]. by exists e.
  - intros (o & w1 & Ho)%fake_finish_inv. exists base, o, w1. split; [by left|done].
Qed.
Lemma fake_CreateOrPatch_ok k init f w o' w' :
  fake_CreateOrPatch k init f w = (Ok o', w') →
  ∃ base o w1,
    (Get k (kkey k init) w = inr base ∨ absent k (kkey k init) w ∧ base = init) ∧
    f base w = (Ok o, w1) ∧ kkey k o = kkey k init ∧ stored k o o' ∧
    Get k (kkey k init) w' = inr o' ∧ same_but k (kkey k init) w1 w'.
Proof.
  intros (base & o & w1 & Hb & Hf & Hk & Hst & _ & Hget & Hs)%fake_CreateOrPatch_inv.
  by exists base, o, w1.
Qed.

Lemma fake_List_NoDup k opts w l : fake_List k opts w = inr l → NoDup (kkey k <$> l).
Proof.
  unfold fake_List. repeat case_match; intros; simplify_eq.
  set (kvs := filter (λ kv, kkey k kv.2 = kv.1) (map_to_list (fw_store w k))).
  assert (kkey k <$> kvs.*2 = kvs.*1) as Hk.
  { rewrite <-list_fmap_compose. apply list_fmap_ext. intros i kv Hkv.
    apply list_elem_of_lookup_2, list_elem_of_filter in Hkv as [? _]. done. }
  assert (NoDup (kkey k <$> kvs.*2)) as Hnd.
  { rewrite Hk. unfold kvs. eapply sublist_NoDup; [apply (NoDup_fst_map_to_list (fw_store w k))|].
    apply fmap_sublist, sublist_filter. }
  eapply sublist_NoDup; [exact Hnd|]. apply fmap_sublist, sublist_filter.
Qed.

(** A relation kept by the mutate function and by writes of the object is kept
    by the whole. *)
Lemma fake_CreateOrPatch_within (R : relation FakeWorld) k init f :
  PreOrder R → (∀ o w, kkey k o = kkey k init → R w (fake_write k o w).2) →
  (∀ o, within R (f o)) → within R (fake_CreateOrPatch k init f).
Proof.
  intros HR Hw Hf w.
  assert (∀ base, R w (fake_finish k (kkey k init) f base w).2) as Hfin.
  { intros base. unfold fake_finish. pose proof (Hf base w) as Hb.
    destruct (f base w) as [[o|e|x|c] w1]; cbn [snd] in *; try done.
    destruct (fw_fail w1 OpCreate k), (fw_fail w1 OpGet k); try done.
    case_bool_decide as Hk; [|done]. etrans; [exact Hb|]. by apply Hw. }
  unfold fake_CreateOrPatch. destruct (fake_Get k (kkey k init) w) as [e|base]; [|done].
  by destruct (IsNotFound e).
Qed.
Lemma fake_CreateOrPatch_clock k init f :
  (∀ o, within clock_le (f o)) → within clock_le (fake_CreateOrPatch k init f).
Proof.
  apply fake_CreateOrPatch_within; [apply _|]. intros o w _. unfold clock_le, clock. cbn.
  rewrite fake_write_clock. lia.
Qed.
Lemma fake_CreateOrPatch_env k init f :
  (∀ o, within same_env (f o)) → within same_env (fake_CreateOrPatch k init f).
Proof.
  apply fake_CreateOrPatch_within; [apply _|]. intros o w _ name. cbn.
  by rewrite fake_write_env.
Qed.

(** Frames. *)
Lemma fake_put_frame k key o w : kkey k o = key → same_but k key w (fake_put k o w).
Proof. intros <-. apply fake_put_same_but. Qed.
Lemma fake_write_status_frame k w old o :
  same_but k (kkey k o) w (fake_write k (with_status_of k old o) w).2.
Proof. rewrite <-(status_key k old o). apply fake_write_frame. Qed.

Lemma fake_Update_frame k o w : same_but k (kkey k o) w (snd (fake_Update k o w)).
Proof.
  unfold fake_Update. repeat case_match; try done;
    first [apply fake_drop_same_but|apply fake_write_status_frame].
Qed.
Lemma fake_StatusUpdate_frame k o w : same_but k (kkey k o) w (snd (fake_StatusUpdate k o w)).
Proof.
  unfold fake_StatusUpdate. destruct (fw_fail w OpStatus k); [done|].
  destruct (fake_Get k (kkey k o) w) as [|old] eqn:Hg; [done|].
  destruct (has_status k); cbn [negb]; [|done].
  apply fake_Get_inv in Hg as (_ & _ & <-). apply fake_write_status_frame.
Qed.
Lemma fake_Delete_frame k o w : same_but k (kkey k o) w (snd (fake_Delete k o w)).
Proof.
  unfold fake_Delete. destruct (delete_failure k w); [done|].
  destruct (fake_Get k (kkey k o) w) as [|old] eqn:Hg; [done|].
  apply fake_Get_inv in Hg as (_ & _ & Hk). case_match; [done|].
  case_match; [apply fake_drop_same_but|].
  apply fake_put_frame. unfold kkey in *. by rewrite kmeta_set.
Qed.
Lemma fake_CreateOrPatch_frame (R : relation FakeWorld) k init f :
  PreOrder R → (∀ w w', same_but k (kkey k init) w w' → R w w') →
  (∀ o, within R (f o)) → within R (fake_CreateOrPatch k init f).
Proof.
  intros HR Hsame. apply fake_CreateOrPatch_within; [done|]. intros o w Hk.
  apply Hsame. rewrite <-Hk. apply fake_write_frame.
Qed.

(** Statuses. *)
Lemma status_stored_refl k o : status_stored k o o.
Proof. by destruct k. Qed.
Lemma normal_status k v old o : status_stored k old (normal k v (with_status_of k old o)).
Proof. by destruct k. Qed.

Lemma fake_Get_put k o w o' :
  fake_Get k (kkey k o) (fake_put k o w) = inr o' → o' = o.
Proof.
  intros (_ & Hs & _)%fake_Get_inv. cbn in Hs. rewrite store_map_same, lookup_insert_eq in Hs.
  congruence.
Qed.
Lemma fake_Get_drop k key w o : fake_Get k key (fake_drop k key w) = inr o → False.
Proof.
  intros (_ & Hs & _)%fake_Get_inv. cbn in Hs. by rewrite store_map_same, lookup_delete_eq in Hs.
Qed.

Lemma fake_write_get k o w o' :
  fw_fail w OpGet k = None → fake_Get k (kkey k o) (fake_write k o w).2 = inr o' →
  ∃ v, o' = normal k v o.
Proof.
  intros Hf Hg. destruct (fake_write k o w) as [o1 w1] eqn:Hw. cbn [snd] in Hg.
  apply fake_write_spec in Hw as (Hv & _ & _ & _ & Hget). specialize (Hget Hf).
  change (fake_Get k (kkey k o) w1 = inr o1) in Hget. rewrite Hget in Hg. by injection Hg as <-.
Qed.

Lemma fake_Update_status k o w o' :
  fake_Get k (kkey k o) (snd (fake_Update k o w)) = inr o' →
  ∃ old, fake_Get k (kkey k o) w = inr old ∧ status_stored k old o'.
Proof.
  unfold fake_Update. destruct (fw_fail w OpUpdate k); [eauto using status_stored_refl|].
  destruct (fake_Get k (kkey k o) w) as [e|old] eqn:Hg; [cbn; congruence|].
  apply fake_Get_inv in Hg as (Hf & _). intros Hg'. exists old. split; [done|].
  assert (fake_Get k (kkey k o) (fake_write k (with_status_of k old o) w).2 = inr o') as Hw
    by (repeat case_match; try done; by apply fake_Get_drop in Hg').
  rewrite <-(status_key k old o) in Hw.
  apply fake_write_get in Hw as [v ->]; [apply normal_status|done].
Qed.
Lemma fake_StatusUpdate_status k o w o' :
  fake_Get k (kkey k o) (snd (fake_StatusUpdate k o w)) = inr o' →
  ∃ old, fake_Get k (kkey k o) w = inr old ∧ (status_stored k old o' ∨ status_stored k o o').
Proof.
  unfold fake_StatusUpdate. destruct (fw_fail w OpStatus k); [eauto using status_stored_refl|].
  destruct (fake_Get k (kkey k o) w) as [e|old] eqn:Hg; [cbn; congruence|].
  intros Hg'. exists old. split; [done|]. destruct (has_status k); cbn [negb] in Hg'.
  2:{ left. cbn [snd] in Hg'. rewrite Hg in Hg'. injection Hg' as <-. apply status_stored_refl. }
  right. apply fake_Get_inv in Hg as (Hf & _ & Hk). cbn [answer snd] in Hg'.
  rewrite <-Hk, <-(status_key k o old) in Hg'.
  apply fake_write_get in Hg' as [v ->]; [apply normal_status|done].
Qed.
Lemma fake_Delete_status k o w o' :
  fake_Get k (kkey k o) (snd (fake_Delete k o w)) = inr o' →
  ∃ old, fake_Get k (kkey k o) w = inr old ∧ status_stored k old o'.
Proof.
  unfold fake_Delete. destruct (delete_failure k w); [eauto using status_stored_refl|].
  destruct (fake_Get k (kkey k o) w) as [e|old] eqn:Hg; [cbn; congruence|].
  intros Hg'. exists old. split; [done|]. pose proof (fake_Get_inv _ _ _ _ Hg) as (_ & _ & Hk).
  case_match; [cbn in Hg'; apply fake_Get_inv in Hg' as (_ & Hg' & _);
    cbn in Hg; apply fake_Get_inv in Hg as (_ & Hg & _); simplify_eq; apply status_stored_refl|].
  case_match; [by apply fake_Get_drop in Hg'|].
  set (m := kset_meta k _ old) in *.
  assert (o' = m) as ->; [|by apply fake_marked, status_stored_refl].
  apply (fake_Get_put k _ w). rewrite <-Hg'. simpl. f_equal. unfold m, kkey in *.
  by rewrite kmeta_set.
Qed.

Lemma fake_laws : KubeClientLaws FakeWorld.
Proof.
  split.
  - by intros k key w o (_ & _ & ?)%fake_Get_inv.
  - apply fake_List_spec.
  - apply fake_List_NoDup.
  - apply fake_Update_ok.
  - apply fake_StatusUpdate_ok.
  - intros. by eapply fake_Patch_ok.
  - intros k orig o w e w'. cbn. unfold fake_Patch. repeat case_match; naive_solver.
  - intros k o w old o' w' Hrun _. by eapply fake_Update_removes.
  - apply fake_Delete_ok.
  - apply fake_Delete_notfound.
  - apply fake_CreateOrPatch_ok.
  - apply fake_Update_frame.
  - apply fake_StatusUpdate_frame.
  - intros k orig o w. cbn. unfold fake_Patch. repeat case_match; try done.
    apply fake_write_frame.
  - apply fake_Delete_frame.
  - apply fake_CreateOrPatch_frame.
  - apply fake_Update_status.
  - apply fake_Delete_status.
  - apply fake_StatusUpdate_status.
  - by intros w t w' [= <- <-].
  - by intros w t w' [= <- <-].
  - by intros b w t w' [= <- <-].
  - intros b w r w' Hb [= <- <-]. by apply Z.mod_pos_bound.
  - intros w. unfold clock_le, clock. cbn. lia.
  - intros b w. unfold clock_le, clock. cbn. lia.
  - intros w. unfold clock_le, clock. cbn. lia.
  - intros k o w. unfold clock_le, clock. cbn. unfold fake_Update.
    repeat case_match; try done; cbn; by rewrite fake_write_clock.
  - intros k o w. unfold clock_le, clock. cbn. unfold fake_StatusUpdate.
    repeat case_match; try done; cbn; by rewrite fake_write_clock.
  - intros k orig o w. unfold clock_le, clock. cbn. unfold fake_Patch.
    repeat case_match; try done; cbn; by rewrite fake_write_clock.
  - intros k o w. unfold clock_le, clock. cbn. unfold fake_Delete. by repeat case_match.
  - apply fake_CreateOrPatch_clock.
Qed.

(** *** Writes that change nothing *)

Lemma om_set_same_version m : om_set_ResourceVersion (om_ResourceVersion m) m = m.
Proof. by destruct m. Qed.
Lemma merge_twice k o : merge_string_data k (merge_string_data k o) = merge_string_data k o.
Proof. destruct k; try done. cbn. by rewrite map_empty_union. Qed.
Lemma merge_set_meta k m o :
  merge_string_data k (kset_meta k m o) = kset_meta k m (merge_string_data k o).
Proof. by destruct k. Qed.
Lemma kset_twice k m m' o : kset_meta k m (kset_meta k m' o) = kset_meta k m o.
Proof. by destruct k, o. Qed.

Lemma normal_self k v o : normal k v o = normal k v (normal k v o).
Proof.
  unfold normal at 2. rewrite normal_meta. unfold normal.
  rewrite !merge_set_meta, kset_twice, merge_twice. by destruct (kmeta k o).
Qed.
(** The object with the metadata it is stored with is stored as it was. *)
Lemma normal_again k v o :
  normal k v (kset_meta k (kmeta k (normal k v o)) o) = normal k v o.
Proof.
  unfold normal at 1. rewrite kmeta_set, normal_meta, kset_twice.
  unfold normal. by destruct (kmeta k o).
Qed.

Lemma fake_CreateOrPatch_again k init f w w1 o o' :
  Get k (kkey k init) w = inr o' → (∃ v, o' = normal k v o) →
  f o' w = (Ok (kset_meta k (kmeta k o') o), w1) → same_objects w w1 →
  ∃ r w', fake_CreateOrPatch k init f w = (r, w') ∧ same_objects w1 w' ∧
    (r = Ok o' ∨ ∃ e, r = Err e).
Proof.
  intros Hg [v Ho'] Hf Hsame. pose proof (fake_Get_inv _ _ _ _ Hg) as (_ & _ & Hk).
  assert (kkey k (kset_meta k (kmeta k o') o) = kkey k init) as Hkey.
  { rewrite <-Hk. unfold kkey. by rewrite kmeta_set. }
  assert (∃ r w', fake_finish k (kkey k init) f o' w = (r, w') ∧ same_objects w1 w' ∧
    (r = Ok o' ∨ ∃ e, r = Err e)) as Hfin.
  { unfold fake_finish. rewrite Hf.
    destruct (fw_fail w1 OpCreate k), (fw_fail w1 OpGet k);
      try (do 2 eexists; split; [reflexivity|]; split; [done|right; by eexists]).
    rewrite bool_decide_eq_true_2 by done. unfold call.
    rewrite (fake_write_again k _ w1 o' v).
    - do 2 eexists. split; [reflexivity|]. split; [done|by left].
    - rewrite Hkey, Hsame. exact Hg.
    - subst o'. symmetry. apply normal_again. }
  unfold fake_CreateOrPatch. cbn in Hg. by rewrite Hg.
Qed.

Lemma fake_StatusUpdate_again k o w :
  Get k (kkey k o) w = inr o → same_objects w (snd (fake_StatusUpdate k o w)).
Proof.
  intros Hg. unfold fake_StatusUpdate. destruct (fw_fail w OpStatus k); [done|].
  pose proof Hg as Hg'. cbn in Hg. rewrite Hg.
  destruct (has_status k) eqn:Hk; cbn [negb]; [|done].
  rewrite (fake_write_again k _ w o (om_ResourceVersion (kmeta k o))); [done| |].
  - by rewrite status_key.
  - assert (with_status_of k o o = o) as -> by (by destruct k; try done; destruct o).
    unfold normal. rewrite om_set_same_version, kset_same. by destruct k; try discriminate Hk.
Qed.

Lemma fake_StatusUpdate_content k o w old o' w' :
  fake_StatusUpdate k o w = (inr o', w') → Get k (kkey k o) w = inr old →
  ∃ v, o' = kset_meta k (om_set_ResourceVersion v (kmeta k old)) (with_status_of k o old).
Proof.
  intros (Hk & old' & v & Hg' & -> & _)%fake_StatusUpdate_inv Hg. rewrite Hg in Hg'.
  injection Hg' as <-. exists v. unfold normal. rewrite kmeta_status.
  by destruct k; try discriminate Hk.
Qed.

Lemma fake_Delete_again k o w :
  going k (kkey k o) w → same_objects w (snd (fake_Delete k o w)).
Proof.
  unfold fake_Delete. destruct (delete_failure k w); [done|].
  intros [(e & Hg & _)|(old & Hg & Hdel)]; cbn in Hg; rewrite Hg; [done|].
  by destruct (om_DeletionTimestamp (kmeta k old)).
Qed.

Lemma fake_quiet : QuietLaws FakeWorld.
Proof.
  unshelve esplit; [exact (λ k o o', ∃ v, o' = normal k v o)|..].
  - intros k o o' [v ->]. exists v. apply normal_self.
  - apply fake_CreateOrPatch_inv.
  - apply fake_CreateOrPatch_again.
  - apply fake_StatusUpdate_content.
  - apply fake_StatusUpdate_again.
  - intros k o w _. apply fake_Delete_again.
  - done.
  - done.
  - done.
  - intros k o w name. cbn. unfold fake_StatusUpdate. repeat case_match; try done.
    cbn. by rewrite fake_write_env.
  - intros k o w name. cbn. unfold fake_Delete. by repeat case_match.
  - apply fake_CreateOrPatch_env.
Qed.
End fake_laws.
