(* ===== verification/PolicyServerWebhook.v ===== *)
(** * Admission webhook of policy servers ([policyserver_webhook.go]) *)

From S2P Require Import Prelude GoStd Json K8sTypes Concrete Constants PolicyTypes PolicyValidation PolicyServerTypes PolicyWebhook KubeClient FakeCluster.

(** [validationutils.DNS1035LabelMaxLength] and the message of
    [validation.IsNegativeErrorMsg]. *)
Definition DNS1035LabelMaxLength : nat := 63.
Definition IsNegativeErrorMsg : string := "must be greater than or equal to 0".
Definition dockerconfigjson : string := "kubernetes.io/dockerconfigjson".

Section defaulter.
Context `{K8sUtil}.

Definition policyServerDefaulter_Default (obj : AnyObject) : GoError + AnyObject :=
  match obj with
  | OPolicyServer ps =>
      let m := psrv_ObjectMeta ps in
      inr (OPolicyServer
        match om_DeletionTimestamp m with
        | None => psrv_set_ObjectMeta
                    (om_set_Finalizers (AddFinalizer (om_Finalizers m) KubewardenFinalizer) m) ps
        | Some _ => ps
        end)
  | _ => inl (unexpected "a PolicyServer" obj)
  end.
End defaulter.

Section validator.
Context {World : Type} `{K8sUtil, MapRange, KubeClient World}.

(** [v.deploymentsNamespace] *)
Variable deploymentsNamespace : string.

(** The client only reads: the validators are functions of the world. *)
Definition validateImagePullSecret (imagePullSecret : string) (w : World) : option GoError :=
  match Get KSecret (mkNN deploymentsNamespace imagePullSecret) w with
  | inl err => Some (ErrWrap "cannot get spec.ImagePullSecret" err)
  | inr secret =>
      if bool_decide (s_Type secret ≠ dockerconfigjson)
      then Some (ErrNew ("spec.ImagePullSecret secret " +:+ quoted (om_Name (s_Meta secret)) +:+
                         " is not of type kubernetes.io/dockerconfigjson"))
      else None
  end.

Definition validateLimitsAndRequests (limits requests : gmap string Quantity) : ErrorList :=
  let limitFieldPath := Child (NewPath ["spec"]) "limits" in
  let requestFieldPath := Child (NewPath ["spec"]) "requests" in
  collect (λ '(limitName, limitQuantity),
    if (Quantity_Cmp limitQuantity 0 <? 0)%Z
    then [FInvalid (Child limitFieldPath limitName) (Quantity_String limitQuantity)
            IsNegativeErrorMsg] else [])
    (map_range limits) ++
  collect (λ '(requestName, requestQuantity),
    let fieldPath := Child requestFieldPath requestName in
    (if (Quantity_Cmp requestQuantity 0 <? 0)%Z
     then [FInvalid fieldPath (Quantity_String requestQuantity) IsNegativeErrorMsg] else []) ++
    match limits !! requestName with
    | None => []
    | Some limitQuantity =>
        if (0 <? Quantity_Cmp requestQuantity limitQuantity)%Z
        then [FInvalid fieldPath (Quantity_String requestQuantity)
                ("must be less than or equal to " +:+ requestName +:+ " limit of " +:+
                 Quantity_String limitQuantity)] else []
    end)
    (map_range requests).

Definition policyServer_validate (ps : PolicyServer) (w : World) : option GoError :=
  let spec := psrv_Spec ps in
  let allErrs :=
    (if DNS1035LabelMaxLength <? String.length (psrv_Name ps)
     then [FInvalid (Child (NewPath ["metadata"]) "name") (psrv_Name ps)
             "the PolicyServer name cannot be longer than 63 characters"] else []) ++
    (if bool_decide (pspec_ImagePullSecret spec ≠ "")
     then match validateImagePullSecret (pspec_ImagePullSecret spec) w with
          | Some err => [FInvalid (Child (NewPath ["spec"]) "imagePullSecret")
                           (pspec_ImagePullSecret spec) (Error err)]
          | None => []
          end else []) ++
    (match pspec_MinAvailable spec, pspec_MaxUnavailable spec with
     | Some mn, Some mx =>
         [FInvalid (NewPath ["spec"])
            ("minAvailable: " +:+ IntOrString_String mn +:+ ", maxUnavailable: " +:+
             IntOrString_String mx) "minAvailable and maxUnavailable cannot be both set"]
     | _, _ => []
     end) ++
    validateLimitsAndRequests (pspec_Limits spec) (pspec_Requests spec) in
  if length allErrs =? 0 then None else Some (ErrInvalid "PolicyServer" (psrv_Name ps) allErrs).

Definition policyServerValidator_ValidateCreate (obj : AnyObject) (w : World)
    : option GoError :=
  match obj with
  | OPolicyServer ps => policyServer_validate ps w
  | _ => Some (unexpected "a PolicyServer" obj)
  end.
Definition policyServerValidator_ValidateUpdate (_ newObj : AnyObject) (w : World)
    : option GoError :=
  match newObj with
  | OPolicyServer ps => policyServer_validate ps w
  | _ => Some (unexpected "a PolicyServer" newObj)
  end.
Definition policyServerValidator_ValidateDelete (obj : AnyObject) : option GoError :=
  match obj with
  | OPolicyServer _ => None
  | _ => Some (unexpected "a PolicyServer" obj)
  end.
End validator.

(** ** Theorems *)

Section theorems.
Context {World : Type} `{K8sUtil, !K8sUtilLaws, MapRange, KubeClient World}.

(** Limits and requests that make sense together. *)
Definition resources_sound (limits requests : gmap string Quantity) : Prop :=
  map_Forall (λ _ q, 0 ≤ q)%Z limits ∧ map_Forall (λ _ q, 0 ≤ q)%Z requests ∧
  ∀ name q l, requests !! name = Some q → limits !! name = Some l → (q ≤ l)%Z.

Lemma collect_range_nil {A E} (f : string * A → list E) (m : gmap string A) :
  collect f (map_range m) = [] ↔ ∀ k x, m !! k = Some x → f (k, x) = [].
Proof.
  rewrite collect_nil, Forall_forall. setoid_rewrite <-elem_of_map_range.
  split; [naive_solver|]. intros Hf [k x]. apply Hf.
Qed.

Lemma Quantity_Cmp_nonneg q : (Quantity_Cmp q 0 <? 0)%Z = false ↔ (0 ≤ q)%Z.
Proof. rewrite Z.ltb_ge. pose proof (Quantity_Cmp_lt q 0). lia. Qed.
Lemma Quantity_Cmp_le q l : (0 <? Quantity_Cmp q l)%Z = false ↔ (q ≤ l)%Z.
Proof. rewrite Z.ltb_ge. pose proof (Quantity_Cmp_gt q l). lia. Qed.

Lemma guard_nil {E} (b : bool) (e : E) : (if b then [e] else []) = [] ↔ b = false.
Proof. by destruct b. Qed.

Lemma validateLimitsAndRequests_nil limits requests :
  validateLimitsAndRequests limits requests = [] ↔ resources_sound limits requests.
Proof.
  unfold validateLimitsAndRequests, resources_sound, map_Forall.
  rewrite app_nil_iff, !collect_range_nil.
  setoid_rewrite app_nil_iff. setoid_rewrite guard_nil. setoid_rewrite Quantity_Cmp_nonneg.
  assert (∀ name q, match limits !! name with
    | None => []
    | Some l => if (0 <? Quantity_Cmp q l)%Z
        then [FInvalid (Child (Child (NewPath ["spec"]) "requests") name) (Quantity_String q)
                ("must be less than or equal to " +:+ name +:+ " limit of " +:+
                 Quantity_String l)] else []
    end = [] ↔ ∀ l, limits !! name = Some l → (q ≤ l)%Z) as Hlim.
  { intros name q. destruct (limits !! name) as [l|]; [|naive_solver].
    rewrite guard_nil, Quantity_Cmp_le. naive_solver. }
  setoid_rewrite Hlim. split.
  - intros [Hl Hr]. split_and!; [done|by intros n q [? _]%Hr|].
    intros n q l [_ Hq]%Hr. apply Hq.
  - intros (Hl & Hr & Hle). split; [done|]. intros name q Hq. split; eauto.
Qed.

(** The image pull secret is unset, or names a docker configuration secret
    of the deployments namespace. *)
Definition pull_secret_ok (ns : string) (name : string) (w : World) : Prop :=
  name = "" ∨ ∃ s, Get KSecret (mkNN ns name) w = inr s ∧ s_Type s = dockerconfigjson.

Lemma validateImagePullSecret_None ns name w :
  validateImagePullSecret ns name w = None ↔
  ∃ s, Get KSecret (mkNN ns name) w = inr s ∧ s_Type s = dockerconfigjson.
Proof.
  unfold validateImagePullSecret.
  destruct (Get KSecret (mkNN ns name) w) as [e|s]; [naive_solver|].
  case_bool_decide as Ht; [naive_solver|]. split; [|done]. intros _.
  exists s. split; [done|]. by destruct (decide (s_Type s = dockerconfigjson)).
Qed.

Lemma pull_secret_nil ns name w (mk : GoError → FieldError) :
  (if bool_decide (name ≠ "")
   then match validateImagePullSecret ns name w with Some err => [mk err] | None => [] end
   else []) = [] ↔ pull_secret_ok ns name w.
Proof.
  unfold pull_secret_ok. rewrite <-validateImagePullSecret_None.
  case_bool_decide; [|destruct (decide (name = "")); naive_solver].
  destruct (validateImagePullSecret ns name w); naive_solver.
Qed.

Lemma invalid_None {A E} (errs : list E) (e : A) :
  (if length errs =? 0 then None else Some e) = None ↔ errs = [].
Proof. rewrite length_eqb_0. case_bool_decide; naive_solver. Qed.

(** (C30) A policy server is admitted, on creation and on update, exactly when
    its name fits 63 characters, its image pull secret is unset or a docker
    configuration secret of the deployments namespace, at most one of
    minAvailable and maxUnavailable is set, no limit or request is negative
    and no request is above its limit. *)
Theorem policyServer_validate_accepts (ns : string) (old : AnyObject) (ps : PolicyServer)
    (w : World) :
  policyServerValidator_ValidateUpdate ns old (OPolicyServer ps) w =
    policyServerValidator_ValidateCreate ns (OPolicyServer ps) w ∧
  (policyServerValidator_ValidateCreate ns (OPolicyServer ps) w = None ↔
   String.length (psrv_Name ps) ≤ 63 ∧
   pull_secret_ok ns (pspec_ImagePullSecret (psrv_Spec ps)) w ∧
   (pspec_MinAvailable (psrv_Spec ps) = None ∨ pspec_MaxUnavailable (psrv_Spec ps) = None) ∧
   resources_sound (pspec_Limits (psrv_Spec ps)) (pspec_Requests (psrv_Spec ps))).
Proof.
  split; [done|]. unfold policyServerValidator_ValidateCreate, policyServer_validate.
  rewrite invalid_None, !app_nil_iff, guard_nil, Nat.ltb_ge, validateLimitsAndRequests_nil.
  apply and_iff_compat_l. rewrite pull_secret_nil.
  apply and_iff_compat_l, and_iff_compat_r.
  destruct (pspec_MinAvailable _), (pspec_MaxUnavailable _); naive_solver.
Qed.
End theorems.

(** ** A concrete request *)

Section witnesses.
#[local] Existing Instance concrete_util.
#[local] Existing Instance concrete_range.
#[local] Existing Instance fake_client.

Definition budgets_server : PolicyServer :=
  mkPolicyServer (named_meta "" "default")
    (mkPolicyServerSpec "ghcr.io/kubewarden/policy-server" 1 (Some (IOSInt 1)) None
       None [] "" "" None ∅ "" (mkPolicyServerSecurity None None) JNull
       {[ "cpu" := 2%Z ]} {[ "cpu" := 1%Z ]} [])
    (mkPolicyServerStatus []).

Lemma policyServer_validate_accepts_witness :
  policyServerValidator_ValidateUpdate "kubewarden" (OPolicyServer budgets_server)
    (OPolicyServer budgets_server) (fake_world empty_store) = None.
Proof.
  destruct (@policyServer_validate_accepts FakeWorld concrete_util concrete_util_laws
    concrete_range fake_client "kubewarden" (OPolicyServer budgets_server) budgets_server
    (fake_world empty_store)) as [-> _].
  vm_compute. reflexivity.
Defined.
End witnesses.
