(* ===== verification/ConfigMap.v ===== *)
(** * The policy server's ConfigMap ([policyserver_controller_configmap.go])

    The configuration a policy server reads: one JSON entry per policy, under
    the policy's unique name, and the sources. Entries are encoded and decoded
    field by field as [encoding/json] does with the struct tags of the
    sources; a decoding error is a value, the callers discard what was decoded
    before it. Also the readers of the ConfigMap in [policy_subreconciler.go]. *)

From S2P Require Import Prelude GoStd Json K8sTypes Concrete Constants PolicyTypes PolicyValidation PolicyServerTypes PolicyWebhook KubeClient FakeCluster.
From stdpp Require Import sorting.
From Stdlib Require Import Ascii.

Definition dataType : string := "Data".

Record policyGroupMemberWithContext := mkConfigMember {
  cgm_Module : string;
  cgm_Settings : RawExtension;
  cgm_ContextAwareResources : list ContextAwareResource;
}.

Record policyServerConfigEntry := mkConfigEntry {
  ce_NamespacedName : NamespacedName;
  ce_Module : string;
  ce_PolicyMode : string;
  ce_AllowedToMutate : bool;
  ce_ContextAwareResources : list ContextAwareResource;
  ce_Settings : RawExtension;
  ce_Policies : gmap string policyGroupMemberWithContext;
  ce_Expression : string;
  ce_Message : string;
}.
Abbreviation policyConfigEntryMap := (gmap string policyServerConfigEntry).

Record policyServerSourceAuthority := mkSourceAuthority { sa_Type : string; sa_Data : string }.
Record policyServerSourcesEntry := mkSourcesEntry {
  se_InsecureSources : list string;
  se_SourceAuthorities : gmap string (list policyServerSourceAuthority);
}.

(** ** Encoding *)

(** A Go map is printed with its keys sorted. *)
Definition key_le {A} (x y : string * A) : Prop := String.le x.1 y.1.
Definition map_json {A} (f : A → json) (m : gmap string A) : json :=
  JObj (prod_map id f <$> merge_sort key_le (map_to_list m)).

(** A member with the option [omitempty]. *)
Definition omitempty (empty : bool) (name : string) (v : json) : list (string * json) :=
  if empty then [] else [(name, v)].

Definition NamespacedName_json (n : NamespacedName) : json :=
  JObj [("Namespace", JStr (nn_Namespace n)); ("Name", JStr (nn_Name n))].
Definition ContextAwareResource_json (r : ContextAwareResource) : json :=
  JObj [("apiVersion", JStr (car_APIVersion r)); ("kind", JStr (car_Kind r))].
Definition resources_json (l : list ContextAwareResource) : list (string * json) :=
  omitempty (is_nil l) "contextAwareResources" (JArr (ContextAwareResource_json <$> l)).
(** [RawExtension] is a struct, so [omitempty] does not apply: a nil one is
    printed as null. *)
Definition RawExtension_json (r : RawExtension) : json := default JNull r.

Definition member_json (m : policyGroupMemberWithContext) : json :=
  JObj ([("module", JStr (cgm_Module m)); ("settings", RawExtension_json (cgm_Settings m))] ++
        resources_json (cgm_ContextAwareResources m)).

Definition policyServerConfigEntry_MarshalJSON (p : policyServerConfigEntry) : json :=
  if bool_decide (0 < size (ce_Policies p)) then
    JObj [("namespacedName", NamespacedName_json (ce_NamespacedName p));
          ("policyMode", JStr (ce_PolicyMode p));
          ("policies", map_json member_json (ce_Policies p));
          ("expression", JStr (ce_Expression p));
          ("message", JStr (ce_Message p))]
  else
    JObj ([("namespacedName", NamespacedName_json (ce_NamespacedName p));
           ("module", JStr (ce_Module p));
           ("policyMode", JStr (ce_PolicyMode p));
           ("allowedToMutate", JBool (ce_AllowedToMutate p))] ++
          resources_json (ce_ContextAwareResources p) ++
          [("settings", RawExtension_json (ce_Settings p))]).

Definition authority_json (a : policyServerSourceAuthority) : json :=
  JObj [("type", JStr (sa_Type a)); ("data", JStr (sa_Data a))].
Definition sources_json (s : policyServerSourcesEntry) : json :=
  JObj (omitempty (is_nil (se_InsecureSources s)) "insecure_sources"
          (JArr (JStr <$> se_InsecureSources s)) ++
        omitempty (bool_decide (size (se_SourceAuthorities s) = 0)) "source_authorities"
          (map_json (λ l, JArr (authority_json <$> l)) (se_SourceAuthorities s))).

(** ** Decoding *)

(** Keys match field names up to case folding; two characters outside ASCII
    fold to letters. *)
Definition to_lower (c : ascii) : ascii :=
  if is_upper c then Ascii.ascii_of_nat (Ascii.nat_of_ascii c + 32) else c.
Fixpoint fold_chars (l : list ascii) : list ascii :=
  match l with
  | [] => []
  | c :: r =>
      match GoStd.strip_prefix [byte 197; byte 191] l,
            GoStd.strip_prefix [byte 226; byte 132; byte 170] l with
      | Some _, _ => match r with _ :: r' => "s"%char :: fold_chars r' | [] => [] end
      | None, Some _ => match r with _ :: _ :: r' => "k"%char :: fold_chars r' | _ => [] end
      | None, None => to_lower c :: fold_chars r
      end
  end.
Definition field_is (name key : string) : bool :=
  bool_decide (fold_chars (chars key) = fold_chars (chars name)).

Definition type_error : GoError := ErrNew "json: cannot unmarshal value into Go value".

(** A decoder updates the value that is there: null leaves a scalar or a
    struct alone and clears a slice or a map. *)
Definition dec_string (old : string) (j : json) : GoError + string :=
  match j with JStr s => inr s | JNull => inr old | _ => inl type_error end.
Definition dec_bool (old : bool) (j : json) : GoError + bool :=
  match j with JBool b => inr b | JNull => inr old | _ => inl type_error end.
(** [RawExtension.UnmarshalJSON] ignores null. *)
Definition dec_raw (old : RawExtension) (j : json) : GoError + RawExtension :=
  match j with JNull => inr old | _ => inr (Some j) end.

Definition sum_map {A B} (f : A → B) (x : GoError + A) : GoError + B :=
  match x with inl e => inl e | inr a => inr (f a) end.

(** The members of an object, one after the other. *)
Fixpoint dec_members {A} (step : string → json → A → GoError + A) (l : list (string * json))
    (a : A) : GoError + A :=
  match l with
  | [] => inr a
  | (k, v) :: l => match step k v a with inl e => inl e | inr a => dec_members step l a end
  end.
Definition dec_struct {A} (step : string → json → A → GoError + A) (old : A) (j : json)
    : GoError + A :=
  match j with
  | JObj l => dec_members step l old
  | JNull => inr old
  | _ => inl type_error
  end.
Definition dec_map {A} (dec : json → GoError + A) (old : gmap string A) (j : json)
    : GoError + gmap string A :=
  match j with
  | JObj l => dec_members (λ k v m, sum_map (λ x, <[k := x]> m) (dec v)) l old
  | JNull => inr ∅
  | _ => inl type_error
  end.
Fixpoint dec_elems {A} (dec : json → GoError + A) (l : list json) : GoError + list A :=
  match l with
  | [] => inr []
  | v :: l => match dec v with inl e => inl e | inr x => sum_map (cons x) (dec_elems dec l) end
  end.
Definition dec_slice {A} (dec : json → GoError + A) (j : json) : GoError + list A :=
  match j with
  | JArr l => dec_elems dec l
  | JNull => inr []
  | _ => inl type_error
  end.

Definition dec_NamespacedName : NamespacedName → json → GoError + NamespacedName :=
  dec_struct (λ k v n,
    if field_is "Namespace" k
    then sum_map (λ s, mkNN s (nn_Name n)) (dec_string (nn_Namespace n) v)
    else if field_is "Name" k
    then sum_map (λ s, mkNN (nn_Namespace n) s) (dec_string (nn_Name n) v)
    else inr n).

Definition dec_ContextAwareResource : json → GoError + ContextAwareResource :=
  dec_struct (λ k v r,
    if field_is "apiVersion" k
    then sum_map (λ s, mkContextAwareResource s (car_Kind r)) (dec_string (car_APIVersion r) v)
    else if field_is "kind" k
    then sum_map (λ s, mkContextAwareResource (car_APIVersion r) s) (dec_string (car_Kind r) v)
    else inr r) (mkContextAwareResource "" "").

Definition dec_member : json → GoError + policyGroupMemberWithContext :=
  dec_struct (λ k v m,
    if field_is "module" k
    then sum_map (λ s, mkConfigMember s (cgm_Settings m) (cgm_ContextAwareResources m))
           (dec_string (cgm_Module m) v)
    else if field_is "settings" k
    then sum_map (λ s, mkConfigMember (cgm_Module m) s (cgm_ContextAwareResources m))
           (dec_raw (cgm_Settings m) v)
    else if field_is "contextAwareResources" k
    then sum_map (mkConfigMember (cgm_Module m) (cgm_Settings m))
           (dec_slice dec_ContextAwareResource v)
    else inr m) (mkConfigMember "" None []).

Definition empty_entry : policyServerConfigEntry :=
  mkConfigEntry (mkNN "" "") "" "" false [] None ∅ "" "".

Definition entry_field (k : string) (v : json) (e : policyServerConfigEntry)
    : GoError + policyServerConfigEntry :=
  let '(mkConfigEntry nn mo pm al ca se po ex ms) := e in
  if field_is "namespacedName" k
  then sum_map (λ x, mkConfigEntry x mo pm al ca se po ex ms) (dec_NamespacedName nn v)
  else if field_is "module" k
  then sum_map (λ x, mkConfigEntry nn x pm al ca se po ex ms) (dec_string mo v)
  else if field_is "policyMode" k
  then sum_map (λ x, mkConfigEntry nn mo x al ca se po ex ms) (dec_string pm v)
  else if field_is "allowedToMutate" k
  then sum_map (λ x, mkConfigEntry nn mo pm x ca se po ex ms) (dec_bool al v)
  else if field_is "contextAwareResources" k
  then sum_map (λ x, mkConfigEntry nn mo pm al x se po ex ms)
         (dec_slice dec_ContextAwareResource v)
  else if field_is "settings" k
  then sum_map (λ x, mkConfigEntry nn mo pm al ca x po ex ms) (dec_raw se v)
  else if field_is "policies" k
  then sum_map (λ x, mkConfigEntry nn mo pm al ca se x ex ms) (dec_map dec_member po v)
  else if field_is "expression" k
  then sum_map (λ x, mkConfigEntry nn mo pm al ca se po x ms) (dec_string ex v)
  else if field_is "message" k
  then sum_map (λ x, mkConfigEntry nn mo pm al ca se po ex x) (dec_string ms v)
  else inr e.

Definition policyServerConfigEntry_UnmarshalJSON (b : json)
    : GoError + policyServerConfigEntry :=
  match dec_struct entry_field empty_entry b with
  | inl err => inl (ErrJoin [ErrNew "failed to unmarshal policy server config entry"; err])
  | inr p =>
      if bool_decide (size (ce_Policies p) = 0) && bool_decide (ce_Module p = "")
      then inl (ErrNew "policies JSON should have an URL or a list of policies to be evaluated")
      else if bool_decide (size (ce_Policies p) ≠ 0) && bool_decide (ce_Module p ≠ "")
      then inl (ErrNew ("policies JSON should not have an URL and a list of policies " +:+
                        "to be evaluated at the same time"))
      else inr p
  end.

(** [json.Unmarshal] of the text into a map of entries. *)
Definition unmarshal_policies (text : string) : GoError + policyConfigEntryMap :=
  match Unmarshal text with
  | None => inl (ErrNew "invalid JSON")
  | Some j => dec_map policyServerConfigEntry_UnmarshalJSON ∅ j
  end.

Definition getPolicyMapFromConfigMap (configMap : ConfigMap) : GoError + policyConfigEntryMap :=
  match cm_Data configMap !! PolicyServerConfigPoliciesEntry with
  | Some policies =>
      match unmarshal_policies policies with
      | inl err => inl (ErrJoin [ErrNew "failed to unmarshal policy mapping"; err])
      | inr policyMap => inr policyMap
      end
  | None => inr ∅
  end.

(** ** Building the configuration *)

Definition buildPolicyGroupMembersWithContext (policies : PolicyGroupMembersWithContext)
    : gmap string policyGroupMemberWithContext :=
  (λ p, mkConfigMember (pgm_Module (pgmc_PolicyGroupMember p))
          (pgm_Settings (pgmc_PolicyGroupMember p)) (pgmc_ContextAwareResources p)) <$> policies.

(** The body of the loop of [buildPoliciesMap]. *)
Definition config_entry (p : AnyPolicy) : policyServerConfigEntry :=
  let base members expression message :=
    mkConfigEntry (mkNN (GetNamespace p) (GetName p)) (GetModule p) (GetPolicyMode p)
      (IsMutating p) (GetContextAwareResources p) (GetSettings p) members expression message in
  match as_PolicyGroup p with
  | Some (members, expression, message) =>
      base (buildPolicyGroupMembersWithContext members) expression message
  | None => base ∅ "" ""
  end.

Definition buildPoliciesMap (admissionPolicies : list AnyPolicy) : policyConfigEntryMap :=
  fold_left (λ policies p, <[GetUniqueName p := config_entry p]> policies) admissionPolicies ∅.

Definition buildSourcesMap (ps : PolicyServer) : policyServerSourcesEntry :=
  mkSourcesEntry (default [] (pspec_InsecureSources (psrv_Spec ps)))
    ((λ certs : list string, mkSourceAuthority dataType <$> certs) <$> pspec_SourceAuthorities (psrv_Spec ps)).

Definition policies_text (policies : list AnyPolicy) : string :=
  Marshal (map_json policyServerConfigEntry_MarshalJSON (buildPoliciesMap policies)).
Definition sources_text (ps : PolicyServer) : string := Marshal (sources_json (buildSourcesMap ps)).

Section requests.
Context `{MapRange}.

Definition toAdmissionPolicyReconcileRequests (e : policyConfigEntryMap) : list Request :=
  collect (λ '(_, policy),
    if bool_decide (nn_Namespace (ce_NamespacedName policy) = "") then []
    else [mkRequest (mkNN (nn_Namespace (ce_NamespacedName policy))
                       (nn_Name (ce_NamespacedName policy)))]) (map_range e).

Definition toClusterAdmissionPolicyReconcileRequests (e : policyConfigEntryMap)
    : list Request :=
  collect (λ '(_, policy),
    if bool_decide (nn_Namespace (ce_NamespacedName policy) ≠ "") then []
    else [mkRequest (mkNN "" (nn_Name (ce_NamespacedName policy)))]) (map_range e).
End requests.

Section reconcile.
Context {World : Type} `{K8sUtil, KubeClient World}.

Definition updateConfigMapData (cfg : ConfigMap) (ps : PolicyServer)
    (policies : list AnyPolicy) : M World ConfigMap :=
  let data := {[ PolicyServerConfigPoliciesEntry := policies_text policies;
                 PolicyServerConfigSourcesEntry := sources_text ps ]} in
  let meta := om_set_Labels {[ PolicyServerLabelKey := psrv_Name ps ]} (cm_Meta cfg) in
  match SetOwnerReference (psrv_owner_ref ps) (om_OwnerReferences meta) with
  | inl err =>
      fail (ErrJoin [ErrNew "failed to set policy server configmap owner reference"; err])
  | inr owners => mret (mkConfigMap (om_set_OwnerReferences owners meta) data)
  end.

Definition reconcilePolicyServerConfigMap (r : PolicyServerReconciler) (ps : PolicyServer)
    (policies : list AnyPolicy) : M World unit :=
  let cfg := mkConfigMap (named_meta (r_DeploymentsNamespace r) (NameWithPrefix ps)) ∅ in
  wrap_err (ErrWrap "cannot create or update PolicyServer ConfigMap")
    (CreateOrPatch KConfigMap cfg (λ cfg, updateConfigMapData cfg ps policies)) ;;
  mret tt.

Definition policyServerConfigMapVersion (r : PolicyServerReconciler) (ps : PolicyServer)
    : M World string :=
  cfg ← wrap_err (ErrWrap "cannot retrieve existing policies ConfigMap")
          (read (Get KConfigMap (mkNN (r_DeploymentsNamespace r) (NameWithPrefix ps))));
  mret (om_ResourceVersion (cm_Meta (cfg : ConfigMap))).
End reconcile.

(** ** Reading the configuration *)

Definition isPolicyInConfigMap (configMap : ConfigMap) (policyName : string) : bool :=
  match getPolicyMapFromConfigMap configMap with
  | inl _ => false
  | inr policies => bool_decide (is_Some (policies !! policyName))
  end.

(** ** Lookups in the built map *)

Lemma buildPoliciesMap_app l p :
  buildPoliciesMap (l ++ [p]) = <[GetUniqueName p := config_entry p]> (buildPoliciesMap l).
Proof. unfold buildPoliciesMap. by rewrite fold_left_app. Qed.

(** The entry of a name is that of the last policy with the name. *)
Lemma buildPoliciesMap_lookup l name :
  buildPoliciesMap l !! name =
  config_entry <$> last (filter (λ p : AnyPolicy, GetUniqueName p = name) l).
Proof.
  induction l as [|p l IH] using rev_ind; [done|].
  rewrite buildPoliciesMap_app, filter_app.
  destruct (decide (GetUniqueName p = name)) as [<-|Hne].
  - by rewrite lookup_insert_eq, filter_cons_True, filter_nil, last_snoc.
  - by rewrite lookup_insert_ne, filter_cons_False, filter_nil, app_nil_r.
Qed.

Lemma last_elem {A} (l : list A) x : last l = Some x → x ∈ l.
Proof. intros [l' ->]%last_Some. set_solver. Qed.

Lemma buildPoliciesMap_elem l name e :
  buildPoliciesMap l !! name = Some e →
  ∃ p, p ∈ l ∧ GetUniqueName p = name ∧ e = config_entry p.
Proof.
  rewrite buildPoliciesMap_lookup, fmap_Some. intros (p & Hp%last_elem & ->).
  rewrite list_elem_of_filter in Hp. naive_solver.
Qed.

Lemma NoDup_filter_last {A B} `{EqDecision B} (f : A → B) l x :
  NoDup (f <$> l) → x ∈ l → last (filter (λ y, f y = f x) l) = Some x.
Proof.
  induction l as [|y l IH]; [set_solver|]. rewrite fmap_cons, NoDup_cons, filter_cons.
  intros [Hy Hnd] [->|Hx]%elem_of_cons.
  - rewrite decide_True by done. assert (filter (λ z, f z = f y) l = []) as ->; [|done].
    apply elem_of_nil_inv. intros z [Heq Hz]%list_elem_of_filter.
    apply Hy. rewrite <-Heq. by apply list_elem_of_fmap_2.
  - rewrite decide_False; [by apply IH|].
    intros Heq. apply Hy. rewrite Heq. by apply list_elem_of_fmap_2.
Qed.

(** ** The round trip *)

(** Evaluate the comparisons of field names. *)
Ltac eval_fields :=
  repeat match goal with
  | |- context [field_is ?a ?b] =>
      let v := eval vm_compute in (field_is a b) in change (field_is a b) with v; cbv iota
  end.

Section decode_lemmas.
Context {A : Type} (dec : json → GoError + A) (enc : A → json).

Lemma dec_elems_enc l :
  (∀ x, x ∈ l → dec (enc x) = inr x) → dec_elems dec (enc <$> l) = inr l.
Proof.
  induction l as [|x l IH]; intros Hl; [done|]. rewrite fmap_cons. cbn [dec_elems].
  rewrite Hl by set_solver. rewrite IH by set_solver. done.
Qed.

Abbreviation insert_step := (λ k v m, sum_map (λ x, <[k := x]> m) (dec v)).

Lemma dec_members_enc (l : list (string * A)) (m : gmap string A) :
  (∀ k x, (k, x) ∈ l → dec (enc x) = inr x) →
  dec_members insert_step (prod_map id enc <$> l) m
  = inr (fold_left (λ m kv, <[kv.1 := kv.2]> m) l m).
Proof.
  revert m. induction l as [|[k x] l IH]; intros m Hl; [done|].
  rewrite fmap_cons. cbn [prod_map fst snd id dec_members].
  rewrite (Hl k x) by set_solver. simpl. apply IH. set_solver.
Qed.

Lemma dec_members_ok (l : list (string * A)) (m m' : gmap string A) :
  dec_members insert_step (prod_map id enc <$> l) m = inr m' →
  ∀ k x, (k, x) ∈ l → ∃ y, dec (enc x) = inr y.
Proof.
  revert m. induction l as [|[k x] l IH]; intros m; [set_solver|].
  rewrite fmap_cons. cbn [prod_map fst snd id dec_members].
  destruct (dec (enc x)) as [e|y] eqn:Hx; simpl; [done|].
  intros Hrun k' x' [[= -> ->]|Hin]%elem_of_cons; eauto.
Qed.

Lemma fold_insert_permutation (l : list (string * A)) (m : gmap string A) :
  l ≡ₚ map_to_list m → fold_left (λ m kv, <[kv.1 := kv.2]> m) l ∅ = m.
Proof.
  intros Hl. rewrite <-fold_left_rev_right.
  transitivity (list_to_map (M := gmap string A) (rev l)); [done|].
  transitivity (list_to_map (M := gmap string A) (map_to_list m));
    [|apply list_to_map_to_list].
  apply list_to_map_proper.
  - rewrite <-Permutation_rev, Hl. apply NoDup_fst_map_to_list.
  - by rewrite <-Permutation_rev.
Qed.

Lemma sorted_members (m : gmap string A) :
  merge_sort key_le (map_to_list m) ≡ₚ map_to_list m.
Proof. apply merge_sort_Permutation. Qed.

Lemma dec_map_enc (m : gmap string A) :
  (∀ k x, m !! k = Some x → dec (enc x) = inr x) →
  dec_map dec ∅ (map_json enc m) = inr m.
Proof.
  intros Hm. unfold map_json, dec_map. rewrite dec_members_enc.
  - by rewrite (fold_insert_permutation _ m) by apply sorted_members.
  - intros k x. rewrite sorted_members, elem_of_map_to_list. apply Hm.
Qed.

Lemma dec_map_ok (m m' : gmap string A) :
  dec_map dec ∅ (map_json enc m) = inr m' →
  ∀ k x, m !! k = Some x → ∃ y, dec (enc x) = inr y.
Proof.
  unfold map_json, dec_map. intros Hm k x Hk. eapply dec_members_ok; [apply Hm|].
  by rewrite sorted_members, elem_of_map_to_list.
Qed.

Lemma map_json_ok (m : gmap string A) :
  (∀ k x, m !! k = Some x → json_ok (enc x) = true) → json_ok (map_json enc m) = true.
Proof.
  intros Hm. unfold map_json. cbn [json_ok].
  apply forallb_forall. intros [k j]. rewrite <-list_elem_of_In, list_elem_of_fmap.
  intros ([k' x] & [= -> ->] & Hin).
  rewrite sorted_members, elem_of_map_to_list in Hin. simpl. eauto.
Qed.
End decode_lemmas.

(** Raw settings that survive: valid JSON, and not the document null, which
    reads back as no settings. *)
Definition settings_ok (s : RawExtension) : bool :=
  match s with
  | None => true
  | Some j => json_ok j && negb (match j with JNull => true | _ => false end)
  end.

Lemma dec_raw_json s : settings_ok s = true → dec_raw None (RawExtension_json s) = inr s.
Proof. destruct s as [[]|]; simpl; try done. Qed.
Lemma RawExtension_json_ok s : settings_ok s = true → json_ok (RawExtension_json s) = true.
Proof. destruct s as [j|]; simpl; [|done]. by intros [? _]%andb_prop. Qed.

Lemma dec_resource r : dec_ContextAwareResource (ContextAwareResource_json r) = inr r.
Proof.
  unfold dec_ContextAwareResource, ContextAwareResource_json, dec_struct, dec_members.
  eval_fields. by destruct r.
Qed.
Lemma dec_resources l :
  dec_slice dec_ContextAwareResource (JArr (ContextAwareResource_json <$> l)) = inr l.
Proof. unfold dec_slice. apply dec_elems_enc. auto using dec_resource. Qed.
Lemma resources_json_ok l : json_ok (JObj (resources_json l)) = true.
Proof.
  unfold resources_json, omitempty. destruct (is_nil l); [done|]. cbn [json_ok forallb snd].
  rewrite andb_true_r. apply forallb_forall. intros j. rewrite <-list_elem_of_In.
  by intros (r & -> & _)%list_elem_of_fmap.
Qed.

Lemma dec_member_json m :
  settings_ok (cgm_Settings m) = true → dec_member (member_json m) = inr m.
Proof.
  destruct m as [mo se ca]; simpl. intros Hse.
  unfold dec_member, member_json, dec_struct, resources_json, omitempty.
  destruct ca as [|c ca]; cbn [is_nil app dec_members cgm_Module cgm_Settings
    cgm_ContextAwareResources]; eval_fields; simpl dec_string; unfold sum_map;
    cbn [cgm_Module cgm_Settings cgm_ContextAwareResources];
    rewrite dec_raw_json by done; [done|].
  cbn [cgm_Module cgm_Settings cgm_ContextAwareResources]. by rewrite dec_resources.
Qed.
Lemma member_json_ok m : settings_ok (cgm_Settings m) = true → json_ok (member_json m) = true.
Proof.
  intros Hse. pose proof (resources_json_ok (cgm_ContextAwareResources m)) as Hr.
  cbn [json_ok] in Hr. unfold member_json. cbn [json_ok].
  rewrite forallb_app, Hr, andb_true_r. cbn [forallb snd json_ok].
  by rewrite RawExtension_json_ok.
Qed.

(** What the encoding of an entry keeps: a group has members and nothing of a
    single policy; anything else has no group fields, unless it cannot be read
    back anyway. *)
Record entry_clean (e : policyServerConfigEntry) : Prop := {
  clean_settings : settings_ok (ce_Settings e) = true;
  clean_members k m : ce_Policies e !! k = Some m → settings_ok (cgm_Settings m) = true;
  clean_group : ce_Policies e ≠ ∅ →
    ce_Module e = "" ∧ ce_AllowedToMutate e = false ∧ ce_ContextAwareResources e = [] ∧
    ce_Settings e = None;
  clean_single : ce_Policies e = ∅ →
    ce_Module e ≠ "" → ce_Expression e = "" ∧ ce_Message e = "";
}.

(** An entry [UnmarshalJSON] can accept. *)
Definition entry_readable (e : policyServerConfigEntry) : Prop :=
  ce_Policies e ≠ ∅ ∨ ce_Module e ≠ "".

Lemma MarshalJSON_ok e :
  entry_clean e → json_ok (policyServerConfigEntry_MarshalJSON e) = true.
Proof.
  intros [Hs Hm _ _]. unfold policyServerConfigEntry_MarshalJSON. case_if.
  - cbn [json_ok forallb snd]. rewrite map_json_ok; [done|]. eauto using member_json_ok.
  - pose proof (resources_json_ok (ce_ContextAwareResources e)) as Hr. cbn [json_ok] in Hr |- *.
    rewrite !forallb_app, Hr. cbn [forallb snd json_ok]. by rewrite RawExtension_json_ok.
Qed.

(** The decoded struct, before the checks of [UnmarshalJSON]. *)
Lemma dec_group_entry nn pm po ex ms :
  (∀ k m, po !! k = Some m → settings_ok (cgm_Settings m) = true) →
  dec_struct entry_field empty_entry
    (JObj [("namespacedName", NamespacedName_json nn); ("policyMode", JStr pm);
           ("policies", map_json member_json po); ("expression", JStr ex);
           ("message", JStr ms)])
  = inr (mkConfigEntry nn "" pm false [] None po ex ms).
Proof.
  intros Hpo. unfold dec_struct, empty_entry, entry_field, dec_members.
  eval_fields. unfold dec_NamespacedName, NamespacedName_json, dec_struct, dec_members.
  eval_fields. cbn [dec_string sum_map nn_Namespace nn_Name].
  rewrite dec_map_enc by eauto using dec_member_json. by destruct nn.
Qed.

Lemma dec_single_entry nn mo pm al ca se :
  settings_ok se = true →
  dec_struct entry_field empty_entry
    (JObj ([("namespacedName", NamespacedName_json nn); ("module", JStr mo);
            ("policyMode", JStr pm); ("allowedToMutate", JBool al)] ++
           resources_json ca ++ [("settings", RawExtension_json se)]))
  = inr (mkConfigEntry nn mo pm al ca se ∅ "" "").
Proof.
  intros Hse. unfold dec_struct, empty_entry, resources_json, omitempty.
  destruct ca as [|c ca]; cbn [is_nil app dec_members]; unfold entry_field; eval_fields;
    unfold dec_NamespacedName, NamespacedName_json, dec_struct, dec_members; eval_fields;
    cbn [dec_string dec_bool sum_map nn_Namespace nn_Name];
    rewrite ?dec_resources; cbn [sum_map]; rewrite dec_raw_json by done; by destruct nn.
Qed.

Lemma UnmarshalJSON_MarshalJSON e :
  entry_clean e → entry_readable e →
  policyServerConfigEntry_UnmarshalJSON (policyServerConfigEntry_MarshalJSON e) = inr e.
Proof.
  destruct e as [nn mo pm al ca se po ex ms]. intros [Hs Hm Hg H1] Hr; simpl in *.
  unfold policyServerConfigEntry_UnmarshalJSON, policyServerConfigEntry_MarshalJSON.
  cbn [ce_Policies ce_Module ce_NamespacedName ce_PolicyMode ce_AllowedToMutate
       ce_ContextAwareResources ce_Settings ce_Expression ce_Message].
  destruct (decide (po = ∅)) as [->|Hpo].
  - destruct Hr as [?|Hmo]; [done|]. destruct H1 as [-> ->]; [done..|].
    rewrite map_size_empty, (bool_decide_eq_false_2 (0 < 0)) by lia. cbv iota.
    rewrite dec_single_entry by done. cbn [ce_Policies ce_Module] in *.
    by rewrite map_size_empty, (bool_decide_eq_false_2 (mo = "")) by done.
  - destruct Hg as (-> & -> & -> & ->); [done|].
    assert (size po ≠ 0) as Hsz by (by rewrite map_size_empty_iff).
    rewrite bool_decide_eq_true_2 by lia.
    rewrite dec_group_entry by done.
    cbn [ce_Policies ce_Module].
    by rewrite (bool_decide_eq_false_2 (size po = 0)), andb_false_r by done.
Qed.

Lemma UnmarshalJSON_unreadable e :
  entry_clean e → ¬ entry_readable e →
  ∃ err, policyServerConfigEntry_UnmarshalJSON (policyServerConfigEntry_MarshalJSON e) = inl err.
Proof.
  destruct e as [nn mo pm al ca se po ex ms]. intros [Hs _ _ _] Hr; simpl in *.
  unfold entry_readable in Hr. cbn in Hr.
  assert (po = ∅) as -> by (destruct (decide (po = ∅)); tauto).
  assert (mo = "") as -> by (destruct (decide (mo = "")); tauto).
  unfold policyServerConfigEntry_UnmarshalJSON, policyServerConfigEntry_MarshalJSON.
  cbn [ce_Policies ce_Module ce_NamespacedName ce_PolicyMode ce_AllowedToMutate
       ce_ContextAwareResources ce_Settings ce_Expression ce_Message].
  rewrite map_size_empty, (bool_decide_eq_false_2 (0 < 0)) by lia. cbv iota. rewrite dec_single_entry by done.
  by eexists.
Qed.

(** ** The configuration of a list of policies *)

(** The raw settings of a policy, and of a group's members. *)
Definition policy_settings_ok (p : AnyPolicy) : Prop :=
  settings_ok (GetSettings p) = true ∧
  ∀ members expression message, as_PolicyGroup p = Some (members, expression, message) →
    map_Forall (λ _ m, settings_ok (pgm_Settings (pgmc_PolicyGroupMember m)) = true) members.

(** A policy a policy server can evaluate: a group with members, or a policy
    with a module. *)
Definition evaluable (p : AnyPolicy) : Prop :=
  match as_PolicyGroup p with
  | Some (members, _, _) => members ≠ ∅
  | None => GetModule p ≠ ""
  end.

Lemma config_entry_clean p : policy_settings_ok p → entry_clean (config_entry p).
Proof.
  intros [Hs Hm]. split.
  - by destruct p.
  - intros k m. destruct p as [p|p|p|p]; cbn -[buildPolicyGroupMembersWithContext];
      rewrite ?lookup_empty; try done; unfold buildPolicyGroupMembersWithContext;
      rewrite lookup_fmap, fmap_Some; intros (x & Hx & ->); by eapply Hm.
  - by destruct p.
  - by destruct p.
Qed.

Lemma config_entry_readable p : entry_readable (config_entry p) ↔ evaluable p.
Proof.
  unfold entry_readable, evaluable.
  destruct p as [p|p|p|p]; cbn -[buildPolicyGroupMembersWithContext];
    unfold buildPolicyGroupMembersWithContext; rewrite ?fmap_empty_iff; naive_solver.
Qed.

Section configmap_theorems.
Context {World : Type} `{K8sUtil, KubeClient World}.

Lemma updateConfigMapData_data cfg ps policies (w w' : World) cfg' :
  updateConfigMapData cfg ps policies w = (Ok cfg', w') →
  cm_Data cfg' !! PolicyServerConfigPoliciesEntry = Some (policies_text policies) ∧
  om_Labels (cm_Meta cfg') = {[ PolicyServerLabelKey := psrv_Name ps ]} ∧ w' = w.
Proof.
  unfold updateConfigMapData.
  destruct (SetOwnerReference _ _) as [e|owners]; intros Hrun; inv_run Hrun.
  subst. by cbn.
Qed.

Lemma getPolicyMap_text cfg policies :
  cm_Data cfg !! PolicyServerConfigPoliciesEntry = Some (policies_text policies) →
  (∀ p, p ∈ policies → policy_settings_ok p) →
  match dec_map policyServerConfigEntry_UnmarshalJSON ∅
          (map_json policyServerConfigEntry_MarshalJSON (buildPoliciesMap policies)) with
  | inr m => getPolicyMapFromConfigMap cfg = inr m
  | inl _ => ∃ err, getPolicyMapFromConfigMap cfg = inl err
  end.
Proof.
  intros Hd Hok. unfold getPolicyMapFromConfigMap. rewrite Hd.
  unfold unmarshal_policies, policies_text. rewrite Unmarshal_Marshal.
  - destruct (dec_map _ ∅ _) as [e|m]; eauto.
  - apply map_json_ok. intros k e (p & Hp & _ & ->)%buildPoliciesMap_elem.
    by apply MarshalJSON_ok, config_entry_clean, Hok.
Qed.

Lemma getPolicyMap_built cfg policies :
  cm_Data cfg !! PolicyServerConfigPoliciesEntry = Some (policies_text policies) →
  (∀ p, p ∈ policies → policy_settings_ok p ∧ evaluable p) →
  getPolicyMapFromConfigMap cfg = inr (buildPoliciesMap policies).
Proof.
  intros Hd Hok. pose proof (getPolicyMap_text cfg policies Hd) as Hget.
  rewrite dec_map_enc in Hget; [apply Hget; intros q Hq; by apply Hok|].
  intros k e (p & [Hs He]%Hok & _ & ->)%buildPoliciesMap_elem.
  by apply UnmarshalJSON_MarshalJSON; [apply config_entry_clean|apply config_entry_readable].
Qed.

(** (C9) Round trip of the policy server configuration, when every policy has a
    module or, for a group, members ([evaluable]), and raw settings that are
    valid JSON and not the document null ([policy_settings_ok]): what the controller writes into the ConfigMap is
    read back, by the policy reconcilers, as the very map it was built from.
    The first condition is needed: [configmap_poisoned] is the case of one
    policy without it. *)
Theorem configmap_round_trip cfg ps policies (w w' : World) cfg' :
  updateConfigMapData cfg ps policies w = (Ok cfg', w') →
  (∀ p, p ∈ policies → policy_settings_ok p ∧ evaluable p) →
  getPolicyMapFromConfigMap cfg' = inr (buildPoliciesMap policies).
Proof.
  intros [Hd _]%updateConfigMapData_data. by apply getPolicyMap_built.
Qed.

(** (C39) One policy that cannot be evaluated (no module and no members) makes
    the whole configuration unreadable: none of the policies of that server
    is found in the ConfigMap any more. *)
Theorem configmap_poisoned cfg ps policies (w w' : World) cfg' p :
  updateConfigMapData cfg ps policies w = (Ok cfg', w') →
  (∀ q, q ∈ policies → policy_settings_ok q) →
  NoDup (GetUniqueName <$> policies) → p ∈ policies → ¬ evaluable p →
  ∀ name, isPolicyInConfigMap cfg' name = false.
Proof.
  intros [Hd _]%updateConfigMapData_data Hok Hnd Hp He name.
  pose proof (getPolicyMap_text cfg' policies Hd Hok) as Hget.
  unfold isPolicyInConfigMap.
  destruct (dec_map _ ∅ _) as [e|m] eqn:Hdec; [by destruct Hget as [? ->]|].
  destruct (UnmarshalJSON_unreadable (config_entry p)) as [err Herr].
  { by apply config_entry_clean, Hok. }
  { by rewrite config_entry_readable. }
  destruct (dec_map_ok _ _ _ _ Hdec (GetUniqueName p) (config_entry p)) as [y Hy];
    [|congruence].
  by rewrite buildPoliciesMap_lookup, NoDup_filter_last.
Qed.
End configmap_theorems.

(** ** Unique names *)

(** The configuration has one entry per policy: when the unique names
    differ, a name is bound exactly to the entry of the policy that has it. *)
Theorem buildPoliciesMap_complete (l : list AnyPolicy) (name : string)
    (e : policyServerConfigEntry) :
  NoDup (GetUniqueName <$> l) →
  buildPoliciesMap l !! name = Some e ↔
  ∃ p, p ∈ l ∧ GetUniqueName p = name ∧ e = config_entry p.
Proof.
  intros Hnd. split; [apply buildPoliciesMap_elem|]. intros (p & Hp & <- & ->).
  by rewrite buildPoliciesMap_lookup, NoDup_filter_last.
Qed.

(** A module policy of the cluster-wide kind, and a group. *)
Definition sample_cluster_policy (name server mode : string) (rules : list RuleWithOperations)
    : ClusterAdmissionPolicy :=
  mkClusterAdmissionPolicy (mkTypeMeta "policies.kubewarden.io/v1" "ClusterAdmissionPolicy")
    (named_meta "" name)
    (mkClusterAdmissionPolicySpec (sample_spec server mode rules) None [])
    (mkPolicyStatus "" "" []).
Definition sample_cluster_group (name server mode : string) (rules : list RuleWithOperations)
    : ClusterAdmissionPolicyGroup :=
  mkClusterAdmissionPolicyGroup
    (mkTypeMeta "policies.kubewarden.io/v1" "ClusterAdmissionPolicyGroup") (named_meta "" name)
    (mkClusterAdmissionPolicyGroupSpec
       (mkClusterPolicyGroupSpec
          (mkGroupSpec server mode rules None true None [] None None None "a()" "denied")
          {[ "a" := mkPolicyGroupMemberWithContext
                      (mkPolicyGroupMember "registry://a" None) [] ]}) None)
    (mkPolicyStatus "" "" []).

(** The pairs of policies the naming scheme confuses: the namespace, the name
    and the prefix of a kind are joined by the dash each of them may
    contain. *)
Inductive collision : AnyPolicy → AnyPolicy → Prop :=
| collide_namespaces (a b c : string) p q :
    om_key (ap_ObjectMeta p) = mkNN a (b +:+ "-" +:+ c) →
    om_key (ap_ObjectMeta q) = mkNN (a +:+ "-" +:+ b) c →
    collision (PAdmissionPolicy p) (PAdmissionPolicy q)
| collide_group_namespaces (a b c : string) p q :
    om_key (apg_ObjectMeta p) = mkNN a (b +:+ "-" +:+ c) →
    om_key (apg_ObjectMeta q) = mkNN (a +:+ "-" +:+ b) c →
    collision (PAdmissionPolicyGroup p) (PAdmissionPolicyGroup q)
| collide_group (a c : string) p q :
    om_key (ap_ObjectMeta p) = mkNN ("group-" +:+ a) c →
    om_key (apg_ObjectMeta q) = mkNN a c →
    collision (PAdmissionPolicy p) (PAdmissionPolicyGroup q)
| collide_cluster_group (c : string) p q :
    om_Name (cap_ObjectMeta p) = "group-" +:+ c → om_Name (capg_ObjectMeta q) = c →
    collision (PClusterAdmissionPolicy p) (PClusterAdmissionPolicyGroup q).

Definition config_key (p : AnyPolicy) : NamespacedName := mkNN (GetNamespace p) (GetName p).

Lemma string_app_longer (s t : string) : s ≠ "" → s +:+ t ≠ t.
Proof.
  intros Hs Heq%(f_equal String.length). rewrite string_app_length in Heq.
  destruct s; [done|]. cbn in Heq. lia.
Qed.
Lemma string_app_shorter (s t : string) : t ≠ "" → s ≠ s +:+ t.
Proof.
  intros Ht Heq%(f_equal String.length). rewrite string_app_length in Heq.
  destruct t; [done|]. cbn in Heq. lia.
Qed.

Lemma config_key_meta p :
  config_key p = om_key match p with
                        | PAdmissionPolicy p => ap_ObjectMeta p
                        | PAdmissionPolicyGroup p => apg_ObjectMeta p
                        | PClusterAdmissionPolicy p => cap_ObjectMeta p
                        | PClusterAdmissionPolicyGroup p => capg_ObjectMeta p
                        end.
Proof. by destruct p. Qed.

Lemma collision_names p q :
  collision p q → GetUniqueName p = GetUniqueName q ∧ config_key p ≠ config_key q.
Proof.
  rewrite !config_key_meta.
  destruct 1 as [a b c p q Hp Hq|a b c p q Hp Hq|a c p q Hp Hq|c p q Hp Hq]; split.
  all: try (unfold om_key in *; cbn; unfold AdmissionPolicy_GetUniqueName,
    AdmissionPolicyGroup_GetUniqueName, ClusterAdmissionPolicy_GetUniqueName,
    ClusterAdmissionPolicyGroup_GetUniqueName; rewrite ?Hp, ?Hq;
    try (injection Hp as -> ->; injection Hq as -> ->); by rewrite ?string_app_assoc).
  all: intros Heq; try rewrite Hp, Hq in Heq; unfold om_key in *; rewrite ?Hp, ?Hq in Heq.
  1,2: exact (string_app_shorter a ("-" +:+ b) ltac:(done) (f_equal nn_Namespace Heq)).
  - exact (string_app_longer "group-" a ltac:(done) (f_equal nn_Namespace Heq)).
  - exact (string_app_longer "group-" c ltac:(done) (f_equal nn_Name Heq)).
Qed.

(** (C40) Unique names are not unique. Two policies whose namespaces and names
    are split differently around a dash ([a] and [b-c], [a-b] and [c]), and a
    policy and a group one of whose names starts with "group-", have the same
    unique name and different keys, for all values of the parts; and admission
    does not look at the names. When both are bound to a policy server, the
    configuration has one entry under that name, made from the last policy of
    the list that has it: at least one of the two is not configured. *)
Theorem unique_names_collide `{K8sUtil, CelCompiler, MapRange} p q policies :
  collision p q → p ∈ policies → q ∈ policies →
  GetUniqueName p = GetUniqueName q ∧ config_key p ≠ config_key q ∧
  (∀ x (m : ObjectMeta),
     policy_ValidateCreate (SetObjectMeta m x) = None ↔ policy_ValidateCreate x = None) ∧
  ∃ x, last (filter (λ x, GetUniqueName x = GetUniqueName p) policies) = Some x ∧
    buildPoliciesMap policies !! GetUniqueName p = Some (config_entry x) ∧
    (ce_NamespacedName (config_entry x) ≠ config_key p ∨
     ce_NamespacedName (config_entry x) ≠ config_key q).
Proof.
  intros [Hname Hkey]%collision_names Hp Hq. split; [done|]. split; [done|]. split.
  { intros x m. rewrite !ValidateCreate_None. by destruct x. }
  destruct (last (filter (λ x, GetUniqueName x = GetUniqueName p) policies)) as [x|] eqn:Hl.
  - exists x. split; [done|]. split; [by rewrite buildPoliciesMap_lookup, Hl|].
    destruct (decide (ce_NamespacedName (config_entry x) = config_key p)); [right|by left].
    congruence.
  - apply last_None in Hl. exfalso. apply (not_elem_of_nil p). rewrite <-Hl.
    by apply list_elem_of_filter.
Qed.

(** ** Witnesses *)

Definition sample_server (name : string) : PolicyServer :=
  mkPolicyServer (named_meta "" name)
    (mkPolicyServerSpec "ghcr.io/kubewarden/policy-server" 1 None None None [] "" "" None ∅ ""
       (mkPolicyServerSecurity None None) JNull ∅ ∅ [])
    (mkPolicyServerStatus []).

(** A policy whose settings use every kind of JSON value. *)
Definition settings_policy : AdmissionPolicy :=
  mkAdmissionPolicy (mkTypeMeta "policies.kubewarden.io/v1" "AdmissionPolicy")
    (named_meta "ns" "p")
    (mkPolicySpec "default" "protect" "registry://policy"
       (Some (JObj [("labels", JArr [JStr "a<b"; JNum "-1.5"; JBool true; JNull])]))
       [pods_rule] None true true None [] None None None)
    (mkPolicyStatus "" "" []).

Definition sample_policies : list AnyPolicy :=
  [PAdmissionPolicy settings_policy;
   PClusterAdmissionPolicyGroup (sample_cluster_group "g" "default" "monitor" [pods_rule])].
Definition no_module_policy : AdmissionPolicy :=
  mkAdmissionPolicy (mkTypeMeta "policies.kubewarden.io/v1" "AdmissionPolicy")
    (named_meta "ns" "empty")
    (mkPolicySpec "default" "protect" "" None [pods_rule] None false true None [] None None None)
    (mkPolicyStatus "" "" []).

Definition blank_config : ConfigMap :=
  mkConfigMap (named_meta "kubewarden" "policy-server-default") ∅.
Definition written_config (policies : list AnyPolicy) : ConfigMap :=
  match fst (@updateConfigMapData unit concrete_util blank_config
               (sample_server "default") policies tt) with
  | Ok c => c
  | _ => blank_config
  end.

Lemma singleton_settings_ok (m : PolicyGroupMemberWithContext) (k : string) :
  settings_ok (pgm_Settings (pgmc_PolicyGroupMember m)) = true →
  map_Forall (λ _ m, settings_ok (pgm_Settings (pgmc_PolicyGroupMember m)) = true)
    ({[ k := m ]} : PolicyGroupMembersWithContext).
Proof. intros Hm. by apply map_Forall_singleton. Qed.

Lemma configmap_round_trip_witness :
  getPolicyMapFromConfigMap (written_config sample_policies)
  = inr (buildPoliciesMap sample_policies).
Proof.
  eapply (@configmap_round_trip unit concrete_util blank_config (sample_server "default")
            sample_policies tt tt).
  - vm_compute. reflexivity.
  - intros p [->|[->|[]%elem_of_nil]%elem_of_cons]%elem_of_cons.
    + split; [split; [reflexivity|discriminate]|discriminate].
    + split; [|discriminate].
      split; [reflexivity|]. intros ? ? ? [= <- _ _]. by apply singleton_settings_ok.
Defined.

(** Two policies of different namespaces, admitted and bound to one server. *)
Definition colliding_policies : list AnyPolicy :=
  [PAdmissionPolicy (sample_policy "a" "b-c" "default" "protect" [pods_rule]);
   PAdmissionPolicy (sample_policy "a-b" "c" "default" "monitor" [pods_rule])].
Lemma unique_names_collide_witness :
  (@policy_ValidateCreate concrete_util concrete_cel concrete_range <$> colliding_policies)
  = [None; None] ∧
  (ce_NamespacedName <$> buildPoliciesMap colliding_policies !! "namespaced-a-b-c")
  = Some (mkNN "a-b" "c") ∧
  ∃ x, buildPoliciesMap colliding_policies !! "namespaced-a-b-c" = Some (config_entry x).
Proof.
  split; [vm_compute; reflexivity|]. split; [vm_compute; reflexivity|].
  destruct (@unique_names_collide concrete_util concrete_cel concrete_range
    (PAdmissionPolicy (sample_policy "a" "b-c" "default" "protect" [pods_rule]))
    (PAdmissionPolicy (sample_policy "a-b" "c" "default" "monitor" [pods_rule]))
    colliding_policies) as (_ & _ & _ & x & _ & Hx & _).
  - by apply (collide_namespaces "a" "b" "c").
  - apply elem_of_cons. by left.
  - apply elem_of_cons. right. apply elem_of_cons. by left.
  - exists x. exact Hx.
Defined.

Lemma configmap_poisoned_witness :
  isPolicyInConfigMap
    (written_config (PAdmissionPolicy no_module_policy :: sample_policies)) "namespaced-ns-p"
  = false.
Proof.
  eapply (@configmap_poisoned unit concrete_util blank_config (sample_server "default")
            (PAdmissionPolicy no_module_policy :: sample_policies) tt tt _
            (PAdmissionPolicy no_module_policy)).
  - vm_compute. reflexivity.
  - intros p [->|[->|[->|[]%elem_of_nil]%elem_of_cons]%elem_of_cons]%elem_of_cons;
      (split; [reflexivity|]); try discriminate.
    intros ? ? ? [= <- _ _]. by apply singleton_settings_ok.
  - apply (bool_decide_unpack _). vm_compute. exact I.
  - apply elem_of_cons. by left.
  - intros Hne. by apply Hne.
Defined.

Lemma buildPoliciesMap_complete_witness :
  buildPoliciesMap sample_policies !! "namespaced-ns-p" =
  Some (config_entry (PAdmissionPolicy settings_policy)).
Proof.
  apply buildPoliciesMap_complete.
  - apply (bool_decide_unpack _). vm_compute. exact I.
  - exists (PAdmissionPolicy settings_policy). split; [apply elem_of_cons; by left|done].
Defined.
