(* ===== verification/Resources.v ===== *)
(** * Service and PodDisruptionBudget of a policy server
    ([policyserver_controller_service.go], [policyserver_controller_pdb.go]) *)

From S2P Require Import Prelude GoStd Json K8sTypes Concrete Constants PolicyTypes PolicyServerTypes KubeClient FakeCluster ConfigMap.

(** The labels the deployment puts on the pods of a policy server (also in
    [Deployment.v]) are selected by the service and the budget. *)
Definition app_labels (ps : PolicyServer) : gmap string string :=
  {[ AppLabelKey := AppLabel ps ]}.

Section resources.
Context {World : Type} `{K8sUtil, KubeClient World, Environment World}.

(** [controllerutil.SetOwnerReference] on an object's metadata. *)
Definition set_owner (msg : string) (ps : PolicyServer) (m : ObjectMeta) : M World ObjectMeta :=
  match SetOwnerReference (psrv_owner_ref ps) (om_OwnerReferences m) with
  | inl err => fail (ErrJoin [ErrNew msg; err])
  | inr owners => mret (om_set_OwnerReferences owners m)
  end.

(** ** Service *)

Definition getMetricsPort : M World Z := λ w,
  let envMetricsPort := Getenv PolicyServerMetricsPortEnvVar w in
  if bool_decide (envMetricsPort ≠ "")
  then match ParseInt32 envMetricsPort with
       | None => (Exit 1, w)
       | Some p => (Ok p, w)
       end
  else (Ok PolicyServerMetricsPort, w).

Definition updateService (r : PolicyServerReconciler) (svc : Service) (ps : PolicyServer)
    : M World Service :=
  let meta := om_set_Labels (app_labels ps)
                (om_set_Namespace (r_DeploymentsNamespace r)
                   (om_set_Name (NameWithPrefix ps) (svc_Meta svc))) in
  let port := mkServicePort "policy-server" PolicyServerPort (Some (IOSInt PolicyServerPort))
                "TCP" in
  ports ← (if tc_MetricsEnabled (r_TelemetryConfiguration r)
           then metrics ← getMetricsPort;
                mret [port; mkServicePort "metrics" metrics None "TCP"]
           else mret [port]);
  meta ← set_owner "failed to set policy server service owner reference" ps meta;
  mret (mkService meta ports (app_labels ps)).

Definition reconcilePolicyServerService (r : PolicyServerReconciler) (ps : PolicyServer)
    : M World unit :=
  let svc := mkService (named_meta (r_DeploymentsNamespace r) (NameWithPrefix ps)) [] ∅ in
  wrap_err (ErrWrap "cannot reconcile policy-server service")
    (CreateOrPatch KService svc (λ svc, updateService r svc ps)) ;;
  mret tt.

(** ** PodDisruptionBudget *)

Definition empty_pdb (ps : PolicyServer) (namespace : string) : PodDisruptionBudget :=
  mkPDB (named_meta namespace (NameWithPrefix ps)) None None None.

Definition deletePodDisruptionBudget (ps : PolicyServer) (namespace : string) : M World unit :=
  r ← try (call (Delete KPDB (empty_pdb ps namespace)));
  match r with
  | inr _ => mret tt
  | inl err =>
      match IgnoreNotFound err with
      | None => mret tt
      | Some err => fail (ErrJoin [ErrNew "failed to delete PodDisruptionBudget"; err])
      end
  end.

(** The mutate function of [reconcilePodDisruptionBudget]. *)
Definition updatePodDisruptionBudget (ps : PolicyServer) (namespace : string)
    (pdb : PodDisruptionBudget) : M World PodDisruptionBudget :=
  let meta := om_set_Namespace namespace (om_set_Name (NameWithPrefix ps) (pdb_Meta pdb)) in
  meta ← set_owner "failed to set policy server PDB owner reference" ps meta;
  let selector := Some (mkLabelSelector
    {[ AppLabelKey := AppLabel ps; PolicyServerLabelKey := psrv_Name ps ]} []) in
  match pspec_MinAvailable (psrv_Spec ps) with
  | Some _ as minAvailable => mret (mkPDB meta selector minAvailable None)
  | None => mret (mkPDB meta selector None (pspec_MaxUnavailable (psrv_Spec ps)))
  end.

Definition reconcilePodDisruptionBudget (ps : PolicyServer) (namespace : string)
    : M World unit :=
  wrap_err (λ err, ErrJoin [ErrNew "failed to create or update PodDisruptionBudget"; err])
    (CreateOrPatch KPDB (empty_pdb ps namespace) (updatePodDisruptionBudget ps namespace)) ;;
  mret tt.

Definition reconcilePolicyServerPodDisruptionBudget (r : PolicyServerReconciler)
    (ps : PolicyServer) : M World unit :=
  match pspec_MinAvailable (psrv_Spec ps), pspec_MaxUnavailable (psrv_Spec ps) with
  | None, None => deletePodDisruptionBudget ps (r_DeploymentsNamespace r)
  | _, _ => reconcilePodDisruptionBudget ps (r_DeploymentsNamespace r)
  end.
End resources.
Arguments set_owner {World _} msg ps m.

(** ** Theorems *)

Section theorems.
Context {World : Type} `{K8sUtil, !K8sUtilLaws, KubeClient World, Environment World,
  !KubeClientLaws World}.
Implicit Types (w : World) (ps : PolicyServer).

Lemma set_owner_inv msg ps m w m' w' :
  set_owner msg ps m w = (Ok m', w') → w' = w ∧ ∃ owners, m' = om_set_OwnerReferences owners m.
Proof.
  unfold set_owner. destruct (SetOwnerReference _ _) as [e|owners]; intros Hrun; inv_run Hrun.
  naive_solver.
Qed.

(** (C31) The metrics port is the default one when the variable is not set;
    the decimal text of a number is that port exactly when it fits a signed
    32-bit integer, and otherwise, as for any text that is not a number, the
    process ends. No other port is ever used. *)
Theorem getMetricsPort_spec w :
  let text := Getenv PolicyServerMetricsPortEnvVar w in
  (text = "" → getMetricsPort w = (Ok PolicyServerMetricsPort, w)) ∧
  (∀ n, text = Itoa n →
     getMetricsPort w = (if bool_decide (min_int32 ≤ n ≤ max_int32)%Z then Ok n else Exit 1, w)) ∧
  (text ≠ "" → ParseInt32 text = None → getMetricsPort w = (Exit 1, w)) ∧
  ∀ port w', getMetricsPort w = (Ok port, w') → (min_int32 ≤ port ≤ max_int32)%Z.
Proof.
  intros text. unfold getMetricsPort. fold text.
  destruct (decide (text = "")) as [Ht|Ht].
  - rewrite bool_decide_eq_false_2 by auto. split; [done|]. split; [|split; [done|]].
    + intros n Hn. destruct (Itoa_nonempty n). congruence.
    + intros port w' [= <- _]. vm_compute. split; congruence.
  - rewrite bool_decide_eq_true_2 by done. split; [done|]. split; [|split].
    + intros n ->. rewrite ParseInt32_Itoa. by case_bool_decide.
    + by intros _ ->.
    + intros port w'. destruct (ParseInt32 text) as [p|] eqn:Hp; intros [=].
      subst. by eapply ParseInt32_bounds.
Qed.

Lemma reconcileService_inv (r : PolicyServerReconciler) ps w w' :
  reconcilePolicyServerService r ps w = (Ok tt, w') →
  let key := mkNN (r_DeploymentsNamespace r) (NameWithPrefix ps) in
  same_but KService key w w' ∧
  ∃ svc, Get KService key w' = inr svc ∧ svc_Selector svc = app_labels ps.
Proof.
  intros Hrun key. unfold reconcilePolicyServerService in Hrun. inv_run Hrun. subst.
  apply CreateOrPatch_ok in Hrun0 as (base & o & w1 & _ & Hf & _ & [_ Hst] & Hget & Hsame).
  assert (w1 = w ∧ svc_Selector o = app_labels ps) as [-> Hsel].
  { unfold updateService in Hf. inv_run Hf. subst. split; [|done].
    match goal with Hs : set_owner _ _ _ _ = _ |- _ => apply set_owner_inv in Hs as [-> _] end.
    match goal with Hp : (if _ then _ else _) _ = _ |- _ => rename Hp into Hports end.
    destruct (tc_MetricsEnabled _); inv_run Hports; [|by subst]. subst.
    unfold getMetricsPort in *. repeat case_match; by simplify_eq. }
  split; [exact Hsame|]. exists x. split; [exact Hget|]. cbn in Hst. congruence.
Qed.

(** The budget a policy server asks for. *)
Definition pdb_matches ps (pdb : PodDisruptionBudget) : Prop :=
  pdb_Selector pdb = Some (mkLabelSelector
    {[ AppLabelKey := AppLabel ps; PolicyServerLabelKey := psrv_Name ps ]} []) ∧
  pdb_MinAvailable pdb = pspec_MinAvailable (psrv_Spec ps) ∧
  pdb_MaxUnavailable pdb =
    (if pspec_MinAvailable (psrv_Spec ps) then None else pspec_MaxUnavailable (psrv_Spec ps)).

Lemma updatePDB_inv ps ns pdb w pdb' w' :
  updatePodDisruptionBudget ps ns pdb w = (Ok pdb', w') → w' = w ∧ pdb_matches ps pdb'.
Proof.
  unfold updatePodDisruptionBudget, pdb_matches. intros Hrun. inv_run Hrun.
  apply set_owner_inv in Hrun0 as [-> _].
  destruct (pspec_MinAvailable _); inv_run Hrun; naive_solver.
Qed.

Lemma deletePDB_inv ps ns w w' :
  deletePodDisruptionBudget ps ns w = (Ok tt, w') →
  let key := mkNN ns (NameWithPrefix ps) in
  same_but KPDB key w w' ∧
  going KPDB key w'.
Proof.
  intros Hrun key. unfold deletePodDisruptionBudget in Hrun. inv_run Hrun.
  destruct x as [e|[]]; autorewrite with go in *.
  - rewrite IgnoreNotFound_spec in Hrun. destruct (IsNotFound e) eqn:He; inv_run Hrun; subst.
    destruct (Delete_notfound _ _ _ _ _ Hrun0 He) as [Hsame Habs].
    split; [intros ???; apply Hsame|by left].
  - destruct Hrun as [_ ->]. exact (Delete_going _ _ _ _ Hrun0).
Qed.

Lemma reconcilePDB_inv ps ns w w' :
  reconcilePodDisruptionBudget ps ns w = (Ok tt, w') →
  let key := mkNN ns (NameWithPrefix ps) in
  same_but KPDB key w w' ∧ ∃ pdb, Get KPDB key w' = inr pdb ∧ pdb_matches ps pdb.
Proof.
  intros Hrun key. unfold reconcilePodDisruptionBudget in Hrun. inv_run Hrun. subst.
  apply CreateOrPatch_ok in Hrun0 as (base & o & w1 & _ & Hf & _ & Hst & Hget & Hsame).
  apply updatePDB_inv in Hf as [-> (Hsel & Hmin & Hmax)].
  split; [exact Hsame|]. eexists. split; [exact Hget|].
  destruct Hst as [_ (Es & Emin & Emax)]. unfold pdb_matches. by rewrite Es, Emin, Emax.
Qed.

(** After a successful reconciliation the budget of a policy server
    exists exactly as the server asks for it, or, when it asks for none, is
    deleted (or waits for its finalizers); no other object is changed. *)
Theorem reconcilePDB_spec (r : PolicyServerReconciler) ps w w' :
  reconcilePolicyServerPodDisruptionBudget r ps w = (Ok tt, w') →
  let key := mkNN (r_DeploymentsNamespace r) (NameWithPrefix ps) in
  same_but KPDB key w w' ∧
  match pspec_MinAvailable (psrv_Spec ps), pspec_MaxUnavailable (psrv_Spec ps) with
  | None, None =>
      absent KPDB key w' ∨
      ∃ pdb, Get KPDB key w' = inr pdb ∧ om_DeletionTimestamp (pdb_Meta pdb) ≠ None
  | _, _ => ∃ pdb, Get KPDB key w' = inr pdb ∧ pdb_matches ps pdb
  end.
Proof.
  intros Hrun key. unfold reconcilePolicyServerPodDisruptionBudget in Hrun.
  pose proof (deletePDB_inv ps (r_DeploymentsNamespace r) w w') as Hdel.
  pose proof (reconcilePDB_inv ps (r_DeploymentsNamespace r) w w') as Hrec.
  destruct (pspec_MinAvailable (psrv_Spec ps)), (pspec_MaxUnavailable (psrv_Spec ps)); auto.
Qed.
End theorems.

(** ** Witness *)

Definition sample_reconciler : PolicyServerReconciler :=
  mkPolicyServerReconciler (mkTelemetry true false false "" "") "kubewarden" false "".
Definition budget_server (name : string) : PolicyServer :=
  mkPolicyServer (named_meta "" name)
    (mkPolicyServerSpec "ghcr.io/kubewarden/policy-server" 2 (Some (IOSInt 1)) None None [] "" ""
       None ∅ "" (mkPolicyServerSecurity None None) JNull ∅ ∅ [])
    (mkPolicyServerStatus []).

Lemma reconcilePDB_spec_witness :
  let run := @reconcilePolicyServerPodDisruptionBudget FakeWorld concrete_util fake_client
               sample_reconciler (budget_server "default") (fake_world empty_store) in
  ∃ pdb, fake_Get KPDB (mkNN "kubewarden" "policy-server-default") (snd run) = inr pdb ∧
    pdb_matches (budget_server "default") pdb.
Proof.
  intros run.
  assert (fst run = Ok tt) as Hrun by (vm_compute; reflexivity).
  exact (proj2 (@reconcilePDB_spec FakeWorld concrete_util concrete_util_laws fake_client fake_env
    fake_laws sample_reconciler (budget_server "default") (fake_world empty_store) (snd run)
    (run_fst _ _ _ Hrun))).
Defined.

(** A port that does not fit 32 bits. *)
Definition port_world (port : Z) : FakeWorld :=
  mkFakeWorld empty_store (λ _ _, None) 0 1 {[ PolicyServerMetricsPortEnvVar := Itoa port ]}.

Lemma getMetricsPort_spec_witness :
  (@getMetricsPort FakeWorld fake_env (port_world 9090)).1 = Ok 9090%Z ∧
  (@getMetricsPort FakeWorld fake_env (port_world 2147483648)).1 = Exit 1.
Proof.
  split.
  - rewrite (proj1 (proj2 (@getMetricsPort_spec FakeWorld fake_env (port_world 9090)))
      9090%Z ltac:(vm_compute; reflexivity)). reflexivity.
  - rewrite (proj1 (proj2 (@getMetricsPort_spec FakeWorld fake_env (port_world 2147483648)))
      2147483648%Z ltac:(vm_compute; reflexivity)). reflexivity.
Defined.
