(* ===== verification/Deployment.v ===== *)
(** * The policy server's Deployment ([policyserver_controller_deployment.go])

    The source mutates the Deployment and its first container through
    pointers; here each step returns the updated object. The pod template's
    annotations share their map with the policy server's spec: the sidecar
    annotation written to that map after the template was built is visible in
    the template, so the template is built with the final map. (The write is
    visible in the policy server too, whose spec nothing reads afterwards.)
    Environment variables of the controller are read from the world. *)

From S2P Require Import Prelude GoStd Json K8sTypes Concrete Constants PolicyTypes PolicyServerTypes KubeClient FakeCluster ConfigMap Resources.

Definition certsVolumeName : string := "certs".
Definition policiesConfigContainerPath : string := "/config".
Definition policiesFilename : string := "policies.yml".
Definition sourcesFilename : string := "sources.yml".
Definition verificationFilename : string := "verification.yml".
Definition policiesVolumeName : string := "policies".
Definition sourcesVolumeName : string := "sources".
Definition verificationConfigVolumeName : string := "verification".
Definition kubewardenCAVolumeName : string := "kubewarden-ca-cert".
Definition kubewardenCAVolumePath : string := "/ca".
Definition clientCAVolumeName : string := "client-ca-cert".
Definition clientCAVolumePath : string := "/client-ca".
Definition secretsContainerPath : string := "/pki".
Definition imagePullSecretVolumeName : string := "imagepullsecret".
Definition dockerConfigJSONPolicyServerPath : string := "/home/kubewarden/.docker".
Definition policyStoreVolume : string := "policy-store".
Definition policyStoreVolumePath : string := "/tmp".
Definition sigstoreCacheDirPath : string := "/tmp/sigstore-data".
Definition otelClientCertificateVolumeName : string := "otel-collector-client-certificate".
Definition otelCertificateVolumeName : string := "otel-collector-certificate".
Definition defaultOtelCertificateMountMode : Z := 420.

(** ** Containers and volumes *)

Definition ct_add_mounts (ms : list VolumeMount) (c : Container) : Container :=
  mkContainer (ct_Name c) (ct_Image c) (ct_VolumeMounts c ++ ms) (ct_Env c)
    (ct_ReadinessProbe c) (ct_Resources c) (ct_SecurityContext c).
Definition ct_set_Env (e : list EnvVar) (c : Container) : Container :=
  mkContainer (ct_Name c) (ct_Image c) (ct_VolumeMounts c) e
    (ct_ReadinessProbe c) (ct_Resources c) (ct_SecurityContext c).
Definition ct_add_env (e : EnvVar) (c : Container) : Container := ct_set_Env (ct_Env c ++ [e]) c.
Definition ct_set_SecurityContext (s : option SecurityContext) (c : Container) : Container :=
  mkContainer (ct_Name c) (ct_Image c) (ct_VolumeMounts c) (ct_Env c)
    (ct_ReadinessProbe c) (ct_Resources c) s.

Definition d_pod (d : Deployment) : PodSpec := pt_Spec (ds_Template (d_Spec d)).
Definition d_set_Meta (m : ObjectMeta) (d : Deployment) : Deployment := mkDeployment m (d_Spec d).
Definition d_set_pod (p : PodSpec) (d : Deployment) : Deployment :=
  mkDeployment (d_Meta d)
    (mkDeploymentSpec (ds_Replicas (d_Spec d)) (ds_Selector (d_Spec d)) (ds_Strategy (d_Spec d))
       (mkPodTemplate (pt_Labels (ds_Template (d_Spec d)))
          (pt_Annotations (ds_Template (d_Spec d))) p)).
Definition d_add_volumes (vs : list Volume) (d : Deployment) : Deployment :=
  let p := d_pod d in
  d_set_pod (mkPodSpec (ps_SecurityContext p) (ps_Containers p) (ps_ServiceAccountName p)
               (ps_Tolerations p) (ps_Affinity p) (ps_Volumes p ++ vs)) d.
(** [Containers[0]]: the deployments built here have one container. *)
Definition d_update_container (f : Container → Container) (d : Deployment) : Deployment :=
  let p := d_pod d in
  let cs := match ps_Containers p with c :: cs => f c :: cs | [] => [] end in
  d_set_pod (mkPodSpec (ps_SecurityContext p) cs (ps_ServiceAccountName p) (ps_Tolerations p)
               (ps_Affinity p) (ps_Volumes p)) d.

(** [envVarsContainVariable] and the update or append the sources do with its
    result. *)
Fixpoint envVarsContainVariable (envVars : list EnvVar) (envVarName : string) : option nat :=
  match envVars with
  | [] => None
  | e :: l => if bool_decide (ev_Name e = envVarName) then Some 0
              else S <$> envVarsContainVariable l envVarName
  end.
Definition set_env (e : EnvVar) (c : Container) : Container :=
  match envVarsContainVariable (ct_Env c) (ev_Name e) with
  | Some index => ct_set_Env (<[index := e]> (ct_Env c)) c
  | None => ct_add_env e c
  end.

Definition defaultContainerSecurityContext : SecurityContext :=
  mkSecurityContext (Some true) (Some false) (Some false) (Some (mkCapabilities [] ["all"]))
    (Some true) JNull.

Definition getPolicyServerContainer (ps : PolicyServer) : Container :=
  mkContainer (NameWithPrefix ps) (pspec_Image (psrv_Spec ps))
    [mkVolumeMount certsVolumeName true secretsContainerPath;
     mkVolumeMount policiesVolumeName true policiesConfigContainerPath;
     mkVolumeMount policyStoreVolume false policyStoreVolumePath]
    ([env "KUBEWARDEN_CERT_FILE" (filepath_Join [secretsContainerPath; ServerCert]);
      env "KUBEWARDEN_KEY_FILE" (filepath_Join [secretsContainerPath; ServerPrivateKey]);
      env "KUBEWARDEN_PORT" (Itoa PolicyServerPort);
      env "KUBEWARDEN_READINESS_PROBE_PORT" (Itoa PolicyServerReadinessProbePort);
      env "KUBEWARDEN_POLICIES_DOWNLOAD_DIR" policyStoreVolumePath;
      env "KUBEWARDEN_POLICIES" (filepath_Join [policiesConfigContainerPath; policiesFilename]);
      env "KUBEWARDEN_SIGSTORE_CACHE_DIR" sigstoreCacheDirPath] ++
     pspec_Env (psrv_Spec ps))
    (Some (mkProbe PolicyServerReadinessProbe (IOSInt PolicyServerReadinessProbePort) "HTTP"))
    (mkResources (pspec_Requests (psrv_Spec ps)) (pspec_Limits (psrv_Spec ps)))
    None.

Definition has_sources (ps : PolicyServer) : bool :=
  (0 <? length (default [] (pspec_InsecureSources (psrv_Spec ps)))) ||
  bool_decide (0 < size (pspec_SourceAuthorities (psrv_Spec ps))).

Definition configureVerificationConfig (ps : PolicyServer) (c : Container) : Container :=
  if bool_decide (pspec_VerificationConfig (psrv_Spec ps) ≠ "")
  then ct_add_env (env "KUBEWARDEN_VERIFICATION_CONFIG_PATH"
         (filepath_Join [PolicyServerVerificationConfigContainerPath; verificationFilename]))
         (ct_add_mounts [mkVolumeMount verificationConfigVolumeName true
            PolicyServerVerificationConfigContainerPath] c)
  else c.
Definition configureImagePullSecret (ps : PolicyServer) (c : Container) : Container :=
  if bool_decide (pspec_ImagePullSecret (psrv_Spec ps) ≠ "")
  then ct_add_env (env "KUBEWARDEN_DOCKER_CONFIG_JSON_PATH" dockerConfigJSONPolicyServerPath)
         (ct_add_mounts [mkVolumeMount imagePullSecretVolumeName true
            dockerConfigJSONPolicyServerPath] c)
  else c.
Definition configuresInsecureSources (ps : PolicyServer) (c : Container) : Container :=
  if has_sources ps
  then ct_add_env (env "KUBEWARDEN_SOURCES_PATH"
         (filepath_Join [PolicyServerSourcesConfigContainerPath; sourcesFilename]))
         (ct_add_mounts [mkVolumeMount sourcesVolumeName true
            PolicyServerSourcesConfigContainerPath] c)
  else c.

Definition configureLabelsAndAnnotations (d : Deployment) (ps : PolicyServer)
    (configMapVersion : string) : Deployment :=
  let m := d_Meta d in
  let m := om_set_Annotations
    (<[PolicyServerDeploymentConfigVersionAnnotation := configMapVersion]> (om_Annotations m)) m in
  let m := om_set_Labels (<[PolicyServerLabelKey := psrv_Name ps]>
             (<[AppLabelKey := AppLabel ps]> (om_Labels m))) m in
  d_set_Meta m d.

Definition buildPolicyServerDeploymentSpec (ps : PolicyServer) (c : Container)
    (configMapVersion : string) (templateAnnotations : gmap string string)
    (podSecurityContext : json) : DeploymentSpec :=
  mkDeploymentSpec (pspec_Replicas (psrv_Spec ps))
    (mkLabelSelector {[ AppLabelKey := AppLabel ps ]} [])
    "RollingUpdate"
    (mkPodTemplate
       {[ AppLabelKey := AppLabel ps;
          PolicyServerDeploymentPodSpecConfigVersionLabel := configMapVersion;
          PolicyServerLabelKey := psrv_Name ps ]}
       templateAnnotations
       (mkPodSpec podSecurityContext [c] (pspec_ServiceAccountName (psrv_Spec ps))
          (pspec_Tolerations (psrv_Spec ps)) (pspec_Affinity (psrv_Spec ps))
          [mkVolume policyStoreVolume VSEmptyDir;
           mkVolume certsVolumeName (VSSecret (NameWithPrefix ps) [] None);
           mkVolume policiesVolumeName
             (VSConfigMap (NameWithPrefix ps)
                [mkKeyToPath PolicyServerConfigPoliciesEntry policiesFilename])])).

Definition adaptDeploymentSettingsForPolicyServer (d : Deployment) (ps : PolicyServer)
    : Deployment :=
  let d := if bool_decide (pspec_VerificationConfig (psrv_Spec ps) ≠ "")
    then d_add_volumes [mkVolume verificationConfigVolumeName
           (VSConfigMap (pspec_VerificationConfig (psrv_Spec ps))
              [mkKeyToPath PolicyServerVerificationConfigEntry verificationFilename])] d
    else d in
  let d := if bool_decide (pspec_ImagePullSecret (psrv_Spec ps) ≠ "")
    then d_add_volumes [mkVolume imagePullSecretVolumeName
           (VSSecret (pspec_ImagePullSecret (psrv_Spec ps))
              [mkKeyToPath ".dockerconfigjson" "config.json"] None)] d
    else d in
  if has_sources ps
  then d_add_volumes [mkVolume sourcesVolumeName (VSConfigMap (NameWithPrefix ps) [])] d
  else d.

(** ** Telemetry *)

Definition otelEnvVarToReplicate : list string :=
  ["OTEL_EXPORTER_OTLP_CERTIFICATE"; "OTEL_EXPORTER_OTLP_CLIENT_CERTIFICATE";
   "OTEL_EXPORTER_OTLP_CLIENT_KEY"; "OTEL_EXPORTER_OTLP_COMPRESSION";
   "OTEL_EXPORTER_OTLP_ENDPOINT"; "OTEL_EXPORTER_OTLP_HEADERS";
   "OTEL_EXPORTER_OTLP_INSECURE"; "OTEL_EXPORTER_OTLP_METRICS_CERTIFICATE";
   "OTEL_EXPORTER_OTLP_METRICS_CLIENT_CERTIFICATE"; "OTEL_EXPORTER_OTLP_METRICS_CLIENT_KEY";
   "OTEL_EXPORTER_OTLP_METRICS_COMPRESSION";
   "OTEL_EXPORTER_OTLP_METRICS_DEFAULT_HISTOGRAM_AGGREGATION";
   "OTEL_EXPORTER_OTLP_METRICS_ENDPOINT"; "OTEL_EXPORTER_OTLP_METRICS_HEADERS";
   "OTEL_EXPORTER_OTLP_METRICS_INSECURE"; "OTEL_EXPORTER_OTLP_METRICS_TEMPORALITY_PREFERENCE";
   "OTEL_EXPORTER_OTLP_METRICS_TIMEOUT"; "OTEL_EXPORTER_OTLP_TIMEOUT";
   "OTEL_EXPORTER_OTLP_TRACES_CERTIFICATE"; "OTEL_EXPORTER_OTLP_TRACES_CLIENT_CERTIFICATE";
   "OTEL_EXPORTER_OTLP_TRACES_CLIENT_KEY"; "OTEL_EXPORTER_OTLP_TRACES_COMPRESSION";
   "OTEL_EXPORTER_OTLP_TRACES_ENDPOINT"; "OTEL_EXPORTER_OTLP_TRACES_HEADERS";
   "OTEL_EXPORTER_OTLP_TRACES_INSECURE"; "OTEL_EXPORTER_OTLP_TRACES_TIMEOUT"].

(** The functions below read the controller's environment. *)
Section telemetry.
Variable getenv : string → string.

Definition otel_volume (name secret : string) : Volume :=
  mkVolume name (VSSecret secret [] (Some defaultOtelCertificateMountMode)).

Definition setOtelCertificateMounts (d : Deployment)
    (otelCertificateSecret otelClientCertificateSecret : string) : Deployment :=
  let certificatePath := filepath_Dir (getenv "OTEL_EXPORTER_OTLP_CERTIFICATE") in
  let d := if bool_decide (otelCertificateSecret ≠ "")
    then d_update_container
           (ct_add_mounts [mkVolumeMount otelCertificateVolumeName true certificatePath])
           (d_add_volumes [otel_volume otelCertificateVolumeName otelCertificateSecret] d)
    else d in
  let clientCertificatePath :=
    filepath_Dir (getenv "OTEL_EXPORTER_OTLP_CLIENT_CERTIFICATE") in
  if bool_decide (otelClientCertificateSecret ≠ "")
  then d_update_container
         (ct_add_mounts
            [mkVolumeMount otelClientCertificateVolumeName true clientCertificatePath])
         (d_add_volumes
            [otel_volume otelClientCertificateVolumeName otelClientCertificateSecret] d)
  else d.

Definition replicateOtelEnvVars (d : Deployment) : Deployment :=
  fold_left (λ d envVar,
    let value := getenv envVar in
    if bool_decide (value ≠ "") then d_update_container (set_env (env envVar value)) d else d)
    otelEnvVarToReplicate d.

(** [templateAnnotations] is written in place: the sidecar annotation is in
    [sidecar_annotations]. *)
Definition adaptDeploymentForMetricsAndTracingConfiguration (tc : TelemetryConfiguration)
    (d : Deployment) : Deployment :=
  let d := if tc_MetricsEnabled tc
    then d_update_container (set_env (env PolicyServerEnableMetricsEnvVar "true")) d else d in
  let d := if tc_TracingEnabled tc
    then d_update_container (set_env (env PolicyServerLogFmtEnvVar "otlp")) d else d in
  let telemetry := tc_MetricsEnabled tc || tc_TracingEnabled tc in
  let d := if telemetry && negb (tc_OtelSidecarEnabled tc)
    then replicateOtelEnvVars
           (setOtelCertificateMounts d (tc_OtelCertificateSecret tc)
              (tc_OtelClientCertificateSecret tc))
    else d in
  if telemetry && tc_OtelSidecarEnabled tc
  then d_update_container (set_env (env "OTEL_EXPORTER_OTLP_ENDPOINT" "http://localhost:4317")) d
  else d.
Definition sidecar_annotations (tc : TelemetryConfiguration) (a : gmap string string)
    : gmap string string :=
  if (tc_MetricsEnabled tc || tc_TracingEnabled tc) && tc_OtelSidecarEnabled tc
  then <[OptelInjectAnnotation := "true"]> a else a.
End telemetry.

Section update.
Context {World : Type} `{K8sUtil, KubeClient World, Environment World}.
Variable r : PolicyServerReconciler.

Definition mutual_tls_volumes : list Volume :=
  [mkVolume kubewardenCAVolumeName
     (VSSecret CARootSecretName [mkKeyToPath CARootCert CARootCert] None);
   mkVolume clientCAVolumeName
     (VSConfigMap (r_ClientCAConfigMapName r) [mkKeyToPath ClientCACert ClientCACert])].
Definition mutual_tls_mounts : list VolumeMount :=
  [mkVolumeMount kubewardenCAVolumeName true kubewardenCAVolumePath;
   mkVolumeMount clientCAVolumeName true clientCAVolumePath].

Definition configureMutualTLS (d : Deployment) : M World Deployment :=
  if bool_decide (r_ClientCAConfigMapName r ≠ "") then
    wrap_err (ErrWrap "failed to fetch client CA config map")
      (read (Get KConfigMap (mkNN (r_DeploymentsNamespace r) (r_ClientCAConfigMapName r)))) ;;
    let kubewardenCAPath := filepath_Join [kubewardenCAVolumePath; CARootCert] in
    let clientCAPath := filepath_Join [clientCAVolumePath; ClientCACert] in
    mret (d_update_container
            (λ c, ct_add_env (env "KUBEWARDEN_CLIENT_CA_FILE"
                                (kubewardenCAPath +:+ "," +:+ clientCAPath))
                    (ct_add_mounts mutual_tls_mounts c))
            (d_add_volumes mutual_tls_volumes d))
  else mret d.

(** The container before the deployment is built. *)
Definition admission_container (ps : PolicyServer) : Container :=
  let c := getPolicyServerContainer ps in
  let c := if r_AlwaysAcceptAdmissionReviewsInDeploymentsNamespace r
    then ct_add_env (env "KUBEWARDEN_ALWAYS_ACCEPT_ADMISSION_REVIEWS_ON_NAMESPACE"
                       (r_DeploymentsNamespace r)) c else c in
  let c := configuresInsecureSources ps
             (configureImagePullSecret ps (configureVerificationConfig ps c)) in
  ct_set_SecurityContext
    (Some (default defaultContainerSecurityContext
             (pss_Container (pspec_SecurityContexts (psrv_Spec ps))))) c.

(** The deployment before mutual TLS and the owner are set. *)
Definition configured_deployment (getenv : string → string) (ps : PolicyServer)
    (d : Deployment) (configMapVersion : string) : Deployment :=
  let podSecurityContext :=
    default (JObj []) (pss_Pod (pspec_SecurityContexts (psrv_Spec ps))) in
  let templateAnnotations :=
    sidecar_annotations (r_TelemetryConfiguration r)
      (default ∅ (pspec_Annotations (psrv_Spec ps))) in
  let d := configureLabelsAndAnnotations d ps configMapVersion in
  let d := mkDeployment (d_Meta d)
    (buildPolicyServerDeploymentSpec ps (admission_container ps) configMapVersion
       templateAnnotations podSecurityContext) in
  let d := adaptDeploymentForMetricsAndTracingConfiguration getenv
             (r_TelemetryConfiguration r) d in
  adaptDeploymentSettingsForPolicyServer d ps.

Definition updatePolicyServerDeployment (ps : PolicyServer) (d : Deployment)
    (configMapVersion : string) : M World Deployment :=
  d ← gets (λ w, configured_deployment (λ name, Getenv name w) ps d configMapVersion);
  d ← wrap_err (ErrWrap "failed to configure mutual TLS") (configureMutualTLS d);
  m ← set_owner "failed to set policy server deployment owner reference" ps (d_Meta d);
  mret (d_set_Meta m d).

Definition empty_deployment (ps : PolicyServer) : Deployment :=
  mkDeployment (named_meta (r_DeploymentsNamespace r) (NameWithPrefix ps))
    (mkDeploymentSpec 0 (mkLabelSelector ∅ []) ""
       (mkPodTemplate ∅ ∅ (mkPodSpec JNull [] "" [] JNull []))).

Definition reconcilePolicyServerDeployment (ps : PolicyServer) : M World unit :=
  configMapVersion ← wrap_err (ErrWrap "cannot get policy-server ConfigMap version")
    (policyServerConfigMapVersion r ps);
  wrap_err (ErrWrap "error reconciling policy-server deployment")
    (CreateOrPatch KDeployment (empty_deployment ps)
       (λ d, updatePolicyServerDeployment ps d configMapVersion)) ;;
  mret tt.
End update.

(** ** Environment variables *)

Lemma envVars_Some l name i :
  envVarsContainVariable l name = Some i → ∃ e, l !! i = Some e ∧ ev_Name e = name.
Proof.
  revert i. induction l as [|e l IH]; intros i; simpl; [done|].
  case_bool_decide as He; [intros [= <-]; by exists e|].
  intros (j & Hj & ->)%fmap_Some. by apply IH.
Qed.
Lemma envVars_None l name : envVarsContainVariable l name = None ↔ name ∉ ev_Name <$> l.
Proof.
  induction l as [|e l IH]; [split; [intros _ ?%elem_of_nil; done|done]|].
  rewrite fmap_cons, not_elem_of_cons. cbn [envVarsContainVariable]. case_bool_decide; [naive_solver|].
  rewrite fmap_None, IH. naive_solver.
Qed.

Lemma set_env_names e c :
  ev_Name <$> ct_Env (set_env e c) =
  (ev_Name <$> ct_Env c) ++
    (if envVarsContainVariable (ct_Env c) (ev_Name e) then [] else [ev_Name e]).
Proof.
  unfold set_env. destruct (envVarsContainVariable (ct_Env c) (ev_Name e)) as [i|] eqn:Hi; cbn.
  - apply envVars_Some in Hi as (e' & He' & Hn). rewrite app_nil_r, list_fmap_insert, <-Hn.
    apply list_insert_id. by rewrite list_lookup_fmap, He'.
  - by rewrite fmap_app.
Qed.

(** Setting an environment variable is an upsert: the variable is there
    once more at most (never twice when it was there once at most), has the
    given value, and the other variables keep theirs. *)
Theorem set_env_upserts (e : EnvVar) (c : Container) :
  NoDup (ev_Name <$> ct_Env c) →
  NoDup (ev_Name <$> ct_Env (set_env e c)) ∧
  e ∈ ct_Env (set_env e c) ∧
  ∀ e', ev_Name e' ≠ ev_Name e → e' ∈ ct_Env (set_env e c) ↔ e' ∈ ct_Env c.
Proof.
  intros Hnd. split; [|split].
  - rewrite set_env_names.
    destruct (envVarsContainVariable (ct_Env c) (ev_Name e)) eqn:Hi; [by rewrite app_nil_r|].
    apply envVars_None in Hi. apply NoDup_app. split_and!; [done| |apply NoDup_singleton].
    intros x Hx Hx'. set_solver.
  - unfold set_env. destruct (envVarsContainVariable _ _) as [i|] eqn:Hi; cbn; [|set_solver].
    apply envVars_Some in Hi as (e' & He' & _).
    apply list_elem_of_lookup. exists i. by apply list_lookup_insert_eq, lookup_lt_Some with e'.
  - intros e' Hne. unfold set_env.
    destruct (envVarsContainVariable _ _) as [i|] eqn:Hi; cbn; [|set_solver].
    apply envVars_Some in Hi as (e0 & He0 & Hn).
    rewrite !list_elem_of_lookup. split; intros [j Hj].
    + exists j. destruct (decide (i = j)) as [<-|Hij].
      * rewrite list_lookup_insert_eq in Hj by (by eapply lookup_lt_Some). by simplify_eq.
      * by rewrite list_lookup_insert_ne in Hj.
    + exists j. destruct (decide (i = j)) as [<-|Hij]; [by simplify_eq|].
      by rewrite list_lookup_insert_ne.
Qed.

(** ** Volumes and mounts *)

(** The pod has one container, with mounts of these names, and volumes of
    these names. *)
Definition pod_shape (d : Deployment) (mounts volumes : list string) : Prop :=
  ∃ c, ps_Containers (d_pod d) = [c] ∧ vm_Name <$> ct_VolumeMounts c = mounts ∧
    v_Name <$> ps_Volumes (d_pod d) = volumes.

Lemma d_pod_set p d : d_pod (d_set_pod p d) = p.
Proof. done. Qed.
Lemma shape_update f new d ms vs :
  (∀ c, vm_Name <$> ct_VolumeMounts (f c) = (vm_Name <$> ct_VolumeMounts c) ++ new) →
  pod_shape d ms vs → pod_shape (d_update_container f d) (ms ++ new) vs.
Proof.
  intros Hf (c & Hc & Hm & Hv). exists (f c).
  unfold d_update_container. rewrite d_pod_set. cbn [ps_Containers ps_Volumes]. rewrite Hc.
  split_and!; try done. by rewrite Hf, Hm.
Qed.
Lemma shape_env e d ms vs : pod_shape d ms vs → pod_shape (d_update_container (set_env e) d) ms vs.
Proof.
  intros Hd. rewrite <-(app_nil_r ms). apply shape_update; [|done]. intros c.
  rewrite app_nil_r. unfold set_env. by destruct (envVarsContainVariable _ _).
Qed.
Lemma shape_mounts new d ms vs :
  pod_shape d ms vs →
  pod_shape (d_update_container (ct_add_mounts new) d) (ms ++ (vm_Name <$> new)) vs.
Proof. apply shape_update. intros c. apply fmap_app. Qed.
Lemma shape_volumes new d ms vs :
  pod_shape d ms vs → pod_shape (d_add_volumes new d) ms (vs ++ (v_Name <$> new)).
Proof.
  intros (c & Hc & Hm & Hv). exists c.
  unfold d_add_volumes. rewrite d_pod_set. cbn [ps_Containers ps_Volumes].
  split_and!; try done. by rewrite fmap_app, Hv.
Qed.

(** An optional name. *)
Definition opt (b : bool) (name : string) : list string := if b then [name] else [].

Lemma replicate_shape getenv d ms vs :
  pod_shape d ms vs → pod_shape (replicateOtelEnvVars getenv d) ms vs.
Proof.
  unfold replicateOtelEnvVars. generalize otelEnvVarToReplicate. intros l. revert d.
  induction l as [|n l IH]; intros d Hd; simpl; [done|].
  apply IH. case_bool_decide; [by apply shape_env|done].
Qed.

Lemma otel_shape getenv d s1 s2 ms vs :
  pod_shape d ms vs →
  let o := opt (bool_decide (s1 ≠ "")) otelCertificateVolumeName ++
           opt (bool_decide (s2 ≠ "")) otelClientCertificateVolumeName in
  pod_shape (setOtelCertificateMounts getenv d s1 s2) (ms ++ o) (vs ++ o).
Proof.
  intros Hd. cbv zeta. rewrite !app_assoc. unfold setOtelCertificateMounts.
  set (d1 := if bool_decide (s1 ≠ "") then _ else d).
  assert (pod_shape d1 (ms ++ opt (bool_decide (s1 ≠ "")) otelCertificateVolumeName)
            (vs ++ opt (bool_decide (s1 ≠ "")) otelCertificateVolumeName)) as H1.
  { unfold d1, opt. case_bool_decide; [|by rewrite !app_nil_r].
    exact (shape_mounts [_] _ _ _ (shape_volumes [_] _ _ _ Hd)). }
  clearbody d1. destruct (bool_decide (s2 ≠ "")); cbn [opt]; [|by rewrite !app_nil_r].
  exact (shape_mounts [_] _ _ _ (shape_volumes [_] _ _ _ H1)).
Qed.

Lemma metrics_shape getenv tc d ms vs :
  pod_shape d ms vs →
  ∃ b1 b2, let o := opt b1 otelCertificateVolumeName ++ opt b2 otelClientCertificateVolumeName in
    pod_shape (adaptDeploymentForMetricsAndTracingConfiguration getenv tc d) (ms ++ o) (vs ++ o).
Proof.
  intros Hd. unfold adaptDeploymentForMetricsAndTracingConfiguration. cbv zeta.
  set (d1 := if tc_MetricsEnabled tc then _ else d).
  assert (pod_shape d1 ms vs) as H1 by (unfold d1; case_match; [by apply shape_env|done]).
  set (d2 := if tc_TracingEnabled tc then _ else d1).
  assert (pod_shape d2 ms vs) as H2 by (unfold d2; case_match; [by apply shape_env|done]).
  destruct ((tc_MetricsEnabled tc || tc_TracingEnabled tc) && negb (tc_OtelSidecarEnabled tc)).
  - do 2 eexists. case_match; [apply shape_env|]; apply replicate_shape, otel_shape, H2.
  - exists false, false. cbn. rewrite !app_nil_r. case_match; [by apply shape_env|done].
Qed.

(** The optional volumes of a policy server's own settings. *)
Definition settings_volumes (ps : PolicyServer) : list string :=
  opt (bool_decide (pspec_VerificationConfig (psrv_Spec ps) ≠ "")) verificationConfigVolumeName ++
  opt (bool_decide (pspec_ImagePullSecret (psrv_Spec ps) ≠ "")) imagePullSecretVolumeName ++
  opt (has_sources ps) sourcesVolumeName.

Lemma settings_shape d ps ms vs :
  pod_shape d ms vs →
  pod_shape (adaptDeploymentSettingsForPolicyServer d ps) ms (vs ++ settings_volumes ps).
Proof.
  intros Hd. unfold adaptDeploymentSettingsForPolicyServer, settings_volumes, opt.
  rewrite !app_assoc.
  set (d1 := if bool_decide (pspec_VerificationConfig _ ≠ "") then _ else d).
  set (d2 := if bool_decide (pspec_ImagePullSecret _ ≠ "") then _ else d1).
  assert (pod_shape d1 ms (vs ++ (if bool_decide (pspec_VerificationConfig (psrv_Spec ps) ≠ "")
                                  then [verificationConfigVolumeName] else []))) as H1.
  { unfold d1. case_match; [exact (shape_volumes [_] _ _ _ Hd)|by rewrite app_nil_r]. }
  assert (pod_shape d2 ms ((vs ++ (if bool_decide (pspec_VerificationConfig (psrv_Spec ps) ≠ "")
            then [verificationConfigVolumeName] else [])) ++
          (if bool_decide (pspec_ImagePullSecret (psrv_Spec ps) ≠ "")
           then [imagePullSecretVolumeName] else []))) as H2.
  { unfold d2. destruct (bool_decide (pspec_ImagePullSecret _ ≠ ""));
      [exact (shape_volumes [_] _ _ _ H1)|by rewrite app_nil_r]. }
  destruct (has_sources ps); [exact (shape_volumes [_] _ _ _ H2)|by rewrite app_nil_r].
Qed.

Lemma admission_container_mounts r ps :
  vm_Name <$> ct_VolumeMounts (admission_container r ps) =
  [certsVolumeName; policiesVolumeName; policyStoreVolume] ++ settings_volumes ps.
Proof.
  unfold admission_container, configuresInsecureSources, configureImagePullSecret,
    configureVerificationConfig, settings_volumes, opt. cbn [ct_set_SecurityContext ct_VolumeMounts].
  destruct (r_AlwaysAcceptAdmissionReviewsInDeploymentsNamespace r), (has_sources ps);
    repeat case_bool_decide; reflexivity.
Qed.

(** ** Well-formed deployments *)

(** Every mount has its volume, volume names are distinct, and the selectors
    of the deployment, of the service and of the disruption budget select the
    pods of the template. *)
Record deployment_wf (ps : PolicyServer) (version : string) (d : Deployment) : Prop := {
  wf_mounts c m : c ∈ ps_Containers (d_pod d) → m ∈ ct_VolumeMounts c →
    ∃ v, v ∈ ps_Volumes (d_pod d) ∧ v_Name v = vm_Name m;
  wf_volumes : NoDup (v_Name <$> ps_Volumes (d_pod d));
  wf_selector : ls_MatchLabels (ds_Selector (d_Spec d)) ⊆ pt_Labels (ds_Template (d_Spec d));
  wf_service : app_labels ps ⊆ pt_Labels (ds_Template (d_Spec d));
  wf_pdb : {[ AppLabelKey := AppLabel ps; PolicyServerLabelKey := psrv_Name ps ]}
             ⊆ pt_Labels (ds_Template (d_Spec d));
  wf_version : om_Annotations (d_Meta d) !! PolicyServerDeploymentConfigVersionAnnotation
               = Some version;
  wf_pod_version :
    pt_Labels (ds_Template (d_Spec d)) !! PolicyServerDeploymentPodSpecConfigVersionLabel
    = Some version;
}.

Definition all_volume_names : list string :=
  [policyStoreVolume; certsVolumeName; policiesVolumeName; otelCertificateVolumeName;
   otelClientCertificateVolumeName; verificationConfigVolumeName; imagePullSecretVolumeName;
   sourcesVolumeName; kubewardenCAVolumeName; clientCAVolumeName].

Lemma all_volume_names_NoDup : NoDup all_volume_names.
Proof. apply (bool_decide_unpack _). vm_compute. exact I. Qed.

Lemma opt_sublist b n : opt b n `sublist_of` [n].
Proof. destruct b; cbn; [done|apply sublist_nil_l]. Qed.

Lemma shape_wf d ps (b1 b2 : bool) (tls : list string) :
  let o := opt b1 otelCertificateVolumeName ++ opt b2 otelClientCertificateVolumeName in
  pod_shape d
    ((([certsVolumeName; policiesVolumeName; policyStoreVolume] ++ settings_volumes ps) ++ o) ++ tls)
    ((([policyStoreVolume; certsVolumeName; policiesVolumeName] ++ o) ++ settings_volumes ps) ++ tls) →
  tls = [] ∨ tls = [kubewardenCAVolumeName; clientCAVolumeName] →
  (∀ c m, c ∈ ps_Containers (d_pod d) → m ∈ ct_VolumeMounts c →
     ∃ v, v ∈ ps_Volumes (d_pod d) ∧ v_Name v = vm_Name m) ∧
  NoDup (v_Name <$> ps_Volumes (d_pod d)).
Proof.
  intros o (c & Hc & Hm & Hv) Htls. split.
  - intros c' m Hc' Hmm. rewrite Hc in Hc'. apply list_elem_of_singleton in Hc' as ->.
    assert (vm_Name m ∈ v_Name <$> ps_Volumes (d_pod d)) as Hin.
    { rewrite Hv. apply (list_elem_of_fmap_2 vm_Name) in Hmm. rewrite Hm in Hmm.
      revert Hmm. clear. generalize (settings_volumes ps) o. set_solver. }
    apply list_elem_of_fmap in Hin as (v & ? & ?). by exists v.
  - rewrite Hv. eapply sublist_NoDup; [apply all_volume_names_NoDup|].
    change all_volume_names with
      ((([policyStoreVolume; certsVolumeName; policiesVolumeName] ++
         [otelCertificateVolumeName] ++ [otelClientCertificateVolumeName]) ++
        ([verificationConfigVolumeName] ++ [imagePullSecretVolumeName] ++ [sourcesVolumeName])) ++
       [kubewardenCAVolumeName; clientCAVolumeName]).
    unfold o, settings_volumes. repeat apply sublist_app; auto using opt_sublist.
    destruct Htls as [->| ->]; [apply sublist_nil_l|done].
Qed.

(** What the steps after the template was built leave alone. *)
Definition d_frame (d : Deployment) :=
  (d_Meta d, ds_Selector (d_Spec d), pt_Labels (ds_Template (d_Spec d)),
   pt_Annotations (ds_Template (d_Spec d))).

Lemma replicate_frame getenv d : d_frame (replicateOtelEnvVars getenv d) = d_frame d.
Proof.
  unfold replicateOtelEnvVars. generalize otelEnvVarToReplicate. intros l. revert d.
  induction l as [|n l IH]; intros d; simpl; [done|]. rewrite IH. by case_bool_decide.
Qed.
Lemma metrics_frame getenv tc d :
  d_frame (adaptDeploymentForMetricsAndTracingConfiguration getenv tc d) = d_frame d.
Proof.
  unfold adaptDeploymentForMetricsAndTracingConfiguration, setOtelCertificateMounts.
  destruct (tc_MetricsEnabled tc), (tc_TracingEnabled tc), (tc_OtelSidecarEnabled tc);
    cbn [orb andb negb]; try done; rewrite replicate_frame; by repeat case_bool_decide.
Qed.
Lemma settings_frame d ps : d_frame (adaptDeploymentSettingsForPolicyServer d ps) = d_frame d.
Proof.
  unfold adaptDeploymentSettingsForPolicyServer.
  destruct (has_sources ps); by repeat case_bool_decide.
Qed.

Lemma template_labels ps version :
  let labels : gmap string string :=
    {[ AppLabelKey := AppLabel ps;
       PolicyServerDeploymentPodSpecConfigVersionLabel := version;
       PolicyServerLabelKey := psrv_Name ps ]} in
  ({[ AppLabelKey := AppLabel ps ]} : gmap string string) ⊆ labels ∧
  ({[ AppLabelKey := AppLabel ps; PolicyServerLabelKey := psrv_Name ps ]} : gmap string string)
    ⊆ labels ∧
  labels !! PolicyServerDeploymentPodSpecConfigVersionLabel = Some version.
Proof.
  cbv zeta. split_and!.
  - apply map_singleton_subseteq_l. by rewrite lookup_insert_eq.
  - apply insert_mono. apply map_singleton_subseteq_l.
    rewrite lookup_insert_ne by done. apply lookup_singleton_eq.
  - by rewrite lookup_insert_ne, lookup_insert_eq.
Qed.

Section deployment_theorems.
Context {World : Type} `{K8sUtil, !K8sUtilLaws, KubeClient World, Environment World,
  !KubeClientLaws World}.
Implicit Types (w : World) (r : PolicyServerReconciler) (ps : PolicyServer).

Lemma configured_shape r getenv ps d version :
  let d' := configured_deployment r getenv ps d version in
  ∃ b1 b2, let o := opt b1 otelCertificateVolumeName ++ opt b2 otelClientCertificateVolumeName in
  pod_shape d'
    (([certsVolumeName; policiesVolumeName; policyStoreVolume] ++ settings_volumes ps) ++ o)
    (([policyStoreVolume; certsVolumeName; policiesVolumeName] ++ o) ++ settings_volumes ps).
Proof.
  intros d'. unfold d', configured_deployment.
  set (d0 := mkDeployment _ (buildPolicyServerDeploymentSpec _ _ _ _ _)).
  assert (pod_shape d0
    ([certsVolumeName; policiesVolumeName; policyStoreVolume] ++ settings_volumes ps)
    [policyStoreVolume; certsVolumeName; policiesVolumeName]) as H0'.
  { exists (admission_container r ps). split; [done|].
    split; [apply admission_container_mounts|done]. }
  destruct (metrics_shape getenv (r_TelemetryConfiguration r) _ _ _ H0') as (b1 & b2 & Hm).
  exists b1, b2. by apply settings_shape.
Qed.

Lemma configureMutualTLS_inv r d w d' w' ms vs :
  configureMutualTLS r d w = (Ok d', w') → pod_shape d ms vs →
  w' = w ∧ d_frame d' = d_frame d ∧
  ∃ tls, (tls = [] ∨ tls = [kubewardenCAVolumeName; clientCAVolumeName]) ∧
    pod_shape d' (ms ++ tls) (vs ++ tls).
Proof.
  unfold configureMutualTLS. intros Hrun Hd. case_bool_decide; inv_run Hrun; subst.
  - split_and!; try done. eexists. split; [by right|].
    apply shape_update; [intros c; cbn; by rewrite fmap_app|].
    exact (shape_volumes (mutual_tls_volumes r) _ _ _ Hd).
  - split_and!; try done. exists []. rewrite !app_nil_r. auto.
Qed.

Lemma updateDeployment_wf r ps d version w d' w' :
  updatePolicyServerDeployment r ps d version w = (Ok d', w') →
  w' = w ∧ deployment_wf ps version d' ∧
  om_key (d_Meta d') = om_key (d_Meta d).
Proof.
  unfold updatePolicyServerDeployment. intros Hrun. inv_run Hrun. subst.
  set (getenv := λ name, Getenv name w) in *.
  destruct (configured_shape r getenv ps d version) as (b1 & b2 & Hsh).
  match goal with Ht : configureMutualTLS _ _ _ = _ |- _ =>
    apply (configureMutualTLS_inv _ _ _ _ _ _ _ Ht) in Hsh
      as (-> & Hfr & tls & Htls & Hsh) end.
  match goal with Hs : set_owner _ _ _ _ = _ |- _ =>
    apply set_owner_inv in Hs as [-> [owners ->]] end.
  split; [done|].
  assert (d_frame (configured_deployment r getenv ps d version) =
          d_frame (mkDeployment (d_Meta (configureLabelsAndAnnotations d ps version))
            (buildPolicyServerDeploymentSpec ps (admission_container r ps) version
              (sidecar_annotations (r_TelemetryConfiguration r)
                (default ∅ (pspec_Annotations (psrv_Spec ps))))
              (default (JObj []) (pss_Pod (pspec_SecurityContexts (psrv_Spec ps))))))) as Hfr0.
  { unfold configured_deployment. by rewrite settings_frame, metrics_frame. }
  rewrite Hfr0 in Hfr. injection Hfr as Hmeta Hsel Hlab _.
  destruct (template_labels ps version) as (Hl1 & Hl2 & Hl3).
  apply (shape_wf _ ps b1 b2 tls) in Hsh as [Hmounts Hnd]; [|done].
  split; [split; try done; cbn [d_set_Meta d_Meta d_Spec]|].
  - rewrite Hsel, Hlab. exact Hl1.
  - rewrite Hlab. exact Hl1.
  - rewrite Hlab. exact Hl2.
  - cbn. rewrite Hmeta. apply lookup_insert_eq.
  - rewrite Hlab. exact Hl3.
  - cbn. by rewrite Hmeta.
Qed.

(** (C18) The Deployment of a policy server is consistent: whenever its update
    succeeds, whatever the features enabled and whatever deployment was
    there, every volume mount has its volume, volume names are distinct, the
    selectors of the deployment, the service and the disruption budget match
    the pods it creates, and both its annotation and the pods' label carry
    the version of the configuration. *)
Theorem updatePolicyServerDeployment_wf r ps (d : Deployment) (version : string) w d' w' :
  updatePolicyServerDeployment r ps d version w = (Ok d', w') →
  deployment_wf ps version d' ∧ om_key (d_Meta d') = om_key (d_Meta d) ∧ w' = w.
Proof. intros (-> & ? & ?)%updateDeployment_wf. done. Qed.

(** After a successful reconciliation the Deployment in the cluster is
    the policy server's, annotated with the resource version of its current
    ConfigMap; no other object changed. *)
Lemma reconcileDeployment_inv r ps w w' :
  reconcilePolicyServerDeployment r ps w = (Ok tt, w') →
  let key := mkNN (r_DeploymentsNamespace r) (NameWithPrefix ps) in
  same_but KDeployment key w w' ∧
  ∃ cfg d, Get KConfigMap key w = inr cfg ∧ Get KDeployment key w' = inr d ∧
    om_Annotations (d_Meta d) !! PolicyServerDeploymentConfigVersionAnnotation
      = Some (om_ResourceVersion (cm_Meta cfg)) ∧
    pt_Labels (ds_Template (d_Spec d)) !! PolicyServerDeploymentPodSpecConfigVersionLabel
      = Some (om_ResourceVersion (cm_Meta cfg)) ∧
    ls_MatchLabels (ds_Selector (d_Spec d)) ⊆ pt_Labels (ds_Template (d_Spec d)).
Proof.
  intros Hrun key.
  unfold reconcilePolicyServerDeployment, policyServerConfigMapVersion in Hrun.
  inv_run Hrun. subst.
  match goal with Hc : CreateOrPatch _ _ _ _ = _ |- _ =>
    apply CreateOrPatch_ok in Hc
      as (base & o & w1 & _ & Hf & _ & [Hm (Hsel & Hlab & _)] & Hget & Hsame) end.
  apply updateDeployment_wf in Hf as (-> & Hwf & _).
  split; [exact Hsame|]. do 2 eexists. split; [eassumption|]. split; [exact Hget|].
  destruct Hm as (_ & _ & _ & Han & _). cbn in Hsel, Hlab, Han.
  rewrite Hsel, Hlab, Han. destruct Hwf. done.
Qed.
End deployment_theorems.

(** ** Witnesses *)

Section witnesses.
#[local] Existing Instance concrete_util.
#[local] Existing Instance fake_client.
#[local] Existing Instance fake_env.

(** A server that uses every option. *)
Definition full_reconciler : PolicyServerReconciler :=
  mkPolicyServerReconciler (mkTelemetry true true false "otel-cert" "otel-client-cert")
    "kubewarden" true "client-ca".
Definition full_server : PolicyServer :=
  mkPolicyServer (named_meta "" "default")
    (mkPolicyServerSpec "ghcr.io/kubewarden/policy-server" 2 None None
       (Some {[ "a" := "b" ]}) [env "KUBEWARDEN_LOG_FMT" "text"] "sa" "pull-secret"
       (Some ["registry"]) {[ "uri" := ["pem"] ]} "verification-config"
       (mkPolicyServerSecurity None None) JNull ∅ ∅ [])
    (mkPolicyServerStatus []).
Definition deployment_world : FakeWorld :=
  mkFakeWorld
    (store_map KConfigMap
       (λ m, <[mkNN "kubewarden" "client-ca" := mkConfigMap (named_meta "kubewarden" "client-ca") ∅]>
         (<[mkNN "kubewarden" "policy-server-default" :=
           mkConfigMap (om_set_ResourceVersion "42"
                          (named_meta "kubewarden" "policy-server-default")) ∅]> m))
       empty_store)
    (λ _ _, None) 1000000000 1 {[ "OTEL_EXPORTER_OTLP_CERTIFICATE" := "/certs/otel/ca.crt" ]}.

Definition deployment_of (o : Outcome Deployment) : Deployment :=
  match o with Ok d => d | _ => empty_deployment full_reconciler full_server end.

Lemma set_env_upserts_witness :
  NoDup (ev_Name <$> ct_Env (set_env (env "KUBEWARDEN_LOG_FMT" "otlp")
                               (getPolicyServerContainer full_server))).
Proof.
  apply set_env_upserts. apply (bool_decide_unpack _). vm_compute. exact I.
Defined.

Lemma updatePolicyServerDeployment_wf_witness :
  let run := updatePolicyServerDeployment full_reconciler full_server
               (empty_deployment full_reconciler full_server) "42" deployment_world in
  deployment_wf full_server "42" (deployment_of run.1) ∧
  length (ps_Volumes (d_pod (deployment_of run.1))) = 10.
Proof.
  intros run. split; [|vm_compute; reflexivity].
  assert (run.1 = Ok (deployment_of run.1)) as Hrun by (vm_compute; reflexivity).
  exact (proj1 (updatePolicyServerDeployment_wf full_reconciler full_server
           (empty_deployment full_reconciler full_server) "42" deployment_world
           (deployment_of run.1) run.2 (run_fst _ _ _ Hrun))).
Defined.
End witnesses.
