(* ===== verification/Certs.v ===== *)
(** * Certificates ([internal/certs])

    The functions of [certs.go] and [secrets.go] over symbolic X.509 data: a
    DER encoding is the certificate or the key it encodes, and a signature is
    the key that made it. The parts of Go's [encoding/pem], [crypto/x509] and
    [crypto/tls] the sources call are modelled with it: PEM blocks in byte
    sequences, whole-second validity bounds, chains of at most one root (the
    sources give no intermediates), host names and key usages. *)

From S2P Require Import Prelude GoStd Json K8sTypes Concrete Constants PolicyTypes PolicyServerTypes KubeClient FakeCluster.
From Stdlib Require Import Ascii.

(** ** PEM *)

(** [pem.Decode]: the first block and what follows it. *)
Fixpoint pem_Decode (data : Bytes) : option (PemBlock * Bytes) :=
  match data with
  | [] => None
  | IBlock b :: rest => Some (b, rest)
  | IByte _ :: rest => pem_Decode rest
  end.

Definition pem_Encode (b : PemBlock) : Bytes := [IBlock b].

(** ** X.509 *)

Definition ParseCertificate (d : DER) : GoError + Certificate :=
  match d with
  | DERCertificate c => inr c
  | _ => inl (ErrNew "x509: malformed certificate")
  end.
Definition ParseECPrivateKey (d : DER) : GoError + KeyId :=
  match d with
  | DERECPrivateKey k => inr k
  | _ => inl (ErrNew "x509: failed to parse EC private key")
  end.

(** The encoding keeps whole seconds. *)
Definition truncate_seconds (t : Z) : Z := (t / Second * Second)%Z.

(** [x509.CreateCertificate] for a template signed by [priv] under the parent's
    name: the private key must match the parent's public key when the parent
    has one. *)
Definition CreateCertificate (template : Certificate) (parentSubject : string)
    (parentPublicKey : option KeyId) (pub priv : KeyId) : GoError + DER :=
  if (x_SerialNumber template <? 0)%Z then inl (ErrNew "x509: serial number must be positive")
  else if match parentPublicKey with Some k => negb (bool_decide (k = priv)) | None => false end
  then inl (ErrNew "x509: provided PrivateKey doesn't match parent's PublicKey")
  else inr (DERCertificate
    (mkCertificate (x_SerialNumber template) (x_Subject template) parentSubject
       (x_DNSNames template) (truncate_seconds (x_NotBefore template))
       (truncate_seconds (x_NotAfter template)) (x_IsCA template)
       (x_BasicConstraintsValid template) (x_ExtKeyUsage template) (x_KeyUsage template)
       pub priv)).

(** *** Host names ([Certificate.VerifyHostname]) *)

Definition lower_char (c : ascii) : ascii :=
  if is_upper c then Ascii.ascii_of_nat (Ascii.nat_of_ascii c + 32) else c.
Definition lower (l : list ascii) : list ascii := lower_char <$> l.

Fixpoint split_dot (cur : list ascii) (l : list ascii) : list (list ascii) :=
  match l with
  | [] => [rev cur]
  | c :: l => if bool_decide (c = "."%char) then rev cur :: split_dot [] l
              else split_dot (c :: cur) l
  end.
Definition trim_dot (l : list ascii) : list ascii :=
  match rev l with c :: r => if bool_decide (c = "."%char) then rev r else l | [] => l end.

Definition label_char (first : bool) (c : ascii) : bool :=
  is_lower c || is_upper c || is_digit c || bool_decide (c = "_"%char) ||
  (negb first && bool_decide (c = "-"%char)).
Definition valid_label (l : list ascii) : bool :=
  match l with [] => false | c :: r => label_char true c && forallb (label_char false) r end.
Definition validHostname (host : list ascii) (isPattern : bool) : bool :=
  let host := if isPattern then host else trim_dot host in
  negb (bool_decide (host = [])) && negb (bool_decide (host = ["*"%char])) &&
  match split_dot [] host with
  | [] => false
  | p :: ps => (isPattern && bool_decide (p = ["*"%char]) || valid_label p) &&
               forallb valid_label ps
  end.

Definition matchHostnames (pattern host : list ascii) : bool :=
  let pattern := lower pattern in
  let host := lower (trim_dot host) in
  negb (bool_decide (pattern = [])) && negb (bool_decide (host = [])) &&
  let pp := split_dot [] pattern in
  let hp := split_dot [] host in
  bool_decide (length pp = length hp) &&
  match pp, hp with
  | p :: pp, h :: hp => (bool_decide (p = ["*"%char]) || bool_decide (p = h)) &&
                        bool_decide (pp = hp)
  | _, _ => false
  end.
Definition matchExactly (a b : list ascii) : bool :=
  negb (bool_decide (a = [])) && negb (bool_decide (a = ["."%char])) &&
  negb (bool_decide (b = [])) && negb (bool_decide (b = ["."%char])) &&
  bool_decide (lower a = lower b).

(** The host is not an IP address: the sources pass service names. *)
Definition VerifyHostname (c : Certificate) (h : string) : bool :=
  let candidate := lower (chars h) in
  let valid := validHostname candidate false in
  existsb (λ m, let m := chars m in
    if valid && validHostname m true then matchHostnames m candidate
    else matchExactly m candidate) (x_DNSNames c).

(** *** Chains ([Certificate.Verify]) *)

Definition valid_at (c : Certificate) (at_ : Z) : bool :=
  (x_NotBefore c <=? at_)%Z && (at_ <=? x_NotAfter c)%Z.

(** [CheckSignatureFrom]: the parent is a CA that may sign certificates and
    its key made the signature. *)
Definition CheckSignatureFrom (c parent : Certificate) : bool :=
  x_BasicConstraintsValid parent && x_IsCA parent &&
  (is_nil (x_KeyUsage parent) || bool_decide (KeyUsageCertSign ∈ x_KeyUsage parent)) &&
  bool_decide (x_SignedBy c = x_PublicKey parent).

Definition alreadyInChain (candidate c : Certificate) : bool :=
  bool_decide (x_Subject candidate = x_Subject c) &&
  bool_decide (x_PublicKey candidate = x_PublicKey c) &&
  bool_decide (x_DNSNames candidate = x_DNSNames c).

(** The default usage, [ServerAuth], is allowed by a certificate that lists it
    or lists none. *)
Definition server_usage (c : Certificate) : bool :=
  is_nil (x_ExtKeyUsage c) || bool_decide (ExtKeyUsageServerAuth ∈ x_ExtKeyUsage c).

Definition issued_by (c : Certificate) (at_ : Z) (root : Certificate) : bool :=
  bool_decide (x_Subject root = x_Issuer c) && negb (alreadyInChain root c) &&
  CheckSignatureFrom c root && valid_at root at_.

Definition Verify (c : Certificate) (roots : list Certificate) (dnsName : string) (at_ : Z)
    : option GoError :=
  if negb (valid_at c at_) then Some (ErrNew "x509: certificate has expired or is not yet valid")
  else if bool_decide (dnsName ≠ "") && negb (VerifyHostname c dnsName)
  then Some (ErrNew "x509: certificate is not valid for this name")
  else
    let chains := if bool_decide (c ∈ roots) then [[c]]
                  else (λ r, [c; r]) <$> filter (λ r, issued_by c at_ r = true) roots in
    if is_nil chains then Some (ErrNew "x509: certificate signed by unknown authority")
    else if existsb (forallb server_usage) chains then None
    else Some (ErrNew "x509: certificate specifies an incompatible key usage").

(** ** TLS key pairs ([tls.X509KeyPair]) *)

(** The first block of a type that passes the test. *)
Fixpoint find_block (P : string → bool) (data : Bytes) : option DER :=
  match data with
  | [] => None
  | IBlock b :: rest => if P (pb_Type b) then Some (pb_Bytes b) else find_block P rest
  | IByte _ :: rest => find_block P rest
  end.
Definition is_key_type (t : string) : bool :=
  bool_decide (t = "PRIVATE KEY") ||
  match GoStd.strip_prefix (rev (chars " PRIVATE KEY")) (rev (chars t)) with
  | Some _ => true | None => false
  end.

Definition X509KeyPair (certPEM keyPEM : Bytes) : option GoError :=
  match find_block (λ t, bool_decide (t = "CERTIFICATE")) certPEM with
  | None => Some (ErrNew "tls: failed to find any PEM data in certificate input")
  | Some cd =>
      match find_block is_key_type keyPEM with
      | None => Some (ErrNew "tls: failed to find any PEM data in key input")
      | Some kd =>
          match ParseCertificate cd, ParseECPrivateKey kd with
          | inl e, _ => Some e
          | _, inl _ => Some (ErrNew "tls: failed to parse private key")
          | inr c, inr k =>
              if bool_decide (x_PublicKey c = k) then None
              else Some (ErrNew "tls: private key does not match public key")
          end
      end
  end.

(** ** [certs.go] *)

Definition startValue : Z := 1.
Definition maxBitLength : Z := 128.
Definition caCommonName : string := "kubewarden-controller-ca".

Definition pemEncodeCertificate (certificate : DER) : Bytes :=
  pem_Encode (mkPemBlock "CERTIFICATE" certificate).
Definition pemEncodePrivateKey (privateKey : KeyId) : Bytes :=
  pem_Encode (mkPemBlock "RSA PRIVATE KEY" (DERECPrivateKey privateKey)).

Definition lift_sum {S A} (x : GoError + A) : M S A :=
  match x with inl e => fail e | inr a => mret a end.

(** [block.Bytes] of the first block: a nil dereference when there is none. *)
Definition first_block {S} (data : Bytes) : M S DER :=
  match pem_Decode data with
  | Some (b, _) => mret (pb_Bytes b)
  | None => lift_outcome (Panic "invalid memory address or nil pointer dereference")
  end.

Section generate.
Context {World : Type} `{Environment World}.

Definition GenerateCA (notBefore notAfter : Z) : M World (Bytes * Bytes) :=
  serialNumber ← wrap_err (ErrWrap "cannot init serial number")
                   (call (RandInt (Z.shiftl startValue maxBitLength)));
  privateKey ← wrap_err (ErrWrap "cannot create private key") (call GenerateKey);
  let caCert := mkCertificate serialNumber caCommonName "" [] notBefore notAfter true true
    [ExtKeyUsageClientAuth; ExtKeyUsageServerAuth]
    [KeyUsageKeyEncipherment; KeyUsageDigitalSignature; KeyUsageCertSign] 0 0 in
  caCertBytes ← wrap_err (ErrWrap "cannot create certificate")
    (lift_sum (CreateCertificate caCert (x_Subject caCert) None privateKey privateKey));
  mret (pemEncodeCertificate caCertBytes, pemEncodePrivateKey privateKey).

Definition GenerateCert (caCertPEM caPrivateKeyPEM : Bytes) (notBefore notAfter : Z)
    (dnsName : string) : M World (Bytes * Bytes) :=
  caCertBlock ← first_block caCertPEM;
  caCert ← wrap_err (ErrWrap "error parsing ca root certificate")
             (lift_sum (ParseCertificate caCertBlock));
  caPrivateKeyBlock ← first_block caPrivateKeyPEM;
  caPrivateKey ← wrap_err (ErrWrap "error parsing ca root private key")
                   (lift_sum (ParseECPrivateKey caPrivateKeyBlock));
  serialNumber ← wrap_err (ErrWrap "cannot generate serialNumber for certificate")
                   (call (RandInt (Z.shiftl startValue maxBitLength)));
  privateKey ← wrap_err (ErrWrap "cannot create private key") (call GenerateKey);
  let cert := mkCertificate serialNumber dnsName "" [dnsName] notBefore notAfter false false
    [ExtKeyUsageClientAuth; ExtKeyUsageServerAuth]
    [KeyUsageKeyEncipherment; KeyUsageDigitalSignature] 0 0 in
  certBytes ← wrap_err (ErrWrap "cannot create certificate")
    (lift_sum (CreateCertificate cert (x_Subject caCert) (Some (x_PublicKey caCert))
                 privateKey caPrivateKey));
  mret (pemEncodeCertificate certBytes, pemEncodePrivateKey privateKey).
End generate.

(** The loop of [NewCertPool]: each round consumes a block. *)
Fixpoint NewCertPool (certPEM : Bytes) : GoError + list Certificate :=
  match certPEM with
  | [] => inr []
  | IByte _ :: rest => NewCertPool rest
  | IBlock b :: rest =>
      match ParseCertificate (pb_Bytes b) with
      | inl e => inl (ErrWrap "error parsing certificate" e)
      | inr c => match NewCertPool rest with inl e => inl e | inr pool => inr (c :: pool) end
      end
  end.

Definition VerifyCert (certPEM : Bytes) (privateKeyPEM : option Bytes)
    (certPool : list Certificate) (dnsName : string) (at_ : Z) : Outcome unit :=
  match pem_Decode certPEM with
  | None => Panic "invalid memory address or nil pointer dereference"
  | Some (certBlock, _) =>
      match ParseCertificate (pb_Bytes certBlock) with
      | inl err => Err (ErrWrap "error parsing certificate" err)
      | inr cert =>
          match privateKeyPEM ≫= X509KeyPair certPEM with
          | Some err => Err (ErrWrap "key pair is invalid" err)
          | None =>
              match Verify cert certPool dnsName at_ with
              | Some err => Err (ErrWrap "the certificate is invalid" err)
              | None => Ok tt
              end
          end
      end
  end.

Definition VerifyCA (caCertPEM : Bytes) (caPrivateKeyPEM : option Bytes) (at_ : Z)
    : Outcome unit :=
  match NewCertPool caCertPEM with
  | inl err => Err (ErrWrap "failed to create cert pool" err)
  | inr pool =>
      match VerifyCert caCertPEM caPrivateKeyPEM pool "" at_ with
      | Err err => Err (ErrWrap "failed to verify CA certificate" err)
      | r => r
      end
  end.

Definition DNSName (serviceName namespace : string) : string :=
  serviceName +:+ "." +:+ namespace +:+ ".svc".

(** ** [secrets.go] *)

(** A key of a secret that must be there and not empty. *)
Definition extract (s : Secret) (key missing empty : string) : GoError + Bytes :=
  match s_Data s !! key with
  | None => inl (ErrNew (missing +:+ om_Name (s_Meta s)))
  | Some [] => inl (ErrNew (empty +:+ om_Name (s_Meta s)))
  | Some b => inr b
  end.

Definition ExtractCARootFromSecret (s : Secret) : GoError + (Bytes * Bytes) :=
  match extract s CARootCert "CA could not be extracted from secret: "
          "CA certificate is empty in secret: " with
  | inl e => inl e
  | inr caCert =>
      match extract s CARootPrivateKey "CA private key bytes could not be extracted from secret: "
              "CA private key is empty in secret: " with
      | inl e => inl e
      | inr caPrivateKey => inr (caCert, caPrivateKey)
      end
  end.

Definition ExtractServerCertFromSecret (s : Secret) : GoError + (Bytes * Bytes) :=
  match extract s ServerCert "server certificate could not be extracted from secret: "
          "server certificate is empty in secret: " with
  | inl e => inl e
  | inr serverCert =>
      match extract s ServerPrivateKey "server private key could not be extracted from secret: "
              "server private key is empty in secret: " with
      | inl e => inl e
      | inr serverPrivateKey => inr (serverCert, serverPrivateKey)
      end
  end.

(** ** Host names *)

Lemma lower_char_idem c : lower_char (lower_char c) = lower_char c.
Proof. destruct c as [[] [] [] [] [] [] [] []]; reflexivity. Qed.
Lemma lower_idem l : lower (lower l) = lower l.
Proof. unfold lower. rewrite <-list_fmap_compose. apply list_fmap_ext. intros. apply lower_char_idem. Qed.

Lemma trim_dot_snoc l c : c ≠ "."%char → trim_dot (l ++ [c]) = l ++ [c].
Proof. intros Hc. unfold trim_dot. rewrite rev_unit. by rewrite bool_decide_eq_false_2. Qed.

Lemma matchHostnames_self l c :
  c ≠ "."%char → lower_char c = c → matchHostnames (l ++ [c]) (lower (l ++ [c])) = true.
Proof.
  intros Hc Hl. unfold matchHostnames.
  assert (lower (l ++ [c]) = lower l ++ [c]) as Hlow.
  { unfold lower. by rewrite fmap_app, fmap_cons, fmap_nil, Hl. }
  rewrite Hlow, trim_dot_snoc by done. rewrite <-Hlow, lower_idem, Hlow.
  rewrite bool_decide_eq_false_2 by (by destruct (lower l)).
  destruct (split_dot [] (lower l ++ [c])) as [|p ps] eqn:Hs.
  - exfalso. assert (∀ l cur, split_dot cur l ≠ []) as Hne; [|by apply Hne in Hs].
    clear. intros l. induction l as [|a l IH]; intros cur; simpl; [done|].
    case_bool_decide; [done|apply IH].
  - cbn [negb andb]. rewrite (bool_decide_eq_true_2 (length _ = _)) by done.
    rewrite (bool_decide_eq_true_2 (p = p)), (bool_decide_eq_true_2 (ps = ps)) by done.
    by rewrite orb_true_r.
Qed.

Lemma matchExactly_self l : l ≠ [] → l ≠ ["."%char] → matchExactly l (lower l) = true.
Proof.
  intros H1 H2. unfold matchExactly. rewrite lower_idem.
  assert (lower l ≠ []) by (by destruct l).
  assert (lower l ≠ ["."%char]).
  { destruct l as [|a [|b l]]; [done| |done]. unfold lower. simpl. intros [= Ha].
    apply H2. f_equal. revert Ha. clear. destruct a as [[] [] [] [] [] [] [] []];
      vm_compute; congruence. }
  rewrite (bool_decide_eq_false_2 (l = [])), (bool_decide_eq_false_2 (l = ["."%char])),
    (bool_decide_eq_false_2 (lower l = [])), (bool_decide_eq_false_2 (lower l = ["."%char]))
    by done.
  by apply bool_decide_eq_true_2.
Qed.

(** A certificate is valid for the service names it lists. *)
Lemma VerifyHostname_self c service ns :
  DNSName service ns ∈ x_DNSNames c → VerifyHostname c (DNSName service ns) = true.
Proof.
  intros Hin. unfold VerifyHostname. apply existsb_exists. exists (DNSName service ns).
  split; [by apply list_elem_of_In|].
  assert (∃ l, chars (DNSName service ns) = l ++ ["c"%char]) as [l ->].
  { exists (chars (service +:+ "." +:+ ns +:+ ".sv")). unfold DNSName.
    rewrite !chars_app. by rewrite <-!app_assoc. }
  case_if; [by apply matchHostnames_self|]. apply matchExactly_self; by destruct l as [|? []].
Qed.

(** ** Generation *)

Lemma lift_sum_Ok_inv {S A} (x : GoError + A) a (s s' : S) :
  lift_sum x s = (Ok a, s') ↔ x = inr a ∧ s' = s.
Proof. unfold lift_sum. destruct x; autorewrite with go; naive_solver. Qed.
Lemma first_block_Ok_inv {S} data d (s s' : S) :
  first_block data s = (Ok d, s') ↔
  ∃ b rest, pem_Decode data = Some (b, rest) ∧ d = pb_Bytes b ∧ s' = s.
Proof.
  unfold first_block. destruct (pem_Decode data) as [[b rest]|]; autorewrite with go;
    naive_solver.
Qed.
#[export] Hint Rewrite @lift_sum_Ok_inv @first_block_Ok_inv : go.

(** A root that can sign server certificates. *)
Record signing_ca (ca : Certificate) : Prop := {
  ca_basic : x_BasicConstraintsValid ca = true;
  ca_flag : x_IsCA ca = true;
  ca_sign : KeyUsageCertSign ∈ x_KeyUsage ca;
  ca_usage : server_usage ca = true;
  ca_names : x_DNSNames ca = [];
}.

(** What a call of [CreateCertificate] that succeeds returns. *)
Lemma CreateCertificate_inv t subject parentKey pub priv d :
  CreateCertificate t subject parentKey pub priv = inr d →
  d = DERCertificate (mkCertificate (x_SerialNumber t) (x_Subject t) subject (x_DNSNames t)
        (truncate_seconds (x_NotBefore t)) (truncate_seconds (x_NotAfter t)) (x_IsCA t)
        (x_BasicConstraintsValid t) (x_ExtKeyUsage t) (x_KeyUsage t) pub priv) ∧
  ∀ k, parentKey = Some k → k = priv.
Proof.
  unfold CreateCertificate. case_if; [done|].
  destruct parentKey as [k|]; [|naive_solver].
  case_bool_decide; simpl; naive_solver.
Qed.

Lemma valid_at_spec c t : valid_at c t = true ↔ (x_NotBefore c ≤ t ≤ x_NotAfter c)%Z.
Proof. unfold valid_at. rewrite andb_true_iff, !Z.leb_le. done. Qed.

Section generation_lemmas.
Context {World : Type} `{Environment World}.

Lemma GenerateCA_inv nb na (w w' : World) cert key :
  GenerateCA nb na w = (Ok (cert, key), w') →
  ∃ ca k, cert = pemEncodeCertificate (DERCertificate ca) ∧ key = pemEncodePrivateKey k ∧
    signing_ca ca ∧ x_PublicKey ca = k ∧ x_Subject ca = caCommonName ∧
    x_NotBefore ca = truncate_seconds nb ∧ x_NotAfter ca = truncate_seconds na.
Proof.
  unfold GenerateCA. intros Hrun. inv_run Hrun. simplify_eq.
  match goal with Hc : CreateCertificate _ _ _ _ _ = inr _ |- _ =>
    apply CreateCertificate_inv in Hc as [-> _] end.
  do 2 eexists. split_and!; try done. split; try done.
  apply elem_of_cons. right. set_solver.
Qed.

Lemma GenerateCert_inv caPEM caKeyPEM nb na dns (w w' : World) cert key :
  GenerateCert caPEM caKeyPEM nb na dns w = (Ok (cert, key), w') →
  ∃ b rest ca c k, pem_Decode caPEM = Some (b, rest) ∧ ParseCertificate (pb_Bytes b) = inr ca ∧
    cert = pemEncodeCertificate (DERCertificate c) ∧ key = pemEncodePrivateKey k ∧
    x_PublicKey c = k ∧ x_Issuer c = x_Subject ca ∧ x_SignedBy c = x_PublicKey ca ∧
    x_DNSNames c = [dns] ∧ server_usage c = true ∧
    x_NotBefore c = truncate_seconds nb ∧ x_NotAfter c = truncate_seconds na.
Proof.
  unfold GenerateCert. intros Hrun. inv_run Hrun. simplify_eq.
  match goal with Hc : CreateCertificate _ _ _ _ _ = inr _ |- _ =>
    apply CreateCertificate_inv in Hc as [-> Hk] end.
  specialize (Hk _ eq_refl). subst. do 5 eexists. split_and!; try done.
Qed.
End generation_lemmas.

Lemma X509KeyPair_generated c k :
  x_PublicKey c = k →
  X509KeyPair (pemEncodeCertificate (DERCertificate c)) (pemEncodePrivateKey k) = None.
Proof. intros <-. unfold X509KeyPair. simpl. by rewrite bool_decide_eq_true_2. Qed.

(** ** Verification *)

(** A chain exists and allows server authentication. *)
Definition trusted (c : Certificate) (roots : list Certificate) (at_ : Z) : Prop :=
  server_usage c = true ∧
  (c ∈ roots ∨ ∃ r, r ∈ roots ∧ issued_by c at_ r = true ∧ server_usage r = true).

Lemma chains_trusted c roots at_ :
  let chains := if bool_decide (c ∈ roots) then [[c]]
                else (λ r, [c; r]) <$> filter (λ r, issued_by c at_ r = true) roots in
  existsb (forallb server_usage) chains = true ↔
  server_usage c = true ∧
  (c ∈ roots ∨ c ∉ roots ∧ ∃ r, r ∈ roots ∧ issued_by c at_ r = true ∧ server_usage r = true).
Proof.
  cbv zeta. case_bool_decide as Hin.
  - simpl. rewrite andb_true_r, orb_false_r. naive_solver.
  - rewrite existsb_exists. split.
    + intros (chain & Hc & Hu). apply list_elem_of_In, list_elem_of_fmap in Hc as (r & -> & Hr).
      apply list_elem_of_filter in Hr as [Hi Hr]. simpl in Hu.
      rewrite andb_true_r, andb_true_iff in Hu. naive_solver.
    + intros (Hu & [?|(_ & r & Hr & Hi & Hru)]); [done|]. exists [c; r].
      split; [|simpl; by rewrite Hu, Hru]. apply list_elem_of_In, list_elem_of_fmap.
      exists r. split; [done|]. by apply list_elem_of_filter.
Qed.

Lemma Verify_None c roots dns at_ :
  Verify c roots dns at_ = None ↔
  valid_at c at_ = true ∧ (dns = "" ∨ VerifyHostname c dns = true) ∧ trusted c roots at_.
Proof.
  unfold Verify, trusted. destruct (valid_at c at_); simpl; [|naive_solver].
  pose proof (chains_trusted c roots at_) as Hch. cbv zeta in Hch.
  set (chains := if bool_decide (c ∈ roots) then _ else _) in *.
  assert (server_usage c = true ∧
    (c ∈ roots ∨ ∃ r, r ∈ roots ∧ issued_by c at_ r = true ∧ server_usage r = true) ↔
    existsb (forallb server_usage) chains = true) as ->.
  { rewrite Hch. destruct (decide (c ∈ roots)); naive_solver. }
  assert ((bool_decide (dns ≠ "") && negb (VerifyHostname c dns) = false) ↔
          (dns = "" ∨ VerifyHostname c dns = true)) as <-.
  { destruct (decide (dns = "")) as [->|Hd].
    - rewrite bool_decide_eq_false_2 by (by intros []). simpl. naive_solver.
    - rewrite bool_decide_eq_true_2 by done. destruct (VerifyHostname c dns); naive_solver. }
  destruct (bool_decide (dns ≠ "") && _); [naive_solver|].
  destruct chains as [|ch chs]; [simpl; naive_solver|]. simpl is_nil. cbv iota.
  destruct (existsb _ (ch :: chs)); naive_solver.
Qed.

Lemma trusted_mono c roots roots' at_ :
  roots ⊆ roots' → trusted c roots at_ → trusted c roots' at_.
Proof. unfold trusted. set_solver. Qed.

Lemma VerifyCert_Ok cert key pool dns at_ :
  VerifyCert cert key pool dns at_ = Ok tt ↔
  ∃ b rest c, pem_Decode cert = Some (b, rest) ∧ ParseCertificate (pb_Bytes b) = inr c ∧
    (∀ k, key = Some k → X509KeyPair cert k = None) ∧
    valid_at c at_ = true ∧ (dns = "" ∨ VerifyHostname c dns = true) ∧ trusted c pool at_.
Proof.
  setoid_rewrite <-Verify_None. unfold VerifyCert. split.
  - destruct (pem_Decode cert) as [[b rest]|]; [|done].
    destruct (ParseCertificate (pb_Bytes b)) as [e|c] eqn:Hp; [done|].
    destruct (key ≫= X509KeyPair cert) eqn:Hk; [done|].
    destruct (Verify c pool dns at_) eqn:Hv; [done|]. intros _. exists b, rest, c.
    split_and!; try done. by intros k ->.
  - intros (b & rest & c & -> & -> & Hk & ->).
    assert (key ≫= X509KeyPair cert = None) as ->; [|done].
    destruct key as [k|]; [by apply Hk|done].
Qed.

Lemma NewCertPool_app a b pa pb :
  NewCertPool a = inr pa → NewCertPool b = inr pb → NewCertPool (a ++ b) = inr (pa ++ pb).
Proof.
  revert pa. induction a as [|[blk|c] a IH]; intros pa Ha Hb; simpl in *.
  - by simplify_eq.
  - destruct (ParseCertificate _) as [|c]; [done|].
    destruct (NewCertPool a) as [|p]; [done|]. simplify_eq. by rewrite (IH p).
  - eauto.
Qed.

(** The pool has the certificate, or the key of its signer. *)
Definition vouched (pool : list Certificate) (c : Certificate) : Prop :=
  c ∈ pool ∨ ∃ ca, ca ∈ pool ∧ x_SignedBy c = x_PublicKey ca.

(** What one pool vouches for the other does not. *)
Definition unrelated (pool pool' : list Certificate) : Prop :=
  ∀ c, vouched pool c → ¬ vouched pool' c.

(** Self-signed roots with different keys. *)
Lemma unrelated_roots r r' :
  x_SignedBy r = x_PublicKey r → x_SignedBy r' = x_PublicKey r' → x_PublicKey r ≠ x_PublicKey r' →
  unrelated [r] [r'].
Proof.
  intros Hr Hr' Hne c Hc Hc'. apply Hne. unfold vouched in *.
  assert (x_SignedBy c = x_PublicKey r) as <-.
  { destruct Hc as [->%list_elem_of_singleton|(ca & ->%list_elem_of_singleton & ?)]; done. }
  destruct Hc' as [->%list_elem_of_singleton|(ca & ->%list_elem_of_singleton & ?)]; done.
Qed.

Lemma VerifyCert_vouched cert key pool dns at_ :
  VerifyCert cert key pool dns at_ = Ok tt →
  ∃ b rest c, pem_Decode cert = Some (b, rest) ∧ ParseCertificate (pb_Bytes b) = inr c ∧
    vouched pool c.
Proof.
  intros (b & rest & c & Hd & Hp & _ & _ & _ & _ & Ht)%VerifyCert_Ok.
  exists b, rest, c. split; [done|]. split; [done|].
  destruct Ht as [?|(r & Hr & Hi & _)]; [by left|right]. exists r. split; [done|].
  unfold issued_by, CheckSignatureFrom in Hi. rewrite !andb_true_iff, !bool_decide_eq_true in Hi.
  naive_solver.
Qed.

(** A certificate that one pool accepts, no unrelated one does, for whatever
    name and time. *)
Lemma VerifyCert_unrelated cert key key' pool pool' dns dns' at_ at' :
  VerifyCert cert key pool dns at_ = Ok tt → unrelated pool pool' →
  VerifyCert cert key' pool' dns' at' ≠ Ok tt.
Proof.
  intros (b & rest & c & Hd & Hp & Hv)%VerifyCert_vouched Hun
    (b' & rest' & c' & Hd' & Hp' & Hv')%VerifyCert_vouched.
  rewrite Hd in Hd'. injection Hd' as <- <-. rewrite Hp in Hp'. injection Hp' as <-.
  exact (Hun _ Hv Hv').
Qed.

(** A larger pool accepts as much. *)
Lemma VerifyCert_mono cert key pool pool' dns at_ :
  VerifyCert cert key pool dns at_ = Ok tt → pool ⊆ pool' → VerifyCert cert key pool' dns at_ = Ok tt.
Proof.
  intros (b & rest & c & ? & ? & ? & ? & ? & Ht)%VerifyCert_Ok Hsub.
  apply VerifyCert_Ok. exists b, rest, c. split_and!; try done. by eapply trusted_mono.
Qed.

(** A CA verifies with a pool of its own, and is valid then. *)
Lemma VerifyCA_root ca key at_ b rest root :
  VerifyCA ca key at_ = Ok tt → pem_Decode ca = Some (b, rest) →
  ParseCertificate (pb_Bytes b) = inr root → valid_at root at_ = true.
Proof.
  unfold VerifyCA. destruct (NewCertPool ca) as [|pool]; [done|].
  destruct (VerifyCert ca key pool "" at_) as [[]|e|?|?] eqn:Hv; try done.
  apply VerifyCert_Ok in Hv as (b' & rest' & c & Hd & Hp & _ & Hval & _). intros _ Hd' Hp'.
  rewrite Hd in Hd'. injection Hd' as <- <-. rewrite Hp in Hp'. by injection Hp' as <-.
Qed.
Lemma VerifyCA_pool ca key at_ :
  VerifyCA ca key at_ = Ok tt → ∃ pool, NewCertPool ca = inr pool.
Proof. unfold VerifyCA. destruct (NewCertPool ca) as [|pool]; [done|by eexists]. Qed.

(** The first certificate of a bundle is in its pool. *)
Lemma NewCertPool_first data b rest c pool :
  pem_Decode data = Some (b, rest) → ParseCertificate (pb_Bytes b) = inr c →
  NewCertPool data = inr pool → c ∈ pool.
Proof.
  intros Hd Hp. induction data as [|[blk|ch] data IH]; simpl in *; [done| |by auto].
  simplify_eq. rewrite Hp. destruct (NewCertPool rest); intros; simplify_eq. set_solver.
Qed.

Section certificate_theorems.
Context {World : Type} `{Environment World}.
Implicit Types w : World.

(** A freshly generated CA passes its own verification, with its private
    key, at every time within its validity bounds (cut to whole seconds). *)
Lemma GenerateCA_verifies (nb na : Z) w w' cert key (at_ : Z) :
  GenerateCA nb na w = (Ok (cert, key), w') →
  (truncate_seconds nb ≤ at_ ≤ truncate_seconds na)%Z →
  VerifyCA cert (Some key) at_ = Ok tt.
Proof.
  intros (ca & k & -> & -> & [_ _ _ Hu _] & Hk & _ & Hnb & Hna)%GenerateCA_inv Hat.
  unfold VerifyCA. simpl NewCertPool. cbv iota.
  assert (VerifyCert (pemEncodeCertificate (DERCertificate ca)) (Some (pemEncodePrivateKey k))
            [ca] "" at_ = Ok tt) as ->; [|done].
  apply VerifyCert_Ok. do 3 eexists. split; [done|]. split; [done|]. split_and!.
  - intros ? [= <-]. by apply X509KeyPair_generated.
  - apply valid_at_spec. by rewrite Hnb, Hna.
  - by left.
  - split; [done|]. left. set_solver.
Qed.

(** A certificate generated for a service is accepted by everyone who
    trusts the CA bundle it was generated from, for that service name and at
    every time at which both it and the signing CA are valid. *)
Lemma GenerateCert_verifies (caPEM caKey : Bytes) (nb na : Z) (service ns : string)
    w w' cert key pool ca b rest (at_ : Z) :
  GenerateCert caPEM caKey nb na (DNSName service ns) w = (Ok (cert, key), w') →
  NewCertPool caPEM = inr pool →
  pem_Decode caPEM = Some (b, rest) → ParseCertificate (pb_Bytes b) = inr ca →
  signing_ca ca → valid_at ca at_ = true →
  (truncate_seconds nb ≤ at_ ≤ truncate_seconds na)%Z →
  VerifyCert cert (Some key) pool (DNSName service ns) at_ = Ok tt.
Proof.
  intros (b' & rest' & ca' & c & k & Hd' & Hp' & -> & -> & Hk & Hi & Hs & Hn & Hu & Hnb & Hna)%GenerateCert_inv
    Hpool Hd Hp [Hb Hca Hsign Hru Hnames] Hv Hat.
  assert (ca' = ca) as -> by congruence.
  apply VerifyCert_Ok. do 3 eexists. split; [done|]. split; [done|]. split_and!.
  - intros ? [= <-]. by apply X509KeyPair_generated.
  - apply valid_at_spec. by rewrite Hnb, Hna.
  - right. apply VerifyHostname_self. rewrite Hn. set_solver.
  - split; [done|]. right. exists ca. split; [by eapply NewCertPool_first|]. split; [|done].
    unfold issued_by, CheckSignatureFrom, alreadyInChain. rewrite Hb, Hca, Hv, Hnames, Hn.
    rewrite (bool_decide_eq_true_2 (x_Subject ca = x_Issuer c)) by done.
    rewrite (bool_decide_eq_true_2 (KeyUsageCertSign ∈ _)) by done.
    rewrite (bool_decide_eq_true_2 (x_SignedBy c = x_PublicKey ca)) by done.
    rewrite (bool_decide_eq_false_2 ([] = [_])) by done.
    by rewrite orb_true_r, !andb_false_r.
Qed.

(** (C28) Generation and verification agree: a generated CA verifies with its
    key, and a certificate then generated from it for a service verifies, with
    its key, against the pool of that CA for the service's name, at every time
    within the bounds of both (cut to whole seconds). *)
Theorem generated_chain_verifies (nb na nb' na' : Z) (service ns : string)
    w w1 w2 w3 ca caKey cert key (at_ : Z) :
  GenerateCA nb na w = (Ok (ca, caKey), w1) →
  GenerateCert ca caKey nb' na' (DNSName service ns) w2 = (Ok (cert, key), w3) →
  (truncate_seconds nb ≤ at_ ≤ truncate_seconds na)%Z →
  (truncate_seconds nb' ≤ at_ ≤ truncate_seconds na')%Z →
  VerifyCA ca (Some caKey) at_ = Ok tt ∧
  ∃ pool, NewCertPool ca = inr pool ∧
    VerifyCert cert (Some key) pool (DNSName service ns) at_ = Ok tt.
Proof.
  intros Hca Hcert Hat Hat'. split; [by eapply GenerateCA_verifies|].
  apply GenerateCA_inv in Hca as (c & k & -> & -> & Hs & _ & _ & Hnb & Hna).
  exists [c]. split; [done|]. eapply GenerateCert_verifies; try done.
  apply valid_at_spec. by rewrite Hnb, Hna.
Qed.

(** (C29) Acceptance is sound: an accepted certificate is within its validity
    bounds, matches its private key and the name asked for, and is in the
    trusted pool or was signed by a CA of the pool that is itself valid. *)
Theorem VerifyCert_sound (cert : Bytes) (key : option Bytes) (pool : list Certificate)
    (dns : string) (at_ : Z) :
  VerifyCert cert key pool dns at_ = Ok tt →
  ∃ b rest c, pem_Decode cert = Some (b, rest) ∧ pb_Bytes b = DERCertificate c ∧
    (x_NotBefore c ≤ at_ ≤ x_NotAfter c)%Z ∧
    (∀ k, key = Some k → X509KeyPair cert k = None) ∧
    (dns ≠ "" → VerifyHostname c dns = true) ∧
    (c ∈ pool ∨ ∃ ca, ca ∈ pool ∧ x_Subject ca = x_Issuer c ∧
       x_SignedBy c = x_PublicKey ca ∧ x_IsCA ca = true ∧
       (x_NotBefore ca ≤ at_ ≤ x_NotAfter ca)%Z).
Proof.
  intros (b & rest & c & Hd & Hp & Hk & Hv & Hn & _ & Ht)%VerifyCert_Ok.
  exists b, rest, c. split_and!; try done.
  - unfold ParseCertificate in Hp. by destruct (pb_Bytes b); simplify_eq.
  - by apply valid_at_spec.
  - by apply valid_at_spec.
  - naive_solver.
  - destruct Ht as [?|(r & Hr & Hi & _)]; [by left|]. right. exists r.
    unfold issued_by, CheckSignatureFrom in Hi.
    rewrite !andb_true_iff, !bool_decide_eq_true, valid_at_spec in Hi. naive_solver.
Qed.

(** Trust is kept when a CA bundle grows: what verifies against a pool
    verifies against any larger one, so a bundle of the new and the old CA
    accepts the certificates of both. *)
Theorem VerifyCert_bundle (cert : Bytes) (key : option Bytes) (new old : Bytes)
    (pnew pold : list Certificate) (dns : string) (at_ : Z) :
  NewCertPool new = inr pnew → NewCertPool old = inr pold →
  VerifyCert cert key pnew dns at_ = Ok tt ∨ VerifyCert cert key pold dns at_ = Ok tt →
  ∃ pool, NewCertPool (new ++ old) = inr pool ∧ VerifyCert cert key pool dns at_ = Ok tt.
Proof.
  intros Hn Ho Hv. exists (pnew ++ pold). split; [by apply NewCertPool_app|].
  destruct Hv as [Hv|Hv]; apply VerifyCert_Ok in Hv as (b & rest & c & ? & ? & ? & ? & ? & Ht);
    apply VerifyCert_Ok; exists b, rest, c; split_and!; try done;
    (eapply trusted_mono; [|exact Ht]; set_solver).
Qed.
End certificate_theorems.

(** ** Witnesses *)

Section witnesses.
#[local] Existing Instance fake_env.

Definition sample_time : Z := 1700000000 * Second.
Definition sample_world : FakeWorld := fake_world empty_store.

Definition pair_of (r : Outcome (Bytes * Bytes) * FakeWorld) : Bytes * Bytes :=
  match r.1 with Ok p => p | _ => ([], []) end.
Definition sample_ca : Bytes * Bytes :=
  pair_of (GenerateCA sample_time (sample_time + CACertExpiration) sample_world).
Definition sample_cert : Bytes * Bytes :=
  pair_of (GenerateCert sample_ca.1 sample_ca.2 sample_time
             (sample_time + ServerCertExpiration) (DNSName "svc" "kubewarden") sample_world).
Definition ca_certificate (p : Bytes * Bytes) : list Certificate :=
  match NewCertPool p.1 with inr l => l | inl _ => [] end.

Lemma generated_chain_verifies_witness :
  VerifyCA sample_ca.1 (Some sample_ca.2) (sample_time + CertLookahead) = Ok tt ∧
  ∃ pool, NewCertPool sample_ca.1 = inr pool ∧
    VerifyCert sample_cert.1 (Some sample_cert.2) pool (DNSName "svc" "kubewarden")
      (sample_time + CertLookahead) = Ok tt.
Proof.
  eapply (generated_chain_verifies sample_time (sample_time + CACertExpiration) sample_time
            (sample_time + ServerCertExpiration) "svc" "kubewarden" sample_world _ sample_world);
    [vm_compute; reflexivity..| |]; vm_compute; split; congruence.
Defined.

Lemma VerifyCert_sound_witness :
  ∃ b rest c, pem_Decode sample_ca.1 = Some (b, rest) ∧ pb_Bytes b = DERCertificate c ∧
    (x_NotBefore c ≤ sample_time ≤ x_NotAfter c)%Z.
Proof.
  destruct (VerifyCert_sound sample_ca.1 None (ca_certificate sample_ca) "" sample_time)
    as (b & rest & c & H1 & H2 & H3 & _); [vm_compute; reflexivity|]. by exists b, rest, c.
Defined.

Lemma VerifyCert_bundle_witness :
  ∃ pool, NewCertPool (sample_ca.1 ++ sample_ca.1) = inr pool ∧
    VerifyCert sample_cert.1 None pool (DNSName "svc" "kubewarden") sample_time = Ok tt.
Proof.
  apply (VerifyCert_bundle _ _ sample_ca.1 sample_ca.1 (ca_certificate sample_ca)
           (ca_certificate sample_ca)); [vm_compute; reflexivity..|].
  left. vm_compute. reflexivity.
Defined.
End witnesses.
