(* ===== verification/CertController.v ===== *)
(** * Certificate rotation ([cert_controller.go])

    The periodic reconciliation of the CA root, of the old CA root kept after a
    rotation, and of the server certificates signed by it. A secret the source
    mutates through a pointer is returned by the function that mutates it. *)

From S2P Require Import Prelude GoStd Json K8sTypes Concrete Constants PolicyTypes PolicyServerTypes KubeClient FakeCluster Certs.
From Stdlib Require Import Ascii.

(** client-go's [retry.RetryOnConflict] with the default backoff: not part of
    the repository. *)
Class Retry (W : Type) := { RetryOnConflict : M W unit → M W unit }.

(** A run of the function that ended in a conflict. *)
Definition conflict_step {W} `{K8sUtil} (m : M W unit) (w w' : W) : Prop :=
  ∃ e, m w = (Err e, w') ∧ IsConflict e = true.

Class RetryLaws (W : Type) `{K8sUtil, Retry W} := {
  (** It succeeds when an attempt succeeds, after attempts that met a
      conflict. *)
  RetryOnConflict_ok m (w w' : W) :
    RetryOnConflict m w = (Ok tt, w') →
    ∃ w0, rtc (conflict_step m) w w0 ∧ m w0 = (Ok tt, w');
  RetryOnConflict_within (R : relation W) m :
    PreOrder R → within R m → within R (RetryOnConflict m);
}.

Record CertReconciler := mkCertReconciler {
  cr_DeploymentsNamespace : string;
  cr_WebhookServiceName : string;
  cr_CARootSecretName : string;
  cr_WebhookServerCertSecretName : string;
}.

Definition s_set_Data (d : gmap string Bytes) (s : Secret) : Secret :=
  mkSecret (s_Meta s) (s_Type s) d (s_StringData s).

(** Every webhook of a configuration gets the bundle. *)
Definition inject_CABundle (caBundle : Bytes) (c : WebhookConfiguration) : WebhookConfiguration :=
  mkWebhookConfiguration (wc_Meta c) (wh_set_CABundle caBundle <$> wc_Webhooks c).

Definition part_of_kubewarden : gmap string string := {[ PartOfLabelKey := PartOfLabelValue ]}.
Definition policy_server_component : gmap string string :=
  {[ PartOfLabelKey := PartOfLabelValue; ComponentLabelKey := ComponentPolicyServerLabelValue ]}.

Section controller.
Context {World : Type} `{K8sUtil, KubeClient World, Environment World, Retry World}.
Variable r : CertReconciler.

Definition reconcileWebhookConfigurations (caBundle : Bytes) : M World unit :=
  validating ← wrap_err (ErrWrap "failed to list validating webhook configurations")
    (read (List KValidatingWebhookConfiguration (MatchingLabels part_of_kubewarden)));
  mfor (λ original : KObj KValidatingWebhookConfiguration,
    wrap_err (ErrWrap "failed to patch validating webhook configuration")
      (RetryOnConflict
         (call (Patch KValidatingWebhookConfiguration original
                  (inject_CABundle caBundle original)) ;; mret tt))) validating ;;
  mutating ← wrap_err (ErrWrap "failed to list mutating webhook configurations")
    (read (List KMutatingWebhookConfiguration (MatchingLabels part_of_kubewarden)));
  mfor (λ original : KObj KMutatingWebhookConfiguration,
    wrap_err (ErrWrap "failed to patch mutating webhook configuration")
      (RetryOnConflict
         (call (Patch KMutatingWebhookConfiguration original
                  (inject_CABundle caBundle original)) ;; mret tt))) mutating.

(** The rotation branch of [reconcileCARoot]. *)
Definition rotateCARoot (caRootSecret : Secret) (oldCACert : Bytes) : M World Secret :=
  t1 ← now;
  t2 ← now;
  '(caCert, caPrivateKey) ← wrap_err (ErrWrap "failed to generate CA cert")
    (GenerateCA t1 (t2 + CACertExpiration));
  let caRootSecret := s_set_Data
    (<[OldCARootCert := oldCACert]> (<[CARootPrivateKey := caPrivateKey]>
      (<[CARootCert := caCert]> (s_Data caRootSecret)))) caRootSecret in
  caRootSecret ← wrap_err (ErrWrap "failed to update CA root secret")
    (call (Update KSecret caRootSecret));
  wrap_err (ErrWrap "failed to reconcile webhook configurations")
    (reconcileWebhookConfigurations (caCert ++ oldCACert)) ;;
  mret (caRootSecret : Secret).

Definition reconcileCARoot (caRootSecret : Secret) : M World Secret :=
  '(caCert, caPrivateKey) ← wrap_err (ErrWrap "failed to extract CA root from secret")
    (lift_sum (ExtractCARootFromSecret caRootSecret));
  t ← now;
  verified ← try (lift_outcome (VerifyCA caCert (Some caPrivateKey) (t + CertLookahead)));
  match verified with
  | inr _ => mret caRootSecret
  | inl _ => rotateCARoot caRootSecret caCert
  end.

Definition reconcileOldCARoot (caRootSecret : Secret) : M World Secret :=
  match s_Data caRootSecret !! OldCARootCert with
  | None => mret caRootSecret
  | Some oldCACert =>
      t ← now;
      verified ← try (lift_outcome (VerifyCA oldCACert None t));
      match verified with
      | inr _ => mret caRootSecret
      | inl _ =>
          '(caCert, _) ← wrap_err (ErrWrap "failed to extract CA root from secret")
            (lift_sum (ExtractCARootFromSecret caRootSecret));
          let caRootSecret :=
            s_set_Data (delete OldCARootCert (s_Data caRootSecret)) caRootSecret in
          caRootSecret ← wrap_err (ErrWrap "failed to update CA root secret")
            (call (Update KSecret caRootSecret));
          wrap_err (ErrWrap "failed to reconcile webhook configurations")
            (reconcileWebhookConfigurations caCert) ;;
          mret (caRootSecret : Secret)
      end
  end.

(** The rotation branch of [reconcileServerCert]. *)
Definition rotateServerCert (serverCertSecret : Secret) (caCert caPrivateKey : Bytes)
    (dnsName : string) : M World unit :=
  t1 ← now;
  t2 ← now;
  '(newCert, newPrivateKey) ← wrap_err (ErrWrap "failed to generate cert")
    (GenerateCert caCert caPrivateKey t1 (t2 + ServerCertExpiration) dnsName);
  let serverCertSecret := s_set_Data
    (<[ServerPrivateKey := newPrivateKey]> (<[ServerCert := newCert]>
      (s_Data serverCertSecret))) serverCertSecret in
  wrap_err (ErrWrap "failed to update secret") (call (Update KSecret serverCertSecret)) ;;
  mret tt.

Definition reconcileServerCert (serverCertSecret caRootSecret : Secret) (dnsName : string)
    : M World unit :=
  '(cert, privateKey) ← wrap_err (ErrWrap "failed to extract server cert from secret")
    (lift_sum (ExtractServerCertFromSecret serverCertSecret));
  '(caCert, caPrivateKey) ← wrap_err (ErrWrap "failed to extract CA root from secret")
    (lift_sum (ExtractCARootFromSecret caRootSecret));
  pool ← wrap_err (ErrWrap "failed to create cert pool") (lift_sum (NewCertPool caCert));
  t ← now;
  verified ← try (lift_outcome
    (VerifyCert cert (Some privateKey) pool dnsName (t + CertLookahead)));
  match verified with
  | inr _ => mret tt
  | inl _ => rotateServerCert serverCertSecret caCert caPrivateKey dnsName
  end.

Definition server_secrets : ListOptions :=
  mkListOptions (Some (cr_DeploymentsNamespace r)) policy_server_component ∅.

Definition reconcileServerCerts (caRootSecret : Secret) : M World unit :=
  webhookServerCertSecret ← wrap_err (ErrWrap "failed to get webhook server cert secret")
    (read (Get KSecret (mkNN (cr_DeploymentsNamespace r) (cr_WebhookServerCertSecretName r))));
  wrap_err (ErrWrap "failed to rotate server cert")
    (reconcileServerCert webhookServerCertSecret caRootSecret
       (DNSName (cr_WebhookServiceName r) (cr_DeploymentsNamespace r))) ;;
  serverCertSecretList ← wrap_err (ErrWrap "failed to list policy server cert secrets")
    (read (List KSecret server_secrets));
  mfor (λ serverCertSecret : KObj KSecret,
    wrap_err (ErrWrap "failed to rotate server cert")
      (reconcileServerCert serverCertSecret caRootSecret
         (DNSName (om_Name (s_Meta serverCertSecret)) (cr_DeploymentsNamespace r))))
    serverCertSecretList.

Definition certReconciler_reconcile : M World unit :=
  caCertSecret ← wrap_err (ErrWrap "failed to get CA cert secret")
    (read (Get KSecret (mkNN (cr_DeploymentsNamespace r) (cr_CARootSecretName r))));
  caCertSecret ← wrap_err (ErrWrap "failed to reconcile CA root")
    (reconcileCARoot caCertSecret);
  caCertSecret ← wrap_err (ErrWrap "failed to reconcile old CA root")
    (reconcileOldCARoot caCertSecret);
  wrap_err (ErrWrap "failed to reconcile server certs") (reconcileServerCerts caCertSecret).

(** The ticker loop of [Start]: a failed reconciliation is logged and the
    next tick tries again. *)
Fixpoint Start_ticks (ticks : nat) : M World unit :=
  match ticks with
  | 0 => mret tt
  | S n => try certReconciler_reconcile ;; Start_ticks n
  end.
End controller.

(** ** Webhook configurations *)

Definition has_bundle (b : Bytes) (c : WebhookConfiguration) : Prop :=
  Forall (λ w, wcc_CABundle (wh_ClientConfig w) = b) (wc_Webhooks c).

Lemma inject_stored b (c : WebhookConfiguration) ws :
  Forall2 webhook_stored (wc_Webhooks (inject_CABundle b c)) ws →
  Forall (λ w, wcc_CABundle (wh_ClientConfig w) = b) ws.
Proof.
  cbn. intros Hst. apply Forall_forall. intros w' Hw'.
  apply list_elem_of_lookup in Hw' as [i Hi].
  destruct (Forall2_lookup_r _ _ _ _ _ Hst Hi) as (w & Hw & Hs).
  apply list_lookup_fmap_Some in Hw as (w0 & -> & _).
  destruct Hs as (_ & -> & _). done.
Qed.

Section controller_lemmas.
Context {World : Type} `{K8sUtil, !K8sUtilLaws, KubeClient World, Environment World,
  Retry World, !KubeClientLaws World, !RetryLaws World}.
Implicit Types (w : World).

(** Patching under retries. *)
Lemma retried_patch k o inj w w' g :
  Get k (kkey k o) w = inr o → kkey k inj = kkey k o →
  wrap_err g (RetryOnConflict (call (Patch k o inj) ;; mret tt)) w = (Ok tt, w') →
  ∃ o', stored k inj o' ∧ same_but k (kkey k inj) w w' ∧ Get k (kkey k inj) w' = inr o'.
Proof.
  intros Hget Hkey Hrun. autorewrite with go in Hrun.
  apply RetryOnConflict_ok in Hrun as (w0 & Hc & Hrun). inv_run Hrun. subst.
  assert (same_objects w w0) as Hw0.
  { clear -Hc KubeClientLaws0. induction Hc as [|w1 w2 w3 (e & Hrun & He) _ IH]; [done|].
    trans w2; [|done]. unfold mbind, M_mbind, M_bind, call in Hrun.
    destruct (Patch k o inj w1) as [[e'|o'] w'] eqn:Hp; [|done].
    simplify_eq. by eapply Patch_conflict. }
  apply Patch_ok in Hrun0 as (Hst & Hsame & Hget'); [|by rewrite Hw0|done].
  exists x. split_and!; [done| |done].
  intros k' key' Hne. rewrite Hsame by done. apply Hw0.
Qed.

Lemma within_retried_patch k o inj :
  within clock_le (RetryOnConflict (call (Patch k o inj) ;; mret tt)).
Proof. apply RetryOnConflict_within; [apply _|]. solve_within. Qed.

Lemma patch_all k opts (inj : KObj k → KObj k) (P : KObj k → Prop) g w l w' :
  (∀ o, kkey k (inj o) = kkey k o) → (∀ o o', stored k (inj o) o' → P o') →
  List k opts w = inr l →
  mfor (λ o, wrap_err g (RetryOnConflict (call (Patch k o (inj o)) ;; mret tt))) l w
    = (Ok tt, w') →
  (∀ k' key, k' ≠ k → Get k' key w' = Get k' key w) ∧
  (∀ key o, Get k key w' = inr o → list_matches k opts o → P o).
Proof.
  intros Hkey HP Hl Hrun.
  match type of Hrun with mfor ?f _ _ = _ =>
    destruct (mfor_listed k f P l w w' (List_NoDup _ _ _ _ Hl)) as (_ & Hframe & Hall)
  end; [| |exact Hrun|].
  - intros o [key [Hg _]]%(List_spec _ _ _ _ _ Hl). by rewrite (Get_key _ _ _ _ Hg).
  - intros o w1 w2 _ Hg1 _ Hstep. split.
    { eapply within_run; [apply within_wrap, within_retried_patch|exact Hstep]. }
    apply retried_patch in Hstep as (o' & Hst & Hsame & Hget); [|done..]. rewrite Hkey in *.
    split; [done|]. intros o1 Ho1 _. assert (o1 = o') as -> by congruence. by eapply HP.
  - split; [intros k' key Hne; apply Hframe; naive_solver|].
    intros key o Hg Hm. destruct (decide (key ∈ kkey k <$> l)) as [Hin|Hnin]; [by eapply Hall|].
    exfalso. apply Hnin. rewrite Hframe in Hg by tauto.
    rewrite <-(Get_key _ _ _ _ Hg). apply list_elem_of_fmap_2.
    apply (List_spec _ _ _ _ _ Hl). eauto.
Qed.

(** A configuration of Kubewarden, of either kind. *)
Definition kubewarden_config w (c : WebhookConfiguration) : Prop :=
  (∃ key, Get KValidatingWebhookConfiguration key w = inr c ∨
          Get KMutatingWebhookConfiguration key w = inr c) ∧
  part_of_kubewarden ⊆ om_Labels (wc_Meta c).

Lemma reconcileWebhookConfigurations_spec b w w' :
  reconcileWebhookConfigurations b w = (Ok tt, w') →
  (∀ c, kubewarden_config w' c → has_bundle b c) ∧
  (∀ k key, k ≠ KValidatingWebhookConfiguration → k ≠ KMutatingWebhookConfiguration →
     Get k key w' = Get k key w).
Proof.
  unfold reconcileWebhookConfigurations. intros Hrun. inv_run Hrun. subst.
  rename Hrun1 into Hlv, Hrun2 into Hv, Hrun4 into Hlm, Hrun into Hm.
  destruct (patch_all KValidatingWebhookConfiguration _ (inject_CABundle b) (has_bundle b)
              _ _ _ _ (λ _, eq_refl) (λ o o' Hst, inject_stored b o _ (proj2 Hst)) Hlv Hv)
    as [Hv1 Hv2].
  destruct (patch_all KMutatingWebhookConfiguration _ (inject_CABundle b) (has_bundle b)
              _ _ _ _ (λ _, eq_refl) (λ o o' Hst, inject_stored b o _ (proj2 Hst)) Hlm Hm)
    as [Hm1 Hm2].
  split.
  - intros c [[key [Hg|Hg]] Hl].
    + apply (Hv2 key); [by rewrite Hm1 in Hg|]. done.
    + by apply (Hm2 key).
  - intros k key ? ?. by rewrite Hm1, Hv1.
Qed.

Lemma within_reconcileWebhookConfigurations b :
  within clock_le (reconcileWebhookConfigurations b).
Proof. unfold reconcileWebhookConfigurations. solve_within; apply within_retried_patch. Qed.

Lemma within_GenerateCA nb na : within (clock_le (World := World)) (GenerateCA nb na).
Proof. unfold GenerateCA, lift_sum. solve_within. Qed.
Lemma within_GenerateCert ca k nb na dns :
  within (clock_le (World := World)) (GenerateCert ca k nb na dns).
Proof. unfold GenerateCert, lift_sum, first_block. solve_within. Qed.
Lemma GenerateCA_same nb na : within (same_objects (World := World)) (GenerateCA nb na).
Proof. unfold GenerateCA, lift_sum. solve_within. Qed.
Lemma GenerateCert_same ca k nb na dns :
  within (same_objects (World := World)) (GenerateCert ca k nb na dns).
Proof. unfold GenerateCert, lift_sum, first_block. solve_within. Qed.
End controller_lemmas.
#[export] Hint Resolve within_reconcileWebhookConfigurations within_GenerateCA
  within_GenerateCert : go.

(** ** Rotation *)

Lemma truncate_le t : (truncate_seconds t ≤ t)%Z.
Proof. unfold truncate_seconds, Second. pose proof (Z.mul_div_le t 1000000000). lia. Qed.
Lemma truncate_mono t t' : (t ≤ t')%Z → (truncate_seconds t ≤ truncate_seconds t')%Z.
Proof.
  intros Ht. unfold truncate_seconds, Second.
  pose proof (Z.div_le_mono t t' 1000000000). lia.
Qed.

Lemma ExtractCARoot_data s ca key old m :
  s_Data s = <[OldCARootCert := old]> (<[CARootPrivateKey := key]> (<[CARootCert := ca]> m)) →
  ca ≠ [] → key ≠ [] → ExtractCARootFromSecret s = inr (ca, key).
Proof.
  intros Hd Hca Hkey. unfold ExtractCARootFromSecret, extract. rewrite Hd.
  rewrite (lookup_insert_ne _ OldCARootCert CARootCert) by done.
  rewrite (lookup_insert_ne _ CARootPrivateKey CARootCert) by done.
  rewrite lookup_insert_eq. rewrite (lookup_insert_ne _ OldCARootCert CARootPrivateKey) by done.
  rewrite lookup_insert_eq. by destruct ca, key.
Qed.

Lemma ExtractCARoot_delete_old s s' p :
  s_Data s' = delete OldCARootCert (s_Data s) → ExtractCARootFromSecret s = inr p →
  ExtractCARootFromSecret s' = inr p.
Proof.
  intros Hd. unfold ExtractCARootFromSecret, extract. rewrite Hd.
  rewrite !(lookup_delete_ne _ OldCARootCert) by done.
  destruct (s_Data s !! CARootCert) as [[|? ?]|]; try done.
  by destruct (s_Data s !! CARootPrivateKey) as [[|? ?]|].
Qed.

Section rotation.
Context {World : Type} `{K8sUtil, !K8sUtilLaws, KubeClient World, Environment World,
  Retry World, !KubeClientLaws World, !RetryLaws World}.
Implicit Types (w : World).

(** A written secret: its data are what was sent, and it is what the server
    holds, unless it was being deleted. *)
Lemma Update_secret (s : Secret) w (s' : Secret) w' :
  Update KSecret s w = (inr s', w') → s_StringData s = ∅ →
  s_Data s' = s_Data s ∧ s_StringData s' = ∅ ∧ om_Labels (s_Meta s') = om_Labels (s_Meta s) ∧
  om_key (s_Meta s') = om_key (s_Meta s) ∧
  same_but KSecret (om_key (s_Meta s)) w w' ∧
  ∀ s2, Get KSecret (om_key (s_Meta s)) w' = inr s2 → s2 = s'.
Proof.
  intros ([Hm [Hd Hs]] & Hsame & Hget)%Update_ok Hsd. cbn in Hd, Hs, Hm.
  destruct Hm as (Hn & Hns & Hl & _). split_and!; try done.
  - rewrite Hd, Hsd. apply (left_id_L ∅ (∪)).
  - unfold om_key. by rewrite Hn, Hns.
  - intros s2 Hg. change (om_key (s_Meta s)) with (kkey KSecret s) in Hg.
    destruct Hget as [Hget|(_ & (e & Hab & _) & _)]; congruence.
Qed.

Lemma rotateCARoot_inv (s : Secret) old w (s' : Secret) w' :
  rotateCARoot s old w = (Ok s', w') → s_StringData s = ∅ →
  ∃ ca' key' t, (clock w ≤ t ≤ clock w')%Z ∧
    (∀ at_, (t ≤ at_ ≤ truncate_seconds (t + CACertExpiration))%Z →
       VerifyCA ca' (Some key') at_ = Ok tt) ∧
    ExtractCARootFromSecret s' = inr (ca', key') ∧
    s_Data s' !! OldCARootCert = Some old ∧ s_StringData s' = ∅ ∧
    om_Labels (s_Meta s') = om_Labels (s_Meta s) ∧ om_key (s_Meta s') = om_key (s_Meta s) ∧
    (∀ s2, Get KSecret (om_key (s_Meta s)) w' = inr s2 → s2 = s') ∧
    (∀ c, kubewarden_config w' c → has_bundle (ca' ++ old) c) ∧
    (∀ key2, key2 ≠ om_key (s_Meta s) → Get KSecret key2 w' = Get KSecret key2 w).
Proof.
  unfold rotateCARoot. intros Hrun Hsd. inv_run Hrun. subst.
  rename x3 into ca', y into key', x5 into s', x7 into w'.
  destruct (Now_reads _ _ _ Hrun0) as (-> & Hc0 & Hs0).
  destruct (Now_reads _ _ _ Hrun1) as (-> & Hc1 & Hs1).
  pose proof (within_run _ _ _ _ _ (within_GenerateCA _ _) Hrun2) as Hc2.
  pose proof (within_run _ _ _ _ _ (GenerateCA_same _ _) Hrun2) as Hs2.
  pose proof (Update_clock_run KSecret _ _ _ _ Hrun3) as Hc3.
  pose proof (within_run _ _ _ _ _ (within_reconcileWebhookConfigurations _) Hrun4) as Hc4.
  apply Update_secret in Hrun3 as (Hd & Hsd' & Hl & Hk & Hsame & Hlast); [|done].
  cbn in Hd, Hl, Hk, Hsame, Hlast.
  apply reconcileWebhookConfigurations_spec in Hrun4 as [Hb Hframe].
  unfold clock_le in *. exists ca', key', (clock w). split; [lia|]. split_and!.
  - intros at_ Hat. eapply GenerateCA_verifies; [exact Hrun2|].
    pose proof (truncate_le (clock w)).
    pose proof (truncate_mono (clock w + CACertExpiration) (clock x0 + CACertExpiration)). lia.
  - apply GenerateCA_inv in Hrun2 as (c & k & -> & -> & _).
    by eapply ExtractCARoot_data.
  - rewrite Hd. apply lookup_insert_eq.
  - done.
  - done.
  - done.
  - intros s2. rewrite Hframe by done. apply Hlast.
  - done.
  - intros key2 Hne. rewrite Hframe, Hsame by congruence.
    by rewrite (Hs2 KSecret), (Hs1 KSecret), (Hs0 KSecret).
Qed.

Lemma reconcileCARoot_inv (s : Secret) w (s' : Secret) w' :
  reconcileCARoot s w = (Ok s', w') →
  ∃ ca key, ExtractCARootFromSecret s = inr (ca, key) ∧
  ((VerifyCA ca (Some key) (clock w + CertLookahead) = Ok tt ∧ s' = s ∧ same_objects w w' ∧
    clock_le w w') ∨
   ∃ e, VerifyCA ca (Some key) (clock w + CertLookahead) = Err e ∧
   ∃ w1, clock_le w w1 ∧ same_objects w w1 ∧ rotateCARoot s ca w1 = (Ok s', w')).
Proof.
  unfold reconcileCARoot. intros Hrun. inv_run Hrun. subst.
  match goal with Hn : Now w = _ |- _ => destruct (Now_reads _ _ _ Hn) as (-> & Hc & Hs) end.
  exists x, y. split; [done|].
  destruct x3 as [e|[]]; [right|left]; autorewrite with go in *.
  - unfold lift_outcome in *. simplify_eq. eauto 10.
  - destruct Hrun as [-> ->], Hrun3 as [Hv ->]. done.
Qed.

(** (C27) Rotation of the CA root: when reconciliation succeeds, either the CA
    root verifies 60 days ahead and nothing is written, or it does not, a new
    one was generated that is valid from the rotation on for ten years, the
    secret holds it and keeps the previous one as the old CA, and every
    Kubewarden webhook configuration trusts exactly the new and the old CA. *)
Theorem reconcileCARoot_rotates (s : Secret) w (s' : Secret) w' :
  reconcileCARoot s w = (Ok s', w') → s_StringData s = ∅ →
  ∃ ca key, ExtractCARootFromSecret s = inr (ca, key) ∧
  ((VerifyCA ca (Some key) (clock w + CertLookahead) = Ok tt ∧ s' = s ∧ same_objects w w') ∨
   (∃ e, VerifyCA ca (Some key) (clock w + CertLookahead) = Err e) ∧
   ∃ ca' key' t, (clock w ≤ t ≤ clock w')%Z ∧
     (∀ at_, (t ≤ at_ ≤ truncate_seconds (t + CACertExpiration))%Z →
        VerifyCA ca' (Some key') at_ = Ok tt) ∧
     ExtractCARootFromSecret s' = inr (ca', key') ∧
     s_Data s' !! OldCARootCert = Some ca ∧
     (∀ s2, Get KSecret (om_key (s_Meta s)) w' = inr s2 → s2 = s') ∧
     (∀ c, kubewarden_config w' c → has_bundle (ca' ++ ca) c)).
Proof.
  intros (ca & key & He & [(Hv & -> & Hs & _)|(e & Hv & w1 & Hc & Hs & Hrun)])%reconcileCARoot_inv
    Hsd; exists ca, key; (split; [done|]); [by left|right].
  destruct (rotateCARoot_inv _ _ _ _ _ Hrun Hsd)
    as (ca' & key' & t & Ht & Hv' & He' & Ho & _ & _ & _ & Hget & Hb & _).
  split; [by eexists|]. exists ca', key', t. unfold clock_le in *. split_and!; try done; lia.
Qed.

Lemma reconcileOldCARoot_inv (s : Secret) w (s' : Secret) w' :
  reconcileOldCARoot s w = (Ok s', w') → s_StringData s = ∅ →
  clock_le w w' ∧
  ((s' = s ∧ same_objects w w' ∧
    ∀ old, s_Data s !! OldCARootCert = Some old → VerifyCA old None (clock w) = Ok tt) ∨
   ∃ old ca key e, s_Data s !! OldCARootCert = Some old ∧
     VerifyCA old None (clock w) = Err e ∧
     ExtractCARootFromSecret s = inr (ca, key) ∧
     s_Data s' = delete OldCARootCert (s_Data s) ∧ s_StringData s' = ∅ ∧
     om_Labels (s_Meta s') = om_Labels (s_Meta s) ∧ om_key (s_Meta s') = om_key (s_Meta s) ∧
     (∀ s2, Get KSecret (om_key (s_Meta s)) w' = inr s2 → s2 = s') ∧
     (∀ c, kubewarden_config w' c → has_bundle ca c) ∧
     (∀ key2, key2 ≠ om_key (s_Meta s) → Get KSecret key2 w' = Get KSecret key2 w)).
Proof.
  unfold reconcileOldCARoot. intros Hrun Hsd.
  destruct (s_Data s !! OldCARootCert) as [old|] eqn:Hold.
  2:{ inv_run Hrun. subst. split; [done|]. left. naive_solver. }
  inv_run Hrun. destruct (Now_reads _ _ _ Hrun0) as (-> & Hc & Hs).
  match goal with Hv : match ?v with _ => _ end, Hr : (match ?v with _ => _ end) _ = _ |- _ =>
    rename Hv into Hver, Hr into Hrest; destruct v as [e|[]] end; inv_run Hver.
  2:{ inv_run Hrest. subst. split; [done|]. left. naive_solver. }
  unfold lift_outcome in Hver. simplify_eq. inv_run Hrest. subst.
  match goal with Hu : Update _ _ _ = _, Hw : reconcileWebhookConfigurations _ _ = _ |- _ =>
    pose proof (Update_clock_run KSecret _ _ _ _ Hu) as Hc3;
    pose proof (within_run _ _ _ _ _ (within_reconcileWebhookConfigurations _) Hw) as Hc4;
    apply Update_secret in Hu as (Hd & Hsd' & Hl & Hk & Hsame & Hlast); [|done];
    apply reconcileWebhookConfigurations_spec in Hw as [Hb Hframe] end.
  cbn in Hd, Hl, Hk, Hsame, Hlast. split; [unfold clock_le in *; lia|].
  right. do 4 eexists. split_and!; try done.
  - intros s2. rewrite Hframe by done. apply Hlast.
  - intros key2 Hne. rewrite Hframe, Hsame by congruence. apply Hs.
Qed.

(** The old CA root is dropped exactly when it no longer verifies: then
    it is gone from the secret, the current CA is untouched, and every
    Kubewarden webhook configuration trusts the current CA alone. *)
Theorem reconcileOldCARoot_drops (s : Secret) w (s' : Secret) w' old :
  reconcileOldCARoot s w = (Ok s', w') → s_StringData s = ∅ →
  s_Data s !! OldCARootCert = Some old →
  (VerifyCA old None (clock w) = Ok tt → s' = s ∧ same_objects w w') ∧
  (VerifyCA old None (clock w) ≠ Ok tt →
   s_Data s' !! OldCARootCert = None ∧
   ∃ ca key, ExtractCARootFromSecret s = inr (ca, key) ∧
     ExtractCARootFromSecret s' = inr (ca, key) ∧
     ∀ c, kubewarden_config w' c → has_bundle ca c).
Proof.
  intros Hrun Hsd Hold. apply reconcileOldCARoot_inv in Hrun as [_ Hr]; [|done].
  destruct Hr as [(-> & Hs & Hv)|(old' & ca & key & e & Hold' & Hv & He & Hd & _ & _ & _ & _ & Hb & _)].
  - specialize (Hv _ Hold). split; [done|congruence].
  - assert (old' = old) as -> by congruence. rewrite Hv. split; [done|]. intros _.
    split; [by rewrite Hd, lookup_delete_eq|]. exists ca, key.
    split_and!; [done|by eapply ExtractCARoot_delete_old|done].
Qed.
End rotation.

(** ** Malformed certificates *)

Lemma NewCertPool_no_block data : pem_Decode data = None → NewCertPool data = inr [].
Proof. induction data as [|[] data IH]; simpl; [done|done|apply IH]. Qed.

Section malformed.
Context {World : Type} `{K8sUtil, KubeClient World, Environment World, Retry World}.

(** A CA root that holds no PEM block is not rotated: verifying it
    dereferences a nil block and the controller panics. *)
Theorem malformed_ca_panics (s : Secret) (w : World) ca key :
  ExtractCARootFromSecret s = inr (ca, key) → pem_Decode ca = None →
  ∃ why, fst (reconcileCARoot s w) = Panic why.
Proof.
  intros He Hd.
  assert (∀ t, VerifyCA ca (Some key) t = Panic "invalid memory address or nil pointer dereference")
    as Hv.
  { intros t. unfold VerifyCA. rewrite NewCertPool_no_block by done. unfold VerifyCert.
    by rewrite Hd. }
  eexists. unfold reconcileCARoot, mbind, M_mbind, M_bind, wrap_err, lift_sum, now, try,
    lift_outcome. rewrite He. cbn [mret M_mret]. destruct (Now w) as [t w1].
  rewrite Hv. done.
Qed.
End malformed.

(** ** Server certificates *)

Section server_certs.
Context {World : Type} `{K8sUtil, !K8sUtilLaws, KubeClient World, Environment World,
  Retry World, !KubeClientLaws World, !RetryLaws World}.
Implicit Types (w : World).

(** The server certificate of a secret is good for a name: at a time between
    [lo] and [hi] it verified 60 days ahead against the CA, or it was issued
    by the CA and verifies for a year from then on, as long as the CA is
    valid. *)
Definition good_cert (ca : Bytes) (dns : string) (lo hi : Z) (s : Secret) : Prop :=
  ∃ cert key pool t, ExtractServerCertFromSecret s = inr (cert, key) ∧
    NewCertPool ca = inr pool ∧ (lo ≤ t ≤ hi)%Z ∧
    (VerifyCert cert (Some key) pool dns (t + CertLookahead) = Ok tt ∨
     ∀ at_ b rest root,
       pem_Decode ca = Some (b, rest) → ParseCertificate (pb_Bytes b) = inr root →
       signing_ca root → valid_at root at_ = true →
       (t ≤ at_ ≤ truncate_seconds (t + ServerCertExpiration))%Z →
       VerifyCert cert (Some key) pool dns at_ = Ok tt).

Lemma good_cert_mono ca dns lo hi lo' hi' s :
  (lo' ≤ lo)%Z → (hi ≤ hi')%Z → good_cert ca dns lo hi s → good_cert ca dns lo' hi' s.
Proof.
  intros ? ? (cert & key & pool & t & ? & ? & ? & ?). exists cert, key, pool, t.
  split_and!; try done; lia.
Qed.

Lemma ExtractServerCert_data s cert key m :
  s_Data s = <[ServerPrivateKey := key]> (<[ServerCert := cert]> m) →
  cert ≠ [] → key ≠ [] → ExtractServerCertFromSecret s = inr (cert, key).
Proof.
  intros Hd Hc Hk. unfold ExtractServerCertFromSecret, extract. rewrite Hd.
  rewrite (lookup_insert_ne _ ServerPrivateKey ServerCert), !lookup_insert_eq by done.
  by destruct cert, key.
Qed.

Lemma rotateServerCert_inv (s : Secret) ca caKey pool service ns w w' :
  rotateServerCert s ca caKey (DNSName service ns) w = (Ok tt, w') →
  NewCertPool ca = inr pool → s_StringData s = ∅ →
  clock_le w w' ∧ same_but KSecret (om_key (s_Meta s)) w w' ∧
  ∀ s2, Get KSecret (om_key (s_Meta s)) w' = inr s2 →
    s_StringData s2 = ∅ ∧ om_Labels (s_Meta s2) = om_Labels (s_Meta s) ∧
    good_cert ca (DNSName service ns) (clock w) (clock w') s2.
Proof.
  unfold rotateServerCert. intros Hrun Hpool Hsd. inv_run Hrun. subst.
  rename x3 into cert, y into key, Hrun2 into Hgen, Hrun3 into Hup.
  destruct (Now_reads _ _ _ Hrun0) as (-> & Hc0 & Hs0).
  destruct (Now_reads _ _ _ Hrun1) as (-> & Hc1 & Hs1).
  pose proof (within_run _ _ _ _ _ (within_GenerateCert _ _ _ _ _) Hgen) as Hc2.
  pose proof (within_run _ _ _ _ _ (GenerateCert_same _ _ _ _ _) Hgen) as Hs2.
  pose proof (Update_clock_run KSecret _ _ _ _ Hup) as Hc3.
  apply Update_secret in Hup as (Hd & Hsd' & Hl & Hk & Hsame & Hlast); [|done].
  cbn in Hd, Hl, Hk, Hsame, Hlast. unfold clock_le in *. split; [lia|]. split.
  { intros k key2 Hne. rewrite Hsame by done. by rewrite Hs2, Hs1, Hs0. }
  intros s2 ->%Hlast. split; [done|]. split; [done|].
  exists cert, key, pool, (clock w). split_and!; [|done|lia|lia|right].
  - apply GenerateCert_inv in Hgen as (? & ? & ? & ? & ? & _ & _ & -> & -> & _).
    by eapply ExtractServerCert_data.
  - intros at_ b rest root Hb Hp Hsign Hv Hat.
    eapply GenerateCert_verifies; [exact Hgen|done..|].
    pose proof (truncate_le (clock w)).
    pose proof (truncate_mono (clock w + ServerCertExpiration)
                  (clock x0 + ServerCertExpiration)). lia.
Qed.

Lemma reconcileServerCert_inv (s caS : Secret) service ns w w' :
  reconcileServerCert s caS (DNSName service ns) w = (Ok tt, w') →
  s_StringData s = ∅ → Get KSecret (om_key (s_Meta s)) w = inr s →
  ∃ ca caKey, ExtractCARootFromSecret caS = inr (ca, caKey) ∧
    clock_le w w' ∧ same_but KSecret (om_key (s_Meta s)) w w' ∧
    ∀ s2, Get KSecret (om_key (s_Meta s)) w' = inr s2 →
      s_StringData s2 = ∅ ∧ om_Labels (s_Meta s2) = om_Labels (s_Meta s) ∧
      good_cert ca (DNSName service ns) (clock w) (clock w') s2.
Proof.
  unfold reconcileServerCert. intros Hrun Hsd Hget. inv_run Hrun. subst.
  match goal with Hn : Now w = _ |- _ => destruct (Now_reads _ _ _ Hn) as (-> & Hc & Hs) end.
  exists x1, y0. split; [done|].
  match goal with Hv : match ?v with _ => _ end, Hr : (match ?v with _ => _ end) _ = _ |- _ =>
    rename Hv into Hver, Hr into Hrest; destruct v as [e|[]] end; inv_run Hver.
  - unfold lift_outcome in Hver. simplify_eq.
    eapply rotateServerCert_inv in Hrest as (Hc' & Hsame & Hg); [|done..].
    unfold clock_le in *. split; [lia|]. split.
    { intros k key2 Hne. by rewrite Hsame, Hs. }
    intros s2 (? & ? & Hgood)%Hg. split_and!; try done.
    eapply good_cert_mono; [..|exact Hgood]; [done|lia].
  - inv_run Hrest. subst. split; [done|]. split; [by intros k key2 _; rewrite Hs|].
    intros s2. rewrite (Hs KSecret), Hget. intros [= <-]. split_and!; try done.
    eexists _, _, _, (clock w). split_and!; try done. by left.
Qed.

(** No secret the server returns carries [StringData], a write-only field. *)
Definition string_data_free w : Prop :=
  ∀ key s, Get KSecret key w = inr s → s_StringData (s : Secret) = ∅.

Definition server_secret (r : CertReconciler) (s : Secret) : Prop :=
  om_Namespace (s_Meta s) = cr_DeploymentsNamespace r ∧
  policy_server_component ⊆ om_Labels (s_Meta s).

Lemma server_secret_listed r s : list_matches KSecret (server_secrets r) s ↔ server_secret r s.
Proof. unfold list_matches, server_secret. cbn. rewrite lookup_empty. tauto. Qed.

Abbreviation server_dns r s := (DNSName (om_Name (s_Meta s)) (cr_DeploymentsNamespace r)).

(** The loop over the policy servers' secrets. *)
Lemma server_loop r caS w l w' :
  List KSecret (server_secrets r) w = inr l → string_data_free w →
  mfor (λ s : KObj KSecret, wrap_err (ErrWrap "failed to rotate server cert")
          (reconcileServerCert s caS (server_dns r s))) l w = (Ok tt, w') →
  clock_le w w' ∧
  (∀ key, (∀ s, Get KSecret key w = inr s → ¬ server_secret r s) →
     Get KSecret key w' = Get KSecret key w) ∧
  (∀ key s, Get KSecret key w' = inr s → server_secret r s →
     ∃ ca caKey, ExtractCARootFromSecret caS = inr (ca, caKey) ∧
       good_cert ca (server_dns r s) (clock w) (clock w') s).
Proof.
  intros Hl Hsdf Hrun.
  set (P := λ s : Secret, ∃ ca caKey, ExtractCARootFromSecret caS = inr (ca, caKey) ∧
              good_cert ca (server_dns r s) (clock w) (clock w') s).
  assert (∀ s : Secret, s ∈ l → Get KSecret (om_key (s_Meta s)) w = inr s) as Hget.
  { intros s [key [Hg _]]%(List_spec KSecret _ _ _ _ Hl).
    by rewrite <-(Get_key KSecret _ _ _ Hg) in Hg. }
  match type of Hrun with mfor ?f _ _ = _ =>
    destruct (mfor_listed KSecret f P l w w' (List_NoDup _ _ _ _ Hl) Hget)
      as (Hc & Hframe & Hall) end; [|exact Hrun|].
  - intros s w1 w2 Hs Hg Hc Hstep. autorewrite with go in Hstep.
    apply reconcileServerCert_inv in Hstep as (ca & caKey & He & Hc' & Hsame & Hgood);
      [|by eapply Hsdf, Hget|done].
    split; [done|]. split; [done|]. intros s2 Hs2 Hend. exists ca, caKey. split; [done|].
    pose proof (Get_key KSecret _ _ _ Hs2) as [= _ Hname]. cbn in Hname. rewrite Hname.
    destruct (Hgood s2 Hs2) as (_ & _ & Hgc).
    eapply good_cert_mono; [..|exact Hgc]; unfold clock_le in *; lia.
  - split; [done|]. split.
    + intros key Hno. apply Hframe. intros [_ (s & -> & Hs)%list_elem_of_fmap].
      apply (Hno s); [by apply Hget|]. apply server_secret_listed.
      apply (List_spec KSecret _ _ _ _ Hl) in Hs as (? & _ & ?). done.
    + intros key s Hg Hs. apply (Hall key); [|done].
      destruct (decide (key ∈ kkey KSecret <$> l)) as [?|Hnin]; [done|].
      rewrite Hframe in Hg by tauto. rewrite <-(Get_key KSecret _ _ _ Hg).
      apply list_elem_of_fmap_2, (List_spec KSecret _ _ _ _ Hl). exists key.
      by rewrite server_secret_listed.
Qed.

(** A CA that was verified, or generated, at a time between [lo] and [hi]. *)
Definition good_ca (lo hi : Z) (ca key : Bytes) : Prop :=
  ∃ t, (lo ≤ t ≤ hi)%Z ∧
    (VerifyCA ca (Some key) (t + CertLookahead) = Ok tt ∨
     ∀ at_, (t ≤ at_ ≤ truncate_seconds (t + CACertExpiration))%Z →
       VerifyCA ca (Some key) at_ = Ok tt).

(** The secret as the CA phase leaves it: what the server holds. *)
Record ca_secret_kept (s0 : Secret) w w' (s' : Secret) : Prop := {
  kept_clock : clock_le w w';
  kept_free : string_data_free w';
  kept_labels : om_Labels (s_Meta s') = om_Labels (s_Meta s0);
  kept_key : om_key (s_Meta s') = om_key (s_Meta s0);
  kept_data : s_StringData s' = ∅;
  kept_stored s : Get KSecret (om_key (s_Meta s0)) w' = inr s → s = s';
  kept_others key : key ≠ om_key (s_Meta s0) → Get KSecret key w' = Get KSecret key w;
}.

Lemma string_data_free_frame (s0 s' : Secret) w w' :
  string_data_free w → s_StringData s' = ∅ →
  (∀ s, Get KSecret (om_key (s_Meta s0)) w' = inr s → s = s') →
  (∀ key2, key2 ≠ om_key (s_Meta s0) → Get KSecret key2 w' = Get KSecret key2 w) →
  string_data_free w'.
Proof.
  intros Hf Hs' Hst Hfr key s Hg. destruct (decide (key = om_key (s_Meta s0))) as [->|Hne].
  - by rewrite (Hst s Hg).
  - rewrite Hfr in Hg by done. by eapply Hf.
Qed.

Lemma reconcileCARoot_kept s0 w s' w' :
  reconcileCARoot s0 w = (Ok s', w') → Get KSecret (om_key (s_Meta s0)) w = inr s0 →
  string_data_free w →
  ca_secret_kept s0 w w' s' ∧
  ∃ ca key, ExtractCARootFromSecret s' = inr (ca, key) ∧ good_ca (clock w) (clock w') ca key.
Proof.
  intros Hrun Hg Hf. pose proof (Hf _ _ Hg) as Hsd.
  apply reconcileCARoot_inv in Hrun
    as (ca & key & He & [(Hv & -> & Hs & Hc)|(e & Hv & w1 & Hc & Hs & Hrun)]).
  - split; [split; try done|].
    + intros k s Hk. rewrite (Hs KSecret) in Hk. by eapply Hf.
    + intros s. rewrite (Hs KSecret), Hg. by intros [= ->].
    + exists ca, key. split; [done|]. exists (clock w). unfold clock_le in Hc.
      split; [lia|by left].
  - destruct (rotateCARoot_inv _ _ _ _ _ Hrun Hsd)
      as (ca' & key' & t & Ht & Hv' & He' & _ & Hsd' & Hl & Hk & Hst & _ & Hfr).
    unfold clock_le in Hc.
    assert (∀ key2, key2 ≠ om_key (s_Meta s0) → Get KSecret key2 w' = Get KSecret key2 w) as Hfr'.
    { intros key2 Hne. rewrite Hfr by done. apply Hs. }
    split.
    + split; try done; [unfold clock_le; lia|].
      eapply (string_data_free_frame s0); [exact Hf|exact Hsd'|exact Hst|exact Hfr'].
    + exists ca', key'. split; [done|]. exists t. split; [lia|by right].
Qed.

Lemma reconcileOldCARoot_kept s1 w s' w' ca key :
  reconcileOldCARoot s1 w = (Ok s', w') → ExtractCARootFromSecret s1 = inr (ca, key) →
  s_StringData s1 = ∅ → (∀ s, Get KSecret (om_key (s_Meta s1)) w = inr s → s = s1) →
  string_data_free w →
  ca_secret_kept s1 w w' s' ∧ ExtractCARootFromSecret s' = inr (ca, key).
Proof.
  intros Hrun He Hsd Hst Hf. apply reconcileOldCARoot_inv in Hrun as [Hc Hr]; [|done].
  destruct Hr as [(-> & Hs & _)|(old & ca' & key' & e & _ & _ & _ & Hd & Hsd' & Hl & Hk & Hst' & _ & Hfr)].
  - split; [split; try done|done].
    + intros k s Hk. rewrite (Hs KSecret) in Hk. by eapply Hf.
    + intros s. rewrite (Hs KSecret). apply Hst.
  - split; [|by eapply ExtractCARoot_delete_old]. split; try done.
    eapply (string_data_free_frame s1); [exact Hf|exact Hsd'|exact Hst'|exact Hfr].
Qed.

Lemma reconcileServerCerts_inv r caS w w' :
  reconcileServerCerts r caS w = (Ok tt, w') → string_data_free w →
  ∃ ca caKey, ExtractCARootFromSecret caS = inr (ca, caKey) ∧ clock_le w w' ∧
  (∀ key s, Get KSecret key w' = inr s → server_secret r s →
     good_cert ca (server_dns r s) (clock w) (clock w') s) ∧
  let whkey := mkNN (cr_DeploymentsNamespace r) (cr_WebhookServerCertSecretName r) in
  (∀ wh s, Get KSecret whkey w = inr wh → ¬ server_secret r wh →
     Get KSecret whkey w' = inr s →
     good_cert ca (DNSName (cr_WebhookServiceName r) (cr_DeploymentsNamespace r))
       (clock w) (clock w') s) ∧
  (∀ key, key ≠ whkey → (∀ s, Get KSecret key w = inr s → ¬ server_secret r s) →
     Get KSecret key w' = Get KSecret key w).
Proof.
  unfold reconcileServerCerts. intros Hrun Hf. inv_run Hrun. subst.
  rename x into wh, Hrun1 into Hwh, Hrun2 into Hfirst, Hrun4 into Hl, Hrun into Hloop.
  pose proof (Get_key KSecret _ _ _ Hwh : om_key (s_Meta wh) = _) as Hkey.
  apply reconcileServerCert_inv in Hfirst as (ca & caKey & He & Hc & Hsame & Hgood);
    [|by eapply Hf|by rewrite Hkey]. rewrite Hkey in *.
  assert (string_data_free x1) as Hf1.
  { intros key s Hg. destruct (decide (key = om_key (s_Meta wh))) as [->|Hne].
    - rewrite Hkey in Hg. by destruct (Hgood s Hg).
    - rewrite Hsame in Hg by congruence. by eapply Hf. }
  destruct (server_loop r caS _ _ _ Hl Hf1 Hloop) as (Hc' & Hframe & Hall).
  exists ca, caKey. unfold clock_le in *. split_and!; [done|lia| | |].
  - intros key s Hg Hs. destruct (Hall key s Hg Hs) as (ca2 & k2 & He2 & Hgc).
    rewrite He in He2. simplify_eq. eapply good_cert_mono; [..|exact Hgc]; lia.
  - intros wh' s Hwh' Hns Hg. assert (wh' = wh) as -> by congruence.
    rewrite Hframe in Hg.
    { destruct (Hgood s Hg) as (_ & _ & Hgc). eapply good_cert_mono; [..|exact Hgc]; lia. }
    intros s1 Hg1 [_ Hlab]. apply Hns. split; [exact (f_equal nn_Namespace Hkey)|].
    destruct (Hgood s1 Hg1) as (_ & Heq & _). by rewrite <-Heq.
  - intros key Hne Hns. rewrite Hframe; [apply Hsame; congruence|].
    intros s. rewrite Hsame by congruence. apply Hns.
Qed.

Lemma certReconciler_reconcile_inv (r : CertReconciler) w w' (s0 : Secret) :
  let ns := cr_DeploymentsNamespace r in
  let caKeyName := mkNN ns (cr_CARootSecretName r) in
  let whKeyName := mkNN ns (cr_WebhookServerCertSecretName r) in
  certReconciler_reconcile r w = (Ok tt, w') →
  Get KSecret caKeyName w = inr s0 → string_data_free w → ¬ server_secret r s0 →
  caKeyName ≠ whKeyName →
  ∃ caS ca caKey,
    (∀ s, Get KSecret caKeyName w' = inr s → s = caS) ∧
    ExtractCARootFromSecret caS = inr (ca, caKey) ∧
    good_ca (clock w) (clock w') ca caKey ∧
    (∀ key s, Get KSecret key w' = inr s → server_secret r s →
       good_cert ca (DNSName (om_Name (s_Meta s)) ns) (clock w) (clock w') s) ∧
    (∀ wh s, Get KSecret whKeyName w = inr wh → ¬ server_secret r wh →
       Get KSecret whKeyName w' = inr s →
       good_cert ca (DNSName (cr_WebhookServiceName r) ns) (clock w) (clock w') s).
Proof.
  intros ns cak whk Hrun Hg0 Hf Hns Hne.
  unfold certReconciler_reconcile in Hrun. inv_run Hrun. subst.
  fold ns cak in Hrun1. assert (x = s0) as -> by congruence.
  pose proof (Get_key KSecret _ _ _ Hg0 : om_key (s_Meta s0) = _) as Hk0.
  destruct (reconcileCARoot_kept _ _ _ _ Hrun2) as [[Hc1 Hf1 Hl1 Hk1 Hsd1 Hst1 Hfr1] (ca & caKey & He & Hca)];
    [by rewrite Hk0|done|].
  destruct (reconcileOldCARoot_kept _ _ _ _ ca caKey Hrun3) as [[Hc2 Hf2 Hl2 Hk2 Hsd2 Hst2 Hfr2] He2];
    [done|done|by rewrite Hk1|done|].
  destruct (reconcileServerCerts_inv _ _ _ _ Hrun Hf2) as (ca' & caKey' & He' & Hc3 & Hall & Hwh & Hfr).
  rewrite He2 in He'. injection He' as <- <-. unfold clock_le in *.
  exists x3, ca, caKey. split_and!; try done.
  - intros s Hg. apply Hst2. rewrite Hk1, Hk0, <-Hg. symmetry. apply Hfr; [done|].
    intros s2 Hs2. rewrite <-Hk0, <-Hk1 in Hs2. apply Hst2 in Hs2 as ->.
    intros [_ Hlab]. apply Hns. split; [exact (f_equal nn_Namespace Hk0)|].
    by rewrite <-Hl1, <-Hl2.
  - destruct Hca as (t & Ht & Hv). exists t. split; [lia|done].
  - intros key s Hg Hs. eapply good_cert_mono; [..|by apply (Hall key)]; lia.
  - intros wh s Hg Hno Hg'.
    eapply good_cert_mono; [..|eapply Hwh; [|exact Hno|exact Hg']]; [lia..|].
    fold ns whk. rewrite Hfr2, Hfr1; [done|by rewrite Hk0|by rewrite Hk1, Hk0].
Qed.

(** (C12) Certificate reconciliation as a whole: when it succeeds, the CA of
    the cluster was verified 60 days ahead or newly generated, and every
    policy server's certificate, and the controller's own, is good for its
    service name under that CA: verified 60 days ahead, or issued by it for
    a year. *)
Theorem certReconciler_reconcile_spec (r : CertReconciler) w w' (s0 : Secret) :
  let ns := cr_DeploymentsNamespace r in
  let caKeyName := mkNN ns (cr_CARootSecretName r) in
  let whKeyName := mkNN ns (cr_WebhookServerCertSecretName r) in
  certReconciler_reconcile r w = (Ok tt, w') →
  Get KSecret caKeyName w = inr s0 → string_data_free w → ¬ server_secret r s0 →
  caKeyName ≠ whKeyName →
  ∃ caS ca caKey,
    (∀ s, Get KSecret caKeyName w' = inr s → s = caS) ∧
    ExtractCARootFromSecret caS = inr (ca, caKey) ∧
    good_ca (clock w) (clock w') ca caKey ∧
    (∀ key s, Get KSecret key w' = inr s → server_secret r s →
       good_cert ca (DNSName (om_Name (s_Meta s)) ns) (clock w) (clock w') s) ∧
    (∀ wh s, Get KSecret whKeyName w = inr wh → ¬ server_secret r wh →
       Get KSecret whKeyName w' = inr s →
       good_cert ca (DNSName (cr_WebhookServiceName r) ns) (clock w) (clock w') s).
Proof. apply certReconciler_reconcile_inv. Qed.
End server_certs.

(** ** Only the run that rotates the CA injects it *)

Section injection.
Context {World : Type} `{K8sUtil, !K8sUtilLaws, KubeClient World, Environment World,
  Retry World, !KubeClientLaws World, !RetryLaws World}.
Implicit Types (w : World).

Lemma within_reconcileCARoot (s : Secret) : within clock_le (reconcileCARoot s).
Proof. unfold reconcileCARoot, rotateCARoot, lift_sum. solve_within. Qed.
Lemma within_reconcileOldCARoot (s : Secret) : within clock_le (reconcileOldCARoot s).
Proof. unfold reconcileOldCARoot, lift_sum. solve_within. Qed.
Lemma within_reconcileServerCert (s caS : Secret) dns : within clock_le (reconcileServerCert s caS dns).
Proof. unfold reconcileServerCert, rotateServerCert, lift_sum. solve_within. Qed.
#[local] Hint Resolve within_reconcileCARoot within_reconcileOldCARoot within_reconcileServerCert : go.
Lemma within_reconcileServerCerts r (caS : Secret) : within clock_le (reconcileServerCerts r caS).
Proof. unfold reconcileServerCerts. solve_within. Qed.

Lemma within_certReconciler r : within clock_le (certReconciler_reconcile r).
Proof.
  pose proof within_reconcileServerCerts. unfold certReconciler_reconcile. solve_within.
Qed.

(** Every object but the secrets reads the same. *)
Definition only_secrets w w' : Prop := ∀ k key, k ≠ KSecret → Get k key w' = Get k key w.
#[local] Instance only_secrets_preorder : PreOrder only_secrets.
Proof.
  split; [by intros w k key _|]. intros w1 w2 w3 H12 H23 k key Hk. by rewrite H23, H12.
Qed.

Lemma only_secrets_same {A} (m : M World A) : within same_objects m → within only_secrets m.
Proof. intros Hm w k key _. apply Hm. Qed.
Lemma only_secrets_now : within only_secrets (now (W := World)).
Proof.
  apply only_secrets_same. intros w. unfold now. destruct (Now w) as [t w'] eqn:Hn.
  by eapply Now_same.
Qed.
Lemma only_secrets_Update (s : Secret) :
  within only_secrets (call (W := World) (Update KSecret (s : KObj KSecret))).
Proof. apply within_call. intros w k key Hk. apply (Update_frame KSecret). congruence. Qed.
Lemma only_secrets_GenerateCert ca k nb na dns :
  within only_secrets (GenerateCert (World := World) ca k nb na dns).
Proof. apply only_secrets_same, GenerateCert_same. Qed.
#[local] Hint Resolve only_secrets_now only_secrets_Update only_secrets_GenerateCert
  only_secrets_preorder : go.
Lemma only_secrets_reconcileServerCerts r (caS : Secret) :
  within only_secrets (reconcileServerCerts r caS).
Proof.
  unfold reconcileServerCerts, reconcileServerCert, rotateServerCert, lift_sum. solve_within.
Qed.

(** With a CA that verifies ahead, the run is that of the server
    certificates. *)
Lemma certReconciler_ahead r w (caS : Secret) ca caKey :
  Get KSecret (mkNN (cr_DeploymentsNamespace r) (cr_CARootSecretName r)) w = inr caS →
  ExtractCARootFromSecret caS = inr (ca, caKey) →
  VerifyCA ca (Some caKey) (clock w + CertLookahead) = Ok tt →
  (∀ old t, s_Data caS !! OldCARootCert = Some old →
     (clock w ≤ t ≤ clock (certReconciler_reconcile r w).2)%Z → VerifyCA old None t = Ok tt) →
  ∃ w2, same_objects w w2 ∧ clock_le w w2 ∧
    certReconciler_reconcile r w
    = wrap_err (ErrWrap "failed to reconcile server certs") (reconcileServerCerts r caS) w2.
Proof.
  intros Hca He Hv Hold.
  destruct (Now w) as [t1 w1] eqn:Hn1. destruct (Now_reads _ _ _ Hn1) as (-> & Hc1 & Hs1).
  assert (reconcileCARoot caS w = (Ok caS, w1)) as Hroot.
  { unfold reconcileCARoot, lift_sum, now, mbind, M_mbind, M_bind, wrap_err, try, lift_outcome.
    rewrite He. cbn [mret M_mret]. by rewrite Hn1, Hv. }
  assert (∀ w2 o, reconcileOldCARoot caS w1 = (Ok o, w2) → o = caS →
    certReconciler_reconcile r w
    = wrap_err (ErrWrap "failed to reconcile server certs") (reconcileServerCerts r caS) w2) as Hrun.
  { intros w2 o Ho ->. unfold certReconciler_reconcile, read, call, mbind, M_mbind, M_bind, wrap_err.
    by rewrite Hca, Hroot, Ho. }
  destruct (s_Data caS !! OldCARootCert) as [old|] eqn:Hdata.
  2:{ exists w1. split; [done|]. split; [done|]. apply (Hrun _ caS); [|done].
      unfold reconcileOldCARoot. by rewrite Hdata. }
  destruct (Now w1) as [t2 w2] eqn:Hn2. destruct (Now_reads _ _ _ Hn2) as (-> & Hc2 & Hs2).
  assert (clock w1 ≤ clock (certReconciler_reconcile r w).2)%Z as Hle.
  { unfold certReconciler_reconcile, read, call, mbind, M_mbind, M_bind, wrap_err.
    rewrite Hca, Hroot. pose proof (within_reconcileOldCARoot caS w1) as Ho.
    destruct (reconcileOldCARoot caS w1) as [[s|e|x|c] w3]; cbn in Ho |- *; try done.
    pose proof (within_reconcileServerCerts r s w3) as Hs.
    destruct (reconcileServerCerts r s w3) as [[] w4]; cbn in Hs |- *; unfold clock_le in *; lia. }
  exists w2. split; [by trans w1|]. split; [by trans w1|]. apply (Hrun _ caS); [|done].
  unfold reconcileOldCARoot, now, mbind, M_mbind, M_bind, wrap_err, try, lift_outcome.
  rewrite Hdata, Hn2, (Hold old) by (done || unfold clock_le in *; lia). done.
Qed.

(** A certificate that is good under a CA is vouched for by its pool. *)
Lemma good_cert_unrelated ca caKey dns lo hi (s : Secret) cert key pool b rest root :
  good_cert ca dns lo hi s → ExtractServerCertFromSecret s = inr (cert, key) →
  NewCertPool ca = inr pool → pem_Decode ca = Some (b, rest) →
  ParseCertificate (pb_Bytes b) = inr root → signing_ca root →
  (∀ t, (lo ≤ t ≤ hi)%Z → VerifyCA ca (Some caKey) (t + CertLookahead) = Ok tt) →
  ∀ bpool dns' at_, unrelated pool bpool → VerifyCert cert (Some key) bpool dns' at_ ≠ Ok tt.
Proof.
  intros (cert' & key' & pool' & t & Hx & Hpool & Ht & Hor) Hx' Hpool' Hd Hp Hsign Hv
    bpool dns' at_ Hun. rewrite Hx in Hx'. injection Hx' as -> ->.
  rewrite Hpool in Hpool'. injection Hpool' as ->.
  assert (VerifyCert cert (Some key) pool dns (t + CertLookahead) = Ok tt) as Hok;
    [|by eapply VerifyCert_unrelated].
  destruct Hor as [?|Hor]; [done|]. eapply Hor; [exact Hd|exact Hp|exact Hsign| |].
  - eapply VerifyCA_root; [by apply Hv|exact Hd|exact Hp].
  - unfold truncate_seconds, CertLookahead, ServerCertExpiration, Hour, Second.
    set (x := (t + 1 * 365 * 24 * (3600 * 1000000000))%Z). pose proof (Z.mod_pos_bound x 1000000000 eq_refl).
    pose proof (Z.div_mod x 1000000000 ltac:(done)). unfold x in *. lia.
Qed.

End injection.
#[export] Hint Resolve within_reconcileCARoot within_reconcileOldCARoot within_reconcileServerCert
  within_reconcileServerCerts : go.

(** ** Concrete runs *)

(** Retries as client-go's default: four attempts. *)
Fixpoint retry_n `{K8sUtil} {W} (n : nat) (m : M W unit) : M W unit := λ w,
  match m w with
  | (Err e, w') =>
      if IsConflict e then match n with 0 => (Err e, w') | S n => retry_n n m w' end
      else (Err e, w')
  | r => r
  end.
Definition concrete_retry : Retry FakeWorld := {| RetryOnConflict := @retry_n concrete_util _ 3 |}.

Lemma concrete_retry_laws : @RetryLaws FakeWorld concrete_util concrete_retry.
Proof.
  split; cbn [RetryOnConflict concrete_retry].
  - intros m. generalize 3. intros n. induction n as [|n IH]; intros w w'; simpl;
      destruct (m w) as [[[]|e|p|c] w1] eqn:Hm; try done.
    + intros [= <-]. by exists w.
    + by case_match.
    + intros [= <-]. by exists w.
    + case_match eqn:He; [|done].
      intros (w0 & Hr & Hw0)%IH. exists w0. split; [|done].
      eapply rtc_l; [|exact Hr]. by exists e.
  - intros R m HR Hm. generalize 3. intros n. induction n as [|n IH]; intros w; simpl;
      specialize (Hm w); destruct (m w) as [[[]|e|p|c] w1]; simpl in *; try done;
      case_match; try done.
    etrans; [exact Hm|apply IH].
Qed.

Section concrete_runs.
#[local] Existing Instance concrete_util.
#[local] Existing Instance fake_client.
#[local] Existing Instance fake_env.
#[local] Existing Instance concrete_retry.

Definition sample_cert_reconciler : CertReconciler :=
  mkCertReconciler "kubewarden" "webhook" CARootSecretName "webhook-cert".

(** A CA that expires in 30 days, and the certificate of the controller's
    webhook service under it. *)
Definition expiring_ca : Bytes * Bytes :=
  pair_of (GenerateCA (sample_time - Hour) (sample_time + 30 * 24 * Hour) sample_world).
Definition webhook_cert : Bytes * Bytes :=
  pair_of (GenerateCert expiring_ca.1 expiring_ca.2 (sample_time - Hour)
             (sample_time + ServerCertExpiration) (DNSName "webhook" "kubewarden")
             sample_world).
Definition ca_secret : Secret :=
  mkSecret (named_meta "kubewarden" CARootSecretName) "Opaque"
    {[ CARootCert := expiring_ca.1; CARootPrivateKey := expiring_ca.2 ]} ∅.
Definition webhook_secret : Secret :=
  mkSecret (named_meta "kubewarden" "webhook-cert") "Opaque"
    {[ ServerCert := webhook_cert.1; ServerPrivateKey := webhook_cert.2 ]} ∅.
Definition sample_config : WebhookConfiguration :=
  mkWebhookConfiguration
    (om_set_Labels part_of_kubewarden (named_meta "" "kubewarden-controller"))
    [mkWebhook "vpolicyserver.kb.io" (mkWCC None expiring_ca.1) [] None None None None None None
       [] []].
Definition config_key : NamespacedName := mkNN "" "kubewarden-controller".

Definition cert_store : Store :=
  store_map KSecret (λ m, <[om_key (s_Meta ca_secret) := ca_secret]>
                            (<[om_key (s_Meta webhook_secret) := webhook_secret]> m))
    (store_map KValidatingWebhookConfiguration
       (λ m, <[config_key := sample_config]> m) empty_store).
Definition cert_world (fail : Op → Kind → option GoError) (s : Store) : FakeWorld :=
  mkFakeWorld s fail sample_time 7 ∅.
Definition no_failure : Op → Kind → option GoError := λ _ _, None.
Definition patch_fails : Op → Kind → option GoError := λ op k,
  match op, k with
  | OpPatch, KValidatingWebhookConfiguration => Some (ErrStatus "InternalError" "unavailable")
  | _, _ => None
  end.

(** A rotation that is interrupted at the first webhook configuration, and the
    run after it. *)
Definition interrupted_run : Outcome unit * FakeWorld :=
  certReconciler_reconcile sample_cert_reconciler (cert_world patch_fails cert_store).
Definition resumed_world : FakeWorld := cert_world no_failure (fw_store interrupted_run.2).
Definition resumed_run : Outcome unit * FakeWorld :=
  certReconciler_reconcile sample_cert_reconciler resumed_world.

Lemma forallb_seqZ (f : Z → bool) a b t :
  forallb f (seqZ a (b - a + 1)) = true → (a ≤ t ≤ b)%Z → f t = true.
Proof. rewrite forallb_forall. intros Hf Ht. apply Hf, list_elem_of_In, elem_of_seqZ. lia. Qed.

Definition verifies {A} (o : Outcome A) : bool := match o with Ok _ => true | _ => false end.
Lemma verifies_true (o : Outcome unit) : verifies o = true → o = Ok tt.
Proof. by destruct o as [[]| | |]. Qed.
Lemma free_of_data w :
  map_Forall (λ _ s, s_StringData s = ∅) (fw_store w KSecret) → string_data_free w.
Proof. intros Hall key s (_ & Hs & _)%fake_Get_inv. by eapply Hall. Qed.

(** The CA of the interrupted rotation. *)
Definition resumed_secret : Secret :=
  match fake_Get KSecret (om_key (s_Meta ca_secret)) resumed_world with
  | inr s => s | inl _ => ca_secret end.
Definition resumed_ca : Bytes * Bytes :=
  match ExtractCARootFromSecret resumed_secret with inr p => p | inl _ => expiring_ca end.
Definition pool_of (b : Bytes) : list Certificate :=
  match NewCertPool b with inr l => l | inl _ => [] end.
Definition resumed_config : WebhookConfiguration :=
  match fake_Get KValidatingWebhookConfiguration config_key resumed_world with
  | inr c => c | inl _ => sample_config end.
Definition webhook_secret_of (w : FakeWorld) : Secret :=
  match fake_Get KSecret (om_key (s_Meta webhook_secret)) w with
  | inr s => s | inl _ => webhook_secret end.
Definition webhook_pair : Bytes * Bytes :=
  match ExtractServerCertFromSecret (webhook_secret_of resumed_run.2) with
  | inr p => p | inl _ => webhook_cert end.

Lemma resumed_root :
  ∃ b rest root, pem_Decode resumed_ca.1 = Some (b, rest) ∧
    ParseCertificate (pb_Bytes b) = inr root ∧ signing_ca root ∧
    unrelated (pool_of resumed_ca.1) (pool_of expiring_ca.1).
Proof.
  do 3 eexists. split; [vm_compute; reflexivity|]. split; [vm_compute; reflexivity|]. split.
  - split; try (vm_compute; reflexivity). cbn. set_solver.
  - apply unrelated_roots; [vm_compute; reflexivity|vm_compute; reflexivity|].
    vm_compute. discriminate.
Qed.
Lemma resumed_ahead t :
  (clock resumed_world ≤ t ≤ clock resumed_run.2)%Z →
  VerifyCA resumed_ca.1 (Some resumed_ca.2) (t + CertLookahead) = Ok tt.
Proof.
  intros Ht. apply verifies_true.
  assert (forallb (λ t, verifies (VerifyCA resumed_ca.1 (Some resumed_ca.2) (t + CertLookahead)))
    (seqZ (clock resumed_world) (clock resumed_run.2 - clock resumed_world + 1)) = true) as Hall
    by (vm_compute; reflexivity).
  exact (forallb_seqZ _ _ _ _ Hall Ht).
Qed.
Lemma resumed_old old t :
  s_Data resumed_secret !! OldCARootCert = Some old →
  (clock resumed_world ≤ t ≤ clock resumed_run.2)%Z → VerifyCA old None t = Ok tt.
Proof.
  intros Hold Ht. apply verifies_true.
  assert (s_Data resumed_secret !! OldCARootCert = Some expiring_ca.1) as Hexp
    by (vm_compute; reflexivity).
  rewrite Hexp in Hold. injection Hold as <-.
  assert (forallb (λ t, verifies (VerifyCA expiring_ca.1 None t))
    (seqZ (clock resumed_world) (clock resumed_run.2 - clock resumed_world + 1)) = true) as Hall
    by (vm_compute; reflexivity).
  exact (forallb_seqZ _ _ _ _ Hall Ht).
Qed.
Lemma resumed_free : string_data_free resumed_world.
Proof. apply free_of_data. apply (bool_decide_unpack _). vm_compute. exact I. Qed.
Lemma resumed_kubewarden :
  kubewarden_config resumed_world resumed_config ∧ has_bundle expiring_ca.1 resumed_config.
Proof.
  split; [split|].
  - exists config_key. left. vm_compute. reflexivity.
  - apply (bool_decide_unpack _). vm_compute. exact I.
  - apply (bool_decide_unpack _). vm_compute. exact I.
Qed.


Definition secret_of (o : Outcome Secret) : Secret :=
  match o with Ok s => s | _ => ca_secret end.

Lemma reconcileCARoot_rotates_witness :
  let w := cert_world no_failure cert_store in
  let run := reconcileCARoot ca_secret w in
  ∃ ca key, ExtractCARootFromSecret ca_secret = inr (ca, key) ∧
    (VerifyCA ca (Some key) (clock w + CertLookahead) = Ok tt ∨
     s_Data (secret_of run.1) !! OldCARootCert = Some ca).
Proof.
  intros w run.
  assert (run.1 = Ok (secret_of run.1)) as Hrun by (vm_compute; reflexivity).
  destruct (@reconcileCARoot_rotates FakeWorld concrete_util fake_client fake_env
              concrete_retry fake_laws concrete_retry_laws ca_secret w (secret_of run.1) run.2
              (run_fst _ _ _ Hrun) eq_refl)
    as (ca & key & He & [(Hv & _)|(_ & ca' & key' & t & _ & _ & _ & Ho & _)]);
    exists ca, key; auto.
Defined.

(** A secret whose old CA has expired. *)
Definition expired_ca : Bytes * Bytes :=
  pair_of (GenerateCA (sample_time - 30 * Hour) (sample_time - Hour) sample_world).
Definition rotated_secret : Secret :=
  s_set_Data (<[OldCARootCert := expired_ca.1]> (s_Data ca_secret)) ca_secret.

Lemma reconcileOldCARoot_drops_witness :
  let w := cert_world no_failure cert_store in
  let run := reconcileOldCARoot rotated_secret w in
  s_Data (secret_of run.1) !! OldCARootCert = None.
Proof.
  intros w run.
  assert (run.1 = Ok (secret_of run.1)) as Hrun by (vm_compute; reflexivity).
  refine (proj1 (proj2 (@reconcileOldCARoot_drops FakeWorld concrete_util fake_client fake_env
              concrete_retry fake_laws concrete_retry_laws rotated_secret w
              (secret_of run.1) run.2 expired_ca.1 (run_fst _ _ _ Hrun) eq_refl _) _)).
  - vm_compute. reflexivity.
  - vm_compute. discriminate.
Defined.

Lemma cert_store_free : string_data_free (cert_world no_failure cert_store).
Proof.
  intros key s (_ & Hs & _)%fake_Get_inv. unfold cert_world, cert_store in Hs. cbn [fw_store] in Hs.
  rewrite store_map_same, store_map_other in Hs by done.
  apply lookup_insert_Some in Hs as [[_ <-]|[_ Hs]]; [done|].
  apply lookup_insert_Some in Hs as [[_ <-]|[_ Hs]]; [done|]. done.
Qed.

Lemma certReconciler_reconcile_spec_witness :
  let w := cert_world no_failure cert_store in
  let run := certReconciler_reconcile sample_cert_reconciler w in
  ∃ caS ca caKey,
    (∀ s, Get KSecret (mkNN "kubewarden" CARootSecretName) run.2 = inr s → s = caS) ∧
    ExtractCARootFromSecret caS = inr (ca, caKey).
Proof.
  intros w run.
  assert (run.1 = Ok tt) as Hrun by (vm_compute; reflexivity).
  destruct (@certReconciler_reconcile_spec FakeWorld concrete_util fake_client fake_env
    concrete_retry fake_laws concrete_retry_laws sample_cert_reconciler w run.2 ca_secret
    (run_fst _ _ _ Hrun)) as (caS & ca & caKey & Hs & He & _).
  - vm_compute. reflexivity.
  - exact cert_store_free.
  - intros [_ Hl]. eapply (lookup_weaken _ _ PartOfLabelKey) in Hl; [|reflexivity]. discriminate.
  - discriminate.
  - exists caS, ca, caKey. by split.
Defined.

Lemma malformed_ca_panics_witness :
  ∃ why, fst (reconcileCARoot
    (s_set_Data {[ CARootCert := [IByte "x"%char]; CARootPrivateKey := expiring_ca.2 ]}
       ca_secret) (cert_world no_failure cert_store)) = Panic why.
Proof. eapply malformed_ca_panics; vm_compute; reflexivity. Defined.
End concrete_runs.
