(* ===== verification/PolicyServerController.v ===== *)
(** * The policy server controller ([policyserver_controller.go],
      [policyserver_controller_cert_secret.go])

    [Reconcile] works on a local copy of the policy server, whose status
    conditions it edits as it goes: the steps run on the pair of the world and
    that copy. *)

From S2P Require Import Prelude GoStd Json K8sTypes Concrete Constants PolicyTypes PolicyValidation PolicyServerTypes PolicyWebhook KubeClient FakeCluster ConfigMap Resources Deployment Certs CertController.

(** ** Conditions *)

Section conditions.
Context `{K8sUtil}.

Definition setFalseConditionType (conditionType message : string) (now : Z)
    (ps : PolicyServer) : PolicyServer :=
  psrv_set_Conditions
    (SetStatusCondition now (psrv_Conditions ps)
       (mkCondition conditionType "False" ReconciliationFailed message)) ps.
Definition setTrueConditionType (conditionType : string) (now : Z) (ps : PolicyServer)
    : PolicyServer :=
  psrv_set_Conditions
    (SetStatusCondition now (psrv_Conditions ps)
       (mkCondition conditionType "True" ReconciliationSucceeded "")) ps.
End conditions.

Definition policyServerDeploymentName (policyServerName : string) : string :=
  "policy-server-" +:+ policyServerName.

(** ** Watches *)

(** The index functions and map functions, on objects of any type. *)
Definition index_ClusterAdmissionPolicy (object : AnyObject) : list string :=
  match object with
  | OPolicy (PClusterAdmissionPolicy p) => [sp_PolicyServer (caps_PolicySpec (cap_Spec p))]
  | _ => []
  end.
Definition index_AdmissionPolicy (object : AnyObject) : list string :=
  match object with
  | OPolicy (PAdmissionPolicy p) => [sp_PolicyServer (ap_Spec p)]
  | _ => []
  end.
Definition index_AdmissionPolicyGroup (object : AnyObject) : list string :=
  match object with
  | OPolicy (PAdmissionPolicyGroup p) => [gs_PolicyServer (pgs_GroupSpec (apg_Spec p))]
  | _ => []
  end.
Definition index_ClusterAdmissionPolicyGroup (object : AnyObject) : list string :=
  match object with
  | OPolicy (PClusterAdmissionPolicyGroup p) => [gs_PolicyServer (capg_GroupSpec p)]
  | _ => []
  end.

Definition server_request (name : string) : Request := mkRequest (mkNN "" name).

Definition enqueueAdmissionPolicy (object : AnyObject) : list Request :=
  match object with
  | OPolicy (PAdmissionPolicy p) => [server_request (sp_PolicyServer (ap_Spec p))]
  | _ => []
  end.
Definition enqueueAdmissionPolicyGroup (object : AnyObject) : list Request :=
  match object with
  | OPolicy (PAdmissionPolicyGroup p) =>
      [server_request (gs_PolicyServer (pgs_GroupSpec (apg_Spec p)))]
  | _ => []
  end.
Definition enqueueClusterAdmissionPolicy (object : AnyObject) : list Request :=
  match object with
  | OPolicy (PClusterAdmissionPolicy p) =>
      [server_request (sp_PolicyServer (caps_PolicySpec (cap_Spec p)))]
  | _ => []
  end.
Definition enqueueClusterAdmissionPolicyGroup (object : AnyObject) : list Request :=
  match object with
  | OPolicy (PClusterAdmissionPolicyGroup p) => [server_request (gs_PolicyServer (capg_GroupSpec p))]
  | _ => []
  end.

Section controller.
Context {World : Type} `{K8sUtil, KubeClient World, Environment World}.
Variable r : PolicyServerReconciler.

(** ** Certificate *)

(** The mutate function of [reconcilePolicyServerCertSecret]. *)
Definition updateCertSecret (ps : PolicyServer) (caSecret s : Secret) : M World Secret :=
  m ← set_owner "failed to set policy server secret owner reference" ps (s_Meta s);
  let m := om_set_Labels policy_server_component m in
  match s_Data s !! ServerCert, s_Data s !! ServerPrivateKey with
  | Some _, Some _ => mret (mkSecret m (s_Type s) (s_Data s) (s_StringData s))
  | _, _ =>
      '(caCert, caPrivateKey) ← lift_sum (ExtractCARootFromSecret caSecret);
      t1 ← now;
      t2 ← now;
      '(cert, privateKey) ← wrap_err
        (ErrWrap ("cannot generate policy-server " +:+ NameWithPrefix ps +:+ " certificate"))
        (GenerateCert caCert caPrivateKey t1 (t2 + ServerCertExpiration)
           (DNSName (NameWithPrefix ps) (r_DeploymentsNamespace r)));
      mret (mkSecret m "Opaque" (s_Data s)
              {[ ServerCert := cert; ServerPrivateKey := privateKey ]})
  end.

Definition reconcilePolicyServerCertSecret : M (World * PolicyServer) unit :=
  caSecret ← wrap_err (ErrWrap "failed to fetch CA secret")
    (with_local (λ _, read (Get KSecret (mkNN (r_DeploymentsNamespace r) CARootSecretName))));
  res ← try (with_local (λ ps,
    CreateOrPatch KSecret
      (mkSecret (named_meta (r_DeploymentsNamespace r) (NameWithPrefix ps)) "" ∅ ∅)
      (updateCertSecret ps caSecret)));
  match res with
  | inl err =>
      set_local_now (setFalseConditionType PolicyServerCertSecretReconciled
                       ("error reconciling secret: " +:+ Error err)) ;;
      fail (ErrJoin [ErrNew "cannot fetch or initialize Policy Server CA secret"; err])
  | inr _ => set_local_now (setTrueConditionType PolicyServerCertSecretReconciled)
  end.

(** ** Policies of a server *)

(** A list that failed for any reason but NotFound is an empty one. *)
Definition list_bound (k : Kind) (msg : string) (ps : PolicyServer) : M World (list (KObj k)) :=
  res ← try (read (List k (MatchingFields {[ PolicyServerIndexKey := psrv_Name ps ]})));
  match res with
  | inr l => mret l
  | inl err => if IsNotFound err then fail (ErrWrap msg err) else mret []
  end.

Definition getPolicies (ps : PolicyServer) : M World (list AnyPolicy) :=
  clusterAdmissionPolicies ← list_bound KClusterAdmissionPolicy
    "failed obtaining ClusterAdmissionPolicies" ps;
  admissionPolicies ← list_bound KAdmissionPolicy "failed obtaining AdmissionPolicies" ps;
  admissionPolicyGroups ← list_bound KAdmissionPolicyGroup
    "failed obtaining AdmissionPolicyGroups" ps;
  clusterAdmissionPolicyGroups ← list_bound KClusterAdmissionPolicyGroup
    "failed obtaining ClusterAdmissionPolicyGroups" ps;
  mret ((PClusterAdmissionPolicy <$> (clusterAdmissionPolicies : list ClusterAdmissionPolicy)) ++
        (PAdmissionPolicy <$> (admissionPolicies : list AdmissionPolicy)) ++
        (PAdmissionPolicyGroup <$> (admissionPolicyGroups : list AdmissionPolicyGroup)) ++
        (PClusterAdmissionPolicyGroup <$>
           (clusterAdmissionPolicyGroups : list ClusterAdmissionPolicyGroup))).

(** ** Deletion *)

Definition policy_kind (p : AnyPolicy) : { k : Kind & KObj k } :=
  match p with
  | PAdmissionPolicy p => existT KAdmissionPolicy p
  | PAdmissionPolicyGroup p => existT KAdmissionPolicyGroup p
  | PClusterAdmissionPolicy p => existT KClusterAdmissionPolicy p
  | PClusterAdmissionPolicyGroup p => existT KClusterAdmissionPolicyGroup p
  end.
Definition delete_policy (p : AnyPolicy) : M World unit :=
  call (Delete (projT1 (policy_kind p)) (projT2 (policy_kind p))).

(** The loop collects the errors of the deletions it tried. *)
Fixpoint delete_loop (policies : list AnyPolicy) : M World (list GoError) :=
  match policies with
  | [] => mret []
  | policy :: policies =>
      if GetDeletionTimestamp policy then delete_loop policies
      else
        res ← try (delete_policy policy);
        errs ← delete_loop policies;
        mret (match res with
              | inl err => if IsNotFound err then errs else err :: errs
              | inr _ => errs
              end)
  end.

Definition deletePoliciesAndRequeue (ps : PolicyServer) (policies : list AnyPolicy)
    : M World Result :=
  deleteError ← delete_loop policies;
  if negb (is_nil deleteError)
  then fail (ErrNew ("could not remove all policies bound to policy server " +:+ psrv_Name ps))
  else mret requeue_result.

Definition reconcileDeletion (ps : PolicyServer) (policies : list AnyPolicy)
    : M World Result :=
  if negb (is_nil policies) then deletePoliciesAndRequeue ps policies
  else
    let m := psrv_ObjectMeta ps in
    let m := om_set_Finalizers
      (RemoveFinalizer (RemoveFinalizer (om_Finalizers m) KubewardenFinalizerPre114)
         KubewardenFinalizer) m in
    res ← try (call (Update KPolicyServer (psrv_set_ObjectMeta m ps)));
    match res with
    | inr _ => mret empty_result
    | inl err => if IsConflict err then mret empty_result
                 else fail (ErrWrap "cannot update policy server" err)
    end.

(** ** Reconcile *)

(** A step whose outcome is recorded as a condition. *)
Definition recorded (conditionType msg : string) (step : PolicyServer → M World unit)
    : M (World * PolicyServer) unit :=
  res ← try (with_local step);
  match res with
  | inl err => set_local_now (setFalseConditionType conditionType (msg +:+ Error err)) ;; fail err
  | inr _ => set_local_now (setTrueConditionType conditionType)
  end.

Definition reconcile_resources (policies : list AnyPolicy) : M (World * PolicyServer) Result :=
  reconcilePolicyServerCertSecret ;;
  recorded PolicyServerConfigMapReconciled "error reconciling configmap: "
    (λ ps, reconcilePolicyServerConfigMap r ps policies) ;;
  recorded PolicyServerPodDisruptionBudgetReconciled
    "error reconciling policy server PodDisruptionBudget: "
    (reconcilePolicyServerPodDisruptionBudget r) ;;
  recorded PolicyServerDeploymentReconciled "error reconciling deployment: "
    (reconcilePolicyServerDeployment r) ;;
  recorded PolicyServerServiceReconciled "error reconciling service: "
    (reconcilePolicyServerService r) ;;
  with_local (λ ps,
    wrap_err (ErrWrap "update policy server status error")
      (call (StatusUpdate KPolicyServer ps)) ;; mret empty_result).

Definition PolicyServerReconciler_Reconcile (req : Request) : M World Result := λ w,
  match Get KPolicyServer (req_NamespacedName req) w with
  | inl err => (match IgnoreNotFound err with None => Ok empty_result | Some e => Err e end, w)
  | inr ps =>
      match getPolicies ps w with
      | (Ok policies, w1) =>
          if om_DeletionTimestamp (psrv_ObjectMeta ps)
          then reconcileDeletion ps policies w1
          else let '(o, (w2, _)) := reconcile_resources policies (w1, ps) in (o, w2)
      | (Err err, w1) => (Err (ErrJoin [ErrNew "could not get policies"; err]), w1)
      | (Panic why, w1) => (Panic why, w1)
      | (Exit c, w1) => (Exit c, w1)
      end
  end.
End controller.

(** ** Policies bound to a server *)

Definition stored_policy {World} `{KubeClient World} (w : World) (p : AnyPolicy) : Prop :=
  ∃ key, Get (projT1 (policy_kind p)) key w = inr (projT2 (policy_kind p)).

(** The four lists succeed. *)
Definition lists_ok {World} `{KubeClient World} (ps : PolicyServer) (w : World) : Prop :=
  ∀ k, k ∈ [KClusterAdmissionPolicy; KAdmissionPolicy; KAdmissionPolicyGroup;
            KClusterAdmissionPolicyGroup] →
    ∃ l, List k (MatchingFields {[ PolicyServerIndexKey := psrv_Name ps ]}) w = inr l.

(** The list of the policies of this kind that name the server succeeds. *)
Definition listed {World} `{KubeClient World} (ps : PolicyServer) (w : World) (k : Kind) : Prop :=
  ∃ l, List k (MatchingFields {[ PolicyServerIndexKey := psrv_Name ps ]}) w = inr l.
(** The same list fails, but not with NotFound. *)
Definition unlisted {World} `{K8sUtil, KubeClient World} (ps : PolicyServer) (w : World) (k : Kind) : Prop :=
  ∃ e, List k (MatchingFields {[ PolicyServerIndexKey := psrv_Name ps ]}) w = inl e ∧
    IsNotFound e = false.
Definition bound_kinds : list Kind :=
  [KClusterAdmissionPolicy; KAdmissionPolicy; KAdmissionPolicyGroup; KClusterAdmissionPolicyGroup].

Section theorems.
Context {World : Type} `{K8sUtil, !K8sUtilLaws, KubeClient World, Environment World,
  !KubeClientLaws World}.
Implicit Types (w : World) (r : PolicyServerReconciler) (ps : PolicyServer).

Lemma list_matches_server k name (o : KObj k) :
  list_matches k (MatchingFields {[ PolicyServerIndexKey := name ]}) o ↔
  name ∈ policyServerIndex k o.
Proof.
  unfold list_matches, MatchingFields. cbn [lo_Namespace lo_Labels lo_Fields].
  rewrite lookup_singleton_eq. split; [by intros (_ & _ & ?)|].
  intros Hn. split_and!; try done. apply map_empty_subseteq.
Qed.

Lemma listed_iff k name w l (o : KObj k) :
  List k (MatchingFields {[ PolicyServerIndexKey := name ]}) w = inr l →
  o ∈ l ↔ ∃ key, Get k key w = inr o ∧ name ∈ policyServerIndex k o.
Proof. intros Hl. rewrite (List_spec _ _ _ _ _ Hl). by setoid_rewrite list_matches_server. Qed.

Lemma unlisted_not_listed ps w k : unlisted ps w k → ¬ listed ps w k.
Proof. intros (e & He & _) [l Hl]. congruence. Qed.

Lemma list_bound_cases k msg ps w o w' :
  list_bound k msg ps w = (o, w') →
  w' = w ∧ match o with
    | Ok l => (listed ps w k ∨ unlisted ps w k) ∧ ∀ x, x ∈ l ↔
        (∃ key, Get k key w = inr x ∧ psrv_Name ps ∈ policyServerIndex k x) ∧ listed ps w k
    | Err _ => ∃ e,
        List k (MatchingFields {[ PolicyServerIndexKey := psrv_Name ps ]}) w = inl e ∧
        IsNotFound e = true
    | _ => False
    end.
Proof.
  unfold list_bound, listed, unlisted, read, call, try, mbind, M_mbind, M_bind.
  destruct (List k _ w) as [e|l] eqn:Hl; [destruct (IsNotFound e) eqn:He|]; cbn;
    intros [= <- <-]; (split; [done|]).
  - by exists e.
  - split; [right; by exists e|]. intros x. split; [by intros ?%elem_of_nil|by intros [_ [? ?]]].
  - split; [left; by exists l|]. intros x. rewrite (listed_iff _ _ _ _ _ Hl). naive_solver.
Qed.

(** The policies of four lists, put together. *)
Lemma bound_members ps w (lc : list ClusterAdmissionPolicy) (la : list AdmissionPolicy)
    (lg : list AdmissionPolicyGroup) (lcg : list ClusterAdmissionPolicyGroup) p :
  (∀ x, x ∈ lc ↔ (∃ key, Get KClusterAdmissionPolicy key w = inr x ∧
     psrv_Name ps ∈ policyServerIndex KClusterAdmissionPolicy x) ∧
     listed ps w KClusterAdmissionPolicy) →
  (∀ x, x ∈ la ↔ (∃ key, Get KAdmissionPolicy key w = inr x ∧
     psrv_Name ps ∈ policyServerIndex KAdmissionPolicy x) ∧ listed ps w KAdmissionPolicy) →
  (∀ x, x ∈ lg ↔ (∃ key, Get KAdmissionPolicyGroup key w = inr x ∧
     psrv_Name ps ∈ policyServerIndex KAdmissionPolicyGroup x) ∧
     listed ps w KAdmissionPolicyGroup) →
  (∀ x, x ∈ lcg ↔ (∃ key, Get KClusterAdmissionPolicyGroup key w = inr x ∧
     psrv_Name ps ∈ policyServerIndex KClusterAdmissionPolicyGroup x) ∧
     listed ps w KClusterAdmissionPolicyGroup) →
  (∃ x, p = PClusterAdmissionPolicy x ∧ x ∈ lc) ∨ (∃ x, p = PAdmissionPolicy x ∧ x ∈ la) ∨
  (∃ x, p = PAdmissionPolicyGroup x ∧ x ∈ lg) ∨ (∃ x, p = PClusterAdmissionPolicyGroup x ∧ x ∈ lcg)
  ↔ stored_policy w p ∧ GetPolicyServer p = psrv_Name ps ∧ listed ps w (projT1 (policy_kind p)).
Proof.
  intros Hc Ha Hg Hcg. unfold stored_policy. cbn [policyServerIndex] in *.
  setoid_rewrite Hc. setoid_rewrite Ha. setoid_rewrite Hg. setoid_rewrite Hcg.
  setoid_rewrite list_elem_of_singleton.
  destruct p as [p|p|p|p]; cbn [policy_kind projT1 projT2]; split.
  all: try (intros ([key Hget] & Hserver & Hl)).
  all: try (intros [(q & [= <-] & (key & Hget & Hserver) & Hl)
    |[(q & [= <-] & (key & Hget & Hserver) & Hl)|[(q & [= <-] & (key & Hget & Hserver) & Hl)
    |(q & [= <-] & (key & Hget & Hserver) & Hl)]]]; by eauto).
  - right. left. by eauto 10.
  - do 2 right. left. by eauto 10.
  - left. by eauto 10.
  - do 3 right. by eauto 10.
Qed.

(** What [getPolicies] answers, on every outcome. *)
Lemma getPolicies_cases ps w o w' :
  getPolicies ps w = (o, w') →
  w' = w ∧ match o with
    | Ok policies =>
        (∀ k, k ∈ bound_kinds → listed ps w k ∨ unlisted ps w k) ∧
        ∀ p, p ∈ policies ↔ stored_policy w p ∧ GetPolicyServer p = psrv_Name ps ∧
                            listed ps w (projT1 (policy_kind p))
    | Err _ => ∃ k e, k ∈ bound_kinds ∧
        List k (MatchingFields {[ PolicyServerIndexKey := psrv_Name ps ]}) w = inl e ∧
        IsNotFound e = true
    | _ => False
    end.
Proof.
  unfold getPolicies, mbind, M_mbind, M_bind.
  destruct (list_bound KClusterAdmissionPolicy _ ps w) as [o1 w1] eqn:H1'.
  apply (list_bound_cases KClusterAdmissionPolicy) in H1' as [-> Hc].
  destruct o1 as [lc|e1|?|?]; try done.
  2:{ destruct Hc as (e & Hl & He). intros [= <- <-]. split; [done|].
      exists KClusterAdmissionPolicy, e. split; [set_solver|done]. }
  destruct (list_bound KAdmissionPolicy _ ps w) as [o1 w1] eqn:H1'.
  apply (list_bound_cases KAdmissionPolicy) in H1' as [-> Ha].
  destruct o1 as [la|e1|?|?]; try done.
  2:{ destruct Ha as (e & Hl & He). intros [= <- <-]. split; [done|].
      exists KAdmissionPolicy, e. split; [set_solver|done]. }
  destruct (list_bound KAdmissionPolicyGroup _ ps w) as [o1 w1] eqn:H1'.
  apply (list_bound_cases KAdmissionPolicyGroup) in H1' as [-> Hg].
  destruct o1 as [lg|e1|?|?]; try done.
  2:{ destruct Hg as (e & Hl & He). intros [= <- <-]. split; [done|].
      exists KAdmissionPolicyGroup, e. split; [set_solver|done]. }
  destruct (list_bound KClusterAdmissionPolicyGroup _ ps w) as [o1 w1] eqn:H1'.
  apply (list_bound_cases KClusterAdmissionPolicyGroup) in H1' as [-> Hcg].
  destruct o1 as [lcg|e1|?|?]; try done.
  2:{ destruct Hcg as (e & Hl & He). intros [= <- <-]. split; [done|].
      exists KClusterAdmissionPolicyGroup, e. split; [set_solver|done]. }
  intros [= <- <-]. split; [done|]. destruct Hc as [Hc1 Hc], Ha as [Ha1 Ha], Hg as [Hg1 Hg],
    Hcg as [Hcg1 Hcg]. split; [unfold bound_kinds; set_solver|].
  intros p. rewrite !elem_of_app, !list_elem_of_fmap. by apply bound_members.
Qed.

Lemma getPolicies_bound ps w policies w' :
  getPolicies ps w = (Ok policies, w') → lists_ok ps w →
  w' = w ∧ ∀ p, p ∈ policies ↔ stored_policy w p ∧ GetPolicyServer p = psrv_Name ps.
Proof.
  intros [-> [_ Hin]]%getPolicies_cases Hok. split; [done|]. intros p. rewrite Hin.
  assert (listed ps w (projT1 (policy_kind p))) by (apply Hok; destruct p; set_solver). tauto.
Qed.

(** (C17) The policies a policy server is configured with, on every outcome.
    When the four lists (one per kind of policy) succeed, they are exactly the
    policies of the cluster, of all four kinds, whose spec names that server.
    When a list fails, they are those of the kinds whose list succeeded; only
    a failure with the reason NotFound is returned as an error, and nothing in
    the cluster is changed. *)
Theorem getPolicies_complete ps w o w' :
  getPolicies ps w = (o, w') →
  w' = w ∧ match o with
    | Ok policies =>
        (∀ k, k ∈ bound_kinds → listed ps w k ∨ unlisted ps w k) ∧
        ∀ p, p ∈ policies ↔ stored_policy w p ∧ GetPolicyServer p = psrv_Name ps ∧
                            listed ps w (projT1 (policy_kind p))
    | Err _ => ∃ k e, k ∈ bound_kinds ∧
        List k (MatchingFields {[ PolicyServerIndexKey := psrv_Name ps ]}) w = inl e ∧
        IsNotFound e = true
    | _ => False
    end.
Proof. apply getPolicies_cases. Qed.

(** ** Steps on the local copy *)

Lemma recorded_inv t msg step w ps st :
  recorded t msg step (w, ps) = (Ok tt, st) →
  ∃ w', step ps w = (Ok tt, w') ∧ st = (w', setTrueConditionType t (now_seconds w') ps).
Proof.
  unfold recorded. intros Hrun. inv_run Hrun.
  match goal with Hv : match ?v with _ => _ end |- _ => destruct v as [e|[]] end.
  - inv_run Hrun.
  - apply with_local_Ok in Hrun0 as (w' & Hs & [= -> ->]).
    apply set_local_now_Ok in Hrun as ->. by exists w'.
Qed.

Lemma updateCertSecret_inv r ps caS s w s' w' :
  updateCertSecret r ps caS s w = (Ok s', w') →
  same_objects w w' ∧ om_Labels (s_Meta s') = policy_server_component ∧
  is_Some ((s_StringData s' ∪ s_Data s') !! ServerCert) ∧
  is_Some ((s_StringData s' ∪ s_Data s') !! ServerPrivateKey).
Proof.
  unfold updateCertSecret. intros Hrun. inv_run Hrun.
  apply set_owner_inv in Hrun0 as [-> [owners ->]].
  assert (∀ (c k : Bytes) (d : gmap string Bytes),
    is_Some (({[ServerCert := c; ServerPrivateKey := k]} ∪ d) !! ServerCert) ∧
    is_Some (({[ServerCert := c; ServerPrivateKey := k]} ∪ d) !! ServerPrivateKey)) as Hnew.
  { intros c k d. rewrite !lookup_union. rewrite lookup_insert_eq.
    rewrite lookup_insert_ne, lookup_singleton_eq by done.
    by destruct (d !! ServerCert), (d !! ServerPrivateKey). }
  destruct (s_Data s !! ServerCert) as [c|] eqn:Hc, (s_Data s !! ServerPrivateKey) as [k|] eqn:Hk;
    inv_run Hrun; subst; cbn.
  1:{ split_and!; try done; apply lookup_union_is_Some; right; rewrite ?Hc, ?Hk; by eexists. }
  all: repeat match goal with Hn : Now _ = _ |- _ =>
         destruct (Now_reads _ _ _ Hn) as (-> & _ & ?); clear Hn end.
  all: match goal with Hg : GenerateCert _ _ _ _ _ _ = _ |- _ =>
         pose proof (within_run _ _ _ _ _ (GenerateCert_same _ _ _ _ _) Hg) end.
  all: split; [etrans; [eassumption|etrans; eassumption]|]; split; [done|apply Hnew].
Qed.

Lemma certSecret_inv r w ps st :
  reconcilePolicyServerCertSecret r (w, ps) = (Ok tt, st) →
  let key := mkNN (r_DeploymentsNamespace r) (NameWithPrefix ps) in
  ∃ w', st = (w', setTrueConditionType PolicyServerCertSecretReconciled (now_seconds w') ps) ∧
    same_but KSecret key w w' ∧
    ∃ s, Get KSecret key w' = inr s ∧ om_Labels (s_Meta s) = policy_server_component ∧
      is_Some (s_Data s !! ServerCert) ∧ is_Some (s_Data s !! ServerPrivateKey).
Proof.
  intros Hrun key. unfold reconcilePolicyServerCertSecret in Hrun. inv_run Hrun.
  apply with_local_Ok in Hrun0 as (w1 & Hg & [= -> ->]). inv_run Hg. subst.
  match goal with Hv : match ?v with _ => _ end |- _ => destruct v as [e|s'] end;
    [inv_run Hrun|].
  apply with_local_Ok in Hrun1 as (w2 & Hc & [= -> ->]).
  apply set_local_now_Ok in Hrun as ->.
  apply CreateOrPatch_ok in Hc
    as (base & s & w3 & _ & Hf & _ & [Hm [Hd _]] & Hget & Hsame).
  apply updateCertSecret_inv in Hf as (Hs3 & Hl & H1' & H2').
  exists w2. split; [done|]. split.
  - intros k' key' Hne. rewrite Hsame by done. apply Hs3.
  - exists s'. split; [done|]. cbn in Hd. rewrite Hd. split; [|done].
    destruct Hm as (_ & _ & Hl' & _). cbn in Hl'. congruence.
Qed.

Lemma configMap_inv r ps policies w w' :
  reconcilePolicyServerConfigMap r ps policies w = (Ok tt, w') →
  let key := mkNN (r_DeploymentsNamespace r) (NameWithPrefix ps) in
  same_but KConfigMap key w w' ∧
  ∃ cfg, Get KConfigMap key w' = inr cfg ∧
    cm_Data cfg !! PolicyServerConfigPoliciesEntry = Some (policies_text policies) ∧
    om_Labels (cm_Meta cfg) = {[ PolicyServerLabelKey := psrv_Name ps ]}.
Proof.
  intros Hrun key. unfold reconcilePolicyServerConfigMap in Hrun. inv_run Hrun. subst.
  match goal with Hc : CreateOrPatch _ _ _ _ = _ |- _ =>
    apply CreateOrPatch_ok in Hc as (base & o & w1 & _ & Hf & _ & [Hm Hd] & Hget & Hsame) end.
  apply updateConfigMapData_data in Hf as (Hdata & Hl & ->).
  split; [exact Hsame|]. eexists. split; [exact Hget|]. cbn in Hd. rewrite Hd.
  destruct Hm as (_ & _ & Hl' & _). cbn in Hl'. by rewrite Hl'.
Qed.

(** The conditions of a reconciled policy server. *)
Definition reconciled_conditions : list string :=
  [PolicyServerCertSecretReconciled; PolicyServerConfigMapReconciled;
   PolicyServerPodDisruptionBudgetReconciled; PolicyServerDeploymentReconciled;
   PolicyServerServiceReconciled].

Definition reconciled_condition (t : string) : Condition :=
  mkCondition t "True" ReconciliationSucceeded "".

Lemma setTrue_reports t now ps :
  reports (reconciled_condition t) (psrv_Conditions (setTrueConditionType t now ps)).
Proof. by apply SetStatusCondition_reports. Qed.
Lemma setTrue_keeps t t' now ps :
  t' ≠ t → reports (reconciled_condition t') (psrv_Conditions (setTrueConditionType t now ps)) ↔
           reports (reconciled_condition t') (psrv_Conditions ps).
Proof. intros Hne. by apply SetStatusCondition_keeps. Qed.

Lemma all_conditions ps t t1 t2 t3 t4 t5 :
  t ∈ reconciled_conditions →
  reports (reconciled_condition t) (psrv_Conditions
    (setTrueConditionType PolicyServerServiceReconciled t5
      (setTrueConditionType PolicyServerDeploymentReconciled t4
        (setTrueConditionType PolicyServerPodDisruptionBudgetReconciled t3
          (setTrueConditionType PolicyServerConfigMapReconciled t2
            (setTrueConditionType PolicyServerCertSecretReconciled t1 ps)))))).
Proof.
  intros Ht. repeat (apply elem_of_cons in Ht as [->|Ht];
    [repeat (rewrite setTrue_keeps by done); apply setTrue_reports|]).
  by apply elem_of_nil in Ht.
Qed.

Lemma getPolicies_pure ps : within (S := World) eq (getPolicies ps).
Proof. unfold getPolicies, list_bound. solve_within. Qed.

Lemma PDB_inv r ps w w' :
  reconcilePolicyServerPodDisruptionBudget r ps w = (Ok tt, w') →
  let key := mkNN (r_DeploymentsNamespace r) (NameWithPrefix ps) in
  same_but KPDB key w w' ∧
  (pspec_MinAvailable (psrv_Spec ps) ≠ None ∨ pspec_MaxUnavailable (psrv_Spec ps) ≠ None →
   ∃ pdb, Get KPDB key w' = inr pdb ∧ pdb_matches ps pdb).
Proof.
  intros Hrun key. unfold reconcilePolicyServerPodDisruptionBudget in Hrun.
  destruct (pspec_MinAvailable (psrv_Spec ps)), (pspec_MaxUnavailable (psrv_Spec ps));
    first [apply reconcilePDB_inv in Hrun as [? ?]; done
          |apply deletePDB_inv in Hrun as [? _]; split; [done|naive_solver]].
Qed.

Lemma resources_inv r policies w ps res st :
  reconcile_resources r policies (w, ps) = (Ok res, st) →
  ∃ w1 w2 w3 w4 w5 w6 ps6,
    let ps1 := setTrueConditionType PolicyServerCertSecretReconciled (now_seconds w1) ps in
    let ps2 := setTrueConditionType PolicyServerConfigMapReconciled (now_seconds w2) ps1 in
    let ps3 := setTrueConditionType PolicyServerPodDisruptionBudgetReconciled (now_seconds w3) ps2 in
    let ps4 := setTrueConditionType PolicyServerDeploymentReconciled (now_seconds w4) ps3 in
    let ps5 := setTrueConditionType PolicyServerServiceReconciled (now_seconds w5) ps4 in
    reconcilePolicyServerCertSecret r (w, ps) = (Ok tt, (w1, ps1)) ∧
    reconcilePolicyServerConfigMap r ps1 policies w1 = (Ok tt, w2) ∧
    reconcilePolicyServerPodDisruptionBudget r ps2 w2 = (Ok tt, w3) ∧
    reconcilePolicyServerDeployment r ps3 w3 = (Ok tt, w4) ∧
    reconcilePolicyServerService r ps4 w4 = (Ok tt, w5) ∧
    StatusUpdate KPolicyServer ps5 w5 = (inr ps6, w6) ∧ st.1 = w6 ∧ res = empty_result.
Proof.
  unfold reconcile_resources. intros Hrun. autorewrite with go in Hrun.
  destruct Hrun as ([] & st1 & Hcert & Hrun).
  destruct (certSecret_inv _ _ _ _ Hcert) as (w1 & -> & _).
  autorewrite with go in Hrun. destruct Hrun as ([] & st2 & Hs2 & Hrun).
  apply recorded_inv in Hs2 as (w2 & Hs2 & ->).
  autorewrite with go in Hrun. destruct Hrun as ([] & st3 & Hs3 & Hrun).
  apply recorded_inv in Hs3 as (w3 & Hs3 & ->).
  autorewrite with go in Hrun. destruct Hrun as ([] & st4 & Hs4 & Hrun).
  apply recorded_inv in Hs4 as (w4 & Hs4 & ->).
  autorewrite with go in Hrun. destruct Hrun as ([] & st5 & Hs5 & Hrun).
  apply recorded_inv in Hs5 as (w5 & Hs5 & ->).
  apply with_local_Ok in Hrun as (w6 & Hrun & ->). inv_run Hrun. subst.
  exists w1, w2, w3, w4, w5. do 2 eexists. split_and!; done.
Qed.

Lemma server_reconcile_inv r (req : Request) w res w' ps :
  PolicyServerReconciler_Reconcile r req w = (Ok res, w') →
  Get KPolicyServer (req_NamespacedName req) w = inr ps →
  om_DeletionTimestamp (psrv_ObjectMeta ps) = None →
  let key := mkNN (r_DeploymentsNamespace r) (NameWithPrefix ps) in
  res = empty_result ∧
  ∃ policies cfg d svc s ps', getPolicies ps w = (Ok policies, w) ∧
    Get KSecret key w' = inr s ∧ is_Some (s_Data s !! ServerCert) ∧
    is_Some (s_Data s !! ServerPrivateKey) ∧
    Get KConfigMap key w' = inr cfg ∧
    cm_Data cfg !! PolicyServerConfigPoliciesEntry = Some (policies_text policies) ∧
    Get KDeployment key w' = inr d ∧
    om_Annotations (d_Meta d) !! PolicyServerDeploymentConfigVersionAnnotation
      = Some (om_ResourceVersion (cm_Meta cfg)) ∧
    Get KService key w' = inr svc ∧ svc_Selector svc = app_labels ps ∧
    (pspec_MinAvailable (psrv_Spec ps) ≠ None ∨ pspec_MaxUnavailable (psrv_Spec ps) ≠ None →
     ∃ pdb, Get KPDB key w' = inr pdb ∧ pdb_matches ps pdb) ∧
    Get KPolicyServer (req_NamespacedName req) w' = inr ps' ∧
    ∀ t, t ∈ reconciled_conditions →
      reports (reconciled_condition t) (psrv_Conditions ps').
Proof.
  intros Hrun Hget Hdel key. unfold PolicyServerReconciler_Reconcile in Hrun.
  rewrite Hget, Hdel in Hrun.
  destruct (getPolicies ps w) as [[policies|e|e|e] w0] eqn:Hpol; try discriminate Hrun.
  pose proof (within_run _ _ _ _ _ (getPolicies_pure ps) Hpol) as <-.
  match type of Hrun with context [reconcile_resources ?r ?p ?st] =>
    destruct (reconcile_resources r p st) as [o [w6 psl]] eqn:Hres end.
  injection Hrun as -> ->.
  destruct (resources_inv _ _ _ _ _ _ Hres)
    as (w1 & w2 & w3 & w4 & w5 & w6 & ps6 & Hcert & Hcm & Hpdb & Hdep & Hsvc & Hst & Hw & ->).
  cbn in Hw. subst w6. split; [done|].
  destruct (certSecret_inv _ _ _ _ Hcert) as (w1' & Heq & Hf1 & s & Hs & _ & Hs1 & Hs2).
  injection Heq as <-.
  apply configMap_inv in Hcm as (Hf2 & cfg & Hcfg & Hdata & _).
  apply PDB_inv in Hpdb as [Hf3 Hpdb].
  apply reconcileDeployment_inv in Hdep as (Hf4 & cfg' & d & Hcfg' & Hd & Hann & _).
  apply reconcileService_inv in Hsvc as (Hf5 & svc & Hsv & Hsel).
  apply StatusUpdate_ok in Hst as (Hstat & Hf6 & Hps).
  change (Get KConfigMap key w2 = inr cfg) in Hcfg.
  change (Get KConfigMap key w3 = inr cfg') in Hcfg'.
  assert (cfg' = cfg) as ->.
  { rewrite (Hf3 KConfigMap) in Hcfg' by done. congruence. }
  exists policies, cfg, d, svc, s, ps6.
  rewrite (Hf6 KSecret), (Hf5 KSecret), (Hf4 KSecret), (Hf3 KSecret), (Hf2 KSecret) by done.
  rewrite (Hf6 KConfigMap), (Hf5 KConfigMap), (Hf4 KConfigMap) by done.
  rewrite (Hf6 KDeployment), (Hf5 KDeployment), (Hf6 KService) by done.
  rewrite (Hf6 KPDB), (Hf5 KPDB), (Hf4 KPDB) by done.
  apply Get_key in Hget. rewrite <-Hget.
  split_and!; try done.
  - intros t Ht. unfold psrv_Conditions at 1. rewrite Hstat. by apply all_conditions.
Qed.

(** (C7) A successful reconciliation of a live policy server leaves every
    resource of it in the cluster: the certificate secret, the ConfigMap
    with the configuration of exactly the policies found, the disruption
    budget it asks for, the Deployment rolled to the version of that very
    ConfigMap, and the service; and its status says so, with all five
    conditions true. *)
Theorem PolicyServer_Reconcile_ok r (req : Request) w res w' ps :
  PolicyServerReconciler_Reconcile r req w = (Ok res, w') →
  Get KPolicyServer (req_NamespacedName req) w = inr ps →
  om_DeletionTimestamp (psrv_ObjectMeta ps) = None →
  let key := mkNN (r_DeploymentsNamespace r) (NameWithPrefix ps) in
  res = empty_result ∧
  ∃ policies cfg d svc s ps', getPolicies ps w = (Ok policies, w) ∧
    Get KSecret key w' = inr s ∧ is_Some (s_Data s !! ServerCert) ∧
    is_Some (s_Data s !! ServerPrivateKey) ∧
    Get KConfigMap key w' = inr cfg ∧
    cm_Data cfg !! PolicyServerConfigPoliciesEntry = Some (policies_text policies) ∧
    Get KDeployment key w' = inr d ∧
    om_Annotations (d_Meta d) !! PolicyServerDeploymentConfigVersionAnnotation
      = Some (om_ResourceVersion (cm_Meta cfg)) ∧
    Get KService key w' = inr svc ∧ svc_Selector svc = app_labels ps ∧
    (pspec_MinAvailable (psrv_Spec ps) ≠ None ∨ pspec_MaxUnavailable (psrv_Spec ps) ≠ None →
     ∃ pdb, Get KPDB key w' = inr pdb ∧ pdb_matches ps pdb) ∧
    Get KPolicyServer (req_NamespacedName req) w' = inr ps' ∧
    ∀ t, t ∈ reconciled_conditions →
      reports (reconciled_condition t) (psrv_Conditions ps').
Proof. apply server_reconcile_inv. Qed.

(** ** Deletion of a policy server *)

Definition policy_key (p : AnyPolicy) : NamespacedName :=
  kkey (projT1 (policy_kind p)) (projT2 (policy_kind p)).

Lemma policy_kind_timestamp p :
  om_DeletionTimestamp (kmeta _ (projT2 (policy_kind p))) = GetDeletionTimestamp p.
Proof. by destruct p. Qed.
Lemma policy_kind_not_server p : projT1 (policy_kind p) ≠ KPolicyServer.
Proof. by destruct p. Qed.

(** A deletion that worked, or found nothing to delete. *)
Lemma delete_policy_going p w res w' :
  try (delete_policy p) w = (Ok res, w') →
  match res with inl e => IsNotFound e = true | inr _ => True end →
  same_but (projT1 (policy_kind p)) (policy_key p) w w' ∧
  going (projT1 (policy_kind p)) (policy_key p) w'.
Proof.
  unfold delete_policy. intros Hrun Hnf. autorewrite with go in Hrun.
  destruct res as [e|[]]; autorewrite with go in Hrun.
  - apply Delete_notfound in Hrun as [Hs Habs]; [|done].
    split; [by intros k key _; apply Hs|by left].
  - by apply (Delete_going (projT1 (policy_kind p))) in Hrun.
Qed.

Lemma delete_loop_spec policies w w' :
  delete_loop policies w = (Ok [], w') →
  (∀ key, Get KPolicyServer key w' = Get KPolicyServer key w) ∧
  (∀ k key, going k key w → going k key w') ∧
  (∀ p, p ∈ policies → GetDeletionTimestamp p = None →
     going (projT1 (policy_kind p)) (policy_key p) w').
Proof.
  revert w. induction policies as [|p policies IH]; cbn [delete_loop]; intros w Hrun.
  { inv_run Hrun. subst. split_and!; [done..|]. intros p Hp. by apply elem_of_nil in Hp. }
  destruct (GetDeletionTimestamp p) eqn:Hts.
  { destruct (IH _ Hrun) as (Hps & Hgo & Hall). split_and!; [done..|].
    intros q [->|Hq]%elem_of_cons Hq'; [congruence|by apply Hall]. }
  autorewrite with go in Hrun. destruct Hrun as (res & w1 & Hdel & Hrun).
  autorewrite with go in Hrun. destruct Hrun as (errs & w2 & Hloop & Hrun). inv_run Hrun. subst.
  apply delete_policy_going in Hdel as [Hsame Hp];
    [|destruct res as [e|]; [by destruct (IsNotFound e)|done]].
  assert (errs = []) as ->.
  { destruct res as [e|]; [by destruct (IsNotFound e)|done]. }
  destruct (IH _ Hloop) as (Hps & Hgo & Hall). split_and!.
  - intros key. rewrite Hps. apply Hsame. intros Heq%(f_equal fst).
    by apply (policy_kind_not_server p).
  - intros k key Hk. apply Hgo. by eapply going_frame.
  - intros q [->|Hq]%elem_of_cons Hq'; [by apply Hgo|by apply Hall].
Qed.

(** Every policy server reads the same. *)
Definition same_servers w w' : Prop :=
  ∀ key, Get KPolicyServer key w' = Get KPolicyServer key w.
#[local] Instance same_servers_preorder : PreOrder same_servers.
Proof. split; [by intros w key|]. intros w1 w2 w3 H12 H23 key. by rewrite H23. Qed.

Lemma delete_loop_servers policies : within same_servers (delete_loop policies).
Proof.
  induction policies as [|p policies IH]; cbn [delete_loop].
  { apply within_ret, _. }
  destruct (GetDeletionTimestamp p); [done|].
  apply within_bind; [apply _| |intros res].
  - apply within_try, within_call. intros w key.
    apply (Delete_frame (projT1 (policy_kind p))). intros Heq%(f_equal fst).
    by apply (policy_kind_not_server p).
  - apply within_bind; [apply _|done|intros errs; apply within_ret, _].
Qed.

(** A run on a server that is being deleted. *)
Lemma server_deletion_run r (req : Request) w o w' ps :
  PolicyServerReconciler_Reconcile r req w = (o, w') →
  Get KPolicyServer (req_NamespacedName req) w = inr ps →
  om_DeletionTimestamp (psrv_ObjectMeta ps) ≠ None →
  (∃ e, o = Err e ∧ w' = w) ∨
  ∃ policies, getPolicies ps w = (Ok policies, w) ∧ reconcileDeletion ps policies w = (o, w').
Proof.
  intros Hrun Hget Hdel. unfold PolicyServerReconciler_Reconcile in Hrun.
  rewrite Hget in Hrun. destruct (getPolicies ps w) as [o1 w0] eqn:Hpol.
  destruct (getPolicies_cases _ _ _ _ Hpol) as [-> Ho1].
  destruct o1 as [policies|e|?|?]; try done.
  - right. exists policies. by destruct (om_DeletionTimestamp (psrv_ObjectMeta ps)).
  - left. injection Hrun as <- <-. by eexists.
Qed.

Lemma deletePolicies_inv ps policies w res w' :
  deletePoliciesAndRequeue ps policies w = (Ok res, w') →
  delete_loop policies w = (Ok [], w') ∧ res = requeue_result.
Proof.
  unfold deletePoliciesAndRequeue. intros Hrun. autorewrite with go in Hrun.
  destruct Hrun as (errs & w1 & Hloop & Hrun).
  destruct errs as [|e errs]; cbn [is_nil negb] in Hrun; inv_run Hrun. by subst.
Qed.

Lemma server_waits_inv r (req : Request) w res w' ps :
  PolicyServerReconciler_Reconcile r req w = (Ok res, w') →
  Get KPolicyServer (req_NamespacedName req) w = inr ps →
  om_DeletionTimestamp (psrv_ObjectMeta ps) ≠ None →
  lists_ok ps w →
  (∃ p, stored_policy w p ∧ GetPolicyServer p = psrv_Name ps) →
  ∃ policies, (∀ p, p ∈ policies ↔ stored_policy w p ∧ GetPolicyServer p = psrv_Name ps) ∧
    delete_loop policies w = (Ok [], w') ∧ res = requeue_result.
Proof.
  intros Hrun Hget Hdel Hok (p0 & Hp0 & Hsrv0).
  destruct (server_deletion_run _ _ _ _ _ _ Hrun Hget Hdel) as [(e & ? & _)|(policies & Hpol & Hrun')];
    [done|].
  destruct (getPolicies_bound _ _ _ _ Hpol Hok) as [_ Hbound]. unfold reconcileDeletion in Hrun'.
  destruct policies as [|p1 policies].
  { exfalso. apply (not_elem_of_nil p0). by apply Hbound. }
  cbn [is_nil negb] in Hrun'. exists (p1 :: policies). split; [done|]. by eapply deletePolicies_inv.
Qed.

(** (C16) A policy server that is being deleted keeps its finalizers, and so
    stays in the cluster, as long as the lists of the run find a policy that is
    bound to it (of a kind whose list succeeds; [failed_list_drops_policies]
    is the other case). Whatever the outcome, errors included, the server is
    as it was. And the reconciliation succeeds only by asking to be run again,
    with every bound policy of such a kind gone or being deleted. *)
Theorem deleted_server_waits r (req : Request) w o w' ps :
  PolicyServerReconciler_Reconcile r req w = (o, w') →
  Get KPolicyServer (req_NamespacedName req) w = inr ps →
  om_DeletionTimestamp (psrv_ObjectMeta ps) ≠ None →
  (∃ p, stored_policy w p ∧ GetPolicyServer p = psrv_Name ps ∧
        listed ps w (projT1 (policy_kind p))) →
  Get KPolicyServer (req_NamespacedName req) w' = inr ps ∧
  ∀ res, o = Ok res →
    res = requeue_result ∧
    ∀ p, stored_policy w p → GetPolicyServer p = psrv_Name ps →
      listed ps w (projT1 (policy_kind p)) → going (projT1 (policy_kind p)) (policy_key p) w'.
Proof.
  intros Hrun Hget Hdel (p0 & Hp0).
  destruct (server_deletion_run _ _ _ _ _ _ Hrun Hget Hdel)
    as [(e & -> & ->)|(policies & Hpol & Hrun')]; [done|].
  destruct (getPolicies_cases _ _ _ _ Hpol) as [_ [_ Hin]]. unfold reconcileDeletion in Hrun'.
  assert (is_nil policies = false) as Hnil.
  { destruct policies; [|done]. exfalso. apply (not_elem_of_nil p0). by apply Hin. }
  rewrite Hnil in Hrun'. cbn [negb] in Hrun'. split.
  { assert (within same_servers (deletePoliciesAndRequeue ps policies)) as Hw.
    { apply within_bind; [apply _|apply delete_loop_servers|intros errs].
      destruct (negb _); [apply within_fail|apply within_ret]; apply _. }
    specialize (Hw w). rewrite Hrun' in Hw. by rewrite Hw. }
  intros res ->. apply deletePolicies_inv in Hrun' as [Hloop ->]. split; [done|].
  destruct (delete_loop_spec _ _ _ Hloop) as (_ & Hgo & Hall). intros p Hp Hsrv Hl.
  destruct (GetDeletionTimestamp p) eqn:Hts; [|apply Hall; [by apply Hin|done]].
  apply Hgo. right. destruct Hp as [key Hp]. exists (projT2 (policy_kind p)).
  unfold policy_key. rewrite (Get_key _ _ _ _ Hp). split; [done|].
  by rewrite policy_kind_timestamp, Hts.
Qed.

(** The server without the finalizers of the controller. *)
Definition released ps : PolicyServer :=
  psrv_set_ObjectMeta
    (om_set_Finalizers
       (RemoveFinalizer (RemoveFinalizer (om_Finalizers (psrv_ObjectMeta ps))
          KubewardenFinalizerPre114) KubewardenFinalizer) (psrv_ObjectMeta ps)) ps.

(** The server was not found to have policies. *)
Lemma server_release_run r (req : Request) w res w' ps :
  PolicyServerReconciler_Reconcile r req w = (Ok res, w') →
  Get KPolicyServer (req_NamespacedName req) w = inr ps →
  om_DeletionTimestamp (psrv_ObjectMeta ps) ≠ None →
  (∀ p, stored_policy w p → GetPolicyServer p = psrv_Name ps →
        ¬ listed ps w (projT1 (policy_kind p))) →
  res = empty_result ∧
  ((∃ e, Update KPolicyServer (released ps) w = (inl e, w') ∧ IsConflict e = true) ∨
   ∃ ps', Update KPolicyServer (released ps) w = (inr ps', w')).
Proof.
  intros Hrun Hget Hdel Hnone.
  destruct (server_deletion_run _ _ _ _ _ _ Hrun Hget Hdel) as [(e & ? & _)|(policies & Hpol & Hrun')];
    [done|].
  destruct (getPolicies_cases _ _ _ _ Hpol) as [_ [_ Hin]].
  destruct policies as [|p1 policies'].
  2:{ exfalso. destruct (Hin p1) as [Hb _]. destruct Hb as (? & ? & ?); [left|by eapply Hnone]. }
  unfold reconcileDeletion in Hrun'. cbn [is_nil negb] in Hrun'.
  autorewrite with go in Hrun'. destruct Hrun' as (rs & w1 & Hup & Hrun').
  autorewrite with go in Hup. destruct rs as [e|ps']; autorewrite with go in Hup.
  - destruct (IsConflict e) eqn:He; inv_run Hrun'. subst. split; [done|]. left. eauto.
  - inv_run Hrun'. subst. split; [done|]. right. by exists ps'.
Qed.

Lemma server_release_inv r (req : Request) w res w' ps :
  PolicyServerReconciler_Reconcile r req w = (Ok res, w') →
  Get KPolicyServer (req_NamespacedName req) w = inr ps →
  om_DeletionTimestamp (psrv_ObjectMeta ps) ≠ None →
  lists_ok ps w →
  (∀ p, stored_policy w p → GetPolicyServer p ≠ psrv_Name ps) →
  res = empty_result ∧
  ((∃ e, Update KPolicyServer (released ps) w = (inl e, w') ∧ IsConflict e = true) ∨
   ∃ ps', Update KPolicyServer (released ps) w = (inr ps', w')).
Proof. intros ? ? ? _ Hnone. eapply server_release_run; eauto. intros p Hp Hs _. by eapply Hnone. Qed.

(** The update of the release, when it went through. *)
Lemma released_stored ps key w w' ps' :
  Get KPolicyServer key w = inr ps →
  Update KPolicyServer (released ps) w = (inr ps', w') →
  same_but KPolicyServer key w w' ∧
  (absent KPolicyServer key w' ∨
   ∃ ps', Get KPolicyServer key w' = inr ps' ∧ psrv_Spec ps' = psrv_Spec ps ∧
     ∀ f, f ∈ om_Finalizers (psrv_ObjectMeta ps') ↔
       f ∈ om_Finalizers (psrv_ObjectMeta ps) ∧
       f ≠ KubewardenFinalizer ∧ f ≠ KubewardenFinalizerPre114).
Proof.
  intros Hget Hup. apply Get_key in Hget. rewrite <-Hget.
  apply Update_ok in Hup as ([Hm Hc] & Hsame & Hor). split; [exact Hsame|].
  destruct Hor as [Hg|(_ & Habs & _)]; [right|by left].
  exists ps'. split; [exact Hg|]. split; [done|]. intros f.
  destruct Hm as (_ & _ & _ & _ & Hf & _). cbn in Hf. rewrite Hf, !RemoveFinalizer_spec.
  tauto.
Qed.

(** When no policy is bound to a server that is being deleted, a
    successful reconciliation removes both finalizers of the controller and
    leaves everything else: the server is gone from the cluster, or is
    stored without them; unless the update met a conflict, and then the
    request is dropped. *)
Theorem deleted_server_released r (req : Request) w res w' ps :
  PolicyServerReconciler_Reconcile r req w = (Ok res, w') →
  Get KPolicyServer (req_NamespacedName req) w = inr ps →
  om_DeletionTimestamp (psrv_ObjectMeta ps) ≠ None →
  lists_ok ps w →
  (∀ p, stored_policy w p → GetPolicyServer p ≠ psrv_Name ps) →
  res = empty_result ∧
  ((∃ o e, Update KPolicyServer o w = (inl e, w') ∧ IsConflict e = true) ∨
   same_but KPolicyServer (req_NamespacedName req) w w' ∧
   (absent KPolicyServer (req_NamespacedName req) w' ∨
    ∃ ps', Get KPolicyServer (req_NamespacedName req) w' = inr ps' ∧
      psrv_Spec ps' = psrv_Spec ps ∧
      ∀ f, f ∈ om_Finalizers (psrv_ObjectMeta ps') ↔
        f ∈ om_Finalizers (psrv_ObjectMeta ps) ∧
        f ≠ KubewardenFinalizer ∧ f ≠ KubewardenFinalizerPre114)).
Proof.
  intros Hrun Hget Hdel Hok Hnone.
  destruct (server_release_inv _ _ _ _ _ _ Hrun Hget Hdel Hok Hnone)
    as [-> [(e & Hup & He)|(ps' & Hup)]]; (split; [done|]); [left; eauto|right].
  by eapply released_stored.
Qed.

(** (C37) A failed list is taken for an empty one. Let the list of a kind fail
    with any error but NotFound, and let a policy of that kind be bound to the
    server. A successful reconciliation of the server, when it is live, has
    published a configuration that is exactly that of the policies of the other
    kinds, without this policy; and when it is being deleted and all its
    policies are of such kinds, the run releases it: both finalizers are
    removed, so that the server is gone or stored without them (or the update
    met a conflict, which is ignored), while the policy is still in the
    cluster as it was, bound to it. *)
Theorem failed_list_drops_policies r (req : Request) w res w' ps p :
  PolicyServerReconciler_Reconcile r req w = (Ok res, w') →
  Get KPolicyServer (req_NamespacedName req) w = inr ps →
  stored_policy w p → GetPolicyServer p = psrv_Name ps →
  unlisted ps w (projT1 (policy_kind p)) →
  (om_DeletionTimestamp (psrv_ObjectMeta ps) = None →
   ∃ policies cfg,
     Get KConfigMap (mkNN (r_DeploymentsNamespace r) (NameWithPrefix ps)) w' = inr cfg ∧
     cm_Data cfg !! PolicyServerConfigPoliciesEntry = Some (policies_text policies) ∧
     p ∉ policies ∧
     ∀ q, q ∈ policies ↔ stored_policy w q ∧ GetPolicyServer q = psrv_Name ps ∧
                         listed ps w (projT1 (policy_kind q))) ∧
  (om_DeletionTimestamp (psrv_ObjectMeta ps) ≠ None →
   (∀ q, stored_policy w q → GetPolicyServer q = psrv_Name ps →
         unlisted ps w (projT1 (policy_kind q))) →
   res = empty_result ∧ stored_policy w' p ∧
   ((∃ e, Update KPolicyServer (released ps) w = (inl e, w') ∧ IsConflict e = true) ∨
    absent KPolicyServer (req_NamespacedName req) w' ∨
    ∃ ps', Get KPolicyServer (req_NamespacedName req) w' = inr ps' ∧
      ∀ f, f ∈ om_Finalizers (psrv_ObjectMeta ps') ↔
        f ∈ om_Finalizers (psrv_ObjectMeta ps) ∧
        f ≠ KubewardenFinalizer ∧ f ≠ KubewardenFinalizerPre114)).
Proof.
  intros Hrun Hget [key Hp] Hsrv Hun. split.
  - intros Hdel. destruct (server_reconcile_inv _ _ _ _ _ _ Hrun Hget Hdel)
      as (_ & policies & cfg & d & svc & s & ps' & Hpol & _ & _ & _ & Hc & Hdata & _).
    destruct (getPolicies_cases _ _ _ _ Hpol) as [_ [_ Hin]].
    exists policies, cfg. split_and!; try done. intros (_ & _ & Hl)%Hin.
    by apply unlisted_not_listed in Hun.
  - intros Hdel Hall. destruct (server_release_run _ _ _ _ _ _ Hrun Hget Hdel) as [-> Hor].
    { intros q Hq Hs. by apply unlisted_not_listed, Hall. }
    split; [done|].
    assert (same_but KPolicyServer (kkey KPolicyServer (released ps)) w w') as Hsame.
    { pose proof (Update_frame KPolicyServer (released ps) w) as Hf.
      by destruct Hor as [(e & Hu & _)|(ps' & Hu)]; rewrite Hu in Hf. }
    split.
    { exists key. rewrite Hsame; [done|]. intros Hk%(f_equal fst).
      by apply (policy_kind_not_server p). }
    destruct Hor as [?|(ps' & Hup)]; [by left|right].
    destruct (released_stored _ _ _ _ _ Hget Hup) as [_ [?|(ps1 & Hg & _ & Hf)]];
      [by left|right; eauto].
Qed.
End theorems.

(** ** Concrete runs *)

Section witnesses.
#[local] Existing Instance concrete_util.
#[local] Existing Instance fake_client.
#[local] Existing Instance fake_env.

Definition server_key : NamespacedName := mkNN "" "default".
Definition resource_key : NamespacedName := mkNN "kubewarden" "policy-server-default".
Definition policy_ns_key : NamespacedName := mkNN "ns" "p".

(** A cluster with a CA, a policy server and, when asked for, a policy bound
    to it. *)
Definition server_store (ps : PolicyServer) (policies : list AdmissionPolicy) : Store :=
  store_map KPolicyServer <[server_key := ps]>
    (store_map KAdmissionPolicy
       (λ m, foldr (λ p, <[kkey KAdmissionPolicy p := p]>) m policies)
       (store_map KConfigMap
          <[mkNN "kubewarden" "client-ca" :=
              mkConfigMap (named_meta "kubewarden" "client-ca") ∅]>
          cert_store)).
Definition server_world (ps : PolicyServer) (policies : list AdmissionPolicy) : FakeWorld :=
  cert_world no_failure (server_store ps policies).
Definition deleted_server : PolicyServer :=
  psrv_set_ObjectMeta
    (om_set_DeletionTimestamp (Some 1%Z)
       (om_set_Finalizers [KubewardenFinalizer; KubewardenFinalizerPre114]
          (psrv_ObjectMeta full_server))) full_server.
Definition server_req : Request := mkRequest server_key.

Definition result_of (o : Outcome Result) : Result :=
  match o with Ok res => res | _ => empty_result end.
Definition is_err {A} (o : Outcome A) : bool := match o with Err _ => true | _ => false end.

Lemma server_lists ps policies : lists_ok full_server (server_world ps policies).
Proof. intros k _. by eexists. Qed.

Lemma getPolicies_complete_witness :
  let w := server_world full_server [settings_policy] in
  PAdmissionPolicy settings_policy ∈ [PAdmissionPolicy settings_policy] ↔
  stored_policy w (PAdmissionPolicy settings_policy) ∧
  GetPolicyServer (PAdmissionPolicy settings_policy) = "default" ∧
  listed full_server w KAdmissionPolicy.
Proof.
  intros w.
  set (run := getPolicies full_server w).
  assert (run.1 = Ok [PAdmissionPolicy settings_policy]) as Hrun by (vm_compute; reflexivity).
  exact (proj2 (proj2 (@getPolicies_complete FakeWorld concrete_util concrete_util_laws fake_client
    fake_env fake_laws full_server w (Ok [PAdmissionPolicy settings_policy]) run.2
    (run_fst _ _ _ Hrun))) _).
Defined.

Lemma PolicyServer_Reconcile_ok_witness :
  let w := server_world full_server [settings_policy] in
  let run := PolicyServerReconciler_Reconcile full_reconciler server_req w in
  result_of run.1 = empty_result ∧
  ∃ cfg d, Get KConfigMap resource_key run.2 = inr cfg ∧
    Get KDeployment resource_key run.2 = inr d ∧
    om_Annotations (d_Meta d) !! PolicyServerDeploymentConfigVersionAnnotation
      = Some (om_ResourceVersion (cm_Meta cfg)).
Proof.
  intros w run.
  assert (run.1 = Ok (result_of run.1)) as Hrun by (vm_compute; reflexivity).
  destruct (@PolicyServer_Reconcile_ok FakeWorld concrete_util concrete_util_laws fake_client
    fake_env fake_laws full_reconciler server_req w (result_of run.1) run.2 full_server
    (run_fst _ _ _ Hrun) eq_refl eq_refl)
    as (Hres & pols & cfg & d & svc & s & ps' & _ & _ & _ & _ & Hc & _ & Hd & Ha & _).
  split; [exact Hres|]. exists cfg, d. split_and!; assumption.
Defined.

Lemma deleted_server_waits_witness :
  let w := server_world deleted_server [settings_policy] in
  let run := PolicyServerReconciler_Reconcile full_reconciler server_req w in
  result_of run.1 = requeue_result ∧ Get KPolicyServer server_key run.2 = inr deleted_server.
Proof.
  intros w run.
  assert (run.1 = Ok (result_of run.1)) as Hrun by (vm_compute; reflexivity).
  destruct (@deleted_server_waits FakeWorld concrete_util concrete_util_laws fake_client
    fake_env fake_laws full_reconciler server_req w (Ok (result_of run.1)) run.2 deleted_server
    (run_fst _ _ _ Hrun)) as (Hps & Hok).
  - vm_compute. reflexivity.
  - discriminate.
  - exists (PAdmissionPolicy settings_policy). split; [|split; [reflexivity|]].
    + exists policy_ns_key. vm_compute. reflexivity.
    + apply (server_lists deleted_server [settings_policy] KAdmissionPolicy). right. left.
  - split; [exact (proj1 (Hok _ eq_refl))|exact Hps].
Defined.

Lemma no_policies_stored ps p : ¬ stored_policy (server_world ps []) p.
Proof. intros [key (_ & Hs & _)%fake_Get_inv]. by destruct p. Qed.

Lemma deleted_server_released_witness :
  let w := server_world deleted_server [] in
  let run := PolicyServerReconciler_Reconcile full_reconciler server_req w in
  result_of run.1 = empty_result ∧ absent KPolicyServer server_key run.2.
Proof.
  intros w run.
  assert (run.1 = Ok (result_of run.1)) as Hrun by (vm_compute; reflexivity).
  destruct (@deleted_server_released FakeWorld concrete_util concrete_util_laws fake_client
    fake_env fake_laws full_reconciler server_req w (result_of run.1) run.2 deleted_server
    (run_fst _ _ _ Hrun)) as (Hres & _).
  - vm_compute. reflexivity.
  - discriminate.
  - exact (server_lists _ _).
  - intros p Hp. by destruct (no_policies_stored deleted_server p).
  - split; [exact Hres|]. exists NotFoundErr. split; vm_compute; reflexivity.
Defined.

Definition list_fails : Op → Kind → option GoError := λ op k,
  match op, k with
  | OpList, KAdmissionPolicy => Some (ErrStatus "ServiceUnavailable" "timeout")
  | _, _ => None
  end.
Definition deployment_fails : Op → Kind → option GoError := λ op k,
  match op, k with
  | OpCreate, KDeployment => Some (ErrStatus "Forbidden" "quota")
  | _, _ => None
  end.

Definition failing_world : FakeWorld :=
  cert_world list_fails (server_store deleted_server [settings_policy]).
Definition failing_run : Outcome Result * FakeWorld :=
  PolicyServerReconciler_Reconcile full_reconciler server_req failing_world.

Lemma failing_kinds q :
  stored_policy failing_world q → projT1 (policy_kind q) = KAdmissionPolicy.
Proof. intros [key (_ & Hs & _)%fake_Get_inv]. by destruct q. Qed.
Lemma failing_list : unlisted deleted_server failing_world KAdmissionPolicy.
Proof. eexists. split; vm_compute; reflexivity. Qed.
Lemma failing_ok : failing_run.1 = Ok empty_result.
Proof. vm_compute. reflexivity. Qed.
Lemma failing_server : Get KPolicyServer server_key failing_world = inr deleted_server.
Proof. vm_compute. reflexivity. Qed.
Lemma failing_policy : stored_policy failing_world (PAdmissionPolicy settings_policy).
Proof. exists policy_ns_key. vm_compute. reflexivity. Qed.

Lemma failed_list_drops_policies_witness :
  stored_policy failing_run.2 (PAdmissionPolicy settings_policy) ∧
  Get KPolicyServer server_key failing_run.2 = inl NotFoundErr.
Proof.
  split; [|vm_compute; reflexivity].
  pose proof (@failed_list_drops_policies FakeWorld concrete_util concrete_util_laws fake_client
    fake_env fake_laws full_reconciler server_req failing_world empty_result failing_run.2
    deleted_server (PAdmissionPolicy settings_policy) (run_fst _ _ _ failing_ok)
    failing_server failing_policy eq_refl failing_list) as [_ Hdel].
  assert (om_DeletionTimestamp (psrv_ObjectMeta deleted_server) ≠ None) as Hts by discriminate.
  refine (proj1 (proj2 (Hdel Hts _))).
  intros q Hq _. rewrite (failing_kinds q Hq). exact failing_list.
Defined.

(** A failed step is recorded as a false condition on the local copy
    only: the reconciliation returns before the status update, so the
    stored server shows no condition at all. *)
Theorem false_condition_not_stored :
  let run := PolicyServerReconciler_Reconcile full_reconciler server_req
    (cert_world deployment_fails (server_store full_server [settings_policy])) in
  is_err run.1 = true ∧ Get KPolicyServer server_key run.2 = inr full_server ∧
  psrv_Conditions full_server = [].
Proof. vm_compute. split_and!; reflexivity. Qed.
End witnesses.
