(* ===== verification/Metrics.v ===== *)
(** * Metrics ([internal/metrics/metrics.go])

    The OpenTelemetry SDK is a parameter: creating an instrument, which may
    fail, and adding to it. *)

From S2P Require Import Prelude GoStd K8sTypes PolicyTypes PolicyServerTypes KubeClient FakeCluster.

Inductive AttributeValue := AString (s : string) | ABool (b : bool).
Abbreviation Attributes := (list (string * AttributeValue)).

Class Meter (W : Type) := {
  (** [meter.Int64Counter] with its name and description. *)
  Int64Counter : string → string → string → W → (GoError + unit) * W;
  (** [counter.Add] to the counter of a name. *)
  Add : string → Z → Attributes → W → W;
}.

(** Recording a metric does not touch the cluster. *)
Class MeterLaws (W : Type) `{KubeClient W, Meter W} := {
  Int64Counter_same m n d w : same_objects w (snd (Int64Counter m n d w));
  Add_same n x l w : same_objects w (Add n x l w);
}.

Definition meterName : string := "kubewarden".
Definition policyCounterMetricName : string := "kubewarden_policy_total".
Definition policyCounterMetricDescription : string :=
  "How many policies are installed in the cluster".

(** The [commonLabels] of a policy. *)
Definition policy_attributes {T} `{PolicyI T} (policy : T) : Attributes :=
  let failurePolicy := default "" (GetFailurePolicy policy) in
  [("name", AString (GetUniqueName policy));
   ("policy_server", AString (GetPolicyServer policy));
   ("module", AString (GetModule policy));
   ("mutating", ABool (IsMutating policy));
   ("namespace", AString (GetNamespace policy));
   ("failure_policy", AString failurePolicy);
   ("policy_status", AString (st_PolicyStatus (GetStatus policy)))].

Definition RecordPolicyCount {W} `{Meter W} {T} `{PolicyI T} (policy : T) : M W unit :=
  wrap_err (ErrWrap "cannot create the instrument")
    (call (Int64Counter meterName policyCounterMetricName policyCounterMetricDescription)) ;;
  modify (Add policyCounterMetricName 1 (policy_attributes policy)).

Lemma RecordPolicyCount_same {W} `{MeterLaws W} {T} `{PolicyI T} (policy : T) w w' :
  RecordPolicyCount policy w = (Ok tt, w') → same_objects w w'.
Proof.
  unfold RecordPolicyCount. intros Hrun. inv_run Hrun. subst.
  match goal with Hc : Int64Counter ?m ?n ?d ?v = (_, ?v1) |- _ =>
    pose proof (Int64Counter_same m n d v) as Hs; rewrite Hc in Hs; cbn [snd] in Hs end.
  etrans; [exact Hs|apply Add_same].
Qed.

(** ** Starting the exporter

    The OTLP exporter and the provider are the SDK's: creating the exporter may
    fail, and so may shutting the provider down, which flushes it. *)
Class Exporter := {
  otlpmetricgrpc_New : option GoError;
  meterProvider_Shutdown : option GoError;
}.

(** [New] returns the function that shuts the provider down, or an error. *)
Definition metrics_New `{Exporter} : GoError + option GoError :=
  match otlpmetricgrpc_New with
  | Some err => inl (ErrWrap "cannot start metric exporter" err)
  | None => inr meterProvider_Shutdown
  end.

(** A meter provider that exports nothing, the SDK's default. *)
Definition noop_meter {W} : Meter W := {|
  Int64Counter _ _ _ w := (inr tt, w);
  Add _ _ _ w := w;
|}.
Lemma noop_meter_laws : @MeterLaws FakeWorld fake_client noop_meter.
Proof. by split. Qed.
