(* ===== verification/PolicySubReconciler.v ===== *)
(** * The policy controllers ([policy_subreconciler.go],
      [policy_subreconciler_webhook.go], the four policy controllers)

    A policy of any kind is reconciled by the same code. It works on a local
    copy of the policy, edited through the [Policy] interface and finally
    written back by a status update. *)

From S2P Require Import Prelude GoStd Json K8sTypes Concrete Constants PolicyTypes PolicyValidation PolicyServerTypes PolicyWebhook KubeClient FakeCluster ConfigMap Resources Deployment Certs CertController PolicyServerController Metrics.

Record policySubReconciler := mkPolicySubReconciler {
  sub_deploymentsNamespace : string;
  sub_featureGateAdmissionWebhookMatchConditions : bool;
}.

(** [appsv1.DefaultDeploymentUniqueLabelKey]. *)
Definition DefaultDeploymentUniqueLabelKey : string := "pod-template-hash".

(** Indexing a Go map: the zero value when there is no entry. *)
Definition go_index (k : string) (m : gmap string string) : string := default "" (m !! k).

(** ** Reachability *)

Definition isLatestReplicaSetFromPolicyServerDeployment (replicaSet : ReplicaSet)
    (d : Deployment) (configMapVersion : string) : bool :=
  bool_decide (go_index KubernetesRevisionAnnotation (om_Annotations (rs_Meta replicaSet)) =
               go_index KubernetesRevisionAnnotation (om_Annotations (d_Meta d))) &&
  bool_decide (go_index PolicyServerDeploymentConfigVersionAnnotation
                 (om_Annotations (rs_Meta replicaSet)) = configMapVersion).

Fixpoint ready_condition (cs : list PodCondition) : bool :=
  match cs with
  | [] => false
  | c :: cs => if bool_decide (pc_Type c = "Ready") then bool_decide (pc_Status c = "True")
               else ready_condition cs
  end.
Definition isPodReady (pod : Pod) : bool := ready_condition (p_Conditions pod).

(** ** Watches *)

Definition hasKubewardenLabel (labels : gmap string string) : bool :=
  bool_decide (go_index "kubewarden" labels = "true") ||
  bool_decide (go_index PartOfLabelKey labels = PartOfLabelValue).

(** The map functions from the metadata of a webhook configuration: each of
    the four controllers has its own, the namespaced ones look for a namespace
    too. *)
Definition findAdmissionPolicyForWebhookConfiguration (m : ObjectMeta) : list Request :=
  if negb (hasKubewardenLabel (om_Labels m)) then []
  else
    let policyName := go_index WebhookConfigurationPolicyNameAnnotationKey (om_Annotations m) in
    if bool_decide (policyName = "") then []
    else
      let policyNamespace :=
        go_index WebhookConfigurationPolicyNamespaceAnnotationKey (om_Annotations m) in
      if bool_decide (policyNamespace = "") then []
      else [mkRequest (mkNN policyNamespace policyName)].

Definition findClusterAdmissionPolicyForWebhookConfiguration (m : ObjectMeta) : list Request :=
  if negb (hasKubewardenLabel (om_Labels m)) then []
  else
    let policyName := go_index WebhookConfigurationPolicyNameAnnotationKey (om_Annotations m) in
    if bool_decide (policyName = "") then []
    else [mkRequest (mkNN "" policyName)].

Definition AdmissionPolicyGroupReconciler_findAdmissionPolicyForWebhookConfiguration
    (m : ObjectMeta) : list Request :=
  if negb (hasKubewardenLabel (om_Labels m)) then []
  else
    let policyName := go_index WebhookConfigurationPolicyNameAnnotationKey (om_Annotations m) in
    if bool_decide (policyName = "") then []
    else
      let policyNamespace :=
        go_index WebhookConfigurationPolicyNamespaceAnnotationKey (om_Annotations m) in
      if bool_decide (policyNamespace = "") then []
      else [mkRequest (mkNN policyNamespace policyName)].

Definition ClusterAdmissionPolicyGroupReconciler_findClusterAdmissionPolicyForWebhookConfiguration
    (m : ObjectMeta) : list Request :=
  if negb (hasKubewardenLabel (om_Labels m)) then []
  else
    let policyName := go_index WebhookConfigurationPolicyNameAnnotationKey (om_Annotations m) in
    if bool_decide (policyName = "") then []
    else [mkRequest (mkNN "" policyName)].

Section watches.
Context `{MapRange}.

Definition findPoliciesForConfigMap (object : AnyObject) : list Request :=
  match object with
  | OConfigMap configMap =>
      match om_Labels (cm_Meta configMap) !! PolicyServerLabelKey with
      | None => []
      | Some _ =>
          match getPolicyMapFromConfigMap configMap with
          | inl _ => []
          | inr policyMap => toAdmissionPolicyReconcileRequests policyMap
          end
      end
  | _ => []
  end.

Definition findClusterPoliciesForConfigMap (object : AnyObject) : list Request :=
  match object with
  | OConfigMap configMap =>
      match getPolicyMapFromConfigMap configMap with
      | inl _ => []
      | inr policyMap => toClusterAdmissionPolicyReconcileRequests policyMap
      end
  | _ => []
  end.

Context {World : Type} `{KubeClient World}.

Definition findPoliciesForPod (object : AnyObject) (w : World) : list Request :=
  match object with
  | OPod pod =>
      match om_Labels (p_Meta pod) !! PolicyServerLabelKey, om_DeletionTimestamp (p_Meta pod) with
      | Some policyServerName, None =>
          match Get KConfigMap (mkNN (om_Namespace (p_Meta pod))
                                  (policyServerDeploymentName policyServerName)) w with
          | inl _ => []
          | inr configMap => findPoliciesForConfigMap (OConfigMap configMap)
          end
      | _, _ => []
      end
  | _ => []
  end.

Definition findClusterPoliciesForPod (object : AnyObject) (w : World) : list Request :=
  match object with
  | OPod pod =>
      match om_Labels (p_Meta pod) !! PolicyServerLabelKey with
      | None => []
      | Some policyServerName =>
          match Get KConfigMap (mkNN (om_Namespace (p_Meta pod))
                                  (policyServerDeploymentName policyServerName)) w with
          | inl _ => []
          | inr configMap => findClusterPoliciesForConfigMap (OConfigMap configMap)
          end
      end
  | _ => []
  end.

(** The methods of the four controllers. *)
Definition AdmissionPolicyReconciler_findAdmissionPoliciesForPod
    (object : AnyObject) (w : World) : list Request := findPoliciesForPod object w.
Definition AdmissionPolicyGroupReconciler_findAdmissionPoliciesForPod
    (object : AnyObject) (w : World) : list Request := findPoliciesForPod object w.
Definition ClusterAdmissionPolicyReconciler_findClusterAdmissionPoliciesForPod
    (object : AnyObject) (w : World) : list Request := findClusterPoliciesForPod object w.
Definition ClusterAdmissionPolicyGroupReconciler_findClusterAdmissionPoliciesForPod
    (object : AnyObject) (w : World) : list Request := findClusterPoliciesForPod object w.
End watches.

(** ** Writing a policy of any kind *)

Section write_policy.
Context {World : Type} `{KubeClient World}.

(** A client call on the policy an interface value points to; the answer is
    written through the pointer. *)
Definition policy_call (f : ∀ k, KObj k → World → (GoError + KObj k) * World) (p : AnyPolicy)
    : M World AnyPolicy :=
  match p with
  | PAdmissionPolicy p => q ← call (f KAdmissionPolicy p); mret (PAdmissionPolicy q)
  | PAdmissionPolicyGroup p => q ← call (f KAdmissionPolicyGroup p); mret (PAdmissionPolicyGroup q)
  | PClusterAdmissionPolicy p =>
      q ← call (f KClusterAdmissionPolicy p); mret (PClusterAdmissionPolicy q)
  | PClusterAdmissionPolicyGroup p =>
      q ← call (f KClusterAdmissionPolicyGroup p); mret (PClusterAdmissionPolicyGroup q)
  end.
End write_policy.

Section reconciler.
Context {World : Type} `{K8sUtil, KubeClient World, Environment World, Meter World}.
Variable r : policySubReconciler.

(** ** Webhook configurations *)

Definition namespaceSelector (policy : AnyPolicy) : option LabelSelector :=
  match policy with
  | PClusterAdmissionPolicyGroup _ | PClusterAdmissionPolicy _ =>
      Some (mkLabelSelector ∅
        (mkLSR "kubernetes.io/metadata.name" "NotIn" [sub_deploymentsNamespace r] ::
         match GetNamespaceSelector policy with
         | Some s => ls_MatchExpressions s
         | None => []
         end))
  | _ => GetNamespaceSelector policy
  end.

(** The webhook of a policy, the same in both configurations. *)
Definition admission_webhook (policy : AnyPolicy) (admissionSecret : Secret)
    (policyServerNameWithPrefix : string) : Webhook :=
  let admissionPath := filepath_Join ["/validate"; GetUniqueName policy] in
  let service := mkServiceReference (sub_deploymentsNamespace r) policyServerNameWithPrefix
                   (Some admissionPath) (Some PolicyServerPort) in
  let sideEffects := match GetSideEffects policy with None => Some "None" | s => s end in
  mkWebhook (GetUniqueName policy +:+ ".kubewarden.admission")
    (mkWCC (Some service) (default [] (s_Data admissionSecret !! CARootCert)))
    (GetRules policy) (GetFailurePolicy policy) (GetMatchPolicy policy)
    (namespaceSelector policy) (GetObjectSelector policy) sideEffects
    (GetTimeoutSeconds policy) ["v1"]
    (if sub_featureGateAdmissionWebhookMatchConditions r then GetMatchConditions policy else []).

(** The mutate function of both. *)
Definition updateWebhookConfiguration (policy : AnyPolicy) (admissionSecret : Secret)
    (policyServerNameWithPrefix : string) (webhook : WebhookConfiguration)
    : M World WebhookConfiguration :=
  let m := om_set_Name (GetUniqueName policy) (wc_Meta webhook) in
  let m := om_set_Labels {[ PartOfLabelKey := PartOfLabelValue ]} m in
  let m := om_set_Annotations
    {[ WebhookConfigurationPolicyNameAnnotationKey := GetName policy;
       WebhookConfigurationPolicyNamespaceAnnotationKey := GetNamespace policy ]} m in
  mret (mkWebhookConfiguration m
          [admission_webhook policy admissionSecret policyServerNameWithPrefix]).

Definition empty_webhook_configuration (policy : AnyPolicy) : WebhookConfiguration :=
  mkWebhookConfiguration (named_meta "" (GetUniqueName policy)) [].

Definition reconcileValidatingWebhookConfiguration (policy : AnyPolicy)
    (admissionSecret : Secret) (policyServerNameWithPrefix : string) : M World unit :=
  wrap_err (ErrWrap "cannot reconcile validating webhook")
    (CreateOrPatch KValidatingWebhookConfiguration (empty_webhook_configuration policy)
       (updateWebhookConfiguration policy admissionSecret policyServerNameWithPrefix)) ;;
  mret tt.

Definition reconcileMutatingWebhookConfiguration (policy : AnyPolicy)
    (admissionSecret : Secret) (policyServerNameWithPrefix : string) : M World unit :=
  wrap_err (ErrWrap "cannot reconcile mutating webhook")
    (CreateOrPatch KMutatingWebhookConfiguration (empty_webhook_configuration policy)
       (updateWebhookConfiguration policy admissionSecret policyServerNameWithPrefix)) ;;
  mret tt.

(** The body of both deletions. *)
Definition delete_webhook (k : Kind) (what : string) (policy : AnyPolicy) : M World unit :=
  res ← try (read (Get k (mkNN "" (GetUniqueName policy))));
  match res with
  | inr webhook =>
      deleted ← try (call (Delete k webhook));
      match deleted with
      | inl err => if IsNotFound err then mret tt
                   else fail (ErrWrap ("cannot delete " +:+ what +:+ " webhook") err)
      | inr _ => mret tt
      end
  | inl err => if IsNotFound err then mret tt
               else fail (ErrWrap ("cannot retrieve " +:+ what +:+ " webhook") err)
  end.
Definition reconcileValidatingWebhookConfigurationDeletion : AnyPolicy → M World unit :=
  delete_webhook KValidatingWebhookConfiguration "validating".
Definition reconcileMutatingWebhookConfigurationDeletion : AnyPolicy → M World unit :=
  delete_webhook KMutatingWebhookConfiguration "mutating".

(** ** Reads *)

Definition getPolicyServer (policy : AnyPolicy) : M World PolicyServer :=
  wrap_err (λ err, ErrJoin [ErrNew "could not get policy server"; err])
    (read (Get KPolicyServer (mkNN "" (GetPolicyServer policy)))).

Definition server_label (d : Deployment) : ListOptions :=
  MatchingLabels {[ PolicyServerLabelKey :=
                      go_index PolicyServerLabelKey (om_Labels (d_Meta d)) ]}.

(** The hash of the first replica set of the latest revision. *)
Definition latest_hash (replicaSets : list ReplicaSet) (d : Deployment) (version : string)
    : string :=
  match list_find (λ rs, Is_true (isLatestReplicaSetFromPolicyServerDeployment rs d version))
          replicaSets with
  | Some (_, rs) => go_index DefaultDeploymentUniqueLabelKey (om_Labels (rs_Meta rs))
  | None => ""
  end.

Definition isPolicyUniquelyReachable (d : Deployment) (policyName : string) (w : World) : bool :=
  match Get KConfigMap (mkNN (om_Namespace (d_Meta d)) (om_Name (d_Meta d))) w with
  | inl _ => false
  | inr configMap =>
      if negb (isPolicyInConfigMap configMap policyName) then false
      else
        match List KReplicaSet (server_label d) w with
        | inl _ => false
        | inr replicaSets =>
            let podTemplateHash :=
              latest_hash replicaSets d (om_ResourceVersion (cm_Meta configMap)) in
            if bool_decide (podTemplateHash = "") then false
            else
              match List KPod (server_label d) w with
              | inl _ => false
              | inr pods =>
                  if is_nil pods then false
                  else forallb (λ pod : Pod,
                    bool_decide (go_index DefaultDeploymentUniqueLabelKey
                                   (om_Labels (p_Meta pod)) = podTemplateHash) &&
                    isPodReady pod) pods
              end
        end
  end.

(** ** Status *)

Definition add_condition (c : Condition) (now : Z) (policy : AnyPolicy) : AnyPolicy :=
  SetConditions (SetStatusCondition now (st_Conditions (GetStatus policy)) c) policy.

Definition setPolicyAsActive (now : Z) (policy : AnyPolicy) : AnyPolicy :=
  add_condition (mkCondition PolicyActive "True" "PolicyActive"
                   "The policy webhook has been created") now
    (SetStatus PolicyStatusActive policy).

Definition setPolicyConfigurationCondition (cfg : ConfigMap) (d : Deployment) (now : Z)
    (conditions : list Condition) : list Condition :=
  match om_Annotations (d_Meta d) !! PolicyServerDeploymentConfigVersionAnnotation with
  | Some configAnnotation =>
      if bool_decide (configAnnotation = om_ResourceVersion (cm_Meta cfg))
      then SetStatusCondition now conditions
        (mkCondition PolicyServerConfigurationUpToDate "True" "ConfigurationVersionMatch"
           "Configuration for this policy is up to date")
      else SetStatusCondition now conditions
        (mkCondition PolicyServerConfigurationUpToDate "False" "ConfigurationVersionMismatch"
           "Configuration for this policy is not up to date")
  | None => SetStatusCondition now conditions
      (mkCondition PolicyServerConfigurationUpToDate "False" "UnknownConfigurationVersion"
         ("Configuration version annotation (" +:+ PolicyServerDeploymentConfigVersionAnnotation
          +:+ ") in deployment " +:+ om_Name (d_Meta d) +:+ " is missing"))
  end.

Definition deployment_key (policy : AnyPolicy) : NamespacedName :=
  mkNN (sub_deploymentsNamespace r) (policyServerDeploymentName (GetPolicyServer policy)).

(** The mode the policy server runs the policy in, from its configuration. *)
Definition configured_mode (cfg : ConfigMap) (policy : AnyPolicy) : string :=
  match getPolicyMapFromConfigMap cfg with
  | inr policyMap =>
      match policyMap !! GetUniqueName policy with
      | Some policyConfig => ce_PolicyMode policyConfig
      | None => PolicyModeStatusUnknown
      end
  | inl _ => PolicyModeStatusUnknown
  end.

Definition setPolicyModeStatus : M (World * AnyPolicy) unit :=
  res ← try (with_local (λ policy, read (Get KDeployment (deployment_key policy))));
  match res with
  | inl err =>
      if IsNotFound err then mret tt
      else fail (ErrJoin [ErrNew "could not get policy server deployment"; err])
  | inr d =>
      cfg ← wrap_err (λ err, ErrJoin [ErrNew "could not get configmap"; err])
        (with_local (λ policy, read (Get KConfigMap (deployment_key policy))));
      set_local (λ policy, SetPolicyModeStatus (configured_mode cfg policy) policy) ;;
      set_local_now (λ now (policy : AnyPolicy),
        SetConditions (setPolicyConfigurationCondition cfg d now
                         (st_Conditions (GetStatus policy))) policy)
  end.

(** ** Reconciliation *)

(** The rest of [reconcilePolicy], once the policy server was found. *)
Definition reconcileScheduledPolicy (policyServer : PolicyServer)
    : M (World * AnyPolicy) Result :=
  res ← try (with_local (λ policy, read (Get KDeployment (deployment_key policy))));
  match res with
  | inl err =>
      if IsNotFound err then mret requeue_result
      else fail (ErrJoin [ErrNew "could not read policy server Deployment"; err])
  | inr policyServerDeployment =>
      reachable ← with_local (λ policy,
        gets (isPolicyUniquelyReachable policyServerDeployment (GetUniqueName policy)));
      if negb reachable then
        set_local_now (add_condition (mkCondition PolicyUniquelyReachable "False"
          "LatestReplicaSetIsNotUniquelyReachable"
          "The latest replica set is not uniquely reachable")) ;;
        mret (mkResult true TimeToRequeuePolicyReconciliation)
      else
      set_local_now (add_condition (mkCondition PolicyUniquelyReachable "True"
        "LatestReplicaSetIsUniquelyReachable"
        "The latest replica set is uniquely reachable")) ;;
      secret ← wrap_err (λ err, ErrJoin [ErrNew "cannot find policy server secret"; err])
        (with_local (λ _, read (Get KSecret (mkNN (sub_deploymentsNamespace r)
                                               CARootSecretName))));
      with_local (λ policy,
        if IsMutating policy then
          wrap_err (λ err, ErrJoin [ErrNew "error reconciling mutating webhook"; err])
            (reconcileMutatingWebhookConfiguration policy secret (NameWithPrefix policyServer))
        else
          wrap_err (λ err, ErrJoin [ErrNew "error reconciling validating webhook"; err])
            (reconcileValidatingWebhookConfiguration policy secret
               (NameWithPrefix policyServer))) ;;
      set_local_now setPolicyAsActive ;;
      mret empty_result
  end.

Definition reconcilePolicy : M (World * AnyPolicy) Result :=
  set_local_now (add_condition (mkCondition PolicyActive "False" "PolicyActive"
                              "The policy webhook has not been created")) ;;
  policyServerName ← with_local (λ policy, mret (GetPolicyServer policy));
  if bool_decide (policyServerName = "") then
    set_local (SetStatus PolicyStatusUnscheduled) ;; mret empty_result
  else
  res ← try (with_local getPolicyServer);
  match res with
  | inl _ => set_local (SetStatus PolicyStatusScheduled) ;; mret empty_result
  | inr policyServer =>
      set_local (λ policy : AnyPolicy,
        if bool_decide (st_PolicyStatus (GetStatus policy) = PolicyStatusActive) then policy
        else SetStatus PolicyStatusPending policy) ;;
      reconcileScheduledPolicy policyServer
  end.

Definition reconcilePolicyDeletion : M (World * AnyPolicy) Result :=
  with_local (λ policy,
    if IsMutating policy then reconcileMutatingWebhookConfigurationDeletion policy
    else reconcileValidatingWebhookConfigurationDeletion policy) ;;
  set_local (λ policy : AnyPolicy,
    SetFinalizers (RemoveFinalizer (GetFinalizers policy) KubewardenFinalizerPre114) policy) ;;
  set_local (λ policy : AnyPolicy,
    SetFinalizers (RemoveFinalizer (GetFinalizers policy) KubewardenFinalizer) policy) ;;
  wrap_err (ErrWrap "cannot update admission policy") (update_local (policy_call Update)) ;;
  mret empty_result.

Definition policySubReconciler_reconcile : M (World * AnyPolicy) Result :=
  deletionTimestamp ← with_local (λ policy : AnyPolicy, mret (GetDeletionTimestamp policy));
  if (deletionTimestamp : option Z) then reconcilePolicyDeletion
  else
    reconcileResult ← try reconcilePolicy;
    wrap_err (ErrWrap "error setting policy status") setPolicyModeStatus ;;
    wrap_err (ErrWrap "update admission policy status error")
      (update_local (policy_call StatusUpdate)) ;;
    wrap_err (ErrWrap "failed to record policy mestrics") (with_local (λ policy : AnyPolicy, RecordPolicyCount policy)) ;;
    match reconcileResult with inl err => fail err | inr result => mret result end.

(** ** The four controllers *)

Definition policy_Reconcile (k : Kind) (inject : KObj k → AnyPolicy) (req : Request)
    : M World Result := λ w,
  match Get k (req_NamespacedName req) w with
  | inl err => (match IgnoreNotFound err with None => Ok empty_result | Some e => Err e end, w)
  | inr policy =>
      let '(o, (w', _)) := policySubReconciler_reconcile (w, inject policy) in (o, w')
  end.

Definition AdmissionPolicyReconciler_Reconcile : Request → M World Result :=
  policy_Reconcile KAdmissionPolicy PAdmissionPolicy.
Definition AdmissionPolicyGroupReconciler_Reconcile : Request → M World Result :=
  policy_Reconcile KAdmissionPolicyGroup PAdmissionPolicyGroup.
Definition ClusterAdmissionPolicyReconciler_Reconcile : Request → M World Result :=
  policy_Reconcile KClusterAdmissionPolicy PClusterAdmissionPolicy.
Definition ClusterAdmissionPolicyGroupReconciler_Reconcile : Request → M World Result :=
  policy_Reconcile KClusterAdmissionPolicyGroup PClusterAdmissionPolicyGroup.
End reconciler.

(** ** Concrete runs *)

Section witnesses.
#[local] Existing Instance concrete_util.
#[local] Existing Instance concrete_range.
#[local] Existing Instance fake_client.
#[local] Existing Instance fake_env.
#[local] Existing Instance noop_meter.
#[local] Existing Instance concrete_retry.

Definition sample_sub : policySubReconciler := mkPolicySubReconciler "kubewarden" true.

(** The cluster after the policy server was reconciled. *)
Definition reconciled_world (policies : list AdmissionPolicy) : FakeWorld :=
  (PolicyServerReconciler_Reconcile full_reconciler server_req
     (server_world full_server policies)).2.
Definition config_version (w : FakeWorld) : string :=
  match fake_Get KConfigMap resource_key w with
  | inr c => om_ResourceVersion (cm_Meta c)
  | inl _ => ""
  end.

Definition server_object (name : string) (annotations : gmap string string) : ObjectMeta :=
  om_set_Annotations annotations
    (om_set_Labels {[ PolicyServerLabelKey := "default"; DefaultDeploymentUniqueLabelKey := "h1" ]}
       (named_meta "kubewarden" name)).
Definition sample_pod (ready : string) : Pod :=
  mkPod (server_object "pod" ∅) [mkPodCondition "Initialized" "True"; mkPodCondition "Ready" ready].

(** ... and its deployment was rolled out. *)
Definition rolled_out (ready : string) (w : FakeWorld) : FakeWorld :=
  fake_put KPod (sample_pod ready)
    (fake_put KReplicaSet
       (mkReplicaSet (server_object "rs"
          {[ PolicyServerDeploymentConfigVersionAnnotation := config_version w ]})) w).
Definition ready_world : FakeWorld := rolled_out "True" (reconciled_world [settings_policy]).
Definition the_policy : AnyPolicy := PAdmissionPolicy settings_policy.

Definition ready_deployment : Deployment :=
  match fake_Get KDeployment resource_key ready_world with
  | inr d => d
  | inl _ => empty_deployment full_reconciler full_server
  end.
Definition ready_config : ConfigMap :=
  match fake_Get KConfigMap resource_key ready_world with
  | inr c => c
  | inl _ => blank_config
  end.

Lemma reconciled_replica_sets : fw_store (reconciled_world [settings_policy]) KReplicaSet = ∅.
Proof. vm_compute. reflexivity. Qed.

Lemma ready_replica_set key rs :
  Get KReplicaSet key ready_world = inr rs →
  rs = mkReplicaSet (server_object "rs"
         {[ PolicyServerDeploymentConfigVersionAnnotation :=
              config_version (reconciled_world [settings_policy]) ]}).
Proof.
  intros (_ & Hs & _)%fake_Get_inv. unfold ready_world, rolled_out, fake_put, on_store in Hs.
  cbn [fw_store] in Hs.
  rewrite store_map_other, store_map_same, reconciled_replica_sets in Hs by done.
  by apply lookup_singleton_Some in Hs as [_ <-].
Qed.

End witnesses.
