(* ===== verification/PolicyReconcile.v ===== *)
(** * The policy controllers: theorems on [Reconcile]

    Reachability of a policy, what a successful reconciliation of a live policy
    and any of a deleted one leave in the cluster, and runs of the model. *)

From S2P Require Import Prelude GoStd Json K8sTypes Concrete Constants PolicyTypes PolicyValidation PolicyServerTypes PolicyWebhook KubeClient FakeCluster ConfigMap Resources Deployment Certs CertController PolicyServerController Metrics PolicySubReconciler.

(** ** Writing through the pointer *)

Abbreviation PKind p := (projT1 (policy_kind p)).

(** The cluster has this very policy. *)
Definition policy_at {World} `{KubeClient World} (w : World) (p : AnyPolicy) : Prop :=
  Get (PKind p) (policy_key p) w = inr (projT2 (policy_kind p)).

Lemma set_status_twice s s' (p : AnyPolicy) :
  SetStatusRecord s (SetStatusRecord s' p) = SetStatusRecord s p.
Proof. by destruct p. Qed.
Lemma kind_set_status s (p : AnyPolicy) : PKind (SetStatusRecord s p) = PKind p.
Proof. by destruct p. Qed.
Lemma key_set_status s (p : AnyPolicy) : policy_key (SetStatusRecord s p) = policy_key p.
Proof. by destruct p. Qed.
Lemma set_status_same (p : AnyPolicy) : SetStatusRecord (GetStatus p) p = p.
Proof. by destruct p as [[]|[]|[]|[]]. Qed.

Section write_lemmas.
Context {World : Type} `{K8sUtil, KubeClient World, Environment World,
  !KubeClientLaws World}.
Implicit Types (w : World) (p : AnyPolicy).

(** What a successful write of a policy leaves. *)
Lemma policy_status_update p w p' w' :
  policy_call StatusUpdate p w = (Ok p', w') →
  PKind p' = PKind p ∧ policy_key p' = policy_key p ∧ GetStatus p' = GetStatus p ∧
  policy_at w' p' ∧ same_but (PKind p) (policy_key p) w w'.
Proof.
  destruct p as [p|p|p|p]; cbn [policy_call]; intros Hrun; inv_run Hrun; subst;
    match goal with Hst : StatusUpdate ?k _ _ = _ |- _ =>
      apply (StatusUpdate_ok k) in Hst as (Hstat & Hsame & Hget) end;
    pose proof (Get_key _ _ _ _ Hget) as Hkey; unfold policy_at, policy_key;
    cbn [policy_kind projT1 projT2]; rewrite Hkey; split_and!; done.
Qed.

Lemma policy_update p w p' w' :
  policy_call Update p w = (Ok p', w') →
  same_but (PKind p) (policy_key p) w w' ∧
  (absent (PKind p) (policy_key p) w' ∨
   policy_at w' p' ∧ PKind p' = PKind p ∧ policy_key p' = policy_key p ∧
   GetFinalizers p' = GetFinalizers p).
Proof.
  destruct p as [p|p|p|p]; cbn [policy_call]; intros Hrun; inv_run Hrun; subst;
    match goal with Hst : Update ?k _ _ = _ |- _ =>
      apply (Update_ok k) in Hst as ([Hm _] & Hsame & Hor) end;
    (split; [exact Hsame|]); destruct Hor as [Hget|(_ & Habs & _)]; [right| |right| |right| |right|];
    try (by left); pose proof (Get_key _ _ _ _ Hget) as Hkey; unfold policy_at, policy_key;
    cbn [policy_kind projT1 projT2]; rewrite Hkey; destruct Hm as (_ & _ & _ & _ & Hf & _);
    split_and!; done.
Qed.
End write_lemmas.

(** ** Reachability, declaratively *)

Section reachability.
Context {World : Type} `{K8sUtil, KubeClient World, Environment World,
  !KubeClientLaws World}.
Implicit Types (w : World) (d : Deployment).

(** An object of the policy server a deployment belongs to. *)
Definition of_server (d : Deployment) (m : ObjectMeta) : Prop :=
  om_Labels m !! PolicyServerLabelKey
  = Some (go_index PolicyServerLabelKey (om_Labels (d_Meta d))).

(** Every request for the policy reaches a pod that has its configuration:
    the ConfigMap has the policy, a replica set of the current revision was
    created for this version of the ConfigMap, and the pods of the server
    are ready pods of that replica set, at least one. *)
Definition uniquely_reachable (d : Deployment) (policyName : string) w : Prop :=
  ∃ cfg m rsKey rs hash,
    Get KConfigMap (om_key (d_Meta d)) w = inr cfg ∧
    getPolicyMapFromConfigMap cfg = inr m ∧ is_Some (m !! policyName) ∧
    Get KReplicaSet rsKey w = inr rs ∧ of_server d (rs_Meta rs) ∧
    go_index KubernetesRevisionAnnotation (om_Annotations (rs_Meta rs))
      = go_index KubernetesRevisionAnnotation (om_Annotations (d_Meta d)) ∧
    go_index PolicyServerDeploymentConfigVersionAnnotation (om_Annotations (rs_Meta rs))
      = om_ResourceVersion (cm_Meta cfg) ∧
    om_Labels (rs_Meta rs) !! DefaultDeploymentUniqueLabelKey = Some hash ∧ hash ≠ "" ∧
    (∃ key pod, Get KPod key w = inr pod ∧ of_server d (p_Meta pod)) ∧
    ∀ key pod, Get KPod key w = inr pod → of_server d (p_Meta pod) →
      om_Labels (p_Meta pod) !! DefaultDeploymentUniqueLabelKey = Some hash ∧
      isPodReady pod = true.

Lemma go_index_Some k m v : v ≠ "" → go_index k m = v ↔ m !! k = Some v.
Proof. unfold go_index. destruct (m !! k); naive_solver. Qed.

Lemma list_server_label k d w l (o : KObj k) :
  List k (server_label d) w = inr l →
  o ∈ l ↔ ∃ key, Get k key w = inr o ∧ of_server d (kmeta k o).
Proof.
  intros Hl. rewrite (List_spec _ _ _ _ _ Hl). apply exist_proper. intros key.
  unfold list_matches, server_label, MatchingLabels, of_server.
  cbn [lo_Namespace lo_Labels lo_Fields]. rewrite lookup_empty, map_singleton_subseteq_l.
  naive_solver.
Qed.

Lemma latest_hash_inv l d version :
  latest_hash l d version ≠ "" →
  ∃ rs, rs ∈ l ∧ isLatestReplicaSetFromPolicyServerDeployment rs d version = true ∧
    om_Labels (rs_Meta rs) !! DefaultDeploymentUniqueLabelKey = Some (latest_hash l d version).
Proof.
  unfold latest_hash. destruct (list_find _ l) as [[i rs]|] eqn:Hf; [|done].
  apply list_find_Some in Hf as (Hi & Hlatest & _). intros Hne. exists rs.
  split; [by eapply list_elem_of_lookup_2|]. split; [by apply Is_true_eq_true|].
  by apply go_index_Some.
Qed.

Lemma isPolicyInConfigMap_inv cfg name :
  isPolicyInConfigMap cfg name = true →
  ∃ m, getPolicyMapFromConfigMap cfg = inr m ∧ is_Some (m !! name).
Proof.
  unfold isPolicyInConfigMap. destruct (getPolicyMapFromConfigMap cfg) as [e|m]; [done|].
  destruct (m !! name) eqn:Hm; [|done]. intros _. exists m. by rewrite Hm.
Qed.

Lemma reachable_sound d name w :
  isPolicyUniquelyReachable d name w = true → uniquely_reachable d name w.
Proof.
  unfold isPolicyUniquelyReachable.
  destruct (Get KConfigMap _ w) as [e|cfg] eqn:Hcfg; [done|].
  destruct (isPolicyInConfigMap cfg name) eqn:Hin; [cbn [negb]|done].
  destruct (List KReplicaSet _ w) as [e|sets] eqn:Hsets; [done|].
  case_bool_decide as Hhash; [done|].
  destruct (List KPod _ w) as [e|pods] eqn:Hpods; [done|].
  destruct pods as [|pod0 pods0] eqn:Heq; [done|]. rewrite <-Heq in *. cbn [is_nil].
  assert (is_nil pods = false) as -> by by subst. intros Hall.
  destruct (isPolicyInConfigMap_inv _ _ Hin) as (m & Hm & Hsome).
  destruct (latest_hash_inv _ _ _ Hhash) as (rs & Hrs & Hlatest & Hh).
  apply (list_server_label KReplicaSet _ _ _ _ Hsets) in Hrs as (rsKey & Hrs & Hlab).
  unfold isLatestReplicaSetFromPolicyServerDeployment in Hlatest.
  apply andb_true_iff in Hlatest as [Hrev%bool_decide_eq_true Hver%bool_decide_eq_true].
  pose proof (λ o, list_server_label KPod d w pods o Hpods) as Hp.
  exists cfg, m, rsKey, rs. eexists. split_and!; try done.
  - destruct (Hp pod0) as [Hp0 _]. destruct Hp0 as (key & Hk); [subst; left|eauto].
  - intros key pod Hg Hl. rewrite forallb_forall in Hall.
    specialize (Hall pod). rewrite <-list_elem_of_In in Hall.
    rewrite (Hp pod) in Hall. specialize (Hall (ex_intro _ key (conj Hg Hl))).
    apply andb_true_iff in Hall as [Heqh Hready]. split; [|done].
    apply bool_decide_eq_true in Heqh. by apply go_index_Some.
Qed.

(** A deployment has one replica set for its current revision. *)
Definition one_latest d w : Prop :=
  ∀ v key rs key' rs',
    Get KReplicaSet key w = inr rs → Get KReplicaSet key' w = inr rs' →
    of_server d (rs_Meta rs) → of_server d (rs_Meta rs') →
    isLatestReplicaSetFromPolicyServerDeployment rs d v = true →
    isLatestReplicaSetFromPolicyServerDeployment rs' d v = true → rs = rs'.

Lemma latest_hash_unique d w l version key rs :
  List KReplicaSet (server_label d) w = inr l → one_latest d w →
  Get KReplicaSet key w = inr rs → of_server d (rs_Meta rs) →
  isLatestReplicaSetFromPolicyServerDeployment rs d version = true →
  latest_hash l d version = go_index DefaultDeploymentUniqueLabelKey (om_Labels (rs_Meta rs)).
Proof.
  intros Hl Hone Hrs Hof Hlatest. unfold latest_hash.
  assert (rs ∈ l) as Hin by (apply (list_server_label KReplicaSet _ _ _ _ Hl); eauto).
  case_match eqn:Hf; [case_match; subst|].
  - apply list_find_Some in Hf as (Hi & Hl' & _). apply list_elem_of_lookup_2 in Hi.
    apply (list_server_label KReplicaSet _ _ _ _ Hl) in Hi as (key' & Hrs' & Hof').
    by rewrite <-(Hone version key rs key' _ Hrs Hrs') by eauto using Is_true_eq_true.
  - apply list_find_None in Hf. rewrite Forall_forall in Hf.
    destruct (Hf rs Hin). by apply Is_true_eq_left.
Qed.

Lemma reachable_complete d (name : string) w :
  (∃ l, List KReplicaSet (server_label d) w = inr l) →
  (∃ l, List KPod (server_label d) w = inr l) → one_latest d w →
  uniquely_reachable d name w → isPolicyUniquelyReachable d name w = true.
Proof.
  intros [sets Hsets] [pods Hpods] Hone.
  intros (cfg & m & rsKey & rs & hash & Hcfg & Hm & [e He] & Hrs & Hof & Hrev & Hver & Hh & Hne
          & (key & pod & Hpod & Hofp) & Hall).
  unfold isPolicyUniquelyReachable. unfold om_key in Hcfg. rewrite Hcfg.
  unfold isPolicyInConfigMap. rewrite Hm, He, Hsets, Hpods.
  rewrite bool_decide_eq_true_2 by eauto. cbn [negb].
  rewrite (latest_hash_unique d w sets _ rsKey rs); [|done..|].
  2:{ unfold isLatestReplicaSetFromPolicyServerDeployment. rewrite Hrev, Hver.
      by rewrite !bool_decide_eq_true_2. }
  apply go_index_Some in Hh; [|done]. rewrite Hh, bool_decide_eq_false_2 by done.
  pose proof (λ o, list_server_label KPod d w pods o Hpods) as Hp.
  assert (is_nil pods = false) as ->.
  { destruct pods; [|done]. destruct (not_elem_of_nil pod). apply Hp. eauto. }
  apply forallb_forall. intros q Hq%list_elem_of_In. apply Hp in Hq as (k & Hk & Hofq).
  destruct (Hall _ _ Hk Hofq) as [Hqh Hready]. rewrite Hready, andb_true_r.
  apply bool_decide_eq_true_2. by apply go_index_Some.
Qed.

(** (C11) The reachability check decides what it is meant to: when the lists of
    replica sets and pods succeed, and the deployment has one replica set of
    its current revision, [isPolicyUniquelyReachable] holds exactly when
    the ConfigMap has the policy, a replica set of the current revision was
    created for the current version of the ConfigMap, and the pods of the
    server, at least one, are all ready pods of that replica set. *)
Theorem isPolicyUniquelyReachable_iff d (name : string) w :
  (∃ l, List KReplicaSet (server_label d) w = inr l) →
  (∃ l, List KPod (server_label d) w = inr l) → one_latest d w →
  isPolicyUniquelyReachable d name w = true ↔ uniquely_reachable d name w.
Proof. intros. split; [apply reachable_sound|by apply reachable_complete]. Qed.
End reachability.

(** ** A reconciliation *)

(** The webhook configuration of a policy. *)
Definition webhook_kind (policy : AnyPolicy) : Kind :=
  if IsMutating policy then KMutatingWebhookConfiguration else KValidatingWebhookConfiguration.
Definition webhook_key (policy : AnyPolicy) : NamespacedName := mkNN "" (GetUniqueName policy).
Definition get_webhook {World} `{KubeClient World} (policy : AnyPolicy) (w : World)
    : GoError + WebhookConfiguration :=
  if IsMutating policy then Get KMutatingWebhookConfiguration (webhook_key policy) w
  else Get KValidatingWebhookConfiguration (webhook_key policy) w.

Definition inactive_condition : Condition :=
  mkCondition PolicyActive "False" "PolicyActive" "The policy webhook has not been created".
Definition active_condition : Condition :=
  mkCondition PolicyActive "True" "PolicyActive" "The policy webhook has been created".

Section reconcile_lemmas.
Context {World : Type} `{K8sUtil, !K8sUtilLaws, KubeClient World, Environment World,
  Meter World, !KubeClientLaws World, !MeterLaws World}.
Implicit Types (w : World) (p : AnyPolicy) (r : policySubReconciler).

(** What the code asks for before it creates the webhook. *)
Definition activatable r p w (ps : PolicyServer) (secret : Secret) : Prop :=
  GetPolicyServer p ≠ "" ∧
  Get KPolicyServer (mkNN "" (GetPolicyServer p)) w = inr ps ∧
  (∃ d, Get KDeployment (deployment_key r p) w = inr d ∧
     isPolicyUniquelyReachable d (GetUniqueName p) w = true) ∧
  Get KSecret (mkNN (sub_deploymentsNamespace r) CARootSecretName) w = inr secret.

(** The status of a policy that is not (or no longer) active. *)
Definition waiting_status p w : string :=
  if bool_decide (GetPolicyServer p = "") then PolicyStatusUnscheduled
  else match Get KPolicyServer (mkNN "" (GetPolicyServer p)) w with
       | inl _ => PolicyStatusScheduled
       | inr _ => if bool_decide (st_PolicyStatus (GetStatus p) = PolicyStatusActive)
                  then PolicyStatusActive else PolicyStatusPending
       end.

(** The webhook configuration the cluster has for a policy is the one of
    that policy, and leads back to it. *)
Definition enforced r p (ps : PolicyServer) (secret : Secret) w : Prop :=
  ∃ wc wh, get_webhook p w = inr wc ∧ wc_Webhooks wc = [wh] ∧
    webhook_stored (admission_webhook r p secret (NameWithPrefix ps)) wh ∧
    om_Labels (wc_Meta wc) = {[ PartOfLabelKey := PartOfLabelValue ]} ∧
    om_Annotations (wc_Meta wc) =
      {[ WebhookConfigurationPolicyNameAnnotationKey := GetName p;
         WebhookConfigurationPolicyNamespaceAnnotationKey := GetNamespace p ]}.

(** The policy with another status. *)
Definition restatus p p' : Prop := ∃ s, p' = SetStatusRecord s p.

(** The policy at another resource version. *)
Definition versioned (v : string) p : AnyPolicy :=
  SetObjectMeta (om_set_ResourceVersion v (GetObjectMeta p)) p.

Lemma restatus_refl p : restatus p p.
Proof. exists (GetStatus p). by rewrite set_status_same. Qed.
Lemma restatus_trans p1 p2 p3 : restatus p1 p2 → restatus p2 p3 → restatus p1 p3.
Proof. intros [s ->] [s' ->]. exists s'. apply set_status_twice. Qed.
Lemma restatus_set s p p' : restatus p p' → restatus p (SetStatusRecord s p').
Proof. intros Hp. eapply restatus_trans; [exact Hp|]. by exists s. Qed.
Lemma restatus_condition c t p p' : restatus p p' → restatus p (add_condition c t p').
Proof. apply restatus_set. Qed.

Lemma find_add_same c t p :
  c_LastTransitionTime c = None → reports c (st_Conditions (GetStatus (add_condition c t p))).
Proof.
  intros Hc. unfold add_condition, SetConditions. autorewrite with policy.
  by apply SetStatusCondition_reports.
Qed.
Lemma find_add_other c now p t :
  t ≠ c_Type c → find_condition t (st_Conditions (GetStatus (add_condition c now p))) =
                 find_condition t (st_Conditions (GetStatus p)).
Proof.
  intros Ht. unfold add_condition, SetConditions. autorewrite with policy.
  by apply SetStatusCondition_other.
Qed.
Lemma status_add c t p :
  st_PolicyStatus (GetStatus (add_condition c t p)) = st_PolicyStatus (GetStatus p).
Proof. unfold add_condition, SetConditions. by autorewrite with policy. Qed.

Lemma webhook_reconciled g g' r p ps secret w w' :
  (if IsMutating p
   then wrap_err g (reconcileMutatingWebhookConfiguration r p secret (NameWithPrefix ps))
   else wrap_err g' (reconcileValidatingWebhookConfiguration r p secret (NameWithPrefix ps))) w
  = (Ok tt, w') →
  same_but (webhook_kind p) (webhook_key p) w w' ∧ enforced r p ps secret w'.
Proof.
  unfold enforced, webhook_kind, get_webhook.
  destruct (IsMutating p);
    [unfold reconcileMutatingWebhookConfiguration|unfold reconcileValidatingWebhookConfiguration];
    intros Hrun; inv_run Hrun; subst;
    match goal with Hc : CreateOrPatch ?k _ _ _ = _ |- _ =>
      apply (CreateOrPatch_ok k) in Hc
        as (base & o & w1 & _ & Hf & _ & [Hm Hd] & Hget & Hsame) end;
    unfold updateWebhookConfiguration in Hf; inv_run Hf; subst;
    (split; [exact Hsame|]);
    destruct Hm as (_ & _ & Hl & Ha & _); cbn in Hl, Ha, Hd;
    apply Forall2_cons_inv_l in Hd as (wh & l & Hwh & Hnil%Forall2_nil_inv_l & Heq); subst l;
    eexists _, wh; (split; [exact Hget|]); (split; [done|]); (split; [exact Hwh|]); done.
Qed.

Lemma restatus_same {A} (f : AnyPolicy → A) p p' :
  (∀ s q, f (SetStatusRecord s q) = f q) → restatus p p' → f p' = f p.
Proof. intros Hf [s ->]. apply Hf. Qed.
Lemma enforced_restatus r ps secret w p p' :
  restatus p p' → enforced r p' ps secret w ↔ enforced r p ps secret w.
Proof. intros [s ->]. by destruct p. Qed.

Lemma restatus_keys r p p' :
  restatus p p' →
  deployment_key r p' = deployment_key r p ∧ GetUniqueName p' = GetUniqueName p ∧
  webhook_kind p' = webhook_kind p ∧ webhook_key p' = webhook_key p.
Proof. intros [s ->]. by destruct p. Qed.

Lemma getPolicyServer_inv p w o w' :
  getPolicyServer p w = (o, w') →
  w' = w ∧ match o with
           | Ok ps => Get KPolicyServer (mkNN "" (GetPolicyServer p)) w = inr ps
           | _ => ∃ e, Get KPolicyServer (mkNN "" (GetPolicyServer p)) w = inl e
           end.
Proof.
  unfold getPolicyServer, wrap_err, read, call.
  destruct (Get KPolicyServer _ w) as [e|ps]; intros [= <- <-]; eauto.
Qed.

Lemma find_SetStatus t st p :
  find_condition t (st_Conditions (GetStatus (SetStatus st p)))
  = find_condition t (st_Conditions (GetStatus p)).
Proof. unfold SetStatus. by autorewrite with policy. Qed.
Lemma status_SetStatus st p : st_PolicyStatus (GetStatus (SetStatus st p)) = st.
Proof. unfold SetStatus. by autorewrite with policy. Qed.
Lemma activatable_restatus r ps secret w p p' :
  restatus p p' → activatable r p' w ps secret ↔ activatable r p w ps secret.
Proof. intros [s ->]. by destruct p. Qed.

Lemma reconcileScheduledPolicy_inv r ps p w res w1 p1 :
  reconcileScheduledPolicy r ps (w, p) = (Ok res, (w1, p1)) →
  restatus p p1 ∧
  ((∃ d secret, Get KDeployment (deployment_key r p) w = inr d ∧
      isPolicyUniquelyReachable d (GetUniqueName p) w = true ∧
      Get KSecret (mkNN (sub_deploymentsNamespace r) CARootSecretName) w = inr secret ∧
      same_but (webhook_kind p) (webhook_key p) w w1 ∧ enforced r p ps secret w1 ∧
      st_PolicyStatus (GetStatus p1) = PolicyStatusActive ∧
      reports active_condition (st_Conditions (GetStatus p1))) ∨
   (∀ d, Get KDeployment (deployment_key r p) w = inr d →
      isPolicyUniquelyReachable d (GetUniqueName p) w = false) ∧ w1 = w ∧
     st_PolicyStatus (GetStatus p1) = st_PolicyStatus (GetStatus p) ∧
     find_condition PolicyActive (st_Conditions (GetStatus p1))
     = find_condition PolicyActive (st_Conditions (GetStatus p))).
Proof.
  unfold reconcileScheduledPolicy. intros Hrun. inv_local Hrun.
  destruct x as [e|d]; inv_local Hrun0.
  { destruct (IsNotFound e); inv_local Hrun. simplify_eq. split; [apply restatus_refl|].
    right. split_and!; try done. intros d. congruence. }
  inv_local Hrun.
  destruct (isPolicyUniquelyReachable d (GetUniqueName p) w) eqn:Hreach; cbn [negb] in Hrun;
    inv_local Hrun; simplify_eq.
  - match goal with Hw : (if IsMutating ?q then _ else _) _ = _ |- _ =>
      assert (restatus p q) as Hq by apply restatus_condition, restatus_refl;
      apply webhook_reconciled in Hw as [Hsame Henf] end.
    apply (enforced_restatus r ps x _ _ _ Hq) in Henf.
    split; [by apply restatus_set, restatus_set|]. left. exists d, x.
    unfold setPolicyAsActive. rewrite status_add, status_SetStatus.
    split_and!; try done; [|by apply (find_add_same active_condition)].
    destruct Hq as [s Hq]. rewrite Hq in Hsame. by destruct p.
  - split; [apply restatus_condition, restatus_refl|]. right.
    rewrite status_add, find_add_other by done. split_and!; try done. intros d'. congruence.
Qed.

(** A read changes nothing. *)
Lemma ends_read {A T} (f : T → World → GoError + A) (Q : World * T → Prop) w t :
  Q (w, t) → ends (with_local (λ t, read (f t))) Q (w, t).
Proof.
  intros HQ. apply ends_with_local, (ends_within eq); [|by intros s' <-].
  apply within_read. apply _.
Qed.

Lemma reconcilePolicy_inv r p w res w1 p1 :
  reconcilePolicy r (w, p) = (Ok res, (w1, p1)) →
  restatus p p1 ∧
  ((∃ ps secret, activatable r p w ps secret ∧
      same_but (webhook_kind p) (webhook_key p) w w1 ∧ enforced r p ps secret w1 ∧
      st_PolicyStatus (GetStatus p1) = PolicyStatusActive ∧
      reports active_condition (st_Conditions (GetStatus p1))) ∨
   (¬ ∃ ps secret, activatable r p w ps secret) ∧ w1 = w ∧
     st_PolicyStatus (GetStatus p1) = waiting_status p w ∧
     reports inactive_condition (st_Conditions (GetStatus p1))).
Proof.
  unfold reconcilePolicy. intros Hrun. inv_local Hrun.
  match type of Hrun with context [add_condition ?c ?t p] =>
    change c with inactive_condition in Hrun;
    pose proof (find_add_same inactive_condition t p eq_refl) as Hc0;
    pose proof (status_add inactive_condition t p) as Hs0;
    pose proof (restatus_condition inactive_condition t p p (restatus_refl p)) as Hr0;
    set (p0 := add_condition inactive_condition t p) in *; clearbody p0 end.
  assert (GetPolicyServer p0 = GetPolicyServer p) as Hsrv.
  { apply (restatus_same GetPolicyServer); [apply server_set_status|done]. }
  unfold waiting_status. setoid_rewrite <-(activatable_restatus r _ _ w p p0 Hr0).
  rewrite <-Hs0, <-Hsrv in *. clear Hsrv.
  case_bool_decide as Hname; inv_local Hrun.
  { simplify_eq. split; [by apply restatus_set|]. right. split_and!; [|done| |].
    - by intros (ps & secret & ? & _).
    - apply status_SetStatus.
    - eapply reports_find, Hc0. apply find_SetStatus. }
  destruct x as [e|ps]; inv_local Hrun0; inv_local Hrun.
  all: match goal with Hg : getPolicyServer _ _ = _ |- _ =>
         apply getPolicyServer_inv in Hg as [-> Hps] end.
  { destruct Hps as [e' Hps]. simplify_eq. rewrite Hps.
    split; [by apply restatus_set|]. right. split_and!; [|done| |].
    - intros (ps & secret & _ & Hps' & _). congruence.
    - apply status_SetStatus.
    - eapply reports_find, Hc0. apply find_SetStatus. }
  rewrite Hps. remember (if bool_decide _ then p0 else _) as q eqn:Hq in Hrun.
  assert (restatus p0 q ∧ find_condition PolicyActive (st_Conditions (GetStatus q))
            = find_condition PolicyActive (st_Conditions (GetStatus p0)) ∧
          st_PolicyStatus (GetStatus q) =
            if bool_decide (st_PolicyStatus (GetStatus p0) = PolicyStatusActive)
            then PolicyStatusActive else PolicyStatusPending) as (Hr & Hcq & Hsq).
  { subst q. case_bool_decide; [eauto using restatus_refl|].
    rewrite find_SetStatus, status_SetStatus. eauto using restatus_set, restatus_refl. }
  assert (restatus p q) as Hpq by eauto using restatus_trans.
  apply reconcileScheduledPolicy_inv in Hrun as [Hr1 Hor].
  destruct (restatus_keys r p q Hpq) as (Hk1 & Hk2 & Hk3 & Hk4).
  destruct (restatus_keys r p p0 Hr0) as (Hk1' & Hk2' & _ & _).
  rewrite Hk1, Hk2, Hk3, Hk4, Hcq, Hsq in Hor.
  split; [eauto using restatus_trans|].
  unfold activatable. rewrite Hk1', Hk2'.
  destruct Hor as [(d & secret & Hd & Hreach & Hsec & Hsame & Henf & Hrest)|(Hno & Hw & Hrest)].
  - left. exists ps, secret. apply (enforced_restatus _ _ _ _ _ _ Hpq) in Henf. eauto 10.
  - right. split; [intros (ps' & secret & _ & _ & (d & Hd & Hreach) & _);
      by rewrite (Hno d Hd) in Hreach|].
    destruct Hrest as [Hst Hfind]. split_and!; [done|done|]. by eapply reports_find, Hc0.
Qed.

(** The configuration conditions a run of [setPolicyModeStatus] leaves. *)
Definition up_to_date (cfg : ConfigMap) (d : Deployment) (c : option Condition) : Prop :=
  ∃ c0, c = Some c0 ∧ c_Type c0 = PolicyServerConfigurationUpToDate ∧
    (c_Status c0 = "True" ↔
     om_Annotations (d_Meta d) !! PolicyServerDeploymentConfigVersionAnnotation
     = Some (om_ResourceVersion (cm_Meta cfg))).

Lemma setPolicyConfigurationCondition_inv cfg d now cs :
  up_to_date cfg d
    (find_condition PolicyServerConfigurationUpToDate
       (setPolicyConfigurationCondition cfg d now cs)) ∧
  ∀ t, t ≠ PolicyServerConfigurationUpToDate →
    find_condition t (setPolicyConfigurationCondition cfg d now cs) = find_condition t cs.
Proof.
  unfold setPolicyConfigurationCondition, up_to_date.
  destruct (om_Annotations _ !! _) as [v|]; [case_bool_decide|];
    (split; [|intros t Ht; by apply SetStatusCondition_other]);
    eexists; (split; [exact (SetStatusCondition_same _ _ (mkCondition _ _ _ _) eq_refl)|]);
    cbn; split_and!; try done; naive_solver.
Qed.

Lemma setPolicyModeStatus_inv r p w st :
  setPolicyModeStatus r (w, p) = (Ok tt, st) →
  ∃ p', st = (w, p') ∧ restatus p p' ∧
    st_PolicyStatus (GetStatus p') = st_PolicyStatus (GetStatus p) ∧
    find_condition PolicyActive (st_Conditions (GetStatus p'))
      = find_condition PolicyActive (st_Conditions (GetStatus p)) ∧
    ∀ d, Get KDeployment (deployment_key r p) w = inr d →
      ∃ cfg, Get KConfigMap (deployment_key r p) w = inr cfg ∧
        st_PolicyMode (GetStatus p') = configured_mode cfg p ∧
        up_to_date cfg d (find_condition PolicyServerConfigurationUpToDate
                            (st_Conditions (GetStatus p'))).
Proof.
  unfold setPolicyModeStatus. intros Hrun. inv_local Hrun.
  destruct x as [e|d]; inv_local Hrun0.
  { destruct (IsNotFound e); inv_local Hrun. exists p.
    split_and!; eauto using restatus_refl. intros d. congruence. }
  inv_local Hrun. eexists. split; [done|]. split; [by apply restatus_set, restatus_set, restatus_refl|].
  unfold SetConditions, SetPolicyModeStatus. autorewrite with policy.
  match goal with Hc : Get KConfigMap _ _ = inr ?c |- _ => rename c into cfg, Hc into Hcfg end.
  match goal with Hd : Get KDeployment _ _ = inr ?d |- _ =>
    destruct (setPolicyConfigurationCondition_inv cfg d (now_seconds w)
      (st_Conditions (GetStatus p))) as [Hup Hother] end.
  split; [done|]. split; [by apply Hother|]. intros d' Hd'. exists cfg. 
  split; [done|]. split; [done|]. assert (d' = d) as -> by congruence. done.
Qed.

(** The steps of a successful reconciliation of a live policy. *)
Lemma live_inv r p w res st :
  policySubReconciler_reconcile r (w, p) = (Ok res, st) → GetDeletionTimestamp p = None →
  ∃ w1 p1 p2 w2 p3,
    reconcilePolicy r (w, p) = (Ok res, (w1, p1)) ∧
    setPolicyModeStatus r (w1, p1) = (Ok tt, (w1, p2)) ∧
    policy_call StatusUpdate p2 w1 = (Ok p3, w2) ∧ same_objects w2 st.1 ∧ st.2 = p3.
Proof.
  unfold policySubReconciler_reconcile. intros Hrun Hdel. inv_local Hrun.
  rewrite Hdel in Hrun. inv_local Hrun.
  match goal with Hv : match ?v with _ => _ end |- _ => destruct v as [e|res'] end;
    [inv_local Hrun|].
  match goal with Hv : reconcilePolicy _ _ = (_, ?s) |- _ => destruct s as [w1 p1] end.
  match goal with Hv : setPolicyModeStatus _ _ = _ |- _ =>
    destruct (setPolicyModeStatus_inv _ _ _ _ Hv) as (p2 & -> & _) end.
  inv_local Hrun2. inv_local Hrun3. inv_local Hrun. simplify_eq.
  do 5 eexists. split_and!; try done. by eapply RecordPolicyCount_same.
Qed.
End reconcile_lemmas.

(** The controller of a policy's kind, on the request for that policy. *)
Definition reconcile_any {World} `{K8sUtil, KubeClient World, Environment World, Meter World}
    (r : policySubReconciler) (p : AnyPolicy) : M World Result :=
  match p with
  | PAdmissionPolicy _ => AdmissionPolicyReconciler_Reconcile r (mkRequest (policy_key p))
  | PAdmissionPolicyGroup _ => AdmissionPolicyGroupReconciler_Reconcile r (mkRequest (policy_key p))
  | PClusterAdmissionPolicy _ =>
      ClusterAdmissionPolicyReconciler_Reconcile r (mkRequest (policy_key p))
  | PClusterAdmissionPolicyGroup _ =>
      ClusterAdmissionPolicyGroupReconciler_Reconcile r (mkRequest (policy_key p))
  end.

Section reconcile_theorems.
Context {World : Type} `{K8sUtil, !K8sUtilLaws, KubeClient World, Environment World,
  Meter World, !KubeClientLaws World, !MeterLaws World}.
Implicit Types (w : World) (p : AnyPolicy) (r : policySubReconciler).

Lemma reconcile_any_run r p w o w' :
  policy_at w p → reconcile_any r p w = (o, w') →
  ∃ p', policySubReconciler_reconcile r (w, p) = (o, (w', p')).
Proof.
  intros Hat. unfold policy_at in Hat.
  destruct p as [p|p|p|p]; cbn [policy_kind projT1 projT2] in Hat; cbn [reconcile_any];
    unfold AdmissionPolicyReconciler_Reconcile, AdmissionPolicyGroupReconciler_Reconcile,
      ClusterAdmissionPolicyReconciler_Reconcile, ClusterAdmissionPolicyGroupReconciler_Reconcile,
      policy_Reconcile; cbn [req_NamespacedName]; rewrite Hat;
    destruct (policySubReconciler_reconcile r _) as [o1 [w1 p1]]; intros [= -> ->]; eauto.
Qed.

Lemma enforced_frame r p ps secret w w' :
  same_but (PKind p) (policy_key p) w w' → enforced r p ps secret w → enforced r p ps secret w'.
Proof.
  intros Hsame. unfold enforced, get_webhook.
  rewrite (Hsame KMutatingWebhookConfiguration), (Hsame KValidatingWebhookConfiguration)
    by (by destruct p). done.
Qed.


Lemma policy_reconcile_inv r p w res w' :
  reconcile_any r p w = (Ok res, w') → policy_at w p → GetDeletionTimestamp p = None →
  ∃ p', policy_at w' p' ∧ PKind p' = PKind p ∧ policy_key p' = policy_key p ∧
  ((∃ ps secret, activatable r p w ps secret ∧ enforced r p ps secret w' ∧
      (∃ d, Get KDeployment (deployment_key r p) w = inr d ∧
         uniquely_reachable d (GetUniqueName p) w) ∧
      st_PolicyStatus (GetStatus p') = PolicyStatusActive ∧
      reports active_condition (st_Conditions (GetStatus p')) ∧
      ∀ k key, (k, key) ≠ (webhook_kind p, webhook_key p) →
        (k, key) ≠ (PKind p, policy_key p) → Get k key w' = Get k key w) ∨
   (¬ ∃ ps secret, activatable r p w ps secret) ∧
     st_PolicyStatus (GetStatus p') = waiting_status p w ∧
     reports inactive_condition (st_Conditions (GetStatus p')) ∧
     same_but (PKind p) (policy_key p) w w').
Proof.
  intros Hrun Hat Hdel. destruct (reconcile_any_run _ _ _ _ _ Hat Hrun) as [pl Hsub].
  destruct (live_inv _ _ _ _ _ Hsub Hdel)
    as (w1 & p1 & p2 & w2 & p3 & Hpol & Hmode & Hst & Hsame & _). cbn [fst] in Hsame.
  apply reconcilePolicy_inv in Hpol as [Hr1 Hor].
  destruct (setPolicyModeStatus_inv _ _ _ _ Hmode) as (p2' & Heq & Hr2 & Hs2 & Hc2 & _).
  injection Heq as <-.
  assert (restatus p p2) as [s Hp2] by eauto using restatus_trans.
  apply policy_status_update in Hst as (Hk & Hkey & Hstat & Hat' & Hbut).
  rewrite Hp2, kind_set_status, key_set_status in *. rewrite <-Hp2 in *.
  exists p3. unfold policy_at, reports in *.
  change (c_Type active_condition) with PolicyActive in *.
  change (c_Type inactive_condition) with PolicyActive in *. rewrite Hsame, Hstat, Hs2, Hc2.
  split; [done|]. split; [done|]. split; [done|].
  assert (same_but (PKind p) (policy_key p) w1 w') as Hbut'.
  { intros k key Hne. by rewrite Hsame, Hbut. }
  destruct Hor as [(ps & secret & Hact & Hsw & Henf & Hs & Hc)|(Hno & -> & Hs & Hc)];
    [left|by right].
  exists ps, secret. split; [done|]. split; [by eapply enforced_frame|]. split.
  { destruct Hact as (_ & _ & (d & Hd & Hreach) & _). eauto using reachable_sound. }
  split_and!; try done. intros k key H1' H2'. by rewrite Hbut', Hsw.
Qed.

Lemma policy_mode_inv r p w res w' (d : Deployment) :
  reconcile_any r p w = (Ok res, w') → policy_at w p → GetDeletionTimestamp p = None →
  Get KDeployment (deployment_key r p) w = inr d →
  ∃ p' cfg, policy_at w' p' ∧ PKind p' = PKind p ∧ policy_key p' = policy_key p ∧
    Get KConfigMap (deployment_key r p) w = inr cfg ∧
    st_PolicyMode (GetStatus p') = configured_mode cfg p ∧
    up_to_date cfg d (find_condition PolicyServerConfigurationUpToDate
                        (st_Conditions (GetStatus p'))).
Proof.
  intros Hrun Hat Hdel Hd. destruct (reconcile_any_run _ _ _ _ _ Hat Hrun) as [pl Hsub].
  destruct (live_inv _ _ _ _ _ Hsub Hdel)
    as (w1 & p1 & p2 & w2 & p3 & Hpol & Hmode & Hst & Hsame & _). cbn [fst] in Hsame.
  apply reconcilePolicy_inv in Hpol as [Hr1 Hor].
  destruct (setPolicyModeStatus_inv _ _ _ _ Hmode) as (p2' & Heq & Hr2 & _ & _ & Hcfg).
  injection Heq as <-. destruct (restatus_keys r p p1 Hr1) as (Hdk & Hn & _ & _).
  assert (∀ k key, k = KDeployment ∨ k = KConfigMap → Get k key w1 = Get k key w) as Hkeep.
  { intros k key Hk. destruct Hor as [(ps & secret & _ & Hsw & _)|(_ & -> & _)]; [|done].
    apply Hsw. unfold webhook_kind. by destruct Hk as [->| ->], (IsMutating p). }
  rewrite Hdk in Hcfg. setoid_rewrite Hkeep in Hcfg; [|by auto..].
  destruct (Hcfg d Hd) as (cfg & Hc & Hm & Hup).
  assert (restatus p p2) as [s Hp2] by eauto using restatus_trans.
  apply policy_status_update in Hst as (Hk & Hkey & Hstat & Hat' & _).
  rewrite Hp2, key_set_status in Hkey. rewrite Hp2, kind_set_status in Hk.
  exists p3, cfg. unfold policy_at in *. rewrite Hsame, Hstat.
  split_and!; try done. rewrite Hm. unfold configured_mode. by rewrite Hn.
Qed.

(** (C24) The mode reported in the status of a live policy, when its
    reconciliation succeeds and its policy server has a deployment, is the
    mode of the entry the ConfigMap of the server has for the policy, and
    "unknown" when the ConfigMap has no such entry or cannot be decoded. In
    particular, when the ConfigMap is the one the controller writes for a list
    of policies this one belongs to (all evaluable, with distinct unique names
    and well-formed settings), it is the mode in the spec of the policy. And
    the policy says that the configuration is up to date exactly when the
    deployment was rolled to the present version of the ConfigMap. *)
Theorem policy_reconcile_mode r p w res w' (d : Deployment) :
  reconcile_any r p w = (Ok res, w') → policy_at w p → GetDeletionTimestamp p = None →
  Get KDeployment (deployment_key r p) w = inr d →
  ∃ p' cfg, policy_at w' p' ∧ PKind p' = PKind p ∧ policy_key p' = policy_key p ∧
    Get KConfigMap (deployment_key r p) w = inr cfg ∧
    (∀ entries e, getPolicyMapFromConfigMap cfg = inr entries →
       entries !! GetUniqueName p = Some e → st_PolicyMode (GetStatus p') = ce_PolicyMode e) ∧
    (∀ entries, getPolicyMapFromConfigMap cfg = inr entries →
       entries !! GetUniqueName p = None → st_PolicyMode (GetStatus p') = "unknown") ∧
    (∀ err, getPolicyMapFromConfigMap cfg = inl err →
       st_PolicyMode (GetStatus p') = "unknown") ∧
    (∀ policies,
       cm_Data cfg !! PolicyServerConfigPoliciesEntry = Some (policies_text policies) →
       (∀ q, q ∈ policies → policy_settings_ok q ∧ evaluable q) →
       NoDup (GetUniqueName <$> policies) → p ∈ policies →
       st_PolicyMode (GetStatus p') = GetPolicyMode p) ∧
    up_to_date cfg d (find_condition PolicyServerConfigurationUpToDate
                        (st_Conditions (GetStatus p'))).
Proof.
  intros Hrun Hat Hdel Hd.
  destruct (policy_mode_inv _ _ _ _ _ _ Hrun Hat Hdel Hd)
    as (p' & cfg & Hat' & Hk & Hkey & Hcfg & Hmode & Hup).
  exists p', cfg. rewrite Hmode. split_and!; try done; unfold configured_mode.
  - intros entries e -> He. by rewrite He.
  - intros entries -> Hn. by rewrite Hn.
  - by intros err ->.
  - intros policies Hdata Hok Hnd Hp. rewrite (getPolicyMap_built _ _ Hdata Hok).
    rewrite buildPoliciesMap_lookup, NoDup_filter_last by done. by destruct p.
Qed.

(** ** Deletion *)

Lemma delete_webhook_ends k what p w :
  ends (delete_webhook k what p) (same_but k (webhook_key p) w) w.
Proof.
  unfold delete_webhook.
  apply ends_bind; [apply ends_try, (ends_within eq); [apply within_read; apply _|by intros w' <-]|].
  intros res w1 Hrun. autorewrite with go in Hrun. destruct res as [e|wc]; autorewrite with go in Hrun;
    destruct Hrun as [Hg ->]; [by destruct (IsNotFound e)|].
  assert (kkey k wc = webhook_key p) as Hkey by (by eapply Get_key).
  assert (same_but k (webhook_key p) w (snd (try (call (Delete k wc)) w))) as Hs.
  { rewrite <-Hkey. apply ends_try. unfold ends, call. pose proof (Delete_frame k wc w) as Hf.
    by destruct (Delete k wc w) as [[] ?]. }
  apply ends_bind; [exact Hs|]. intros deleted w1 Hd. rewrite Hd in Hs.
  destruct deleted as [e|]; [by destruct (IsNotFound e)|done].
Qed.

Lemma delete_webhook_inv k what p w w' :
  delete_webhook k what p w = (Ok tt, w') →
  same_but k (webhook_key p) w w' ∧ going k (webhook_key p) w'.
Proof.
  unfold delete_webhook. intros Hrun. inv_run Hrun.
  match goal with Hv : match ?v with _ => _ end |- _ => destruct v as [e|wc] end;
    autorewrite with go in *.
  - destruct Hrun0 as [Hg ->]. destruct (IsNotFound e) eqn:He; inv_run Hrun. subst.
    split; [done|]. left. by exists e.
  - destruct Hrun0 as [Hg ->]. destruct Hrun as (res & w1 & Hd & Hrun).
    pose proof (Get_key _ _ _ _ Hg) as Hkey. change (kkey k wc = webhook_key p) in Hkey.
    rewrite <-Hkey.
    destruct res as [e|[]]; autorewrite with go in Hd.
    + destruct (IsNotFound e) eqn:He; inv_run Hrun. subst.
      destruct (Delete_notfound _ _ _ _ _ Hd He) as [Hs Habs].
      split; [intros k' key' _; apply Hs|by left].
    + inv_run Hrun. subst. by apply Delete_going in Hd.
Qed.

(** Whatever the outcome of a deletion run, the policy is as it was, or its
    webhook configuration is on its way out. *)
Lemma policy_Update_keeps k key q w :
  k ≠ PKind q → going k key w → going k key (snd (policy_call Update q w)).
Proof.
  intros Hk Hgo. assert (snd (policy_call Update q w) = snd (Update (PKind q) (projT2 (policy_kind q)) w))
    as -> by (destruct q; cbn [policy_call policy_kind projT1 projT2];
      unfold mbind, M_mbind, M_bind, call; by destruct (Update _ _ w) as [[] ?]).
  unfold going, absent in *. by rewrite (Update_frame (PKind q) _ w) by congruence.
Qed.

Lemma deletion_ordered r p w :
  policy_at w p → GetDeletionTimestamp p ≠ None →
  ends (policySubReconciler_reconcile r)
    (λ st, policy_at st.1 p ∨ going (webhook_kind p) (webhook_key p) st.1) (w, p).
Proof.
  intros Hat Hdel. unfold policySubReconciler_reconcile.
  apply ends_bind; [by apply ends_with_local, ends_ret; left|].
  intros ts s1 Hrun. inv_local Hrun. subst.
  destruct (GetDeletionTimestamp p) as [t|]; [|done]. unfold reconcilePolicyDeletion.
  assert ((PKind p, policy_key p) ≠ (webhook_kind p, webhook_key p)) as Hne
    by (unfold webhook_kind; destruct p, (IsMutating _); done).
  apply ends_bind.
  { apply ends_with_local. unfold webhook_kind in *.
    destruct (IsMutating p); (eapply ends_mono; [apply delete_webhook_ends|]);
      intros w1 Hs; left; unfold policy_at; cbn [fst]; by rewrite (Hs _ _ Hne). }
  intros [] [w1 p1] Hrun. inv_local Hrun. simplify_eq.
  match goal with Hw : (if IsMutating p then _ else _) w = (_, ?w2) |- _ =>
    assert (going (webhook_kind p) (webhook_key p) w2) as Hgo
      by (unfold webhook_kind; destruct (IsMutating p); by eapply delete_webhook_inv) end.
  apply ends_bind; [by apply ends_set_local; right|]. intros [] s2 Hrun2. inv_local Hrun2. subst.
  apply ends_bind; [by apply ends_set_local; right|]. intros [] s3 Hrun3. inv_local Hrun3. subst.
  match goal with |- ends _ _ (?x, ?p') => set (p2 := p'); rename x into w2;
    assert (webhook_kind p ≠ PKind p2) as Hk
      by (unfold webhook_kind, p2; by destruct p, (IsMutating _));
    pose proof (policy_Update_keeps _ _ p2 w2 Hk Hgo) as Hend end.
  assert (ends (wrap_err (ErrWrap "cannot update admission policy")
      (update_local (policy_call Update)))
    (λ st, policy_at st.1 p ∨ going (webhook_kind p) (webhook_key p) st.1)
    (w2, p2)) as Hup.
  { apply ends_wrap, ends_update_local. intros o w3 Hc. right. cbn [fst].
    by rewrite Hc in Hend. }
  apply ends_bind; [exact Hup|]. intros [] st Hr. unfold ends in Hup. rewrite Hr in Hup.
  by apply ends_ret.
Qed.

Lemma policy_deletion_done r p w res w' :
  reconcile_any r p w = (Ok res, w') → policy_at w p → GetDeletionTimestamp p ≠ None →
  res = empty_result ∧ going (webhook_kind p) (webhook_key p) w' ∧
  (absent (PKind p) (policy_key p) w' ∨
   ∃ p', policy_at w' p' ∧ PKind p' = PKind p ∧ policy_key p' = policy_key p ∧
     ∀ f, f ∈ GetFinalizers p' ↔
       f ∈ GetFinalizers p ∧ f ≠ KubewardenFinalizer ∧ f ≠ KubewardenFinalizerPre114).
Proof.
  intros Hrun Hat Hdel. destruct (reconcile_any_run _ _ _ _ _ Hat Hrun) as [pl Hsub].
  unfold policySubReconciler_reconcile in Hsub. inv_local Hsub.
  destruct (GetDeletionTimestamp p) as [t|]; [|done].
  unfold reconcilePolicyDeletion in Hsub. inv_local Hsub. simplify_eq. split; [done|].
  match goal with Hw : (if IsMutating p then _ else _) w = (_, ?w1) |- _ =>
    assert (same_but (webhook_kind p) (webhook_key p) w w1 ∧
            going (webhook_kind p) (webhook_key p) w1) as [Hs1 Hgo]
      by (unfold webhook_kind; destruct (IsMutating p); by eapply delete_webhook_inv) end.
  match goal with Hu : policy_call Update ?q _ = _ |- _ =>
    assert (PKind q = PKind p ∧ policy_key q = policy_key p ∧
      GetFinalizers q = RemoveFinalizer (RemoveFinalizer (GetFinalizers p)
                          KubewardenFinalizerPre114) KubewardenFinalizer) as (Hk & Hkey & Hfin)
      by (by destruct p);
    apply policy_update in Hu as [Hs2 Hor] end.
  rewrite Hk, Hkey, Hfin in *. split.
  - assert ((webhook_kind p, webhook_key p) ≠ (PKind p, policy_key p)) as Hne.
    { unfold webhook_kind. destruct p, (IsMutating _); done. }
    unfold going, absent in *. by rewrite (Hs2 _ _ Hne).
  - destruct Hor as [Habs|(Hat' & Hk' & Hkey' & Hf)]; [by left|right].
    eexists. split; [exact Hat'|]. split; [done|]. split; [done|]. intros f.
    rewrite Hf, !RemoveFinalizer_spec. tauto.
Qed.

(** (C10) A policy that is being deleted takes its webhook with it, and only
    then lets go of its finalizers. Whatever the outcome of the reconciliation,
    errors at any call included, the cluster still has the policy as it was,
    finalizers and all, or the webhook configuration of the policy is gone (or
    being deleted). And when the reconciliation succeeds, the webhook
    configuration is gone (or being deleted) and both finalizers of the
    controller are removed: the policy is gone, or is stored with the
    finalizers of others. *)
Theorem policy_deletion_removes_webhook r p w o w' :
  reconcile_any r p w = (o, w') → policy_at w p → GetDeletionTimestamp p ≠ None →
  (policy_at w' p ∨ going (webhook_kind p) (webhook_key p) w') ∧
  ∀ res, o = Ok res →
    res = empty_result ∧ going (webhook_kind p) (webhook_key p) w' ∧
    (absent (PKind p) (policy_key p) w' ∨
     ∃ p', policy_at w' p' ∧ PKind p' = PKind p ∧ policy_key p' = policy_key p ∧
       ∀ f, f ∈ GetFinalizers p' ↔
         f ∈ GetFinalizers p ∧ f ≠ KubewardenFinalizer ∧ f ≠ KubewardenFinalizerPre114).
Proof.
  intros Hrun Hat Hdel. split.
  - destruct (reconcile_any_run _ _ _ _ _ Hat Hrun) as [pl Hsub].
    pose proof (deletion_ordered r p w Hat Hdel) as He. unfold ends in He. by rewrite Hsub in He.
  - intros res ->. by eapply policy_deletion_done.
Qed.
End reconcile_theorems.

(** ** Only the status *)

Section status_only.
Context {World : Type} `{K8sUtil, !K8sUtilLaws, KubeClient World, Environment World, Meter World,
  !KubeClientLaws World, !MeterLaws World, !QuietLaws World}.
Implicit Types (w : World) (p : AnyPolicy) (r : policySubReconciler).

Lemma status_update_content p2 p w p3 w' :
  policy_call StatusUpdate p2 w = (Ok p3, w') → restatus p p2 → policy_at w p →
  ∃ v, p3 = versioned v p2.
Proof.
  intros Hrun [s ->] Hat. unfold policy_at in Hat.
  destruct p as [p|p|p|p]; cbn [policy_kind projT1 projT2] in Hat; cbn in Hrun;
    inv_run Hrun; subst;
    match goal with Hst : StatusUpdate ?k ?o _ = _ |- _ =>
      destruct (StatusUpdate_content k o _ _ _ _ Hst Hat) as [v ->] end; by exists v.
Qed.

Lemma policy_at_inj w p q :
  policy_at w p → policy_at w q → PKind p = PKind q → policy_key p = policy_key q → p = q.
Proof.
  unfold policy_at. intros Hp Hq Hk Hkey. rewrite Hkey in Hp. clear Hkey. revert Hp Hq.
  destruct p as [p|p|p|p], q as [q|q|q|q]; try discriminate Hk; cbn [policy_kind projT1 projT2];
    intros Hp Hq; rewrite Hp in Hq; by injection Hq as ->.
Qed.

(** The stored policy differs from the one before in its status (and the
    version of the object). *)
Lemma policy_reconcile_status_only r p w res w' p' :
  reconcile_any r p w = (Ok res, w') → policy_at w p → GetDeletionTimestamp p = None →
  policy_at w' p' → PKind p' = PKind p → policy_key p' = policy_key p →
  ∃ v s, p' = versioned v (SetStatusRecord s p).
Proof.
  intros Hrun Hat Hdel Hat' Hk Hkey.
  destruct (reconcile_any_run _ _ _ _ _ Hat Hrun) as [pl Hsub].
  destruct (live_inv _ _ _ _ _ Hsub Hdel)
    as (w1 & p1 & p2 & w2 & p3 & Hpol & Hmode & Hst & Hsame & _). cbn [fst] in Hsame.
  destruct (setPolicyModeStatus_inv _ _ _ _ Hmode) as (p2' & Heq & Hr2 & _).
  injection Heq as <-. pose proof (reconcilePolicy_inv _ _ _ _ _ _ Hpol) as [Hr1 Hor].
  assert (restatus p p2) as Hp2 by eauto using restatus_trans.
  pose proof (policy_status_update _ _ _ _ Hst) as (Hk3 & Hkey3 & _ & Hat3 & _).
  assert (policy_at w1 p) as Hat1.
  { destruct Hor as [(ps & secret & _ & Hsw & _)|(_ & -> & _)]; [|done].
    unfold policy_at in *. rewrite Hsw; [done|]. unfold webhook_kind. by destruct p, (IsMutating _). }
  destruct (status_update_content _ _ _ _ _ Hst Hp2 Hat1) as [v Hv].
  destruct Hp2 as [s ->]. rewrite kind_set_status in Hk3. rewrite key_set_status in Hkey3.
  exists v, s. rewrite <-Hv. eapply (policy_at_inj w'); [exact Hat'| |congruence|congruence].
  unfold policy_at in *. by rewrite Hsame.
Qed.

End status_only.

(** ** Concrete runs *)

Section witnesses.
#[local] Existing Instance concrete_util.
#[local] Existing Instance concrete_range.
#[local] Existing Instance fake_client.
#[local] Existing Instance fake_env.
#[local] Existing Instance noop_meter.
#[local] Existing Instance concrete_retry.

Lemma ready_one_latest : one_latest ready_deployment ready_world.
Proof.
  intros v key rs key' rs' ->%ready_replica_set ->%ready_replica_set. done.
Qed.

Lemma isPolicyUniquelyReachable_iff_witness :
  uniquely_reachable ready_deployment "namespaced-ns-p" ready_world.
Proof.
  apply (@isPolicyUniquelyReachable_iff FakeWorld concrete_util fake_client fake_env fake_laws
           ready_deployment "namespaced-ns-p" ready_world).
  - by eexists.
  - by eexists.
  - exact ready_one_latest.
  - vm_compute. reflexivity.
Defined.


Lemma ready_config_text :
  match Get KConfigMap (deployment_key sample_sub the_policy) ready_world with
  | inr cfg => cm_Data cfg !! PolicyServerConfigPoliciesEntry = Some (policies_text [the_policy])
  | inl _ => False
  end.
Proof. vm_compute. reflexivity. Qed.

Lemma policy_reconcile_mode_witness :
  let run := reconcile_any sample_sub the_policy ready_world in
  ∃ p', policy_at run.2 p' ∧ st_PolicyMode (GetStatus p') = "protect".
Proof.
  intros run.
  assert (run.1 = Ok empty_result) as Hrun by (vm_compute; reflexivity).
  destruct (@policy_reconcile_mode FakeWorld concrete_util concrete_util_laws fake_client
    fake_env noop_meter fake_laws noop_meter_laws sample_sub the_policy ready_world empty_result
    run.2 ready_deployment (run_fst _ _ _ Hrun)) as (p' & cfg & Hat & _ & _ & Hc & _ & _ & _ & Hm & _).
  - vm_compute. reflexivity.
  - reflexivity.
  - vm_compute. reflexivity.
  - exists p'. split; [exact Hat|]. apply (Hm [the_policy]).
    + pose proof ready_config_text as Ht. rewrite Hc in Ht. exact Ht.
    + intros q [->|[]%elem_of_nil]%elem_of_cons.
      split; [split; [reflexivity|discriminate]|discriminate].
    + apply (bool_decide_unpack _). vm_compute. exact I.
    + apply elem_of_cons. by left.
Defined.

(** The policy when it is being deleted. *)
Definition deleting (p : AdmissionPolicy) : AdmissionPolicy :=
  SetObjectMeta (om_set_DeletionTimestamp (Some 1%Z)
    (om_set_Finalizers [KubewardenFinalizer; "other"] (GetObjectMeta p))) p.
Definition deleting_world : FakeWorld :=
  fake_put KAdmissionPolicy (deleting settings_policy)
    (reconcile_any sample_sub the_policy ready_world).2.

Lemma policy_deletion_removes_webhook_witness :
  let p := PAdmissionPolicy (deleting settings_policy) in
  let run := reconcile_any sample_sub p deleting_world in
  going KMutatingWebhookConfiguration (webhook_key p) run.2 ∧
  is_Some (head (match get_webhook p deleting_world with inr c => wc_Webhooks c | inl _ => [] end)).
Proof.
  intros p run. split; [|vm_compute; by eexists].
  assert (run.1 = Ok empty_result) as Hrun by (vm_compute; reflexivity).
  destruct (@policy_deletion_removes_webhook FakeWorld concrete_util concrete_util_laws fake_client
    fake_env noop_meter fake_laws sample_sub p deleting_world (Ok empty_result)
    run.2 (run_fst _ _ _ Hrun)) as (_ & Hok).
  - vm_compute. reflexivity.
  - discriminate.
  - exact (proj1 (proj2 (Hok _ eq_refl))).
Defined.

Definition webhook_run : Outcome unit * FakeWorld :=
  reconcileMutatingWebhookConfiguration sample_sub the_policy ca_secret
    (NameWithPrefix full_server) ready_world.
Definition stored_webhook (k : Kind) (get : KObj k → WebhookConfiguration) (w : FakeWorld)
    : option WebhookConfiguration :=
  match fake_Get k (webhook_key the_policy) w with inr c => Some (get c) | inl _ => None end.
Definition mutating_webhook (w : FakeWorld) : option WebhookConfiguration :=
  stored_webhook KMutatingWebhookConfiguration (λ c, c) w.
End witnesses.
