(* ===== verification/PolicyWatches.v ===== *)
(** * The policy controllers: scope and watches

    The namespaces a policy's webhook applies to, the mode it is configured
    with, and the map functions of the watches, which lead a change of a pod,
    a ConfigMap or a webhook configuration back to the policies. *)

From S2P Require Import Prelude GoStd Json K8sTypes Concrete Constants PolicyTypes PolicyValidation PolicyServerTypes PolicyWebhook KubeClient FakeCluster ConfigMap Resources Deployment Certs CertController PolicyServerController Metrics PolicySubReconciler PolicyReconcile.

(** ** The namespaces a webhook applies to *)

(** The meaning of a label selector ([metav1.LabelSelector]) on the labels of
    a namespace; a missing selector selects everything. *)
Definition requirement_matches (labels : gmap string string) (q : LabelSelectorRequirement)
    : bool :=
  let v := labels !! lsr_Key q in
  if bool_decide (lsr_Operator q = "In") then
    match v with Some x => bool_decide (x ∈ lsr_Values q) | None => false end
  else if bool_decide (lsr_Operator q = "NotIn") then
    match v with Some x => bool_decide (x ∉ lsr_Values q) | None => true end
  else if bool_decide (lsr_Operator q = "Exists") then bool_decide (is_Some v)
  else if bool_decide (lsr_Operator q = "DoesNotExist") then bool_decide (v = None)
  else false.
Definition selector_matches (s : option LabelSelector) (labels : gmap string string) : bool :=
  match s with
  | None => true
  | Some s =>
      bool_decide (ls_MatchLabels s ⊆ labels) &&
      forallb (requirement_matches labels) (ls_MatchExpressions s)
  end.

(** The expressions of the policy's own selector. *)
Definition own_expressions (p : AnyPolicy) : list LabelSelectorRequirement :=
  match GetNamespaceSelector p with Some s => ls_MatchExpressions s | None => [] end.

(** (C23) The webhook of a policy is kept to the namespaces it is for: on a
    namespace (whose [kubernetes.io/metadata.name] label is its name), the
    webhook of a namespaced policy or group is selected exactly when it is the
    policy's own, and all its rules have the namespaced scope; the webhook of
    a cluster-wide one never is selected in the namespace of the policy
    servers, and elsewhere by the expressions of the policy's selector. *)
Theorem namespaceSelector_scope (r : policySubReconciler) (p : AnyPolicy)
    (labels : gmap string string) (ns : string) :
  labels !! namespace_label = Some ns →
  if is_namespaced_kind p then
    (selector_matches (namespaceSelector r p) labels = true ↔ ns = GetNamespace p) ∧
    Forall (λ q, r_Scope (rwo_Rule q) = Some NamespacedScope) (GetRules p)
  else
    selector_matches (namespaceSelector r p) labels = true ↔
    ns ≠ sub_deploymentsNamespace r ∧ forallb (requirement_matches labels) (own_expressions p) = true.
Proof.
  intros Hns. assert (∀ x, {[ namespace_label := x ]} ⊆ labels ↔ ns = x) as Hsub.
  { intros x. rewrite map_singleton_subseteq_l. naive_solver. }
  assert (bool_decide ((∅ : gmap string string) ⊆ labels) = true) as Hempty.
  { apply bool_decide_eq_true, map_empty_subseteq. }
  destruct p as [p|p|p|p]; cbn [is_namespaced_kind].
  1,2: split; [|by apply Forall_fmap, Forall_forall].
  1,2: unfold selector_matches; cbn; rewrite andb_true_r, bool_decide_eq_true; apply Hsub.
  all: unfold selector_matches, namespaceSelector; cbn [ls_MatchLabels ls_MatchExpressions forallb];
    rewrite Hempty, andb_true_l, andb_true_iff; unfold own_expressions;
    apply and_iff_compat_r; unfold requirement_matches at 1;
    cbn [lsr_Key lsr_Operator lsr_Values];
    change "kubernetes.io/metadata.name" with namespace_label; rewrite Hns;
    rewrite bool_decide_eq_false_2, bool_decide_eq_true_2 by done;
    rewrite bool_decide_eq_true, list_elem_of_singleton; done.
Qed.

(** ** Configuration and watches *)

Section watch_theorems.
Context {World : Type} `{K8sUtil, KubeClient World, MapRange}.

Lemma built_entry policies p :
  NoDup (GetUniqueName <$> policies) → p ∈ policies →
  buildPoliciesMap policies !! GetUniqueName p = Some (config_entry p).
Proof. intros Hnd Hp. by rewrite buildPoliciesMap_lookup, NoDup_filter_last. Qed.

Lemma config_entry_key p : ce_NamespacedName (config_entry p) = policy_key p.
Proof. by destruct p. Qed.
Lemma config_entry_mode p : ce_PolicyMode (config_entry p) = GetPolicyMode p.
Proof. by destruct p. Qed.

(** A policy whose server was configured since its last change reports
    its own mode: for a ConfigMap the policy server controller wrote for
    policies with distinct names that a server can evaluate, the mode in
    the status of each is the mode of its spec. *)
Theorem configured_mode_current (cfg : ConfigMap) (policies : list AnyPolicy) p :
  cm_Data cfg !! PolicyServerConfigPoliciesEntry = Some (policies_text policies) →
  (∀ q, q ∈ policies → policy_settings_ok q ∧ evaluable q) →
  NoDup (GetUniqueName <$> policies) → p ∈ policies →
  configured_mode cfg p = GetPolicyMode p.
Proof.
  intros Hd Hok Hnd Hp. unfold configured_mode.
  rewrite (getPolicyMap_built _ _ Hd Hok), built_entry by done. apply config_entry_mode.
Qed.

Lemma requests_of_map (f : string * policyServerConfigEntry → list Request)
    (P : NamespacedName → Prop) (g : NamespacedName → Request) policies q :
  (∀ name e, q ∈ f (name, e) ↔ P (ce_NamespacedName e) ∧ q = g (ce_NamespacedName e)) →
  NoDup (GetUniqueName <$> policies) →
  q ∈ collect f (map_range (buildPoliciesMap policies)) ↔
  ∃ p, p ∈ policies ∧ P (policy_key p) ∧ q = g (policy_key p).
Proof.
  intros Hf Hnd. unfold collect. rewrite list_elem_of_bind. split.
  - intros ([name e] & Hq%Hf & Hin%elem_of_map_range).
    apply buildPoliciesMap_elem in Hin as (p & Hp & _ & ->).
    rewrite config_entry_key in Hq. by exists p.
  - intros (p & Hp & HP). exists (GetUniqueName p, config_entry p). split.
    + apply Hf. by rewrite config_entry_key.
    + by apply elem_of_map_range, built_entry.
Qed.

Lemma policy_key_namespace p : nn_Namespace (policy_key p) = GetNamespace p.
Proof. by destruct p. Qed.
Lemma policy_key_cluster p :
  GetNamespace p = "" → mkNN "" (nn_Name (policy_key p)) = policy_key p.
Proof. rewrite <-policy_key_namespace. destruct (policy_key p). cbn. by intros ->. Qed.

(** (C25) A change of a pod of a policy server leads to a reconciliation of
    exactly the policies in that server's configuration. The configuration
    is a ConfigMap that can be read, that carries the server's label, and
    that the controller wrote for policies with distinct unique names each
    of which a server can evaluate and whose settings are marshalled as
    decoded (one that is not leaves no request at all, see
    [configmap_poisoned]). The cluster-wide controllers are then asked to
    reconcile each policy without a namespace, whether or not the pod is
    being deleted; the namespaced ones each policy with a namespace as long
    as the pod is not being deleted, and none once it is. *)
Theorem pod_watch_complete (w : World) (pod : Pod) (server : string) (cfg : ConfigMap)
    (policies : list AnyPolicy) (q : Request) :
  om_Labels (p_Meta pod) !! PolicyServerLabelKey = Some server →
  Get KConfigMap (mkNN (om_Namespace (p_Meta pod)) (policyServerDeploymentName server)) w
    = inr cfg →
  om_Labels (cm_Meta cfg) = {[ PolicyServerLabelKey := server ]} →
  cm_Data cfg !! PolicyServerConfigPoliciesEntry = Some (policies_text policies) →
  (∀ p, p ∈ policies → policy_settings_ok p ∧ evaluable p) →
  NoDup (GetUniqueName <$> policies) →
  (∀ f, f = AdmissionPolicyReconciler_findAdmissionPoliciesForPod ∨
        f = AdmissionPolicyGroupReconciler_findAdmissionPoliciesForPod →
     q ∈ f (OPod pod) w ↔
     om_DeletionTimestamp (p_Meta pod) = None ∧
     ∃ p, p ∈ policies ∧ GetNamespace p ≠ "" ∧ q = mkRequest (policy_key p)) ∧
  (∀ f, f = ClusterAdmissionPolicyReconciler_findClusterAdmissionPoliciesForPod ∨
        f = ClusterAdmissionPolicyGroupReconciler_findClusterAdmissionPoliciesForPod →
     q ∈ f (OPod pod) w ↔
     ∃ p, p ∈ policies ∧ GetNamespace p = "" ∧ q = mkRequest (policy_key p)).
Proof.
  intros Hl Hcfg Hcl Hd Hok Hnd.
  cut ((q ∈ findPoliciesForPod (OPod pod) w ↔ om_DeletionTimestamp (p_Meta pod) = None ∧
          ∃ p, p ∈ policies ∧ GetNamespace p ≠ "" ∧ q = mkRequest (policy_key p)) ∧
       (q ∈ findClusterPoliciesForPod (OPod pod) w ↔
          ∃ p, p ∈ policies ∧ GetNamespace p = "" ∧ q = mkRequest (policy_key p))).
  { intros [Hns Hc]. split; intros f [-> | ->]; assumption. }
  unfold findPoliciesForPod, findClusterPoliciesForPod. rewrite Hl, Hcfg.
  unfold findPoliciesForConfigMap, findClusterPoliciesForConfigMap.
  rewrite (getPolicyMap_built _ _ Hd Hok), Hcl, lookup_singleton_eq. split.
  - destruct (om_DeletionTimestamp (p_Meta pod));
      [by split; [intros ?%elem_of_nil | intros [? _]]|].
    unfold toAdmissionPolicyReconcileRequests.
    rewrite (requests_of_map _ (λ n, nn_Namespace n ≠ "") mkRequest); [|intros name e|done].
    + setoid_rewrite policy_key_namespace. by split; [|intros [_ ?]].
    + destruct (ce_NamespacedName e) as [ns n]. case_bool_decide; set_solver.
  - unfold toClusterAdmissionPolicyReconcileRequests.
    rewrite (requests_of_map _ (λ n, nn_Namespace n = "") (λ n, mkRequest (mkNN "" (nn_Name n))));
      [|intros name e; case_bool_decide; set_solver|done].
    setoid_rewrite policy_key_namespace. apply exist_proper. intros p.
    apply and_iff_compat_l. split; intros [Hn ->]; by rewrite policy_key_cluster.
Qed.
End watch_theorems.

(** The map function with which the controller of a kind watches the webhook
    configurations. *)
Definition webhook_map (p : AnyPolicy) : ObjectMeta → list Request :=
  match p with
  | PAdmissionPolicy _ => findAdmissionPolicyForWebhookConfiguration
  | PAdmissionPolicyGroup _ => AdmissionPolicyGroupReconciler_findAdmissionPolicyForWebhookConfiguration
  | PClusterAdmissionPolicy _ => findClusterAdmissionPolicyForWebhookConfiguration
  | PClusterAdmissionPolicyGroup _ =>
      ClusterAdmissionPolicyGroupReconciler_findClusterAdmissionPolicyForWebhookConfiguration
  end.
Lemma webhook_map_kind p m :
  webhook_map p m = if is_namespaced_kind p then findAdmissionPolicyForWebhookConfiguration m
                    else findClusterAdmissionPolicyForWebhookConfiguration m.
Proof. by destruct p. Qed.

Section webhook_watch.
Context {World : Type} `{KubeClient World}.

Lemma webhook_request (r : policySubReconciler) (p : AnyPolicy) (ps : PolicyServer)
    (secret : Secret) (w : World) (wc : WebhookConfiguration) :
  enforced r p ps secret w → get_webhook p w = inr wc → GetName p ≠ "" →
  (GetNamespace p ≠ "" ↔ is_namespaced_kind p = true) →
  webhook_map p (wc_Meta wc) = [mkRequest (policy_key p)].
Proof.
  intros (wc' & wh & Hget' & _ & _ & Hl & Ha) Hget Hname Hns. rewrite webhook_map_kind.
  assert (wc' = wc) as -> by congruence.
  assert (go_index WebhookConfigurationPolicyNameAnnotationKey (om_Annotations (wc_Meta wc))
          = GetName p) as Hn.
  { unfold go_index. by rewrite Ha, lookup_insert_eq. }
  assert (go_index WebhookConfigurationPolicyNamespaceAnnotationKey (om_Annotations (wc_Meta wc))
          = GetNamespace p) as Hn'.
  { unfold go_index. by rewrite Ha, lookup_insert_ne, lookup_singleton_eq. }
  unfold findAdmissionPolicyForWebhookConfiguration,
    findClusterAdmissionPolicyForWebhookConfiguration, hasKubewardenLabel.
  rewrite Hl, Hn, Hn', (bool_decide_eq_false_2 (GetName p = "")) by done.
  assert (go_index PartOfLabelKey {[PartOfLabelKey := PartOfLabelValue]} = PartOfLabelValue)
    as -> by (unfold go_index; by rewrite lookup_singleton_eq).
  rewrite (bool_decide_eq_true_2 (PartOfLabelValue = _)), orb_true_r by done. cbn [negb].
  destruct (is_namespaced_kind p) eqn:Hk.
  - rewrite bool_decide_eq_false_2 by naive_solver. by destruct p.
  - assert (GetNamespace p = "") as Hempty by (apply dec_stable; naive_solver).
    by rewrite <-(policy_key_cluster p Hempty); destruct p.
Qed.

(** (C26) A change of a policy's webhook configuration leads back to the
    policy: from the labels and annotations the controller stored, the map
    function of the policy's controllers computes the request for exactly
    that policy. *)
Theorem webhook_watch_round_trip (r : policySubReconciler) (p : AnyPolicy) (ps : PolicyServer)
    (secret : Secret) (w : World) (wc : WebhookConfiguration) :
  enforced r p ps secret w → get_webhook p w = inr wc → GetName p ≠ "" →
  (GetNamespace p ≠ "" ↔ is_namespaced_kind p = true) →
  webhook_map p (wc_Meta wc) = [mkRequest (policy_key p)].
Proof. apply webhook_request. Qed.
End webhook_watch.

(** ** Concrete runs *)

Section witnesses.
#[local] Existing Instance concrete_util.
#[local] Existing Instance concrete_range.
#[local] Existing Instance fake_client.
#[local] Existing Instance fake_env.
#[local] Existing Instance noop_meter.
#[local] Existing Instance concrete_retry.

(** A cluster-wide policy for the production namespaces. *)
Definition prod_policy : AnyPolicy :=
  PClusterAdmissionPolicy (mkClusterAdmissionPolicy
    (mkTypeMeta "policies.kubewarden.io/v1" "ClusterAdmissionPolicy") (named_meta "" "prod")
    (mkClusterAdmissionPolicySpec (ap_Spec settings_policy)
       (Some (mkLabelSelector {[ "environment" := "prod" ]} [])) [])
    (mkPolicyStatus "" "" [])).
Definition dev_labels : gmap string string :=
  {[ namespace_label := "dev"; "environment" := "dev" ]}.

Lemma namespaceSelector_scope_witness :
  selector_matches (namespaceSelector sample_sub the_policy) dev_labels = true ↔ "dev" = "ns".
Proof.
  exact (proj1 (namespaceSelector_scope sample_sub the_policy dev_labels "dev" eq_refl)).
Defined.

(** The labels of a cluster-wide policy's namespace selector are
    dropped: only its expressions are copied to the webhook. A policy for
    the namespaces labelled [environment: prod] applies to the others
    too. *)
Theorem match_labels_ignored :
  selector_matches (GetNamespaceSelector prod_policy) dev_labels = false ∧
  selector_matches (namespaceSelector sample_sub prod_policy) dev_labels = true.
Proof. vm_compute. split; reflexivity. Qed.

Lemma settings_policy_ok p :
  p ∈ [the_policy] → policy_settings_ok p ∧ evaluable p.
Proof.
  intros ->%list_elem_of_singleton. split; [split; [reflexivity|discriminate]|discriminate].
Qed.

Lemma configured_mode_current_witness :
  configured_mode ready_config the_policy = "protect".
Proof.
  apply (configured_mode_current ready_config [the_policy] the_policy).
  - vm_compute. reflexivity.
  - exact settings_policy_ok.
  - apply NoDup_singleton.
  - by left.
Defined.

Lemma pod_watch_complete_witness :
  mkRequest policy_ns_key
  ∈ AdmissionPolicyReconciler_findAdmissionPoliciesForPod (OPod (sample_pod "True")) ready_world.
Proof.
  apply (proj1 (@pod_watch_complete FakeWorld fake_client concrete_range ready_world
    (sample_pod "True") "default" ready_config [the_policy] (mkRequest policy_ns_key)
    eq_refl ltac:(vm_compute; reflexivity) ltac:(vm_compute; reflexivity)
    ltac:(vm_compute; reflexivity) settings_policy_ok (NoDup_singleton _)) _ (or_introl eq_refl)).
  split; [reflexivity|]. exists the_policy. split; [by left|]. split; [discriminate|reflexivity].
Defined.

Lemma webhook_watch_round_trip_witness :
  ∃ wc, get_webhook the_policy webhook_run.2 = inr wc ∧
    findAdmissionPolicyForWebhookConfiguration (wc_Meta wc) = [mkRequest policy_ns_key].
Proof.
  assert (webhook_run.1 = Ok tt) as Hrun by (vm_compute; reflexivity).
  assert (enforced sample_sub the_policy full_server ca_secret webhook_run.2) as Henf.
  { apply (@webhook_reconciled FakeWorld concrete_util fake_client fake_env fake_laws
             id id sample_sub the_policy full_server ca_secret ready_world).
    cbn [IsMutating the_policy]. apply wrap_err_Ok_inv. exact (run_fst _ _ _ Hrun). }
  destruct (get_webhook the_policy webhook_run.2) as [e|wc] eqn:Hget.
  - exfalso. destruct Henf as (wc & wh & Hg & _).
    pose proof (eq_trans (eq_sym Hget) Hg) as Habs. discriminate Habs.
  - exists wc. split; [reflexivity|].
    exact (webhook_watch_round_trip sample_sub the_policy full_server ca_secret webhook_run.2 wc
      Henf Hget ltac:(discriminate) ltac:(by split)).
Defined.

End witnesses.
