(* ===== verification/Lifecycle.v ===== *)
(** * The life of a policy

    The status of a policy is documented as a state machine: unscheduled,
    scheduled, pending, active. [lifecycle] is that machine, and the
    reconciliation of a policy refines it on every outcome, errors included.
    [step] interleaves the reconciliations of every controller with whatever
    else happens in the cluster. The last part is about what no reconciliation
    of a policy touches: the webhook configuration of the kind it had before
    its field [mutating] was changed. *)

From S2P Require Import Prelude GoStd Json K8sTypes Concrete Constants PolicyTypes PolicyValidation PolicyServerTypes PolicyWebhook KubeClient FakeCluster ConfigMap Resources Deployment Certs CertController PolicyServerController Metrics PolicySubReconciler PolicyReconcile.

(** ** The machine *)

(** What a reconciliation finds in the cluster. *)
Record Facts := mkFacts {
  f_scheduled : Prop;   (* the policy names a policy server *)
  f_server : Prop;      (* that server was found *)
  f_reachable : Prop;   (* the policy is uniquely reachable on it, and can be enforced *)
}.

Inductive lifecycle (f : Facts) : string → string → Prop :=
| lc_keep s : lifecycle f s s
| lc_unscheduled s : ¬ f_scheduled f → lifecycle f s PolicyStatusUnscheduled
| lc_scheduled s : f_scheduled f → ¬ f_server f → lifecycle f s PolicyStatusScheduled
| lc_pending s :
    f_scheduled f → f_server f → s ≠ PolicyStatusActive → lifecycle f s PolicyStatusPending
| lc_active s :
    f_scheduled f → f_server f → f_reachable f → lifecycle f s PolicyStatusActive.

Section refinement.
Context {World : Type} `{K8sUtil, !K8sUtilLaws, KubeClient World, Environment World,
  Meter World, !KubeClientLaws World, !MeterLaws World}.
Implicit Types (w : World) (p : AnyPolicy) (r : policySubReconciler).

#[local] Instance same_but_preorder k key : PreOrder (@same_but World _ k key).
Proof.
  split; [by intros w k' key' _|]. intros w1 w2 w3 H12 H23 k' key' Hne.
  by rewrite H23, H12.
Qed.

(** The facts of the machine, in a cluster. *)
Definition facts r p w : Facts := {|
  f_scheduled := GetPolicyServer p ≠ "";
  f_server := ∃ ps, Get KPolicyServer (mkNN "" (GetPolicyServer p)) w = inr ps;
  f_reachable := ∃ ps secret, activatable r p w ps secret;
|}.

Definition status_of p : string := st_PolicyStatus (GetStatus p).

Lemma within_webhook_reconciled g g' r p secret name :
  within (same_but (webhook_kind p) (webhook_key p))
    (if IsMutating p then wrap_err g (reconcileMutatingWebhookConfiguration r p secret name)
     else wrap_err g' (reconcileValidatingWebhookConfiguration r p secret name) : M World unit).
Proof.
  unfold webhook_kind, reconcileMutatingWebhookConfiguration,
    reconcileValidatingWebhookConfiguration.
  destruct (IsMutating p); (apply within_wrap, within_bind; [apply _| |intros; apply within_ret; apply _]);
    apply within_wrap, CreateOrPatch_frame; try apply _; try done;
    intros o; apply within_ret; apply _.
Qed.

(** What an attempt on a scheduled policy may have done to the world and the
    local copy, wherever it stopped. *)
Definition attempted (r : policySubReconciler) w p (st : World * AnyPolicy) : Prop :=
  restatus p st.2 ∧ same_but (webhook_kind p) (webhook_key p) w st.1 ∧
  (status_of st.2 = status_of p ∨
   status_of st.2 = PolicyStatusActive ∧
     ∃ ps secret, activatable r p w ps secret ∧ enforced r p ps secret st.1).

Lemma reconcileScheduledPolicy_ends r ps p w :
  GetPolicyServer p ≠ "" → Get KPolicyServer (mkNN "" (GetPolicyServer p)) w = inr ps →
  ends (reconcileScheduledPolicy r ps) (attempted r w p) (w, p).
Proof.
  intros Hname Hps. unfold reconcileScheduledPolicy.
  assert (attempted r w p (w, p)) as Hstart by (split_and!; [apply restatus_refl|done|by left]).
  assert (∀ c t, attempted r w p (w, add_condition c t p)) as Hcond.
  { intros c t. split_and!; [apply restatus_condition, restatus_refl|done|left].
    unfold status_of. cbn [snd]. apply status_add. }
  apply ends_bind; [by apply ends_try, ends_read|]. intros res s1 Hrun. inv_local Hrun.
  destruct res as [e|d]; inv_local Hrun; subst.
  { by destruct (IsNotFound e). }
  apply ends_bind; [by apply ends_with_local|]. intros reach s2 Hrun'. inv_local Hrun'. subst.
  destruct (isPolicyUniquelyReachable d (GetUniqueName p) w) eqn:Hreach; cbn [negb].
  2:{ apply ends_bind; [apply ends_set_local_now, Hcond|]. intros [] s3 Hrun'. inv_local Hrun'. subst.
      apply ends_ret, Hcond. }
  apply ends_bind; [apply ends_set_local_now, Hcond|]. intros [] s3 Hrun. inv_local Hrun. subst.
  match goal with |- context [add_condition ?c ?t p] => specialize (Hcond c t);
    set (q := add_condition c t p) in *;
    assert (restatus p q) as Hq by apply restatus_condition, restatus_refl end.
  apply ends_bind; [by apply ends_wrap, (ends_read (λ _, Get KSecret _))|].
  intros secret s4 Hrun. inv_local Hrun. subst.
  destruct (restatus_keys r p q Hq) as (_ & _ & Hk3 & Hk4).
  assert (∀ w', same_but (webhook_kind p) (webhook_key p) w w' → attempted r w p (w', q)) as Hweb.
  { intros w' Hs. destruct Hcond as (? & _ & [?|[? _]]); split_and!; try done; [by left|].
    left. unfold q, status_of in *. cbn [snd] in *. by rewrite status_add. }
  apply ends_bind.
  { eapply ends_with_local, ends_within; [apply within_webhook_reconciled|].
    rewrite Hk3, Hk4. exact Hweb. }
  intros [] s5 Hrun. inv_local Hrun. subst.
  match goal with Hw : (if IsMutating q then _ else _) _ = (_, ?w2) |- _ =>
    apply webhook_reconciled in Hw as [Hsame Henf]; rename w2 into w' end.
  rewrite Hk3, Hk4 in Hsame. apply (enforced_restatus r ps secret _ _ _ Hq) in Henf.
  assert (attempted r w p (w', setPolicyAsActive (now_seconds w') q)) as Hdone.
  { split_and!; [by apply restatus_set, restatus_set|done|right].
    unfold status_of, setPolicyAsActive. cbn [fst snd]. rewrite status_add, status_SetStatus.
    split; [done|]. exists ps, secret. split; [|done]. unfold activatable. eauto 10. }
  apply ends_bind; [by apply ends_set_local_now|]. intros [] s6 Hrun. inv_local Hrun. by subst.
Qed.

(** What a reconciliation may have done before the status was written. *)
Definition advanced (r : policySubReconciler) w p (st : World * AnyPolicy) : Prop :=
  restatus p st.2 ∧ same_but (webhook_kind p) (webhook_key p) w st.1 ∧
  lifecycle (facts r p w) (status_of p) (status_of st.2) ∧
  (status_of st.2 = PolicyStatusActive → status_of p = PolicyStatusActive ∨
     ∃ ps secret, activatable r p w ps secret ∧ enforced r p ps secret st.1).

Lemma advanced_status r w p q s :
  restatus p q → lifecycle (facts r p w) (status_of p) s → s ≠ PolicyStatusActive →
  advanced r w p (w, SetStatus s q).
Proof.
  intros Hq Hl Hs. unfold advanced, status_of. cbn [fst snd]. rewrite status_SetStatus.
  split_and!; [by apply restatus_set|done|done|done].
Qed.

(** A policy whose server was found, from a local copy that is at most
    pending. *)
Lemma scheduled_advanced r ps p q w :
  GetPolicyServer p ≠ "" → Get KPolicyServer (mkNN "" (GetPolicyServer p)) w = inr ps →
  restatus p q → lifecycle (facts r p w) (status_of p) (status_of q) →
  (status_of q = PolicyStatusActive → status_of p = PolicyStatusActive) →
  ends (reconcileScheduledPolicy r ps) (advanced r w p) (w, q).
Proof.
  intros Hname Hps Hq Hl Hact.
  assert (GetPolicyServer q = GetPolicyServer p) as Hq'
    by (apply (restatus_same GetPolicyServer); [apply server_set_status|done]).
  eapply ends_mono; [apply reconcileScheduledPolicy_ends; by rewrite Hq'|].
  intros [w1 p1] (Hr1 & Hs1 & Hor). cbn [fst snd] in *.
  destruct (restatus_keys r p q Hq) as (_ & _ & Hk3 & Hk4). rewrite Hk3, Hk4 in Hs1.
  unfold advanced. cbn [fst snd]. split; [by eapply restatus_trans|]. split; [done|].
  destruct Hor as [->|(-> & ps' & secret & Ha & Henf)].
  - split; [done|left; auto].
  - apply (activatable_restatus _ _ _ _ _ _ Hq) in Ha. apply (enforced_restatus _ _ _ _ _ _ Hq) in Henf.
    split; [apply lc_active; [done|by exists ps|by exists ps', secret]|]. right. eauto.
Qed.

Lemma reconcilePolicy_ends r p w : ends (reconcilePolicy r) (advanced r w p) (w, p).
Proof.
  unfold reconcilePolicy.
  match goal with |- context [add_condition ?c] => set (t := now_seconds w);
    pose proof (restatus_condition c t p p (restatus_refl p)) as Hr0;
    pose proof (status_add c t p) as Hs0; set (p0 := add_condition c t p) in * end.
  assert (∀ q, restatus p q → status_of q = status_of p → advanced r w p (w, q)) as Hkeep.
  { intros q Hq Hs. unfold advanced. cbn [fst snd]. rewrite Hs.
    split_and!; [done|done|constructor|by left]. }
  apply ends_bind; [by apply ends_set_local_now, Hkeep|]. intros [] s1 Hrun. inv_local Hrun. subst.
  fold t p0. apply ends_bind; [by apply ends_with_local, ends_ret, Hkeep|].
  intros name s2 Hrun. inv_local Hrun. subst. fold p0.
  assert (GetPolicyServer p0 = GetPolicyServer p) as ->.
  { apply (restatus_same GetPolicyServer); [apply server_set_status|done]. }
  case_bool_decide as Hname.
  { apply ends_bind; [apply ends_set_local|intros [] s3 Hrun; inv_local Hrun; subst; apply ends_ret];
      (apply advanced_status; [done|by apply lc_unscheduled; intros []|done]). }
  apply ends_bind.
  { apply ends_try, ends_with_local. unfold getPolicyServer.
    apply ends_wrap, (ends_within eq); [apply within_read; apply _|intros s' <-; by apply Hkeep]. }
  intros res s3 Hrun. inv_local Hrun. destruct res as [e|ps]; inv_local Hrun; subst.
  all: match goal with Hg : getPolicyServer _ _ = _ |- _ =>
         apply getPolicyServer_inv in Hg as [-> Hps] end;
    assert (GetPolicyServer p0 = GetPolicyServer p) as Hsrv
      by (apply (restatus_same GetPolicyServer); [apply server_set_status|done]);
    rewrite Hsrv in Hps.
  { destruct Hps as [e' Hps].
    assert (¬ f_server (facts r p w)) as Hno by (intros [ps' ?]; congruence).
    apply ends_bind; [apply ends_set_local|intros [] s3 Hrun; inv_local Hrun; subst; apply ends_ret];
      (apply advanced_status; [done|by apply lc_scheduled|done]). }
  set (q := if bool_decide (st_PolicyStatus (GetStatus p0) = PolicyStatusActive) then p0
            else SetStatus PolicyStatusPending p0).
  assert (restatus p q ∧ lifecycle (facts r p w) (status_of p) (status_of q) ∧
          (status_of q = PolicyStatusActive → status_of p = PolicyStatusActive))
    as (Hq & Hl & Hact).
  { unfold q. case_bool_decide as Ha.
    - split; [done|]. unfold status_of. rewrite Hs0. split; [constructor|done].
    - split; [by apply restatus_set|]. unfold status_of. rewrite status_SetStatus.
      split; [apply lc_pending; [done|by exists ps|congruence]|done]. }
  apply ends_bind; [apply ends_set_local; split_and!; [done|done|done|left; auto]|].
  intros [] s4 Hrun. inv_local Hrun. subst. fold q.
  by apply scheduled_advanced.
Qed.

(** ** A reconciliation, on every outcome *)

(** The policy of an object of a policy's kind. *)
Definition of_kind p : KObj (PKind p) → AnyPolicy :=
  match p with
  | PAdmissionPolicy _ => PAdmissionPolicy
  | PAdmissionPolicyGroup _ => PAdmissionPolicyGroup
  | PClusterAdmissionPolicy _ => PClusterAdmissionPolicy
  | PClusterAdmissionPolicyGroup _ => PClusterAdmissionPolicyGroup
  end.
Lemma of_kind_spec p (o : KObj (PKind p)) :
  PKind (of_kind p o) = PKind p ∧ policy_key (of_kind p o) = kkey (PKind p) o ∧
  ∀ w, policy_at w (of_kind p o) ↔ Get (PKind p) (kkey (PKind p) o) w = inr o.
Proof. by destruct p. Qed.
Lemma of_kind_status p (o o' : KObj (PKind p)) :
  status_stored (PKind p) o o' → GetStatus (of_kind p o') = GetStatus (of_kind p o).
Proof. by destruct p. Qed.
Lemma of_kind_self p : of_kind p (projT2 (policy_kind p)) = p.
Proof. by destruct p. Qed.

(** A stored policy with the kind and the key of another. *)
Lemma policy_at_kind p w q :
  policy_at w q → PKind q = PKind p → policy_key q = policy_key p →
  ∃ o, q = of_kind p o ∧ Get (PKind p) (policy_key p) w = inr o.
Proof.
  unfold policy_at. intros Hat Hk Hkey. rewrite Hkey in Hat. clear Hkey. revert Hat.
  destruct p as [p|p|p|p], q as [q|q|q|q]; try discriminate Hk; cbn [policy_kind projT1 projT2];
    intros Hat; by exists q.
Qed.

(** A policy with the status it had before. *)
Definition known w (q : AnyPolicy) : Prop :=
  ∃ q0, policy_at w q0 ∧ PKind q0 = PKind q ∧ policy_key q0 = policy_key q ∧
    status_of q0 = status_of q.

(** Where the status of a policy may come from after the reconciliation of
    [p]. *)
Definition explained r p w w' (q : AnyPolicy) : Prop :=
  known w q ∨
  PKind q = PKind p ∧ policy_key q = policy_key p ∧
  lifecycle (facts r p w) (status_of p) (status_of q) ∧
  (status_of q = PolicyStatusActive → status_of p = PolicyStatusActive ∨
     ∃ ps secret, activatable r p w ps secret ∧ enforced r p ps secret w').

Lemma known_refl w q : policy_at w q → known w q.
Proof. intros Hq. by exists q. Qed.
Lemma known_frame k key w w' q :
  same_but k key w w' → (PKind q, policy_key q) ≠ (k, key) → policy_at w' q → known w q.
Proof. intros Hs Hne Hat. apply known_refl. unfold policy_at in *. by rewrite <-Hs. Qed.
Lemma known_trans w w1 q : (∀ q, policy_at w1 q → known w q) → known w1 q → known w q.
Proof.
  intros Hw (q1 & (q0 & Hat & Hk & Hkey & Hst)%Hw & Hk1 & Hkey1 & Hst1). exists q0.
  by rewrite Hk, Hkey, Hst.
Qed.
Lemma same_policy_at w w' q : same_objects w w' → policy_at w' q → policy_at w q.
Proof. unfold policy_at. intros Hs. by rewrite Hs. Qed.
Lemma explained_same r p w w1 w2 q :
  same_objects w1 w2 → explained r p w w1 q → explained r p w w2 q.
Proof.
  intros Hs [?|(? & ? & ? & Ha)]; [by left|right]. split_and!; try done.
  intros [?|(ps & secret & ? & Henf)]%Ha; [by left|right]. exists ps, secret. split; [done|].
  eapply enforced_frame; [|exact Henf]. intros k key _. apply Hs.
Qed.
Lemma known_webhook p w w' q :
  same_but (webhook_kind p) (webhook_key p) w w' → policy_at w' q → known w q.
Proof.
  intros Hs Hat. eapply known_frame; [exact Hs| |exact Hat].
  unfold webhook_kind. destruct q, (IsMutating p); done.
Qed.

Lemma policy_call_end (f : ∀ k, KObj k → World → (GoError + KObj k) * World) p w :
  snd (policy_call f p w) = snd (f (PKind p) (projT2 (policy_kind p)) w).
Proof.
  destruct p; cbn [policy_call policy_kind projT1 projT2]; unfold mbind, M_mbind, M_bind, call;
    by destruct (f _ _ w) as [[] ?].
Qed.

(** What a write of [p] that only touches [p] leaves: every other policy, and
    an object with the status [p] had or one allowed by [P]. *)
Lemma written_known p w w' q (P : KObj (PKind p) → Prop) :
  same_but (PKind p) (policy_key p) w w' →
  (∀ o', Get (PKind p) (policy_key p) w' = inr o' →
     ∃ old, Get (PKind p) (policy_key p) w = inr old ∧ (status_stored (PKind p) old o' ∨ P o')) →
  policy_at w' q →
  known w q ∨ PKind q = PKind p ∧ policy_key q = policy_key p ∧ ∃ o', q = of_kind p o' ∧ P o'.
Proof.
  intros Hframe Hst Hat.
  destruct (decide ((PKind q, policy_key q) = (PKind p, policy_key p))) as [Heq|Hne];
    [|left; by eapply known_frame].
  pose proof (f_equal fst Heq) as Hk. pose proof (f_equal snd Heq) as Hkey. cbn [fst snd] in *.
  destruct (policy_at_kind p w' q Hat Hk Hkey) as (o' & -> & Hget).
  destruct (Hst o' Hget) as (old & Hold & [Hs%of_kind_status|HP]); [left|right; eauto].
  exists (of_kind p old). destruct (of_kind_spec p old) as (Hk0 & Hkey0 & Hat0).
  rewrite Hat0, Hk0, Hkey0, (Get_key _ _ _ _ Hold). unfold status_of. by rewrite Hs.
Qed.

Lemma policy_status_call p w q :
  policy_at (snd (policy_call StatusUpdate p w)) q →
  known w q ∨ PKind q = PKind p ∧ policy_key q = policy_key p ∧ status_of q = status_of p.
Proof.
  rewrite policy_call_end. intros Hat.
  apply (written_known p w _ q (status_stored (PKind p) (projT2 (policy_kind p)))) in Hat
    as [?|(? & ? & o' & -> & Hs)]; [by left|right|apply StatusUpdate_frame|apply StatusUpdate_status].
  split_and!; [done|done|]. unfold status_of. by rewrite (of_kind_status _ _ _ Hs), of_kind_self.
Qed.

Lemma policy_update_call p w q : policy_at (snd (policy_call Update p w)) q → known w q.
Proof.
  rewrite policy_call_end. intros Hat.
  apply (written_known p w _ q (λ _, False)) in Hat as [?|(_ & _ & o' & _ & [])];
    [done|apply Update_frame|].
  intros o' Hg. apply Update_status in Hg as (old & Ho & Hs). eauto.
Qed.

Lemma RecordPolicyCount_within p : within same_objects (RecordPolicyCount p : M World unit).
Proof.
  unfold RecordPolicyCount. apply within_bind; [apply _| |intros _].
  - apply within_wrap, within_call. apply Int64Counter_same.
  - intros w. apply Add_same.
Qed.

Lemma setPolicyModeStatus_world r p w : ends (setPolicyModeStatus r) (λ st, st.1 = w) (w, p).
Proof.
  unfold setPolicyModeStatus.
  apply ends_bind; [by apply ends_try, ends_read|]. intros res s1 Hrun. inv_local Hrun.
  destruct res as [e|d]; inv_local Hrun; subst.
  { by destruct (IsNotFound e). }
  apply ends_bind; [by apply ends_wrap, (ends_read (λ policy, Get KConfigMap _))|].
  intros cfg s2 Hrun. inv_local Hrun. subst. done.
Qed.

(** Writing the status of a local copy that is advanced. *)
Lemma written_explained r p p2 w st q :
  advanced r w p st → restatus p p2 → status_of p2 = status_of st.2 →
  let w2 := snd (policy_call StatusUpdate p2 st.1) in
  policy_at w2 q → explained r p w w2 q.
Proof.
  destruct st as [w1 p1]. intros (_ & Hs1 & Hl1 & Ha1) [s Hp2] Hs2 w2 Hq. cbn [fst snd] in *.
  destruct (policy_status_call _ _ _ Hq) as [Hkn|(Hk & Hkey & Hst)].
  - left. by eapply known_trans, Hkn; intros q0; eapply known_webhook.
  - right. assert (status_of q = status_of p1) as -> by (by rewrite Hst).
    rewrite Hp2, kind_set_status in Hk. rewrite Hp2, key_set_status in Hkey.
    split_and!; [done|done|done|]. intros [?|(ps & secret & Ha & Henf)]%Ha1; [by left|right].
    exists ps, secret. split; [done|]. eapply enforced_frame; [|exact Henf].
    assert (same_but (PKind p2) (policy_key p2) w1 w2) as Hf
      by (unfold w2; rewrite policy_call_end; apply StatusUpdate_frame).
    by rewrite Hp2, kind_set_status, key_set_status in Hf.
Qed.

(** What the live branch leaves, wherever it stops. *)
Lemma live_explained r p w q :
  GetDeletionTimestamp p = None → policy_at w p →
  ends (policySubReconciler_reconcile r) (λ st, policy_at st.1 q → explained r p w st.1 q) (w, p).
Proof.
  intros Hdel Hat. unfold policySubReconciler_reconcile.
  apply ends_bind.
  { apply ends_with_local, ends_ret. intros Hq. left. by apply known_refl. }
  intros ts s1 Hrun. inv_local Hrun. subst. rewrite Hdel.
  apply ends_bind.
  { eapply ends_mono; [apply ends_try, reconcilePolicy_ends|]. intros [w1 p1] (_ & Hs & _) Hq.
    left. by eapply known_webhook. }
  intros res [w1 p1] Hrun.
  pose proof (reconcilePolicy_ends r p w : advanced r w p _) as Hadv.
  assert (advanced r w p (w1, p1)) as Hadv1.
  { inv_local Hrun. destruct res; by rewrite Hrun in Hadv. }
  clear Hadv. destruct (Hadv1) as (Hr1 & Hs1 & _). cbn [fst snd] in *.
  apply ends_bind.
  { apply ends_wrap. eapply ends_mono; [apply setPolicyModeStatus_world|].
    intros [w2 p2] Hw Hq. cbn [fst] in *. subst w2. left. by eapply known_webhook. }
  intros [] st2 Hrun2. inv_local Hrun2. apply setPolicyModeStatus_inv in Hrun2
    as (p2 & -> & Hr2 & Hs2 & _).
  assert (restatus p p2) as [s Hp2] by eauto using restatus_trans.
  set (w2 := snd (policy_call StatusUpdate p2 w1)).
  assert (policy_at w2 q → explained r p w w2 q) as Hmain
    by (apply (written_explained r p p2 w (w1, p1)); eauto using restatus_trans).
  assert (∀ p3, ends (wrap_err (ErrWrap "failed to record policy mestrics")
      (with_local (λ policy : AnyPolicy, RecordPolicyCount policy)))
      (λ st, policy_at st.1 q → explained r p w st.1 q) (w2, p3)) as Hrec.
  { intros p3. eapply ends_wrap, ends_with_local, ends_within; [apply RecordPolicyCount_within|].
    intros w3 Hs Hq. by eapply explained_same, Hmain, same_policy_at. }
  apply ends_bind.
  { apply ends_wrap, ends_update_local. intros o w2' Hc. cbn [fst].
    assert (w2' = w2) as -> by (unfold w2; by rewrite Hc). exact Hmain. }
  intros [] [w2' p3] Hup. inv_local Hup.
  match goal with Hc : policy_call _ _ _ = (_, ?x), Hu : _ = (?x, _) |- _ =>
    injection Hu as -> ->; assert (x = w2) as -> by (unfold w2; by rewrite Hc) end.
  apply ends_bind; [apply Hrec|]. intros [] st4 Hr.
  assert (policy_at st4.1 q → explained r p w st4.1 q) as Hend.
  { match type of Hr with _ (_, ?x) = _ => pose proof (Hrec x) as He end. unfold ends in He.
    by rewrite Hr in He. }
  by destruct res.
Qed.

(** What the deletion branch leaves: no new status. *)
Lemma deletion_known r p w q :
  GetDeletionTimestamp p ≠ None →
  ends (policySubReconciler_reconcile r) (λ st, policy_at st.1 q → known w q) (w, p).
Proof.
  intros Hdel. unfold policySubReconciler_reconcile.
  apply ends_bind; [by apply ends_with_local, ends_ret, known_refl|].
  intros ts s1 Hrun. inv_local Hrun. subst.
  destruct (GetDeletionTimestamp p) as [t|]; [|done]. unfold reconcilePolicyDeletion.
  assert (ends (with_local (λ policy, if IsMutating policy
      then reconcileMutatingWebhookConfigurationDeletion policy
      else reconcileValidatingWebhookConfigurationDeletion policy))
    (λ st, same_but (webhook_kind p) (webhook_key p) w st.1 ∧ st.2 = p) (w, p)) as Hweb.
  { apply ends_with_local. unfold webhook_kind.
    destruct (IsMutating p); (eapply ends_mono; [apply delete_webhook_ends|done]). }
  apply ends_bind.
  { eapply ends_mono; [exact Hweb|]. intros st [Hs _] Hq. by eapply (known_webhook p). }
  intros [] [w1 p1] Hrun. unfold ends in Hweb. rewrite Hrun in Hweb. destruct Hweb as [Hs Hp].
  cbn [snd fst] in Hs, Hp. subst p1.
  assert (policy_at w1 q → known w q) as Hq1 by (by apply (known_webhook p)).
  apply ends_bind; [by apply ends_set_local|]. intros [] s2 Hrun2. inv_local Hrun2. subst.
  apply ends_bind; [by apply ends_set_local|]. intros [] s3 Hrun3. inv_local Hrun3. subst.
  match goal with |- ends _ _ (w1, ?p') => set (p2 := p') end.
  assert (ends (wrap_err (ErrWrap "cannot update admission policy")
      (update_local (policy_call Update)))
    (λ st, policy_at st.1 q → known w q) (w1, p2)) as Hup.
  { apply ends_wrap, ends_update_local. intros o w2 Hc Hq. cbn [fst] in Hq.
    apply (known_trans w w1); [intros q'; by apply (known_webhook p)|].
    apply (policy_update_call p2). by rewrite Hc. }
  apply ends_bind; [exact Hup|]. intros [] st Hr. unfold ends in Hup. rewrite Hr in Hup.
  by apply ends_ret.
Qed.

Lemma reconcile_explained r p w o w' q :
  reconcile_any r p w = (o, w') → policy_at w p → policy_at w' q → explained r p w w' q.
Proof.
  intros Hrun Hat Hq. destruct (reconcile_any_run _ _ _ _ _ Hat Hrun) as [pl Hsub].
  destruct (decide (GetDeletionTimestamp p = None)) as [Hdel|Hdel].
  - pose proof (live_explained r p w q Hdel Hat) as He. unfold ends in He.
    rewrite Hsub in He. by apply He.
  - pose proof (deletion_known r p w q Hdel) as He. unfold ends in He.
    rewrite Hsub in He. left. by apply He.
Qed.

(** (C2) The controllers refine the machine: from every cluster and with
    every outcome of the reconciliation of a policy, errors included, a
    policy of the cluster has the status it had before; or it is the
    reconciled one, its status took one step of [lifecycle] on what was found
    in the cluster, and if it became active, its webhook configuration is in
    place. *)
Theorem reconcile_refines_lifecycle r p w o w' q :
  reconcile_any r p w = (o, w') → policy_at w p → policy_at w' q →
  known w q ∨
  PKind q = PKind p ∧ policy_key q = policy_key p ∧
  lifecycle (facts r p w) (status_of p) (status_of q) ∧
  (status_of q = PolicyStatusActive → status_of p = PolicyStatusActive ∨
     ∃ ps secret, activatable r p w ps secret ∧ enforced r p ps secret w').
Proof. apply reconcile_explained. Qed.
End refinement.

(** ** What a reconciliation writes *)

Section written.
Context {World : Type} `{K8sUtil, !K8sUtilLaws, KubeClient World, Environment World,
  Meter World, !KubeClientLaws World, !MeterLaws World}.
Implicit Types (w : World) (p : AnyPolicy) (r : policySubReconciler).

(** Every object reads the same but the policy and its webhook
    configuration. *)
Definition only_written p w w' : Prop :=
  ∀ k key, (k, key) ≠ (webhook_kind p, webhook_key p) → (k, key) ≠ (PKind p, policy_key p) →
    Get k key w' = Get k key w.

Lemma only_written_webhook p w w' :
  same_but (webhook_kind p) (webhook_key p) w w' → only_written p w w'.
Proof. intros Hs k key Hw _. by apply Hs. Qed.
Lemma only_written_policy p w w1 w2 :
  only_written p w w1 → same_but (PKind p) (policy_key p) w1 w2 → only_written p w w2.
Proof. intros Hw1 Hs k key Hw Hp. by rewrite Hs, Hw1. Qed.
Lemma only_written_same p w w1 w2 :
  only_written p w w1 → same_objects w1 w2 → only_written p w w2.
Proof. intros Hw1 Hs k key Hw Hp. by rewrite Hs, Hw1. Qed.

Lemma policy_call_frame (f : ∀ k, KObj k → World → (GoError + KObj k) * World) p w :
  (∀ k o w, same_but k (kkey k o) w (snd (f k o w))) →
  same_but (PKind p) (policy_key p) w (snd (policy_call f p w)).
Proof. intros Hf. rewrite policy_call_end. apply Hf. Qed.

Lemma live_written r p w :
  GetDeletionTimestamp p = None →
  ends (policySubReconciler_reconcile r) (λ st, only_written p w st.1) (w, p).
Proof.
  intros Hdel. unfold policySubReconciler_reconcile.
  apply ends_bind; [by apply ends_with_local, ends_ret|].
  intros ts s1 Hrun. inv_local Hrun. subst. rewrite Hdel.
  pose proof (reconcilePolicy_ends r p w : advanced r w p _) as Hadv.
  apply ends_bind.
  { eapply ends_mono; [apply ends_try, reconcilePolicy_ends|]. intros st (_ & Hs & _).
    by apply only_written_webhook. }
  intros res [w1 p1] Hrun.
  assert (advanced r w p (w1, p1)) as (Hr1 & Hs1 & _).
  { inv_local Hrun. destruct res; by rewrite Hrun in Hadv. }
  apply only_written_webhook in Hs1. cbn [fst snd] in *.
  apply ends_bind.
  { apply ends_wrap. eapply ends_mono; [apply setPolicyModeStatus_world|]. by intros st ->. }
  intros [] st2 Hrun2. inv_local Hrun2. apply setPolicyModeStatus_inv in Hrun2
    as (p2 & -> & Hr2 & _).
  assert (restatus p p2) as [s Hp2] by eauto using restatus_trans.
  pose proof (policy_call_frame StatusUpdate p2 w1 StatusUpdate_frame) as Hs2.
  rewrite Hp2, kind_set_status, key_set_status, <-Hp2 in Hs2.
  set (w2 := snd (policy_call StatusUpdate p2 w1)) in *.
  assert (only_written p w w2) as Hw2 by (by eapply only_written_policy).
  assert (∀ p3, ends (wrap_err (ErrWrap "failed to record policy mestrics")
      (with_local (λ policy : AnyPolicy, RecordPolicyCount policy)))
      (λ st, only_written p w st.1) (w2, p3)) as Hrec.
  { intros p3. eapply ends_wrap, ends_with_local, ends_within; [apply RecordPolicyCount_within|].
    intros w3. by apply only_written_same. }
  apply ends_bind.
  { apply ends_wrap, ends_update_local. intros o w2' Hc. unfold w2 in Hw2. by rewrite Hc in Hw2. }
  intros [] [w2' p3] Hup. inv_local Hup.
  match goal with Hc : policy_call _ _ _ = (_, ?x), Hu : _ = (?x, _) |- _ =>
    injection Hu as -> ->; assert (x = w2) as -> by (unfold w2; by rewrite Hc) end.
  apply ends_bind; [apply Hrec|]. intros [] st4 Hr.
  match type of Hr with _ (_, ?x) = _ => pose proof (Hrec x) as He end. unfold ends in He.
  rewrite Hr in He. by destruct res.
Qed.

Lemma deletion_written r p w :
  GetDeletionTimestamp p ≠ None →
  ends (policySubReconciler_reconcile r) (λ st, only_written p w st.1) (w, p).
Proof.
  intros Hdel. unfold policySubReconciler_reconcile.
  apply ends_bind; [by apply ends_with_local, ends_ret|].
  intros ts s1 Hrun. inv_local Hrun. subst.
  destruct (GetDeletionTimestamp p) as [t|]; [|done]. unfold reconcilePolicyDeletion.
  assert (ends (with_local (λ policy, if IsMutating policy
      then reconcileMutatingWebhookConfigurationDeletion policy
      else reconcileValidatingWebhookConfigurationDeletion policy))
    (λ st, only_written p w st.1) (w, p)) as Hweb.
  { apply ends_with_local. unfold only_written, webhook_kind.
    destruct (IsMutating p); (eapply ends_mono; [apply delete_webhook_ends|]);
      intros w1 Hs k key Hk _; by apply Hs. }
  apply ends_bind; [exact Hweb|]. intros [] [w1 p1] Hrun.
  assert (p1 = p) as -> by (by inv_local Hrun; simplify_eq).
  unfold ends in Hweb. rewrite Hrun in Hweb. cbn [snd fst] in Hweb.
  apply ends_bind; [by apply ends_set_local|]. intros [] s2 Hrun2. inv_local Hrun2. subst.
  apply ends_bind; [by apply ends_set_local|]. intros [] s3 Hrun3. inv_local Hrun3. subst.
  match goal with |- ends _ _ (w1, ?p') => set (p2 := p') end.
  pose proof (policy_call_frame Update p2 w1 Update_frame) as Hs2.
  assert (PKind p2 = PKind p ∧ policy_key p2 = policy_key p) as [Hk Hkey] by (by destruct p).
  rewrite Hk, Hkey in Hs2.
  assert (ends (wrap_err (ErrWrap "cannot update admission policy")
      (update_local (policy_call Update))) (λ st, only_written p w st.1) (w1, p2)) as Hup.
  { apply ends_wrap, ends_update_local. intros o w2 Hc. rewrite Hc in Hs2.
    by eapply only_written_policy. }
  apply ends_bind; [exact Hup|]. intros [] st Hr. unfold ends in Hup. rewrite Hr in Hup.
  by apply ends_ret.
Qed.

(** A reconciliation, whatever its outcome, writes nothing else. *)
Lemma reconcile_any_written r p w o w' :
  reconcile_any r p w = (o, w') → policy_at w p → only_written p w w'.
Proof.
  intros Hrun Hat. destruct (reconcile_any_run _ _ _ _ _ Hat Hrun) as [pl Hsub].
  destruct (decide (GetDeletionTimestamp p = None)) as [Hdel|Hdel].
  - pose proof (live_written r p w Hdel) as He. unfold ends in He. by rewrite Hsub in He.
  - pose proof (deletion_written r p w Hdel) as He. unfold ends in He. by rewrite Hsub in He.
Qed.

(** *** Changing [spec.mutating] *)

Definition spec_with_mutating (b : bool) (sp : PolicySpec) : PolicySpec :=
  mkPolicySpec (sp_PolicyServer sp) (sp_Mode sp) (sp_Module sp) (sp_Settings sp) (sp_Rules sp)
    (sp_FailurePolicy sp) b (sp_BackgroundAudit sp) (sp_MatchPolicy sp)
    (sp_MatchConditions sp) (sp_ObjectSelector sp) (sp_SideEffects sp) (sp_TimeoutSeconds sp).
(** The policy with another value of the field (groups do not have it). *)
Definition with_mutating (b : bool) p : AnyPolicy :=
  match p with
  | PAdmissionPolicy p => PAdmissionPolicy
      (mkAdmissionPolicy (ap_TypeMeta p) (ap_ObjectMeta p) (spec_with_mutating b (ap_Spec p))
         (ap_Status p))
  | PClusterAdmissionPolicy p => PClusterAdmissionPolicy
      (mkClusterAdmissionPolicy (cap_TypeMeta p) (cap_ObjectMeta p)
         (mkClusterAdmissionPolicySpec (spec_with_mutating b (caps_PolicySpec (cap_Spec p)))
            (caps_NamespaceSelector (cap_Spec p)) (caps_ContextAwareResources (cap_Spec p)))
         (cap_Status p))
  | p => p
  end.

(** What may happen in the cluster while the policies of this unique name have
    this value of the field: the reconciliation of any policy that has it,
    live or being deleted, with any outcome; and whatever changes no webhook
    configuration. *)
Inductive while_mutating r (b : bool) : World → World → Prop :=
| wm_reconcile q w o w' :
    policy_at w q → IsMutating q = b → reconcile_any r q w = (o, w') → while_mutating r b w w'
| wm_other w w' :
    (∀ k key, k = KValidatingWebhookConfiguration ∨ k = KMutatingWebhookConfiguration →
       Get k key w' = Get k key w) → while_mutating r b w w'.

Lemma while_mutating_keeps r b p w w' :
  while_mutating r b w w' → IsMutating p ≠ b →
  ∀ key, Get (webhook_kind p) key w' = Get (webhook_kind p) key w.
Proof.
  intros [q ? o ? Hat Hb Hrun|? ? Hkeep] Hp key.
  - apply (reconcile_any_written _ _ _ _ _ Hrun Hat); unfold webhook_kind;
      [|by destruct q, (IsMutating p)].
    intros Hk%(f_equal fst). cbn [fst] in Hk. destruct (IsMutating p), (IsMutating q); congruence.
  - apply Hkeep. unfold webhook_kind. destruct (IsMutating p); auto.
Qed.

(** (C35) Changing [spec.mutating] of a policy leaves its old webhook
    configuration behind. For every policy that is not a group and whose rules
    and match conditions pass: the update that flips the field is admitted,
    and gives the policy a webhook configuration of the other kind under the
    same name. From then on, whatever is reconciled while the field has its
    new value, any number of times, live or being deleted (the policy itself
    may be gone at the end), with any outcome, the old webhook configuration
    is as it was. *)
Theorem stale_webhook_after_mutating_change `{CelCompiler, MapRange} r b p w w' :
  as_PolicyGroup p = None → IsMutating p ≠ b → policy_ValidateCreate p = None →
  rtc (while_mutating r b) w w' →
  let q := with_mutating b p in
  policy_ValidateUpdate p q = None ∧
  PKind q = PKind p ∧ policy_key q = policy_key p ∧ IsMutating q = b ∧
  webhook_key q = webhook_key p ∧ webhook_kind q ≠ webhook_kind p ∧
  Get (webhook_kind p) (webhook_key p) w' = Get (webhook_kind p) (webhook_key p) w.
Proof.
  intros Hg Hb Hc Hsteps q.
  assert (IsMutating q = b) as Hq by (by destruct p).
  split_and!; try by destruct p.
  - rewrite ValidateUpdate_None, validatePolicyUpdate_nil. rewrite ValidateCreate_None in Hc.
    unfold q. destruct p; [|done| |done]; (split; [done|]); (split; [|exact (proj2 Hc)]);
      (split; [exact (proj1 Hc)|]); (split; [done|]); intros [Ho Hn]; cbn in Ho, Hn; congruence.
  - unfold webhook_kind. rewrite Hq. destruct (IsMutating p), b; congruence.
  - clear Hc. induction Hsteps as [|w w1 w2 Hstep _ IH]; [done|].
    by rewrite IH, (while_mutating_keeps _ _ _ _ _ Hstep).
Qed.
End written.

(** ** The other controllers

    They write no policy but to delete it: none of their steps, whatever its
    outcome, gives a policy another status. *)

Definition keeps {World} `{KubeClient World} (w w' : World) : Prop :=
  ∀ q, policy_at w' q → known w q.

Definition not_policy (k : Kind) : Prop := ∀ p, PKind p ≠ k.
#[export] Hint Extern 1 (not_policy _) => (by intros []) : go.

Section others.
Context {World : Type} `{K8sUtil, !K8sUtilLaws, KubeClient World, Environment World,
  !KubeClientLaws World}.
Implicit Types (w : World) (p : AnyPolicy).

#[export] Instance keeps_preorder : PreOrder (@keeps World _).
Proof.
  split; [intros w q; apply known_refl|]. intros w1 w2 w3 H12 H23 q Hq%H23.
  by eapply known_trans.
Qed.

Lemma keeps_frame k key w w' : not_policy k → same_but k key w w' → keeps w w'.
Proof. intros Hk Hs q. eapply known_frame; [exact Hs|]. intros [= Hq]. by apply (Hk q). Qed.
Lemma keeps_same w w' : same_objects w w' → keeps w w'.
Proof. intros Hs q Hq. by eapply known_refl, same_policy_at. Qed.

Lemma keeps_now : within keeps (now (W := World)).
Proof.
  intros w. apply keeps_same. unfold now. destruct (Now w) as [t w'] eqn:Hn. by eapply Now_same.
Qed.
Lemma keeps_RandInt b : within keeps (call (W := World) (RandInt b)).
Proof. intros w. apply keeps_same, within_RandInt_same. Qed.
Lemma keeps_GenerateKey : within keeps (call (W := World) GenerateKey).
Proof. intros w. apply keeps_same, within_GenerateKey_same. Qed.
Lemma keeps_Update k o : not_policy k → within keeps (call (W := World) (Update k o)).
Proof. intros Hk. apply within_call. intros w. by eapply keeps_frame, Update_frame. Qed.
Lemma keeps_StatusUpdate k o : not_policy k → within keeps (call (W := World) (StatusUpdate k o)).
Proof. intros Hk. apply within_call. intros w. by eapply keeps_frame, StatusUpdate_frame. Qed.
Lemma keeps_Patch k orig o : not_policy k → within keeps (call (W := World) (Patch k orig o)).
Proof. intros Hk. apply within_call. intros w. by eapply keeps_frame, Patch_frame. Qed.
Lemma keeps_Delete k o : not_policy k → within keeps (call (W := World) (Delete k o)).
Proof. intros Hk. apply within_call. intros w. by eapply keeps_frame, Delete_frame. Qed.
Lemma keeps_CreateOrPatch k init f :
  not_policy k → (∀ o, within keeps (f o)) → within keeps (CreateOrPatch (World := World) k init f).
Proof.
  intros Hk Hf. apply CreateOrPatch_frame; [apply _| |done].
  intros w w'. by apply keeps_frame.
Qed.
Lemma keeps_delete_policy p : within keeps (delete_policy (World := World) p).
Proof.
  apply within_call. intros w q Hat.
  apply (written_known p w _ q (λ _, False)) in Hat as [?|(_ & _ & o' & _ & [])];
    [done|apply (Delete_frame (PKind p))|].
  intros o' Hg. apply (Delete_status (PKind p)) in Hg as (old & Ho & Hs). eauto.
Qed.
Lemma keeps_modify (f : World → World) : (∀ w, keeps w (f w)) → within keeps (modify f).
Proof. done. Qed.
End others.
#[export] Hint Resolve keeps_preorder keeps_now keeps_RandInt keeps_GenerateKey keeps_Update
  keeps_StatusUpdate keeps_Patch keeps_Delete keeps_CreateOrPatch keeps_delete_policy : go.

Section other_controllers.
Context {World : Type} `{K8sUtil, !K8sUtilLaws, KubeClient World, Environment World,
  !KubeClientLaws World}.
Implicit Types (w : World) (p : AnyPolicy).

Lemma keeps_GenerateCert ca k nb na dns : within (keeps (World := World)) (GenerateCert ca k nb na dns).
Proof. unfold GenerateCert, lift_sum, first_block. solve_within. Qed.
Lemma keeps_GenerateCA nb na : within (keeps (World := World)) (GenerateCA nb na).
Proof. unfold GenerateCA, lift_sum. solve_within. Qed.
#[local] Hint Resolve keeps_GenerateCert keeps_GenerateCA : go.

Lemma keeps_ConfigMap r ps policies :
  within keeps (reconcilePolicyServerConfigMap (World := World) r ps policies).
Proof.
  unfold reconcilePolicyServerConfigMap. solve_within.
  apply keeps_CreateOrPatch; [by auto with go|]. intros o. unfold updateConfigMapData. solve_within.
Qed.
Lemma keeps_set_owner msg ps m : within keeps (set_owner (World := World) msg ps m).
Proof. unfold set_owner. solve_within. Qed.
#[local] Hint Resolve keeps_set_owner : go.

Lemma keeps_PDB r ps : within keeps (reconcilePolicyServerPodDisruptionBudget (World := World) r ps).
Proof.
  unfold reconcilePolicyServerPodDisruptionBudget, deletePodDisruptionBudget,
    reconcilePodDisruptionBudget.
  solve_within; apply keeps_CreateOrPatch; try (by auto with go); intros o;
    unfold updatePodDisruptionBudget; solve_within.
Qed.
Lemma keeps_Deployment r ps : within keeps (reconcilePolicyServerDeployment (World := World) r ps).
Proof.
  unfold reconcilePolicyServerDeployment, policyServerConfigMapVersion. solve_within.
  apply keeps_CreateOrPatch; [by auto with go|]. intros o.
  unfold updatePolicyServerDeployment, configureMutualTLS. solve_within.
Qed.
Lemma keeps_getMetricsPort : within (keeps (World := World)) getMetricsPort.
Proof. intros w. unfold getMetricsPort. repeat case_match; reflexivity. Qed.
#[local] Hint Resolve keeps_getMetricsPort : go.
Lemma keeps_Service r ps : within keeps (reconcilePolicyServerService (World := World) r ps).
Proof.
  unfold reconcilePolicyServerService. solve_within.
  apply keeps_CreateOrPatch; [by auto with go|]. intros o. unfold updateService. solve_within.
Qed.
Lemma keeps_CertSecret r :
  within (on_world keeps) (reconcilePolicyServerCertSecret (World := World) r).
Proof.
  unfold reconcilePolicyServerCertSecret. solve_within; try apply within_with_local;
    try (apply within_set_local_now, _); intros ps; [solve_within|].
  apply keeps_CreateOrPatch; [by auto with go|]. intros o. unfold updateCertSecret, lift_sum.
  solve_within.
Qed.

Lemma keeps_recorded t msg (step : PolicyServer → M World unit) :
  (∀ ps, within keeps (step ps)) → within (on_world keeps) (recorded t msg step).
Proof.
  intros Hs. unfold recorded. solve_within; try (apply within_set_local_now, _).
  by apply within_with_local.
Qed.

Lemma keeps_reconcile_resources r policies :
  within (on_world keeps) (reconcile_resources (World := World) r policies).
Proof.
  unfold reconcile_resources.
  repeat (apply within_bind; [apply _|first [apply keeps_CertSecret|apply keeps_recorded; intros ps]|intros []]);
    [apply keeps_ConfigMap|apply keeps_PDB|apply keeps_Deployment|apply keeps_Service|].
  apply within_with_local. intros ps. solve_within.
Qed.

Lemma keeps_reconcileDeletion ps policies :
  within keeps (reconcileDeletion (World := World) ps policies).
Proof.
  unfold reconcileDeletion, deletePoliciesAndRequeue. solve_within.
  match goal with |- within _ (delete_loop ?l) => generalize l; intros l' end.
  induction l' as [|p l' IH]; cbn [delete_loop]; solve_within.
Qed.

Lemma keeps_server r req w : keeps w (snd (PolicyServerReconciler_Reconcile r req w)).
Proof.
  unfold PolicyServerReconciler_Reconcile.
  destruct (Get KPolicyServer _ w) as [e|ps]; [done|].
  pose proof (getPolicies_pure ps w) as Hpure.
  destruct (getPolicies ps w) as [[policies|e|e|e] w1]; cbn [snd] in Hpure; subst w1; try done.
  destruct (om_DeletionTimestamp _); [apply keeps_reconcileDeletion|].
  pose proof (keeps_reconcile_resources r policies (w, ps)) as Hk.
  by destruct (reconcile_resources r policies (w, ps)) as [o [w2 ps2]].
Qed.

Context `{Retry World, !RetryLaws World}.

Lemma keeps_retried_patch k o inj :
  not_policy k → within keeps (RetryOnConflict (call (W := World) (Patch k o inj) ;; mret tt)).
Proof. intros Hk. apply RetryOnConflict_within; [apply _|]. solve_within. Qed.
#[local] Hint Resolve keeps_retried_patch : go.
Lemma keeps_webhooks b : within (keeps (World := World)) (reconcileWebhookConfigurations b).
Proof. unfold reconcileWebhookConfigurations. solve_within. Qed.
#[local] Hint Resolve keeps_webhooks : go.
Lemma keeps_serverCert s caS dns : within (keeps (World := World)) (reconcileServerCert s caS dns).
Proof. unfold reconcileServerCert, rotateServerCert, lift_sum. solve_within. Qed.
#[local] Hint Resolve keeps_serverCert : go.
Lemma keeps_CARoot s : within (keeps (World := World)) (reconcileCARoot s).
Proof. unfold reconcileCARoot, rotateCARoot, lift_sum. solve_within. Qed.
Lemma keeps_OldCARoot s : within (keeps (World := World)) (reconcileOldCARoot s).
Proof. unfold reconcileOldCARoot, lift_sum. solve_within. Qed.
#[local] Hint Resolve keeps_CARoot keeps_OldCARoot : go.
Lemma keeps_cert r : within (keeps (World := World)) (certReconciler_reconcile r).
Proof. unfold certReconciler_reconcile, reconcileServerCerts. solve_within. Qed.
End other_controllers.

(** ** Interleavings *)

Section steps.
Context {World : Type} `{K8sUtil, !K8sUtilLaws, KubeClient World, Environment World,
  Meter World, Retry World, !KubeClientLaws World, !MeterLaws World, !RetryLaws World}.
Variables (r : policySubReconciler) (rs : PolicyServerReconciler) (rc : CertReconciler).
Implicit Types (w : World) (p : AnyPolicy).

(** What anything but the controllers may do to policies: users write their
    metadata and spec, and create them with a status of their own, but not
    one that is active. *)
Definition others w w' : Prop :=
  ∀ q, policy_at w' q → known w q ∨ status_of q ≠ PolicyStatusActive.

(** A run of one of the controllers, with any outcome, or anything else. *)
Inductive step : relation World :=
| step_policy p o w w' : policy_at w p → reconcile_any r p w = (o, w') → step w w'
| step_server req o w w' : PolicyServerReconciler_Reconcile rs req w = (o, w') → step w w'
| step_cert o w w' : certReconciler_reconcile rc w = (o, w') → step w w'
| step_other w w' : others w w' → step w w'.

(** A reconciliation that made a policy active, between [w] and [w']. *)
Definition activated w (q : AnyPolicy) w' : Prop :=
  ∃ w1 p o w2 ps secret, rtc step w w1 ∧ policy_at w1 p ∧ reconcile_any r p w1 = (o, w2) ∧
    PKind p = PKind q ∧ policy_key p = policy_key q ∧
    activatable r p w1 ps secret ∧ enforced r p ps secret w2 ∧ rtc step w2 w'.

Definition was_active w (q : AnyPolicy) : Prop :=
  ∃ p, policy_at w p ∧ PKind p = PKind q ∧ policy_key p = policy_key q ∧
    status_of p = PolicyStatusActive.

Lemma activated_step w q q' w1 w2 :
  activated w q' w1 → PKind q' = PKind q → policy_key q' = policy_key q → step w1 w2 →
  activated w q w2.
Proof.
  intros (v1 & p & o & v2 & ps & secret & Hr & Hat & Hrec & Hk & Hkey & Ha & Henf & Hr2) Hk' Hkey' Hs.
  exists v1, p, o, v2, ps, secret. rewrite <-Hk', <-Hkey'. split_and!; try done.
  by eapply rtc_r.
Qed.
Lemma was_active_known w q q' :
  was_active w q' → PKind q' = PKind q → policy_key q' = policy_key q → was_active w q.
Proof. intros (p & ? & Hk & Hkey & ?) Hk' Hkey'. exists p. by rewrite <-Hk', <-Hkey'. Qed.

Lemma reachable_active w w' :
  rtc step w w' → ∀ q, policy_at w' q → status_of q = PolicyStatusActive →
  was_active w q ∨ activated w q w'.
Proof.
  revert w'. apply (rtc_ind_r (λ w', ∀ q, policy_at w' q → status_of q = PolicyStatusActive →
    was_active w q ∨ activated w q w')).
  { intros q Hat Hact. left. by exists q. }
  intros w1 w2 Hr Hs IH q Hat Hact.
  assert (∀ q', policy_at w1 q' → PKind q' = PKind q → policy_key q' = policy_key q →
    status_of q' = PolicyStatusActive → was_active w q ∨ activated w q w2) as Hold.
  { intros q' Hat' Hk Hkey Hact'. destruct (IH q' Hat' Hact') as [Hw|Ha];
      [left; by eapply was_active_known|right; by eapply activated_step]. }
  assert (known w1 q → was_active w q ∨ activated w q w2) as Hkn.
  { intros (q0 & Hat0 & Hk & Hkey & Hst). eapply Hold; [exact Hat0|done|done|congruence]. }
  inversion Hs as [p o ? ? Hp Hrec|req o ? ? Hrec|o ? ? Hrec|? ? Ho]; subst.
  - destruct (reconcile_explained _ _ _ _ _ _ Hrec Hp Hat) as [?|(Hk & Hkey & _ & Hcase)]; [auto|].
    destruct (Hcase Hact) as [Hp'|(ps & secret & Ha & Henf)]; [by eapply Hold|].
    right. exists w1, p, o, w2, ps, secret. by split_and!.
  - apply Hkn. pose proof (keeps_server rs req w1) as Hk. rewrite Hrec in Hk. by apply Hk.
  - apply Hkn. pose proof (keeps_cert rc w1) as Hk. rewrite Hrec in Hk. by apply Hk.
  - destruct (Ho q Hat); [auto|done].
Qed.

(** (C3) However the controllers' reconciliations, of any policy, server or
    certificate and with any outcome, interleave with other changes to the
    cluster: a policy that is active at the end was active at the start, or
    was made active by a reconciliation in between, which found its server,
    found every request to reach a pod that runs the policy's current
    configuration, and left its webhook configuration in the cluster. *)
Theorem active_was_enforced w w' q :
  rtc step w w' → policy_at w' q → status_of q = PolicyStatusActive →
  was_active w q ∨
  ∃ w1 p o w2 ps secret d, rtc step w w1 ∧ policy_at w1 p ∧
    reconcile_any r p w1 = (o, w2) ∧ PKind p = PKind q ∧ policy_key p = policy_key q ∧
    Get KPolicyServer (mkNN "" (GetPolicyServer p)) w1 = inr ps ∧
    Get KDeployment (deployment_key r p) w1 = inr d ∧
    uniquely_reachable d (GetUniqueName p) w1 ∧ enforced r p ps secret w2 ∧ rtc step w2 w'.
Proof.
  intros Hr Hat Hact. destruct (reachable_active _ _ Hr q Hat Hact) as [?|Ha]; [by left|right].
  destruct Ha as (w1 & p & o & w2 & ps & secret & Hr1 & Hp & Hrec & Hk & Hkey
    & (Hn & Hps & (d & Hd & Hreach) & _) & Henf & Hr2).
  exists w1, p, o, w2, ps, secret, d. split_and!; try done. by apply reachable_sound.
Qed.
End steps.

(** ** Concrete runs *)

Section witnesses.
#[local] Existing Instance concrete_util.
#[local] Existing Instance concrete_range.
#[local] Existing Instance fake_client.
#[local] Existing Instance fake_env.
#[local] Existing Instance noop_meter.
#[local] Existing Instance concrete_retry.

(** The policy as the reconciliation of [ready_world] stores it. *)
Definition activated_world : FakeWorld := (reconcile_any sample_sub the_policy ready_world).2.
Definition activated_policy : AnyPolicy :=
  match fake_Get KAdmissionPolicy policy_ns_key activated_world with
  | inr p => PAdmissionPolicy p
  | inl _ => the_policy
  end.

Lemma activated_run :
  reconcile_any sample_sub the_policy ready_world
  = ((reconcile_any sample_sub the_policy ready_world).1, activated_world).
Proof. unfold activated_world. by destruct (reconcile_any _ _ _). Qed.

Lemma reconcile_refines_lifecycle_witness :
  status_of activated_policy = PolicyStatusActive ∧
  explained sample_sub the_policy ready_world activated_world activated_policy.
Proof.
  split; [vm_compute; reflexivity|].
  exact (@reconcile_refines_lifecycle FakeWorld concrete_util concrete_util_laws fake_client
    fake_env noop_meter fake_laws noop_meter_laws sample_sub the_policy ready_world _ _
    activated_policy activated_run ltac:(vm_compute; reflexivity)
    ltac:(vm_compute; reflexivity)).
Defined.

Lemma active_was_enforced_witness :
  was_active ready_world activated_policy ∨
  ∃ w1 p d, policy_at w1 p ∧ uniquely_reachable d (GetUniqueName p) w1.
Proof.
  destruct (@active_was_enforced FakeWorld concrete_util concrete_util_laws fake_client
    fake_env noop_meter concrete_retry fake_laws noop_meter_laws concrete_retry_laws
    sample_sub full_reconciler sample_cert_reconciler ready_world activated_world activated_policy)
    as [Ha|(w1 & p & o & w2 & ps & secret & d & _ & Hp & _ & _ & _ & _ & _ & Hu & _)].
  - apply rtc_once. eapply step_policy; [|exact activated_run]. vm_compute. reflexivity.
  - vm_compute. reflexivity.
  - vm_compute. reflexivity.
  - left. exact Ha.
  - right. exists w1, p, d. split; assumption.
Defined.

(** A policy that is validating, then mutating, then deleted. *)
Definition validating_policy : AnyPolicy := with_mutating false the_policy.
Definition validating_world : FakeWorld :=
  match with_mutating false the_policy with
  | PAdmissionPolicy p => (reconcile_any sample_sub validating_policy
                             (rolled_out "True" (reconciled_world [p]))).2
  | _ => ready_world
  end.
Definition flipped_policy : AdmissionPolicy := deleting settings_policy.
Definition flipped_world : FakeWorld := fake_put KAdmissionPolicy flipped_policy validating_world.
Definition removed_world : FakeWorld :=
  (reconcile_any sample_sub (PAdmissionPolicy flipped_policy) flipped_world).2.

Lemma flipped_run :
  reconcile_any sample_sub (PAdmissionPolicy flipped_policy) flipped_world
  = ((reconcile_any sample_sub (PAdmissionPolicy flipped_policy) flipped_world).1, removed_world).
Proof. unfold removed_world. by destruct (reconcile_any _ _ _). Qed.

Lemma stale_webhook_after_mutating_change_witness :
  Get KValidatingWebhookConfiguration (webhook_key validating_policy) removed_world
  = Get KValidatingWebhookConfiguration (webhook_key validating_policy) validating_world ∧
  match Get KValidatingWebhookConfiguration (webhook_key validating_policy) validating_world with
  | inr _ => true | inl _ => false end = true.
Proof.
  split; [|vm_compute; reflexivity].
  apply (@stale_webhook_after_mutating_change FakeWorld concrete_util concrete_util_laws fake_client
    fake_env noop_meter fake_laws noop_meter_laws concrete_cel concrete_range sample_sub true
    validating_policy validating_world removed_world).
  - reflexivity.
  - discriminate.
  - vm_compute. reflexivity.
  - eapply rtc_l.
    + apply (wm_other _ _ validating_world flipped_world). intros k key [->| ->];
        apply fake_put_same_but; discriminate.
    + apply rtc_once. eapply (wm_reconcile _ _ (PAdmissionPolicy flipped_policy));
        [|reflexivity|exact flipped_run].
      vm_compute. reflexivity.
Defined.
End witnesses.
