(* ===== verification/Stability.v ===== *)
(** * Policy servers come to rest

    A controller runs again whenever anything it watches changes, and its own
    writes are such changes: the loop comes to rest only if a run that finds
    nothing to do writes nothing. The first part is about the pieces, writes
    that ask for what is stored; the second about the policy server
    controller. [PolicyStability] and [CertStability] are about the others. *)

From S2P Require Import Prelude GoStd Json K8sTypes Concrete Constants PolicyTypes PolicyServerTypes PolicyWebhook KubeClient FakeCluster ConfigMap Resources Deployment Certs CertController PolicyServerController Metrics PolicySubReconciler PolicyReconcile Lifecycle.

(** ** Writes that ask for what is stored *)

(** Neither the cluster nor the environment of the process changed. *)
Definition quiet {World} `{KubeClient World, Environment World} : relation World :=
  λ w w', same_objects w w' ∧ same_env w w'.
#[export] Instance quiet_preorder {World} `{KubeClient World, Environment World} :
  PreOrder (@quiet World _ _).
Proof.
  split; [by split|]. intros w1 w2 w3 [Ho1 He1] [Ho2 He2].
  split; [by trans w2|by trans w2].
Qed.

Section writes.
Context {World : Type} `{K8sUtil, !K8sUtilLaws, KubeClient World, Environment World,
  !KubeClientLaws World, !QuietLaws World}.
Implicit Types (w : World).

(** A write that succeeded, done again on what it stored: when the mutate
    function asks for the same, or for what is stored, nothing changes. *)
Lemma CreateOrPatch_quiet k init f f2 w w' o' w2 :
  CreateOrPatch k init f w = (Ok o', w') →
  Get k (kkey k init) w2 = Get k (kkey k init) w' → (∀ o, within same_env (f2 o)) →
  (∀ base o w1, f base w = (Ok o, w1) → stored k o o' →
     ∃ o2, (o2 = o ∨ o2 = o') ∧ f2 o' w2 = (Ok (kset_meta k (kmeta k o') o2), w2)) →
  calm quiet (λ _ _, True) (CreateOrPatch k init f2) w2.
Proof.
  intros Hrun Hsame Henv Hf.
  apply CreateOrPatch_answers in Hrun as (base & o & w1 & _ & Hb & _ & Hst & Ha & Hg & _).
  rewrite Hg in Hsame. destruct (Hf base o w1 Hb Hst) as (o2 & Ho2 & Hf2).
  assert (answered k o2 o') as Ha2 by (destruct Ho2 as [->| ->]; [done|by eapply answered_self]).
  destruct (CreateOrPatch_again k init f2 w2 w2 o2 o' Hsame Ha2 Hf2) as (r & w3 & Hrun & Hs & Hr);
    [done|].
  apply (calm_run quiet _ _ r w3); [done| |by destruct Hr as [->|[e ->]]].
  split; [done|]. by apply (within_run _ _ _ _ _ (CreateOrPatch_env k init f2 Henv) Hrun).
Qed.
Lemma CreateOrPatch_calm g k init f f2 w w' o' w2 :
  CreateOrPatch k init f w = (Ok o', w') →
  Get k (kkey k init) w2 = Get k (kkey k init) w' → (∀ o, within same_env (f2 o)) →
  (∀ base o w1, f base w = (Ok o, w1) → stored k o o' →
     ∃ o2, (o2 = o ∨ o2 = o') ∧ f2 o' w2 = (Ok (kset_meta k (kmeta k o') o2), w2)) →
  calm quiet (λ _ _, True) (wrap_err g (CreateOrPatch k init f2) ;; mret tt) w2.
Proof.
  intros Hrun Hsame Henv Hf. apply (calm_bind quiet _ _ (λ _ _, True)); [|by intros; split].
  by eapply calm_wrap, CreateOrPatch_quiet.
Qed.

Lemma set_owner_again msg ps m w m1 w1 m' w2 :
  set_owner msg ps m w = (Ok m1, w1) → om_OwnerReferences m' = om_OwnerReferences m1 →
  set_owner msg ps m' w2 = (Ok m', w2).
Proof.
  unfold set_owner. destruct (SetOwnerReference _ (om_OwnerReferences m)) as [e|owners] eqn:Ho;
    [done|].
  intros [= <- _] Heq. cbn in Heq. rewrite Heq, (SetOwnerReference_again _ _ _ Ho).
  destruct m'; cbn in *. by subst.
Qed.
End writes.

(** What was stored of the metadata, field by field. *)
Ltac stored_fields Hm :=
  let Hn := fresh "Hn" in let Hns := fresh "Hns" in let Hl := fresh "Hl" in
  let Han := fresh "Han" in let Ho := fresh "Ho" in
  destruct Hm as (Hn & Hns & Hl & Han & _ & Ho);
  cbn [om_Name om_Namespace om_Labels om_Annotations om_OwnerReferences om_set_Name
       om_set_Namespace om_set_Labels om_set_Annotations om_set_OwnerReferences
       s_Meta svc_Meta pdb_Meta cm_Meta d_Meta d_set_Meta wc_Meta] in Hn, Hns, Hl, Han, Ho.

(** Setting a field of the metadata to what it is. *)
Lemma om_set_Name_same m : om_set_Name (om_Name m) m = m.
Proof. by destruct m. Qed.
Lemma om_set_Namespace_same m : om_set_Namespace (om_Namespace m) m = m.
Proof. by destruct m. Qed.
Lemma om_set_Labels_same m : om_set_Labels (om_Labels m) m = m.
Proof. by destruct m. Qed.
Lemma om_set_Annotations_same m : om_set_Annotations (om_Annotations m) m = m.
Proof. by destruct m. Qed.

(** ** A policy server *)

Section server.
Context {World : Type} `{K8sUtil, !K8sUtilLaws, KubeClient World, Environment World,
  !KubeClientLaws World, !QuietLaws World}.
Implicit Types (w : World) (r : PolicyServerReconciler) (ps : PolicyServer).

Lemma getMetricsPort_env w w2 p w1 :
  getMetricsPort w = (Ok p, w1) → same_env w w2 → getMetricsPort w2 = (Ok p, w2) ∧ w1 = w.
Proof.
  unfold getMetricsPort. intros Hrun He. rewrite He.
  case_bool_decide; [|by simplify_eq]. destruct (ParseInt32 _); by simplify_eq.
Qed.

Lemma ports_env (b : bool) (g : Z → list ServicePort) l w w1 w2 ports :
  (if b then m ← getMetricsPort; mret (g m) else mret l) w = (Ok ports, w1) → same_env w w2 →
  (if b then m ← getMetricsPort; mret (g m) else mret l) w2 = (Ok ports, w2) ∧ w1 = w.
Proof.
  intros Hp He. destruct b; [|inv_run Hp; by subst].
  apply bind_Ok_inv in Hp as (m & w0 & Hm & Hp). inv_run Hp. subst.
  destruct (getMetricsPort_env _ _ _ _ Hm He) as [Hm2 ->]. split; [|done].
  apply bind_Ok_inv. by exists m, w2.
Qed.

(** A mutate function applied to what was stored for it. *)
Lemma updateService_again r base ps w o w1 svc w2 :
  updateService r base ps w = (Ok o, w1) → meta_stored (svc_Meta o) (svc_Meta svc) →
  same_env w w2 →
  updateService r svc ps w2 = (Ok (kset_meta KService (svc_Meta svc) o), w2) ∧ w1 = w.
Proof.
  unfold updateService. intros Hf Hm He.
  apply bind_Ok_inv in Hf as (ports & w0 & Hp & Hf).
  destruct (ports_env _ _ _ _ _ _ _ Hp He) as [Hp2 ->].
  inv_run Hf. subst. pose proof (set_owner_inv _ _ _ _ _ _ Hrun) as [-> [owners ->]].
  stored_fields Hm. split; [|done]. apply bind_Ok_inv. exists ports, w2. split; [exact Hp2|].
  rewrite <-Hl, <-Hns, <-Hn, om_set_Name_same, om_set_Namespace_same, om_set_Labels_same.
  apply bind_Ok_inv. exists (svc_Meta svc), w2. split; [|done].
  by eapply set_owner_again.
Qed.

Lemma updatePDB_again base ps ns w o w1 pdb w2 :
  updatePodDisruptionBudget ps ns base w = (Ok o, w1) →
  meta_stored (pdb_Meta o) (pdb_Meta pdb) →
  updatePodDisruptionBudget ps ns pdb w2 = (Ok (kset_meta KPDB (pdb_Meta pdb) o), w2) ∧ w1 = w.
Proof.
  unfold updatePodDisruptionBudget. intros Hf Hm.
  apply bind_Ok_inv in Hf as (m & w0 & Hs & Hf).
  pose proof (set_owner_inv _ _ _ _ _ _ Hs) as [-> [owners ->]].
  assert (w1 = w ∧ pdb_Meta o = om_set_OwnerReferences owners (om_set_Namespace ns
    (om_set_Name (NameWithPrefix ps) (pdb_Meta base)))) as [-> Heq]
    by (destruct (pspec_MinAvailable _); inv_run Hf; by subst).
  rewrite Heq in Hm. stored_fields Hm. split; [|done].
  rewrite <-Hns, <-Hn, om_set_Name_same, om_set_Namespace_same.
  apply bind_Ok_inv. exists (pdb_Meta pdb), w2. split; [by eapply set_owner_again|].
  destruct (pspec_MinAvailable _); inv_run Hf; by subst.
Qed.

Lemma updateConfigMap_again base ps policies w o w1 cfg w2 :
  updateConfigMapData base ps policies w = (Ok o, w1) →
  meta_stored (cm_Meta o) (cm_Meta cfg) →
  updateConfigMapData cfg ps policies w2 = (Ok (kset_meta KConfigMap (cm_Meta cfg) o), w2) ∧ w1 = w.
Proof.
  unfold updateConfigMapData.
  destruct (SetOwnerReference _ (om_OwnerReferences (om_set_Labels _ (cm_Meta base))))
    as [e|owners] eqn:Ho; intros Hf Hm; inv_run Hf. subst. cbn [cm_Meta] in Hm.
  stored_fields Hm. split; [|done]. rewrite <-Hl, om_set_Labels_same, Ho0.
  rewrite (SetOwnerReference_again _ _ _ Ho), <-Ho0.
  unfold kset_meta. cbn [cm_Data]. by destruct (cm_Meta cfg).
Qed.

(** The Deployment is built from the metadata of the existing one only. *)
Lemma update_container_meta m f d :
  d_update_container f (d_set_Meta m d) = d_set_Meta m (d_update_container f d).
Proof. done. Qed.
Lemma add_volumes_meta m vs d : d_add_volumes vs (d_set_Meta m d) = d_set_Meta m (d_add_volumes vs d).
Proof. done. Qed.
Lemma replicate_meta getenv m d :
  replicateOtelEnvVars getenv (d_set_Meta m d) = d_set_Meta m (replicateOtelEnvVars getenv d).
Proof.
  unfold replicateOtelEnvVars. generalize otelEnvVarToReplicate. intros l. revert d.
  induction l as [|n l IH]; intros d; cbn [fold_left]; [done|]. rewrite <-IH.
  by case_bool_decide.
Qed.
Lemma otel_meta getenv m d s1 s2 :
  setOtelCertificateMounts getenv (d_set_Meta m d) s1 s2
  = d_set_Meta m (setOtelCertificateMounts getenv d s1 s2).
Proof. unfold setOtelCertificateMounts. by repeat case_bool_decide. Qed.
Lemma metrics_meta getenv tc m d :
  adaptDeploymentForMetricsAndTracingConfiguration getenv tc (d_set_Meta m d)
  = d_set_Meta m (adaptDeploymentForMetricsAndTracingConfiguration getenv tc d).
Proof.
  unfold adaptDeploymentForMetricsAndTracingConfiguration.
  destruct (tc_MetricsEnabled tc), (tc_TracingEnabled tc), (tc_OtelSidecarEnabled tc);
    cbn [orb andb negb]; rewrite ?update_container_meta, ?otel_meta, ?replicate_meta; done.
Qed.
Lemma settings_meta ps m d :
  adaptDeploymentSettingsForPolicyServer (d_set_Meta m d) ps
  = d_set_Meta m (adaptDeploymentSettingsForPolicyServer d ps).
Proof. unfold adaptDeploymentSettingsForPolicyServer. repeat case_match; done. Qed.

Definition server_meta ps (v : string) (m : ObjectMeta) : ObjectMeta :=
  om_set_Labels (<[PolicyServerLabelKey := psrv_Name ps]> (<[AppLabelKey := AppLabel ps]> (om_Labels m)))
    (om_set_Annotations
       (<[PolicyServerDeploymentConfigVersionAnnotation := v]> (om_Annotations m)) m).

Lemma configured_meta r getenv ps d base v :
  configured_deployment r getenv ps d v
  = d_set_Meta (server_meta ps v (d_Meta d)) (configured_deployment r getenv ps base v).
Proof. unfold configured_deployment. rewrite <-settings_meta, <-metrics_meta. done. Qed.
Lemma configured_own_meta r getenv ps d v :
  d_Meta (configured_deployment r getenv ps d v) = server_meta ps v (d_Meta d).
Proof. by rewrite (configured_meta r getenv ps d d v). Qed.

(** ... and from the environment, variable by variable. *)
Lemma replicate_env g g' d :
  (∀ n, g n = g' n) → replicateOtelEnvVars g d = replicateOtelEnvVars g' d.
Proof.
  intros Hg. unfold replicateOtelEnvVars. generalize otelEnvVarToReplicate. intros l. revert d.
  induction l as [|n l IH]; intros d; cbn [fold_left]; [done|]. by rewrite Hg, IH.
Qed.
Lemma configured_env r g g' ps d v :
  (∀ n, g n = g' n) → configured_deployment r g ps d v = configured_deployment r g' ps d v.
Proof.
  intros Hg. unfold configured_deployment. f_equal.
  unfold adaptDeploymentForMetricsAndTracingConfiguration, setOtelCertificateMounts.
  by rewrite !Hg, !(replicate_env g g').
Qed.

Lemma configureMutualTLS_again r d w d' w1 w2 m :
  configureMutualTLS r d w = (Ok d', w1) →
  (∀ key, Get KConfigMap key w2 = Get KConfigMap key w) →
  configureMutualTLS r (d_set_Meta m d) w2 = (Ok (d_set_Meta m d'), w2) ∧
  w1 = w ∧ d_Meta d' = d_Meta d.
Proof.
  unfold configureMutualTLS. intros Hf Hc. case_bool_decide; inv_run Hf; subst; [|done].
  split; [|done]. apply bind_Ok_inv. exists x, w2. split; [|done].
  apply wrap_err_Ok_inv, read_Ok_inv. by rewrite Hc.
Qed.

Lemma updateDeployment_again r base ps v w o w1 d w2 :
  updatePolicyServerDeployment r ps base v w = (Ok o, w1) →
  meta_stored (d_Meta o) (d_Meta d) → same_env w w2 →
  (∀ key, Get KConfigMap key w2 = Get KConfigMap key w) →
  updatePolicyServerDeployment r ps d v w2 = (Ok (kset_meta KDeployment (d_Meta d) o), w2) ∧ w1 = w.
Proof.
  unfold updatePolicyServerDeployment. intros Hf Hm He Hc.
  apply bind_Ok_inv in Hf as (d0 & w0 & Hd0 & Hf). inv_run Hd0. subst.
  apply bind_Ok_inv in Hf as (d1 & w0 & Htls & Hf). apply wrap_err_Ok_inv in Htls.
  apply bind_Ok_inv in Hf as (m & w0' & Hown & Hf). inv_run Hf. subst.
  pose proof (configureMutualTLS_again _ _ _ _ _ w2 (d_Meta d) Htls Hc) as (Htls2 & -> & Hd1).
  rewrite configured_own_meta in Hd1.
  pose proof (set_owner_inv _ _ _ _ _ _ Hown) as [-> [owners ->]]. rewrite Hd1 in *.
  unfold server_meta in Hm. stored_fields Hm. split; [|done].
  assert (server_meta ps v (d_Meta d) = d_Meta d) as Hself.
  { unfold server_meta. rewrite (insert_id (om_Labels (d_Meta d)) AppLabelKey).
    2:{ by rewrite Hl, lookup_insert_ne, lookup_insert_eq. }
    rewrite (insert_id (om_Labels (d_Meta d)) PolicyServerLabelKey), (insert_id (om_Annotations _)).
    - by rewrite om_set_Annotations_same, om_set_Labels_same.
    - by rewrite Han, lookup_insert_eq.
    - by rewrite Hl, lookup_insert_eq. }
  apply bind_Ok_inv. eexists _, w2. split; [by apply gets_Ok_inv|].
  rewrite (configured_env r _ (λ n, Getenv n w)) by done.
  rewrite (configured_meta r _ ps d base), Hself.
  apply bind_Ok_inv. eexists _, w2. split; [by apply wrap_err_Ok_inv|].
  apply bind_Ok_inv. exists (d_Meta d), w2. split; [|done].
  by eapply set_owner_again.
Qed.

Lemma updateCertSecret_again r ps ca ca' base w o w1 s w2 :
  updateCertSecret r ps ca base w = (Ok o, w1) → stored KSecret o s →
  updateCertSecret r ps ca' s w2 = (Ok s, w2).
Proof.
  intros Hf [Hm [Hd Hs]]. pose proof (updateCertSecret_inv _ _ _ _ _ _ _ Hf) as (_ & _ & H1' & H2').
  cbn in Hd. rewrite <-Hd in H1', H2'. destruct H1' as [c Hc], H2' as [p Hp].
  unfold updateCertSecret in Hf. apply bind_Ok_inv in Hf as (m & w0 & Hown & Hf).
  pose proof (set_owner_inv _ _ _ _ _ _ Hown) as [-> [owners ->]].
  assert (s_Meta o = om_set_Labels policy_server_component
    (om_set_OwnerReferences owners (s_Meta base))) as Ho.
  { destruct (s_Data base !! ServerCert), (s_Data base !! ServerPrivateKey);
      inv_run Hf; by subst. }
  cbn [kmeta] in Hm. rewrite Ho in Hm. stored_fields Hm.
  unfold updateCertSecret. apply bind_Ok_inv. exists (s_Meta s), w2.
  split; [by eapply set_owner_again|].
  rewrite Hc, Hp, <-Hl, om_set_Labels_same. by destruct s.
Qed.

(** *** The environment is only read *)

Lemma env_now : within (same_env (World := World)) now.
Proof. intros w. pose proof (Now_env w) as Hw. unfold now. by destruct (Now w). Qed.
Lemma env_RandInt b : within (same_env (World := World)) (call (RandInt b)).
Proof. apply within_call, RandInt_env. Qed.
Lemma env_GenerateKey : within (same_env (World := World)) (call GenerateKey).
Proof. apply within_call, GenerateKey_env. Qed.
Lemma env_Delete k o : within (same_env (World := World)) (call (Delete k o)).
Proof. apply within_call, Delete_env. Qed.
Lemma env_StatusUpdate k o : within (same_env (World := World)) (call (StatusUpdate k o)).
Proof. apply within_call, StatusUpdate_env. Qed.
#[local] Hint Resolve env_now env_RandInt env_GenerateKey env_Delete env_StatusUpdate
  same_env_preorder : go.

Lemma env_set_owner msg ps m : within same_env (set_owner msg ps m : M World _).
Proof. unfold set_owner. solve_within. Qed.
#[local] Hint Resolve env_set_owner : go.
Lemma env_GenerateCert ca k nb na dns :
  within same_env (GenerateCert ca k nb na dns : M World _).
Proof. unfold GenerateCert, lift_sum, first_block. solve_within. Qed.
#[local] Hint Resolve env_GenerateCert : go.
Lemma env_updateCertSecret r ps ca s : within same_env (updateCertSecret r ps ca s : M World _).
Proof. unfold updateCertSecret, lift_sum. solve_within. Qed.
Lemma env_updateConfigMapData cfg ps l : within same_env (updateConfigMapData cfg ps l : M World _).
Proof. unfold updateConfigMapData. solve_within. Qed.
Lemma env_updatePDB ps ns pdb : within same_env (updatePodDisruptionBudget ps ns pdb : M World _).
Proof. unfold updatePodDisruptionBudget. solve_within. Qed.
Lemma env_updateDeployment r ps d v :
  within same_env (updatePolicyServerDeployment r ps d v : M World _).
Proof. unfold updatePolicyServerDeployment, configureMutualTLS. solve_within. Qed.
Lemma env_getMetricsPort : within (same_env (World := World)) getMetricsPort.
Proof. intros w. unfold getMetricsPort. by repeat case_match. Qed.
#[local] Hint Resolve env_getMetricsPort : go.
Lemma env_updateService r svc ps : within same_env (updateService r svc ps : M World _).
Proof. unfold updateService. solve_within. Qed.

(** *** The steps, done again *)

(** The server as the API server answers a status update of it. *)
Definition answered_server (v : string) (st : PolicyServerStatus) ps : PolicyServer :=
  mkPolicyServer (om_set_ResourceVersion v (psrv_ObjectMeta ps)) (psrv_Spec ps) st.

Lemma service_calm r ps ps' w w' w2 v st :
  reconcilePolicyServerService r ps w = (Ok tt, w') → ps' = answered_server v st ps →
  same_env w w2 →
  let key := mkNN (r_DeploymentsNamespace r) (NameWithPrefix ps) in
  Get KService key w2 = Get KService key w' →
  calm quiet (λ _ _, True) (reconcilePolicyServerService r ps') w2.
Proof.
  intros Hrun -> He key Hg. unfold reconcilePolicyServerService in *. inv_run Hrun. subst.
  eapply CreateOrPatch_calm; [exact Hrun0|exact Hg|intros o; apply env_updateService|].
  intros base o w1 Hb [Hm _]. exists o. split; [by left|].
  by destruct (updateService_again _ _ _ _ _ _ _ _ Hb Hm He).
Qed.

Lemma PDB_calm r ps ps' w w' w2 v st :
  reconcilePolicyServerPodDisruptionBudget r ps w = (Ok tt, w') → ps' = answered_server v st ps →
  let key := mkNN (r_DeploymentsNamespace r) (NameWithPrefix ps) in
  Get KPDB key w2 = Get KPDB key w' →
  calm quiet (λ _ _, True) (reconcilePolicyServerPodDisruptionBudget r ps') w2.
Proof.
  intros Hrun -> key Hg.
  assert (reconcilePodDisruptionBudget ps (r_DeploymentsNamespace r) w = (Ok tt, w') →
    calm quiet (λ _ _, True) (reconcilePodDisruptionBudget (answered_server v st ps)
      (r_DeploymentsNamespace r)) w2) as Hrec.
  { clear Hrun. intros Hrun. unfold reconcilePodDisruptionBudget in *. inv_run Hrun. subst.
    eapply CreateOrPatch_calm; [exact Hrun0|exact Hg|intros o; apply env_updatePDB|].
    intros base o w1 Hb [Hm _]. exists o. split; [by left|].
    by destruct (updatePDB_again _ _ _ _ _ _ _ w2 Hb Hm). }
  unfold reconcilePolicyServerPodDisruptionBudget in *. cbn [answered_server psrv_Spec].
  destruct (pspec_MinAvailable (psrv_Spec ps)), (pspec_MaxUnavailable (psrv_Spec ps));
    try by apply Hrec.
  apply deletePDB_inv in Hrun as [_ Hgo]. fold key in Hgo.
  unfold deletePodDisruptionBudget.
  set (o := empty_pdb _ _). assert (going KPDB (kkey KPDB o) w2) as Hgo2.
  { change (kkey KPDB o) with key. unfold going, absent in *. by rewrite Hg. }
  pose proof (Delete_again KPDB o w2 ltac:(done) Hgo2) as Hs.
  pose proof (Delete_env KPDB o w2) as He.
  apply (calm_bind quiet _ _ (λ _ _, True)).
  - unfold calm, try, call. destruct (Delete KPDB o w2) as [[] w3]; by repeat split.
  - intros [e|[]] w3 _ _; [|by split]. destruct (IgnoreNotFound e); by split.
Qed.

Lemma configMap_calm r ps ps' policies policies' w w' w2 v st :
  reconcilePolicyServerConfigMap r ps policies w = (Ok tt, w') → ps' = answered_server v st ps →
  policies_text policies' = policies_text policies →
  let key := mkNN (r_DeploymentsNamespace r) (NameWithPrefix ps) in
  Get KConfigMap key w2 = Get KConfigMap key w' →
  calm quiet (λ _ _, True) (reconcilePolicyServerConfigMap r ps' policies') w2.
Proof.
  intros Hrun -> Htext key Hg. unfold reconcilePolicyServerConfigMap in *. inv_run Hrun. subst.
  eapply CreateOrPatch_calm; [exact Hrun0|exact Hg|intros o; apply env_updateConfigMapData|].
  intros base o w1 Hb [Hm _]. exists o. split; [by left|].
  destruct (updateConfigMap_again _ _ _ _ _ _ _ w2 Hb Hm) as [Hagain _].
  unfold updateConfigMapData in *. by rewrite Htext.
Qed.

Lemma deployment_calm r ps ps' w w' w2 v st :
  reconcilePolicyServerDeployment r ps w = (Ok tt, w') → ps' = answered_server v st ps →
  same_env w w2 → (∀ key, Get KConfigMap key w2 = Get KConfigMap key w) →
  let key := mkNN (r_DeploymentsNamespace r) (NameWithPrefix ps) in
  Get KDeployment key w2 = Get KDeployment key w' →
  calm quiet (λ _ _, True) (reconcilePolicyServerDeployment r ps') w2.
Proof.
  intros Hrun -> He Hc key Hg.
  unfold reconcilePolicyServerDeployment, policyServerConfigMapVersion in *.
  apply bind_Ok_inv in Hrun as (version & w0 & Hv & Hrun). inv_run Hv. subst.
  match goal with Hcfg : Get KConfigMap _ w = inr ?c |- _ => rename Hcfg into Hcfg, c into cfg end.
  apply (calm_bind quiet _ _ (λ a w3, a = om_ResourceVersion (cm_Meta cfg) ∧ w3 = w2)).
  { eapply (calm_run quiet _ _ (Ok _) w2); [|done|done].
    apply wrap_err_Ok_inv, bind_Ok_inv. exists cfg, w2. split; [|done].
    apply wrap_err_Ok_inv, read_Ok_inv. by rewrite Hc. }
  intros a w3 _ [-> ->]. inv_run Hrun. subst.
  eapply CreateOrPatch_calm; [eassumption|exact Hg|intros o; apply env_updateDeployment|].
  intros base o w1 Hb [Hm _]. exists o. split; [by left|].
  by destruct (updateDeployment_again _ _ _ _ _ _ _ _ w2 Hb Hm He Hc).
Qed.

(** *** The local copy *)

Lemma setTrue_again t now ps :
  reports (reconciled_condition t) (psrv_Conditions ps) → setTrueConditionType t now ps = ps.
Proof.
  intros Ht. unfold setTrueConditionType. fold (reconciled_condition t).
  rewrite SetStatusCondition_again by done. by destruct ps as [? ? []].
Qed.

Lemma record_true_calm t w ps :
  reports (reconciled_condition t) (psrv_Conditions ps) →
  calm (on_world quiet) (λ _ st, st.2 = ps) (set_local_now (setTrueConditionType t)) (w, ps).
Proof. intros Ht. split; [done|]. by apply setTrue_again. Qed.

Lemma recorded_calm t msg step w ps :
  calm quiet (λ _ _, True) (step ps) w →
  reports (reconciled_condition t) (psrv_Conditions ps) →
  calm (on_world quiet) (λ _ st, st.2 = ps) (recorded t msg step) (w, ps).
Proof.
  intros Hstep Ht. unfold recorded.
  eapply calm_bind; [apply _|apply calm_try, calm_with_local, Hstep|].
  intros [e|[]] [w1 ps1] _ Hps; cbn in Hps; [|destruct Hps as [_ ->]; by apply record_true_calm].
  apply (calm_bind (on_world quiet) _ _ (λ _ _, True)); [by split|]. intros. by split.
Qed.

Lemma certSecret_calm r ps ps' w w' w2 v st psl :
  reconcilePolicyServerCertSecret r (w, ps) = (Ok tt, (w', psl)) → ps' = answered_server v st ps →
  reports (reconciled_condition PolicyServerCertSecretReconciled) (psrv_Conditions ps') →
  (∀ key, Get KSecret key w2 = Get KSecret key w') →
  calm (on_world quiet) (λ _ st, st.2 = ps') (reconcilePolicyServerCertSecret r) (w2, ps').
Proof.
  intros Hrun Hps' Hrep Hg.
  pose proof (certSecret_inv _ _ _ _ Hrun) as (w1 & Heq & Hbut & s & Hs & _). simplify_eq.
  unfold reconcilePolicyServerCertSecret in *. inv_local Hrun.
  match goal with Hca : Get KSecret (mkNN _ CARootSecretName) w = inr ?c |- _ =>
    rename c into ca, Hca into Hca end.
  assert (∃ ca', Get KSecret (mkNN (r_DeploymentsNamespace r) CARootSecretName) w2 = inr ca')
    as [ca' Hca'].
  { rewrite Hg. destruct (decide (mkNN (r_DeploymentsNamespace r) CARootSecretName
      = mkNN (r_DeploymentsNamespace r) (NameWithPrefix ps))) as [->|Hne]; [by exists s|].
    exists ca. rewrite Hbut; [done|congruence]. }
  apply (calm_bind (on_world quiet) _ _ (λ _ st', st' = (w2, answered_server v st ps))).
  { eapply calm_wrap, calm_run; [by apply with_local_Ok; exists w2; split; [apply read_Ok_inv|]| |]; done. }
  intros ca2 st2 _ ->.
  destruct x0 as [e|s0]; [inv_local Hrun|].
  apply with_local_Ok in Hrun0 as (w3 & Hc & ->).
  apply set_local_now_Ok in Hrun. injection Hrun as <- _.
  eapply calm_bind; [apply _|apply calm_try, calm_with_local|].
  { eapply CreateOrPatch_quiet; [exact Hc|apply Hg|intros o; apply env_updateCertSecret|].
    intros base o w4 Hb Hst. exists s0. split; [by right|]. rewrite kset_same.
    exact (updateCertSecret_again r ps ca ca2 _ _ _ _ _ w2 Hb Hst). }
  intros [e|s1] [w4 ps4] _ Hps; cbn in Hps; [|destruct Hps as [_ ->]; by apply record_true_calm].
  apply (calm_bind (on_world quiet) _ _ (λ _ _, True)); [by split|]. intros. by split.
Qed.

(** *** The policies of the server *)

(** The policies bound to a server have unique names of their own. *)
Definition distinct_names ps w : Prop :=
  ∀ p q, stored_policy w p → stored_policy w q → GetPolicyServer p = psrv_Name ps →
    GetPolicyServer q = psrv_Name ps → GetUniqueName p = GetUniqueName q → p = q.

Lemma buildPoliciesMap_iff l name e :
  (∀ p q, p ∈ l → q ∈ l → GetUniqueName p = GetUniqueName q → p = q) →
  buildPoliciesMap l !! name = Some e ↔
  ∃ p : AnyPolicy, p ∈ l ∧ GetUniqueName p = name ∧ e = config_entry p.
Proof.
  intros Hinj. split; [apply buildPoliciesMap_elem|]. intros (p & Hp & Hn & ->).
  rewrite buildPoliciesMap_lookup.
  assert (p ∈ filter (λ p : AnyPolicy, GetUniqueName p = name) l) as Hin
    by by apply list_elem_of_filter.
  destruct (last _) as [q|] eqn:Hq; [|by apply last_None in Hq as Hq'; rewrite Hq' in Hin; apply elem_of_nil in Hin].
  apply last_elem, list_elem_of_filter in Hq as [Hqn Hql]. cbn. do 2 f_equal.
  apply Hinj; [done..|congruence].
Qed.

(** The configuration does not depend on the order of the policies. *)
Lemma policies_text_same l l' :
  (∀ p, p ∈ l ↔ p ∈ l') →
  (∀ p q, p ∈ l → q ∈ l → GetUniqueName p = GetUniqueName q → p = q) →
  policies_text l = policies_text l'.
Proof.
  intros Hl Hinj. unfold policies_text. do 2 f_equal. apply map_eq. intros name.
  apply option_eq. intros e. rewrite !buildPoliciesMap_iff; [|..|done].
  - by setoid_rewrite Hl.
  - intros p q ?%Hl ?%Hl. by apply Hinj.
Qed.

(** *** The whole reconciliation *)

#[local] Hint Resolve env_updateCertSecret env_updateConfigMapData env_updatePDB
  env_updateDeployment env_updateService CreateOrPatch_env : go.
Lemma env_certSecret r :
  within (on_world same_env) (reconcilePolicyServerCertSecret r : M (World * PolicyServer) _).
Proof.
  unfold reconcilePolicyServerCertSecret. solve_within; try apply within_with_local;
    try (apply within_set_local_now, _); intros ps; [solve_within|].
  apply CreateOrPatch_env. intros o. apply env_updateCertSecret.
Qed.
Lemma env_configMap r ps l : within same_env (reconcilePolicyServerConfigMap r ps l : M World _).
Proof. unfold reconcilePolicyServerConfigMap. solve_within. Qed.
Lemma env_PDB r ps :
  within same_env (reconcilePolicyServerPodDisruptionBudget r ps : M World _).
Proof.
  unfold reconcilePolicyServerPodDisruptionBudget, deletePodDisruptionBudget,
    reconcilePodDisruptionBudget. solve_within.
Qed.
Lemma env_deployment r ps : within same_env (reconcilePolicyServerDeployment r ps : M World _).
Proof. unfold reconcilePolicyServerDeployment, policyServerConfigMapVersion. solve_within. Qed.
Lemma env_service r ps : within same_env (reconcilePolicyServerService r ps : M World _).
Proof. unfold reconcilePolicyServerService. solve_within. Qed.

(** The worlds a successful reconciliation of the resources goes through. *)
Lemma resources_worlds r policies w ps res st :
  reconcile_resources r policies (w, ps) = (Ok res, st) →
  Get KPolicyServer (kkey KPolicyServer ps) w = inr ps →
  let key := mkNN (r_DeploymentsNamespace r) (NameWithPrefix ps) in
  ∃ w1 w2 w3 w4 w5 c0 c1 c2 c3 c4 v status,
    let with_ cs := psrv_set_Conditions cs ps in
    let ps' := answered_server v status ps in
    reconcilePolicyServerCertSecret r (w, ps) = (Ok tt, (w1, with_ c0)) ∧
    reconcilePolicyServerConfigMap r (with_ c1) policies w1 = (Ok tt, w2) ∧
    reconcilePolicyServerPodDisruptionBudget r (with_ c2) w2 = (Ok tt, w3) ∧
    reconcilePolicyServerDeployment r (with_ c3) w3 = (Ok tt, w4) ∧
    reconcilePolicyServerService r (with_ c4) w4 = (Ok tt, w5) ∧
    (same_but KSecret key w w1 ∧ same_but KConfigMap key w1 w2 ∧ same_but KPDB key w2 w3 ∧
     same_but KDeployment key w3 w4 ∧ same_but KService key w4 w5 ∧
     same_but KPolicyServer (kkey KPolicyServer ps) w5 st.1) ∧
    (same_env w3 st.1 ∧ same_env w4 st.1 ∧ same_env w st.1) ∧
    Get KPolicyServer (kkey KPolicyServer ps) st.1 = inr ps' ∧
    ∀ t, t ∈ reconciled_conditions → reports (reconciled_condition t) (psrv_Conditions ps').
Proof.
  intros Hres Hps key.
  destruct (resources_inv _ _ _ _ _ _ Hres)
    as (w1 & w2 & w3 & w4 & w5 & w6 & ps6 & Hcert & Hcm & Hpdb & Hdep & Hsvc & Hst & -> & ->).
  pose proof (certSecret_inv _ _ _ _ Hcert) as (w1' & Heq & Hf1 & _). injection Heq as <- _.
  pose proof (configMap_inv _ _ _ _ _ Hcm) as [Hf2 _].
  pose proof (PDB_inv _ _ _ _ Hpdb) as [Hf3 _].
  pose proof (reconcileDeployment_inv _ _ _ _ Hdep) as [Hf4 _].
  pose proof (reconcileService_inv _ _ _ _ Hsvc) as [Hf5 _].
  pose proof (StatusUpdate_ok _ _ _ _ _ Hst) as (Hstat & Hf6 & Hg6).
  assert (Get KPolicyServer (kkey KPolicyServer ps) w5 = inr ps) as Hps5.
  { rewrite (Hf5 KPolicyServer), (Hf4 KPolicyServer), (Hf3 KPolicyServer), (Hf2 KPolicyServer),
      (Hf1 KPolicyServer) by done. exact Hps. }
  destruct (StatusUpdate_content _ _ _ _ _ _ Hst Hps5) as [v Hv]. cbn in Hv.
  pose proof (within_run _ _ _ _ _ (env_certSecret r) Hcert : same_env w w1) as He1.
  pose proof (within_run _ _ _ _ _ (env_configMap r _ _) Hcm) as He2.
  pose proof (within_run _ _ _ _ _ (env_PDB r _) Hpdb) as He3.
  pose proof (within_run _ _ _ _ _ (env_deployment r _) Hdep) as He4.
  pose proof (within_run _ _ _ _ _ (env_service r _) Hsvc) as He5.
  assert (same_env w5 w6) as He6.
  { match type of Hst with StatusUpdate ?k ?o ?w = _ => pose proof (StatusUpdate_env k o w) as He end.
    by rewrite Hst in He. }
  assert (same_env w4 w6) as He46 by (by trans w5).
  assert (same_env w3 w6) as He36 by (by trans w4).
  exists w1, w2, w3, w4, w5. do 7 eexists.
  cbv zeta. split; [exact Hcert|]. split; [exact Hcm|]. split; [exact Hpdb|].
  split; [exact Hdep|]. split; [exact Hsvc|]. split; [by split_and!|].
  split; [split_and!; [done|done|by trans w1; [|trans w2; [|trans w3]]]|].
  split; [rewrite Hv in Hg6; exact Hg6|].
  intros t Ht. cbn. by apply all_conditions.
Qed.

(** A recorded step, and what comes after it, in worlds quiet since [w6]. *)
Lemma recorded_then {B} t msg step (rest : M (World * PolicyServer) B) Q ps w6 w :
  quiet w6 w → calm quiet (λ _ _, True) (step ps) w →
  reports (reconciled_condition t) (psrv_Conditions ps) →
  (∀ w', quiet w6 w' → calm (on_world quiet) Q rest (w', ps)) →
  calm (on_world quiet) Q (recorded t msg step ;; rest) (w, ps).
Proof.
  intros Hw Hstep Ht Hrest. eapply calm_bind; [apply _|by apply recorded_calm|].
  intros [] [w' ps'] Hq Hps. cbn in Hps. subst ps'. apply Hrest. by trans w.
Qed.

Lemma status_calm ps w :
  Get KPolicyServer (kkey KPolicyServer ps) w = inr ps →
  calm (on_world quiet) (λ res _, res = empty_result)
    (with_local (λ ps, wrap_err (ErrWrap "update policy server status error")
       (call (StatusUpdate KPolicyServer ps)) ;; mret empty_result)) (w, ps).
Proof.
  intros Hget. eapply calm_mono; [apply calm_with_local with (Q := λ res _, res = empty_result)|].
  2:{ by intros a s' _ [? _]. }
  apply (calm_bind quiet _ _ (λ _ _, True)); [|by intros; split].
  apply calm_wrap. pose proof (StatusUpdate_again KPolicyServer ps w Hget) as Hs.
  pose proof (StatusUpdate_env KPolicyServer ps w) as He.
  unfold calm, call. destruct (StatusUpdate KPolicyServer ps w) as [[] w']; by repeat split.
Qed.

(** The resources of a server, reconciled again: from the end of the first
    run, with policies of the same configuration. *)
Lemma resources_calm r policies w ps res st w0 :
  reconcile_resources r policies (w, ps) = (Ok res, st) →
  Get KPolicyServer (kkey KPolicyServer ps) w = inr ps → quiet st.1 w0 →
  ∃ ps', Get KPolicyServer (kkey KPolicyServer ps) w0 = inr ps' ∧
    om_DeletionTimestamp (psrv_ObjectMeta ps') = om_DeletionTimestamp (psrv_ObjectMeta ps) ∧
    psrv_Name ps' = psrv_Name ps ∧
    ∀ policies', policies_text policies' = policies_text policies →
      calm (on_world quiet) (λ res _, res = empty_result)
        (reconcile_resources r policies') (w0, ps').
Proof.
  intros Hres Hps Hquiet.
  destruct (resources_worlds _ _ _ _ _ _ Hres Hps) as (w1 & w2 & w3 & w4 & w5 & c0 & c1 & c2 & c3
    & c4 & v & status & Hcert & Hcm & Hpdb & Hdep & Hsvc & (Hf1 & Hf2 & Hf3 & Hf4 & Hf5 & Hf6)
    & (He3 & He4 & _) & Hget & Hrep).
  set (ps' := answered_server v status ps) in *. set (w6 := st.1) in *.
  exists ps'. split; [by rewrite (proj1 Hquiet)|]. split; [done|]. split; [done|].
  intros policies' Htext. assert (∀ w', quiet w6 w' → same_objects w6 w') as Hobj by by intros w' [].
  assert (∀ w', quiet w6 w' → same_env w3 w' ∧ same_env w4 w') as Henv.
  { intros w' [_ He]. split; by etrans. }
  unfold reconcile_resources.
  eapply calm_bind; [apply _|eapply (certSecret_calm _ ps); [exact Hcert|done|apply Hrep; set_solver|]|].
  { intros key. by rewrite (Hobj _ Hquiet), (Hf6 KSecret), (Hf5 KSecret), (Hf4 KSecret),
      (Hf3 KSecret), (Hf2 KSecret). }
  intros [] [u1 x1] Hq1 Hx. cbn in Hx. subst x1.
  assert (quiet w6 u1) as Hq1' by (trans w0; [done|exact Hq1]).
  apply (recorded_then _ _ _ _ _ _ w6); [done| |apply Hrep; set_solver|intros u2 Hq2].
  { eapply (configMap_calm _ (psrv_set_Conditions c1 ps)); [exact Hcm|reflexivity|exact Htext|].
    by rewrite (Hobj _ Hq1'), (Hf6 KConfigMap), (Hf5 KConfigMap), (Hf4 KConfigMap),
      (Hf3 KConfigMap) by done. }
  apply (recorded_then _ _ _ _ _ _ w6); [done| |apply Hrep; set_solver|intros u3 Hq3].
  { eapply (PDB_calm _ (psrv_set_Conditions c2 ps)); [exact Hpdb|reflexivity|].
    by rewrite (Hobj _ Hq2), (Hf6 KPDB), (Hf5 KPDB), (Hf4 KPDB) by done. }
  apply (recorded_then _ _ _ _ _ _ w6); [done| |apply Hrep; set_solver|intros u4 Hq4].
  { eapply (deployment_calm _ (psrv_set_Conditions c3 ps)); [exact Hdep|reflexivity|by apply Henv|..].
    - intros key. by rewrite (Hobj _ Hq3), (Hf6 KConfigMap), (Hf5 KConfigMap), (Hf4 KConfigMap).
    - by rewrite (Hobj _ Hq3), (Hf6 KDeployment), (Hf5 KDeployment) by done. }
  apply (recorded_then _ _ _ _ _ _ w6); [done| |apply Hrep; set_solver|intros u5 Hq5].
  { eapply (service_calm _ (psrv_set_Conditions c4 ps)); [exact Hsvc|reflexivity|by apply Henv|].
    by rewrite (Hobj _ Hq4), (Hf6 KService) by done. }
  apply status_calm. by rewrite (Hobj _ Hq5).
Qed.

(** No policy is touched. *)
Lemma resources_policies r policies w ps res st p :
  reconcile_resources r policies (w, ps) = (Ok res, st) →
  Get KPolicyServer (kkey KPolicyServer ps) w = inr ps →
  stored_policy st.1 p ↔ stored_policy w p.
Proof.
  intros Hres Hps.
  destruct (resources_worlds _ _ _ _ _ _ Hres Hps) as (w1 & w2 & w3 & w4 & w5 & c0 & c1 & c2 & c3
    & c4 & v & status & _ & _ & _ & _ & _ & (Hf1 & Hf2 & Hf3 & Hf4 & Hf5 & Hf6) & _).
  unfold stored_policy. apply exist_proper. intros key.
  by rewrite Hf6, Hf5, Hf4, Hf3, Hf2, Hf1 by (by destruct p).
Qed.

Lemma list_bound_total k msg ps w l :
  List k (MatchingFields {[ PolicyServerIndexKey := psrv_Name ps ]}) w = inr l →
  list_bound k msg ps w = (Ok l, w).
Proof.
  intros Hl. unfold list_bound. apply bind_Ok_inv. exists (inr l), w.
  split; [by apply try_Ok_inv, read_Ok_inv|done].
Qed.
Lemma getPolicies_total ps w :
  lists_ok ps w → ∃ policies, getPolicies ps w = (Ok policies, w).
Proof.
  intros Hl. unfold getPolicies.
  destruct (Hl KClusterAdmissionPolicy) as [l1 H1']; [set_solver|].
  destruct (Hl KAdmissionPolicy) as [l2 H2']; [set_solver|].
  destruct (Hl KAdmissionPolicyGroup) as [l3 H3']; [set_solver|].
  destruct (Hl KClusterAdmissionPolicyGroup) as [l4 H4']; [set_solver|].
  eexists.
  apply bind_Ok_inv. exists l1, w. split; [exact (list_bound_total KClusterAdmissionPolicy _ _ _ _ H1')|].
  apply bind_Ok_inv. exists l2, w. split; [exact (list_bound_total KAdmissionPolicy _ _ _ _ H2')|].
  apply bind_Ok_inv. exists l3, w. split; [exact (list_bound_total KAdmissionPolicyGroup _ _ _ _ H3')|].
  apply bind_Ok_inv. exists l4, w.
  split; [exact (list_bound_total KClusterAdmissionPolicyGroup _ _ _ _ H4')|]. reflexivity.
Qed.

Lemma server_settles r (req : Request) w res w' ps w2 :
  PolicyServerReconciler_Reconcile r req w = (Ok res, w') →
  Get KPolicyServer (req_NamespacedName req) w = inr ps →
  om_DeletionTimestamp (psrv_ObjectMeta ps) = None →
  lists_ok ps w → distinct_names ps w → quiet w' w2 → lists_ok ps w2 →
  calm quiet (λ res _, res = empty_result) (PolicyServerReconciler_Reconcile r req) w2.
Proof.
  intros Hrun Hget Hdel Hl Hdist Hq Hl2. unfold PolicyServerReconciler_Reconcile in Hrun.
  rewrite Hget, Hdel in Hrun.
  destruct (getPolicies ps w) as [[policies|e|e|e] w0] eqn:Hpol; try discriminate Hrun.
  destruct (getPolicies_bound _ _ _ _ Hpol Hl) as [-> Hbound].
  match type of Hrun with context [reconcile_resources ?r ?p ?st] =>
    destruct (reconcile_resources r p st) as [o [w6 psl]] eqn:Hres end.
  injection Hrun as -> ->. pose proof (Get_key _ _ _ _ Hget) as Hkey. rewrite <-Hkey in Hget.
  assert (∀ p, stored_policy w2 p ↔ stored_policy w p) as Hsp.
  { intros p. rewrite <-(resources_policies _ _ _ _ _ _ p Hres Hget). cbn [fst].
    unfold stored_policy. apply exist_proper. intros key. by rewrite (proj1 Hq). }
  destruct (resources_calm _ _ _ _ _ _ _ Hres Hget Hq) as (ps' & Hget' & Hdel' & Hname & Hcalm).
  assert (lists_ok ps' w2) as Hl' by (intros k Hk; rewrite Hname; by apply Hl2).
  destruct (getPolicies_total ps' w2 Hl') as [policies' Hp'].
  destruct (getPolicies_bound _ _ _ _ Hp' Hl') as [_ Hbound'].
  assert (policies_text policies' = policies_text policies) as Htext.
  { apply policies_text_same.
    - intros p. by rewrite Hbound', Hbound, Hsp, Hname.
    - intros p q. rewrite !Hbound', !Hsp, Hname. intros [] []. by apply Hdist. }
  pose proof (Hcalm policies' Htext) as Hc. revert Hc.
  unfold calm, on_world, PolicyServerReconciler_Reconcile.
  rewrite <-Hkey, Hget', Hp', Hdel', Hdel.
  change (KObj KPolicyServer) with PolicyServer.
  by destruct (reconcile_resources r policies' (w2, ps')) as [[] [w3 ps3]].
Qed.

(** (C8) A policy server comes to rest: after a successful reconciliation of a
    live policy server whose policies have unique names of their own, with the
    lists of the policies succeeding in both runs, a reconciliation on the
    same cluster, whenever it runs and in whatever order it is listed the
    policies, changes no object, be it answered without failure or not; so
    the watches of the controller have nothing more to report. *)
Theorem server_reconcile_settles r (req : Request) w res w' ps w2 :
  PolicyServerReconciler_Reconcile r req w = (Ok res, w') →
  Get KPolicyServer (req_NamespacedName req) w = inr ps →
  om_DeletionTimestamp (psrv_ObjectMeta ps) = None →
  lists_ok ps w → distinct_names ps w → quiet w' w2 → lists_ok ps w2 →
  let run := PolicyServerReconciler_Reconcile r req w2 in
  quiet w2 run.2 ∧ (run.1 = Ok empty_result ∨ ∃ e, run.1 = Err e).
Proof.
  intros Hrun Hget Hdel Hl Hdist Hq Hl2.
  destruct (server_settles _ _ _ _ _ _ _ Hrun Hget Hdel Hl Hdist Hq Hl2) as [Hquiet Hres].
  split; [exact Hquiet|].
  destruct (PolicyServerReconciler_Reconcile r req w2).1 as [a|e|x|c]; [left|right|done..].
  - by subst.
  - by exists e.
Qed.
End server.

(** ** Concrete runs *)

Section witnesses.
#[local] Existing Instance concrete_util.
#[local] Existing Instance concrete_range.
#[local] Existing Instance fake_client.
#[local] Existing Instance fake_env.

(** The same cluster [n] seconds later. *)
Definition later (n : Z) (w : FakeWorld) : FakeWorld :=
  mkFakeWorld (fw_store w) (fw_fail w) (fw_clock w + n * Second) (fw_counter w) (fw_env w).
Lemma later_quiet n w : quiet w (later n w).
Proof. split; [by intros []|done]. Qed.

Lemma one_policy_stored ps p0 p :
  stored_policy (server_world ps [p0]) p → p = PAdmissionPolicy p0.
Proof.
  intros [key (_ & Hs & _)%fake_Get_inv]. destruct p as [p|p|p|p]; try done.
  cbn [policy_kind projT1 projT2] in Hs.
  change (fw_store _ KAdmissionPolicy)
    with (<[kkey KAdmissionPolicy p0 := p0]> ∅ : gmap NamespacedName AdmissionPolicy) in Hs.
  rewrite insert_empty in Hs. apply lookup_singleton_Some in Hs as [_ ->]. done.
Qed.

Lemma server_reconcile_settles_witness :
  let w := server_world full_server [settings_policy] in
  let w' := (PolicyServerReconciler_Reconcile full_reconciler server_req w).2 in
  let run := PolicyServerReconciler_Reconcile full_reconciler server_req (later 60 w') in
  run.1 = Ok empty_result ∧ quiet (later 60 w') run.2.
Proof.
  intros w w' run. set (run1 := PolicyServerReconciler_Reconcile full_reconciler server_req w).
  assert (run1.1 = Ok (result_of run1.1)) as Hrun by (vm_compute; reflexivity).
  split; [vm_compute; reflexivity|].
  exact (proj1 (@server_reconcile_settles FakeWorld concrete_util concrete_util_laws fake_client
    fake_env fake_laws fake_quiet full_reconciler server_req w (result_of run1.1) run1.2 full_server
    (later 60 w') (run_fst _ _ _ Hrun) eq_refl eq_refl (server_lists _ _)
    (λ p q Hp Hq _ _ _, eq_trans (one_policy_stored _ _ _ Hp) (eq_sym (one_policy_stored _ _ _ Hq)))
    (later_quiet _ _) (λ k _, ex_intro _ _ eq_refl))).
Defined.
End witnesses.
