(* ===== verification/PolicyStability.v ===== *)
(** * Reconciling a policy again

    What a reconciliation of a policy that is active already does: it writes
    no other object, but the policy itself, to renew the time of its condition
    PolicyActive. *)

From S2P Require Import Prelude GoStd Json K8sTypes Concrete Constants PolicyTypes PolicyServerTypes PolicyWebhook KubeClient FakeCluster ConfigMap Resources Deployment Certs CertController PolicyServerController Metrics PolicySubReconciler PolicyReconcile Lifecycle.
From S2P Require Import Stability.

(** ** A policy *)

Section policy.
Context {World : Type} `{K8sUtil, !K8sUtilLaws, KubeClient World, Environment World, Meter World,
  !KubeClientLaws World, !MeterLaws World, !QuietLaws World}.
Implicit Types (w : World) (p : AnyPolicy) (r : policySubReconciler).

Definition reachable_condition : Condition :=
  mkCondition PolicyUniquelyReachable "True" "LatestReplicaSetIsUniquelyReachable"
    "The latest replica set is uniquely reachable".

Definition conditions p : list Condition := st_Conditions (GetStatus p).

(** The local copy of a policy that is being made active. *)
Definition prepared (t : Z) p : AnyPolicy :=
  let p0 := add_condition inactive_condition t p in
  add_condition reachable_condition t
    (if bool_decide (st_PolicyStatus (GetStatus p0) = PolicyStatusActive) then p0
     else SetStatus PolicyStatusPending p0).

Lemma prepared_restatus t p : restatus p (prepared t p).
Proof.
  apply restatus_condition. case_bool_decide; [|apply restatus_set];
    apply restatus_condition, restatus_refl.
Qed.

Definition reconcile_webhook r p (secret : Secret) (name : string) : M World unit :=
  if IsMutating p then reconcileMutatingWebhookConfiguration r p secret name
  else reconcileValidatingWebhookConfiguration r p secret name.

Lemma reconcilePolicy_active r p w res w1 p1 :
  reconcilePolicy r (w, p) = (Ok res, (w1, p1)) → reports active_condition (conditions p1) →
  ∃ ps d secret,
    Get KPolicyServer (mkNN "" (GetPolicyServer p)) w = inr ps ∧
    Get KDeployment (deployment_key r p) w = inr d ∧
    Get KSecret (mkNN (sub_deploymentsNamespace r) CARootSecretName) w = inr secret ∧
    reconcile_webhook r (prepared (now_seconds w) p) secret (NameWithPrefix ps) w = (Ok tt, w1) ∧
    p1 = setPolicyAsActive (now_seconds w1) (prepared (now_seconds w) p).
Proof.
  intros Hrun Hact.
  destruct (reconcilePolicy_inv _ _ _ _ _ _ Hrun) as [_ Hor].
  destruct Hor as [(ps & secret & (Hname & Hps & (d & Hd & Hreach) & Hsec) & _)|Hno].
  2:{ destruct Hno as (_ & _ & _ & t & Ht), Hact as [t' Ht'].
      unfold conditions in Ht'. change (c_Type active_condition) with PolicyActive in Ht'.
      change (c_Type inactive_condition) with PolicyActive in Ht. rewrite Ht in Ht'. discriminate Ht'. }
  exists ps, d, secret. split; [done|]. split; [done|]. split; [done|].
  unfold reconcilePolicy in Hrun. inv_local Hrun. unfold prepared.
  fold inactive_condition in Hrun.
  pose proof (restatus_condition inactive_condition (now_seconds w) p p (restatus_refl p)) as Hr0.
  set (p0 := add_condition inactive_condition (now_seconds w) p) in *.
  assert (∀ q, restatus p q → GetPolicyServer q = GetPolicyServer p ∧
    deployment_key r q = deployment_key r p ∧ GetUniqueName q = GetUniqueName p) as Hkeys.
  { intros q Hq. destruct (restatus_keys r p q Hq) as (? & ? & _).
    by rewrite (restatus_same GetPolicyServer p q server_set_status Hq). }
  rewrite (proj1 (Hkeys p0 Hr0)), bool_decide_eq_false_2 in Hrun by done. inv_local Hrun.
  destruct x as [e|ps1]; inv_local Hrun0;
    match goal with Hg : getPolicyServer _ _ = _ |- _ =>
      apply getPolicyServer_inv in Hg as [-> Hg]; rewrite (proj1 (Hkeys p0 Hr0)) in Hg end.
  { destruct Hrun1 as [e' He']. congruence. }
  assert (ps1 = ps) as -> by congruence. inv_local Hrun.
  set (q := if bool_decide _ then p0 else SetStatus PolicyStatusPending p0) in *.
  assert (restatus p q) as Hq.
  { unfold q. case_bool_decide; [done|]. by apply restatus_set. }
  destruct (Hkeys q Hq) as (_ & Hk1 & Hk2).
  unfold reconcileScheduledPolicy in Hrun. inv_local Hrun.
  destruct x as [e|d1]; inv_local Hrun0; [rewrite Hk1 in *; congruence|].
  inv_local Hrun. rewrite Hk2 in Hrun.
  match goal with Hd1 : Get KDeployment _ _ = inr d1 |- _ => rewrite Hk1, Hd in Hd1;
    injection Hd1 as <- end.
  rewrite Hreach in Hrun. cbn [negb] in Hrun. inv_local Hrun. simplify_eq.
  fold reachable_condition in *. split; [|done].
  match goal with Hs : Get KSecret _ w = inr ?s |- _ =>
    assert (s = secret) as -> by congruence end.
  unfold reconcile_webhook. by destruct (IsMutating _);
    match goal with Hw : wrap_err _ _ _ = _ |- _ => apply wrap_err_Ok_inv in Hw end.
Qed.

(** *** The status of an active policy *)

Definition config_condition (cfg : ConfigMap) (d : Deployment) : Condition :=
  match om_Annotations (d_Meta d) !! PolicyServerDeploymentConfigVersionAnnotation with
  | Some configAnnotation =>
      if bool_decide (configAnnotation = om_ResourceVersion (cm_Meta cfg))
      then mkCondition PolicyServerConfigurationUpToDate "True" "ConfigurationVersionMatch"
             "Configuration for this policy is up to date"
      else mkCondition PolicyServerConfigurationUpToDate "False" "ConfigurationVersionMismatch"
             "Configuration for this policy is not up to date"
  | None =>
      mkCondition PolicyServerConfigurationUpToDate "False" "UnknownConfigurationVersion"
        ("Configuration version annotation (" +:+ PolicyServerDeploymentConfigVersionAnnotation
         +:+ ") in deployment " +:+ om_Name (d_Meta d) +:+ " is missing")
  end.
Lemma config_condition_set cfg d now cs :
  setPolicyConfigurationCondition cfg d now cs = SetStatusCondition now cs (config_condition cfg d).
Proof. unfold setPolicyConfigurationCondition, config_condition. by repeat case_match. Qed.
Lemma config_condition_type cfg d :
  c_Type (config_condition cfg d) = PolicyServerConfigurationUpToDate ∧
  c_LastTransitionTime (config_condition cfg d) = None.
Proof. unfold config_condition. by repeat case_match. Qed.

(** The conditions a run leaves that makes a policy active between [t0] and
    [t1]. *)
Definition active_conditions cfg d (t0 t1 : Z) (cs : list Condition) : list Condition :=
  SetStatusCondition t1
    (SetStatusCondition t1
       (SetStatusCondition t0 (SetStatusCondition t0 cs inactive_condition) reachable_condition)
       active_condition) (config_condition cfg d).
Definition active_status cfg d (t0 t1 : Z) p : PolicyStatus :=
  mkPolicyStatus PolicyStatusActive (configured_mode cfg p)
    (active_conditions cfg d t0 t1 (conditions p)).

Lemma active_conditions_reports cfg d t0 t1 cs :
  reports active_condition (active_conditions cfg d t0 t1 cs) ∧
  reports reachable_condition (active_conditions cfg d t0 t1 cs) ∧
  reports (config_condition cfg d) (active_conditions cfg d t0 t1 cs).
Proof.
  unfold active_conditions. destruct (config_condition_type cfg d) as [Ht Hc].
  split; [|split; [|by apply SetStatusCondition_reports]];
    rewrite SetStatusCondition_keeps by (by rewrite Ht).
  - by apply SetStatusCondition_reports.
  - rewrite SetStatusCondition_keeps by done. by apply SetStatusCondition_reports.
Qed.

(** Done again, only the time of [PolicyActive] is new. *)
Lemma active_conditions_again cfg d t0 t1 cs :
  reports active_condition cs → reports reachable_condition cs → reports (config_condition cfg d) cs →
  active_conditions cfg d t0 t1 cs = replace_condition (at_time (Some t1) active_condition) cs.
Proof.
  intros [t Hact] Hreach Hcfg. unfold active_conditions.
  destruct (config_condition_type cfg d) as [Ht Hc].
  rewrite (SetStatusCondition_again t0 _ reachable_condition);
    [|done|by apply SetStatusCondition_keeps].
  assert (SetStatusCondition t0 cs inactive_condition
    = replace_condition (at_time (Some t0) inactive_condition) cs) as Hin
    by exact (SetStatusCondition_replaces t0 cs inactive_condition _ eq_refl Hact).
  assert (find_condition PolicyActive (SetStatusCondition t0 cs inactive_condition)
    = Some (at_time (Some t0) inactive_condition)) as Hfind.
  { change PolicyActive with (c_Type inactive_condition).
    rewrite SetStatusCondition_same by done. change (c_Type inactive_condition) with PolicyActive.
    change (c_Type active_condition) with PolicyActive in Hact. by rewrite Hact. }
  rewrite (SetStatusCondition_again t1 _ (config_condition cfg d)); [|done|].
  2:{ by rewrite !SetStatusCondition_keeps by (by rewrite Ht). }
  rewrite (SetStatusCondition_replaces t1 _ active_condition _ eq_refl Hfind), Hin.
  by apply replace_condition_twice.
Qed.

Lemma setPolicyModeStatus_exact r p w d st :
  setPolicyModeStatus r (w, p) = (Ok tt, st) →
  Get KDeployment (deployment_key r p) w = inr d →
  ∃ cfg, Get KConfigMap (deployment_key r p) w = inr cfg ∧
    st = (w, SetConditions (SetStatusCondition (now_seconds w) (conditions p) (config_condition cfg d))
               (SetPolicyModeStatus (configured_mode cfg p) p)).
Proof.
  unfold setPolicyModeStatus. intros Hrun Hd. inv_local Hrun.
  destruct x as [e|d1]; inv_local Hrun0; [congruence|]. inv_local Hrun.
  match goal with Hc : Get KConfigMap _ _ = inr ?c |- _ => exists c; split; [exact Hc|] end.
  assert (d1 = d) as -> by congruence. rewrite config_condition_set. by destruct p.
Qed.

(** The local copy at the end of such a run. *)
Lemma active_copy cfg d t0 t1 p :
  let p1 := setPolicyAsActive t1 (prepared t0 p) in
  SetConditions (SetStatusCondition t1 (conditions p1) (config_condition cfg d))
    (SetPolicyModeStatus (configured_mode cfg p1) p1)
  = SetStatusRecord (active_status cfg d t0 t1 p) p.
Proof. unfold prepared. by destruct p; case_bool_decide. Qed.

(** *** Two runs *)

(** What the runs that make a policy active have in common. *)
Definition active_run r p w w' p' (w1 : World) ps d secret cfg : Prop :=
  Get KPolicyServer (mkNN "" (GetPolicyServer p)) w = inr ps ∧
  Get KDeployment (deployment_key r p) w = inr d ∧
  Get KSecret (mkNN (sub_deploymentsNamespace r) CARootSecretName) w = inr secret ∧
  Get KConfigMap (deployment_key r p) w = inr cfg ∧
  reconcile_webhook r p secret (NameWithPrefix ps) w = (Ok tt, w1) ∧
  let p2 := SetStatusRecord (active_status cfg d (now_seconds w) (now_seconds w1) p) p in
  (∃ w2, policy_call StatusUpdate p2 w1 = (Ok p', w2) ∧ same_objects w2 w') ∧
  ∃ v, p' = versioned v p2.

Lemma reconcile_webhook_status r s p secret name :
  reconcile_webhook r (SetStatusRecord s p) secret name = reconcile_webhook r p secret name.
Proof. by destruct p. Qed.

Lemma active_run_inv r p w res w' p' :
  reconcile_any r p w = (Ok res, w') → policy_at w p → GetDeletionTimestamp p = None →
  policy_at w' p' → PKind p' = PKind p → policy_key p' = policy_key p →
  reports active_condition (conditions p') →
  ∃ w1 ps d secret cfg, active_run r p w w' p' w1 ps d secret cfg.
Proof.
  intros Hrun Hat Hdel Hat' Hk Hkey Hact.
  destruct (reconcile_any_run _ _ _ _ _ Hat Hrun) as [pl Hsub].
  destruct (live_inv _ _ _ _ _ Hsub Hdel)
    as (w1 & p1 & p2 & w2 & p3 & Hpol & Hmode & Hst & Hsame & _). cbn [fst] in Hsame.
  destruct (setPolicyModeStatus_inv _ _ _ _ Hmode) as (p2' & Heq & Hr2 & _ & Hc2 & _).
  injection Heq as <-.
  pose proof (reconcilePolicy_inv _ _ _ _ _ _ Hpol) as [Hr1 _].
  assert (restatus p p2) as Hp2 by eauto using restatus_trans.
  pose proof (policy_status_update _ _ _ _ Hst) as (Hk3 & Hkey3 & Hstat & Hat3 & _).
  assert (p3 = p') as ->.
  { destruct Hp2 as [s ->]. rewrite kind_set_status in Hk3. rewrite key_set_status in Hkey3.
    eapply (policy_at_inj w'); [|exact Hat'|congruence|congruence].
    unfold policy_at. by rewrite Hsame. }
  assert (reports active_condition (conditions p1)) as Hact1.
  { unfold conditions in Hact. rewrite Hstat in Hact.
    eapply reports_find, Hact. change (c_Type active_condition) with PolicyActive. by rewrite Hc2. }
  destruct (reconcilePolicy_active _ _ _ _ _ _ Hpol Hact1)
    as (ps & d & secret & Hps & Hd & Hsec & Hweb & ->).
  destruct (prepared_restatus (now_seconds w) p) as [s Hprep].
  rewrite Hprep, reconcile_webhook_status in Hweb.
  assert (same_but (webhook_kind p) (webhook_key p) w w1) as Hbut.
  { revert Hweb. unfold reconcile_webhook. intros Hweb.
    apply (webhook_reconciled id id r p ps secret w w1). destruct (IsMutating p);
      by apply wrap_err_Ok_inv. }
  assert (∀ k key, k = KDeployment ∨ k = KConfigMap ∨ k = PKind p → Get k key w1 = Get k key w) as Hkeep.
  { intros k key Hk'. apply Hbut. unfold webhook_kind.
    by destruct Hk' as [->|[->| ->]], (IsMutating p), p. }
  destruct (restatus_keys r p _ Hr1) as (Hdk & _).
  destruct (setPolicyModeStatus_exact _ _ _ d _ Hmode) as (cfg & Hcfg & Heq).
  { rewrite Hdk, Hkeep by auto. done. }
  rewrite Hdk, Hkeep in Hcfg by auto. rewrite active_copy in Heq. injection Heq as ->.
  exists w1, ps, d, secret, cfg. split_and!; try done. split; [by exists w2|].
  eapply status_update_content; [exact Hst|exact Hp2|]. unfold policy_at in *. by rewrite Hkeep by auto.
Qed.
(** The objects a run reads are none it writes. *)
Lemma active_run_reads r p w w' p' w1 ps d secret cfg :
  active_run r p w w' p' w1 ps d secret cfg →
  (∀ k key, k = KPolicyServer ∨ k = KDeployment ∨ k = KSecret ∨ k = KConfigMap →
     Get k key w' = Get k key w) ∧
  (∀ k key, k = webhook_kind p → Get k key w' = Get k key w1) ∧
  same_but (webhook_kind p) (webhook_key p) w w1 ∧ same_but (PKind p) (policy_key p) w1 w'.
Proof.
  intros (_ & _ & _ & _ & Hweb & (w2 & Hst & Hsame) & _).
  assert (same_but (webhook_kind p) (webhook_key p) w w1) as Hbut.
  { revert Hweb. unfold reconcile_webhook. intros Hweb.
    apply (webhook_reconciled id id r p ps secret w w1). destruct (IsMutating p);
      by apply wrap_err_Ok_inv. }
  apply policy_status_update in Hst as (_ & _ & _ & _ & Hst).
  rewrite kind_set_status, key_set_status in Hst.
  assert (same_but (PKind p) (policy_key p) w1 w') as Hbut'
    by (intros k key Hne; by rewrite Hsame, Hst).
  split; [|split; [|done]].
  - intros k key Hk. unfold webhook_kind in Hbut. rewrite Hbut', Hbut; [done|..];
      destruct p, (IsMutating _); naive_solver.
  - intros k key ->. apply Hbut'. unfold webhook_kind. by destruct p, (IsMutating _).
Qed.

Lemma updateWebhook_again r policy secret name base o w w1 wc w2 :
  updateWebhookConfiguration r policy secret name base w = (Ok o, w1) →
  meta_stored (wc_Meta o) (wc_Meta wc) →
  updateWebhookConfiguration r policy secret name wc w2
  = (Ok (mkWebhookConfiguration (wc_Meta wc) (wc_Webhooks o)), w2).
Proof.
  unfold updateWebhookConfiguration. intros Hf Hm. inv_run Hf. subst. stored_fields Hm.
  rewrite <-Han, <-Hl, <-Hn. by rewrite om_set_Name_same, om_set_Labels_same, om_set_Annotations_same.
Qed.

Lemma webhook_calm r p secret name w w1 w2 :
  reconcile_webhook r p secret name w = (Ok tt, w1) →
  (∀ key, Get (webhook_kind p) key w2 = Get (webhook_kind p) key w1) →
  calm quiet (λ _ _, True) (reconcile_webhook r p secret name) w2.
Proof.
  unfold reconcile_webhook, webhook_kind. intros Hrun Hsame. destruct (IsMutating p);
    apply bind_Ok_inv in Hrun as (o' & w3 & Hrun & Hret); inv_run Hret; subst w3;
    apply wrap_err_Ok_inv in Hrun;
    (eapply CreateOrPatch_calm; [exact Hrun|apply Hsame|intros o; apply within_ret; apply _|]);
    intros base o w4 Hf [Hm Hd]; exists o; (split; [by left|]);
    exact (updateWebhook_again _ _ _ _ _ _ _ _ o' w2 Hf Hm).
Qed.
Lemma reconcile_webhook_versioned r v s p secret name :
  reconcile_webhook r (versioned v (SetStatusRecord s p)) secret name
  = reconcile_webhook r p secret name.
Proof. by destruct p. Qed.

Lemma reconcile_webhook_clock r p secret name : within clock_le (reconcile_webhook r p secret name).
Proof.
  unfold reconcile_webhook, reconcileMutatingWebhookConfiguration,
    reconcileValidatingWebhookConfiguration.
  case_match; (apply within_bind; [apply _|apply within_wrap|intros; apply within_ret; apply _]);
    apply CreateOrPatch_clock; intros o; apply within_ret; apply _.
Qed.

Lemma policy_status_again p w : policy_at w p → same_objects w (policy_call StatusUpdate p w).2.
Proof.
  unfold policy_at, policy_call, call.
  destruct p as [p|p|p|p]; cbn [policy_kind projT1 projT2]; intros Hat;
    match type of Hat with Get ?k _ _ = _ =>
      pose proof (StatusUpdate_again k p w Hat) as Hs end;
    unfold mbind, M_mbind, M_bind;
    match type of Hs with context [StatusUpdate ?k p w] =>
      destruct (StatusUpdate k p w) as [[] ?] end; exact Hs.
Qed.

(** The policy after a second run. *)
Definition restamped (t : Z) p : AnyPolicy :=
  SetConditions (replace_condition (at_time (Some t) active_condition) (conditions p)) p.

Lemma active_run_again r p w w' p' w1 ps d secret cfg w2 w3 p'' w1' ps' d' secret' cfg' :
  active_run r p w w' p' w1 ps d secret cfg → quiet w' w2 →
  active_run r p' w2 w3 p'' w1' ps' d' secret' cfg' →
  quiet w2 w1' ∧
  SetStatusRecord (active_status cfg' d' (now_seconds w2) (now_seconds w1') p') p'
  = restamped (now_seconds w1') p'.
Proof.
  intros Hrun [Hq _] Hrun2. destruct (active_run_reads _ _ _ _ _ _ _ _ _ _ Hrun) as (Hreads & Hwebs & _).
  destruct Hrun as (Hps & Hd & Hsec & Hcfg & Hweb & _ & v & Hp').
  destruct Hrun2 as (Hps2 & Hd2 & Hsec2 & Hcfg2 & Hweb2 & _).
  set (s := active_status cfg d (now_seconds w) (now_seconds w1) p) in *.
  assert (GetPolicyServer p' = GetPolicyServer p ∧ deployment_key r p' = deployment_key r p
    ∧ webhook_kind p' = webhook_kind p ∧ GetStatus p' = s ∧ configured_mode cfg p' = configured_mode cfg p)
    as (Hk1 & Hk2 & Hk3 & Hs & Hmode) by (rewrite Hp'; by destruct p).
  rewrite Hq, Hreads, Hk1 in Hps2 by auto. rewrite Hq, Hreads, Hk2 in Hd2 by auto.
  rewrite Hq, Hreads in Hsec2 by auto. rewrite Hq, Hreads, Hk2 in Hcfg2 by auto.
  assert (ps' = ps) as -> by congruence. assert (d' = d) as -> by congruence.
  assert (secret' = secret) as -> by congruence. assert (cfg' = cfg) as -> by congruence.
  rewrite Hp', reconcile_webhook_versioned in Hweb2. split.
  - destruct (webhook_calm r p secret (NameWithPrefix ps) w w1 w2 Hweb) as [Hc _].
    { intros key. by rewrite Hq, Hwebs. }
    by rewrite Hweb2 in Hc.
  - destruct (active_conditions_reports cfg d (now_seconds w) (now_seconds w1) (conditions p))
      as (Ha & Hr & Hc).
    assert (conditions p' = active_conditions cfg d (now_seconds w) (now_seconds w1) (conditions p))
      as Hcs by (unfold conditions at 1; by rewrite Hs).
    rewrite <-Hcs in Ha, Hr, Hc. unfold active_status, restamped.
    rewrite (active_conditions_again cfg d _ _ _ Ha Hr Hc), Hmode, Hp'. by destruct p.
Qed.
Lemma restamped_same t p :
  find_condition PolicyActive (conditions p) = Some (at_time (Some t) active_condition) →
  restamped t p = p.
Proof.
  intros Hf. unfold restamped.
  rewrite (replace_condition_same (at_time (Some t) active_condition) _ Hf).
  by destruct p as [[? ? ? []]|[? ? ? []]|[? ? ? []]|[? ? ? []]].
Qed.

(** (C34) A policy does not come to rest as a policy server does. When two
    successful runs in a row, with no change of the cluster between them,
    both leave the policy active, the second writes no other object, and of
    the policy only the time of the condition PolicyActive changes, and the
    resource version with it: the time is the second at which the later run
    set the condition. Only if that is the second already recorded does the
    run change nothing. *)
Theorem policy_rerun_restamps r p w res w' p' w2 res2 w3 p'' :
  policy_at w p → GetDeletionTimestamp p = None →
  reconcile_any r p w = (Ok res, w') → policy_at w' p' →
  PKind p' = PKind p → policy_key p' = policy_key p → reports active_condition (conditions p') →
  quiet w' w2 →
  reconcile_any r p' w2 = (Ok res2, w3) → policy_at w3 p'' →
  PKind p'' = PKind p → policy_key p'' = policy_key p → reports active_condition (conditions p'') →
  same_but (PKind p) (policy_key p) w2 w3 ∧
  ∃ t v, (now_seconds w2 ≤ t)%Z ∧ p'' = versioned v (restamped t p') ∧
    (find_condition PolicyActive (conditions p') = Some (at_time (Some t) active_condition) →
     same_objects w2 w3).
Proof.
  intros Hat Hdel Hrun Hat' Hk' Hkey' Hact' Hq Hrun2 Hat3 Hk'' Hkey'' Hact''.
  destruct (active_run_inv _ _ _ _ _ _ Hrun Hat Hdel Hat' Hk' Hkey' Hact')
    as (w1 & ps & d & secret & cfg & Hact).
  assert (policy_at w2 p') as Hat2 by (unfold policy_at in *; by rewrite (proj1 Hq)).
  assert (GetDeletionTimestamp p' = None) as Hdel2.
  { destruct Hact as (_ & _ & _ & _ & _ & _ & v & ->). by destruct p. }
  destruct (active_run_inv _ _ _ _ _ _ Hrun2 Hat2 Hdel2 Hat3)
    as (w1' & ps' & d' & secret' & cfg' & Hact2); [congruence..|done|].
  destruct (active_run_again _ _ _ _ _ _ _ _ _ _ _ _ _ _ _ _ _ _ Hact Hq Hact2) as [[Hs1 _] Heq].
  destruct Hact2 as (_ & _ & _ & _ & Hweb & (w4 & Hst & Hs4) & v & Hp''). rewrite Heq in Hst, Hp''.
  pose proof (within_run _ _ _ _ _ (reconcile_webhook_clock r p' secret' (NameWithPrefix ps')) Hweb) as Hc.
  split.
  - pose proof (policy_status_update _ _ _ _ Hst) as (_ & _ & _ & _ & Hbut).
    replace (PKind (restamped (now_seconds w1') p')) with (PKind p) in Hbut by (rewrite <-Hk'; by destruct p').
    replace (policy_key (restamped (now_seconds w1') p')) with (policy_key p) in Hbut
      by (rewrite <-Hkey'; by destruct p').
    intros k key Hne. by rewrite Hs4, Hbut, Hs1.
  - exists (now_seconds w1'), v. split; [by apply Z.div_le_mono|]. split; [done|].
    intros Hf. rewrite (restamped_same _ _ Hf) in Hst.
    assert (policy_at w1' p') as Hat1 by (unfold policy_at in *; by rewrite Hs1).
    pose proof (policy_status_again p' w1' Hat1) as Hagain. rewrite Hst in Hagain.
    trans w1'; [done|]. by trans w4.
Qed.
End policy.

(** ** Concrete runs *)

Section witnesses.
#[local] Existing Instance concrete_util.
#[local] Existing Instance concrete_range.
#[local] Existing Instance fake_client.
#[local] Existing Instance fake_env.
#[local] Existing Instance noop_meter.

(** The policy of [activated_world] reconciled again, five seconds later. *)
Definition second_run : Outcome Result * FakeWorld :=
  reconcile_any sample_sub activated_policy (later 5 activated_world).
Definition restamped_policy : AnyPolicy :=
  match fake_Get KAdmissionPolicy policy_ns_key second_run.2 with
  | inr p => PAdmissionPolicy p
  | inl _ => the_policy
  end.

Lemma second_run_ok :
  reconcile_any sample_sub activated_policy (later 5 activated_world) = (Ok empty_result, second_run.2).
Proof.
  apply (run_fst (reconcile_any sample_sub activated_policy)). vm_compute. reflexivity.
Qed.
Lemma activated_ok :
  reconcile_any sample_sub the_policy ready_world = (Ok empty_result, activated_world).
Proof. apply (run_fst (reconcile_any sample_sub the_policy)). vm_compute. reflexivity. Qed.
Lemma activated_at : policy_at activated_world activated_policy.
Proof. vm_compute. reflexivity. Qed.
Lemma activated_reports : reports active_condition (conditions activated_policy).
Proof. exists (Some 1700000000%Z). vm_compute. reflexivity. Qed.
Lemma restamped_at : policy_at second_run.2 restamped_policy.
Proof. vm_compute. reflexivity. Qed.
Lemma restamped_reports : reports active_condition (conditions restamped_policy).
Proof. exists (Some 1700000005%Z). vm_compute. reflexivity. Qed.
Lemma the_policy_again :
  policy_at ready_world the_policy ∧ GetDeletionTimestamp the_policy = None ∧
  PKind activated_policy = PKind the_policy ∧ policy_key activated_policy = policy_key the_policy ∧
  PKind restamped_policy = PKind the_policy ∧ policy_key restamped_policy = policy_key the_policy.
Proof. repeat split; vm_compute; reflexivity. Qed.

Lemma policy_rerun_restamps_witness :
  same_but (PKind the_policy) (policy_key the_policy) (later 5 activated_world) second_run.2.
Proof.
  destruct the_policy_again as (Hat & Hdel & Hk & Hkey & Hk2 & Hkey2).
  exact (proj1 (@policy_rerun_restamps FakeWorld concrete_util concrete_util_laws fake_client
    fake_env noop_meter fake_laws noop_meter_laws fake_quiet sample_sub the_policy ready_world
    empty_result activated_world activated_policy (later 5 activated_world) empty_result
    second_run.2 restamped_policy Hat Hdel activated_ok activated_at Hk Hkey activated_reports
    (later_quiet 5 activated_world) second_run_ok restamped_at Hk2 Hkey2 restamped_reports)).
Defined.

(** The condition is documented to carry the time of its last transition from
    one status to another. A policy that is active, and is reconciled five
    seconds later with nothing to do, is still active and still reports so,
    but its condition PolicyActive now says that it became so just now, and
    the policy was written again: the reconciliation sets the condition to
    False first and to True afterwards, and only the last of the two is ever
    stored. The write is a change of the policy that the controller watches. *)
Theorem active_condition_flaps :
  second_run.1 = Ok empty_result ∧ policy_at second_run.2 restamped_policy ∧
  (∀ q, q = activated_policy ∨ q = restamped_policy → st_PolicyStatus (GetStatus q) = PolicyStatusActive) ∧
  find_condition PolicyActive (conditions activated_policy)
    = Some (at_time (Some 1700000000%Z) active_condition) ∧
  find_condition PolicyActive (conditions restamped_policy)
    = Some (at_time (Some 1700000005%Z) active_condition) ∧
  om_ResourceVersion (GetObjectMeta restamped_policy)
    ≠ om_ResourceVersion (GetObjectMeta activated_policy).
Proof.
  split; [vm_compute; reflexivity|]. split; [exact restamped_at|].
  split; [intros q [->| ->]; vm_compute; reflexivity|]. repeat split; try (vm_compute; reflexivity).
  vm_compute. discriminate.
Qed.
End witnesses.
