(* ===== verification/CertStability.v ===== *)
(** * Certificates that are not due

    The ticker of the certificate controller runs it for ever; it changes the
    cluster only when the CA, the old CA or a server certificate is due. *)

From S2P Require Import Prelude GoStd Json K8sTypes Concrete Constants PolicyTypes PolicyServerTypes PolicyWebhook KubeClient FakeCluster ConfigMap Resources Deployment Certs CertController PolicyServerController Metrics PolicySubReconciler PolicyReconcile Lifecycle.
From S2P Require Import Stability.

(** ** The certificates *)

Section certs.
Context {World : Type} `{K8sUtil, !K8sUtilLaws, KubeClient World, Environment World,
  Retry World, !KubeClientLaws World, !RetryLaws World, !QuietLaws World}.
Implicit Types (w : World) (T : Z).

(** The run changes nothing, provided it ends by [T]. *)
Definition until T {A} (Q : A → Prop) (m : M World A) w : Prop :=
  (clock (m w).2 ≤ T)%Z → calm quiet (λ a _, Q a) m w.

Lemma until_run T {A} (Q : A → Prop) (m : M World A) w :
  within clock_le m → ((clock w ≤ T)%Z → calm quiet (λ a _, Q a) m w) → until T Q m w.
Proof. intros Hm Hc HT. apply Hc. pose proof (Hm w) as Hle. unfold clock_le in Hle. lia. Qed.
Lemma until_wrap T g {A} (Q : A → Prop) (m : M World A) w : until T Q m w → until T Q (wrap_err g m) w.
Proof.
  unfold until. intros Hm HT. apply calm_wrap, Hm. revert HT. unfold wrap_err.
  by destruct (m w) as [[]].
Qed.
Lemma until_bind T {A B} (P : A → Prop) (Q : B → Prop) (m : M World A) f w :
  until T P m w → within clock_le m → (∀ a, within clock_le (f a)) →
  (∀ a w1, quiet w w1 → clock_le w w1 → P a → until T Q (f a) w1) → until T Q (m ≫= f) w.
Proof.
  unfold until. intros Hm Hcm Hcf Hf HT. pose proof (Hcm w) as Hle.
  assert ((clock (m w).2 ≤ T)%Z) as HT1.
  { revert HT. unfold mbind, M_mbind, M_bind. destruct (m w) as [[a|e|x|c] w1]; try done.
    pose proof (Hcf a w1) as Hle1. unfold clock_le in Hle1. cbn. lia. }
  specialize (Hm HT1). unfold calm, mbind, M_mbind, M_bind in *.
  destruct (m w) as [[a|e|x|c] w1]; cbn [fst snd] in *; [|by destruct Hm..].
  destruct Hm as [Hq HP]. destruct (Hf a w1 Hq Hle HP HT) as [Hq' HQ]. split; [by trans w1|done].
Qed.
Lemma until_read T {A} (f : World → GoError + A) (P : A → Prop) w :
  (∀ a, f w = inr a → P a) → until T P (read f) w.
Proof.
  intros HP _. unfold calm, read, call. destruct (f w) as [e|a]; cbn; (split; [done|]); auto.
Qed.

Lemma Now_quiet w t w' : Now w = (t, w') → quiet w w'.
Proof.
  intros Hn. destruct (Now_reads _ _ _ Hn) as (_ & _ & Hs). pose proof (Now_env w) as He.
  rewrite Hn in He. by split.
Qed.

(** At the time [t], no certificate is due: the CA of [caS], and every server
    certificate under it, verify 60 days ahead, and the old CA verifies. *)
Record not_due (r : CertReconciler) w (caS : Secret) (ca caKey : Bytes) (pool : list Certificate) (t : Z) : Prop := {
  ca_not_due : VerifyCA ca (Some caKey) (t + CertLookahead) = Ok tt;
  old_not_due old : s_Data caS !! OldCARootCert = Some old → VerifyCA old None t = Ok tt;
  server_not_due key s service : Get KSecret key w = inr s →
    server_secret r s ∧ service = om_Name (s_Meta s) ∨
    key = mkNN (cr_DeploymentsNamespace r) (cr_WebhookServerCertSecretName r) ∧
    service = cr_WebhookServiceName r →
    ∃ cert certKey, ExtractServerCertFromSecret s = inr (cert, certKey) ∧
      VerifyCert cert (Some certKey) pool (DNSName service (cr_DeploymentsNamespace r))
        (t + CertLookahead) = Ok tt;
}.
Lemma CARoot_until T (s : Secret) ca key w :
  ExtractCARootFromSecret s = inr (ca, key) →
  (∀ t, (clock w ≤ t ≤ T)%Z → VerifyCA ca (Some key) (t + CertLookahead) = Ok tt) →
  until T (λ s', s' = s) (reconcileCARoot s) w.
Proof.
  intros He Hv. apply until_run; [apply within_reconcileCARoot|]. intros HT.
  destruct (Now w) as [t w1] eqn:Hn. pose proof (Now_quiet _ _ _ Hn) as Hq.
  destruct (Now_reads _ _ _ Hn) as (-> & _). apply (calm_run quiet _ _ (Ok s) w1); [|done..].
  unfold reconcileCARoot, lift_sum, now, mbind, M_mbind, M_bind, wrap_err, try, lift_outcome.
  rewrite He. cbn [mret M_mret]. rewrite Hn, Hv by lia. done.
Qed.

Lemma OldCARoot_until T (s : Secret) w :
  (∀ t old, (clock w ≤ t ≤ T)%Z → s_Data s !! OldCARootCert = Some old → VerifyCA old None t = Ok tt) →
  until T (λ s', s' = s) (reconcileOldCARoot s) w.
Proof.
  intros Hv. apply until_run; [apply within_reconcileOldCARoot|]. intros HT. unfold reconcileOldCARoot.
  destruct (s_Data s !! OldCARootCert) as [old|]; [|by apply (calm_run quiet _ _ (Ok s) w)].
  destruct (Now w) as [t w1] eqn:Hn. pose proof (Now_quiet _ _ _ Hn) as Hq.
  destruct (Now_reads _ _ _ Hn) as (-> & _). apply (calm_run quiet _ _ (Ok s) w1); [|done..].
  unfold now, mbind, M_mbind, M_bind, wrap_err, try, lift_outcome.
  rewrite Hn, (Hv (clock w) old) by (done || lia). done.
Qed.

Lemma ServerCert_until T (s caS : Secret) ca caKey pool cert key dns w :
  ExtractServerCertFromSecret s = inr (cert, key) → ExtractCARootFromSecret caS = inr (ca, caKey) →
  NewCertPool ca = inr pool →
  (∀ t, (clock w ≤ t ≤ T)%Z → VerifyCert cert (Some key) pool dns (t + CertLookahead) = Ok tt) →
  until T (λ _, True) (reconcileServerCert s caS dns) w.
Proof.
  intros Hs He Hp Hv. apply until_run; [apply within_reconcileServerCert|]. intros HT.
  destruct (Now w) as [t w1] eqn:Hn. pose proof (Now_quiet _ _ _ Hn) as Hq.
  destruct (Now_reads _ _ _ Hn) as (-> & _). apply (calm_run quiet _ _ (Ok tt) w1); [|done..].
  unfold reconcileServerCert, lift_sum, now, mbind, M_mbind, M_bind, wrap_err, try, lift_outcome.
  rewrite Hs. cbn [mret M_mret]. rewrite He. cbn. rewrite Hp. cbn. rewrite Hn, Hv by lia. done.
Qed.

Lemma until_mfor T {A} (f : A → M World unit) l w :
  (∀ x, within clock_le (f x)) →
  (∀ x w1, x ∈ l → quiet w w1 → clock_le w w1 → until T (λ _, True) (f x) w1) →
  until T (λ _, True) (mfor f l) w.
Proof.
  intros Hc. revert w. induction l as [|x l IH]; intros w Hf.
  { apply until_run; [apply within_ret; apply _|]. intros _. apply calm_ret; [apply _|done]. }
  cbn [mfor]. apply (until_bind T (λ _, True)); [by apply Hf; [left| |]|done| |].
  - intros _. by apply within_mfor; [apply _|].
  - intros _ w1 Hq Hle _. apply IH. intros y w2 Hy Hq2 Hle2. apply Hf; [by right|..].
    + by trans w1.
    + unfold clock_le in *. lia.
Qed.

Lemma ServerCerts_until T (r : CertReconciler) w w0 (caS : Secret) ca caKey pool :
  quiet w0 w → clock_le w0 w →
  ExtractCARootFromSecret caS = inr (ca, caKey) → NewCertPool ca = inr pool →
  (∀ t, (clock w0 ≤ t ≤ T)%Z → not_due r w0 caS ca caKey pool t) →
  until T (λ _, True) (reconcileServerCerts r caS) w.
Proof.
  intros Hq Hle He Hp Hdue. unfold clock_le in Hle.
  assert (∀ key s service w1, quiet w w1 → clock_le w w1 → Get KSecret key w = inr s →
    server_secret r s ∧ service = om_Name (s_Meta s) ∨
    key = mkNN (cr_DeploymentsNamespace r) (cr_WebhookServerCertSecretName r) ∧
    service = cr_WebhookServiceName r →
    until T (λ _, True)
      (reconcileServerCert s caS (DNSName service (cr_DeploymentsNamespace r))) w1) as Hstep.
  { intros key s service w1 Hq1 Hle1 Hg Hs. unfold clock_le in Hle1. rewrite (proj1 Hq) in Hg.
    intros HT. assert (clock w1 ≤ T)%Z as HwT
      by exact (Z.le_trans _ _ _ (within_reconcileServerCert s caS _ w1) HT).
    pose proof (Z.le_trans _ _ _ Hle Hle1) as Hw0.
    destruct (server_not_due _ _ _ _ _ _ _ (Hdue (clock w1) (conj Hw0 HwT)) key s service Hg Hs)
      as (cert & certKey & Hc & _).
    apply (ServerCert_until T s caS ca caKey pool cert certKey); [done..| |exact HT].
    intros t Ht. destruct (server_not_due _ _ _ _ _ _ _ 
      (Hdue t (conj (Z.le_trans _ _ _ Hw0 (proj1 Ht)) (proj2 Ht))) key s service Hg Hs)
      as (cert' & certKey' & Hc' & Hv). rewrite Hc in Hc'. by simplify_eq. }
  unfold reconcileServerCerts.
  apply (until_bind T (λ s : Secret, Get KSecret (mkNN (cr_DeploymentsNamespace r)
    (cr_WebhookServerCertSecretName r)) w = inr s)); [by apply until_wrap, until_read|solve_within..|].
  intros wh w1 Hq1 Hle1 Hwh.
  apply (until_bind T (λ _, True)); [|solve_within..|].
  { apply until_wrap. by apply (Hstep _ wh _ w1 Hq1 Hle1 Hwh); right. }
  intros _ w2 Hq2 Hle2 _.
  apply (until_bind T (λ l, List KSecret (server_secrets r) w2 = inr l));
    [by apply until_wrap, until_read|solve_within..|].
  intros l w3 Hq3 Hle3 Hl. unfold clock_le in *. apply until_mfor; [solve_within|].
  intros s w4 Hs Hq4 Hle4. apply until_wrap. unfold clock_le in *.
  apply (List_spec KSecret _ _ _ _ Hl) in Hs as (key & Hg & Hm).
  apply server_secret_listed in Hm. apply (Hstep key s); [by trans w1; [|trans w2; [|trans w3]]|..].
  - unfold clock_le. lia.
  - rewrite (proj1 Hq2), (proj1 Hq1) in Hg. done.
  - by left.
Qed.

Lemma certificates_until T (r : CertReconciler) w (caS : Secret) ca caKey pool :
  Get KSecret (mkNN (cr_DeploymentsNamespace r) (cr_CARootSecretName r)) w = inr caS →
  ExtractCARootFromSecret caS = inr (ca, caKey) → NewCertPool ca = inr pool →
  (∀ t, (clock w ≤ t ≤ T)%Z → not_due r w caS ca caKey pool t) →
  until T (λ _, True) (certReconciler_reconcile r) w.
Proof.
  intros Hca He Hp Hdue. unfold certReconciler_reconcile.
  apply (until_bind T (λ s : Secret, s = caS));
    [apply until_wrap, until_read; congruence|solve_within..|].
  intros s w1 Hq1 Hle1 ->.
  assert (∀ t w2, clock_le w w2 → (clock w2 ≤ t ≤ T)%Z → (clock w ≤ t ≤ T)%Z) as Hwin
    by (unfold clock_le; lia).
  apply (until_bind T (λ s : Secret, s = caS)); [|solve_within..|].
  { apply until_wrap. apply (CARoot_until T caS ca caKey); [done|]. intros t Ht.
    by apply (ca_not_due _ _ _ _ _ _ _ (Hdue t (Hwin _ _ Hle1 Ht))). }
  intros s w2 Hq2 Hle2 ->. assert (clock_le w w2) as Hle by (unfold clock_le in *; lia).
  apply (until_bind T (λ s : Secret, s = caS)); [|solve_within..|].
  { apply until_wrap, OldCARoot_until. intros t old Ht Hold.
    by apply (old_not_due _ _ _ _ _ _ _ (Hdue t (Hwin _ _ Hle Ht))). }
  intros s w3 Hq3 Hle3 ->. apply until_wrap.
  apply (ServerCerts_until T r w3 w caS ca caKey pool); try done.
  - by trans w1; [|trans w2].
  - unfold clock_le in *. lia.
Qed.

(** (C15) The certificate controller rests until something is due: when the CA and
    all server certificates verify 60 days ahead of every moment of the run,
    and the old CA verifies, the run changes no object of the cluster, and
    does not panic. *)
Theorem certificates_rest (r : CertReconciler) w (caS : Secret) ca caKey pool :
  let run := certReconciler_reconcile r w in
  Get KSecret (mkNN (cr_DeploymentsNamespace r) (cr_CARootSecretName r)) w = inr caS →
  ExtractCARootFromSecret caS = inr (ca, caKey) → NewCertPool ca = inr pool →
  (∀ t, (clock w ≤ t ≤ clock run.2)%Z → not_due r w caS ca caKey pool t) →
  quiet w run.2 ∧ (run.1 = Ok tt ∨ ∃ e, run.1 = Err e).
Proof.
  intros run Hca He Hp Hdue.
  assert (until (clock run.2) (λ _, True) (certReconciler_reconcile r) w) as Hu.
  { set (T := clock run.2) in *. clearbody T. clear run. by eapply certificates_until. }
  destruct (Hu ltac:(reflexivity)) as [Hq Hr]. split; [exact Hq|]. fold run in Hr.
  destruct run.1 as [[]|e|x|c]; [by left|right; by exists e|done..].
Qed.
End certs.

(** ** A concrete run *)

Section witnesses.
#[local] Existing Instance concrete_util.
#[local] Existing Instance concrete_range.
#[local] Existing Instance fake_client.
#[local] Existing Instance fake_env.
#[local] Existing Instance concrete_retry.

(** A boolean test for [not_due]. *)
Definition cert_not_due (ns : string) (pool : list Certificate) (t : Z) (service : string)
    (s : Secret) : bool :=
  match ExtractServerCertFromSecret s with
  | inr (cert, key) => verifies (VerifyCert cert (Some key) pool (DNSName service ns) (t + CertLookahead))
  | inl _ => false
  end.
Definition secret_not_due (r : CertReconciler) (pool : list Certificate) (t : Z)
    (ks : NamespacedName * Secret) : bool :=
  let ns := cr_DeploymentsNamespace r in
  implb (bool_decide (om_Namespace (s_Meta ks.2) = ns ∧ policy_server_component ⊆ om_Labels (s_Meta ks.2)))
    (cert_not_due ns pool t (om_Name (s_Meta ks.2)) ks.2) &&
  implb (bool_decide (ks.1 = mkNN ns (cr_WebhookServerCertSecretName r)))
    (cert_not_due ns pool t (cr_WebhookServiceName r) ks.2).
Definition all_not_due (r : CertReconciler) (w : FakeWorld) (caS : Secret) (ca caKey : Bytes)
    (pool : list Certificate) (t : Z) : bool :=
  verifies (VerifyCA ca (Some caKey) (t + CertLookahead)) &&
  match s_Data caS !! OldCARootCert with Some old => verifies (VerifyCA old None t) | None => true end &&
  forallb (secret_not_due r pool t) (map_to_list (fw_store w KSecret)).

Lemma cert_not_due_ok ns pool t service s :
  cert_not_due ns pool t service s = true →
  ∃ cert key, ExtractServerCertFromSecret s = inr (cert, key) ∧
    VerifyCert cert (Some key) pool (DNSName service ns) (t + CertLookahead) = Ok tt.
Proof.
  unfold cert_not_due. destruct (ExtractServerCertFromSecret s) as [e|[cert key]]; [done|].
  intros Hv. exists cert, key. split; [done|]. by apply verifies_true.
Qed.
Lemma all_not_due_ok r (w : FakeWorld) caS ca caKey pool t :
  all_not_due r w caS ca caKey pool t = true → not_due r w caS ca caKey pool t.
Proof.
  unfold all_not_due. intros [[Hca Hold]%andb_true_iff Hall]%andb_true_iff. split.
  - by apply verifies_true.
  - intros old Ho. rewrite Ho in Hold. by apply verifies_true.
  - intros key s service Hg Hs. apply cert_not_due_ok.
    apply (fake_Get_inv KSecret) in Hg as (_ & Hin & _).
    rewrite forallb_forall in Hall.
    assert (In (key, s) (map_to_list (fw_store w KSecret))) as Hel
      by by apply list_elem_of_In, elem_of_map_to_list.
    specialize (Hall _ Hel). unfold secret_not_due in Hall. cbn [fst snd] in Hall.
    apply andb_true_iff in Hall as [Hsrv Hwh].
    destruct Hs as [[Hs ->]|[-> ->]].
    + by rewrite bool_decide_eq_true_2 in Hsrv.
    + by rewrite bool_decide_eq_true_2 in Hwh.
Qed.

(** A cluster with a policy server, after a reconciliation of its
    certificates. *)
Definition rotated_certs : FakeWorld :=
  let w := server_world full_server [settings_policy] in
  let w := (PolicyServerReconciler_Reconcile full_reconciler server_req w).2 in
  (certReconciler_reconcile sample_cert_reconciler w).2.
Definition rotated_ca : Secret :=
  match fake_Get KSecret (mkNN "kubewarden" CARootSecretName) rotated_certs with
  | inr s => s
  | inl _ => ca_secret
  end.
Definition rotated_pair : Bytes * Bytes :=
  match ExtractCARootFromSecret rotated_ca with inr p => p | inl _ => ([], []) end.
Definition rotated_pool : list Certificate :=
  match NewCertPool rotated_pair.1 with inr pool => pool | inl _ => [] end.

Definition rest_run : Outcome unit * FakeWorld :=
  certReconciler_reconcile sample_cert_reconciler rotated_certs.

Lemma rotated_not_due t :
  (clock rotated_certs ≤ t ≤ clock rest_run.2)%Z →
  not_due sample_cert_reconciler rotated_certs rotated_ca rotated_pair.1 rotated_pair.2 rotated_pool t.
Proof.
  intros Ht. apply all_not_due_ok.
  assert (forallb (all_not_due sample_cert_reconciler rotated_certs rotated_ca rotated_pair.1
    rotated_pair.2 rotated_pool)
    (seqZ (clock rotated_certs) (clock rest_run.2 - clock rotated_certs + 1)) = true) as Hall
    by (vm_compute; reflexivity).
  exact (forallb_seqZ _ _ _ _ Hall Ht).
Qed.
Lemma rotated_stored :
  Get KSecret (mkNN (cr_DeploymentsNamespace sample_cert_reconciler)
    (cr_CARootSecretName sample_cert_reconciler)) rotated_certs = inr rotated_ca ∧
  ExtractCARootFromSecret rotated_ca = inr (rotated_pair.1, rotated_pair.2) ∧
  NewCertPool rotated_pair.1 = inr rotated_pool.
Proof.
  split; [vm_compute; reflexivity|]. split; vm_compute; reflexivity.
Qed.

Lemma certificates_rest_witness : rest_run.1 = Ok tt ∧ quiet rotated_certs rest_run.2.
Proof.
  destruct rotated_stored as (Hca & He & Hp). split; [vm_compute; reflexivity|].
  exact (proj1 (@certificates_rest FakeWorld concrete_util fake_client fake_env concrete_retry
    fake_laws concrete_retry_laws fake_quiet sample_cert_reconciler rotated_certs rotated_ca
    rotated_pair.1 rotated_pair.2 rotated_pool Hca He Hp rotated_not_due)).
Defined.
End witnesses.
