(* ===== verification/System.v ===== *)
(** * The controllers together

    Theorems about runs that go through several controllers: the certificate
    controller and a policy controller agree on who is trusted; deleting a
    policy server ends; a policy that is bound to a server ends up active; and
    the bundle of a CA rotation is overwritten by the policy controllers. *)

From S2P Require Import Prelude GoStd Json K8sTypes Concrete Constants PolicyTypes PolicyServerTypes PolicyWebhook KubeClient FakeCluster ConfigMap Resources Deployment Certs CertController PolicyServerController Metrics PolicySubReconciler PolicyReconcile PolicyWatches Lifecycle.

(** ** Trust *)

Section trust.
Context {World : Type} `{K8sUtil, !K8sUtilLaws, KubeClient World, Environment World,
  Meter World, Retry World, !KubeClientLaws World, !MeterLaws World, !RetryLaws World}.
Implicit Types (w : World) (p : AnyPolicy) (r : policySubReconciler) (cr : CertReconciler).

Lemma ExtractCARoot_cert s ca key :
  ExtractCARootFromSecret s = inr (ca, key) → s_Data s !! CARootCert = Some ca.
Proof.
  unfold ExtractCARootFromSecret, extract.
  destruct (s_Data s !! CARootCert) as [c|]; [|done].
  destruct c, (s_Data s !! CARootPrivateKey) as [[]|]; naive_solver.
Qed.

(** A successful reconciliation of a policy that can be enforced enforces it,
    and leaves the secrets. *)
Lemma policy_enforced r p w res w' ps secret :
  reconcile_any r p w = (Ok res, w') → policy_at w p → GetDeletionTimestamp p = None →
  activatable r p w ps secret →
  enforced r p ps secret w' ∧ ∀ key, Get KSecret key w' = Get KSecret key w.
Proof.
  intros Hrun Hat Hdel Ha.
  destruct (policy_reconcile_inv _ _ _ _ _ Hrun Hat Hdel)
    as (p' & _ & _ & _ & [(ps' & secret' & Ha' & Henf & _ & _ & _ & Hsame)|(Hno & _)]).
  - destruct Ha as (_ & Hps & _ & Hsec), Ha' as (_ & Hps' & _ & Hsec').
    assert (ps' = ps) as -> by congruence. assert (secret' = secret) as -> by congruence.
    split; [done|]. intros key. apply Hsame; unfold webhook_kind; destruct (IsMutating p); by destruct p.
  - destruct Hno. by exists ps, secret.
Qed.

(** (C4) Trust, end to end: the certificate controller ran, then a policy was
    reconciled that can be enforced. The API server is told, in the webhook
    configuration, to call a service and to trust a CA bundle; the secret of
    that service, which its pods serve from, has a certificate that is good
    for the service's name under that very bundle. *)
Theorem webhook_trusts_server cr r p w w1 w2 res ps (caSecret secret s : Secret) :
  let ns := cr_DeploymentsNamespace cr in
  certReconciler_reconcile cr w = (Ok tt, w1) →
  Get KSecret (mkNN ns (cr_CARootSecretName cr)) w = inr caSecret →
  string_data_free w → ¬ server_secret cr caSecret →
  cr_CARootSecretName cr = CARootSecretName → cr_WebhookServerCertSecretName cr ≠ CARootSecretName →
  sub_deploymentsNamespace r = ns →
  reconcile_any r p w1 = (Ok res, w2) → policy_at w1 p → GetDeletionTimestamp p = None →
  activatable r p w1 ps secret →
  Get KSecret (mkNN ns (NameWithPrefix ps)) w1 = inr s → server_secret cr s →
  ∃ wc wh svc, get_webhook p w2 = inr wc ∧ wc_Webhooks wc = [wh] ∧
    wcc_Service (wh_ClientConfig wh) = Some svc ∧
    Get KSecret (mkNN (sr_Namespace svc) (sr_Name svc)) w2 = inr s ∧
    good_cert (wcc_CABundle (wh_ClientConfig wh)) (DNSName (sr_Name svc) (sr_Namespace svc))
      (clock w) (clock w1) s.
Proof.
  intros ns Hcert Hca Hfree Hnot Hname Hne Hns Hrun Hat Hdel Ha Hs Hsrv.
  destruct (certReconciler_reconcile_inv cr w w1 caSecret Hcert Hca Hfree Hnot)
    as (caS & ca & caKey & Huniq & Hext & _ & Hgood & _); [intros [= Heq]; congruence|].
  destruct (policy_enforced _ _ _ _ _ _ _ Hrun Hat Hdel Ha) as [(wc & wh & Hwc & Hwh & Hst & _) Hsec].
  destruct Hst as (_ & Hcc & _). exists wc, wh. rewrite Hcc. eexists.
  split; [done|]. split; [done|]. split; [done|]. cbn [sr_Namespace sr_Name wcc_CABundle wh_ClientConfig admission_webhook].
  rewrite Hns, Hsec. split; [done|].
  destruct Ha as (_ & _ & _ & Hsecret). rewrite Hns in Hsecret.
  rewrite Hname in Huniq. rewrite (Huniq secret Hsecret), (ExtractCARoot_cert _ _ _ Hext).
  pose proof (Get_key KSecret _ _ _ Hs) as [= _ Hn]. cbn in Hn.
  pose proof (Hgood _ _ Hs Hsrv) as Hg. by rewrite Hn in Hg.
Qed.

(** The rotation branch, when the CA does not verify ahead. *)
Lemma reconcileCARoot_rotated (s0 : Secret) w (s1 : Secret) w1 old oldKey :
  reconcileCARoot s0 w = (Ok s1, w1) → s_StringData s0 = ∅ →
  ExtractCARootFromSecret s0 = inr (old, oldKey) →
  VerifyCA old (Some oldKey) (clock w + CertLookahead) ≠ Ok tt →
  ∃ ca caKey pool, ExtractCARootFromSecret s1 = inr (ca, caKey) ∧ NewCertPool ca = inr pool ∧
    s_Data s1 !! OldCARootCert = Some old ∧
    (∀ s2, Get KSecret (om_key (s_Meta s0)) w1 = inr s2 → s2 = s1) ∧
    (∀ c, kubewarden_config w1 c → has_bundle (ca ++ old) c) ∧
    (∀ key, key ≠ om_key (s_Meta s0) → Get KSecret key w1 = Get KSecret key w).
Proof.
  intros Hrun Hsd He Hv. apply reconcileCARoot_inv in Hrun
    as (ca & key & He' & [(Hok & _)|(e & _ & w2 & _ & Hs & Hrun)]);
    rewrite He in He'; injection He' as <- <-; [done|].
  destruct (rotateCARoot_inv _ _ _ _ _ Hrun Hsd)
    as (ca' & key' & t & _ & Hv' & Hx & Ho & _ & _ & _ & Hget & Hb & Hkeep).
  destruct (VerifyCA_pool ca' (Some key') t) as [pool Hpool].
  { apply Hv'. unfold truncate_seconds, CACertExpiration, Hour, Second.
    set (x := (t + 10 * 365 * 24 * (3600 * 1000000000))%Z).
    pose proof (Z.mod_pos_bound x 1000000000 eq_refl).
    pose proof (Z.div_mod x 1000000000 ltac:(done)). unfold x in *. lia. }
  exists ca', key', pool. split_and!; try done. intros k Hk. rewrite Hkeep by done. apply Hs.
Qed.

(** (C36) The bundle of a rotation does not last. The rotation of the CA puts the
    new and the old CA in every webhook configuration and keeps the old one in
    the secret, so that the certificate a policy server presents, which is
    still that of before, stays accepted; it does not touch that certificate.
    But when a policy of the server is then reconciled successfully (and the
    watch on webhook configurations triggers that), its webhook configuration
    is left with the new CA alone, while the secret keeps the old CA and the
    server its certificate. That certificate was accepted with the bundle of
    the rotation wherever the old CA accepted it, and is refused with the one
    that replaced it, for every name and time, when nothing of the new CA
    vouches for what the old one does. *)
Theorem rotation_bundle_overwritten r p (s0 s1 s secret : Secret) w w1 w2 res ps
    old oldKey oldPool cert key :
  reconcileCARoot s0 w = (Ok s1, w1) → s_StringData s0 = ∅ →
  om_key (s_Meta s0) = mkNN (sub_deploymentsNamespace r) CARootSecretName →
  ExtractCARootFromSecret s0 = inr (old, oldKey) → NewCertPool old = inr oldPool →
  VerifyCA old (Some oldKey) (clock w + CertLookahead) ≠ Ok tt →
  let server := mkNN (sub_deploymentsNamespace r) (NameWithPrefix ps) in
  Get KSecret server w = inr s → NameWithPrefix ps ≠ CARootSecretName →
  ExtractServerCertFromSecret s = inr (cert, key) →
  reconcile_any r p w1 = (Ok res, w2) → policy_at w1 p → GetDeletionTimestamp p = None →
  activatable r p w1 ps secret →
  ∃ ca pool wc wh, NewCertPool ca = inr pool ∧
    (∀ c, kubewarden_config w1 c → has_bundle (ca ++ old) c) ∧
    get_webhook p w2 = inr wc ∧ wc_Webhooks wc = [wh] ∧ wcc_CABundle (wh_ClientConfig wh) = ca ∧
    Get KSecret (om_key (s_Meta s0)) w2 = inr s1 ∧ s_Data s1 !! OldCARootCert = Some old ∧
    Get KSecret server w2 = inr s ∧
    ∀ dns at_, VerifyCert cert (Some key) oldPool dns at_ = Ok tt →
      NewCertPool (ca ++ old) = inr (pool ++ oldPool) ∧
      VerifyCert cert (Some key) (pool ++ oldPool) dns at_ = Ok tt ∧
      (unrelated oldPool pool → ∀ dns' at', VerifyCert cert (Some key) pool dns' at' ≠ Ok tt).
Proof.
  intros Hrot Hsd Hkey He Hold Hv server Hs Hne Hx Hrun Hat Hdel Ha.
  destruct (reconcileCARoot_rotated _ _ _ _ _ _ Hrot Hsd He Hv)
    as (ca & caKey & pool & Hca & Hpool & Ho & Huniq & Hb & Hkeep).
  destruct (policy_enforced _ _ _ _ _ _ _ Hrun Hat Hdel Ha) as [(wc & wh & Hwc & Hwh & Hst & _) Hsec].
  destruct Ha as (_ & _ & _ & Hsecret). rewrite <-Hkey in Hsecret.
  pose proof (Huniq _ Hsecret) as ->.
  exists ca, pool, wc, wh. split; [done|]. split; [done|]. split; [done|]. split; [done|].
  split.
  { destruct Hst as (_ & -> & _). cbn. by rewrite (ExtractCARoot_cert _ _ _ Hca). }
  rewrite !Hsec. split; [done|]. split; [done|]. split.
  { rewrite Hkeep; [done|]. rewrite Hkey. intros Heq%(f_equal nn_Name). by apply Hne. }
  intros dns at_ Hok. split; [by apply NewCertPool_app|]. split.
  - eapply VerifyCert_mono; [exact Hok|set_solver].
  - intros Hun dns' at'. by eapply VerifyCert_unrelated.
Qed.
End trust.

(** ** Deletion of a policy server *)

Section deletion.
Context {World : Type} `{K8sUtil, !K8sUtilLaws, KubeClient World, Environment World,
  Meter World, !KubeClientLaws World, !MeterLaws World}.
Implicit Types (w : World) (p q : AnyPolicy) (ps : PolicyServer).

(** The same policy, by kind and key. *)
Definition same_policy p q : Prop := PKind p = PKind q ∧ policy_key p = policy_key q.

(** Only the controller's finalizers are left on an object. *)
Definition own_finalizers (l : list string) : Prop :=
  ∀ f, f ∈ l → f = KubewardenFinalizer ∨ f = KubewardenFinalizerPre114.

Lemma own_finalizers_removed l :
  own_finalizers l →
  RemoveFinalizer (RemoveFinalizer l KubewardenFinalizerPre114) KubewardenFinalizer = [].
Proof.
  intros Hl. apply elem_of_nil_inv. intros f. rewrite !RemoveFinalizer_spec.
  intros (Hne & Hne' & Hf). by destruct (Hl f Hf).
Qed.

Lemma policy_at_unique w p q : policy_at w p → policy_at w q → same_policy p q → p = q.
Proof.
  unfold policy_at. intros Hp Hq [Hk Hkey]. rewrite Hkey in Hp. clear Hkey. revert Hp Hq.
  destruct p, q; try discriminate Hk; cbn [policy_kind projT1 projT2]; congruence.
Qed.
Lemma stored_policy_at w p : stored_policy w p ↔ policy_at w p.
Proof.
  unfold policy_at. split; [|by eexists]. intros [key Hg].
  unfold policy_key. by rewrite (Get_key _ _ _ _ Hg).
Qed.

(** A policy after a deletion loop is one from before it, perhaps marked. *)
Definition survivor w q : Prop :=
  ∃ q0, policy_at w q0 ∧ same_policy q0 q ∧ GetFinalizers q = GetFinalizers q0 ∧
    GetPolicyServer q = GetPolicyServer q0.

Lemma survivor_refl w q : policy_at w q → survivor w q.
Proof. intros Hq. by exists q. Qed.

Lemma of_kind_marked p (old o' : KObj (PKind p)) :
  marked (PKind p) old o' →
  GetFinalizers (of_kind p o') = GetFinalizers (of_kind p old) ∧
  GetPolicyServer (of_kind p o') = GetPolicyServer (of_kind p old) ∧
  GetDeletionTimestamp (of_kind p o') ≠ None.
Proof.
  intros (Hdel & Hst & _).
  assert (stored (PKind p) old old) as [(_ & _ & _ & _ & Hf & _) Hspec]%Hst
    by (split; [by split_and!|by destruct p]).
  destruct p; cbn in *; unfold GetPolicyServer; cbn; rewrite ?Hspec; by split_and!.
Qed.

Lemma delete_policy_survivor p w res w' q :
  try (delete_policy p) w = (Ok res, w') →
  match res with inl e => IsNotFound e = true | inr _ => True end →
  policy_at w' q → survivor w q.
Proof.
  unfold delete_policy. intros Hrun Hnf Hat. autorewrite with go in Hrun.
  destruct res as [e|[]]; autorewrite with go in Hrun.
  { apply Delete_notfound in Hrun as [Hs _]; [|done]. apply survivor_refl.
    unfold policy_at in *. by rewrite <-Hs. }
  apply (Delete_ok (PKind p)) in Hrun as (Hs & old & Hold & Hor).
  fold (policy_key p) in Hs, Hold, Hor.
  destruct (decide ((PKind q, policy_key q) = (PKind p, policy_key p))) as [Heq|Hne];
    [|by apply survivor_refl; unfold policy_at in *; rewrite <-Hs].
  pose proof (f_equal fst Heq) as Hk. pose proof (f_equal snd Heq) as Hkey. cbn [fst snd] in Hk, Hkey.
  destruct (policy_at_kind p w' q Hat Hk Hkey) as (o' & -> & Hget).
  destruct Hor as [[_ [e [Ha _]]]|(o'' & Hg & Hm)]; [congruence|].
  assert (o'' = o') as -> by congruence.
  destruct (of_kind_marked p old o' Hm) as (Hf & Hsrv & _).
  destruct (of_kind_spec p old) as (Hk0 & Hkey0 & Hat0).
  exists (of_kind p old). unfold same_policy.
  by rewrite Hat0, Hk0, Hkey0, (Get_key _ _ _ _ Hold), Hkey.
Qed.

Lemma survivor_trans w w1 q : (∀ q, policy_at w1 q → survivor w q) → survivor w1 q → survivor w q.
Proof.
  intros Hw (q1 & (q0 & Hat & [Hk Hkey] & Hf & Hs)%Hw & [Hk1 Hkey1] & Hf1 & Hs1). exists q0.
  unfold same_policy. by rewrite Hf1, Hf, Hs1, Hs, Hk, Hkey, Hk1, Hkey1.
Qed.

Lemma delete_loop_survivors policies w w' q :
  delete_loop policies w = (Ok [], w') → policy_at w' q → survivor w q.
Proof.
  revert w q. induction policies as [|p policies IH]; cbn [delete_loop]; intros w q Hrun Hat.
  { inv_run Hrun. subst. by apply survivor_refl. }
  destruct (GetDeletionTimestamp p) eqn:Hts; [by eapply IH|].
  autorewrite with go in Hrun. destruct Hrun as (res & w1 & Hdel & Hrun).
  autorewrite with go in Hrun. destruct Hrun as (errs & w2 & Hloop & Hrun). inv_run Hrun. subst.
  assert (errs = [] ∧ match res with inl e => IsNotFound e = true | inr _ => True end)
    as [-> Hnf] by (destruct res as [e|]; [by destruct (IsNotFound e)|done]).
  apply (survivor_trans w w1); [|by eapply IH].
  intros q'. by eapply delete_policy_survivor.
Qed.

(** ** The deletion of a policy removes it *)

Lemma policy_update_removes p0 q w p' w' :
  policy_call Update q w = (Ok p', w') → GetFinalizers q = [] → same_policy p0 q →
  policy_at w p0 → GetDeletionTimestamp p0 ≠ None → absent (PKind q) (policy_key q) w'.
Proof.
  intros Hrun Hfin [Hk Hkey] Hat Hdel.
  destruct (policy_at_kind q w p0 Hat Hk Hkey) as (old & -> & Hget).
  assert (om_DeletionTimestamp (kmeta (PKind q) old) ≠ None) as Hd by (by destruct q).
  assert (om_Finalizers (kmeta (PKind q) (projT2 (policy_kind q))) = []) as Hf by (by destruct q).
  assert (∃ o', Update (PKind q) (projT2 (policy_kind q)) w = (inr o', w')) as [o' Hu].
  { destruct q; cbn [policy_call] in Hrun; inv_run Hrun; subst; by eexists. }
  eapply Update_removes; [exact Hu|by destruct q|exact Hf|exact Hget|exact Hd].
Qed.

Lemma policy_deletion_inv r p w res w' :
  reconcile_any r p w = (Ok res, w') → policy_at w p → GetDeletionTimestamp p ≠ None →
  own_finalizers (GetFinalizers p) →
  absent (PKind p) (policy_key p) w' ∧
  ∀ k key, (k, key) ≠ (webhook_kind p, webhook_key p) → (k, key) ≠ (PKind p, policy_key p) →
    Get k key w' = Get k key w.
Proof.
  intros Hrun Hat Hdel Hown. destruct (reconcile_any_run _ _ _ _ _ Hat Hrun) as [pl Hsub].
  unfold policySubReconciler_reconcile in Hsub. inv_local Hsub.
  destruct (GetDeletionTimestamp p) as [t|] eqn:Ht; [|done].
  unfold reconcilePolicyDeletion in Hsub. inv_local Hsub. simplify_eq.
  match goal with Hw : (if IsMutating p then _ else _) w = (_, ?w1) |- _ =>
    assert (same_but (webhook_kind p) (webhook_key p) w w1) as Hs1
      by (unfold webhook_kind; destruct (IsMutating p); by eapply delete_webhook_inv) end.
  match goal with Hu : policy_call Update ?q ?w1 = _ |- _ =>
    assert (PKind q = PKind p ∧ policy_key q = policy_key p ∧ GetFinalizers q = [])
      as (Hk & Hkey & Hfin) by (rewrite <-(own_finalizers_removed _ Hown); by destruct p);
    assert (policy_at w1 p) as Hat1;
    [|pose proof (policy_update_removes p q _ _ _ Hu Hfin) as Habs;
      apply policy_update in Hu as [Hs2 _]] end.
  { unfold policy_at. rewrite Hs1; [done|]. unfold webhook_kind. destruct (IsMutating p); by destruct p. }
  rewrite Hk, Hkey in *. split; [apply Habs; [by split|done|by rewrite Ht]|].
  intros k key Hne1 Hne2. by rewrite Hs2, Hs1.
Qed.

(** The reconciliations of a list of policies. *)
Definition reconcile_all r (l : list AnyPolicy) : M World unit :=
  mfor (λ p, reconcile_any r p ;; mret tt) l.

Definition webhook_configuration (k : Kind) : Prop :=
  k = KValidatingWebhookConfiguration ∨ k = KMutatingWebhookConfiguration.

Lemma not_webhook p k key :
  ¬ webhook_configuration k → (k, key) ≠ (webhook_kind p, webhook_key p).
Proof. unfold webhook_configuration, webhook_kind. destruct (IsMutating p); naive_solver. Qed.
Lemma policy_not_webhook p : ¬ webhook_configuration (PKind p).
Proof. unfold webhook_configuration. destruct p; naive_solver. Qed.

Lemma reconcile_all_deleted r l w w' :
  NoDup l →
  (∀ p, p ∈ l → policy_at w p ∧ GetDeletionTimestamp p ≠ None ∧ own_finalizers (GetFinalizers p)) →
  reconcile_all r l w = (Ok tt, w') →
  (∀ p, p ∈ l → absent (PKind p) (policy_key p) w') ∧
  ∀ k key, ¬ webhook_configuration k → (∀ p, p ∈ l → (k, key) ≠ (PKind p, policy_key p)) →
    Get k key w' = Get k key w.
Proof.
  unfold reconcile_all. revert w.
  induction l as [|p l IH]; intros w Hnd Hl Hrun; cbn [mfor] in Hrun.
  { inv_run Hrun. subst. split; [by intros p Hp%elem_of_nil|done]. }
  apply NoDup_cons in Hnd as [Hnin Hnd].
  autorewrite with go in Hrun. destruct Hrun as ([] & w1 & Hp & Hrun).
  autorewrite with go in Hp. destruct Hp as (res & w2 & Hrec & Hret). inv_run Hret. subst w2.
  destruct (Hl p) as (Hat & Hdel & Hown); [left|].
  destruct (policy_deletion_inv _ _ _ _ _ Hrec Hat Hdel Hown) as [Habs Hframe].
  assert (∀ q, q ∈ l → (PKind q, policy_key q) ≠ (PKind p, policy_key p)) as Hother.
  { intros q Hq [= Hk Hkey]. apply Hnin.
    rewrite (policy_at_unique w p q); [done|done|by apply Hl; right|].
    split; [done|]. unfold policy_key, kkey, om_key. congruence. }
  destruct (IH w1 Hnd) as [Hall Hfr]; [|done|].
  { intros q Hq. destruct (Hl q) as (Hatq & ? & ?); [by right|]. split_and!; [|done|done].
    unfold policy_at. rewrite Hframe; [done| |by apply Hother].
    apply not_webhook, policy_not_webhook. }
  split.
  - intros q [->|Hq]%elem_of_cons; [|by apply Hall].
    unfold absent in *. rewrite Hfr; [done|apply policy_not_webhook|].
    intros q Hq Heq. by apply (Hother q Hq).
  - intros k key Hk Hno. rewrite Hfr; [|done|intros q Hq; apply Hno; by right].
    apply Hframe; [by apply not_webhook|apply Hno; left].
Qed.

(** (C5) Deleting a policy server comes to an end: when the server has only
    the controller's finalizers, as have the policies bound to it, one
    successful reconciliation of the server, one of each bound policy that is
    left, and another one of the server remove them all, provided the lists of
    the four kinds of policies succeed when the server is reconciled and the
    last update does not conflict with another one. *)
Theorem server_deletion_completes rs r (req : Request) w w1 w2 w3 res1 res3 ps l :
  PolicyServerReconciler_Reconcile rs req w = (Ok res1, w1) →
  reconcile_all r l w1 = (Ok tt, w2) →
  PolicyServerReconciler_Reconcile rs req w2 = (Ok res3, w3) →
  Get KPolicyServer (req_NamespacedName req) w = inr ps →
  om_DeletionTimestamp (psrv_ObjectMeta ps) ≠ None →
  own_finalizers (om_Finalizers (psrv_ObjectMeta ps)) →
  lists_ok ps w → lists_ok ps w2 →
  (∃ p, policy_at w p ∧ GetPolicyServer p = psrv_Name ps) →
  (∀ p, policy_at w p → GetPolicyServer p = psrv_Name ps → own_finalizers (GetFinalizers p)) →
  NoDup l → (∀ p, p ∈ l ↔ policy_at w1 p ∧ GetPolicyServer p = psrv_Name ps) →
  (∀ e, Update KPolicyServer (released ps) w2 = (inl e, w3) → IsConflict e = false) →
  absent KPolicyServer (req_NamespacedName req) w3 ∧
  ∀ p, policy_at w3 p → GetPolicyServer p ≠ psrv_Name ps.
Proof.
  intros Hrun1 Hall Hrun3 Hget Hdel Hown Hok Hok2 [p0 [Hp0 Hsrv0]] Hfin Hnd Hl Hnc.
  destruct (server_waits_inv _ _ _ _ _ _ Hrun1 Hget Hdel Hok) as (policies & Hpol & Hloop & _).
  { exists p0. by rewrite stored_policy_at. }
  destruct (delete_loop_spec _ _ _ Hloop) as (Hkeep & Hgo & Hmark).
  assert (∀ q, q ∈ l → policy_at w1 q ∧ GetDeletionTimestamp q ≠ None ∧
            own_finalizers (GetFinalizers q)) as Hq.
  { intros q [Hat Hs]%Hl. split; [done|].
    destruct (delete_loop_survivors _ _ _ _ Hloop Hat) as (q0 & Hat0 & [Hk Hkey] & Hf & Hsrv).
    rewrite Hf. split; [|by apply Hfin; [|rewrite <-Hsrv]].
    assert (going (PKind q0) (policy_key q0) w1) as Hgoing.
    { destruct (GetDeletionTimestamp q0) as [t|] eqn:Ht.
      - apply Hgo. right. exists (projT2 (policy_kind q0)). split; [exact Hat0|].
        by rewrite policy_kind_timestamp, Ht.
      - apply Hmark; [|done]. apply Hpol. by rewrite stored_policy_at, <-Hsrv. }
    rewrite Hk, Hkey in Hgoing. unfold policy_at in Hat. rewrite <-policy_kind_timestamp.
    destruct Hgoing as [[e [? _]]|(o & Ho & ?)]; congruence. }
  destruct (reconcile_all_deleted r l w1 w2 Hnd Hq Hall) as [Hgone Hframe].
  assert (∀ key, Get KPolicyServer key w2 = Get KPolicyServer key w) as Hps.
  { intros key. rewrite Hframe, Hkeep; [done|by intros []|]. intros p _. by destruct p. }
  assert (∀ q, policy_at w2 q → GetPolicyServer q ≠ psrv_Name ps) as Hnone.
  { intros q Hat Hs. assert (q ∈ l → False) as Hnin.
    { intros Hin. destruct (Hgone q Hin) as (e & He & _). unfold policy_at in Hat. congruence. }
    apply Hnin, Hl. split; [|done]. unfold policy_at in *. rewrite <-Hat. symmetry.
    apply Hframe; [apply policy_not_webhook|]. intros p Hp [= Hk Hkey].
    destruct (Hgone p Hp) as (e & He & _). rewrite <-Hk in He.
    assert (policy_key p = policy_key q) as Hkey' by (unfold policy_key, kkey, om_key; congruence).
    rewrite Hkey' in He. congruence. }
  destruct (server_release_inv rs req w2 res3 w3 ps) as [_ Hor]; [done|by rewrite Hps|done|done| |].
  { intros q Hat%stored_policy_at. by apply Hnone. }
  destruct Hor as [(e & Hu & He)|(ps' & Hu)]; [by rewrite (Hnc e Hu) in He|].
  assert (kkey KPolicyServer (released ps) = req_NamespacedName req) as Hkey
    by exact (Get_key KPolicyServer _ _ _ Hget).
  split.
  - rewrite <-Hkey. eapply (Update_removes KPolicyServer); [exact Hu|done| | |exact Hdel].
    + by apply own_finalizers_removed.
    + rewrite Hkey, Hps. exact Hget.
  - intros q Hat. apply Hnone. unfold policy_at in *. rewrite <-Hat. symmetry.
    apply Update_ok in Hu as (_ & Hs & _). apply Hs. by destruct q.
Qed.
End deletion.

(** ** From a policy to its enforcement *)

Section activation.
Context {World : Type} `{K8sUtil, !K8sUtilLaws, KubeClient World, Environment World,
  Meter World, !KubeClientLaws World, !MeterLaws World}.
Implicit Types (w : World) (p : AnyPolicy).

(** What the rest of the cluster does with a new version of a deployment:
    the deployment controller gives it one replica set for the revision, with
    the deployment's annotations, and its pods replace those of other replica
    sets and become ready; nothing else changes. *)
Record rollout (ns name : string) w w' : Prop := {
  ro_others k key :
    k ∉ [KDeployment; KReplicaSet; KPod] → Get k key w' = Get k key w;
  ro_deployment : ∃ d d' rsKey rs hash,
    Get KDeployment (mkNN ns name) w = inr d ∧ Get KDeployment (mkNN ns name) w' = inr d' ∧
    om_Annotations (d_Meta d') !! PolicyServerDeploymentConfigVersionAnnotation
      = om_Annotations (d_Meta d) !! PolicyServerDeploymentConfigVersionAnnotation ∧
    Get KReplicaSet rsKey w' = inr rs ∧ of_server d' (rs_Meta rs) ∧
    om_Annotations (rs_Meta rs) !! KubernetesRevisionAnnotation
      = om_Annotations (d_Meta d') !! KubernetesRevisionAnnotation ∧
    om_Annotations (rs_Meta rs) !! PolicyServerDeploymentConfigVersionAnnotation
      = om_Annotations (d_Meta d') !! PolicyServerDeploymentConfigVersionAnnotation ∧
    om_Labels (rs_Meta rs) !! DefaultDeploymentUniqueLabelKey = Some hash ∧ hash ≠ "" ∧
    one_latest d' w' ∧
    (∃ key pod, Get KPod key w' = inr pod ∧ of_server d' (p_Meta pod)) ∧
    (∀ key pod, Get KPod key w' = inr pod → of_server d' (p_Meta pod) →
       om_Labels (p_Meta pod) !! DefaultDeploymentUniqueLabelKey = Some hash ∧
       isPodReady pod = true) ∧
    (∃ l, List KReplicaSet (server_label d') w' = inr l) ∧
    (∃ l, List KPod (server_label d') w' = inr l);
}.

(** (C6) A policy that is bound to a policy server ends up enforced: its
    server is reconciled, with policies a server can evaluate and whose names
    differ; the deployment is rolled out; and the policy, unchanged, is
    reconciled. Then it is active, in the mode its spec asks for, with a
    configuration that is up to date, and its webhook configuration is in
    the cluster. *)
Theorem bound_policy_becomes_active (rs : PolicyServerReconciler) (r : policySubReconciler)
    w w1 w2 w3 res1 res3 (ps : PolicyServer) policies p (secret : Secret) :
  PolicyServerReconciler_Reconcile rs (server_request (psrv_Name ps)) w = (Ok res1, w1) →
  Get KPolicyServer (mkNN "" (psrv_Name ps)) w = inr ps →
  om_DeletionTimestamp (psrv_ObjectMeta ps) = None →
  getPolicies ps w = (Ok policies, w) →
  (∀ q, q ∈ policies → policy_settings_ok q ∧ evaluable q) →
  NoDup (GetUniqueName <$> policies) → p ∈ policies →
  GetPolicyServer p = psrv_Name ps → psrv_Name ps ≠ "" →
  sub_deploymentsNamespace r = r_DeploymentsNamespace rs →
  rollout (r_DeploymentsNamespace rs) (NameWithPrefix ps) w1 w2 →
  policy_at w2 p → GetDeletionTimestamp p = None →
  Get KSecret (mkNN (sub_deploymentsNamespace r) CARootSecretName) w2 = inr secret →
  reconcile_any r p w2 = (Ok res3, w3) →
  ∃ p' ps', policy_at w3 p' ∧ policy_key p' = policy_key p ∧
    st_PolicyStatus (GetStatus p') = PolicyStatusActive ∧
    st_PolicyMode (GetStatus p') = GetPolicyMode p ∧
    (∃ c, find_condition PolicyServerConfigurationUpToDate (st_Conditions (GetStatus p')) = Some c ∧
       c_Status c = "True") ∧
    enforced r p ps' secret w3.
Proof.
  intros Hrun Hget Hdel Hpol Hok Hnd Hp Hsrv Hne Hns [Hoth Hdep] Hat Hlive Hsec Hrec.
  destruct (server_reconcile_inv _ _ _ _ _ _ Hrun Hget Hdel)
    as (_ & pols & cfg & d0 & svc & s & ps' & Hpol' & _ & _ & _ & Hcfg & Hdata & Hd0 & Hann & _ & _
        & _ & Hps' & _).
  assert (pols = policies) as -> by congruence.
  destruct Hdep as (d & d' & rsKey & rset & hash & Hd & Hd' & Hann' & Hrs & Hof & Hrev & Hver & Hh
    & Hhne & Hone & Hpod & Hpods & Hlrs & Hlp).
  assert (d0 = d) as -> by congruence. rewrite Hann in Hann'. rewrite Hann' in Hver.
  rewrite <-(Hoth KConfigMap) in Hcfg by set_solver.
  assert (deployment_key r p = mkNN (r_DeploymentsNamespace rs) (NameWithPrefix ps)) as Hdk
    by (unfold deployment_key; by rewrite Hns, Hsrv).
  assert (isPolicyUniquelyReachable d' (GetUniqueName p) w2 = true) as Hreach.
  { apply reachable_complete; [done..|].
    exists cfg, (buildPoliciesMap policies), rsKey, rset, hash.
    assert (om_key (d_Meta d') = mkNN (r_DeploymentsNamespace rs) (NameWithPrefix ps)) as ->
      by (by apply (Get_key KDeployment) in Hd').
    unfold go_index. rewrite Hrev, Hver.
    split; [done|]. split; [by apply getPolicyMap_built|]. split; [by rewrite built_entry|].
    by split_and!. }
  assert (activatable r p w2 ps' secret) as Hact.
  { split_and!; [by rewrite Hsrv| |by exists d'; rewrite Hdk|done].
    rewrite Hsrv, (Hoth KPolicyServer) by set_solver. exact Hps'. }
  destruct (policy_reconcile_inv _ _ _ _ _ Hrec Hat Hlive)
    as (p' & Hat' & Hk & Hkey & [(ps2 & sec2 & _ & _ & _ & Hst & _)|(Hno & _)]);
    [|by destruct Hno; eauto].
  destruct (policy_mode_inv r p w2 res3 w3 d' Hrec Hat Hlive) as (p2 & cfg2 & Hat2 & Hk2 & Hkey2 & Hcfg2 & Hm & Hup);
    [by rewrite Hdk|].
  assert (p2 = p') as ->.
  { eapply policy_at_unique; [exact Hat2|exact Hat'|]. split; congruence. }
  rewrite Hdk in Hcfg2. assert (cfg2 = cfg) as -> by congruence.
  destruct Hup as (c & Hc & _ & Htrue).
  exists p', ps'. split; [done|]. split; [done|]. split; [done|]. split_and!.
  - rewrite Hm. unfold configured_mode.
    rewrite (getPolicyMap_built _ _ Hdata Hok), built_entry by done. apply config_entry_mode.
  - exists c. split; [done|]. by apply Htrue.
  - by destruct (policy_enforced _ _ _ _ _ _ _ Hrec Hat Hlive Hact).
Qed.
End activation.

(** ** Concrete runs *)

Section witnesses.
#[local] Existing Instance concrete_util.
#[local] Existing Instance concrete_range.
#[local] Existing Instance fake_client.
#[local] Existing Instance fake_env.
#[local] Existing Instance noop_meter.
#[local] Existing Instance concrete_retry.

(** The policy is enforced, and then the CA, which expires in 30 days, is
    rotated. *)
Definition enforced_world : FakeWorld := (reconcile_any sample_sub the_policy ready_world).2.
Definition rotated_run : Outcome unit * FakeWorld :=
  certReconciler_reconcile sample_cert_reconciler enforced_world.
Definition rotated_world : FakeWorld := rotated_run.2.
Definition stored_the_policy (w : FakeWorld) : AnyPolicy :=
  match fake_Get KAdmissionPolicy policy_ns_key w with
  | inr p => PAdmissionPolicy p
  | inl _ => the_policy
  end.

Definition policy_bundle (w : FakeWorld) : Bytes :=
  match mutating_webhook w ≫= λ c, head (wc_Webhooks c) with
  | Some wh => wcc_CABundle (wh_ClientConfig wh)
  | None => []
  end.
Definition server_certificate (w : FakeWorld) : Bytes :=
  match fake_Get KSecret resource_key w with
  | inr s => default [] (s_Data s !! ServerCert)
  | inl _ => []
  end.
(** The API server accepts a certificate from the policy server now. *)
Definition accepted (cert : Bytes) (w : FakeWorld) : bool :=
  match NewCertPool (policy_bundle w) with
  | inr pool =>
      match VerifyCert cert None pool (DNSName "policy-server-default" "kubewarden") (clock w) with
      | Ok _ => true
      | _ => false
      end
  | inl _ => false
  end.

(** *** Trust *)

Definition server_secret_of (w : FakeWorld) : Secret :=
  match fake_Get KSecret resource_key w with inr s => s | inl _ => ca_secret end.
Definition ca_secret_of (w : FakeWorld) : Secret :=
  match fake_Get KSecret (om_key (s_Meta ca_secret)) w with inr s => s | inl _ => webhook_secret end.
Definition server_of (w : FakeWorld) : PolicyServer :=
  match fake_Get KPolicyServer server_key w with inr ps => ps | inl _ => full_server end.
Definition deployment_of (w : FakeWorld) : Deployment :=
  match fake_Get KDeployment resource_key w with
  | inr d => d
  | inl _ => empty_deployment full_reconciler full_server
  end.

Lemma rotated_activatable :
  activatable sample_sub (stored_the_policy rotated_world) rotated_world
    (server_of rotated_world) (ca_secret_of rotated_world).
Proof.
  split; [vm_compute; discriminate|]. split; [vm_compute; reflexivity|].
  split; [|vm_compute; reflexivity].
  exists (deployment_of rotated_world). split; vm_compute; reflexivity.
Qed.

(** The rotation of the CA alone, before the server certificates. *)
Definition root_run : Outcome Secret * FakeWorld :=
  reconcileCARoot (ca_secret_of enforced_world) enforced_world.
Definition root_world : FakeWorld := root_run.2.
Definition overwritten_run : Outcome Result * FakeWorld :=
  reconcile_any sample_sub (stored_the_policy root_world) root_world.
Definition server_pair : Bytes * Bytes :=
  match ExtractServerCertFromSecret (server_secret_of enforced_world) with
  | inr p => p | inl _ => webhook_cert end.

Lemma root_activatable :
  activatable sample_sub (stored_the_policy root_world) root_world
    (server_of root_world) (ca_secret_of root_world).
Proof.
  split; [vm_compute; discriminate|]. split; [vm_compute; reflexivity|].
  split; [|vm_compute; reflexivity].
  exists (deployment_of root_world). split; vm_compute; reflexivity.
Qed.

Lemma rotation_bundle_overwritten_witness :
  accepted server_pair.1 root_world = true ∧ accepted server_pair.1 overwritten_run.2 = false ∧
  ∃ wc wh, get_webhook (stored_the_policy root_world) overwritten_run.2 = inr wc ∧
    wc_Webhooks wc = [wh] ∧
    Get KSecret resource_key overwritten_run.2 = inr (server_secret_of enforced_world).
Proof.
  split; [vm_compute; reflexivity|]. split; [vm_compute; reflexivity|].
  assert (root_run.1 = Ok (secret_of root_run.1)) as Hroot by (vm_compute; reflexivity).
  assert (overwritten_run.1 = Ok empty_result) as Hrun by (vm_compute; reflexivity).
  assert (s_StringData (ca_secret_of enforced_world) = ∅) as Hsd by (vm_compute; reflexivity).
  assert (om_key (s_Meta (ca_secret_of enforced_world))
    = mkNN (sub_deploymentsNamespace sample_sub) CARootSecretName) as Hkey by (vm_compute; reflexivity).
  assert (ExtractCARootFromSecret (ca_secret_of enforced_world) = inr (expiring_ca.1, expiring_ca.2))
    as He by (vm_compute; reflexivity).
  assert (NewCertPool expiring_ca.1 = inr (pool_of expiring_ca.1)) as Hpool
    by (vm_compute; reflexivity).
  assert (VerifyCA expiring_ca.1 (Some expiring_ca.2) (clock enforced_world + CertLookahead) ≠ Ok tt)
    as Hv by (vm_compute; discriminate).
  assert (Get KSecret (mkNN (sub_deploymentsNamespace sample_sub)
    (NameWithPrefix (server_of root_world))) enforced_world = inr (server_secret_of enforced_world))
    as Hs by (vm_compute; reflexivity).
  assert (NameWithPrefix (server_of root_world) ≠ CARootSecretName) as Hne
    by (vm_compute; discriminate).
  assert (ExtractServerCertFromSecret (server_secret_of enforced_world)
    = inr (server_pair.1, server_pair.2)) as Hx by (vm_compute; reflexivity).
  assert (policy_at root_world (stored_the_policy root_world)) as Hat by (vm_compute; reflexivity).
  assert (GetDeletionTimestamp (stored_the_policy root_world) = None) as Hdel
    by (vm_compute; reflexivity).
  pose proof (@rotation_bundle_overwritten FakeWorld concrete_util concrete_util_laws fake_client
    fake_env noop_meter concrete_retry fake_laws noop_meter_laws concrete_retry_laws
    sample_sub (stored_the_policy root_world) (ca_secret_of enforced_world) (secret_of root_run.1)
    (server_secret_of enforced_world) (ca_secret_of root_world) enforced_world root_world
    overwritten_run.2 empty_result (server_of root_world) expiring_ca.1 expiring_ca.2
    (pool_of expiring_ca.1) server_pair.1 server_pair.2 (run_fst _ _ _ Hroot) Hsd Hkey He Hpool Hv
    Hs Hne Hx (run_fst _ _ _ Hrun) Hat Hdel root_activatable)
    as (ca & pool & wc & wh & _ & _ & Hwc & Hwh & _ & _ & _ & Hsrv & _).
  exists wc, wh. split; [exact Hwc|]. split; [exact Hwh|].
  assert (mkNN (sub_deploymentsNamespace sample_sub) (NameWithPrefix (server_of root_world))
    = resource_key) as Hres by (vm_compute; reflexivity).
  exact (eq_trans (f_equal (λ k, Get KSecret k overwritten_run.2) (eq_sym Hres)) Hsrv).
Defined.

Lemma webhook_trusts_server_witness :
  let run := reconcile_any sample_sub (stored_the_policy rotated_world) rotated_world in
  ∃ wc wh svc, get_webhook (stored_the_policy rotated_world) run.2 = inr wc ∧
    wc_Webhooks wc = [wh] ∧ wcc_Service (wh_ClientConfig wh) = Some svc ∧
    Get KSecret (mkNN (sr_Namespace svc) (sr_Name svc)) run.2
      = inr (server_secret_of rotated_world).
Proof.
  intros run.
  assert (rotated_run.1 = Ok tt) as Hcert by (vm_compute; reflexivity).
  assert (run.1 = Ok empty_result) as Hrun by (vm_compute; reflexivity).
  destruct (@webhook_trusts_server FakeWorld concrete_util concrete_util_laws fake_client fake_env
    noop_meter concrete_retry fake_laws noop_meter_laws concrete_retry_laws
    sample_cert_reconciler sample_sub (stored_the_policy rotated_world) enforced_world
    rotated_world run.2 empty_result (server_of rotated_world) (ca_secret_of enforced_world)
    (ca_secret_of rotated_world) (server_secret_of rotated_world)
    (run_fst _ _ _ Hcert)) as (wc & wh & svc & H1 & H2 & H3 & H4 & _).
  - vm_compute. reflexivity.
  - apply free_of_data. apply (bool_decide_unpack _). vm_compute. exact I.
  - intros [_ Hl]. eapply (lookup_weaken _ _ PartOfLabelKey) in Hl; [|reflexivity].
    vm_compute in Hl. discriminate.
  - reflexivity.
  - discriminate.
  - reflexivity.
  - exact (run_fst _ _ _ Hrun).
  - vm_compute. reflexivity.
  - vm_compute. reflexivity.
  - exact rotated_activatable.
  - vm_compute. reflexivity.
  - split; [vm_compute; reflexivity|]. apply (bool_decide_unpack _). vm_compute. exact I.
  - exists wc, wh, svc. split_and!; assumption.
Defined.

(** *** Activation *)

Lemma ready_pod key pod :
  Get KPod key ready_world = inr pod → pod = sample_pod "True".
Proof.
  intros (_ & Hs & _)%fake_Get_inv. unfold ready_world, rolled_out, fake_put, on_store in Hs.
  cbn [fw_store] in Hs.
  assert (fw_store (reconciled_world [settings_policy]) KPod = ∅) as Hno by (vm_compute; reflexivity).
  rewrite store_map_same, store_map_other, Hno in Hs by done.
  by apply lookup_singleton_Some in Hs as [_ <-].
Qed.

Lemma ready_rollout :
  rollout "kubewarden" "policy-server-default" (reconciled_world [settings_policy]) ready_world.
Proof.
  split.
  - intros k key Hk. unfold ready_world, rolled_out.
    rewrite (fake_put_frame KPod _ _ _ eq_refl) by (intros [= -> _]; set_solver).
    apply (fake_put_frame KReplicaSet _ _ _ eq_refl). intros [= -> _]. set_solver.
  - exists ready_deployment, ready_deployment, (mkNN "kubewarden" "rs").
    eexists _, "h1". split; [vm_compute; reflexivity|]. split; [vm_compute; reflexivity|].
    split; [done|]. split; [vm_compute; reflexivity|]. split; [vm_compute; reflexivity|].
    split; [vm_compute; reflexivity|]. split; [vm_compute; reflexivity|].
    split; [vm_compute; reflexivity|]. split; [done|]. split; [exact ready_one_latest|].
    split; [|split; [|split; by eexists]].
    + exists (mkNN "kubewarden" "pod"), (sample_pod "True"). split; vm_compute; reflexivity.
    + intros key pod ->%ready_pod _. split; vm_compute; reflexivity.
Qed.

Lemma bound_policy_becomes_active_witness :
  ∃ p', policy_at enforced_world p' ∧ st_PolicyMode (GetStatus p') = "protect".
Proof.
  set (run := PolicyServerReconciler_Reconcile full_reconciler server_req
                (server_world full_server [settings_policy])).
  set (run2 := reconcile_any sample_sub the_policy ready_world).
  assert (run.1 = Ok empty_result) as Hrun by (vm_compute; reflexivity).
  assert (run2.1 = Ok empty_result) as Hrun2 by (vm_compute; reflexivity).
  set (pol := getPolicies full_server (server_world full_server [settings_policy])).
  assert (pol.1 = Ok [the_policy]) as Hpol by (vm_compute; reflexivity).
  destruct (@bound_policy_becomes_active FakeWorld concrete_util concrete_util_laws fake_client
    fake_env noop_meter fake_laws noop_meter_laws full_reconciler sample_sub
    (server_world full_server [settings_policy]) (reconciled_world [settings_policy]) ready_world
    enforced_world empty_result empty_result full_server [the_policy] the_policy
    (ca_secret_of ready_world) (run_fst _ _ _ Hrun)) as (p' & ps' & Hat & _ & _ & Hm & _).
  - vm_compute. reflexivity.
  - reflexivity.
  - exact (run_fst _ _ _ Hpol).
  - exact settings_policy_ok.
  - apply NoDup_singleton.
  - by left.
  - reflexivity.
  - discriminate.
  - reflexivity.
  - exact ready_rollout.
  - vm_compute. reflexivity.
  - reflexivity.
  - vm_compute. reflexivity.
  - exact (run_fst _ _ _ Hrun2).
  - exists p'. split; [exact Hat|exact Hm].
Defined.

(** *** Deletion *)

(** A policy with the controller's finalizer, bound to a server that is being
    deleted. *)
Definition bound_policy : AdmissionPolicy :=
  SetObjectMeta (om_set_Finalizers [KubewardenFinalizer] (GetObjectMeta settings_policy))
    settings_policy.
Definition deletion_world : FakeWorld := server_world deleted_server [bound_policy].
Definition deletion_run1 : Outcome Result * FakeWorld :=
  PolicyServerReconciler_Reconcile full_reconciler server_req deletion_world.
Definition marked_policy : AdmissionPolicy :=
  match fake_Get KAdmissionPolicy policy_ns_key deletion_run1.2 with
  | inr p => p
  | inl _ => bound_policy
  end.
Definition deletion_run2 : Outcome unit * FakeWorld :=
  reconcile_all sample_sub [PAdmissionPolicy marked_policy] deletion_run1.2.
Definition deletion_run3 : Outcome Result * FakeWorld :=
  PolicyServerReconciler_Reconcile full_reconciler server_req deletion_run2.2.

Lemma only_policy w (p0 : AdmissionPolicy) p :
  fw_store w KAdmissionPolicy = {[ policy_ns_key := p0 ]} →
  fw_store w KAdmissionPolicyGroup = ∅ → fw_store w KClusterAdmissionPolicy = ∅ →
  fw_store w KClusterAdmissionPolicyGroup = ∅ →
  policy_at w p → p = PAdmissionPolicy p0.
Proof.
  intros H1 H2 H3 H4 (_ & Hs & _)%fake_Get_inv.
  destruct p as [p|p|p|p]; cbn [policy_kind projT1 projT2] in Hs.
  - rewrite H1 in Hs. by apply lookup_singleton_Some in Hs as [_ ->].
  - by rewrite H2 in Hs.
  - by rewrite H3 in Hs.
  - by rewrite H4 in Hs.
Qed.

Lemma marked_store : fw_store deletion_run1.2 KAdmissionPolicy = {[ policy_ns_key := marked_policy ]}.
Proof. vm_compute. reflexivity. Qed.

Lemma server_deletion_completes_witness :
  absent KPolicyServer server_key deletion_run3.2 ∧
  ¬ policy_at deletion_run3.2 (PAdmissionPolicy marked_policy).
Proof.
  assert (deletion_run1.1 = Ok requeue_result) as H1 by (vm_compute; reflexivity).
  assert (deletion_run2.1 = Ok tt) as H2 by (vm_compute; reflexivity).
  assert (deletion_run3.1 = Ok empty_result) as H3 by (vm_compute; reflexivity).
  destruct (@server_deletion_completes FakeWorld concrete_util concrete_util_laws fake_client
    fake_env noop_meter fake_laws full_reconciler sample_sub server_req
    deletion_world deletion_run1.2 deletion_run2.2 deletion_run3.2 requeue_result empty_result
    deleted_server [PAdmissionPolicy marked_policy] (run_fst _ _ _ H1) (run_fst _ _ _ H2)
    (run_fst _ _ _ H3)) as [Hgone Hnone].
  - vm_compute. reflexivity.
  - discriminate.
  - intros f [->|[->|Hf%elem_of_nil]%elem_of_cons]%elem_of_cons; [by left|by right|destruct Hf].
  - intros k _. by eexists.
  - intros k _. by eexists.
  - exists (PAdmissionPolicy bound_policy). split; [vm_compute; reflexivity|reflexivity].
  - intros p ->%(only_policy _ bound_policy) _; [|vm_compute; reflexivity..].
    intros f Hf%list_elem_of_singleton. by left.
  - apply NoDup_singleton.
  - intros p. rewrite list_elem_of_singleton. split.
    + intros ->. split; vm_compute; reflexivity.
    + intros [Hat _]. exact (only_policy _ _ p marked_store eq_refl eq_refl eq_refl Hat).
  - intros e Hu%(f_equal fst). vm_compute in Hu. discriminate.
  - split; [exact Hgone|]. intros Hat. apply (Hnone _ Hat). vm_compute. reflexivity.
Defined.
End witnesses.
