(* ===== verification/FeatureGates.v ===== *)
(** * The feature gate of match conditions ([featuregates.go])

    Whether the API server knows [matchConditions] is read from the OpenAPI
    schema it serves. The discovery client is a parameter. *)

From S2P Require Import Prelude GoStd Json.

(** The OpenAPI v3 client: the paths it lists, and the schema of each. *)
Class OpenAPIClient (GroupVersion : Type) := {
  Paths : GoError + gmap string GroupVersion;
  Schema : GroupVersion → string → GoError + string;
}.

Definition ContentTypeJSON : string := "application/json".

(** Indexing a [map[string]interface{}] decoded from an object: of members with
    the same name the last one is kept. *)
Definition index_object (members : list (string * json)) (k : string) : option json :=
  snd <$> last (filter (λ kv, kv.1 = k) members).

(** [x.(map[string]interface{})], for an element of such a map. *)
Definition as_object (x : option json) : option (list (string * json)) :=
  match x with Some (JObj members) => Some members | _ => None end.

Definition ValidatingWebhookSchema : string :=
  "io.k8s.api.admissionregistration.v1.ValidatingWebhook".

(** [json.Unmarshal] into a [map[string]interface{}]: [null] leaves it nil. *)
Definition unmarshal_object (text : string) : GoError + list (string * json) :=
  match Unmarshal text with
  | None => inl (ErrNew "invalid JSON")
  | Some (JObj members) => inr members
  | Some JNull => inr []
  | Some _ => inl (ErrNew "cannot unmarshal value into Go value of type map[string]interface {}")
  end.

Section check.
Context {GroupVersion : Type} `{OpenAPIClient GroupVersion}.

Definition resourcePath : string := "apis/admissionregistration.k8s.io/v1".

Definition CheckAdmissionWebhookMatchConditions : GoError + bool :=
  match Paths with
  | inl err => inl (ErrWrap "failed to fetch OpenAPI spec" err)
  | inr paths =>
  match paths !! resourcePath with
  | None => inl (ErrNew ("couldn't find resource for " +:+ quoted resourcePath))
  | Some groupVersion =>
  match Schema groupVersion ContentTypeJSON with
  | inl err => inl (ErrWrap ("failed to fetch openapi schema for " +:+ resourcePath) err)
  | inr openAPISchemaBytes =>
  match unmarshal_object openAPISchemaBytes with
  | inl err => inl (ErrWrap ("failed to unmarshal openapi schema for " +:+ resourcePath) err)
  | inr parsedV3Schema =>
  match as_object (index_object parsedV3Schema "components") with
  | None => inl (ErrNew ("couldn't find components in openapi schema for " +:+ resourcePath))
  | Some components =>
  match as_object (index_object components "schemas") with
  | None => inl (ErrNew ("couldn't find schemas in openapi schema for " +:+ resourcePath))
  | Some schemas =>
  match as_object (index_object schemas ValidatingWebhookSchema) with
  | None => inl (ErrNew ("couldn't find schema for " +:+ ValidatingWebhookSchema +:+
                         " in openapi schema for " +:+ resourcePath))
  | Some validatingWebhook =>
  match as_object (index_object validatingWebhook "properties") with
  | None => inl (ErrNew ("couldn't find properties in schema for " +:+ ValidatingWebhookSchema +:+
                         " in openapi schema for " +:+ resourcePath))
  | Some properties => inr (bool_decide (is_Some (index_object properties "matchConditions")))
  end end end end end end end end.

(** ** What is read *)

(** The object at a path of member names. *)
Fixpoint object_at (path : list string) (j : json) : option (list (string * json)) :=
  match path, j with
  | [], JObj members => Some members
  | k :: path, JObj members =>
      match index_object members k with
      | Some j => object_at path j
      | None => None
      end
  | _, _ => None
  end.

Definition webhook_properties_path : list string :=
  ["components"; "schemas"; ValidatingWebhookSchema; "properties"].

(** The server serves a document for the group of the webhook
    configurations. *)
Definition serves (j : json) : Prop :=
  ∃ paths gv text, Paths = inr paths ∧ paths !! resourcePath = Some gv ∧
    Schema gv ContentTypeJSON = inr text ∧ Unmarshal text = Some j.

Lemma index_object_elem members k :
  is_Some (index_object members k) ↔ k ∈ members.*1.
Proof.
  unfold index_object. rewrite fmap_is_Some, list_elem_of_fmap. split.
  - intros [[k' x] Hl]. apply last_Some in Hl as [l' Hl].
    assert ((k', x) ∈ filter (λ kv, kv.1 = k) members) as [Hk Hin]%list_elem_of_filter
      by (rewrite Hl; set_solver). by exists (k', x).
  - intros ([k' x] & -> & Hin). cbn [fst]. apply last_is_Some. intros Hnil.
    apply (not_elem_of_nil (k', x)). rewrite <-Hnil. by apply list_elem_of_filter.
Qed.

Lemma as_object_Some x members : as_object x = Some members ↔ x = Some (JObj members).
Proof. unfold as_object. destruct x as [[]|]; naive_solver. Qed.

Lemma object_at_cons k path members :
  object_at (k :: path) (JObj members) =
  match index_object members k with Some j => object_at path j | None => None end.
Proof. done. Qed.

(** The gate is decided by the served schema: it is a boolean exactly
    when the server serves a document in which the properties of
    [ValidatingWebhook] are found, and then it says whether
    [matchConditions] is one of them; in every other case it is an error. *)
Theorem CheckAdmissionWebhookMatchConditions_spec (b : bool) :
  CheckAdmissionWebhookMatchConditions = inr b ↔
  ∃ j properties, serves j ∧ object_at webhook_properties_path j = Some properties ∧
    (b = true ↔ "matchConditions" ∈ properties.*1).
Proof.
  unfold CheckAdmissionWebhookMatchConditions, serves, webhook_properties_path.
  split.
  - destruct Paths as [e|paths] eqn:Hp; [done|].
    destruct (paths !! resourcePath) as [gv|] eqn:Hgv; [|done].
    destruct (Schema gv _) as [e|text] eqn:Ht; [done|].
    unfold unmarshal_object. destruct (Unmarshal text) as [j|] eqn:Hj; [|done].
    destruct j as [| | | | |members]; try done.
    destruct (as_object (index_object members _)) as [components|] eqn:Hc; [|done].
    destruct (as_object (index_object components _)) as [schemas|] eqn:Hs; [|done].
    destruct (as_object (index_object schemas _)) as [webhook|] eqn:Hw; [|done].
    destruct (as_object (index_object webhook _)) as [properties|] eqn:Hprop; [|done].
    apply as_object_Some in Hc, Hs, Hw, Hprop. intros [= <-].
    exists (JObj members), properties. split; [by exists paths, gv, text|].
    rewrite !object_at_cons, Hc, !object_at_cons, Hs, !object_at_cons, Hw, !object_at_cons, Hprop.
    split; [done|]. by rewrite bool_decide_eq_true, index_object_elem.
  - intros (j & properties & (paths & gv & text & -> & -> & -> & Hj) & Hat & Hb).
    unfold unmarshal_object. rewrite Hj.
    destruct j as [| | | | |members]; try done. rewrite object_at_cons in Hat.
    destruct (index_object members _) as [[| | | | |components]|]; try done.
    rewrite object_at_cons in Hat. cbn [as_object].
    destruct (index_object components _) as [[| | | | |schemas]|]; try done.
    rewrite object_at_cons in Hat. cbn [as_object].
    destruct (index_object schemas _) as [[| | | | |webhook]|]; try done.
    rewrite object_at_cons in Hat. cbn [as_object].
    destruct (index_object webhook _) as [[| | | | |props]|]; try done.
    injection Hat as ->. cbn [as_object]. f_equal.
    rewrite <-index_object_elem in Hb. destruct b.
    + apply bool_decide_eq_true. by apply Hb.
    + apply bool_decide_eq_false. intros Hin. by apply Hb in Hin.
Qed.
End check.

(** ** Runs *)

(** The schema of a server from Kubernetes 1.30 on, in short. *)
Definition schema_document (properties : list (string * json)) : json :=
  JObj [("openapi", JStr "3.0.0");
        ("components", JObj [("schemas", JObj
           [(ValidatingWebhookSchema, JObj [("type", JStr "object");
                                            ("properties", JObj properties)])])])].
Definition client_of (text : string) : OpenAPIClient string := {|
  Paths := inr {[ resourcePath := text ]};
  Schema t _ := inr t;
|}.

Example gate_on :
  @CheckAdmissionWebhookMatchConditions _ (client_of (Marshal (schema_document
    [("name", JObj []); ("matchConditions", JObj [("type", JStr "array")])]))) = inr true.
Proof. vm_compute. reflexivity. Qed.
Example gate_off :
  @CheckAdmissionWebhookMatchConditions _ (client_of (Marshal (schema_document
    [("name", JObj [])]))) = inr false.
Proof. vm_compute. reflexivity. Qed.
Example gate_no_components :
  @CheckAdmissionWebhookMatchConditions _ (client_of (Marshal (JObj [("components", JNull)])))
  = inl (ErrNew ("couldn't find components in openapi schema for " +:+ resourcePath)).
Proof. vm_compute. reflexivity. Qed.
