(* ===== verification/Main.v ===== *)
(** * The entry point ([cmd/main.go]) and the registrations with the manager

    What [main] wires together: the flags, the manager and its cache, the
    controllers with their indexes and watches, the admission webhooks, the
    probes, and the exit code. controller-runtime is a parameter: it may
    refuse a registration, and [Start] blocks and then returns. *)

From S2P Require Import Prelude GoStd Json K8sTypes Concrete Constants PolicyTypes PolicyServerTypes PolicyValidation PolicyWebhook KubeClient FakeCluster PolicyServerWebhook ConfigMap Resources Deployment Certs CertController PolicyServerController Metrics PolicySubReconciler PolicyReconcile PolicyWatches FeatureGates.

(** ** Flags *)

Record Flags := mkFlags {
  metricsAddr : string;
  probeAddr : string;
  enableLeaderElection : bool;
  enableMetrics : bool;
  enableTracing : bool;
  enableOtelSidecar : bool;
  openTelemetryClientCertificateSecret : string;
  openTelemetryCertificateSecret : string;
  deploymentsNamespace : string;
  webhookServiceName : string;
  alwaysAcceptAdmissionReviewsOnDeploymentsNamespace : bool;
  clientCAConfigMapName : string;
}.

(** The values without arguments. *)
Definition default_flags : Flags :=
  mkFlags ":8088" ":8081" false false false false "" "" "" "kubewarden-controller-webhook-service"
    false "".

(** ** The manager *)

(** The options main sets: each kind of [mo_ByObject] is cached, and so read,
    only in the namespace given; other kinds everywhere. *)
Record ManagerOptions := mkManagerOptions {
  mo_MetricsBindAddress : string;
  mo_HealthProbeBindAddress : string;
  mo_LeaderElection : bool;
  mo_LeaderElectionID : string;
  mo_ByObject : list (Kind * string);
  mo_ClientCAName : string;
}.

Definition manager_options (namespace metricsAddr probeAddr : string)
    (enableLeaderElection enableMutualTLS : bool) : ManagerOptions :=
  let clientCAName := if enableMutualTLS then ClientCACert else "" in
  mkManagerOptions metricsAddr probeAddr enableLeaderElection "a4ddbf36.kubewarden.io"
    ((λ k, (k, namespace)) <$>
       [KReplicaSet; KSecret; KPod; KService; KPDB; KConfigMap; KDeployment])
    clientCAName.

Section setup.
Context {World : Type} `{K8sUtil, CelCompiler, MapRange, KubeClient World, Environment World,
  Meter World, Retry World}.

(** A source of requests for a controller: its map function, which reads the
    object, or only its metadata. *)
Inductive Watch :=
| WatchObject (k : Kind) (f : AnyObject → World → list Request)
| WatchMeta (k : Kind) (f : ObjectMeta → list Request).

Record Controller := mkController {
  ct_For : Kind;
  ct_Watches : list Watch;
  ct_Reconcile : Request → M World Result;
}.

(** The reconcilers of the policies; their client and scheme are those of the
    manager, and [SetupWithManager] sets the field [policySubReconciler]. *)
Record AdmissionPolicyReconciler := mkAdmissionPolicyReconciler {
  apr_DeploymentsNamespace : string;
  apr_FeatureGateAdmissionWebhookMatchConditions : bool;
}.
Record AdmissionPolicyGroupReconciler := mkAdmissionPolicyGroupReconciler {
  apgr_DeploymentsNamespace : string;
  apgr_FeatureGateAdmissionWebhookMatchConditions : bool;
}.
Record ClusterAdmissionPolicyReconciler := mkClusterAdmissionPolicyReconciler {
  capr_DeploymentsNamespace : string;
  capr_FeatureGateAdmissionWebhookMatchConditions : bool;
}.
Record ClusterAdmissionPolicyGroupReconciler := mkClusterAdmissionPolicyGroupReconciler {
  capgr_DeploymentsNamespace : string;
  capgr_FeatureGateAdmissionWebhookMatchConditions : bool;
}.

Record AdmissionWebhook := mkAdmissionWebhook {
  aw_For : string;
  aw_Default : AnyObject → GoError + AnyObject;
  aw_ValidateCreate : AnyObject → World → option GoError;
  aw_ValidateUpdate : AnyObject → AnyObject → World → option GoError;
  aw_ValidateDelete : AnyObject → World → option GoError;
}.

(** What is registered with a manager. *)
Inductive Registration :=
| RIndex (k : Kind) (key : string) (f : AnyObject → list string)
| RController (c : Controller)
| RRunnable (needLeaderElection : bool) (start : nat → M World unit)
| RWebhook (w : AdmissionWebhook)
| RHealthz (name : string)
| RReadyz (name : string).

Record Manager := mkManager {
  mgr_Options : ManagerOptions;
  mgr_Registered : list Registration;
}.

(** controller-runtime and the OpenAPI client. *)
Class ControllerRuntime (GroupVersion : Type) := {
  rt_OpenAPI :: OpenAPIClient GroupVersion;
  rt_Exporter :: Exporter;
  (** [fields.ParseSelectorOrDie] and [NewDiscoveryClientForConfigOrDie] panic,
      [GetConfigOrDie] exits. *)
  rt_ParseSelector : string → option string;
  rt_DiscoveryClient : option string;
  rt_GetConfig : bool;
  rt_NewManager : ManagerOptions → option GoError;
  rt_refuses : Manager → Registration → option GoError;
  rt_Start : Manager → option GoError;
}.
Context {GroupVersion : Type} `{ControllerRuntime GroupVersion}.

(** A registration, refused or added. *)
Definition register (x : Registration) : M Manager unit := λ m,
  match rt_refuses m x with
  | Some err => (Err err, m)
  | None => (Ok tt, mkManager (mgr_Options m) (mgr_Registered m ++ [x]))
  end.

(** ** Registration of the controllers *)

Definition index (k : Kind) (f : AnyObject → list string) : M Manager unit :=
  wrap_err (ErrWrap "failed enrolling controller with manager")
    (register (RIndex k PolicyServerIndexKey f)).
Definition complete (c : Controller) : M Manager unit :=
  wrap_err (λ err, ErrJoin [ErrNew "failed enrolling controller with manager"; err])
    (register (RController c)).

Definition policyserver_controller (r : PolicyServerReconciler) : Controller :=
  mkController KPolicyServer
    [WatchObject KAdmissionPolicy (λ o _, enqueueAdmissionPolicy o);
     WatchObject KAdmissionPolicyGroup (λ o _, enqueueAdmissionPolicyGroup o);
     WatchObject KClusterAdmissionPolicy (λ o _, enqueueClusterAdmissionPolicy o);
     WatchObject KClusterAdmissionPolicyGroup (λ o _, enqueueClusterAdmissionPolicyGroup o)]
    (PolicyServerReconciler_Reconcile r).
Definition PolicyServerReconciler_SetupWithManager (r : PolicyServerReconciler)
    : M Manager unit :=
  index KClusterAdmissionPolicy index_ClusterAdmissionPolicy ;;
  index KAdmissionPolicy index_AdmissionPolicy ;;
  index KAdmissionPolicyGroup index_AdmissionPolicyGroup ;;
  index KClusterAdmissionPolicyGroup index_ClusterAdmissionPolicyGroup ;;
  complete (policyserver_controller r).

Definition webhook_watches (f : ObjectMeta → list Request) : list Watch :=
  [WatchMeta KValidatingWebhookConfiguration f; WatchMeta KMutatingWebhookConfiguration f].

Definition admissionpolicy_controller (r : policySubReconciler) : Controller :=
  mkController KAdmissionPolicy
    (WatchObject KPod AdmissionPolicyReconciler_findAdmissionPoliciesForPod ::
     webhook_watches findAdmissionPolicyForWebhookConfiguration)
    (AdmissionPolicyReconciler_Reconcile r).
Definition AdmissionPolicyReconciler_SetupWithManager (r : AdmissionPolicyReconciler)
    : M Manager unit :=
  complete (admissionpolicy_controller
    (mkPolicySubReconciler (apr_DeploymentsNamespace r)
       (apr_FeatureGateAdmissionWebhookMatchConditions r))).
Definition admissionpolicygroup_controller (r : policySubReconciler) : Controller :=
  mkController KAdmissionPolicyGroup
    [WatchObject KPod AdmissionPolicyGroupReconciler_findAdmissionPoliciesForPod;
     WatchMeta KValidatingWebhookConfiguration
       AdmissionPolicyGroupReconciler_findAdmissionPolicyForWebhookConfiguration]
    (AdmissionPolicyGroupReconciler_Reconcile r).
Definition AdmissionPolicyGroupReconciler_SetupWithManager (r : AdmissionPolicyGroupReconciler)
    : M Manager unit :=
  complete (admissionpolicygroup_controller
    (mkPolicySubReconciler (apgr_DeploymentsNamespace r)
       (apgr_FeatureGateAdmissionWebhookMatchConditions r))).
Definition clusteradmissionpolicy_controller (r : policySubReconciler) : Controller :=
  mkController KClusterAdmissionPolicy
    (WatchObject KPod ClusterAdmissionPolicyReconciler_findClusterAdmissionPoliciesForPod ::
     webhook_watches findClusterAdmissionPolicyForWebhookConfiguration)
    (ClusterAdmissionPolicyReconciler_Reconcile r).
Definition ClusterAdmissionPolicyReconciler_SetupWithManager (r : ClusterAdmissionPolicyReconciler)
    : M Manager unit :=
  complete (clusteradmissionpolicy_controller
    (mkPolicySubReconciler (capr_DeploymentsNamespace r)
       (capr_FeatureGateAdmissionWebhookMatchConditions r))).
Definition clusteradmissionpolicygroup_controller (r : policySubReconciler) : Controller :=
  mkController KClusterAdmissionPolicyGroup
    [WatchObject KPod ClusterAdmissionPolicyGroupReconciler_findClusterAdmissionPoliciesForPod;
     WatchMeta KValidatingWebhookConfiguration
       ClusterAdmissionPolicyGroupReconciler_findClusterAdmissionPolicyForWebhookConfiguration]
    (ClusterAdmissionPolicyGroupReconciler_Reconcile r).
Definition ClusterAdmissionPolicyGroupReconciler_SetupWithManager (r : ClusterAdmissionPolicyGroupReconciler)
    : M Manager unit :=
  complete (clusteradmissionpolicygroup_controller
    (mkPolicySubReconciler (capgr_DeploymentsNamespace r)
       (capgr_FeatureGateAdmissionWebhookMatchConditions r))).

Definition NeedLeaderElection (r : CertReconciler) : bool := true.
Definition CertReconciler_SetupWithManager (r : CertReconciler) : M Manager unit :=
  wrap_err (ErrWrap "failed enrolling controller with manager")
    (register (RRunnable (NeedLeaderElection r) (Start_ticks r))).

Definition setupReconcilers (deploymentsNamespace webhookServiceName : string)
    (alwaysAccept featureGate : bool) (otelConfiguration : TelemetryConfiguration)
    (clientCAConfigMapName : string) : M Manager unit :=
  let unable what := wrap_err (λ err, ErrJoin [ErrNew ("unable to create " +:+ what); err]) in
  unable "PolicyServer controller" (PolicyServerReconciler_SetupWithManager
    (mkPolicyServerReconciler otelConfiguration deploymentsNamespace alwaysAccept
       clientCAConfigMapName)) ;;
  unable "AdmissionPolicy controller" (AdmissionPolicyReconciler_SetupWithManager
    (mkAdmissionPolicyReconciler deploymentsNamespace featureGate)) ;;
  unable "ClusterAdmissionPolicy controller"
    (ClusterAdmissionPolicyReconciler_SetupWithManager
    (mkClusterAdmissionPolicyReconciler deploymentsNamespace featureGate)) ;;
  unable "Cert controller" (CertReconciler_SetupWithManager
    (mkCertReconciler deploymentsNamespace webhookServiceName CARootSecretName
       WebhookServerCertSecretName)) ;;
  unable "AdmissionPolicyGroup controller" (AdmissionPolicyGroupReconciler_SetupWithManager
    (mkAdmissionPolicyGroupReconciler deploymentsNamespace featureGate)) ;;
  unable "ClusterAdmissionPolicyGroup controller"
    (ClusterAdmissionPolicyGroupReconciler_SetupWithManager
    (mkClusterAdmissionPolicyGroupReconciler deploymentsNamespace featureGate)).

(** ** Registration of the webhooks *)

Definition enroll (w : AdmissionWebhook) : M Manager unit :=
  wrap_err (ErrWrap "failed enrolling webhook with manager") (register (RWebhook w)).

Definition policyserver_webhook (deploymentsNamespace : string) : AdmissionWebhook :=
  mkAdmissionWebhook "*v1.PolicyServer" policyServerDefaulter_Default
    (policyServerValidator_ValidateCreate deploymentsNamespace)
    (policyServerValidator_ValidateUpdate deploymentsNamespace)
    (λ o _, policyServerValidator_ValidateDelete o).
Definition PolicyServer_SetupWebhookWithManager (deploymentsNamespace : string) : M Manager unit :=
  enroll (policyserver_webhook deploymentsNamespace).
Definition clusteradmissionpolicy_webhook : AdmissionWebhook :=
  mkAdmissionWebhook "*v1.ClusterAdmissionPolicy" clusterAdmissionPolicyDefaulter_Default
    (λ o _, clusterAdmissionPolicyValidator_ValidateCreate o)
    (λ o n _, clusterAdmissionPolicyValidator_ValidateUpdate o n)
    (λ o _, clusterAdmissionPolicyValidator_ValidateDelete o).
Definition ClusterAdmissionPolicy_SetupWebhookWithManager : M Manager unit :=
  enroll clusteradmissionpolicy_webhook.
Definition admissionpolicy_webhook : AdmissionWebhook :=
  mkAdmissionWebhook "*v1.AdmissionPolicy" admissionPolicyDefaulter_Default
    (λ o _, admissionPolicyValidator_ValidateCreate o)
    (λ o n _, admissionPolicyValidator_ValidateUpdate o n)
    (λ o _, admissionPolicyValidator_ValidateDelete o).
Definition AdmissionPolicy_SetupWebhookWithManager : M Manager unit :=
  enroll admissionpolicy_webhook.
Definition admissionpolicygroup_webhook : AdmissionWebhook :=
  mkAdmissionWebhook "*v1.AdmissionPolicyGroup" admissionPolicyGroupDefaulter_Default
    (λ o _, admissionPolicyGroupValidator_ValidateCreate o)
    (λ o n _, admissionPolicyGroupValidator_ValidateUpdate o n)
    (λ o _, admissionPolicyGroupValidator_ValidateDelete o).
Definition AdmissionPolicyGroup_SetupWebhookWithManager : M Manager unit :=
  enroll admissionpolicygroup_webhook.
Definition clusteradmissionpolicygroup_webhook : AdmissionWebhook :=
  mkAdmissionWebhook "*v1.ClusterAdmissionPolicyGroup"
    clusterAdmissionPolicyGroupDefaulter_Default
    (λ o _, clusterAdmissionPolicyGroupValidator_ValidateCreate o)
    (λ o n _, clusterAdmissionPolicyGroupValidator_ValidateUpdate o n)
    (λ o _, clusterAdmissionPolicyGroupValidator_ValidateDelete o).
Definition ClusterAdmissionPolicyGroup_SetupWebhookWithManager : M Manager unit :=
  enroll clusteradmissionpolicygroup_webhook.

Definition setupWebhooks (deploymentsNamespace : string) : M Manager unit :=
  let unable what := wrap_err (λ err,
    ErrJoin [ErrNew ("unable to create webhook for " +:+ what); err]) in
  unable "policy servers" (PolicyServer_SetupWebhookWithManager deploymentsNamespace) ;;
  unable "cluster admission policies" ClusterAdmissionPolicy_SetupWebhookWithManager ;;
  unable "admission policies" AdmissionPolicy_SetupWebhookWithManager ;;
  unable "admission policies groups" AdmissionPolicyGroup_SetupWebhookWithManager ;;
  unable "cluster admission policies groups"
    ClusterAdmissionPolicyGroup_SetupWebhookWithManager.

Definition setupProbes : M Manager unit :=
  wrap_err (λ err, ErrJoin [ErrNew "unable to set up health check"; err])
    (register (RHealthz "healthz")) ;;
  wrap_err (λ err, ErrJoin [ErrNew "unable to set up ready check"; err])
    (register (RReadyz "readyz")).

(** ** main *)

(** What the process did. *)
Record Process := mkProcess {
  pr_Manager : option Manager;
  pr_Started : bool;
  pr_Flushed : bool;
}.
Definition new_process : Process := mkProcess None false false.

Definition GetConfigOrDie : M Process unit := λ p,
  if rt_GetConfig then (Ok tt, p) else (Exit 1, p).

Definition setupManager (f : Flags) : M Process unit :=
  match rt_ParseSelector ("metadata.namespace=" +:+ deploymentsNamespace f) with
  | Some why => lift_outcome (Panic why)
  | None => mret tt
  end ;;
  let options := manager_options (deploymentsNamespace f) (metricsAddr f) (probeAddr f)
    (enableLeaderElection f) (bool_decide (clientCAConfigMapName f ≠ "")) in
  GetConfigOrDie ;;
  match rt_NewManager options with
  | Some err => fail err
  | None => modify (λ p, mkProcess (Some (mkManager options [])) (pr_Started p) (pr_Flushed p))
  end.

(** A step on the manager of the process. *)
Definition on_manager (m : M Manager unit) : M Process unit := λ p,
  match pr_Manager p with
  | None => (Panic "nil manager", p)
  | Some mgr => let '(o, mgr') := m mgr in
                (o, mkProcess (Some mgr') (pr_Started p) (pr_Flushed p))
  end.

(** An error of the feature gate check is logged, and its value, false, is
    used. *)
Definition checkFeatureGate : M Process bool :=
  GetConfigOrDie ;;
  match rt_DiscoveryClient with
  | Some why => lift_outcome (Panic why)
  | None => mret (match CheckAdmissionWebhookMatchConditions with
                  | inr b => b
                  | inl _ => false
                  end)
  end.

Definition startManager : M Process unit := λ p,
  match pr_Manager p with
  | None => (Panic "nil manager", p)
  | Some mgr =>
      let p := mkProcess (Some mgr) true (pr_Flushed p) in
      match rt_Start mgr with
      | Some err => (Err err, p)
      | None => (Ok tt, p)
      end
  end.

(** The body of [main] between the metrics and [Start]: every error is logged,
    and ends it with the return code 1. *)
Definition setup (f : Flags) : M Process unit :=
  setupManager f ;;
  featureGate ← checkFeatureGate;
  let otelConfiguration := mkTelemetry (enableMetrics f) (enableTracing f) (enableOtelSidecar f)
    (openTelemetryCertificateSecret f) (openTelemetryClientCertificateSecret f) in
  on_manager (setupReconcilers (deploymentsNamespace f) (webhookServiceName f)
    (alwaysAcceptAdmissionReviewsOnDeploymentsNamespace f) featureGate otelConfiguration
    (clientCAConfigMapName f)) ;;
  on_manager (setupWebhooks (deploymentsNamespace f)) ;;
  on_manager setupProbes.
Definition run (f : Flags) : M Process unit := setup f ;; startManager.

(** The deferred functions run after a panic too, and the last of them exits
    with the return code set so far; [os.Exit] elsewhere runs none of them. *)
Definition finish (shutdown : option (option GoError)) (o : Outcome unit) (p : Process)
    : Z * Process :=
  match o with
  | Exit c => (c, p)
  | Ok _ | Panic _ | Err _ =>
      let retcode := match o with Err _ => 1%Z | _ => 0%Z end in
      match shutdown with
      | None => (retcode, p)
      | Some failed =>
          (match failed with Some _ => 1%Z | None => retcode end,
           mkProcess (pr_Manager p) (pr_Started p) true)
      end
  end.

Definition main (f : Flags) : Z * Process :=
  if enableMetrics f then
    match metrics_New with
    | inl _ => (1%Z, new_process)
    | inr shutdown => let '(o, p) := run f new_process in finish (Some shutdown) o p
    end
  else let '(o, p) := run f new_process in finish None o p.

(** ** What is wired *)

(** The value of the feature gate the controllers run with. *)
Definition gate : bool :=
  match CheckAdmissionWebhookMatchConditions with inr b => b | inl _ => false end.

Definition server_reconciler (f : Flags) : PolicyServerReconciler :=
  mkPolicyServerReconciler
    (mkTelemetry (enableMetrics f) (enableTracing f) (enableOtelSidecar f)
       (openTelemetryCertificateSecret f) (openTelemetryClientCertificateSecret f))
    (deploymentsNamespace f) (alwaysAcceptAdmissionReviewsOnDeploymentsNamespace f)
    (clientCAConfigMapName f).
Definition policy_reconciler (f : Flags) : policySubReconciler :=
  mkPolicySubReconciler (deploymentsNamespace f) gate.
Definition cert_reconciler (f : Flags) : CertReconciler :=
  mkCertReconciler (deploymentsNamespace f) (webhookServiceName f) CARootSecretName
    WebhookServerCertSecretName.

Lemma register_Ok_inv x m u m' :
  register x m = (Ok u, m') ↔
  rt_refuses m x = None ∧ m' = mkManager (mgr_Options m) (mgr_Registered m ++ [x]).
Proof. unfold register. destruct u, (rt_refuses m x); naive_solver. Qed.
Lemma on_manager_Ok_inv m p u p' :
  on_manager m p = (Ok u, p') ↔
  ∃ mgr mgr', pr_Manager p = Some mgr ∧ m mgr = (Ok u, mgr') ∧
    p' = mkProcess (Some mgr') (pr_Started p) (pr_Flushed p).
Proof.
  unfold on_manager. split.
  - destruct (pr_Manager p) as [mgr|]; [|done]. destruct (m mgr) as [o mgr'] eqn:Hm.
    intros Hrun. injection Hrun as -> <-. eauto.
  - by intros (mgr & mgr' & -> & -> & ->).
Qed.
Hint Rewrite register_Ok_inv on_manager_Ok_inv : go.

(** What a registration adds to the manager. *)
Definition adds (m : M Manager unit) (l : list Registration) : Prop :=
  ∀ mgr mgr', m mgr = (Ok tt, mgr') →
    mgr_Options mgr' = mgr_Options mgr ∧ mgr_Registered mgr' = mgr_Registered mgr ++ l.

Lemma adds_register x : adds (register x) [x].
Proof. intros mgr mgr' [_ ->]%register_Ok_inv. done. Qed.
Lemma adds_wrap g m l : adds m l → adds (wrap_err g m) l.
Proof. intros Hm mgr mgr' Hrun. apply Hm. by apply wrap_err_Ok_inv in Hrun. Qed.
Lemma adds_bind m m' l l' : adds m l → adds m' l' → adds (m ;; m') (l ++ l').
Proof.
  intros Hm Hm' mgr mgr' ([] & mgr1 & H1' & H2')%bind_Ok_inv.
  destruct (Hm _ _ H1') as [Ho Hr], (Hm' _ _ H2') as [-> ->]. rewrite Ho, Hr.
  split; [done|]. by rewrite <-app_assoc.
Qed.

(** Everything that is registered, in order. *)
Definition wiring (f : Flags) : list Registration :=
  (RIndex KClusterAdmissionPolicy PolicyServerIndexKey index_ClusterAdmissionPolicy ::
   RIndex KAdmissionPolicy PolicyServerIndexKey index_AdmissionPolicy ::
   RIndex KAdmissionPolicyGroup PolicyServerIndexKey index_AdmissionPolicyGroup ::
   RIndex KClusterAdmissionPolicyGroup PolicyServerIndexKey index_ClusterAdmissionPolicyGroup ::
   RController (policyserver_controller (server_reconciler f)) ::
   RController (admissionpolicy_controller (policy_reconciler f)) ::
   RController (clusteradmissionpolicy_controller (policy_reconciler f)) ::
   RRunnable true (Start_ticks (cert_reconciler f)) ::
   RController (admissionpolicygroup_controller (policy_reconciler f)) ::
   RController (clusteradmissionpolicygroup_controller (policy_reconciler f)) ::
   (RWebhook <$> [policyserver_webhook (deploymentsNamespace f); clusteradmissionpolicy_webhook;
                  admissionpolicy_webhook; admissionpolicygroup_webhook;
                  clusteradmissionpolicygroup_webhook])) ++
  [RHealthz "healthz"; RReadyz "readyz"].

Lemma adds_eq m l l' : adds m l' → l' = l → adds m l.
Proof. by intros ? <-. Qed.

Lemma setup_adds f :
  adds (setupReconcilers (deploymentsNamespace f) (webhookServiceName f)
          (alwaysAcceptAdmissionReviewsOnDeploymentsNamespace f) gate
          (r_TelemetryConfiguration (server_reconciler f)) (clientCAConfigMapName f) ;;
        setupWebhooks (deploymentsNamespace f) ;; setupProbes) (wiring f).
Proof.
  eapply adds_eq.
  - repeat first [apply adds_register | apply adds_wrap | eapply adds_bind].
  - reflexivity.
Qed.

(** ** The process *)

Lemma started_frame : PreOrder (λ p p' : Process, pr_Started p' = pr_Started p).
Proof. split; [done|]. intros p1 p2 p3. congruence. Qed.

Lemma within_on_manager m : within (λ p p', pr_Started p' = pr_Started p) (on_manager m).
Proof. intros p. unfold on_manager. destruct (pr_Manager p); [|done]. by destruct (m _). Qed.

Lemma setup_not_started f : within (λ p p', pr_Started p' = pr_Started p) (setup f).
Proof.
  pose proof started_frame.
  assert (within (λ p p' : Process, pr_Started p' = pr_Started p) GetConfigOrDie)
    by (intros p; unfold GetConfigOrDie; by destruct rt_GetConfig).
  unfold setup, setupManager, checkFeatureGate.
  repeat first [apply within_on_manager | assumption | apply within_bind; [apply _| |intros ?]
    | case_match | apply within_ret; apply _ | apply within_lift; apply _
    | apply within_fail; apply _ | by intros p ].
Qed.

Lemma setup_Ok_inv f p :
  setup f new_process = (Ok tt, p) →
  ∃ mgr, p = mkProcess (Some mgr) false false ∧
    mgr_Options mgr = manager_options (deploymentsNamespace f) (metricsAddr f) (probeAddr f)
      (enableLeaderElection f) (bool_decide (clientCAConfigMapName f ≠ "")) ∧
    mgr_Registered mgr = wiring f.
Proof.
  unfold setup, setupManager, checkFeatureGate, GetConfigOrDie. intros Hrun.
  destruct (rt_ParseSelector _); [by inv_run Hrun|].
  destruct rt_GetConfig; [|by inv_run Hrun].
  destruct (rt_NewManager _); [by inv_run Hrun|].
  destruct rt_DiscoveryClient; [by inv_run Hrun|].
  inv_run Hrun. simplify_eq/=.
  match goal with H1' : setupReconcilers _ _ _ _ _ _ ?m0 = (_, ?m1), H2' : setupWebhooks _ ?m1 = (_, ?m2),
      H3' : setupProbes ?m2 = (_, ?m3) |- _ =>
    exists m3; destruct (setup_adds f m0 m3) as [-> ->];
      [rewrite bind_Ok_inv; exists tt, m1; split; [exact H1'|];
       rewrite bind_Ok_inv; by exists tt, m2|done] end.
Qed.

Lemma run_started f o p :
  run f new_process = (o, p) → pr_Started p = true →
  ∃ mgr, pr_Manager p = Some mgr ∧
    mgr_Options mgr = manager_options (deploymentsNamespace f) (metricsAddr f) (probeAddr f)
      (enableLeaderElection f) (bool_decide (clientCAConfigMapName f ≠ "")) ∧
    mgr_Registered mgr = wiring f ∧
    o = match rt_Start mgr with None => Ok tt | Some err => Err err end.
Proof.
  unfold run, mbind, M_mbind, M_bind. intros Hrun Hst.
  destruct (setup f new_process) as [o1 p1] eqn:Hs.
  pose proof (within_run _ _ _ _ _ (setup_not_started f) Hs) as Hno. cbn in Hno.
  destruct o1 as [[]|e|why|c]; try (injection Hrun as <- <-; congruence).
  destruct (setup_Ok_inv f p1 Hs) as (mgr & -> & Ho & Hr). exists mgr.
  unfold startManager in Hrun. cbn [pr_Manager] in Hrun.
  destruct (rt_Start mgr); injection Hrun as <- <-; by split_and!.
Qed.

(** What the options of the manager must be, from the flags: where the metrics
    and the probes are served, whether replicas elect a leader and under which
    name, which kinds are read in the deployments namespace only (those the
    controllers own or read there, and no kind of the policies, of the policy
    servers or of the webhook configurations), and the client CA of the
    webhook server. *)
Record options_from (f : Flags) (o : ManagerOptions) : Prop := {
  of_metrics : mo_MetricsBindAddress o = metricsAddr f;
  of_probes : mo_HealthProbeBindAddress o = probeAddr f;
  of_election : mo_LeaderElection o = enableLeaderElection f;
  of_electionID : mo_LeaderElectionID o = "a4ddbf36.kubewarden.io";
  of_cached k ns : (k, ns) ∈ mo_ByObject o ↔
    ns = deploymentsNamespace f ∧
    k ∉ [KPolicyServer; KAdmissionPolicy; KAdmissionPolicyGroup; KClusterAdmissionPolicy;
         KClusterAdmissionPolicyGroup; KValidatingWebhookConfiguration;
         KMutatingWebhookConfiguration];
  of_clientCA : clientCAConfigMapName f ≠ "" → mo_ClientCAName o = "client-ca.crt";
  of_noCA : clientCAConfigMapName f = "" → mo_ClientCAName o = "";
}.

Lemma manager_options_from f :
  options_from f (manager_options (deploymentsNamespace f) (metricsAddr f) (probeAddr f)
    (enableLeaderElection f) (bool_decide (clientCAConfigMapName f ≠ ""))).
Proof.
  split; try done.
  - intros k ns. unfold manager_options. cbn [mo_ByObject]. rewrite list_elem_of_fmap. split.
    + intros (k' & [= -> ->] & Hk). split; [done|]. by destruct k'; set_solver.
    + intros [-> Hk]. exists k. split; [done|]. by destruct k; set_solver.
  - intros Hca. unfold manager_options. by rewrite bool_decide_eq_true_2.
  - intros Hca. unfold manager_options. by rewrite bool_decide_eq_false_2 by (by intros []).
Qed.


(** ** What the watches achieve *)

(** A group is never mutating: its controller watches the validating
    configurations only. *)
Definition watched_by (c : Controller) (k : Kind) (m : ObjectMeta) (q : Request) : Prop :=
  ∃ f, WatchMeta k f ∈ ct_Watches c ∧ f m = [q].

Definition policy_controller (f : Flags) (p : AnyPolicy) : Controller :=
  match p with
  | PAdmissionPolicy _ => admissionpolicy_controller
  | PAdmissionPolicyGroup _ => admissionpolicygroup_controller
  | PClusterAdmissionPolicy _ => clusteradmissionpolicy_controller
  | PClusterAdmissionPolicyGroup _ => clusteradmissionpolicygroup_controller
  end (policy_reconciler f).

Definition policy_index (p : AnyPolicy) : AnyObject → list string :=
  match p with
  | PAdmissionPolicy _ => index_AdmissionPolicy
  | PAdmissionPolicyGroup _ => index_AdmissionPolicyGroup
  | PClusterAdmissionPolicy _ => index_ClusterAdmissionPolicy
  | PClusterAdmissionPolicyGroup _ => index_ClusterAdmissionPolicyGroup
  end.

Lemma policy_controller_wired f p :
  RController (policy_controller f p) ∈ wiring f ∧
  RController (policyserver_controller (server_reconciler f)) ∈ wiring f ∧
  RIndex (PKind p) PolicyServerIndexKey (policy_index p) ∈ wiring f.
Proof. split_and!; unfold wiring; destruct p; cbn [app policy_kind projT1]; repeat first [left|right]. Qed.

(** (C14) The registrations close the loops the controllers rely on. For every
    policy: its own controller is registered, which on the policy's request
    runs the policy's reconciliation; a change of the webhook configuration
    stored for it leads that controller back to it; a change of the policy
    leads the policy server controller to its server; and the field index
    that finds the policies of a server gives, for this policy, its server. *)
Theorem wiring_closes_loops f p ps (secret : Secret) (wc : WebhookConfiguration) w :
  enforced (policy_reconciler f) p ps secret w → get_webhook p w = inr wc →
  GetName p ≠ "" → (GetNamespace p ≠ "" ↔ is_namespaced_kind p = true) →
  (∃ c, RController c ∈ wiring f ∧ ct_For c = PKind p ∧
     ct_Reconcile c (mkRequest (policy_key p)) = reconcile_any (policy_reconciler f) p ∧
     watched_by c (webhook_kind p) (wc_Meta wc) (mkRequest (policy_key p))) ∧
  (∃ c g, RController c ∈ wiring f ∧ ct_For c = KPolicyServer ∧
     ct_Reconcile c = PolicyServerReconciler_Reconcile (server_reconciler f) ∧
     WatchObject (PKind p) g ∈ ct_Watches c ∧
     g (OPolicy p) w = [server_request (GetPolicyServer p)]) ∧
  ∃ ix, RIndex (PKind p) PolicyServerIndexKey ix ∈ wiring f ∧
    ix (OPolicy p) = policyServerIndex (PKind p) (projT2 (policy_kind p)) ∧
    ix (OPolicy p) = [GetPolicyServer p].
Proof.
  intros Henf Hwc Hname Hns. destruct (policy_controller_wired f p) as (Hc & Hsrv & Hix).
  pose proof (webhook_request _ _ _ _ _ _ Henf Hwc Hname Hns) as Hreq.
  split; [|split].
  - exists (policy_controller f p). split; [done|]. split; [by destruct p|]. split; [by destruct p|].
    unfold watched_by, webhook_kind.
    destruct p as [p|p|p|p]; cbn [is_namespaced_kind] in Hreq; (eexists; split; [|exact Hreq]);
      cbn; repeat case_match; set_solver.
  - eexists _, (match p with
      | PAdmissionPolicy _ => λ o _, enqueueAdmissionPolicy o
      | PAdmissionPolicyGroup _ => λ o _, enqueueAdmissionPolicyGroup o
      | PClusterAdmissionPolicy _ => λ o _, enqueueClusterAdmissionPolicy o
      | PClusterAdmissionPolicyGroup _ => λ o _, enqueueClusterAdmissionPolicyGroup o
      end). split; [exact Hsrv|]. split; [done|]. split; [done|].
    split; [|by destruct p]. destruct p; cbn; set_solver.
  - exists (policy_index p). split; [done|]. by destruct p.
Qed.

(** A panic while the process is set up is not seen: the deferred
    [os.Exit] runs with the return code it still has. With a deployments
    namespace that cannot be parsed as a field selector, the process exits
    with code 0 without having started anything. *)
Theorem panic_exits_zero f why :
  rt_ParseSelector ("metadata.namespace=" +:+ deploymentsNamespace f) = Some why →
  enableMetrics f = false → main f = (0%Z, new_process).
Proof.
  intros Hsel Hm. unfold main, run, setup, setupManager. rewrite Hm, Hsel. done.
Qed.
End setup.

(** ** Runs *)

Section witnesses.
#[local] Existing Instance concrete_util.
#[local] Existing Instance concrete_range.
#[local] Existing Instance concrete_cel.
#[local] Existing Instance fake_client.
#[local] Existing Instance fake_env.
#[local] Existing Instance noop_meter.
#[local] Existing Instance concrete_retry.

(** A runtime where everything works, on an API server with match
    conditions; a field selector has no comma in a value. *)
Definition good_runtime : ControllerRuntime (World := FakeWorld) string := {|
  rt_OpenAPI := client_of (Marshal (schema_document [("matchConditions", JObj [])]));
  rt_Exporter := {| otlpmetricgrpc_New := None; meterProvider_Shutdown := None |};
  rt_ParseSelector s := if bool_decide (byte 44 ∈ chars s) then Some "invalid selector" else None;
  rt_DiscoveryClient := None;
  rt_GetConfig := true;
  rt_NewManager _ := None;
  rt_refuses _ _ := None;
  rt_Start _ := None;
|}.
#[local] Existing Instance good_runtime.

Definition with_namespace (ns : string) : Flags :=
  mkFlags ":8088" ":8081" false true false false "" "" ns "kubewarden-controller-webhook-service"
    false "client-ca".


Lemma panic_exits_zero_witness :
  main (mkFlags ":8088" ":8081" false false false false "" "" "a,b" "webhook" false "")
  = (0%Z, new_process).
Proof.
  apply (@panic_exits_zero FakeWorld concrete_util concrete_cel concrete_range fake_client
    fake_env noop_meter concrete_retry string good_runtime _ "invalid selector"); reflexivity.
Defined.

Lemma webhook_run_enforced : enforced sample_sub the_policy full_server ca_secret webhook_run.2.
Proof.
  assert (webhook_run.1 = Ok tt) as Hrun by (vm_compute; reflexivity).
  apply (@webhook_reconciled FakeWorld concrete_util fake_client fake_env fake_laws
           id id sample_sub the_policy full_server ca_secret ready_world).
  cbn [IsMutating the_policy]. apply wrap_err_Ok_inv. exact (run_fst _ _ _ Hrun).
Qed.

Lemma wiring_closes_loops_witness :
  ∃ c, RController c ∈ wiring (with_namespace "kubewarden") ∧ ct_For c = KAdmissionPolicy ∧
    ct_Reconcile c (mkRequest policy_ns_key) = reconcile_any sample_sub the_policy.
Proof.
  destruct (get_webhook the_policy webhook_run.2) as [e|wc] eqn:Hget.
  - exfalso. destruct webhook_run_enforced as (wc & wh & Hg & _).
    pose proof (eq_trans (eq_sym Hget) Hg) as Habs. discriminate Habs.
  - destruct (@wiring_closes_loops FakeWorld concrete_util concrete_cel concrete_range fake_client
      fake_env noop_meter concrete_retry string good_runtime (with_namespace "kubewarden")
      the_policy full_server ca_secret wc webhook_run.2 webhook_run_enforced Hget
      ltac:(discriminate) ltac:(by split)) as ((c & Hc & Hf & Hr & _) & _).
    exists c. split_and!; assumption.
Defined.
End witnesses.
