(* ===== verification/Factories.v ===== *)
(** * Builders of objects for the tests ([api/policies/v1/factories.go])

    One builder per kind: a constructor with default values and a random
    name, setters, and [Build], which gives the object the finalizers the
    mutating webhook would add. The theorems say what the tests rely on: the
    objects built are those the admission webhooks would let through. *)

From S2P Require Import Prelude GoStd Json K8sTypes Concrete Constants PolicyTypes PolicyValidation PolicyServerTypes PolicyWebhook KubeClient FakeCluster PolicyServerWebhook.
From Stdlib Require Import Ascii.
#[local] Open Scope stdpp_scope.

(** [os.LookupEnv] and [math/rand.Intn]. *)
Class TestEnvironment (World : Type) := {
  LookupEnv : string → option string;
  Intn : nat → World → nat * World;
}.
Class TestEnvironmentLaws (World : Type) `{TestEnvironment World} := {
  Intn_bound n w : 0 < n → (Intn n w).1 < n;
}.

Definition integrationTestsFinalizer : string := "integration-tests-safety-net-finalizer".
Definition defaultKubewardenRepository : string := "ghcr.io/kubewarden/policy-server".
Definition maxNameSuffixLength : nat := 8.

Section factories.
Context {World : Type} `{TestEnvironment World}.

(** ** Names and images *)

Definition letterRunes : list ascii := chars "abcdefghijklmnopqrstuvwxyz1234567890".

(** [letterRunes[rand.Intn(len(letterRunes))]]: indexing out of range panics. *)
Definition randRune : M World ascii := λ w,
  let '(i, w') := Intn (length letterRunes) w in
  match letterRunes !! i with
  | Some c => (Ok c, w')
  | None => (Panic "index out of range", w')
  end.

Fixpoint randRunes (n : nat) : M World (list ascii) :=
  match n with
  | 0 => mret []
  | S n => c ← randRune; b ← randRunes n; mret (c :: b)
  end.
Definition randStringRunes (n : nat) : M World string := b ← randRunes n; mret (unchars b).

Definition newName (prefix : string) : M World string :=
  s ← randStringRunes maxNameSuffixLength; mret (prefix +:+ "-" +:+ s).

Definition policyServerRepository : string :=
  match LookupEnv "POLICY_SERVER_REPOSITORY" with
  | Some repository => repository
  | None => defaultKubewardenRepository
  end.
Definition policyServerVersion : string :=
  match LookupEnv "POLICY_SERVER_VERSION" with Some version => version | None => "latest" end.

(** The metadata [Build] gives an object. *)
Definition built_meta (namespace name : string) : ObjectMeta :=
  om_set_Finalizers [KubewardenFinalizer; integrationTestsFinalizer] (named_meta namespace name).
Definition built_status : PolicyStatus := mkPolicyStatus "" "" [].

(** The rules and match conditions every policy builder starts with. *)
Definition test_rules : list RuleWithOperations :=
  [mkRWO ["CREATE"; "UPDATE"] (mkRule [""] ["v1"] ["Pods"] None)].
Definition test_matchConds : list MatchCondition := [mkMC "noop" "true"].
Definition pod_privileged : string := "registry://ghcr.io/kubewarden/tests/pod-privileged:v0.2.5".
Definition user_group_psp : string := "registry://ghcr.io/kubewarden/tests/user-group-psp:v0.4.9".
Definition test_member (module : string) : PolicyGroupMemberWithContext :=
  mkPolicyGroupMemberWithContext (mkPolicyGroupMember module None) [].
Definition cluster_test_members : PolicyGroupMembersWithContext :=
  {[ "pod_privileged" := test_member pod_privileged;
     "user_group_psp" := test_member user_group_psp ]}.

(** ** Builder of admission policies *)

Record AdmissionPolicyFactory := mkAdmissionPolicyFactory {
  apf_name : string;
  apf_namespace : string;
  apf_policyServer : string;
  apf_mutating : bool;
  apf_rules : list RuleWithOperations;
  apf_module : string;
  apf_matchConds : list MatchCondition;
  apf_mode : PolicyMode;
}.

Definition NewAdmissionPolicyFactory : M World AdmissionPolicyFactory :=
  name ← newName "admission-policy";
  mret (mkAdmissionPolicyFactory name
    "default" "" false test_rules pod_privileged test_matchConds "protect").

Definition AdmissionPolicyFactory_WithName (x : string) (f : AdmissionPolicyFactory)
    : AdmissionPolicyFactory :=
  mkAdmissionPolicyFactory x (apf_namespace f) (apf_policyServer f) (apf_mutating f)
    (apf_rules f) (apf_module f) (apf_matchConds f) (apf_mode f).
Definition AdmissionPolicyFactory_WithNamespace (x : string) (f : AdmissionPolicyFactory)
    : AdmissionPolicyFactory :=
  mkAdmissionPolicyFactory (apf_name f) x (apf_policyServer f) (apf_mutating f) (apf_rules f)
    (apf_module f) (apf_matchConds f) (apf_mode f).
Definition AdmissionPolicyFactory_WithPolicyServer (x : string) (f : AdmissionPolicyFactory)
    : AdmissionPolicyFactory :=
  mkAdmissionPolicyFactory (apf_name f) (apf_namespace f) x (apf_mutating f) (apf_rules f)
    (apf_module f) (apf_matchConds f) (apf_mode f).
Definition AdmissionPolicyFactory_WithMutating (x : bool) (f : AdmissionPolicyFactory)
    : AdmissionPolicyFactory :=
  mkAdmissionPolicyFactory (apf_name f) (apf_namespace f) (apf_policyServer f) x (apf_rules f)
    (apf_module f) (apf_matchConds f) (apf_mode f).
Definition AdmissionPolicyFactory_WithRules (x : list RuleWithOperations)
    (f : AdmissionPolicyFactory) : AdmissionPolicyFactory :=
  mkAdmissionPolicyFactory (apf_name f) (apf_namespace f) (apf_policyServer f) (apf_mutating f)
    x (apf_module f) (apf_matchConds f) (apf_mode f).
Definition AdmissionPolicyFactory_WithMatchConditions (x : list MatchCondition)
    (f : AdmissionPolicyFactory) : AdmissionPolicyFactory :=
  mkAdmissionPolicyFactory (apf_name f) (apf_namespace f) (apf_policyServer f) (apf_mutating f)
    (apf_rules f) (apf_module f) x (apf_mode f).
Definition AdmissionPolicyFactory_WithMode (x : PolicyMode) (f : AdmissionPolicyFactory)
    : AdmissionPolicyFactory :=
  mkAdmissionPolicyFactory (apf_name f) (apf_namespace f) (apf_policyServer f) (apf_mutating f)
    (apf_rules f) (apf_module f) (apf_matchConds f) x.

Definition AdmissionPolicyFactory_Build (f : AdmissionPolicyFactory) : AdmissionPolicy :=
  mkAdmissionPolicy (mkTypeMeta "" "") (built_meta (apf_namespace f) (apf_name f))
    (mkPolicySpec (apf_policyServer f) (apf_mode f) (apf_module f) None (apf_rules f) None
       (apf_mutating f) false None (apf_matchConds f) None None None) built_status.

(** ** Builder of cluster admission policies *)

Record ClusterAdmissionPolicyFactory := mkClusterAdmissionPolicyFactory {
  capf_name : string;
  capf_policyServer : string;
  capf_mutating : bool;
  capf_rules : list RuleWithOperations;
  capf_module : string;
  capf_contextAwareResources : list ContextAwareResource;
  capf_matchConds : list MatchCondition;
  capf_mode : PolicyMode;
}.

Definition NewClusterAdmissionPolicyFactory : M World ClusterAdmissionPolicyFactory :=
  name ← newName "cluster-admission";
  mret (mkClusterAdmissionPolicyFactory name
    "" false test_rules pod_privileged [] test_matchConds "protect").

Definition ClusterAdmissionPolicyFactory_WithName (x : string) (f : ClusterAdmissionPolicyFactory)
    : ClusterAdmissionPolicyFactory :=
  mkClusterAdmissionPolicyFactory x (capf_policyServer f) (capf_mutating f) (capf_rules f)
    (capf_module f) (capf_contextAwareResources f) (capf_matchConds f) (capf_mode f).
Definition ClusterAdmissionPolicyFactory_WithPolicyServer (x : string)
    (f : ClusterAdmissionPolicyFactory) : ClusterAdmissionPolicyFactory :=
  mkClusterAdmissionPolicyFactory (capf_name f) x (capf_mutating f) (capf_rules f)
    (capf_module f) (capf_contextAwareResources f) (capf_matchConds f) (capf_mode f).
Definition ClusterAdmissionPolicyFactory_WithMutating (x : bool) (f : ClusterAdmissionPolicyFactory)
    : ClusterAdmissionPolicyFactory :=
  mkClusterAdmissionPolicyFactory (capf_name f) (capf_policyServer f) x (capf_rules f)
    (capf_module f) (capf_contextAwareResources f) (capf_matchConds f) (capf_mode f).
Definition ClusterAdmissionPolicyFactory_WithRules (x : list RuleWithOperations)
    (f : ClusterAdmissionPolicyFactory) : ClusterAdmissionPolicyFactory :=
  mkClusterAdmissionPolicyFactory (capf_name f) (capf_policyServer f) (capf_mutating f) x
    (capf_module f) (capf_contextAwareResources f) (capf_matchConds f) (capf_mode f).
Definition ClusterAdmissionPolicyFactory_WithContextAwareResources (x : list ContextAwareResource)
    (f : ClusterAdmissionPolicyFactory) : ClusterAdmissionPolicyFactory :=
  mkClusterAdmissionPolicyFactory (capf_name f) (capf_policyServer f) (capf_mutating f)
    (capf_rules f) (capf_module f) x (capf_matchConds f) (capf_mode f).
Definition ClusterAdmissionPolicyFactory_WithMatchConditions (x : list MatchCondition)
    (f : ClusterAdmissionPolicyFactory) : ClusterAdmissionPolicyFactory :=
  mkClusterAdmissionPolicyFactory (capf_name f) (capf_policyServer f) (capf_mutating f)
    (capf_rules f) (capf_module f) (capf_contextAwareResources f) x (capf_mode f).
Definition ClusterAdmissionPolicyFactory_WithMode (x : PolicyMode)
    (f : ClusterAdmissionPolicyFactory) : ClusterAdmissionPolicyFactory :=
  mkClusterAdmissionPolicyFactory (capf_name f) (capf_policyServer f) (capf_mutating f)
    (capf_rules f) (capf_module f) (capf_contextAwareResources f) (capf_matchConds f) x.

Definition ClusterAdmissionPolicyFactory_Build (f : ClusterAdmissionPolicyFactory)
    : ClusterAdmissionPolicy :=
  mkClusterAdmissionPolicy (mkTypeMeta "" "") (built_meta "" (capf_name f))
    (mkClusterAdmissionPolicySpec
       (mkPolicySpec (capf_policyServer f) (capf_mode f) (capf_module f) None (capf_rules f) None
          (capf_mutating f) false None (capf_matchConds f) None None None)
       None (capf_contextAwareResources f)) built_status.

(** ** Builder of admission policy groups *)

Record AdmissionPolicyGroupFactory := mkAdmissionPolicyGroupFactory {
  apgf_name : string;
  apgf_namespace : string;
  apgf_policyServer : string;
  apgf_rules : list RuleWithOperations;
  apgf_expression : string;
  apgf_policyMembers : PolicyGroupMembers;
  apgf_matchConds : list MatchCondition;
  apgf_mode : PolicyMode;
}.

Definition NewAdmissionPolicyGroupFactory : M World AdmissionPolicyGroupFactory :=
  name ← newName "admissing-policy-group";
  mret (mkAdmissionPolicyGroupFactory name
    "default" "" test_rules "pod_privileged()"
    {[ "pod_privileged" := mkPolicyGroupMember pod_privileged None ]}
    test_matchConds "protect").

Definition AdmissionPolicyGroupFactory_WithName (x : string) (f : AdmissionPolicyGroupFactory)
    : AdmissionPolicyGroupFactory :=
  mkAdmissionPolicyGroupFactory x (apgf_namespace f) (apgf_policyServer f) (apgf_rules f)
    (apgf_expression f) (apgf_policyMembers f) (apgf_matchConds f) (apgf_mode f).
Definition AdmissionPolicyGroupFactory_WithNamespace (x : string) (f : AdmissionPolicyGroupFactory)
    : AdmissionPolicyGroupFactory :=
  mkAdmissionPolicyGroupFactory (apgf_name f) x (apgf_policyServer f) (apgf_rules f)
    (apgf_expression f) (apgf_policyMembers f) (apgf_matchConds f) (apgf_mode f).
Definition AdmissionPolicyGroupFactory_WithPolicyServer (x : string)
    (f : AdmissionPolicyGroupFactory) : AdmissionPolicyGroupFactory :=
  mkAdmissionPolicyGroupFactory (apgf_name f) (apgf_namespace f) x (apgf_rules f)
    (apgf_expression f) (apgf_policyMembers f) (apgf_matchConds f) (apgf_mode f).
Definition AdmissionPolicyGroupFactory_WithRules (x : list RuleWithOperations)
    (f : AdmissionPolicyGroupFactory) : AdmissionPolicyGroupFactory :=
  mkAdmissionPolicyGroupFactory (apgf_name f) (apgf_namespace f) (apgf_policyServer f) x
    (apgf_expression f) (apgf_policyMembers f) (apgf_matchConds f) (apgf_mode f).
Definition AdmissionPolicyGroupFactory_WithMatchConditions (x : list MatchCondition)
    (f : AdmissionPolicyGroupFactory) : AdmissionPolicyGroupFactory :=
  mkAdmissionPolicyGroupFactory (apgf_name f) (apgf_namespace f) (apgf_policyServer f)
    (apgf_rules f) (apgf_expression f) (apgf_policyMembers f) x (apgf_mode f).
Definition AdmissionPolicyGroupFactory_WithMode (x : PolicyMode) (f : AdmissionPolicyGroupFactory)
    : AdmissionPolicyGroupFactory :=
  mkAdmissionPolicyGroupFactory (apgf_name f) (apgf_namespace f) (apgf_policyServer f)
    (apgf_rules f) (apgf_expression f) (apgf_policyMembers f) (apgf_matchConds f) x.

Definition AdmissionPolicyGroupFactory_Build (f : AdmissionPolicyGroupFactory)
    : AdmissionPolicyGroup :=
  mkAdmissionPolicyGroup (mkTypeMeta "" "") (built_meta (apgf_namespace f) (apgf_name f))
    (mkPolicyGroupSpec
       (mkGroupSpec (apgf_policyServer f) (apgf_mode f) (apgf_rules f) None false None
          (apgf_matchConds f) None None None (apgf_expression f) "")
       (apgf_policyMembers f)) built_status.

(** ** Builder of cluster admission policy groups *)

Record ClusterAdmissionPolicyGroupFactory := mkClusterAdmissionPolicyGroupFactory {
  capgf_name : string;
  capgf_policyServer : string;
  capgf_rules : list RuleWithOperations;
  capgf_expression : string;
  capgf_policyMembers : PolicyGroupMembersWithContext;
  capgf_matchConds : list MatchCondition;
  capgf_mode : PolicyMode;
}.

Definition NewClusterAdmissionPolicyGroupFactory : M World ClusterAdmissionPolicyGroupFactory :=
  name ← newName "cluster-admission-policy-group";
  mret (mkClusterAdmissionPolicyGroupFactory name
    "" test_rules "pod_privileged() && user_group_psp()" cluster_test_members
    test_matchConds "protect").

Definition ClusterAdmissionPolicyGroupFactory_WithName (x : string)
    (f : ClusterAdmissionPolicyGroupFactory) : ClusterAdmissionPolicyGroupFactory :=
  mkClusterAdmissionPolicyGroupFactory x (capgf_policyServer f) (capgf_rules f)
    (capgf_expression f) (capgf_policyMembers f) (capgf_matchConds f) (capgf_mode f).
Definition ClusterAdmissionPolicyGroupFactory_WithPolicyServer (x : string)
    (f : ClusterAdmissionPolicyGroupFactory) : ClusterAdmissionPolicyGroupFactory :=
  mkClusterAdmissionPolicyGroupFactory (capgf_name f) x (capgf_rules f) (capgf_expression f)
    (capgf_policyMembers f) (capgf_matchConds f) (capgf_mode f).
Definition ClusterAdmissionPolicyGroupFactory_WithRules (x : list RuleWithOperations)
    (f : ClusterAdmissionPolicyGroupFactory) : ClusterAdmissionPolicyGroupFactory :=
  mkClusterAdmissionPolicyGroupFactory (capgf_name f) (capgf_policyServer f) x
    (capgf_expression f) (capgf_policyMembers f) (capgf_matchConds f) (capgf_mode f).
Definition ClusterAdmissionPolicyGroupFactory_WithMembers (x : PolicyGroupMembersWithContext)
    (f : ClusterAdmissionPolicyGroupFactory) : ClusterAdmissionPolicyGroupFactory :=
  mkClusterAdmissionPolicyGroupFactory (capgf_name f) (capgf_policyServer f) (capgf_rules f)
    (capgf_expression f) x (capgf_matchConds f) (capgf_mode f).
Definition ClusterAdmissionPolicyGroupFactory_WithMatchConditions (x : list MatchCondition)
    (f : ClusterAdmissionPolicyGroupFactory) : ClusterAdmissionPolicyGroupFactory :=
  mkClusterAdmissionPolicyGroupFactory (capgf_name f) (capgf_policyServer f) (capgf_rules f)
    (capgf_expression f) (capgf_policyMembers f) x (capgf_mode f).
Definition ClusterAdmissionPolicyGroupFactory_WithMode (x : PolicyMode)
    (f : ClusterAdmissionPolicyGroupFactory) : ClusterAdmissionPolicyGroupFactory :=
  mkClusterAdmissionPolicyGroupFactory (capgf_name f) (capgf_policyServer f) (capgf_rules f)
    (capgf_expression f) (capgf_policyMembers f) (capgf_matchConds f) x.

Definition ClusterAdmissionPolicyGroupFactory_Build (f : ClusterAdmissionPolicyGroupFactory)
    : ClusterAdmissionPolicyGroup :=
  mkClusterAdmissionPolicyGroup (mkTypeMeta "" "") (built_meta "" (capgf_name f))
    (mkClusterAdmissionPolicyGroupSpec
       (mkClusterPolicyGroupSpec
          (mkGroupSpec (capgf_policyServer f) (capgf_mode f) (capgf_rules f) None false None
             (capgf_matchConds f) None None None (capgf_expression f) "")
          (capgf_policyMembers f)) None) built_status.

(** ** Builder of policy servers *)

Record PolicyServerBuilder := mkPolicyServerBuilder {
  psb_name : string;
  psb_minAvailable : option IntOrString;
  psb_maxUnavailable : option IntOrString;
  psb_imagePullSecret : string;
  psb_limits : gmap string Quantity;
  psb_requests : gmap string Quantity;
}.

Definition NewPolicyServerFactory : M World PolicyServerBuilder :=
  name ← newName "policy-server";
  mret (mkPolicyServerBuilder name
    None None "" ∅ ∅).

Definition PolicyServerBuilder_WithName (x : string) (f : PolicyServerBuilder)
    : PolicyServerBuilder :=
  mkPolicyServerBuilder x (psb_minAvailable f) (psb_maxUnavailable f) (psb_imagePullSecret f)
    (psb_limits f) (psb_requests f).
Definition PolicyServerBuilder_WithMinAvailable (x : option IntOrString) (f : PolicyServerBuilder)
    : PolicyServerBuilder :=
  mkPolicyServerBuilder (psb_name f) x (psb_maxUnavailable f) (psb_imagePullSecret f)
    (psb_limits f) (psb_requests f).
Definition PolicyServerBuilder_WithMaxUnavailable (x : option IntOrString) (f : PolicyServerBuilder)
    : PolicyServerBuilder :=
  mkPolicyServerBuilder (psb_name f) (psb_minAvailable f) x (psb_imagePullSecret f)
    (psb_limits f) (psb_requests f).
Definition PolicyServerBuilder_WithImagePullSecret (x : string) (f : PolicyServerBuilder)
    : PolicyServerBuilder :=
  mkPolicyServerBuilder (psb_name f) (psb_minAvailable f) (psb_maxUnavailable f) x
    (psb_limits f) (psb_requests f).
Definition PolicyServerBuilder_WithLimits (x : gmap string Quantity) (f : PolicyServerBuilder)
    : PolicyServerBuilder :=
  mkPolicyServerBuilder (psb_name f) (psb_minAvailable f) (psb_maxUnavailable f)
    (psb_imagePullSecret f) x (psb_requests f).
Definition PolicyServerBuilder_WithRequests (x : gmap string Quantity) (f : PolicyServerBuilder)
    : PolicyServerBuilder :=
  mkPolicyServerBuilder (psb_name f) (psb_minAvailable f) (psb_maxUnavailable f)
    (psb_imagePullSecret f) (psb_limits f) x.

Definition PolicyServerBuilder_Build (f : PolicyServerBuilder) : PolicyServer :=
  mkPolicyServer (built_meta "" (psb_name f))
    (mkPolicyServerSpec (policyServerRepository +:+ ":" +:+ policyServerVersion) 1
       (psb_minAvailable f) (psb_maxUnavailable f) None [] "" (psb_imagePullSecret f) None ∅ ""
       (mkPolicyServerSecurity None None) (JObj []) (psb_limits f) (psb_requests f) [])
    (mkPolicyServerStatus []).

End factories.

(** ** Theorems *)

(** *** Names *)

Section names.
Context {World : Type} `{TestEnvironmentLaws World}.

Lemma randRune_Ok w :
  ∃ c w', randRune w = (Ok c, w') ∧ c ∈ letterRunes.
Proof.
  unfold randRune. pose proof (Intn_bound (length letterRunes) w ltac:(vm_compute; lia)) as Hi.
  destruct (Intn (length letterRunes) w) as [i w']. cbn [fst] in Hi.
  destruct (lookup_lt_is_Some_2 letterRunes i Hi) as [c Hc]. rewrite Hc.
  exists c, w'. split; [done|]. by eapply list_elem_of_lookup_2.
Qed.

Lemma randRunes_Ok n w :
  ∃ l w', randRunes n w = (Ok l, w') ∧ length l = n ∧ Forall (.∈ letterRunes) l.
Proof.
  revert w. induction n as [|n IH]; intros w; [by exists [], w|].
  destruct (randRune_Ok w) as (c & w1 & Hc & Hin), (IH w1) as (l & w2 & Hl & Hlen & Hall).
  exists (c :: l), w2. cbn [randRunes]. unfold mbind, M_mbind, M_bind. rewrite Hc, Hl.
  split; [done|]. split; [by cbn; rewrite Hlen|by constructor].
Qed.

(** Naming never panics: a name is its prefix, a dash and eight runes
    that are lower case letters or digits, as an object name wants them. *)
Theorem newName_spec (prefix : string) (w : World) :
  ∃ l w', newName prefix w = (Ok (prefix +:+ "-" +:+ unchars l), w') ∧
    String.length (prefix +:+ "-" +:+ unchars l) = String.length prefix + 9 ∧
    Forall (λ c, is_lower c || is_digit c = true) l.
Proof.
  destruct (randRunes_Ok maxNameSuffixLength w) as (l & w' & Hrun & Hlen & Hall).
  exists l, w'. unfold newName, randStringRunes, mbind, M_mbind, M_bind. rewrite Hrun.
  split; [done|]. split.
  - rewrite !string_app_length. cbn [String.length].
    assert (∀ l, String.length (unchars l) = length l) as ->
      by (induction l0 as [|? ? IH]; [done|by cbn; rewrite IH]).
    rewrite Hlen. unfold maxNameSuffixLength. lia.
  - assert (Forall (λ c, is_lower c || is_digit c = true) letterRunes) as Hruns
      by (apply forallb_Forall_true; vm_compute; reflexivity).
    eapply Forall_impl; [exact Hall|]. intros c Hc. by eapply Forall_forall in Hruns.
Qed.
End names.

(** *** Policies *)

(** The policy builders, and the policy each builds. *)
Inductive PolicyBuilder :=
| BAdmissionPolicy (f : AdmissionPolicyFactory)
| BClusterAdmissionPolicy (f : ClusterAdmissionPolicyFactory)
| BAdmissionPolicyGroup (f : AdmissionPolicyGroupFactory)
| BClusterAdmissionPolicyGroup (f : ClusterAdmissionPolicyGroupFactory).

Definition Build (b : PolicyBuilder) : AnyPolicy :=
  match b with
  | BAdmissionPolicy f => PAdmissionPolicy (AdmissionPolicyFactory_Build f)
  | BClusterAdmissionPolicy f => PClusterAdmissionPolicy (ClusterAdmissionPolicyFactory_Build f)
  | BAdmissionPolicyGroup f => PAdmissionPolicyGroup (AdmissionPolicyGroupFactory_Build f)
  | BClusterAdmissionPolicyGroup f =>
      PClusterAdmissionPolicyGroup (ClusterAdmissionPolicyGroupFactory_Build f)
  end.

Definition with_server (s : string) (b : PolicyBuilder) : PolicyBuilder :=
  match b with
  | BAdmissionPolicy f => BAdmissionPolicy (AdmissionPolicyFactory_WithPolicyServer s f)
  | BClusterAdmissionPolicy f =>
      BClusterAdmissionPolicy (ClusterAdmissionPolicyFactory_WithPolicyServer s f)
  | BAdmissionPolicyGroup f =>
      BAdmissionPolicyGroup (AdmissionPolicyGroupFactory_WithPolicyServer s f)
  | BClusterAdmissionPolicyGroup f =>
      BClusterAdmissionPolicyGroup (ClusterAdmissionPolicyGroupFactory_WithPolicyServer s f)
  end.

Section policies.
Context {World : Type} `{TestEnvironment World}.

(** A new builder with any sequence of setters, except those that replace its
    rules, conditions or members. *)
Inductive built : PolicyBuilder → Prop :=
| built_ap w f w' : NewAdmissionPolicyFactory w = (Ok f, w') → built (BAdmissionPolicy f)
| built_cap w f w' :
    NewClusterAdmissionPolicyFactory w = (Ok f, w') → built (BClusterAdmissionPolicy f)
| built_apg w f w' :
    NewAdmissionPolicyGroupFactory w = (Ok f, w') → built (BAdmissionPolicyGroup f)
| built_capg w f w' :
    NewClusterAdmissionPolicyGroupFactory w = (Ok f, w') → built (BClusterAdmissionPolicyGroup f)
| built_server s b : built b → built (with_server s b)
| built_ap_set f g :
    built (BAdmissionPolicy f) →
    (∃ x, g = AdmissionPolicyFactory_WithName x f ∨ g = AdmissionPolicyFactory_WithNamespace x f ∨
          g = AdmissionPolicyFactory_WithMode x f) ∨
    (∃ x, g = AdmissionPolicyFactory_WithMutating x f) →
    built (BAdmissionPolicy g)
| built_cap_set f g :
    built (BClusterAdmissionPolicy f) →
    (∃ x, g = ClusterAdmissionPolicyFactory_WithName x f ∨
          g = ClusterAdmissionPolicyFactory_WithMode x f) ∨
    (∃ x, g = ClusterAdmissionPolicyFactory_WithMutating x f) ∨
    (∃ x, g = ClusterAdmissionPolicyFactory_WithContextAwareResources x f) →
    built (BClusterAdmissionPolicy g)
| built_apg_set f g :
    built (BAdmissionPolicyGroup f) →
    (∃ x, g = AdmissionPolicyGroupFactory_WithName x f ∨
          g = AdmissionPolicyGroupFactory_WithNamespace x f ∨
          g = AdmissionPolicyGroupFactory_WithMode x f) →
    built (BAdmissionPolicyGroup g)
| built_capg_set f g :
    built (BClusterAdmissionPolicyGroup f) →
    (∃ x, g = ClusterAdmissionPolicyGroupFactory_WithName x f ∨
          g = ClusterAdmissionPolicyGroupFactory_WithMode x f) →
    built (BClusterAdmissionPolicyGroup g).

(** What every built policy has. *)
Definition test_members (b : PolicyBuilder) : PolicyGroupMembersWithContext :=
  {[ "pod_privileged" := test_member pod_privileged ]}
  ∪ match b with
    | BClusterAdmissionPolicyGroup _ => {[ "user_group_psp" := test_member user_group_psp ]}
    | _ => ∅
    end.
Definition test_expression (b : PolicyBuilder) : string :=
  match b with
  | BClusterAdmissionPolicyGroup _ => "pod_privileged() && user_group_psp()"
  | _ => "pod_privileged()"
  end.
Definition test_shape (b : PolicyBuilder) : Prop :=
  GetRules (Build b) =
    (if is_namespaced_kind (Build b) then scoped_rule <$> test_rules else test_rules) ∧
  GetMatchConditions (Build b) = test_matchConds ∧
  GetFinalizers (Build b) = [KubewardenFinalizer; integrationTestsFinalizer] ∧
  GetDeletionTimestamp (Build b) = None ∧
  match as_PolicyGroup (Build b) with
  | Some (members, expression, _) => members = test_members b ∧ expression = test_expression b
  | None => True
  end.

Lemma test_members_group f :
  apgf_policyMembers f = {[ "pod_privileged" := mkPolicyGroupMember pod_privileged None ]} →
  AdmissionPolicyGroup_GetPolicyGroupMembersWithContext (AdmissionPolicyGroupFactory_Build f)
  = test_members (BAdmissionPolicyGroup f).
Proof.
  intros Hf. unfold AdmissionPolicyGroup_GetPolicyGroupMembersWithContext. cbn. rewrite Hf.
  unfold test_members. by rewrite map_fmap_singleton, (right_id_L ∅ (∪)).
Qed.

Lemma built_shape b : built b → test_shape b.
Proof.
  unfold test_shape.
  induction 1 as [w f w' Hrun|w f w' Hrun|w f w' Hrun|w f w' Hrun|s b Hb IH|f g Hb IH Hg|f g Hb IH Hg
    |f g Hb IH Hg|f g Hb IH Hg].
  - unfold NewAdmissionPolicyFactory in Hrun. by inv_run Hrun; subst.
  - unfold NewClusterAdmissionPolicyFactory in Hrun. by inv_run Hrun; subst.
  - unfold NewAdmissionPolicyGroupFactory in Hrun. inv_run Hrun; subst.
    split_and!; try reflexivity. split; [by apply test_members_group|reflexivity].
  - unfold NewClusterAdmissionPolicyGroupFactory in Hrun. by inv_run Hrun; subst.
  - by destruct b.
  - by destruct Hg as [[x [->|[->| ->]]]|[x ->]].
  - by destruct Hg as [[x [->| ->]]|[[x ->]|[x ->]]].
  - by destruct Hg as [x [->|[->| ->]]].
  - by destruct Hg as [x [->| ->]].
Qed.
End policies.

(** *** Admission *)

Section admission.
Context {World : Type} `{TestEnvironment World, K8sUtil, !K8sUtilLaws, CelCompiler, MapRange}.

(** What the API machinery says of the conditions and expressions used. *)
Class TestsCompile : Prop := {
  true_compiles : CompileCELExpression "true" = None;
  noop_qualified : IsQualifiedName "noop" = [];
  expression_compiles b : expression_accepted (test_members b) (test_expression b);
}.

Lemma test_rules_accepted namespaced :
  Forall (rule_accepted namespaced)
    (if namespaced then scoped_rule <$> test_rules else test_rules).
Proof.
  assert (rule_accepted namespaced (mkRWO ["CREATE"; "UPDATE"]
    (mkRule [""] ["v1"] ["Pods"] (if namespaced then Some NamespacedScope else None)))) as Hr.
  { unfold rule_accepted, has_resource_wildcard, targets, defaultSensitiveResources. cbn.
    split_and!; [done|set_solver|done|set_solver|done|set_solver|]. intros _.
    split; [set_solver|]. constructor; [|constructor]. set_solver. }
  by destruct namespaced; constructor.
Qed.

Lemma test_members_accepted b : validatePolicyGroupMembers (test_members b) = [].
Proof.
  apply validatePolicyGroupMembers_accepts. split; [by destruct b|].
  intros name [x Hx]. unfold test_members in Hx.
  assert (name = "pod_privileged" ∨ name = "user_group_psp") as [-> | ->].
  { apply lookup_union_Some_raw in Hx as [[-> _]%lookup_singleton_Some|[_ Hx]]; [by left|].
    destruct b; try done. right. by apply lookup_singleton_Some in Hx as [-> _]. }
  all: split; [|by apply (bool_decide_unpack _)].
  all: apply idenRegex_spec; vm_compute; reflexivity.
Qed.

(** However a policy builder is set up, short of replacing its rules,
    conditions and members: the policy it builds is admitted, and carries what
    the defaulter would have added, so that defaulting only binds it to the
    default policy server when it names none. *)
Theorem built_policies_admitted (b : PolicyBuilder) `{!TestsCompile} :
  built b →
  policy_ValidateCreate (Build b) = None ∧
  policy_Default (Build b) =
    inr (OPolicy (Build (with_server
      (if bool_decide (GetPolicyServer (Build b) = "") then DefaultPolicyServer
       else GetPolicyServer (Build b)) b))).
Proof.
  intros (Hrules & Hconds & Hfin & Hdel & Hgroup)%built_shape. split.
  - apply ValidateCreate_None. unfold validatePolicyCreate. rewrite app_nil_iff. split_and!.
    + apply validateRulesField_nil. rewrite Hrules. split; [by destruct (is_namespaced_kind _)|].
      apply test_rules_accepted.
    + rewrite Hconds. apply validateMatchConditions_nil. unfold maxMatchConditionsCount.
      split_and!; [cbn; lia| |].
      * constructor; [|constructor]. unfold match_condition_accepted.
        change (TrimSpace (mc_Expression (mkMC "noop" "true"))) with (TrimSpace "true").
        assert (TrimSpace "true" = "true") as -> by (vm_compute; reflexivity).
        split_and!; [done|apply true_compiles|done|apply noop_qualified].
      * apply NoDup_singleton.
    + apply group_errors_nil. intros m e msg Hg. rewrite Hg in Hgroup. destruct Hgroup as [-> ->].
      split; [apply test_members_accepted|apply expression_compiles].
  - assert (∀ T `(PolicyI T) (p : T), GetDeletionTimestamp p = None →
      GetFinalizers p = [KubewardenFinalizer; integrationTestsFinalizer] →
      ensure_finalizer p = SetFinalizers [KubewardenFinalizer; integrationTestsFinalizer] p) as He.
    { intros T HT p Hd Hf. unfold ensure_finalizer. rewrite Hd, Hf, AddFinalizer_present; [done|].
      left. }
    destruct b as [[]|[]|[]|[]]; cbn; case_bool_decide; by rewrite He.
Qed.
End admission.

(** ** Runs *)

Section witnesses.
#[local] Existing Instance concrete_util.
#[local] Existing Instance concrete_util_laws.
#[local] Existing Instance concrete_range.
#[local] Existing Instance concrete_cel.

(** A generator that counts, in an empty environment. *)
Definition counter : TestEnvironment nat := {|
  LookupEnv _ := None;
  Intn n w := (w mod n, S w);
|}.
#[local] Existing Instance counter.

Lemma counter_laws : TestEnvironmentLaws nat.
Proof. split. intros n w Hn. apply Nat.mod_upper_bound. lia. Qed.

Example newName_counts : newName "policy-server" 33 = (Ok "policy-server-890abcde", 41).
Proof. vm_compute. reflexivity. Qed.

Example server_image :
  pspec_Image (psrv_Spec (PolicyServerBuilder_Build (mkPolicyServerBuilder "s" None None "" ∅ ∅)))
  = "ghcr.io/kubewarden/policy-server:latest".
Proof. vm_compute. reflexivity. Qed.

Lemma newName_spec_witness : ∃ l w', newName "policy-server" 0 = (Ok l, w') ∧ String.length l = 22.
Proof.
  destruct (@newName_spec nat counter counter_laws "policy-server" 0) as (l & w' & Hrun & Hlen & _).
  eexists _, w'. split; [exact Hrun|exact Hlen].
Defined.

Lemma tests_compile : TestsCompile.
Proof.
  split; [done..|]. intros b. split; [by destruct b|]. by exists tt, tt.
Qed.

Definition group_builder : PolicyBuilder :=
  BClusterAdmissionPolicyGroup
    (ClusterAdmissionPolicyGroupFactory_WithName "g"
       (mkClusterAdmissionPolicyGroupFactory "cluster-admission-policy-group-abcdefgh" "" test_rules
          "pod_privileged() && user_group_psp()"
          cluster_test_members
          test_matchConds "protect")).

Lemma group_builder_built : built group_builder.
Proof.
  eapply built_capg_set; [eapply (built_capg 0); vm_compute; reflexivity|].
  eexists. left. reflexivity.
Qed.

Lemma built_policies_admitted_witness :
  policy_ValidateCreate (Build group_builder) = None ∧
  policy_Default (Build group_builder) =
    inr (OPolicy (Build (with_server DefaultPolicyServer group_builder))).
Proof.
  exact (@built_policies_admitted nat counter concrete_util concrete_util_laws concrete_cel
    concrete_range group_builder tests_compile group_builder_built).
Defined.
End witnesses.
