(* ===== verification/V1alpha2.v ===== *)
(** * The deprecated version of the API ([api/policies/v1alpha2])

    The types and methods of the version that came before v1. It is served by
    the same custom resource definitions, which have no conversion webhook:
    the API server carries the fields both versions have from one to the
    other. That conversion is a parameter, [Conversion], with the fields it
    keeps as its laws. The theorem says that the two versions describe the
    same policies and policy servers: every method of the old version answers
    as the method of v1 on the converted object. *)

From S2P Require Import Prelude GoStd Json K8sTypes Concrete Constants PolicyTypes PolicyServerTypes.

(** ** Policies *)

Record PolicyStatus_v1alpha2 := mkPolicyStatus_v1alpha2 {
  st2_PolicyStatus : PolicyStatusEnum;
  st2_PolicyMode : PolicyModeStatus;
  st2_Conditions : list Condition;
}.

Record PolicySpec_v1alpha2 := mkPolicySpec_v1alpha2 {
  sp2_PolicyServer : string;
  sp2_Module : string;
  sp2_Mode : PolicyMode;
  sp2_Settings : RawExtension;
  sp2_Rules : list RuleWithOperations;
  sp2_FailurePolicy : option string;
  sp2_Mutating : bool;
  sp2_MatchPolicy : option string;
  sp2_ObjectSelector : option LabelSelector;
  sp2_SideEffects : option string;
  sp2_TimeoutSeconds : option Z;
}.

Record AdmissionPolicy_v1alpha2 := mkAdmissionPolicy_v1alpha2 {
  ap2_TypeMeta : TypeMeta; ap2_ObjectMeta : ObjectMeta;
  ap2_Spec : PolicySpec_v1alpha2; ap2_Status : PolicyStatus_v1alpha2;
}.

Record ClusterAdmissionPolicySpec_v1alpha2 := mkClusterAdmissionPolicySpec_v1alpha2 {
  caps2_PolicySpec : PolicySpec_v1alpha2;
  caps2_NamespaceSelector : option LabelSelector;
}.
Record ClusterAdmissionPolicy_v1alpha2 := mkClusterAdmissionPolicy_v1alpha2 {
  cap2_TypeMeta : TypeMeta; cap2_ObjectMeta : ObjectMeta;
  cap2_Spec : ClusterAdmissionPolicySpec_v1alpha2; cap2_Status : PolicyStatus_v1alpha2;
}.

(** The [Policy] interface of this version: no match conditions, context aware
    resources, background audit nor groups. *)
Class PolicyI_v1alpha2 (T : Type) := {
  GetObjectMeta2 : T → ObjectMeta;
  GetPolicyMode2 : T → PolicyMode;
  GetModule2 : T → string;
  IsMutating2 : T → bool;
  GetSettings2 : T → RawExtension;
  GetStatus2 : T → PolicyStatus_v1alpha2;
  SetStatusRecord2 : PolicyStatus_v1alpha2 → T → T;
  GetSideEffects2 : T → option string;
  GetRules2 : T → list RuleWithOperations;
  GetFailurePolicy2 : T → option string;
  GetMatchPolicy2 : T → option string;
  GetNamespaceSelector2 : T → option LabelSelector;
  GetObjectSelector2 : T → option LabelSelector;
  GetTimeoutSeconds2 : T → option Z;
  GetPolicyServer2 : T → string;
  GetUniqueName2 : T → string;
}.

Section setters.
Context `{PolicyI_v1alpha2 T}.
Definition SetStatus2 (status : PolicyStatusEnum) (p : T) : T :=
  SetStatusRecord2 (mkPolicyStatus_v1alpha2 status (st2_PolicyMode (GetStatus2 p))
                      (st2_Conditions (GetStatus2 p))) p.
Definition SetPolicyModeStatus2 (policyMode : PolicyModeStatus) (p : T) : T :=
  SetStatusRecord2 (mkPolicyStatus_v1alpha2 (st2_PolicyStatus (GetStatus2 p)) policyMode
                      (st2_Conditions (GetStatus2 p))) p.
End setters.

(** The loop of [GetRules] copies each rule and sets its scope. *)
Definition namespaced_rule2 (rule : RuleWithOperations) : RuleWithOperations :=
  mkRWO (rwo_Operations rule)
    (mkRule (r_APIGroups (rwo_Rule rule)) (r_APIVersions (rwo_Rule rule))
       (r_Resources (rwo_Rule rule)) (Some NamespacedScope)).

#[export] Instance AdmissionPolicy_Policy_v1alpha2 : PolicyI_v1alpha2 AdmissionPolicy_v1alpha2 := {
  GetObjectMeta2 := ap2_ObjectMeta;
  GetPolicyMode2 r := sp2_Mode (ap2_Spec r);
  GetModule2 r := sp2_Module (ap2_Spec r);
  IsMutating2 r := sp2_Mutating (ap2_Spec r);
  GetSettings2 r := sp2_Settings (ap2_Spec r);
  GetStatus2 := ap2_Status;
  SetStatusRecord2 s r :=
    mkAdmissionPolicy_v1alpha2 (ap2_TypeMeta r) (ap2_ObjectMeta r) (ap2_Spec r) s;
  GetSideEffects2 r := sp2_SideEffects (ap2_Spec r);
  GetRules2 r := namespaced_rule2 <$> sp2_Rules (ap2_Spec r);
  GetFailurePolicy2 r := sp2_FailurePolicy (ap2_Spec r);
  GetMatchPolicy2 r := sp2_MatchPolicy (ap2_Spec r);
  GetNamespaceSelector2 r :=
    Some (mkLabelSelector
            {[ "kubernetes.io/metadata.name" := om_Namespace (ap2_ObjectMeta r) ]} []);
  GetObjectSelector2 r := sp2_ObjectSelector (ap2_Spec r);
  GetTimeoutSeconds2 r := sp2_TimeoutSeconds (ap2_Spec r);
  GetPolicyServer2 r := sp2_PolicyServer (ap2_Spec r);
  GetUniqueName2 r :=
    "namespaced-" +:+ om_Namespace (ap2_ObjectMeta r) +:+ "-" +:+ om_Name (ap2_ObjectMeta r);
}.

#[export] Instance ClusterAdmissionPolicy_Policy_v1alpha2
    : PolicyI_v1alpha2 ClusterAdmissionPolicy_v1alpha2 := {
  GetObjectMeta2 := cap2_ObjectMeta;
  GetPolicyMode2 r := sp2_Mode (caps2_PolicySpec (cap2_Spec r));
  GetModule2 r := sp2_Module (caps2_PolicySpec (cap2_Spec r));
  IsMutating2 r := sp2_Mutating (caps2_PolicySpec (cap2_Spec r));
  GetSettings2 r := sp2_Settings (caps2_PolicySpec (cap2_Spec r));
  GetStatus2 := cap2_Status;
  SetStatusRecord2 s r :=
    mkClusterAdmissionPolicy_v1alpha2 (cap2_TypeMeta r) (cap2_ObjectMeta r) (cap2_Spec r) s;
  GetSideEffects2 r := sp2_SideEffects (caps2_PolicySpec (cap2_Spec r));
  GetRules2 r := sp2_Rules (caps2_PolicySpec (cap2_Spec r));
  GetFailurePolicy2 r := sp2_FailurePolicy (caps2_PolicySpec (cap2_Spec r));
  GetMatchPolicy2 r := sp2_MatchPolicy (caps2_PolicySpec (cap2_Spec r));
  GetNamespaceSelector2 r := caps2_NamespaceSelector (cap2_Spec r);
  GetObjectSelector2 r := sp2_ObjectSelector (caps2_PolicySpec (cap2_Spec r));
  GetTimeoutSeconds2 r := sp2_TimeoutSeconds (caps2_PolicySpec (cap2_Spec r));
  GetPolicyServer2 r := sp2_PolicyServer (caps2_PolicySpec (cap2_Spec r));
  GetUniqueName2 r := "clusterwide-" +:+ om_Name (cap2_ObjectMeta r);
}.

(** ** Policy servers *)

Record PolicyServerSpec_v1alpha2 := mkPolicyServerSpec_v1alpha2 {
  pspec2_Image : string;
  pspec2_Replicas : Z;
  pspec2_Annotations : option (gmap string string);
  pspec2_Env : list EnvVar;
  pspec2_ServiceAccountName : string;
  pspec2_ImagePullSecret : string;
  pspec2_InsecureSources : option (list string);
  pspec2_SourceAuthorities : gmap string (list string);
  pspec2_VerificationConfig : string;
}.
Record PolicyServerStatus_v1alpha2 := mkPolicyServerStatus_v1alpha2 {
  pstat2_Conditions : list Condition;
}.
Record PolicyServer_v1alpha2 := mkPolicyServer_v1alpha2 {
  psrv2_ObjectMeta : ObjectMeta;
  psrv2_Spec : PolicyServerSpec_v1alpha2;
  psrv2_Status : PolicyServerStatus_v1alpha2;
}.

Definition NameWithPrefix2 (ps : PolicyServer_v1alpha2) : string :=
  "policy-server-" +:+ om_Name (psrv2_ObjectMeta ps).
Definition AppLabel2 (ps : PolicyServer_v1alpha2) : string := "kubewarden-" +:+ NameWithPrefix2 ps.

(** ** The fields of v1 this version has *)

Definition shared_status (s : PolicyStatus) : PolicyStatus_v1alpha2 :=
  mkPolicyStatus_v1alpha2 (st_PolicyStatus s) (st_PolicyMode s) (st_Conditions s).
Definition shared_spec (s : PolicySpec) : PolicySpec_v1alpha2 :=
  mkPolicySpec_v1alpha2 (sp_PolicyServer s) (sp_Module s) (sp_Mode s) (sp_Settings s) (sp_Rules s)
    (sp_FailurePolicy s) (sp_Mutating s) (sp_MatchPolicy s) (sp_ObjectSelector s)
    (sp_SideEffects s) (sp_TimeoutSeconds s).
Definition shared_server (s : PolicyServerSpec) : PolicyServerSpec_v1alpha2 :=
  mkPolicyServerSpec_v1alpha2 (pspec_Image s) (pspec_Replicas s) (pspec_Annotations s)
    (pspec_Env s) (pspec_ServiceAccountName s) (pspec_ImagePullSecret s) (pspec_InsecureSources s)
    (pspec_SourceAuthorities s) (pspec_VerificationConfig s).

(** The API server's conversion to the storage version. *)
Class Conversion := {
  ap_to_v1 : AdmissionPolicy_v1alpha2 → AdmissionPolicy;
  cap_to_v1 : ClusterAdmissionPolicy_v1alpha2 → ClusterAdmissionPolicy;
  psrv_to_v1 : PolicyServer_v1alpha2 → PolicyServer;
}.
Class ConversionLaws `{Conversion} : Prop := {
  ap_meta p : ap_ObjectMeta (ap_to_v1 p) = ap2_ObjectMeta p;
  ap_spec p : shared_spec (ap_Spec (ap_to_v1 p)) = ap2_Spec p;
  ap_status p : shared_status (ap_Status (ap_to_v1 p)) = ap2_Status p;
  cap_meta p : cap_ObjectMeta (cap_to_v1 p) = cap2_ObjectMeta p;
  cap_spec p : shared_spec (caps_PolicySpec (cap_Spec (cap_to_v1 p))) = caps2_PolicySpec (cap2_Spec p);
  cap_selector p :
    caps_NamespaceSelector (cap_Spec (cap_to_v1 p)) = caps2_NamespaceSelector (cap2_Spec p);
  cap_status p : shared_status (cap_Status (cap_to_v1 p)) = cap2_Status p;
  psrv_meta ps : psrv_ObjectMeta (psrv_to_v1 ps) = psrv2_ObjectMeta ps;
  psrv_spec ps : shared_server (psrv_Spec (psrv_to_v1 ps)) = psrv2_Spec ps;
}.

(** ** The versions agree *)

(** Every method has the same answer. *)
Record agree {T2 T1} `{PolicyI_v1alpha2 T2, PolicyI T1} (p2 : T2) (p1 : T1) : Prop := {
  agree_meta : GetObjectMeta2 p2 = GetObjectMeta p1;
  agree_mode : GetPolicyMode2 p2 = GetPolicyMode p1;
  agree_module : GetModule2 p2 = GetModule p1;
  agree_mutating : IsMutating2 p2 = IsMutating p1;
  agree_settings : GetSettings2 p2 = GetSettings p1;
  agree_status : GetStatus2 p2 = shared_status (GetStatus p1);
  agree_effects : GetSideEffects2 p2 = GetSideEffects p1;
  agree_rules : GetRules2 p2 = GetRules p1;
  agree_failure : GetFailurePolicy2 p2 = GetFailurePolicy p1;
  agree_match : GetMatchPolicy2 p2 = GetMatchPolicy p1;
  agree_namespaces : GetNamespaceSelector2 p2 = GetNamespaceSelector p1;
  agree_objects : GetObjectSelector2 p2 = GetObjectSelector p1;
  agree_timeout : GetTimeoutSeconds2 p2 = GetTimeoutSeconds p1;
  agree_server : GetPolicyServer2 p2 = GetPolicyServer p1;
  agree_name : GetUniqueName2 p2 = GetUniqueName p1;
}.

(** A policy of the old version is the same policy in v1, whatever the kind:
    the same unique name, rules, selectors and status; a policy server has the
    same name and label. *)
Theorem versions_agree `{ConversionLaws} :
  (∀ p, agree p (ap_to_v1 p)) ∧ (∀ p, agree p (cap_to_v1 p)) ∧
  ∀ ps, NameWithPrefix2 ps = NameWithPrefix (psrv_to_v1 ps) ∧
        AppLabel2 ps = AppLabel (psrv_to_v1 ps).
Proof.
  split; [|split].
  - intros p. split; cbn;
      unfold AdmissionPolicy_GetRules, AdmissionPolicy_GetNamespaceSelector,
        AdmissionPolicy_GetUniqueName;
      rewrite <-?ap_spec, <-?ap_meta, <-?ap_status; reflexivity.
  - intros p. split; cbn; unfold ClusterAdmissionPolicy_GetUniqueName;
      rewrite <-?cap_selector, <-?cap_spec, <-?cap_meta, <-?cap_status; reflexivity.
  - intros ps. unfold AppLabel2, NameWithPrefix2, AppLabel, NameWithPrefix, psrv_Name.
    by rewrite psrv_meta.
Qed.

(** ** A conversion *)

(** The fields of v1 alone at their defaults. *)
Definition spec_to_v1 (s : PolicySpec_v1alpha2) : PolicySpec :=
  mkPolicySpec (sp2_PolicyServer s) (sp2_Mode s) (sp2_Module s) (sp2_Settings s) (sp2_Rules s)
    (sp2_FailurePolicy s) (sp2_Mutating s) true (sp2_MatchPolicy s) [] (sp2_ObjectSelector s)
    (sp2_SideEffects s) (sp2_TimeoutSeconds s).
Definition status_to_v1 (s : PolicyStatus_v1alpha2) : PolicyStatus :=
  mkPolicyStatus (st2_PolicyStatus s) (st2_PolicyMode s) (st2_Conditions s).

Definition concrete_conversion : Conversion := {|
  ap_to_v1 p := mkAdmissionPolicy (ap2_TypeMeta p) (ap2_ObjectMeta p) (spec_to_v1 (ap2_Spec p))
    (status_to_v1 (ap2_Status p));
  cap_to_v1 p := mkClusterAdmissionPolicy (cap2_TypeMeta p) (cap2_ObjectMeta p)
    (mkClusterAdmissionPolicySpec (spec_to_v1 (caps2_PolicySpec (cap2_Spec p)))
       (caps2_NamespaceSelector (cap2_Spec p)) []) (status_to_v1 (cap2_Status p));
  psrv_to_v1 ps := mkPolicyServer (psrv2_ObjectMeta ps)
    (mkPolicyServerSpec (pspec2_Image (psrv2_Spec ps)) (pspec2_Replicas (psrv2_Spec ps)) None None
       (pspec2_Annotations (psrv2_Spec ps)) (pspec2_Env (psrv2_Spec ps))
       (pspec2_ServiceAccountName (psrv2_Spec ps)) (pspec2_ImagePullSecret (psrv2_Spec ps))
       (pspec2_InsecureSources (psrv2_Spec ps)) (pspec2_SourceAuthorities (psrv2_Spec ps))
       (pspec2_VerificationConfig (psrv2_Spec ps)) (mkPolicyServerSecurity None None) (JObj [])
       ∅ ∅ [])
    (mkPolicyServerStatus (pstat2_Conditions (psrv2_Status ps)));
|}.

Lemma concrete_conversion_laws : @ConversionLaws concrete_conversion.
Proof.
  split; try done.
  - by intros [? ? [] ?].
  - by intros [? ? ? []].
  - by intros [? ? [[] ?] ?].
  - by intros [? ? ? []].
  - by intros [? [] ?].
Qed.

Definition old_policy : AdmissionPolicy_v1alpha2 :=
  mkAdmissionPolicy_v1alpha2 (mkTypeMeta "policies.kubewarden.io/v1alpha2" "AdmissionPolicy")
    (named_meta "default" "p")
    (mkPolicySpec_v1alpha2 "default" "registry://policy" "protect" None
       [mkRWO ["CREATE"] (mkRule [""] ["v1"] ["pods"] None)] None false None None None (Some 10%Z))
    (mkPolicyStatus_v1alpha2 "" "" []).

Lemma versions_agree_witness :
  GetUniqueName (@ap_to_v1 concrete_conversion old_policy) = "namespaced-default-p".
Proof.
  destruct (@versions_agree concrete_conversion concrete_conversion_laws) as (Hap & _).
  rewrite <-(agree_name _ _ (Hap old_policy)). reflexivity.
Defined.
