(* ===== verification/DeepCopy.v ===== *)
(** * Deep copies ([api/policies/*/zz_generated.deepcopy.go])

    The controllers share the objects they read with a cache, and may change
    only copies of them: [getPolicies] returns copies, and the client copies
    every object it reads. A deep copy must hold the same data and share no
    memory with its original. The functions that make them are generated from
    the types, and out of date as soon as a field is added and they are not
    generated again; so here each type is written down with its fields, from
    *_types.go, next to the functions generated for it. *)

From S2P Require Import Prelude GoMemory Concrete.

(** ** Types of the Kubernetes API *)

Inductive ExternalType :=
| XTypeMeta | XObjectMeta | XListMeta | XLabelSelector | XRawExtension | XRuleWithOperations
| XMatchCondition | XCondition | XSecurityContext | XPodSecurityContext | XIntOrString | XEnvVar
| XAffinity | XQuantity | XToleration.

(** Their fields and [DeepCopyInto] ([DeepCopy] for the one that is copied by
    value, [XQuantity]). *)
Class ExternalTypes := {
  ext_type : ExternalType → Ty;
  ext_DeepCopyInto : ExternalType → Copier;
}.
(** Their deep copies are correct, and three of them are structs of strings
    and numbers, which the generated code copies by assignment. *)
Class ExternalTypesLaws `{ExternalTypes} := {
  ext_copies x : copies (ext_type x) (ext_DeepCopyInto x);
  ext_flat x : x = XTypeMeta ∨ x = XIntOrString ∨ x = XMatchCondition → flat (ext_type x) = true;
}.

(** ** The generated functions *)

(** A value of an interface: the dynamic type and the pointer, which may be
    [nil] in an interface that is not. *)
Record Dynamic := mkDynamic { dyn_type : string; dyn_ptr : option Loc }.

(** [DeepCopyObject]: [if c := in.DeepCopy(); c != nil { return c }; return nil]. *)
Definition as_object (type : string) (DeepCopy : option Loc → M Heap (option Loc))
    (src : option Loc) : M Heap (option Dynamic) :=
  c ← DeepCopy src;
  mret (match c with Some _ => Some (mkDynamic type c) | None => None end).
(** [CopyInto]: [*policy = r.DeepCopy()]. *)
Definition as_policy (type : string) (DeepCopy : option Loc → M Heap (option Loc))
    (src : option Loc) : M Heap Dynamic :=
  c ← DeepCopy src;
  mret (mkDynamic type c).

Section functions.
Context `{ExternalTypes, MapRange}.

(** The map of [SourceAuthorities], whose values are slices. *)
Definition copy_authorities : Copier := copy_map_loop (λ src out '(key, val),
  outVal ← match val with
           | VSlice None => store_key out key (VSlice None) ;; mret (VSlice None)
           | _ => m ← load_map src; copy_builtin (TBasic BString) (default (VSlice None) (m !! key))
           end;
  store_key out key outVal).

(** The functions of a map type, whose receiver is the map: [DeepCopyInto]
    makes a map even of [nil], over which it ranges without an iteration. *)
Definition copy_map_receiver (f : Copier) : Copier := λ v,
  match v with
  | VMap None => out ← alloc (CMap ∅); mret (VMap (Some out))
  | _ => copy_map f v
  end.
Definition deep_copy_map (into : Copier) : Copier := λ v,
  match v with
  | VMap None => mret (VMap None)
  | _ => out ← alloc (CVar (VMap None)); y ← into v; store out y ;; load out
  end.

(** *** api/policies/v1 *)

Definition ContextAwareResource_type : Ty := struct
  [("APIVersion", TBasic BString); ("Kind", TBasic BString)].
Definition ContextAwareResource_DeepCopyInto : Copier := copy_struct [].
Definition ContextAwareResource_DeepCopy : option Loc → M Heap (option Loc) :=
  deep_copy ContextAwareResource_type ContextAwareResource_DeepCopyInto.

Definition PolicyStatus_type : Ty := struct
  [("PolicyStatus", TBasic BString); ("PolicyMode", TBasic BString);
   ("Conditions", TSlice (ext_type XCondition))].
Definition PolicyStatus_DeepCopyInto : Copier := copy_struct
  [("Conditions", copy_slice (ext_type XCondition) (ext_DeepCopyInto XCondition))].
Definition PolicyStatus_DeepCopy : option Loc → M Heap (option Loc) :=
  deep_copy PolicyStatus_type PolicyStatus_DeepCopyInto.

Definition PolicySpec_type : Ty := struct
  [("PolicyServer", TBasic BString); ("Mode", TBasic BString); ("Module", TBasic BString);
   ("Settings", ext_type XRawExtension); ("Rules", TSlice (ext_type XRuleWithOperations));
   ("FailurePolicy", TPtr (TBasic BString)); ("Mutating", TBasic BBool);
   ("BackgroundAudit", TBasic BBool); ("MatchPolicy", TPtr (TBasic BString));
   ("MatchConditions", TSlice (ext_type XMatchCondition));
   ("ObjectSelector", TPtr (ext_type XLabelSelector)); ("SideEffects", TPtr (TBasic BString));
   ("TimeoutSeconds", TPtr (TBasic BInt))].
Definition PolicySpec_DeepCopyInto : Copier := copy_struct
  [("Settings", ext_DeepCopyInto XRawExtension);
   ("Rules", copy_slice (ext_type XRuleWithOperations) (ext_DeepCopyInto XRuleWithOperations));
   ("FailurePolicy", copy_ptr (TBasic BString) assign);
   ("MatchPolicy", copy_ptr (TBasic BString) assign);
   ("MatchConditions", copy_builtin (ext_type XMatchCondition));
   ("ObjectSelector", copy_ptr (ext_type XLabelSelector) (ext_DeepCopyInto XLabelSelector));
   ("SideEffects", copy_ptr (TBasic BString) assign);
   ("TimeoutSeconds", copy_ptr (TBasic BInt) assign)].
Definition PolicySpec_DeepCopy : option Loc → M Heap (option Loc) :=
  deep_copy PolicySpec_type PolicySpec_DeepCopyInto.

Definition AdmissionPolicySpec_type : Ty := struct
  [("PolicySpec", PolicySpec_type)].
Definition AdmissionPolicySpec_DeepCopyInto : Copier := copy_struct
  [("PolicySpec", PolicySpec_DeepCopyInto)].
Definition AdmissionPolicySpec_DeepCopy : option Loc → M Heap (option Loc) :=
  deep_copy AdmissionPolicySpec_type AdmissionPolicySpec_DeepCopyInto.

Definition AdmissionPolicy_type : Ty := struct
  [("TypeMeta", ext_type XTypeMeta); ("ObjectMeta", ext_type XObjectMeta);
   ("Spec", AdmissionPolicySpec_type); ("Status", PolicyStatus_type)].
Definition AdmissionPolicy_DeepCopyInto : Copier := copy_struct
  [("TypeMeta", assign); ("ObjectMeta", ext_DeepCopyInto XObjectMeta);
   ("Spec", AdmissionPolicySpec_DeepCopyInto); ("Status", PolicyStatus_DeepCopyInto)].
Definition AdmissionPolicy_DeepCopy : option Loc → M Heap (option Loc) :=
  deep_copy AdmissionPolicy_type AdmissionPolicy_DeepCopyInto.
Definition AdmissionPolicy_DeepCopyObject : option Loc → M Heap (option Dynamic) :=
  as_object "AdmissionPolicy" AdmissionPolicy_DeepCopy.
Definition AdmissionPolicy_CopyInto : option Loc → M Heap Dynamic :=
  as_policy "AdmissionPolicy" AdmissionPolicy_DeepCopy.

Definition AdmissionPolicyList_type : Ty := struct
  [("TypeMeta", ext_type XTypeMeta); ("ListMeta", ext_type XListMeta);
   ("Items", TSlice AdmissionPolicy_type)].
Definition AdmissionPolicyList_DeepCopyInto : Copier := copy_struct
  [("TypeMeta", assign); ("ListMeta", ext_DeepCopyInto XListMeta);
   ("Items", copy_slice AdmissionPolicy_type AdmissionPolicy_DeepCopyInto)].
Definition AdmissionPolicyList_DeepCopy : option Loc → M Heap (option Loc) :=
  deep_copy AdmissionPolicyList_type AdmissionPolicyList_DeepCopyInto.
Definition AdmissionPolicyList_DeepCopyObject : option Loc → M Heap (option Dynamic) :=
  as_object "AdmissionPolicyList" AdmissionPolicyList_DeepCopy.

Definition ClusterAdmissionPolicySpec_type : Ty := struct
  [("PolicySpec", PolicySpec_type); ("NamespaceSelector", TPtr (ext_type XLabelSelector));
   ("ContextAwareResources", TSlice ContextAwareResource_type)].
Definition ClusterAdmissionPolicySpec_DeepCopyInto : Copier := copy_struct
  [("PolicySpec", PolicySpec_DeepCopyInto);
   ("NamespaceSelector", copy_ptr (ext_type XLabelSelector) (ext_DeepCopyInto XLabelSelector));
   ("ContextAwareResources", copy_builtin ContextAwareResource_type)].
Definition ClusterAdmissionPolicySpec_DeepCopy : option Loc → M Heap (option Loc) :=
  deep_copy ClusterAdmissionPolicySpec_type ClusterAdmissionPolicySpec_DeepCopyInto.

Definition ClusterAdmissionPolicy_type : Ty := struct
  [("TypeMeta", ext_type XTypeMeta); ("ObjectMeta", ext_type XObjectMeta);
   ("Spec", ClusterAdmissionPolicySpec_type); ("Status", PolicyStatus_type)].
Definition ClusterAdmissionPolicy_DeepCopyInto : Copier := copy_struct
  [("TypeMeta", assign); ("ObjectMeta", ext_DeepCopyInto XObjectMeta);
   ("Spec", ClusterAdmissionPolicySpec_DeepCopyInto); ("Status", PolicyStatus_DeepCopyInto)].
Definition ClusterAdmissionPolicy_DeepCopy : option Loc → M Heap (option Loc) :=
  deep_copy ClusterAdmissionPolicy_type ClusterAdmissionPolicy_DeepCopyInto.
Definition ClusterAdmissionPolicy_DeepCopyObject : option Loc → M Heap (option Dynamic) :=
  as_object "ClusterAdmissionPolicy" ClusterAdmissionPolicy_DeepCopy.
Definition ClusterAdmissionPolicy_CopyInto : option Loc → M Heap Dynamic :=
  as_policy "ClusterAdmissionPolicy" ClusterAdmissionPolicy_DeepCopy.

Definition ClusterAdmissionPolicyList_type : Ty := struct
  [("TypeMeta", ext_type XTypeMeta); ("ListMeta", ext_type XListMeta);
   ("Items", TSlice ClusterAdmissionPolicy_type)].
Definition ClusterAdmissionPolicyList_DeepCopyInto : Copier := copy_struct
  [("TypeMeta", assign); ("ListMeta", ext_DeepCopyInto XListMeta);
   ("Items", copy_slice ClusterAdmissionPolicy_type ClusterAdmissionPolicy_DeepCopyInto)].
Definition ClusterAdmissionPolicyList_DeepCopy : option Loc → M Heap (option Loc) :=
  deep_copy ClusterAdmissionPolicyList_type ClusterAdmissionPolicyList_DeepCopyInto.
Definition ClusterAdmissionPolicyList_DeepCopyObject : option Loc → M Heap (option Dynamic) :=
  as_object "ClusterAdmissionPolicyList" ClusterAdmissionPolicyList_DeepCopy.

(** Groups. The members of a group are a map of structs; each is copied by
    [*val.DeepCopy()] of the loop variable. *)

Definition PolicyGroupMember_type : Ty := struct
  [("Module", TBasic BString); ("Settings", ext_type XRawExtension)].
Definition PolicyGroupMember_DeepCopyInto : Copier := copy_struct
  [("Settings", ext_DeepCopyInto XRawExtension)].
Definition PolicyGroupMember_DeepCopy : option Loc → M Heap (option Loc) :=
  deep_copy PolicyGroupMember_type PolicyGroupMember_DeepCopyInto.

Definition PolicyGroupMemberWithContext_type : Ty := struct
  [("PolicyGroupMember", PolicyGroupMember_type);
   ("ContextAwareResources", TSlice ContextAwareResource_type)].
Definition PolicyGroupMemberWithContext_DeepCopyInto : Copier := copy_struct
  [("PolicyGroupMember", PolicyGroupMember_DeepCopyInto);
   ("ContextAwareResources", copy_builtin ContextAwareResource_type)].
Definition PolicyGroupMemberWithContext_DeepCopy : option Loc → M Heap (option Loc) :=
  deep_copy PolicyGroupMemberWithContext_type PolicyGroupMemberWithContext_DeepCopyInto.

Definition PolicyGroupMembers_type : Ty := TMap PolicyGroupMember_type.
Definition PolicyGroupMembers_DeepCopyInto : Copier :=
  copy_map_receiver (by_DeepCopy PolicyGroupMember_DeepCopy).
Definition PolicyGroupMembers_DeepCopy : Copier := deep_copy_map PolicyGroupMembers_DeepCopyInto.

Definition PolicyGroupMembersWithContext_type : Ty := TMap PolicyGroupMemberWithContext_type.
Definition PolicyGroupMembersWithContext_DeepCopyInto : Copier :=
  copy_map_receiver (by_DeepCopy PolicyGroupMemberWithContext_DeepCopy).
Definition PolicyGroupMembersWithContext_DeepCopy : Copier := deep_copy_map PolicyGroupMembersWithContext_DeepCopyInto.

Definition GroupSpec_type : Ty := struct
  [("PolicyServer", TBasic BString); ("Mode", TBasic BString);
   ("Rules", TSlice (ext_type XRuleWithOperations)); ("FailurePolicy", TPtr (TBasic BString));
   ("BackgroundAudit", TBasic BBool); ("MatchPolicy", TPtr (TBasic BString));
   ("MatchConditions", TSlice (ext_type XMatchCondition));
   ("ObjectSelector", TPtr (ext_type XLabelSelector)); ("SideEffects", TPtr (TBasic BString));
   ("TimeoutSeconds", TPtr (TBasic BInt)); ("Expression", TBasic BString);
   ("Message", TBasic BString)].
Definition GroupSpec_DeepCopyInto : Copier := copy_struct
  [("Rules", copy_slice (ext_type XRuleWithOperations) (ext_DeepCopyInto XRuleWithOperations));
   ("FailurePolicy", copy_ptr (TBasic BString) assign);
   ("MatchPolicy", copy_ptr (TBasic BString) assign);
   ("MatchConditions", copy_builtin (ext_type XMatchCondition));
   ("ObjectSelector", copy_ptr (ext_type XLabelSelector) (ext_DeepCopyInto XLabelSelector));
   ("SideEffects", copy_ptr (TBasic BString) assign);
   ("TimeoutSeconds", copy_ptr (TBasic BInt) assign)].
Definition GroupSpec_DeepCopy : option Loc → M Heap (option Loc) :=
  deep_copy GroupSpec_type GroupSpec_DeepCopyInto.

Definition PolicyGroupSpec_type : Ty := struct
  [("GroupSpec", GroupSpec_type); ("Policies", PolicyGroupMembers_type)].
Definition PolicyGroupSpec_DeepCopyInto : Copier := copy_struct
  [("GroupSpec", GroupSpec_DeepCopyInto);
   ("Policies", copy_map (by_DeepCopy PolicyGroupMember_DeepCopy))].
Definition PolicyGroupSpec_DeepCopy : option Loc → M Heap (option Loc) :=
  deep_copy PolicyGroupSpec_type PolicyGroupSpec_DeepCopyInto.

Definition AdmissionPolicyGroupSpec_type : Ty := struct
  [("PolicyGroupSpec", PolicyGroupSpec_type)].
Definition AdmissionPolicyGroupSpec_DeepCopyInto : Copier := copy_struct
  [("PolicyGroupSpec", PolicyGroupSpec_DeepCopyInto)].
Definition AdmissionPolicyGroupSpec_DeepCopy : option Loc → M Heap (option Loc) :=
  deep_copy AdmissionPolicyGroupSpec_type AdmissionPolicyGroupSpec_DeepCopyInto.

Definition AdmissionPolicyGroup_type : Ty := struct
  [("TypeMeta", ext_type XTypeMeta); ("ObjectMeta", ext_type XObjectMeta);
   ("Spec", AdmissionPolicyGroupSpec_type); ("Status", PolicyStatus_type)].
Definition AdmissionPolicyGroup_DeepCopyInto : Copier := copy_struct
  [("TypeMeta", assign); ("ObjectMeta", ext_DeepCopyInto XObjectMeta);
   ("Spec", AdmissionPolicyGroupSpec_DeepCopyInto); ("Status", PolicyStatus_DeepCopyInto)].
Definition AdmissionPolicyGroup_DeepCopy : option Loc → M Heap (option Loc) :=
  deep_copy AdmissionPolicyGroup_type AdmissionPolicyGroup_DeepCopyInto.
Definition AdmissionPolicyGroup_DeepCopyObject : option Loc → M Heap (option Dynamic) :=
  as_object "AdmissionPolicyGroup" AdmissionPolicyGroup_DeepCopy.
Definition AdmissionPolicyGroup_CopyInto : option Loc → M Heap Dynamic :=
  as_policy "AdmissionPolicyGroup" AdmissionPolicyGroup_DeepCopy.

Definition AdmissionPolicyGroupList_type : Ty := struct
  [("TypeMeta", ext_type XTypeMeta); ("ListMeta", ext_type XListMeta);
   ("Items", TSlice AdmissionPolicyGroup_type)].
Definition AdmissionPolicyGroupList_DeepCopyInto : Copier := copy_struct
  [("TypeMeta", assign); ("ListMeta", ext_DeepCopyInto XListMeta);
   ("Items", copy_slice AdmissionPolicyGroup_type AdmissionPolicyGroup_DeepCopyInto)].
Definition AdmissionPolicyGroupList_DeepCopy : option Loc → M Heap (option Loc) :=
  deep_copy AdmissionPolicyGroupList_type AdmissionPolicyGroupList_DeepCopyInto.
Definition AdmissionPolicyGroupList_DeepCopyObject : option Loc → M Heap (option Dynamic) :=
  as_object "AdmissionPolicyGroupList" AdmissionPolicyGroupList_DeepCopy.

Definition ClusterPolicyGroupSpec_type : Ty := struct
  [("GroupSpec", GroupSpec_type); ("Policies", PolicyGroupMembersWithContext_type)].
Definition ClusterPolicyGroupSpec_DeepCopyInto : Copier := copy_struct
  [("GroupSpec", GroupSpec_DeepCopyInto);
   ("Policies", copy_map (by_DeepCopy PolicyGroupMemberWithContext_DeepCopy))].
Definition ClusterPolicyGroupSpec_DeepCopy : option Loc → M Heap (option Loc) :=
  deep_copy ClusterPolicyGroupSpec_type ClusterPolicyGroupSpec_DeepCopyInto.

Definition ClusterAdmissionPolicyGroupSpec_type : Ty := struct
  [("ClusterPolicyGroupSpec", ClusterPolicyGroupSpec_type);
   ("NamespaceSelector", TPtr (ext_type XLabelSelector))].
Definition ClusterAdmissionPolicyGroupSpec_DeepCopyInto : Copier := copy_struct
  [("ClusterPolicyGroupSpec", ClusterPolicyGroupSpec_DeepCopyInto);
   ("NamespaceSelector", copy_ptr (ext_type XLabelSelector) (ext_DeepCopyInto XLabelSelector))].
Definition ClusterAdmissionPolicyGroupSpec_DeepCopy : option Loc → M Heap (option Loc) :=
  deep_copy ClusterAdmissionPolicyGroupSpec_type ClusterAdmissionPolicyGroupSpec_DeepCopyInto.

Definition ClusterAdmissionPolicyGroup_type : Ty := struct
  [("TypeMeta", ext_type XTypeMeta); ("ObjectMeta", ext_type XObjectMeta);
   ("Spec", ClusterAdmissionPolicyGroupSpec_type); ("Status", PolicyStatus_type)].
Definition ClusterAdmissionPolicyGroup_DeepCopyInto : Copier := copy_struct
  [("TypeMeta", assign); ("ObjectMeta", ext_DeepCopyInto XObjectMeta);
   ("Spec", ClusterAdmissionPolicyGroupSpec_DeepCopyInto);
   ("Status", PolicyStatus_DeepCopyInto)].
Definition ClusterAdmissionPolicyGroup_DeepCopy : option Loc → M Heap (option Loc) :=
  deep_copy ClusterAdmissionPolicyGroup_type ClusterAdmissionPolicyGroup_DeepCopyInto.
Definition ClusterAdmissionPolicyGroup_DeepCopyObject : option Loc → M Heap (option Dynamic) :=
  as_object "ClusterAdmissionPolicyGroup" ClusterAdmissionPolicyGroup_DeepCopy.
Definition ClusterAdmissionPolicyGroup_CopyInto : option Loc → M Heap Dynamic :=
  as_policy "ClusterAdmissionPolicyGroup" ClusterAdmissionPolicyGroup_DeepCopy.

Definition ClusterAdmissionPolicyGroupList_type : Ty := struct
  [("TypeMeta", ext_type XTypeMeta); ("ListMeta", ext_type XListMeta);
   ("Items", TSlice ClusterAdmissionPolicyGroup_type)].
Definition ClusterAdmissionPolicyGroupList_DeepCopyInto : Copier := copy_struct
  [("TypeMeta", assign); ("ListMeta", ext_DeepCopyInto XListMeta);
   ("Items", copy_slice ClusterAdmissionPolicyGroup_type ClusterAdmissionPolicyGroup_DeepCopyInto)].
Definition ClusterAdmissionPolicyGroupList_DeepCopy : option Loc → M Heap (option Loc) :=
  deep_copy ClusterAdmissionPolicyGroupList_type ClusterAdmissionPolicyGroupList_DeepCopyInto.
Definition ClusterAdmissionPolicyGroupList_DeepCopyObject : option Loc → M Heap (option Dynamic) :=
  as_object "ClusterAdmissionPolicyGroupList" ClusterAdmissionPolicyGroupList_DeepCopy.

(** Policy servers. *)

Definition PolicyServerSecurity_type : Ty := struct
  [("Container", TPtr (ext_type XSecurityContext));
   ("Pod", TPtr (ext_type XPodSecurityContext))].
Definition PolicyServerSecurity_DeepCopyInto : Copier := copy_struct
  [("Container", copy_ptr (ext_type XSecurityContext) (ext_DeepCopyInto XSecurityContext));
   ("Pod", copy_ptr (ext_type XPodSecurityContext) (ext_DeepCopyInto XPodSecurityContext))].
Definition PolicyServerSecurity_DeepCopy : option Loc → M Heap (option Loc) :=
  deep_copy PolicyServerSecurity_type PolicyServerSecurity_DeepCopyInto.

Definition PolicyServerSpec_type : Ty := struct
  [("Image", TBasic BString); ("Replicas", TBasic BInt);
   ("MinAvailable", TPtr (ext_type XIntOrString));
   ("MaxUnavailable", TPtr (ext_type XIntOrString)); ("Annotations", TMap (TBasic BString));
   ("Env", TSlice (ext_type XEnvVar)); ("ServiceAccountName", TBasic BString);
   ("ImagePullSecret", TBasic BString); ("InsecureSources", TSlice (TBasic BString));
   ("SourceAuthorities", TMap (TSlice (TBasic BString)));
   ("VerificationConfig", TBasic BString); ("SecurityContexts", PolicyServerSecurity_type);
   ("Affinity", ext_type XAffinity); ("Limits", TMap (ext_type XQuantity));
   ("Requests", TMap (ext_type XQuantity)); ("Tolerations", TSlice (ext_type XToleration))].
Definition PolicyServerSpec_DeepCopyInto : Copier := copy_struct
  [("MinAvailable", copy_ptr (ext_type XIntOrString) assign);
   ("MaxUnavailable", copy_ptr (ext_type XIntOrString) assign);
   ("Annotations", copy_map assign);
   ("Env", copy_slice (ext_type XEnvVar) (ext_DeepCopyInto XEnvVar));
   ("InsecureSources", copy_builtin (TBasic BString)); ("SourceAuthorities", copy_authorities);
   ("SecurityContexts", PolicyServerSecurity_DeepCopyInto);
   ("Affinity", ext_DeepCopyInto XAffinity); ("Limits", copy_map (ext_DeepCopyInto XQuantity));
   ("Requests", copy_map (ext_DeepCopyInto XQuantity));
   ("Tolerations", copy_slice (ext_type XToleration) (ext_DeepCopyInto XToleration))].
Definition PolicyServerSpec_DeepCopy : option Loc → M Heap (option Loc) :=
  deep_copy PolicyServerSpec_type PolicyServerSpec_DeepCopyInto.

Definition PolicyServerStatus_type : Ty := struct
  [("Conditions", TSlice (ext_type XCondition))].
Definition PolicyServerStatus_DeepCopyInto : Copier := copy_struct
  [("Conditions", copy_slice (ext_type XCondition) (ext_DeepCopyInto XCondition))].
Definition PolicyServerStatus_DeepCopy : option Loc → M Heap (option Loc) :=
  deep_copy PolicyServerStatus_type PolicyServerStatus_DeepCopyInto.

Definition PolicyServer_type : Ty := struct
  [("TypeMeta", ext_type XTypeMeta); ("ObjectMeta", ext_type XObjectMeta);
   ("Spec", PolicyServerSpec_type); ("Status", PolicyServerStatus_type)].
Definition PolicyServer_DeepCopyInto : Copier := copy_struct
  [("TypeMeta", assign); ("ObjectMeta", ext_DeepCopyInto XObjectMeta);
   ("Spec", PolicyServerSpec_DeepCopyInto); ("Status", PolicyServerStatus_DeepCopyInto)].
Definition PolicyServer_DeepCopy : option Loc → M Heap (option Loc) :=
  deep_copy PolicyServer_type PolicyServer_DeepCopyInto.
Definition PolicyServer_DeepCopyObject : option Loc → M Heap (option Dynamic) :=
  as_object "PolicyServer" PolicyServer_DeepCopy.

Definition PolicyServerList_type : Ty := struct
  [("TypeMeta", ext_type XTypeMeta); ("ListMeta", ext_type XListMeta);
   ("Items", TSlice PolicyServer_type)].
Definition PolicyServerList_DeepCopyInto : Copier := copy_struct
  [("TypeMeta", assign); ("ListMeta", ext_DeepCopyInto XListMeta);
   ("Items", copy_slice PolicyServer_type PolicyServer_DeepCopyInto)].
Definition PolicyServerList_DeepCopy : option Loc → M Heap (option Loc) :=
  deep_copy PolicyServerList_type PolicyServerList_DeepCopyInto.
Definition PolicyServerList_DeepCopyObject : option Loc → M Heap (option Dynamic) :=
  as_object "PolicyServerList" PolicyServerList_DeepCopy.

(** *** api/policies/v1alpha2 *)

Definition PolicyStatus_v1alpha2_type : Ty := struct
  [("PolicyStatus", TBasic BString); ("PolicyMode", TBasic BString);
   ("Conditions", TSlice (ext_type XCondition))].
Definition PolicyStatus_v1alpha2_DeepCopyInto : Copier := copy_struct
  [("Conditions", copy_slice (ext_type XCondition) (ext_DeepCopyInto XCondition))].
Definition PolicyStatus_v1alpha2_DeepCopy : option Loc → M Heap (option Loc) :=
  deep_copy PolicyStatus_v1alpha2_type PolicyStatus_v1alpha2_DeepCopyInto.

Definition PolicySpec_v1alpha2_type : Ty := struct
  [("PolicyServer", TBasic BString); ("Module", TBasic BString); ("Mode", TBasic BString);
   ("Settings", ext_type XRawExtension); ("Rules", TSlice (ext_type XRuleWithOperations));
   ("FailurePolicy", TPtr (TBasic BString)); ("Mutating", TBasic BBool);
   ("MatchPolicy", TPtr (TBasic BString)); ("ObjectSelector", TPtr (ext_type XLabelSelector));
   ("SideEffects", TPtr (TBasic BString)); ("TimeoutSeconds", TPtr (TBasic BInt))].
Definition PolicySpec_v1alpha2_DeepCopyInto : Copier := copy_struct
  [("Settings", ext_DeepCopyInto XRawExtension);
   ("Rules", copy_slice (ext_type XRuleWithOperations) (ext_DeepCopyInto XRuleWithOperations));
   ("FailurePolicy", copy_ptr (TBasic BString) assign);
   ("MatchPolicy", copy_ptr (TBasic BString) assign);
   ("ObjectSelector", copy_ptr (ext_type XLabelSelector) (ext_DeepCopyInto XLabelSelector));
   ("SideEffects", copy_ptr (TBasic BString) assign);
   ("TimeoutSeconds", copy_ptr (TBasic BInt) assign)].
Definition PolicySpec_v1alpha2_DeepCopy : option Loc → M Heap (option Loc) :=
  deep_copy PolicySpec_v1alpha2_type PolicySpec_v1alpha2_DeepCopyInto.

Definition AdmissionPolicySpec_v1alpha2_type : Ty := struct
  [("PolicySpec", PolicySpec_v1alpha2_type)].
Definition AdmissionPolicySpec_v1alpha2_DeepCopyInto : Copier := copy_struct
  [("PolicySpec", PolicySpec_v1alpha2_DeepCopyInto)].
Definition AdmissionPolicySpec_v1alpha2_DeepCopy : option Loc → M Heap (option Loc) :=
  deep_copy AdmissionPolicySpec_v1alpha2_type AdmissionPolicySpec_v1alpha2_DeepCopyInto.

Definition AdmissionPolicy_v1alpha2_type : Ty := struct
  [("TypeMeta", ext_type XTypeMeta); ("ObjectMeta", ext_type XObjectMeta);
   ("Spec", AdmissionPolicySpec_v1alpha2_type); ("Status", PolicyStatus_v1alpha2_type)].
Definition AdmissionPolicy_v1alpha2_DeepCopyInto : Copier := copy_struct
  [("TypeMeta", assign); ("ObjectMeta", ext_DeepCopyInto XObjectMeta);
   ("Spec", AdmissionPolicySpec_v1alpha2_DeepCopyInto);
   ("Status", PolicyStatus_v1alpha2_DeepCopyInto)].
Definition AdmissionPolicy_v1alpha2_DeepCopy : option Loc → M Heap (option Loc) :=
  deep_copy AdmissionPolicy_v1alpha2_type AdmissionPolicy_v1alpha2_DeepCopyInto.
Definition AdmissionPolicy_v1alpha2_DeepCopyObject : option Loc → M Heap (option Dynamic) :=
  as_object "AdmissionPolicy" AdmissionPolicy_v1alpha2_DeepCopy.
Definition AdmissionPolicy_v1alpha2_CopyInto : option Loc → M Heap Dynamic :=
  as_policy "AdmissionPolicy" AdmissionPolicy_v1alpha2_DeepCopy.

Definition AdmissionPolicyList_v1alpha2_type : Ty := struct
  [("TypeMeta", ext_type XTypeMeta); ("ListMeta", ext_type XListMeta);
   ("Items", TSlice AdmissionPolicy_v1alpha2_type)].
Definition AdmissionPolicyList_v1alpha2_DeepCopyInto : Copier := copy_struct
  [("TypeMeta", assign); ("ListMeta", ext_DeepCopyInto XListMeta);
   ("Items", copy_slice AdmissionPolicy_v1alpha2_type AdmissionPolicy_v1alpha2_DeepCopyInto)].
Definition AdmissionPolicyList_v1alpha2_DeepCopy : option Loc → M Heap (option Loc) :=
  deep_copy AdmissionPolicyList_v1alpha2_type AdmissionPolicyList_v1alpha2_DeepCopyInto.
Definition AdmissionPolicyList_v1alpha2_DeepCopyObject : option Loc → M Heap (option Dynamic) :=
  as_object "AdmissionPolicyList" AdmissionPolicyList_v1alpha2_DeepCopy.

Definition ClusterAdmissionPolicySpec_v1alpha2_type : Ty := struct
  [("PolicySpec", PolicySpec_v1alpha2_type);
   ("NamespaceSelector", TPtr (ext_type XLabelSelector))].
Definition ClusterAdmissionPolicySpec_v1alpha2_DeepCopyInto : Copier := copy_struct
  [("PolicySpec", PolicySpec_v1alpha2_DeepCopyInto);
   ("NamespaceSelector", copy_ptr (ext_type XLabelSelector) (ext_DeepCopyInto XLabelSelector))].
Definition ClusterAdmissionPolicySpec_v1alpha2_DeepCopy : option Loc → M Heap (option Loc) :=
  deep_copy ClusterAdmissionPolicySpec_v1alpha2_type ClusterAdmissionPolicySpec_v1alpha2_DeepCopyInto.

Definition ClusterAdmissionPolicy_v1alpha2_type : Ty := struct
  [("TypeMeta", ext_type XTypeMeta); ("ObjectMeta", ext_type XObjectMeta);
   ("Spec", ClusterAdmissionPolicySpec_v1alpha2_type); ("Status", PolicyStatus_v1alpha2_type)].
Definition ClusterAdmissionPolicy_v1alpha2_DeepCopyInto : Copier := copy_struct
  [("TypeMeta", assign); ("ObjectMeta", ext_DeepCopyInto XObjectMeta);
   ("Spec", ClusterAdmissionPolicySpec_v1alpha2_DeepCopyInto);
   ("Status", PolicyStatus_v1alpha2_DeepCopyInto)].
Definition ClusterAdmissionPolicy_v1alpha2_DeepCopy : option Loc → M Heap (option Loc) :=
  deep_copy ClusterAdmissionPolicy_v1alpha2_type ClusterAdmissionPolicy_v1alpha2_DeepCopyInto.
Definition ClusterAdmissionPolicy_v1alpha2_DeepCopyObject : option Loc → M Heap (option Dynamic) :=
  as_object "ClusterAdmissionPolicy" ClusterAdmissionPolicy_v1alpha2_DeepCopy.
Definition ClusterAdmissionPolicy_v1alpha2_CopyInto : option Loc → M Heap Dynamic :=
  as_policy "ClusterAdmissionPolicy" ClusterAdmissionPolicy_v1alpha2_DeepCopy.

Definition ClusterAdmissionPolicyList_v1alpha2_type : Ty := struct
  [("TypeMeta", ext_type XTypeMeta); ("ListMeta", ext_type XListMeta);
   ("Items", TSlice ClusterAdmissionPolicy_v1alpha2_type)].
Definition ClusterAdmissionPolicyList_v1alpha2_DeepCopyInto : Copier := copy_struct
  [("TypeMeta", assign); ("ListMeta", ext_DeepCopyInto XListMeta);
   ("Items", copy_slice ClusterAdmissionPolicy_v1alpha2_type ClusterAdmissionPolicy_v1alpha2_DeepCopyInto)].
Definition ClusterAdmissionPolicyList_v1alpha2_DeepCopy : option Loc → M Heap (option Loc) :=
  deep_copy ClusterAdmissionPolicyList_v1alpha2_type ClusterAdmissionPolicyList_v1alpha2_DeepCopyInto.
Definition ClusterAdmissionPolicyList_v1alpha2_DeepCopyObject : option Loc → M Heap (option Dynamic) :=
  as_object "ClusterAdmissionPolicyList" ClusterAdmissionPolicyList_v1alpha2_DeepCopy.

Definition PolicyServerSpec_v1alpha2_type : Ty := struct
  [("Image", TBasic BString); ("Replicas", TBasic BInt);
   ("Annotations", TMap (TBasic BString)); ("Env", TSlice (ext_type XEnvVar));
   ("ServiceAccountName", TBasic BString); ("ImagePullSecret", TBasic BString);
   ("InsecureSources", TSlice (TBasic BString));
   ("SourceAuthorities", TMap (TSlice (TBasic BString)));
   ("VerificationConfig", TBasic BString)].
Definition PolicyServerSpec_v1alpha2_DeepCopyInto : Copier := copy_struct
  [("Annotations", copy_map assign);
   ("Env", copy_slice (ext_type XEnvVar) (ext_DeepCopyInto XEnvVar));
   ("InsecureSources", copy_builtin (TBasic BString));
   ("SourceAuthorities", copy_authorities)].
Definition PolicyServerSpec_v1alpha2_DeepCopy : option Loc → M Heap (option Loc) :=
  deep_copy PolicyServerSpec_v1alpha2_type PolicyServerSpec_v1alpha2_DeepCopyInto.

Definition PolicyServerStatus_v1alpha2_type : Ty := struct
  [("Conditions", TSlice (ext_type XCondition))].
Definition PolicyServerStatus_v1alpha2_DeepCopyInto : Copier := copy_struct
  [("Conditions", copy_slice (ext_type XCondition) (ext_DeepCopyInto XCondition))].
Definition PolicyServerStatus_v1alpha2_DeepCopy : option Loc → M Heap (option Loc) :=
  deep_copy PolicyServerStatus_v1alpha2_type PolicyServerStatus_v1alpha2_DeepCopyInto.

Definition PolicyServer_v1alpha2_type : Ty := struct
  [("TypeMeta", ext_type XTypeMeta); ("ObjectMeta", ext_type XObjectMeta);
   ("Spec", PolicyServerSpec_v1alpha2_type); ("Status", PolicyServerStatus_v1alpha2_type)].
Definition PolicyServer_v1alpha2_DeepCopyInto : Copier := copy_struct
  [("TypeMeta", assign); ("ObjectMeta", ext_DeepCopyInto XObjectMeta);
   ("Spec", PolicyServerSpec_v1alpha2_DeepCopyInto);
   ("Status", PolicyServerStatus_v1alpha2_DeepCopyInto)].
Definition PolicyServer_v1alpha2_DeepCopy : option Loc → M Heap (option Loc) :=
  deep_copy PolicyServer_v1alpha2_type PolicyServer_v1alpha2_DeepCopyInto.
Definition PolicyServer_v1alpha2_DeepCopyObject : option Loc → M Heap (option Dynamic) :=
  as_object "PolicyServer" PolicyServer_v1alpha2_DeepCopy.

Definition PolicyServerList_v1alpha2_type : Ty := struct
  [("TypeMeta", ext_type XTypeMeta); ("ListMeta", ext_type XListMeta);
   ("Items", TSlice PolicyServer_v1alpha2_type)].
Definition PolicyServerList_v1alpha2_DeepCopyInto : Copier := copy_struct
  [("TypeMeta", assign); ("ListMeta", ext_DeepCopyInto XListMeta);
   ("Items", copy_slice PolicyServer_v1alpha2_type PolicyServer_v1alpha2_DeepCopyInto)].
Definition PolicyServerList_v1alpha2_DeepCopy : option Loc → M Heap (option Loc) :=
  deep_copy PolicyServerList_v1alpha2_type PolicyServerList_v1alpha2_DeepCopyInto.
Definition PolicyServerList_v1alpha2_DeepCopyObject : option Loc → M Heap (option Dynamic) :=
  as_object "PolicyServerList" PolicyServerList_v1alpha2_DeepCopy.

(** *** All of them *)

Definition deepcopies : list (string * Ty * (option Loc → M Heap (option Loc))) :=
  [("v1.ContextAwareResource", ContextAwareResource_type, ContextAwareResource_DeepCopy);
   ("v1.PolicyStatus", PolicyStatus_type, PolicyStatus_DeepCopy);
   ("v1.PolicySpec", PolicySpec_type, PolicySpec_DeepCopy);
   ("v1.AdmissionPolicySpec", AdmissionPolicySpec_type, AdmissionPolicySpec_DeepCopy);
   ("v1.AdmissionPolicy", AdmissionPolicy_type, AdmissionPolicy_DeepCopy);
   ("v1.AdmissionPolicyList", AdmissionPolicyList_type, AdmissionPolicyList_DeepCopy);
   ("v1.ClusterAdmissionPolicySpec", ClusterAdmissionPolicySpec_type, ClusterAdmissionPolicySpec_DeepCopy);
   ("v1.ClusterAdmissionPolicy", ClusterAdmissionPolicy_type, ClusterAdmissionPolicy_DeepCopy);
   ("v1.ClusterAdmissionPolicyList", ClusterAdmissionPolicyList_type, ClusterAdmissionPolicyList_DeepCopy);
   ("v1.PolicyGroupMember", PolicyGroupMember_type, PolicyGroupMember_DeepCopy);
   ("v1.PolicyGroupMemberWithContext", PolicyGroupMemberWithContext_type, PolicyGroupMemberWithContext_DeepCopy);
   ("v1.GroupSpec", GroupSpec_type, GroupSpec_DeepCopy);
   ("v1.PolicyGroupSpec", PolicyGroupSpec_type, PolicyGroupSpec_DeepCopy);
   ("v1.AdmissionPolicyGroupSpec", AdmissionPolicyGroupSpec_type, AdmissionPolicyGroupSpec_DeepCopy);
   ("v1.AdmissionPolicyGroup", AdmissionPolicyGroup_type, AdmissionPolicyGroup_DeepCopy);
   ("v1.AdmissionPolicyGroupList", AdmissionPolicyGroupList_type, AdmissionPolicyGroupList_DeepCopy);
   ("v1.ClusterPolicyGroupSpec", ClusterPolicyGroupSpec_type, ClusterPolicyGroupSpec_DeepCopy);
   ("v1.ClusterAdmissionPolicyGroupSpec", ClusterAdmissionPolicyGroupSpec_type, ClusterAdmissionPolicyGroupSpec_DeepCopy);
   ("v1.ClusterAdmissionPolicyGroup", ClusterAdmissionPolicyGroup_type, ClusterAdmissionPolicyGroup_DeepCopy);
   ("v1.ClusterAdmissionPolicyGroupList", ClusterAdmissionPolicyGroupList_type, ClusterAdmissionPolicyGroupList_DeepCopy);
   ("v1.PolicyServerSecurity", PolicyServerSecurity_type, PolicyServerSecurity_DeepCopy);
   ("v1.PolicyServerSpec", PolicyServerSpec_type, PolicyServerSpec_DeepCopy);
   ("v1.PolicyServerStatus", PolicyServerStatus_type, PolicyServerStatus_DeepCopy);
   ("v1.PolicyServer", PolicyServer_type, PolicyServer_DeepCopy);
   ("v1.PolicyServerList", PolicyServerList_type, PolicyServerList_DeepCopy);
   ("v1alpha2.PolicyStatus", PolicyStatus_v1alpha2_type, PolicyStatus_v1alpha2_DeepCopy);
   ("v1alpha2.PolicySpec", PolicySpec_v1alpha2_type, PolicySpec_v1alpha2_DeepCopy);
   ("v1alpha2.AdmissionPolicySpec", AdmissionPolicySpec_v1alpha2_type, AdmissionPolicySpec_v1alpha2_DeepCopy);
   ("v1alpha2.AdmissionPolicy", AdmissionPolicy_v1alpha2_type, AdmissionPolicy_v1alpha2_DeepCopy);
   ("v1alpha2.AdmissionPolicyList", AdmissionPolicyList_v1alpha2_type, AdmissionPolicyList_v1alpha2_DeepCopy);
   ("v1alpha2.ClusterAdmissionPolicySpec", ClusterAdmissionPolicySpec_v1alpha2_type, ClusterAdmissionPolicySpec_v1alpha2_DeepCopy);
   ("v1alpha2.ClusterAdmissionPolicy", ClusterAdmissionPolicy_v1alpha2_type, ClusterAdmissionPolicy_v1alpha2_DeepCopy);
   ("v1alpha2.ClusterAdmissionPolicyList", ClusterAdmissionPolicyList_v1alpha2_type, ClusterAdmissionPolicyList_v1alpha2_DeepCopy);
   ("v1alpha2.PolicyServerSpec", PolicyServerSpec_v1alpha2_type, PolicyServerSpec_v1alpha2_DeepCopy);
   ("v1alpha2.PolicyServerStatus", PolicyServerStatus_v1alpha2_type, PolicyServerStatus_v1alpha2_DeepCopy);
   ("v1alpha2.PolicyServer", PolicyServer_v1alpha2_type, PolicyServer_v1alpha2_DeepCopy);
   ("v1alpha2.PolicyServerList", PolicyServerList_v1alpha2_type, PolicyServerList_v1alpha2_DeepCopy)].
(** The two map types, which are copied by value: their methods have no
    pointer receiver. *)
Definition deepcopy_maps : list (string * Ty * Copier) :=
  [("v1.PolicyGroupMembers", PolicyGroupMembers_type, PolicyGroupMembers_DeepCopy);
   ("v1.PolicyGroupMembersWithContext", PolicyGroupMembersWithContext_type,
    PolicyGroupMembersWithContext_DeepCopy)].
Definition deepcopy_objects : list (string * Ty * (option Loc → M Heap (option Dynamic))) :=
  [("AdmissionPolicy", AdmissionPolicy_type, AdmissionPolicy_DeepCopyObject);
   ("AdmissionPolicyList", AdmissionPolicyList_type, AdmissionPolicyList_DeepCopyObject);
   ("ClusterAdmissionPolicy", ClusterAdmissionPolicy_type, ClusterAdmissionPolicy_DeepCopyObject);
   ("ClusterAdmissionPolicyList", ClusterAdmissionPolicyList_type, ClusterAdmissionPolicyList_DeepCopyObject);
   ("AdmissionPolicyGroup", AdmissionPolicyGroup_type, AdmissionPolicyGroup_DeepCopyObject);
   ("AdmissionPolicyGroupList", AdmissionPolicyGroupList_type, AdmissionPolicyGroupList_DeepCopyObject);
   ("ClusterAdmissionPolicyGroup", ClusterAdmissionPolicyGroup_type, ClusterAdmissionPolicyGroup_DeepCopyObject);
   ("ClusterAdmissionPolicyGroupList", ClusterAdmissionPolicyGroupList_type, ClusterAdmissionPolicyGroupList_DeepCopyObject);
   ("PolicyServer", PolicyServer_type, PolicyServer_DeepCopyObject);
   ("PolicyServerList", PolicyServerList_type, PolicyServerList_DeepCopyObject);
   ("AdmissionPolicy", AdmissionPolicy_v1alpha2_type, AdmissionPolicy_v1alpha2_DeepCopyObject);
   ("AdmissionPolicyList", AdmissionPolicyList_v1alpha2_type, AdmissionPolicyList_v1alpha2_DeepCopyObject);
   ("ClusterAdmissionPolicy", ClusterAdmissionPolicy_v1alpha2_type, ClusterAdmissionPolicy_v1alpha2_DeepCopyObject);
   ("ClusterAdmissionPolicyList", ClusterAdmissionPolicyList_v1alpha2_type, ClusterAdmissionPolicyList_v1alpha2_DeepCopyObject);
   ("PolicyServer", PolicyServer_v1alpha2_type, PolicyServer_v1alpha2_DeepCopyObject);
   ("PolicyServerList", PolicyServerList_v1alpha2_type, PolicyServerList_v1alpha2_DeepCopyObject)].
Definition policy_copies : list (string * Ty * (option Loc → M Heap Dynamic)) :=
  [("AdmissionPolicy", AdmissionPolicy_type, AdmissionPolicy_CopyInto);
   ("ClusterAdmissionPolicy", ClusterAdmissionPolicy_type, ClusterAdmissionPolicy_CopyInto);
   ("AdmissionPolicyGroup", AdmissionPolicyGroup_type, AdmissionPolicyGroup_CopyInto);
   ("ClusterAdmissionPolicyGroup", ClusterAdmissionPolicyGroup_type, ClusterAdmissionPolicyGroup_CopyInto);
   ("AdmissionPolicy", AdmissionPolicy_v1alpha2_type, AdmissionPolicy_v1alpha2_CopyInto);
   ("ClusterAdmissionPolicy", ClusterAdmissionPolicy_v1alpha2_type, ClusterAdmissionPolicy_v1alpha2_CopyInto)].
End functions.

(** ** Correctness *)

Ltac copies_field :=
  first
    [ apply ext_copies
    | apply copies_builtin; first [reflexivity | apply ext_flat; tauto]
    | apply copies_slice; copies_field
    | apply copies_ptr; copies_field
    | apply copies_by_DeepCopy; copies_field
    | apply copies_map; copies_field
    | apply copies_flat; first [reflexivity | apply ext_flat; tauto]
    | solve [auto with copies] ].
(** Every field of a struct type with a reference is copied. *)
Ltac copies_struct :=
  apply copies_struct;
    [ repeat first
        [ apply covers_end
        | apply covers_copied; [copies_field|]
        | apply covers_flat; [reflexivity|] ]
    | apply (bool_decide_unpack _); vm_compute; exact I ].
(** Each entry of a table. *)
Ltac copies_table :=
  repeat (apply Forall_cons; split;
    [cbn [fst snd]; eexists; split; [|reflexivity]; auto with copies|]);
  by apply Forall_nil.
Create HintDb copies discriminated.
#[export] Hint Constants Opaque : copies.

Section correctness.
Context `{ExternalTypes, !ExternalTypesLaws, MapRange}.

Lemma copies_authorities : copies (TMap (TSlice (TBasic BString))) copy_authorities.
Proof.
  apply copies_map_loop. intros h0 b n l out Hl Hty Hout Hb k x h n' Hk Hsub Hold Ho.
  destruct (copied_at _ _ h0 b h x (copies_builtin (TBasic BString) eq_refl) (Hty _ _ Hk) Hsub Hold)
    as (y & h1 & Hrun & Hh1 & Hy).
  assert (load_map l h = (Ok n, h)) as Hload
    by (unfold load_map; by rewrite (lookup_weaken _ _ _ _ Hl Hsub)).
  destruct (decide (x = VSlice None)) as [->|Hx].
  - injection Hrun as <- <-. exists (VSlice None), h. split_and!; [|done..].
    rewrite (bind_run _ _ h (VSlice None) (<[out := CMap (<[k := VSlice None]> n')]> h)).
    + rewrite (store_key_run _ _ _ (<[k := VSlice None]> n')) by apply lookup_insert_eq.
      by rewrite insert_insert_eq, insert_insert_eq.
    + by rewrite (bind_run _ _ _ _ _ (store_key_run _ _ _ _ _ Ho)).
  - exists y, h1. split_and!; [|done..].
    rewrite (bind_run _ _ h y h1).
    + apply store_key_run. by eapply lookup_weaken.
    + destruct x as [| | | |[s|]|]; try done;
        rewrite (bind_run _ _ _ _ _ Hload); cbn; rewrite Hk; exact Hrun.
Qed.
#[local] Hint Resolve copies_authorities : copies.
Lemma copies_ContextAwareResource : copies ContextAwareResource_type ContextAwareResource_DeepCopyInto.
Proof. copies_struct. Qed.
#[local] Hint Resolve copies_ContextAwareResource : copies.
Lemma copies_PolicyStatus : copies PolicyStatus_type PolicyStatus_DeepCopyInto.
Proof. copies_struct. Qed.
#[local] Hint Resolve copies_PolicyStatus : copies.
Lemma copies_PolicySpec : copies PolicySpec_type PolicySpec_DeepCopyInto.
Proof. copies_struct. Qed.
#[local] Hint Resolve copies_PolicySpec : copies.
Lemma copies_AdmissionPolicySpec : copies AdmissionPolicySpec_type AdmissionPolicySpec_DeepCopyInto.
Proof. copies_struct. Qed.
#[local] Hint Resolve copies_AdmissionPolicySpec : copies.
Lemma copies_AdmissionPolicy : copies AdmissionPolicy_type AdmissionPolicy_DeepCopyInto.
Proof. copies_struct. Qed.
#[local] Hint Resolve copies_AdmissionPolicy : copies.
Lemma copies_AdmissionPolicyList : copies AdmissionPolicyList_type AdmissionPolicyList_DeepCopyInto.
Proof. copies_struct. Qed.
#[local] Hint Resolve copies_AdmissionPolicyList : copies.
Lemma copies_ClusterAdmissionPolicySpec : copies ClusterAdmissionPolicySpec_type ClusterAdmissionPolicySpec_DeepCopyInto.
Proof. copies_struct. Qed.
#[local] Hint Resolve copies_ClusterAdmissionPolicySpec : copies.
Lemma copies_ClusterAdmissionPolicy : copies ClusterAdmissionPolicy_type ClusterAdmissionPolicy_DeepCopyInto.
Proof. copies_struct. Qed.
#[local] Hint Resolve copies_ClusterAdmissionPolicy : copies.
Lemma copies_ClusterAdmissionPolicyList : copies ClusterAdmissionPolicyList_type ClusterAdmissionPolicyList_DeepCopyInto.
Proof. copies_struct. Qed.
#[local] Hint Resolve copies_ClusterAdmissionPolicyList : copies.
Lemma copies_PolicyGroupMember : copies PolicyGroupMember_type PolicyGroupMember_DeepCopyInto.
Proof. copies_struct. Qed.
#[local] Hint Resolve copies_PolicyGroupMember : copies.
Lemma copies_PolicyGroupMemberWithContext : copies PolicyGroupMemberWithContext_type PolicyGroupMemberWithContext_DeepCopyInto.
Proof. copies_struct. Qed.
#[local] Hint Resolve copies_PolicyGroupMemberWithContext : copies.
Lemma copies_GroupSpec : copies GroupSpec_type GroupSpec_DeepCopyInto.
Proof. copies_struct. Qed.
#[local] Hint Resolve copies_GroupSpec : copies.
Lemma copies_PolicyGroupSpec : copies PolicyGroupSpec_type PolicyGroupSpec_DeepCopyInto.
Proof. copies_struct. Qed.
#[local] Hint Resolve copies_PolicyGroupSpec : copies.
Lemma copies_AdmissionPolicyGroupSpec : copies AdmissionPolicyGroupSpec_type AdmissionPolicyGroupSpec_DeepCopyInto.
Proof. copies_struct. Qed.
#[local] Hint Resolve copies_AdmissionPolicyGroupSpec : copies.
Lemma copies_AdmissionPolicyGroup : copies AdmissionPolicyGroup_type AdmissionPolicyGroup_DeepCopyInto.
Proof. copies_struct. Qed.
#[local] Hint Resolve copies_AdmissionPolicyGroup : copies.
Lemma copies_AdmissionPolicyGroupList : copies AdmissionPolicyGroupList_type AdmissionPolicyGroupList_DeepCopyInto.
Proof. copies_struct. Qed.
#[local] Hint Resolve copies_AdmissionPolicyGroupList : copies.
Lemma copies_ClusterPolicyGroupSpec : copies ClusterPolicyGroupSpec_type ClusterPolicyGroupSpec_DeepCopyInto.
Proof. copies_struct. Qed.
#[local] Hint Resolve copies_ClusterPolicyGroupSpec : copies.
Lemma copies_ClusterAdmissionPolicyGroupSpec : copies ClusterAdmissionPolicyGroupSpec_type ClusterAdmissionPolicyGroupSpec_DeepCopyInto.
Proof. copies_struct. Qed.
#[local] Hint Resolve copies_ClusterAdmissionPolicyGroupSpec : copies.
Lemma copies_ClusterAdmissionPolicyGroup : copies ClusterAdmissionPolicyGroup_type ClusterAdmissionPolicyGroup_DeepCopyInto.
Proof. copies_struct. Qed.
#[local] Hint Resolve copies_ClusterAdmissionPolicyGroup : copies.
Lemma copies_ClusterAdmissionPolicyGroupList : copies ClusterAdmissionPolicyGroupList_type ClusterAdmissionPolicyGroupList_DeepCopyInto.
Proof. copies_struct. Qed.
#[local] Hint Resolve copies_ClusterAdmissionPolicyGroupList : copies.
Lemma copies_PolicyServerSecurity : copies PolicyServerSecurity_type PolicyServerSecurity_DeepCopyInto.
Proof. copies_struct. Qed.
#[local] Hint Resolve copies_PolicyServerSecurity : copies.
Lemma copies_PolicyServerSpec : copies PolicyServerSpec_type PolicyServerSpec_DeepCopyInto.
Proof. copies_struct. Qed.
#[local] Hint Resolve copies_PolicyServerSpec : copies.
Lemma copies_PolicyServerStatus : copies PolicyServerStatus_type PolicyServerStatus_DeepCopyInto.
Proof. copies_struct. Qed.
#[local] Hint Resolve copies_PolicyServerStatus : copies.
Lemma copies_PolicyServer : copies PolicyServer_type PolicyServer_DeepCopyInto.
Proof. copies_struct. Qed.
#[local] Hint Resolve copies_PolicyServer : copies.
Lemma copies_PolicyServerList : copies PolicyServerList_type PolicyServerList_DeepCopyInto.
Proof. copies_struct. Qed.
#[local] Hint Resolve copies_PolicyServerList : copies.

Lemma copies_PolicyStatus_v1alpha2 : copies PolicyStatus_v1alpha2_type PolicyStatus_v1alpha2_DeepCopyInto.
Proof. copies_struct. Qed.
#[local] Hint Resolve copies_PolicyStatus_v1alpha2 : copies.
Lemma copies_PolicySpec_v1alpha2 : copies PolicySpec_v1alpha2_type PolicySpec_v1alpha2_DeepCopyInto.
Proof. copies_struct. Qed.
#[local] Hint Resolve copies_PolicySpec_v1alpha2 : copies.
Lemma copies_AdmissionPolicySpec_v1alpha2 : copies AdmissionPolicySpec_v1alpha2_type AdmissionPolicySpec_v1alpha2_DeepCopyInto.
Proof. copies_struct. Qed.
#[local] Hint Resolve copies_AdmissionPolicySpec_v1alpha2 : copies.
Lemma copies_AdmissionPolicy_v1alpha2 : copies AdmissionPolicy_v1alpha2_type AdmissionPolicy_v1alpha2_DeepCopyInto.
Proof. copies_struct. Qed.
#[local] Hint Resolve copies_AdmissionPolicy_v1alpha2 : copies.
Lemma copies_AdmissionPolicyList_v1alpha2 : copies AdmissionPolicyList_v1alpha2_type AdmissionPolicyList_v1alpha2_DeepCopyInto.
Proof. copies_struct. Qed.
#[local] Hint Resolve copies_AdmissionPolicyList_v1alpha2 : copies.
Lemma copies_ClusterAdmissionPolicySpec_v1alpha2 : copies ClusterAdmissionPolicySpec_v1alpha2_type ClusterAdmissionPolicySpec_v1alpha2_DeepCopyInto.
Proof. copies_struct. Qed.
#[local] Hint Resolve copies_ClusterAdmissionPolicySpec_v1alpha2 : copies.
Lemma copies_ClusterAdmissionPolicy_v1alpha2 : copies ClusterAdmissionPolicy_v1alpha2_type ClusterAdmissionPolicy_v1alpha2_DeepCopyInto.
Proof. copies_struct. Qed.
#[local] Hint Resolve copies_ClusterAdmissionPolicy_v1alpha2 : copies.
Lemma copies_ClusterAdmissionPolicyList_v1alpha2 : copies ClusterAdmissionPolicyList_v1alpha2_type ClusterAdmissionPolicyList_v1alpha2_DeepCopyInto.
Proof. copies_struct. Qed.
#[local] Hint Resolve copies_ClusterAdmissionPolicyList_v1alpha2 : copies.
Lemma copies_PolicyServerSpec_v1alpha2 : copies PolicyServerSpec_v1alpha2_type PolicyServerSpec_v1alpha2_DeepCopyInto.
Proof. copies_struct. Qed.
#[local] Hint Resolve copies_PolicyServerSpec_v1alpha2 : copies.
Lemma copies_PolicyServerStatus_v1alpha2 : copies PolicyServerStatus_v1alpha2_type PolicyServerStatus_v1alpha2_DeepCopyInto.
Proof. copies_struct. Qed.
#[local] Hint Resolve copies_PolicyServerStatus_v1alpha2 : copies.
Lemma copies_PolicyServer_v1alpha2 : copies PolicyServer_v1alpha2_type PolicyServer_v1alpha2_DeepCopyInto.
Proof. copies_struct. Qed.
#[local] Hint Resolve copies_PolicyServer_v1alpha2 : copies.
Lemma copies_PolicyServerList_v1alpha2 : copies PolicyServerList_v1alpha2_type PolicyServerList_v1alpha2_DeepCopyInto.
Proof. copies_struct. Qed.
#[local] Hint Resolve copies_PolicyServerList_v1alpha2 : copies.


(** *** Maps *)

Lemma copies_deep_copy_map t f : copies t f → copies (TMap t) (deep_copy_map (copy_map_receiver f)).
Proof.
  intros Hf h v Hv. destruct v as [| | | | |[l|]]; try done.
  2:{ exists (VMap None), h. split_and!; [done..|]. split; [done|]. by intros l []. }
  destruct (alloc_run (CVar (VMap None)) h) as (out & Halloc & Hout).
  set (h1 := <[out := CVar (VMap None)]> h) in *.
  assert (h ⊆ h1) as Hsub by by apply insert_subseteq.
  destruct (copied_at _ _ h h1 h1 _ (copies_map t f Hf) Hv Hsub) as (y & h2 & Hrun & Hh2 & Hy);
    [by intros l'|].
  assert (h2 !! out = Some (CVar (VMap None))) as Ho
    by (eapply lookup_weaken; [apply lookup_insert_eq|done]).
  exists y, (<[out := CVar y]> h2). split_and!.
  - unfold deep_copy_map. rewrite (bind_run _ _ _ _ _ Halloc). cbn [copy_map_receiver].
    rewrite (bind_run _ _ _ _ _ Hrun), (bind_run _ _ _ _ _ (store_run _ _ _ _ Ho)).
    apply load_run, lookup_insert_eq.
  - apply insert_subseteq_r; [done|]. by trans h1.
  - apply (made_base _ _ h1); [intros l' Hl'; by apply lookup_insert_None in Hl' as [? _]|].
    apply made_update; [|done]. unfold h1. rewrite lookup_insert_eq. by eexists.
Qed.
Lemma copies_PolicyGroupMembers : copies PolicyGroupMembers_type PolicyGroupMembers_DeepCopy.
Proof. apply copies_deep_copy_map. copies_field. Qed.
Lemma copies_PolicyGroupMembersWithContext :
  copies PolicyGroupMembersWithContext_type PolicyGroupMembersWithContext_DeepCopy.
Proof. apply copies_deep_copy_map. copies_field. Qed.

(** *** The theorems *)

Lemma deepcopies_copy name t f :
  (name, t, f) ∈ deepcopies → ∃ into, copies t into ∧ f = deep_copy t into.
Proof.
  intros Hin. assert (Forall (λ e, ∃ into, copies e.1.2 into ∧ e.2 = deep_copy e.1.2 into) deepcopies)
    as Hall by (unfold deepcopies; copies_table).
  exact (proj1 (Forall_forall _ _) Hall _ Hin).
Qed.
Lemma deepcopy_maps_copy name t f : (name, t, f) ∈ deepcopy_maps → copies t f.
Proof.
  intros [[= _ -> ->]|[[= _ -> ->]|[]%elem_of_nil]%elem_of_cons]%elem_of_cons;
    [apply copies_PolicyGroupMembers|apply copies_PolicyGroupMembersWithContext].
Qed.
Lemma deepcopy_objects_copy name t f :
  (name, t, f) ∈ deepcopy_objects → ∃ into, copies t into ∧ f = as_object name (deep_copy t into).
Proof.
  intros Hin. assert (Forall (λ e, ∃ into, copies e.1.2 into ∧ e.2 = as_object e.1.1 (deep_copy e.1.2 into))
    deepcopy_objects) as Hall
    by (unfold deepcopy_objects; copies_table).
  exact (proj1 (Forall_forall _ _) Hall _ Hin).
Qed.
Lemma policy_copies_copy name t f :
  (name, t, f) ∈ policy_copies → ∃ into, copies t into ∧ f = as_policy name (deep_copy t into).
Proof.
  intros Hin. assert (Forall (λ e, ∃ into, copies e.1.2 into ∧ e.2 = as_policy e.1.1 (deep_copy e.1.2 into))
    policy_copies) as Hall
    by (unfold policy_copies; copies_table).
  exact (proj1 (Forall_forall _ _) Hall _ Hin).
Qed.

Lemma deep_copy_independent t into p h :
  copies t into → well_typed (TPtr t) h (VPtr p) →
  ∃ q h', deep_copy t into p h = (Ok q, h') ∧ h ⊆ h' ∧ independent (TPtr t) h (VPtr p) h' (VPtr q).
Proof.
  intros Hc Hp. destruct (copies_deep_copy t into p h Hc Hp) as (q & h' & Hrun & Hsub & Hm).
  exists q, h'. split_and!; [done..|]. by apply made_independent.
Qed.

(** (C33) [DeepCopy] of every type of the two API versions, called with a pointer
    to a well-formed value or with [nil] (the two map types: with a map, which
    may be [nil]), returns, changes no memory there was, and its result holds
    the same data and is independent of the original: whatever is then written
    to the one is not seen by the other. *)
Theorem DeepCopy_independent name t h :
  (∀ f p, (name, t, f) ∈ deepcopies → well_typed (TPtr t) h (VPtr p) →
     ∃ q h', f p h = (Ok q, h') ∧ h ⊆ h' ∧ independent (TPtr t) h (VPtr p) h' (VPtr q)) ∧
  (∀ f m, (name, t, f) ∈ deepcopy_maps → well_typed t h m →
     ∃ m' h', f m h = (Ok m', h') ∧ h ⊆ h' ∧ independent t h m h' m').
Proof.
  split.
  - intros f p (into & Hc & ->)%deepcopies_copy Hp. by apply deep_copy_independent.
  - intros f m Hf%deepcopy_maps_copy Hm.
    destruct (Hf h m Hm) as (m' & h' & Hrun & Hsub & Hmade).
    exists m', h'. split_and!; [done..|]. by apply made_independent.
Qed.

(** The copies that are returned as interfaces carry their type. Of a [nil]
    pointer, [DeepCopyObject] makes the [nil] interface, and [CopyInto] an
    interface that holds the [nil] pointer. *)
Theorem DeepCopyObject_independent name t p h :
  well_typed (TPtr t) h (VPtr p) →
  (∀ f, (name, t, f) ∈ deepcopy_objects →
     ∃ o h', f p h = (Ok o, h') ∧ (o = None ↔ p = None) ∧
       ∀ d, o = Some d → dyn_type d = name ∧ independent (TPtr t) h (VPtr p) h' (VPtr (dyn_ptr d))) ∧
  (∀ f, (name, t, f) ∈ policy_copies →
     ∃ d h', f p h = (Ok d, h') ∧ (dyn_ptr d = None ↔ p = None) ∧
       dyn_type d = name ∧ independent (TPtr t) h (VPtr p) h' (VPtr (dyn_ptr d))).
Proof.
  intros Hp.
  assert (∀ h' q, independent (TPtr t) h (VPtr p) h' (VPtr q) → (q = None ↔ p = None)) as Hnil
    by (intros h' q [Hs _]; by destruct p, q).
  split; intros f Hf.
  - apply deepcopy_objects_copy in Hf as (into & Hc & ->).
    destruct (deep_copy_independent t into p h Hc Hp) as (q & h' & Hrun & _ & Hi).
    unfold as_object. rewrite (bind_run _ _ _ _ _ Hrun). pose proof (Hnil _ _ Hi) as Hq.
    destruct q as [l|]; do 2 eexists; (split; [reflexivity|]); (split; [naive_solver|]).
    + by intros d [= <-].
    + done.
  - apply policy_copies_copy in Hf as (into & Hc & ->).
    destruct (deep_copy_independent t into p h Hc Hp) as (q & h' & Hrun & _ & Hi).
    unfold as_policy. rewrite (bind_run _ _ _ _ _ Hrun). exists (mkDynamic name q), h'.
    split_and!; [done|by eapply Hnil|done..].
Qed.
End correctness.

(** ** A concrete copy *)

Section witnesses.
(** Stand-ins for the types of the Kubernetes API, with strings, pointers,
    slices and maps where these have them, and the copies derived from them. *)
Definition strings : Ty := TSlice (TBasic BString).
Definition sample_types (x : ExternalType) : Ty :=
  match x with
  | XTypeMeta => struct [("Kind", TBasic BString); ("APIVersion", TBasic BString)]
  | XObjectMeta => struct [("Name", TBasic BString); ("Labels", TMap (TBasic BString));
      ("OwnerReferences", TSlice (struct [("Name", TBasic BString); ("Controller", TPtr (TBasic BBool))]));
      ("Finalizers", strings)]
  | XListMeta => struct [("ResourceVersion", TBasic BString); ("RemainingItemCount", TPtr (TBasic BInt))]
  | XLabelSelector => struct [("MatchLabels", TMap (TBasic BString));
      ("MatchExpressions", TSlice (struct [("Key", TBasic BString); ("Values", strings)]))]
  | XRawExtension => struct [("Raw", TSlice (TBasic BInt))]
  | XRuleWithOperations => struct [("Operations", strings); ("Rule", struct [("Resources", strings);
      ("Scope", TPtr (TBasic BString))])]
  | XMatchCondition => struct [("Name", TBasic BString); ("Expression", TBasic BString)]
  | XCondition => struct [("Type", TBasic BString); ("Status", TBasic BString)]
  | XSecurityContext | XPodSecurityContext => struct [("RunAsUser", TPtr (TBasic BInt))]
  | XIntOrString => struct [("Type", TBasic BInt); ("IntVal", TBasic BInt); ("StrVal", TBasic BString)]
  | XEnvVar => struct [("Name", TBasic BString); ("ValueFrom", TPtr (TBasic BString))]
  | XAffinity => struct [("PodAffinity", TPtr strings)]
  | XQuantity => struct [("i", TBasic BInt); ("d", TPtr (TBasic BInt))]
  | XToleration => struct [("Key", TBasic BString); ("TolerationSeconds", TPtr (TBasic BInt))]
  end.
#[local] Existing Instance concrete_range.
#[local] Instance sample_external : ExternalTypes := {
  ext_type := sample_types;
  ext_DeepCopyInto x := generic_copy (sample_types x);
}.
#[local] Instance sample_external_laws : ExternalTypesLaws.
Proof. split; [intros x; apply copies_generic|]. by intros x [->|[->| ->]]. Qed.

(** A policy with a condition, at the cell 1; its condition is in the array at
    the cell 2. *)
Definition sample_policy : Val :=
  set_field "Status"
    (set_field "Conditions" (VSlice (Some (mkSlice 2 0 1))) (zero PolicyStatus_type))
    (zero AdmissionPolicy_type).
Definition sample_heap : Heap :=
  {[ 1%positive := CVar sample_policy; 2%positive := CArr [zero (sample_types XCondition)] ]}.
Lemma sample_typed :
  well_typed (TPtr AdmissionPolicy_type) sample_heap (VPtr (Some 1%positive)).
Proof.
  exists sample_policy, sample_policy. split; [reflexivity|]. split; [reflexivity|].
  repeat split. eexists _, _. split; [reflexivity|]. split; [reflexivity|]. repeat constructor.
Qed.

(** Turning the condition of the original around leaves the copy as it is. *)
Lemma DeepCopy_independent_witness :
  ∃ q h', AdmissionPolicy_DeepCopy (Some 1%positive) sample_heap = (Ok q, h') ∧
    let h'' := <[2%positive := CArr []]> h' in
    same (TPtr AdmissionPolicy_type) sample_heap (VPtr (Some 1%positive)) h'' (VPtr q).
Proof.
  destruct (proj1 (DeepCopy_independent "v1.AdmissionPolicy" AdmissionPolicy_type sample_heap)
    AdmissionPolicy_DeepCopy (Some 1%positive) (list_elem_of_lookup_2 deepcopies 4 _ eq_refl)
    sample_typed)
    as (q & h' & Hrun & _ & _ & _ & Hi).
  exists q, h'. split; [exact Hrun|]. apply Hi. intros l Hl. apply lookup_insert_ne.
  intros <-. discriminate Hl.
Defined.

Lemma DeepCopyObject_independent_witness :
  ∃ h', AdmissionPolicy_DeepCopyObject None sample_heap = (Ok None, h').
Proof.
  destruct (DeepCopyObject_independent "AdmissionPolicy" AdmissionPolicy_type None sample_heap I)
    as [Ho _].
  destruct (Ho AdmissionPolicy_DeepCopyObject (list_elem_of_lookup_2 deepcopy_objects 0 _ eq_refl))
    as (o & h' & Hrun & Hnil & _).
  exists h'. rewrite <-(proj2 Hnil eq_refl). exact Hrun.
Defined.
End witnesses.
